(* ===== verification/_CoqProject ===== *)
-Q . S2P
Prelude.v
Memory.v
Machine.v
Runs.v
KernLock.v
FrameSource.v
NKern.v
NKernSmp.v
Heap.v
HeapSpec.v
HeapMem.v
HeapProof.v
HeapClient.v
HeapTheorems.v
HeapSmp.v
Memmap.v
MemmapParse.v
MemmapProof.v
MemmapTheorems.v
Paging.v
PagingSpec.v
PagingProof.v
PagingSpaces.v
PagingUser.v
PagingTheorems.v
AddressSpaces.v
Sched64.v
Sched64Spec.v
Sched64Proof.v
Sched64Run.v
Sched64Create.v
Sched64Theorems.v
Sched64Reach.v
SchedSlices.v
SchedSmp.v
Keyboard.v
KeyboardSmp.v
Terminal64.v
Terminal64Proof.v
Terminal64Theorems.v
Terminal64Smp.v
Terminal.v
Timer.v
Fpu.v
Gdt64.v
Gdt64Theorems.v
Acpi.v
AcpiTheorems.v
Apic.v
ApicTheorems.v
Idt.v
IdtTheorems.v
Sched.v
SchedTheorems.v
Main.v
HeapSelfTest.v
Threads64.v
Kernel64.v
Smp.v
SmpTheorems.v
Main64.v
Main64Theorems.v
Boot64.v
Boot64Theorems.v
X86.v
X86Stack.v
X86Run.v
Switch64.v
Isr.v
Usermode.v
Start64.v
Trampoline.v
Switch32.v
Ring3.v
UserProgram.v
