(* ===== verification/Prelude.v ===== *)
(** * The NEKA kernel: a verification of its C sources

    NEKA is a small x86 kernel in two builds.  The 64-bit one (src/main64.c, reached
    from GRUB through boot64.s or from UEFI firmware through uefi_main.c) has a
    preemptive scheduler on several CPUs, an address space per thread, a ring-3
    process, a heap and drivers; the 32-bit one (src/main.c) is its cooperative
    ancestor on one CPU.  This library models all of their C code and all of their
    assembly and proves what makes each part correct.

    ** The program and how its parts interact

    [kernel_main64] brings the parts up in order: FPU, page tables, console, GDT and
    IDT (init_cpu), firmware tables and interrupt controllers (init_interrupts), memory
    map and heap (init_memory), threads and the other CPUs (start_system), and enables
    interrupts last.  From then on the timer interrupt enters [interrupt_dispatch],
    which acknowledges it and calls [sched64_timer_tick]; when a slice is used up
    [sched64_reschedule] takes the kernel lock, turns the ring of the highest ready
    priority, loads the page tables of the next thread and switches stacks.  The heap
    is used under the same kernel lock; page tables are built from frames of the memory
    map, or from a static pool before the map is active.

    ** How the code is modelled

    - [Prelude]: C integers as [Z] with the wrap-around written out ([u8] to [u64],
      [i8], [i32]), hint databases and tactics, generic list lemmas.
    - [Memory]: physical memory as a byte per address, little-endian loads and stores.
      Structs the hardware or another component reads (page tables, descriptors, heap
      headers, firmware tables, stacks) are bytes of this memory at the offsets of the
      source; variables only the C code sees are fields of a record per component.
    - [Machine]: the effect monad.  A computation ends in [Done], in [Panic]
      (panic.c, [neka_panic]) or in [Hang] (a loop that never exits, a fault), and
      leaves a trace of events: text printed, port and device stores, privileged
      instructions.
    - [Runs]: program logics on this monad: [runs] (returns with a postcondition),
      [yields] (with the trace too), [only] (a property of every event of every run).
    - [X86]: the processor, for the assembly files: registers, segments, control
      registers, flags and modes as a record [cpu], the instructions the files use, and
      code as blocks of instructions at labels ([exec] runs a block, [reaches] follows
      jumps).  What the CPU refuses (a bad selector, paging without PAE, a return to an
      inner level) is [None], so a theorem that a state is reached excludes faults.
      [X86Stack] (pushes and pops as lists of words, what a C function preserves) and
      [X86Run] (one lemma per instruction, the code two files share).
    - Interfaces: [KernLock] is what heap.c relies on of the kernel lock, [FrameSource]
      what paging64.c relies on of the memory map, [AddressSpaces] what sched64.c relies
      on of paging64.c.  Clients are proved against the class; [NKern],
      [MemmapTheorems] and [AddressSpaces] hold the instances.

    ** Files, sources and theorems

    - nkern_lock.c: [NKern] (the operations run by one CPU), [NKernSmp] (all CPUs
      interleaved, with timer ticks and thread starts, as a step relation).  Mutual
      exclusion in every reachable state; nested sections restore the interrupt flag;
      when a deferred reschedule can and cannot be pending.
    - heap.c: [Heap] (the code), [HeapSpec] (a list of blocks and first fit on it, the
      representation invariant), [HeapMem] and [HeapProof] (simulation), [HeapClient]
      (histories of clients), [HeapTheorems].  [kmalloc] and [kfree] refine the
      list allocator on every branch; live allocations stay disjoint and keep their
      data; freeing everything in any order recovers the arena; double frees panic.
      [HeapSmp]: calls of all CPUs interleaved with the steps of the lock, a critical
      section reading at its beginning and writing at its end; the same safety holds.
      [HeapSelfTest] is [heap_self_test] of main64.c: it passes.
    - memmap.c: [Memmap], [MemmapParse] (both parsers against tables laid out in
      memory), [MemmapProof], [MemmapTheorems].  The allocator hands out exactly the
      list of usable frames, each once.
    - paging64.c: [Paging], [PagingSpec] (the x86-64 page walk, the specification of all
      page-table code), [PagingProof], [PagingSpaces], [PagingUser], [PagingTheorems].
      What the walk finds in the kernel map, after a device mapping, in a thread's space
      and in the ring-3 process; spaces created one after another stay isolated.
    - sched64.c: [Sched64], [Sched64Spec] (rings as lists and the
      invariant), [Sched64Proof], [Sched64Run], [Sched64Create], [Sched64Theorems].
      Reschedule, tick and thread creation refine the scheduler on lists; round robin.
      [Sched64Reach]: every history keeps the data well formed, and every operation
      returns.  [SchedSmp] (with [SchedSlices]): reschedules of all CPUs interleaved
      with ticks, which take no lock; a critical section has the effect of the whole
      reschedule at its end, and what the ticks may do to a slice.  A switch stores and loads stack pointers ([switch_to]);
      context_switch64.s: [Switch64] has the instructions: the caller is left suspended,
      the other thread goes on with its registers and flags, a thread switched away
      from and back to goes on unchanged, and a new thread is entered from the frame
      [sched64_create_thread] builds.
    - keyboard.c: [Keyboard].  The buffer is a bounded FIFO queue; the handler stays
      inside its tables for every byte.  [KeyboardSmp]: handler and reader interleaved
      access by access, without a lock; each call still takes effect at one access.
    - terminal64.c: [Terminal64], [Terminal64Proof] (the screen as one row of 2000
      cells), [Terminal64Theorems], [Terminal64Smp] (calls of [kprint] by all CPUs and
      their interrupt handlers interleaved: strings come out whole).  terminal.c:
      [Terminal], equal to the same screen.
    - timer.c, timer64.c: [Timer], against the 8259 and the 8254.  fpu.c: [Fpu].
    - gdt64.c: [Gdt64], [Gdt64Theorems].  idt.c: [Idt], [IdtTheorems]: gates as the CPU
      decodes them, and [interrupt_dispatch] with the components it calls.
    - isr.s: [Isr] (the delivery of an interrupt by the CPU, the stubs, the way back):
      [interrupt_dispatch] gets the interrupted state in its frame, and the interrupted
      code goes on unchanged.  usermode.s: [Usermode]: the way into ring 3, and the
      system call from there and back, through the stub and [interrupt_dispatch].
    - The ring-3 process, across paging64.c, usermode.s, gdt64.c, idt.c and isr.s:
      [Ring3] lets it run any code at all ([user_insn] is what one instruction may
      change, [ustep] adds interrupts and system calls) and shows that it stays confined
      to its two frames and cannot keep the kernel from being entered; [UserProgram]
      fetches the bytes of [user_program] through the page walk, decodes and runs them:
      the loop of system calls never faults and every call is answered and counted.
    - acpi.c: [Acpi], [AcpiTheorems]: both searches terminate with what the tables hold.
      apic.c: [Apic], [ApicTheorems].
    - sched.c: [Sched], [SchedTheorems] (by a translation to the state of
      sched64.c).  context_switch.s and boot.s: [Switch32].  main.c: [Main]: boot, then the alternation of the threads on the
      serial port.
    - main64.c: [Threads64] (the demo threads, their memory accesses through the page
      walk: what one thread writes no other thread sees), [Kernel64] (the state of the
      whole kernel and each component's part of it), [Main64] (the boot sequence, with
      [efi_main] of uefi_main.c), [Main64Theorems] (interrupts are enabled last, in every
      run; the threads of the boot; an evaluated boot), [Boot64] (each stage over the one
      memory, with where the linker puts the objects and what the stage leaves alone) and
      [Boot64Theorems] (the whole boot: it ends without a panic, and what every stage has
      built is intact when interrupts are enabled).
    - boot64.s: [Start64]: from the loader to [kernel_main64], with the page tables the
      kernel starts on.
    - smp.c: [Smp], [SmpTheorems]: what a started CPU finds loaded, on
      which stack, and which CPUs are started.  ap_trampoline.s: [Trampoline]: from the
      start-up interrupt to [ap_entry64], with what the mailbox says.

    ** Fuel and bounds

    Loops that are not structural run on fuel, and running out of it is [Hang], which
    the theorems exclude.  The walks of heap.c have 32769 steps: a block takes at least
    32 bytes of the 1 MB arena, so there are at most 32768 ([fuel_enough]).  The parsers
    have the length of their table plus one, since each step advances by at least a
    byte; with a stride or an entry length of zero the C loop does not end, and the
    model hangs ([memmap_parse_uefi_zero_stride], [acpi_zero_length_hangs]).
    [frame_fuel] of memmap.c counts the visits of each remaining region.  The search
    for a ring's end has 17 steps for at most 16 threads.  Waiting for a device is
    bounded by a number of polls that is a parameter: theorems assume that the device
    answers within it.  Endless loops ([for (;;)]) are modelled by a number of turns
    the theorems quantify over.

    ** Parameters

    What the devices and the firmware answer (line status, port 0x61, APIC identifiers
    and counters, CPUID, the UEFI boot services, which CPUs exist) and where the linker
    puts the image's objects are parameters, with what is needed of them as
    hypotheses.  What other threads do during a delay loop is a parameter too.

    ** Not modelled

    - The linker and build scripts, and the multiboot headers, which are data for them
      and for the loader.
    - The encoding of instructions: labels are addresses with the code the assembler
      puts there.  Of the flags only those that are stored and loaded, and the one JL
      looks at, are modelled; XMM registers are there, but no instruction uses them.
    - Delay loops, and the busy bit the CPU sets in a loaded task-segment descriptor.
    - The TLB, and the accessed and dirty bits the CPU sets in page-table entries: a walk
      sees the tables as they are in memory.
    - What the kernel itself writes while it serves the ring-3 process: [kernel_keeps]
      asks it to leave the process's tables, the descriptor tables and RSP0 alone.
    - The memory order of several CPUs: interleavings are sequentially consistent, at
      the grain of a step of the lock, of a character printed, or (the key buffer) of
      one access.  Scheduler, heap and
      page tables are sequential under the kernel lock; after an application processor
      has announced itself it runs concurrently only in [NKernSmp], [HeapSmp], [SchedSmp]
      and [Terminal64Smp].
    - Declarations, and the wrappers of single instructions ([inb], [cpuid], [rdmsr],
      [wrmsr], and [outb_smp] of smp.c, which nothing calls): what the devices answer is
      a parameter, what they are told is an event.

    ** Left aside

    Every function of the C sources and every assembly file has its definitions here.
    What the development does not reach lies outside of them: the layout of the image
    (the linker scripts) enters as hypotheses of disjointness and not as a computation,
    the step from C to instructions is the compiler's (the assembly files meet the C
    code at the calling convention, [abi_return]), and page tables are built before
    other CPUs run ([sched64_create_thread] and [create_user_process] are called at
    boot only), so their construction is not interleaved with anything. *)

From stdpp Require Export base list strings numbers option sets.
From Stdlib Require Export ZArith Lia.

#[global] Open Scope Z_scope.

(** ** Hint databases and tactics *)

(** [word] rewrites machine-width operations into arithmetic; [kernel] closes the
    routine well-formedness goals of the components. *)
Create HintDb word.
Create HintDb kernel.

(** Linear arithmetic where [/] and [mod] by literals occur. *)
Ltac dlia := Z.div_mod_to_equations; lia.

(** Split every boolean comparison a program branches on into its two cases. *)
Ltac case_cmp :=
  repeat match goal with
  | |- context [Z.eqb ?a ?b] => destruct (Z.eqb_spec a b)
  | |- context [Z.leb ?a ?b] => destruct (Z.leb_spec a b)
  | |- context [Z.ltb ?a ?b] => destruct (Z.ltb_spec a b)
  | |- context [Nat.eqb ?a ?b] => destruct (Nat.eqb_spec a b)
  | |- context [Nat.leb ?a ?b] => destruct (Nat.leb_spec a b)
  | |- context [Nat.ltb ?a ?b] => destruct (Nat.ltb_spec a b)
  end.

(** Break conjunctions and existentials of the context. *)
Ltac destr_and :=
  repeat match goal with
  | H : _ /\ _ |- _ => destruct H
  | H : exists _, _ |- _ => destruct H
  end.

(** ** Machine-width integers

    A C unsigned value of width [w] is a [Z]; every arithmetic operation of the
    source is wrapped with the width of its C type. *)

Definition u8 (x : Z) : Z := x mod 2 ^ 8.
Definition u16 (x : Z) : Z := x mod 2 ^ 16.
Definition u32 (x : Z) : Z := x mod 2 ^ 32.
Definition u64 (x : Z) : Z := x mod 2 ^ 64.

(** Conversion to a signed 8- or 32-bit integer (two's complement). *)
Definition i8 (x : Z) : Z := (x + 2 ^ 7) mod 2 ^ 8 - 2 ^ 7.
Definition i32 (x : Z) : Z := (x + 2 ^ 31) mod 2 ^ 32 - 2 ^ 31.

Lemma u8_small x : 0 <= x < 2 ^ 8 -> u8 x = x.
Proof. apply Z.mod_small. Qed.
Lemma u16_small x : 0 <= x < 2 ^ 16 -> u16 x = x.
Proof. apply Z.mod_small. Qed.
Lemma u32_small x : 0 <= x < 2 ^ 32 -> u32 x = x.
Proof. apply Z.mod_small. Qed.
Lemma u64_small x : 0 <= x < 2 ^ 64 -> u64 x = x.
Proof. apply Z.mod_small. Qed.

Lemma u8_bound x : 0 <= u8 x < 2 ^ 8.
Proof. apply Z.mod_pos_bound; lia. Qed.
Lemma u16_bound x : 0 <= u16 x < 2 ^ 16.
Proof. apply Z.mod_pos_bound; lia. Qed.
Lemma u32_bound x : 0 <= u32 x < 2 ^ 32.
Proof. apply Z.mod_pos_bound; lia. Qed.
Lemma u64_bound x : 0 <= u64 x < 2 ^ 64.
Proof. apply Z.mod_pos_bound; lia. Qed.

#[export] Hint Resolve u8_bound u16_bound u32_bound u64_bound : word.

(** ** Bit fields as arithmetic *)

Lemma land_ones_mod x k : 0 <= k -> Z.land x (2 ^ k - 1) = x mod 2 ^ k.
Proof. intros Hk. rewrite <- Z.land_ones by lia. by rewrite Z.ones_equiv. Qed.

(** [(x >> s) & (2^k - 1)]: the field of [k] bits at position [s]. *)
Lemma field_arith x s k :
  0 <= s -> 0 <= k -> Z.land (Z.shiftr x s) (2 ^ k - 1) = (x / 2 ^ s) mod 2 ^ k.
Proof. intros Hs Hk. rewrite land_ones_mod by lia. by rewrite Z.shiftr_div_pow2 by lia. Qed.

(** [x & ~(2^k - 1)] in 64-bit arithmetic rounds down to a multiple of [2^k]. *)
Lemma land_align x k :
  0 <= k <= 64 -> 0 <= x < 2 ^ 64 ->
  Z.land x (u64 (Z.lnot (2 ^ k - 1))) = x - x mod 2 ^ k.
Proof.
  intros Hk Hx. unfold u64.
  rewrite <- (Z.land_ones (Z.lnot _) 64), Z.land_assoc by lia.
  rewrite (Z.land_comm _ (Z.ones 64)), Z.land_assoc.
  rewrite (Z.land_comm (Z.ones 64)), Z.land_ones, (Z.mod_small x) by lia.
  replace (2 ^ k - 1) with (Z.ones k) by (by rewrite Z.ones_equiv).
  rewrite <- Z.ldiff_land, Z.ldiff_ones_r by lia.
  rewrite Z.shiftl_mul_pow2, Z.shiftr_div_pow2 by lia.
  pose proof (Z.div_mod x (2 ^ k)). lia.
Qed.

(** Or-ing a small value into an aligned one is an addition. *)
Lemma lor_low a b k :
  0 <= k -> a mod 2 ^ k = 0 -> 0 <= b < 2 ^ k -> Z.lor a b = a + b.
Proof.
  intros Hk Ha Hb. symmetry. apply Z.add_nocarry_lor.
  apply Z.bits_inj'. intros i Hi. rewrite Z.land_spec, Z.bits_0.
  destruct (Z.lt_ge_cases i k) as [Hik|Hik].
  - rewrite <- (Z.mod_pow2_bits_low a k i) by lia. by rewrite Ha, Z.bits_0.
  - rewrite <- (Z.mod_small b (2 ^ k)) by lia.
    rewrite Z.mod_pow2_bits_high by lia. apply andb_false_r.
Qed.

Lemma shiftl_arith x k : 0 <= k -> Z.shiftl x k = x * 2 ^ k.
Proof. apply Z.shiftl_mul_pow2. Qed.

(** A bit test written [x & (1 << k)]. *)
Lemma land_bit_zero x k : 0 <= k -> Z.land x (2 ^ k) = 0 <-> Z.testbit x k = false.
Proof.
  intros Hk. split; intros H.
  - assert (Z.testbit (Z.land x (2 ^ k)) k = false) as H' by (rewrite H; apply Z.bits_0).
    rewrite Z.land_spec, Z.pow2_bits_true, andb_true_r in H' by lia. done.
  - apply Z.bits_inj'. intros i Hi.
    rewrite Z.land_spec, Z.bits_0, Z.pow2_bits_eqb by lia.
    destruct (Z.eqb_spec k i) as [->|]; [by rewrite H|apply andb_false_r].
Qed.

(** ** Counted loops

    [for_loop n i body s] is [for (; n iterations; i++) s = body(i, s)]. *)
Fixpoint for_loop {S : Type} (n : nat) (i : Z) (body : Z -> S -> S) (s : S) : S :=
  match n with
  | O => s
  | Datatypes.S n' => for_loop n' (i + 1) body (body i s)
  end.

(** Loop rule: an invariant indexed by the loop counter. *)
Lemma for_loop_inv {S : Type} (I : Z -> S -> Prop) n i body (s : S) :
  I i s ->
  (forall j t, i <= j < i + Z.of_nat n -> I j t -> I (j + 1) (body j t)) ->
  I (i + Z.of_nat n) (for_loop n i body s).
Proof.
  revert i s. induction n as [|n IH]; intros i s Hi Hstep.
  - by rewrite Z.add_0_r.
  - replace (i + Z.of_nat (Datatypes.S n)) with (i + 1 + Z.of_nat n) by lia.
    simpl. apply IH; [apply Hstep; [lia|done]|].
    intros j t Hj. apply Hstep. lia.
Qed.

(** ** Lists *)

Lemma list_lookup_insert_dec {A} (l : list A) (i j : nat) (x y : A) :
  <[i:=x]> l !! j = Some y ->
  (i = j /\ y = x /\ (i < length l)%nat) \/ (i <> j /\ l !! j = Some y).
Proof.
  intros H. destruct (decide (i = j)) as [->|Hne].
  - left. pose proof (lookup_lt_Some _ _ _ H) as Hlt. rewrite length_insert in Hlt.
    rewrite list_lookup_insert_eq in H by done. by simplify_eq.
  - right. by rewrite list_lookup_insert_ne in H.
Qed.

(** [l[i]] where the source reads a fixed-size array of integers. *)
Definition nthZ {A} (l : list A) (i : Z) : option A :=
  if i <? 0 then None else l !! Z.to_nat i.

(** Fixed-size arrays of the source: total reads (index in range by construction of
    the index, see [get_cpu_index]) and in-place updates. *)
Lemma nth_insert_eq {A} (l : list A) (i : nat) (x d : A) :
  (i < length l)%nat -> nth i (<[i:=x]> l) d = x.
Proof.
  intros H. rewrite nth_lookup, list_lookup_insert_eq by done. done.
Qed.

Lemma nth_insert_ne {A} (l : list A) (i j : nat) (x d : A) :
  i <> j -> nth j (<[i:=x]> l) d = nth j l d.
Proof. intros H. by rewrite !nth_lookup, list_lookup_insert_ne. Qed.


(** An element of a duplicate-free concatenation belongs to one part only. *)
Lemma concat_NoDup_inj {A} (ll : list (list A)) : forall i j l l' x,
  NoDup (concat ll) -> ll !! i = Some l -> ll !! j = Some l' -> x ∈ l -> x ∈ l' -> i = j.
Proof.
  assert (forall (ll : list (list A)) j l x, ll !! j = Some l -> x ∈ l -> x ∈ concat ll) as Hin.
  { intros ll' j l x Hl Hx. apply list_elem_of_In, in_concat. exists l.
    rewrite <- !list_elem_of_In. split; [by eapply list_elem_of_lookup_2|done]. }
  induction ll as [|l0 ll IH]; intros i j l l' x Hnd Hi Hj Hx Hx'; [done|].
  simpl in Hnd. apply NoDup_app in Hnd as (_ & Hd & Hnd).
  destruct i as [|i], j as [|j]; simpl in *; [done| | |f_equal; eauto]; exfalso; simplify_eq;
    eapply Hd; eauto.
Qed.
