(* ===== verification/Memory.v ===== *)
(** * Byte-addressed memory

    Physical memory as the kernel sees it through its identity map: a byte per
    address, read and written little-endian at the widths the C code uses.  A C
    lvalue [*(uint64_t * )a] is [load64 m a], an assignment is [store64 m a v]; a
    field of a packed struct is a load at the field's offset. *)

From S2P Require Import Prelude.

Definition mem : Type := Z -> Z.

(** [n] bytes at [a], little-endian.  A byte cell is read modulo 256, so no
    invariant on the cells is needed. *)
Fixpoint load (n : nat) (m : mem) (a : Z) : Z :=
  match n with
  | O => 0
  | S n' => u8 (m a) + 256 * load n' m (a + 1)
  end.

Definition store (n : nat) (m : mem) (a v : Z) : mem :=
  fun x => if (a <=? x) && (x <? a + Z.of_nat n) then u8 (v / 256 ^ (x - a)) else m x.

Abbreviation load8 := (load 1).
Abbreviation load16 := (load 2).
Abbreviation load32 := (load 4).
Abbreviation load64 := (load 8).
Abbreviation store8 := (store 1).
Abbreviation store16 := (store 2).
Abbreviation store32 := (store 4).
Abbreviation store64 := (store 8).

#[global] Arguments load : simpl never.
#[global] Arguments store : simpl never.

Lemma load_S n m a : load (S n) m a = u8 (m a) + 256 * load n m (a + 1).
Proof. reflexivity. Qed.

Lemma load_bound n m a : 0 <= load n m a < 256 ^ Z.of_nat n.
Proof.
  revert a. induction n as [|n IH]; intros a.
  { change (load 0 m a) with 0. change (256 ^ Z.of_nat 0) with 1. lia. }
  rewrite load_S, Nat2Z.inj_succ, Z.pow_succ_r by lia.
  specialize (IH (a + 1)). pose proof (u8_bound (m a)). lia.
Qed.

(** Loads only read the cells they cover. *)
Lemma load_ext n m m' a :
  (forall x, a <= x < a + Z.of_nat n -> m x = m' x) -> load n m a = load n m' a.
Proof.
  revert a. induction n as [|n IH]; intros a H; [done|].
  rewrite !load_S. rewrite (H a) by lia. rewrite (IH (a + 1)); [done|].
  intros x Hx. apply H. lia.
Qed.

Lemma store_out n m a v x :
  ~ (a <= x < a + Z.of_nat n) -> store n m a v x = m x.
Proof. intros H. unfold store. case_cmp; simpl; try done; lia. Qed.

Lemma store_in n m a v x :
  a <= x < a + Z.of_nat n -> store n m a v x = u8 (v / 256 ^ (x - a)).
Proof. intros H. unfold store. case_cmp; simpl; try done; lia. Qed.

(** Two byte ranges that do not meet. *)
Definition disjoint_range (a n b k : Z) : Prop := a + n <= b \/ b + k <= a.

Lemma load_store_ne n k m a b v :
  disjoint_range a (Z.of_nat n) b (Z.of_nat k) ->
  load k (store n m a v) b = load k m b.
Proof.
  intros H. apply load_ext. intros x Hx. apply store_out.
  unfold disjoint_range in H. lia.
Qed.

Lemma load_store_part n k m a v i :
  0 <= i -> i + Z.of_nat k <= Z.of_nat n ->
  load k (store n m a v) (a + i) = (v / 256 ^ i) mod 256 ^ Z.of_nat k.
Proof.
  revert i. induction k as [|k IH]; intros i Hi Hk.
  - by rewrite Z.mod_1_r.
  - rewrite load_S, store_in by lia.
    replace (a + i - a) with i by lia.
    rewrite <- Z.add_assoc, IH by lia.
    rewrite Nat2Z.inj_succ, Z.pow_succ_r by lia.
    rewrite Z.rem_mul_r by lia.
    rewrite Z.pow_add_r, <- Z.div_div by lia.
    unfold u8. change (2 ^ 8) with 256. change (256 ^ 1) with 256.
    rewrite Z.mod_mod by lia. done.
Qed.

Lemma load_store_eq n m a v : load n (store n m a v) a = v mod 256 ^ Z.of_nat n.
Proof.
  rewrite <- (Z.add_0_r a) at 2. rewrite load_store_part by lia.
  by rewrite Z.pow_0_r, Z.div_1_r.
Qed.

Lemma load64_store_eq m a v : 0 <= v < 2 ^ 64 -> load64 (store64 m a v) a = v.
Proof. intros. rewrite load_store_eq. by apply Z.mod_small. Qed.

Lemma load32_store_eq m a v : 0 <= v < 2 ^ 32 -> load32 (store32 m a v) a = v.
Proof. intros. rewrite load_store_eq. by apply Z.mod_small. Qed.

Lemma load8_store_eq m a v : 0 <= v < 2 ^ 8 -> load8 (store8 m a v) a = v.
Proof. intros. rewrite load_store_eq. by apply Z.mod_small. Qed.

Lemma load64_bound m a : 0 <= load64 m a < 2 ^ 64.
Proof. apply (load_bound 8). Qed.
Lemma load32_bound m a : 0 <= load32 m a < 2 ^ 32.
Proof. apply (load_bound 4). Qed.
Lemma load16_bound m a : 0 <= load16 m a < 2 ^ 16.
Proof. apply (load_bound 2). Qed.
Lemma load8_bound m a : 0 <= load8 m a < 2 ^ 8.
Proof. apply (load_bound 1). Qed.

#[export] Hint Resolve load64_bound load32_bound load16_bound load8_bound : word.

(** Simplify loads of stores, with side conditions by linear arithmetic. *)
Ltac mem_simp :=
  repeat first
    [ rewrite load64_store_eq by lia
    | rewrite load32_store_eq by lia
    | rewrite load_store_ne by (unfold disjoint_range; lia) ].

(** [m] and [m'] agree on the range [lo, hi). *)
Definition same_on (lo hi : Z) (m m' : mem) : Prop :=
  forall x, lo <= x < hi -> m x = m' x.

Lemma same_on_refl lo hi m : same_on lo hi m m.
Proof. done. Qed.

Lemma same_on_sym lo hi m m' : same_on lo hi m m' -> same_on lo hi m' m.
Proof. intros H x Hx. symmetry. by apply H. Qed.

Lemma same_on_trans lo hi m1 m2 m3 :
  same_on lo hi m1 m2 -> same_on lo hi m2 m3 -> same_on lo hi m1 m3.
Proof. intros H1 H2 x Hx. rewrite H1 by done. by apply H2. Qed.

Lemma same_on_sub lo hi lo' hi' m m' :
  lo <= lo' -> hi' <= hi -> same_on lo hi m m' -> same_on lo' hi' m m'.
Proof. intros ? ? H x Hx. apply H. lia. Qed.

Lemma same_on_store lo hi n m a v :
  a + Z.of_nat n <= lo \/ hi <= a -> same_on lo hi m (store n m a v).
Proof. intros H x Hx. symmetry. apply store_out. lia. Qed.

Lemma load_same_on lo hi n m m' a :
  same_on lo hi m m' -> lo <= a -> a + Z.of_nat n <= hi -> load n m a = load n m' a.
Proof. intros H ? ?. apply load_ext. intros x Hx. apply H. lia. Qed.

#[export] Hint Resolve same_on_refl same_on_sym same_on_store : kernel.

(** ** Writing a run of words

    [p[i] = f i] for [i] from [0] to [n - 1], [p] a [uint64_t] pointer. *)
Definition fill64 (n : nat) (m : mem) (p : Z) (f : Z -> Z) : mem :=
  for_loop n 0 (fun i m => store64 m (p + 8 * i) (f i)) m.

Lemma fill64_spec n m p f :
  (forall i, 0 <= i < Z.of_nat n -> 0 <= f i < 2 ^ 64) ->
  (forall i, 0 <= i < Z.of_nat n -> load64 (fill64 n m p f) (p + 8 * i) = f i) /\
  (forall x, ~ (p <= x < p + 8 * Z.of_nat n) -> fill64 n m p f x = m x).
Proof.
  intros Hf. unfold fill64.
  pose (I := fun (j : Z) (m' : mem) =>
    (forall i, 0 <= i < j -> load64 m' (p + 8 * i) = f i) /\
    (forall x, ~ (p <= x < p + 8 * j) -> m' x = m x)).
  assert (I (0 + Z.of_nat n)
    (for_loop n 0 (fun i m => store64 m (p + 8 * i) (f i)) m)) as [H1 H2].
  { apply for_loop_inv.
    - split; [intros; lia|done].
    - intros j t Hj [H1 H2]. split.
      + intros i Hi. destruct (Z.eq_dec i j) as [->|].
        * apply load64_store_eq. apply Hf. lia.
        * rewrite load_store_ne by (unfold disjoint_range; lia). apply H1. lia.
      + intros x Hx. rewrite store_out by lia. apply H2. lia. }
  split; [intros i Hi; apply H1; lia|intros x Hx; apply H2; lia].
Qed.

(** A memory that is zero except for given words. *)
Definition mem_of (l : list (Z * nat * Z)) : mem :=
  foldl (fun m '(a, n, v) => store n m a v) (fun _ => 0) l.
