(* ===== verification/Machine.v ===== *)
(** * Effects of kernel code

    The effect monad the components are written in: state passing, an outcome that
    is a value, a panic ([neka_panic], which never returns) or a hang (a loop that
    never exits), and the trace of what the code does to the outside: text handed
    to the console, port and memory-mapped writes, privileged instructions. *)

From S2P Require Import Prelude.

Declare Scope kernel_scope.
Delimit Scope kernel_scope with kernel.

(** ** Observable events *)
Inductive event : Type :=
| EPrint (s : string)                (* kprint(s) *)
| EPrintHex (v : Z)                  (* kprint_hex64(v) *)
| EOutb (port v : Z)                 (* outb *)
| EMmio32 (a v : Z)                  (* 32-bit volatile store to a device *)
| EWrmsr (msr v : Z)                 (* wrmsr *)
| EInstr (name : string) (op : Z).   (* cli, sti, hlt, lgdt, lidt, ltr, mov to cr *)

#[export] Instance event_eq_dec : EqDecision event.
Proof. solve_decision. Defined.

Inductive outcome (S A : Type) : Type :=
| Done (a : A) (s : S) (tr : list event)
| Panic (category : string) (code : Z) (s : S) (tr : list event)
| Hang (s : S) (tr : list event).
Arguments Done {S A} a s tr.
Arguments Panic {S A} category code s tr.
Arguments Hang {S A} s tr.

Definition M (S A : Type) : Type := S -> outcome S A.

Definition ret {S A} (a : A) : M S A := fun s => Done a s [].

Definition add_trace {S A} (t : list event) (o : outcome S A) : outcome S A :=
  match o with
  | Done a s t' => Done a s (t ++ t')
  | Panic c k s t' => Panic c k s (t ++ t')
  | Hang s t' => Hang s (t ++ t')
  end.

Definition bind {S A B} (m : M S A) (f : A -> M S B) : M S B := fun s =>
  match m s with
  | Done a s' t => add_trace t (f a s')
  | Panic c k s' t => Panic c k s' t
  | Hang s' t => Hang s' t
  end.

Notation "x <- m ;; k" := (bind m (fun x => k))
  (at level 100, m at next level, right associativity) : kernel_scope.
Notation "m ;;; k" := (bind m (fun _ => k))
  (at level 100, right associativity) : kernel_scope.
#[global] Open Scope kernel_scope.

Definition get {S} : M S S := fun s => Done s s [].
Definition gets {S A} (f : S -> A) : M S A := fun s => Done (f s) s [].
Definition modify {S} (f : S -> S) : M S unit := fun s => Done tt (f s) [].
Definition emit {S} (e : event) : M S unit := fun s => Done tt s [e].
Definition hang {S A} : M S A := fun s => Hang s [].

Definition kprint {S} (s : string) : M S unit := emit (EPrint s).
Definition kprint_hex64 {S} (v : Z) : M S unit := emit (EPrintHex v).
Definition outb {S} (port v : Z) : M S unit := emit (EOutb port v).
Definition instr {S} (name : string) (op : Z) : M S unit := emit (EInstr name op).

(** Unsigned division.  By zero the CPU raises vector 0, whose handler
    ([interrupt_dispatch], idt.c) never returns. *)
Definition udiv {S} (a b : Z) : M S Z :=
  if b =? 0 then (emit (EInstr "#DE" 0) ;;; hang) else ret (a / b).

(** Run a computation on a part of the state. *)
Definition zoom {S T A} (view : S -> T) (upd : T -> S -> S) (m : M T A) : M S A := fun s =>
  match m (view s) with
  | Done a t tr => Done a (upd t s) tr
  | Panic c k t tr => Panic c k (upd t s) tr
  | Hang t tr => Hang (upd t s) tr
  end.

(** ["\n"] *)
Definition nl : string := String (Ascii.ascii_of_nat 10) EmptyString.

(** ** panic.c

    [neka_panic] prints the category and the code, disables interrupts and halts
    forever: no computation after it runs. *)
Definition neka_panic {S A} (category : string) (code : Z) : M S A := fun s =>
  Panic category code s
    [EPrint (nl +:+ "*** NEKA PANIC ["); EPrint category; EPrint "] code=";
     EPrintHex code; EPrint (nl +:+ "System halted." +:+ nl);
     EInstr "cli" 0; EInstr "hlt" 0].

(** ** Laws *)

Lemma add_trace_nil {S A} (o : outcome S A) : add_trace [] o = o.
Proof. by destruct o. Qed.

Lemma add_trace_app {S A} t t' (o : outcome S A) :
  add_trace t (add_trace t' o) = add_trace (t ++ t') o.
Proof. destruct o; simpl; by rewrite app_assoc. Qed.

Lemma bind_ret {S A B} (a : A) (f : A -> M S B) s : bind (ret a) f s = f a s.
Proof. apply add_trace_nil. Qed.

Lemma bind_get {S B} (f : S -> M S B) s : bind get f s = f s s.
Proof. apply add_trace_nil. Qed.

Lemma bind_gets {S A B} (g : S -> A) (f : A -> M S B) s : bind (gets g) f s = f (g s) s.
Proof. apply add_trace_nil. Qed.

Lemma bind_modify {S B} g (f : unit -> M S B) s : bind (modify g) f s = f tt (g s).
Proof. apply add_trace_nil. Qed.

Lemma bind_emit {S B} e (f : unit -> M S B) s :
  bind (emit e) f s = add_trace [e] (f tt s).
Proof. reflexivity. Qed.

Lemma bind_done {S A B} (m : M S A) (f : A -> M S B) s a s' t :
  m s = Done a s' t -> bind m f s = add_trace t (f a s').
Proof. unfold bind. by intros ->. Qed.

Lemma bind_panic {S A B} (m : M S A) (f : A -> M S B) s c k s' t :
  m s = Panic c k s' t -> bind m f s = Panic c k s' t.
Proof. unfold bind. by intros ->. Qed.

Lemma bind_assoc {S A B C} (m : M S A) (f : A -> M S B) (g : B -> M S C) s :
  bind (bind m f) g s = bind m (fun a => bind (f a) g) s.
Proof.
  unfold bind. destruct (m s) as [a s1 t| |]; [|done..].
  destruct (f a s1); simpl; [by rewrite add_trace_app|done..].
Qed.

(** Execute the pure steps at the head of a computation. *)
Ltac mstep :=
  repeat first
    [ rewrite bind_ret | rewrite bind_get | rewrite bind_gets | rewrite bind_modify
    | rewrite bind_assoc | rewrite add_trace_nil ].

(** ** Outcomes *)

(** The value and state of a run that returned. *)
Definition result {S A} (o : outcome S A) : option (A * S) :=
  match o with Done a s _ => Some (a, s) | _ => None end.

Definition final {S A} (o : outcome S A) : S :=
  match o with Done _ s _ | Panic _ _ s _ | Hang s _ => s end.

Definition trace {S A} (o : outcome S A) : list event :=
  match o with Done _ _ t | Panic _ _ _ t | Hang _ t => t end.

Definition panicked {S A} (o : outcome S A) : option (string * Z) :=
  match o with Panic c k _ _ => Some (c, k) | _ => None end.

(** A loop bounded by fuel; running out of fuel is a hang. [body] returns [inl] to
    go round again and [inr] to leave the loop. *)
Fixpoint loop {S A B} (fuel : nat) (body : A -> M S (A + B)) (a : A) : M S B :=
  match fuel with
  | O => hang
  | Datatypes.S n => r <- body a ;;
      match r with inl a' => loop n body a' | inr b => ret b end
  end.

Definition value {S A} (o : outcome S A) : option A :=
  match o with Done a _ _ => Some a | _ => None end.

(** A run whose value is known, with the rest of the outcome read off it. *)
Lemma value_done {S A} (o : outcome S A) a :
  value o = Some a -> o = Done a (final o) (trace o).
Proof. by destruct o; intros [= <-]. Qed.
