(* ===== verification/Runs.v ===== *)
(** * Postconditions of kernel code

    [runs m s Q]: started in [s], the computation [m] returns (no panic, no hang), and
    its value and final state satisfy [Q].  A small program logic for long sequences of
    calls, where only what each call guarantees matters to the next. *)

From S2P Require Import Prelude Machine.

Definition runs {S A} (m : M S A) (s : S) (Q : A -> S -> Prop) : Prop :=
  exists a s' t, m s = Done a s' t /\ Q a s'.

Section Rules.
Context {S A B : Type}.
Implicit Types (s : S) (m : M S A).

Lemma runs_done m s a s' t (Q : A -> S -> Prop) : m s = Done a s' t -> Q a s' -> runs m s Q.
Proof. intros E H. by exists a, s', t. Qed.

Lemma runs_mono m s (Q R : A -> S -> Prop) :
  runs m s Q -> (forall a s', Q a s' -> R a s') -> runs m s R.
Proof. intros (a & s' & t & E & H) HQ. exists a, s', t. auto. Qed.

Lemma runs_bind m (f : A -> M S B) s (Q : A -> S -> Prop) (R : B -> S -> Prop) :
  runs m s Q -> (forall a s', Q a s' -> runs (f a) s' R) -> runs (bind m f) s R.
Proof.
  intros (a & s1 & t1 & E1 & H1) Hf. destruct (Hf a s1 H1) as (b & s2 & t2 & E2 & H2).
  exists b, s2, (t1 ++ t2). split; [|done]. by rewrite (bind_done _ _ _ _ _ _ E1), E2.
Qed.

(** The head of a sequence, with the continuation's goal in its postcondition. *)
Lemma runs_seq m (f : A -> M S B) s (R : B -> S -> Prop) :
  runs m s (fun a s' => runs (f a) s' R) -> runs (bind m f) s R.
Proof. intros H. by eapply runs_bind; [exact H|]. Qed.

Lemma runs_ret a s (Q : A -> S -> Prop) : Q a s -> runs (ret a) s Q.
Proof. by eapply runs_done. Qed.
Lemma runs_get s (Q : S -> S -> Prop) : Q s s -> runs get s Q.
Proof. intros. by exists s, s, []. Qed.
Lemma runs_gets (g : S -> A) s (Q : A -> S -> Prop) : Q (g s) s -> runs (gets g) s Q.
Proof. by eapply runs_done. Qed.
Lemma runs_modify g s (Q : unit -> S -> Prop) : Q tt (g s) -> runs (modify g) s Q.
Proof. intros. by exists tt, (g s), []. Qed.
Lemma runs_emit e s (Q : unit -> S -> Prop) : Q tt s -> runs (emit e) s Q.
Proof. intros. by exists tt, s, [e]. Qed.
End Rules.

Lemma runs_zoom {S T A} (view : S -> T) upd (m : M T A) s (Q : A -> S -> Prop) :
  runs m (view s) (fun a t => Q a (upd t s)) -> runs (zoom view upd m) s Q.
Proof.
  intros (a & t & tr & E & H). exists a, (upd t s), tr. split; [|done]. unfold zoom. by rewrite E.
Qed.

Lemma runs_kprint {S} x (s : S) (Q : unit -> S -> Prop) : Q tt s -> runs (kprint x) s Q.
Proof. apply runs_emit. Qed.
Lemma runs_kprint_hex64 {S} x (s : S) (Q : unit -> S -> Prop) : Q tt s -> runs (kprint_hex64 x) s Q.
Proof. apply runs_emit. Qed.
Lemma runs_instr {S} n v (s : S) (Q : unit -> S -> Prop) : Q tt s -> runs (instr n v) s Q.
Proof. apply runs_emit. Qed.
Lemma runs_outb {S} p v (s : S) (Q : unit -> S -> Prop) : Q tt s -> runs (outb p v) s Q.
Proof. apply runs_emit. Qed.

(** Run the elementary steps at the head of a sequence, as far as they go.  The head
    is matched as it is written, so that calls are never unfolded. *)
Ltac run_step :=
  lazymatch goal with
  | |- runs (ret _) _ _ => apply runs_ret
  | |- runs get _ _ => apply runs_get
  | |- runs (gets _) _ _ => apply runs_gets
  | |- runs (modify _) _ _ => apply runs_modify
  | |- runs (emit _) _ _ => apply runs_emit
  | |- runs (kprint _) _ _ => apply runs_kprint
  | |- runs (kprint_hex64 _) _ _ => apply runs_kprint_hex64
  | |- runs (instr _ _) _ _ => apply runs_instr
  | |- runs (outb _ _) _ _ => apply runs_outb
  | |- runs (bind _ _) _ _ => apply runs_seq
  end; cbv beta.
Ltac run_steps := repeat run_step.

(** Run the call at the head by a lemma about it. *)
Tactic Notation "run_call" uconstr(H) := eapply runs_mono; [eapply H|]; cbv beta.

(** ** Postconditions on the trace

    [yields m s Q]: [m] returns, and its value, final state and the events it caused
    satisfy [Q]. *)
Definition yields {S A} (m : M S A) (s : S) (Q : A -> S -> list event -> Prop) : Prop :=
  exists a s' t, m s = Done a s' t /\ Q a s' t.

Section Traced.
Context {S A B : Type}.
Implicit Types (s : S) (m : M S A).

Lemma yields_done m s a s' t (Q : A -> S -> list event -> Prop) :
  m s = Done a s' t -> Q a s' t -> yields m s Q.
Proof. intros E H. by exists a, s', t. Qed.

Lemma yields_mono m s (Q R : A -> S -> list event -> Prop) :
  yields m s Q -> (forall a s' t, Q a s' t -> R a s' t) -> yields m s R.
Proof. intros (a & s' & t & E & H) HQ. exists a, s', t. auto. Qed.

(** The events of a sequence are those of its head followed by those of the rest. *)
Lemma yields_seq m (f : A -> M S B) s (R : B -> S -> list event -> Prop) :
  yields m s (fun a s1 t1 => yields (f a) s1 (fun b s2 t2 => R b s2 (t1 ++ t2))) ->
  yields (bind m f) s R.
Proof.
  intros (a & s1 & t1 & E1 & b & s2 & t2 & E2 & H). exists b, s2, (t1 ++ t2).
  split; [|done]. by rewrite (bind_done _ _ _ _ _ _ E1), E2.
Qed.

Lemma yields_ret a s (Q : A -> S -> list event -> Prop) : Q a s [] -> yields (ret a) s Q.
Proof. by eapply yields_done. Qed.
Lemma yields_gets (g : S -> A) s (Q : A -> S -> list event -> Prop) :
  Q (g s) s [] -> yields (gets g) s Q.
Proof. by eapply yields_done. Qed.
Lemma yields_runs m s (Q : A -> S -> list event -> Prop) :
  yields m s Q -> runs m s (fun a s' => exists t, Q a s' t).
Proof. intros (a & s' & t & E & H). exists a, s', t. eauto. Qed.
End Traced.

Lemma yields_get {S} (s : S) (Q : S -> S -> list event -> Prop) : Q s s [] -> yields get s Q.
Proof. intros. by exists s, s, []. Qed.
Lemma yields_modify {S} g (s : S) (Q : unit -> S -> list event -> Prop) :
  Q tt (g s) [] -> yields (modify g) s Q.
Proof. intros. by exists tt, (g s), []. Qed.
Lemma yields_emit {S} e (s : S) (Q : unit -> S -> list event -> Prop) :
  Q tt s [e] -> yields (emit e) s Q.
Proof. intros. by exists tt, s, [e]. Qed.

Lemma yields_zoom {S T A} (view : S -> T) upd (m : M T A) s (Q : A -> S -> list event -> Prop) :
  yields m (view s) (fun a t tr => Q a (upd t s) tr) -> yields (zoom view upd m) s Q.
Proof.
  intros (a & t & tr & E & H). exists a, (upd t s), tr. split; [|done]. unfold zoom. by rewrite E.
Qed.

(** As [run_step], for [yields]. *)
Ltac yield_step :=
  lazymatch goal with
  | |- yields (ret _) _ _ => apply yields_ret
  | |- yields get _ _ => apply yields_get
  | |- yields (gets _) _ _ => apply yields_gets
  | |- yields (modify _) _ _ => apply yields_modify
  | |- yields (emit _) _ _ => apply yields_emit
  | |- yields (kprint _) _ _ => apply yields_emit
  | |- yields (kprint_hex64 _) _ _ => apply yields_emit
  | |- yields (instr _ _) _ _ => apply yields_emit
  | |- yields (outb _ _) _ _ => apply yields_emit
  | |- yields (bind _ _) _ _ => apply yields_seq
  end; cbv beta.
Ltac yield_steps := repeat yield_step.

(** ** What a computation never does

    [only P m]: whatever the state and however it ends, every event of [m] satisfies
    [P]. *)
Definition only {S A} (P : event -> Prop) (m : M S A) : Prop := forall s, Forall P (trace (m s)).

Section Only.
Context {S : Type} (P : event -> Prop).

Lemma only_ret {A} (a : A) : only P (ret (S := S) a).
Proof. intros s. constructor. Qed.
Lemma only_get : only P (get (S := S)).
Proof. intros s. constructor. Qed.
Lemma only_gets {A} (g : S -> A) : only P (gets g).
Proof. intros s. constructor. Qed.
Lemma only_modify (g : S -> S) : only P (modify g).
Proof. intros s. constructor. Qed.
Lemma only_hang {A} : only P (hang (S := S) (A := A)).
Proof. intros s. constructor. Qed.
Lemma only_emit e : P e -> only P (emit (S := S) e).
Proof. intros H s. by repeat constructor. Qed.

Lemma only_bind {A B} (m : M S A) (f : A -> M S B) :
  only P m -> (forall a, only P (f a)) -> only P (bind m f).
Proof.
  intros Hm Hf s. unfold bind. specialize (Hm s). destruct (m s) as [a s' t| |]; simpl in *; [|done..].
  specialize (Hf a s'). destruct (f a s'); simpl in *; by apply Forall_app.
Qed.

Lemma only_zoom {T A} (view : S -> T) upd (m : M T A) : only P m -> only P (zoom view upd m).
Proof. intros H s. unfold zoom. specialize (H (view s)). by destruct (m (view s)). Qed.

Lemma only_loop {A B} fuel (body : A -> M S (A + B)) a :
  (forall a, only P (body a)) -> only P (loop fuel body a).
Proof.
  intros H. revert a. induction fuel as [|fuel IH]; intros a; [apply only_hang|].
  apply only_bind; [done|]. intros [a'|b]; [apply IH|apply only_ret].
Qed.
End Only.

Lemma only_panic {S A} (P : event -> Prop) c k :
  Forall P (trace (neka_panic c k (tt : unit) : outcome unit unit)) -> only P (neka_panic (S := S) (A := A) c k).
Proof. intros H s. exact H. Qed.

(** Walk through a computation's text; calls that are not elementary are left. *)
Ltac only_step :=
  lazymatch goal with
  | |- only _ (bind _ _) => apply only_bind; [|intros ?]
  | |- only _ (ret _) => apply only_ret
  | |- only _ get => apply only_get
  | |- only _ (gets _) => apply only_gets
  | |- only _ (modify _) => apply only_modify
  | |- only _ hang => apply only_hang
  | |- only _ (emit _) => apply only_emit
  | |- only _ (kprint _) => apply only_emit
  | |- only _ (kprint_hex64 _) => apply only_emit
  | |- only _ (instr _ _) => apply only_emit
  | |- only _ (outb _ _) => apply only_emit
  | |- only _ (neka_panic _ _) => apply only_panic
  | |- only _ (zoom _ _ _) => apply only_zoom
  | |- only _ (loop _ _ _) => apply only_loop; intros ?
  | |- only _ (let (_, _) := ?x in _) => destruct x
  | |- only _ (match ?x with _ => _ end) => destruct x
  end; cbv beta zeta.
Ltac only_steps := repeat only_step.

(** ** What a computation never changes

    [keeps I m]: when [m] returns from a state in [I], the new state is in [I]. *)
Definition keeps {S A} (I : S -> Prop) (m : M S A) : Prop :=
  forall s, I s -> forall a s' t, m s = Done a s' t -> I s'.

Section Keeps.
Context {S : Type} (I : S -> Prop).

Lemma keeps_ret {A} (a : A) : keeps I (ret a).
Proof. by intros s H ? ? ? [= _ <- _]. Qed.
Lemma keeps_gets {A} (g : S -> A) : keeps I (gets g).
Proof. by intros s H ? ? ? [= _ <- _]. Qed.
Lemma keeps_emit e : keeps I (emit e).
Proof. by intros s H ? ? ? [= _ <- _]. Qed.
Lemma keeps_modify g : (forall s, I s -> I (g s)) -> keeps I (modify g).
Proof. intros Hg s H ? ? ? [= _ <- _]. by apply Hg. Qed.
Lemma keeps_panic {A} c k : keeps I (neka_panic (A := A) c k).
Proof. by intros s H ? ? ? ?. Qed.

Lemma keeps_bind {A B} (m : M S A) (f : A -> M S B) :
  keeps I m -> (forall a, keeps I (f a)) -> keeps I (bind m f).
Proof.
  intros Hm Hf s H b s' t. unfold bind. destruct (m s) as [a s1 t1| |] eqn:E; [|done..].
  destruct (f a s1) as [b' s2 t2| |] eqn:E2; [|done..]. intros [= _ <- _].
  eapply Hf; [|exact E2]. by eapply Hm.
Qed.

(** After [get] the value read is known to be in [I]. *)
Lemma keeps_get_bind {B} (f : S -> M S B) : (forall s, I s -> keeps I (f s)) -> keeps I (bind get f).
Proof. intros Hf s H b s' t. rewrite bind_get. by apply Hf. Qed.
End Keeps.

(** Walk through a computation's text; calls that are not elementary are left. *)
Ltac keeps_step :=
  lazymatch goal with
  | |- keeps _ (bind get _) => apply keeps_get_bind; intros ? ?
  | |- keeps _ (bind _ _) => apply keeps_bind; [|intros ?]
  | |- keeps _ (ret _) => apply keeps_ret
  | |- keeps _ (gets _) => apply keeps_gets
  | |- keeps _ (modify _) => apply keeps_modify; intros ? ?
  | |- keeps _ (emit _) => apply keeps_emit
  | |- keeps _ (instr _ _) => apply keeps_emit
  | |- keeps _ (neka_panic _ _) => apply keeps_panic
  end; cbv beta zeta.
Ltac keeps_steps := repeat keeps_step.
