(* ===== verification/KernLock.v ===== *)
(** * The kernel lock as seen by its clients

    [kmalloc]/[kfree] bracket their critical sections with [NKern_Lock] and
    [NKern_Unlock].  [KernLock] is what they may rely on; the implementation in
    nkern_lock.c is shown to provide it in [NKern]. *)

From S2P Require Import Prelude Machine.

(** The operations, over the lock state [L] of the calling CPU. *)
Class KernLockOps (L : Type) := {
  NKern_Lock : M L unit;
  NKern_Unlock : M L unit;
  (** the caller may take the lock and does not hold it *)
  lock_idle : L -> Prop;
  (** the caller holds the lock *)
  lock_held : L -> Prop;
  (** the interrupt flag of the calling CPU *)
  lock_irq : L -> bool
}.

(** A free lock can be taken; while it is held interrupts are off; releasing it
    makes it free again and restores the interrupt flag of before. *)
Class KernLock (L : Type) `{KernLockOps L} := {
  lock_section l : lock_idle l ->
    exists l1 t1 l2 t2,
      NKern_Lock l = Done tt l1 t1 /\ lock_held l1 /\ lock_irq l1 = false /\
      NKern_Unlock l1 = Done tt l2 t2 /\ lock_idle l2 /\ lock_irq l2 = lock_irq l
}.
