(* ===== verification/FrameSource.v ===== *)
(** * The physical memory map as seen by the page-table code

    paging64.c asks memmap.c whether a memory map is active and takes frames from
    it.  [FrameSourceOps] is that interface; [FrameSource] is what paging64.c may
    rely on: frames come from a list that is fixed once the map is active, each is
    handed out once, and an empty list is a panic. *)

From S2P Require Import Prelude Machine.

Class FrameSourceOps (F : Type) := {
  fs_is_active : F -> bool;
  fs_alloc_frame : M F Z;
  (** states the source can be in *)
  fs_wf : F -> Prop;
  (** the frames still to be handed out, in order *)
  fs_frames : F -> list Z
}.

Class FrameSource (F : Type) `{FrameSourceOps F} := {
  fs_alloc s : fs_wf s ->
    match fs_frames s with
    | f :: rest => exists s',
        fs_alloc_frame s = Done f s' [] /\ fs_wf s' /\ fs_frames s' = rest /\
        fs_is_active s' = fs_is_active s
    | [] => exists s' t, fs_alloc_frame s = Panic "MEMMAP" 1 s' t
    end;
  fs_aligned s f : fs_wf s -> f ∈ fs_frames s -> f mod 4096 = 0 /\ 0x100000 <= f;
  fs_distinct s : fs_wf s -> NoDup (fs_frames s)
}.
