(* ===== verification/NKern.v ===== *)
(** * nkern_lock.c: the kernel lock

    One spinlock for the whole machine ([big_kernel_lock]) and, per CPU, a nesting
    count, the saved interrupt flag and a deferred-reschedule flag.  The CPU index
    ([cpu_idx()], the APIC id) is an argument of each operation.  The interrupt
    flag of each CPU, which the code reads and writes with [pushfq], [cli] and
    [sti], is part of the state. *)

From S2P Require Import Prelude Machine KernLock.

Definition MAX_CPUS : nat := 16.

Record nkern := mkNK {
  preempt_disable_count : list Z;
  reschedule_pending : list Z;
  saved_if : list Z;
  big_kernel_lock : Z;
  iflag : list bool
}.

Definition nk_count (c : nat) (k : nkern) : Z := nth c (preempt_disable_count k) 0.
Definition nk_pending (c : nat) (k : nkern) : Z := nth c (reschedule_pending k) 0.
Definition nk_saved (c : nat) (k : nkern) : Z := nth c (saved_if k) 0.
Definition nk_if (c : nat) (k : nkern) : bool := nth c (iflag k) false.

Definition set_count (c : nat) (v : Z) (k : nkern) : nkern :=
  mkNK (<[c:=v]> (preempt_disable_count k)) (reschedule_pending k) (saved_if k)
    (big_kernel_lock k) (iflag k).
Definition set_pending (c : nat) (v : Z) (k : nkern) : nkern :=
  mkNK (preempt_disable_count k) (<[c:=v]> (reschedule_pending k)) (saved_if k)
    (big_kernel_lock k) (iflag k).
Definition set_saved (c : nat) (v : Z) (k : nkern) : nkern :=
  mkNK (preempt_disable_count k) (reschedule_pending k) (<[c:=v]> (saved_if k))
    (big_kernel_lock k) (iflag k).
Definition set_lock (v : Z) (k : nkern) : nkern :=
  mkNK (preempt_disable_count k) (reschedule_pending k) (saved_if k) v (iflag k).
Definition set_if (c : nat) (b : bool) (k : nkern) : nkern :=
  mkNK (preempt_disable_count k) (reschedule_pending k) (saved_if k)
    (big_kernel_lock k) (<[c:=b]> (iflag k)).

Definition cli (c : nat) : M nkern unit := instr "cli" 0 ;;; modify (set_if c false).
Definition sti (c : nat) : M nkern unit := instr "sti" 0 ;;; modify (set_if c true).

(** One round of [__sync_lock_test_and_set(lock, 1)]: the old value. *)
Definition test_and_set : M nkern Z :=
  old <- gets big_kernel_lock ;; modify (set_lock 1) ;;; ret old.

(** Run alone, a CPU that finds the lock taken spins forever; the interleaved
    behaviour, where another CPU may release it, is the step relation below. *)
Definition spin_acquire : M nkern unit :=
  old <- test_and_set ;; if old =? 0 then ret tt else hang.
Definition spin_release : M nkern unit := modify (set_lock 0).

Definition inc_count (c : nat) : M nkern unit :=
  modify (fun k => set_count c (nk_count c k + 1) k).
Definition dec_count (c : nat) : M nkern unit :=
  modify (fun k => if 0 <? nk_count c k then set_count c (nk_count c k - 1) k else k).

(** [NKern_Lock] up to the spin. *)
Definition Lock_enter (c : nat) : M nkern unit :=
  flags <- gets (nk_if c) ;;
  cli c ;;;
  modify (fun k => if nk_count c k =? 0 then set_saved c (Z.b2z flags) k else k) ;;;
  inc_count c.

Definition NKern_Lock_cpu (c : nat) : M nkern unit :=
  Lock_enter c ;;;
  n <- gets (nk_count c) ;;
  if n =? 1 then spin_acquire else ret tt.

(** [sched64_reschedule] is defined in sched64.c. *)
Definition NKern_Unlock_cpu (sched64_reschedule : M nkern unit) (c : nat) : M nkern unit :=
  dec_count c ;;;
  n <- gets (nk_count c) ;;
  if n =? 0 then
    spin_release ;;;
    p <- gets (nk_pending c) ;;
    (if negb (p =? 0) then modify (set_pending c 0) ;;; sched64_reschedule else ret tt) ;;;
    s <- gets (nk_saved c) ;;
    if negb (s =? 0) then sti c else ret tt
  else ret tt.

Definition NKern_IsLocked (c : nat) (k : nkern) : bool := 0 <? nk_count c k.

Definition NKern_RequestReschedule (c : nat) : M nkern unit := modify (set_pending c 1).

Definition LockForSwitch_enter (c : nat) : M nkern unit := cli c ;;; inc_count c.

Definition NKern_LockForSwitch (c : nat) : M nkern unit :=
  LockForSwitch_enter c ;;;
  n <- gets (nk_count c) ;;
  if n =? 1 then spin_acquire else ret tt.

Definition NKern_UnlockAfterSwitch (c : nat) : M nkern unit :=
  dec_count c ;;;
  n <- gets (nk_count c) ;;
  if n =? 0 then spin_release ;;; sti c else ret tt.

(** State at boot: every static array is zero. *)
Definition nkern_boot : nkern :=
  mkNK (replicate MAX_CPUS 0) (replicate MAX_CPUS 0) (replicate MAX_CPUS 0) 0
    (replicate MAX_CPUS false).

(** ** Reading back updates *)

Definition nk_wf (k : nkern) : Prop :=
  length (preempt_disable_count k) = MAX_CPUS /\ length (reschedule_pending k) = MAX_CPUS /\
  length (saved_if k) = MAX_CPUS /\ length (iflag k) = MAX_CPUS.

Ltac nk_unfold :=
  unfold nk_wf, nk_count, nk_pending, nk_saved, nk_if, set_count, set_pending, set_saved,
    set_lock, set_if in *; cbn [preempt_disable_count reschedule_pending saved_if
    big_kernel_lock iflag] in *.

(** Reads of updated per-CPU arrays. *)
Ltac nk_simp :=
  nk_unfold; rewrite ?length_insert in *;
  repeat first
    [ rewrite nth_insert_eq by (rewrite ?length_insert; lia)
    | rewrite nth_insert_ne by (done || lia) ].

Lemma insert_nth_id {A} (l : list A) i d x :
  (i < length l)%nat -> nth i l d = x -> <[i:=x]> l = l.
Proof.
  intros Hi Hx. apply list_insert_id. rewrite nth_lookup in Hx.
  destruct (lookup_lt_is_Some_2 l i Hi) as [y Hy]. rewrite Hy in *. by simpl in Hx; subst.
Qed.

Lemma set_count_id c v k : nk_wf k -> (c < MAX_CPUS)%nat -> nk_count c k = v -> set_count c v k = k.
Proof.
  intros (H & _) Hc Hv. destruct k. unfold set_count. simpl in *. f_equal.
  eapply insert_nth_id; [lia|exact Hv].
Qed.

Lemma set_pending_id c v k : nk_wf k -> (c < MAX_CPUS)%nat -> nk_pending c k = v -> set_pending c v k = k.
Proof.
  intros (_ & H & _) Hc Hv. destruct k. unfold set_pending. simpl in *. f_equal.
  eapply insert_nth_id; [lia|exact Hv].
Qed.

Lemma set_if_id c b k : nk_wf k -> (c < MAX_CPUS)%nat -> nk_if c k = b -> set_if c b k = k.
Proof.
  intros (_ & _ & _ & H) Hc Hv. destruct k. unfold set_if. simpl in *. f_equal.
  eapply insert_nth_id; [lia|exact Hv].
Qed.

(** ** Runs of the uncontended operations *)

Lemma Lock_enter_run c k :
  Lock_enter c k =
  Done tt (let k1 := set_if c false k in
           let k2 := if nk_count c k =? 0 then set_saved c (Z.b2z (nk_if c k)) k1 else k1 in
           set_count c (nk_count c k + 1) k2) [EInstr "cli" 0].
Proof.
  unfold Lock_enter, cli, inc_count, instr. mstep. rewrite bind_emit. mstep.
  change (nk_count c (set_if c false k)) with (nk_count c k).
  unfold modify. simpl. by destruct (nk_count c k =? 0).
Qed.

Lemma LockForSwitch_enter_run c k :
  LockForSwitch_enter c k = Done tt (set_count c (nk_count c k + 1) (set_if c false k)) [EInstr "cli" 0].
Proof. unfold LockForSwitch_enter, cli, inc_count, instr. mstep. by rewrite bind_emit. Qed.

Lemma NKern_Lock_run c k :
  nk_wf k -> (c < MAX_CPUS)%nat -> nk_count c k = 0 -> big_kernel_lock k = 0 ->
  NKern_Lock_cpu c k =
  Done tt (set_lock 1 (set_count c 1 (set_saved c (Z.b2z (nk_if c k)) (set_if c false k))))
    [EInstr "cli" 0].
Proof.
  intros Hwf Hc Hn Hl. unfold NKern_Lock_cpu.
  rewrite (bind_done _ _ _ _ _ _ (Lock_enter_run c k)). cbv zeta. rewrite Hn. cbn [Z.eqb].
  mstep. destruct k as [cnt pend sav lk ifl]. nk_simp. cbn. unfold spin_acquire, test_and_set.
  mstep. cbn in *. by rewrite Hl.
Qed.

(** The state after releasing the outermost level, interrupts restored. *)
Lemma NKern_Unlock_run resched c k :
  nk_wf k -> (c < MAX_CPUS)%nat -> nk_count c k = 1 -> nk_pending c k = 0 ->
  NKern_Unlock_cpu resched c k =
  Done tt (let k1 := set_lock 0 (set_count c 0 k) in
           if nk_saved c k =? 0 then k1 else set_if c true k1)
    (if nk_saved c k =? 0 then [] else [EInstr "sti" 0]).
Proof.
  intros Hwf Hc Hn Hp. unfold NKern_Unlock_cpu, dec_count, spin_release. mstep.
  rewrite Hn. change (0 <? 1) with true. change (1 - 1) with 0. cbv iota.
  destruct k as [cnt pend sav lk ifl]. nk_simp. change (0 =? 0) with true. cbv iota.
  mstep. cbn [reschedule_pending saved_if]. rewrite Hp.
  change (negb (0 =? 0)) with false. cbv iota. mstep. cbn [saved_if].
  unfold sti, instr. destruct (nth c sav 0 =? 0); [done|]. reflexivity.
Qed.

Lemma NKern_Lock_nested_run c k :
  nk_wf k -> (c < MAX_CPUS)%nat -> 0 < nk_count c k ->
  NKern_Lock_cpu c k = Done tt (set_count c (nk_count c k + 1) (set_if c false k)) [EInstr "cli" 0].
Proof.
  intros Hwf Hc Hn. unfold NKern_Lock_cpu.
  rewrite (bind_done _ _ _ _ _ _ (Lock_enter_run c k)). cbv zeta.
  destruct (Z.eqb_spec (nk_count c k) 0); [lia|]. mstep.
  destruct k as [cnt pend sav lk ifl]. nk_simp.
  destruct (Z.eqb_spec (nth c cnt 0 + 1) 1); [lia|]. done.
Qed.

Lemma NKern_Unlock_nested_run resched c k :
  nk_wf k -> (c < MAX_CPUS)%nat -> 1 < nk_count c k ->
  NKern_Unlock_cpu resched c k = Done tt (set_count c (nk_count c k - 1) k) [].
Proof.
  intros Hwf Hc Hn. unfold NKern_Unlock_cpu, dec_count. mstep.
  destruct k as [cnt pend sav lk ifl]. nk_simp.
  destruct (Z.ltb_spec 0 (nth c cnt 0)); [|lia]. nk_simp.
  destruct (Z.eqb_spec (nth c cnt 0 - 1) 0); [lia|]. done.
Qed.

(** ** The lock promises what its clients rely on *)

Section Instance.
Context (c : nat) (sched64_reschedule : M nkern unit).

#[export] Instance nkern_lock_ops : KernLockOps nkern := {|
  NKern_Lock := NKern_Lock_cpu c;
  NKern_Unlock := NKern_Unlock_cpu sched64_reschedule c;
  lock_idle k := nk_wf k /\ (c < MAX_CPUS)%nat /\ nk_count c k = 0 /\
                 nk_pending c k = 0 /\ big_kernel_lock k = 0;
  lock_held k := nk_wf k /\ nk_count c k = 1 /\ big_kernel_lock k = 1;
  lock_irq k := nk_if c k
|}.

#[export] Instance nkern_lock : KernLock nkern.
Proof.
  split. intros k (Hwf & Hc & Hn & Hp & Hl). cbn [NKern_Lock NKern_Unlock nkern_lock_ops].
  pose proof (NKern_Lock_run c k Hwf Hc Hn Hl) as EL.
  set (k1 := set_lock 1 (set_count c 1 (set_saved c (Z.b2z (nk_if c k)) (set_if c false k)))) in EL.
  assert (nk_wf k1) as Hwf1 by (unfold k1; nk_simp; done).
  assert (nk_count c k1 = 1 /\ nk_if c k1 = false /\ nk_saved c k1 = Z.b2z (nk_if c k))
    as (Hn1 & Hi1 & Hs1) by (unfold k1; unfold nk_wf in Hwf; nk_simp; done).
  assert (nk_pending c k1 = 0) as Hp1 by done.
  pose proof (NKern_Unlock_run sched64_reschedule c k1 Hwf1 Hc Hn1 Hp) as EU.
  rewrite Hs1 in EU. eexists _, _, _, _. split; [exact EL|].
  split; [done|]. split; [exact Hi1|]. split; [exact EU|]. cbn.
  destruct k1 as [cnt pend sav lk ifl]. unfold nk_if in *.
  destruct (nth c (iflag k) false); cbn; nk_simp; split_and!; tauto || done.
Qed.
End Instance.

Lemma NKern_UnlockAfterSwitch_run c k :
  nk_wf k -> (c < MAX_CPUS)%nat -> 1 <= nk_count c k ->
  NKern_UnlockAfterSwitch c k =
  Done tt (if nk_count c k =? 1 then set_if c true (set_lock 0 (set_count c 0 k))
           else set_count c (nk_count c k - 1) k)
    (if nk_count c k =? 1 then [EInstr "sti" 0] else []).
Proof.
  intros Hwf Hc Hn. unfold NKern_UnlockAfterSwitch, dec_count, spin_release. mstep.
  destruct k as [cnt pend sav lk ifl]. nk_simp.
  destruct (Z.ltb_spec 0 (nth c cnt 0)); [|lia]. nk_simp.
  destruct (Z.eqb_spec (nth c cnt 0 - 1) 0), (Z.eqb_spec (nth c cnt 0) 1); try lia; [|done].
  mstep. replace (nth c cnt 0 - 1) with 0 by lia. reflexivity.
Qed.

Lemma NKern_LockForSwitch_run c k :
  nk_wf k -> (c < MAX_CPUS)%nat -> nk_count c k = 0 -> big_kernel_lock k = 0 ->
  NKern_LockForSwitch c k =
  Done tt (set_lock 1 (set_count c 1 (set_if c false k))) [EInstr "cli" 0].
Proof.
  intros Hwf Hc Hn Hl. unfold NKern_LockForSwitch.
  rewrite (bind_done _ _ _ _ _ _ (LockForSwitch_enter_run c k)). rewrite Hn. mstep.
  destruct k as [cnt pend sav lk ifl]. nk_simp. cbn. unfold spin_acquire, test_and_set.
  mstep. cbn in *. by rewrite Hl.
Qed.
