(* ===== verification/NKernSmp.v ===== *)
(** * The kernel lock on several CPUs

    Interleaved execution of the lock operations by all CPUs.  Everything an
    operation does before its spin touches only data of its own CPU, so it is one
    step; each [test_and_set] is one step; a release is one step.  [Tick] is the
    timer interrupt, delivered only to a CPU whose interrupt flag is set, with the
    part of [sched64_timer_tick] that looks at the lock.  When [NKern_Unlock] or the
    tick calls [sched64_reschedule], the steps of that call follow as steps of their
    own.  [fresh] says whether threads may be started for the first time: the
    [popfq] of [context_switch64] then loads the initial RFLAGS 0x202 (sched64.c:54),
    which sets the interrupt flag while the lock is still held. *)

From S2P Require Import Prelude Machine KernLock NKern.

(** Where a CPU stands with respect to the lock. *)
Inductive pc := Free | Spin | Hold.

#[export] Instance pc_eq_dec : EqDecision pc.
Proof. solve_decision. Defined.

Definition sys : Type := nkern * list pc.
Definition pc_of (c : nat) (ps : list pc) : pc := nth c ps Free.

(** The state after [NKern_Unlock], or at its call of [sched64_reschedule]. *)
Definition unlock_point (c : nat) (k : nkern) : nkern := final (NKern_Unlock_cpu hang c k).

Section Steps.
Context (fresh : bool).

Inductive lstep : sys -> sys -> Prop :=
| LLock c k ps k' t :          (* NKern_Lock, up to the spin *)
    (c < MAX_CPUS)%nat -> pc_of c ps <> Spin -> Lock_enter c k = Done tt k' t ->
    lstep (k, ps) (k', <[c := if nk_count c k' =? 1 then Spin else Hold]> ps)
| LLockForSwitch c k ps k' t : (* NKern_LockForSwitch, up to the spin *)
    (c < MAX_CPUS)%nat -> pc_of c ps <> Spin -> LockForSwitch_enter c k = Done tt k' t ->
    lstep (k, ps) (k', <[c := if nk_count c k' =? 1 then Spin else Hold]> ps)
| LSpin c k ps old k' t :      (* one test-and-set *)
    (c < MAX_CPUS)%nat -> pc_of c ps = Spin -> test_and_set k = Done old k' t ->
    lstep (k, ps) (k', <[c := if old =? 0 then Hold else Spin]> ps)
| LUnlock c k ps k' :          (* NKern_Unlock by the holder *)
    (c < MAX_CPUS)%nat -> pc_of c ps = Hold -> unlock_point c k = k' ->
    lstep (k, ps) (k', <[c := if nk_count c k' =? 0 then Free else Hold]> ps)
| LUnlockAfterSwitch c k ps k' t : (* NKern_UnlockAfterSwitch by the holder *)
    (c < MAX_CPUS)%nat -> pc_of c ps = Hold -> NKern_UnlockAfterSwitch c k = Done tt k' t ->
    lstep (k, ps) (k', <[c := if nk_count c k' =? 0 then Free else Hold]> ps)
| LTick c k ps k' t :          (* timer interrupt *)
    (c < MAX_CPUS)%nat -> nk_if c k = true ->
    (if NKern_IsLocked c k then NKern_RequestReschedule c else ret tt) k = Done tt k' t ->
    lstep (k, ps) (k', ps)
| LPopf c k ps :               (* first switch to a new thread *)
    (c < MAX_CPUS)%nat -> fresh = true -> pc_of c ps = Hold ->
    lstep (k, ps) (set_if c true k, ps)
| LSti c k ps k' t :           (* sti outside of a critical section *)
    (c < MAX_CPUS)%nat -> pc_of c ps = Free -> sti c k = Done tt k' t ->
    lstep (k, ps) (k', ps)
| LCli c k ps k' t :
    (c < MAX_CPUS)%nat -> cli c k = Done tt k' t -> lstep (k, ps) (k', ps).

Inductive lreach : sys -> Prop :=
| LR_boot : lreach (nkern_boot, replicate MAX_CPUS Free)
| LR_step s s' : lreach s -> lstep s s' -> lreach s'.

(** What holds of one CPU. *)
Definition cpu_ok (k : nkern) (ps : list pc) (c : nat) : Prop :=
  match pc_of c ps with
  | Free => nk_count c k = 0
  | Spin => nk_count c k = 1
  | Hold => 1 <= nk_count c k
  end /\
  (fresh = false -> (0 < nk_count c k -> nk_if c k = false) /\ nk_pending c k = 0).

Record linv (s : sys) : Prop := {
  li_wf : nk_wf (fst s);
  li_len : length (snd s) = MAX_CPUS;
  li_cpu c : (c < MAX_CPUS)%nat -> cpu_ok (fst s) (snd s) c;
  li_lock : big_kernel_lock (fst s) = 0 \/ big_kernel_lock (fst s) = 1;
  li_held c : (c < MAX_CPUS)%nat -> pc_of c (snd s) = Hold -> big_kernel_lock (fst s) = 1;
  li_excl c d : (c < MAX_CPUS)%nat -> (d < MAX_CPUS)%nat ->
    pc_of c (snd s) = Hold -> pc_of d (snd s) = Hold -> c = d
}.

(** ** Preservation *)

(** A step that leaves the lock word alone and does not make CPU [c] a holder. *)
Lemma linv_local k ps k' ps' c :
  linv (k, ps) -> (c < MAX_CPUS)%nat -> nk_wf k' -> length ps' = MAX_CPUS ->
  big_kernel_lock k' = big_kernel_lock k ->
  cpu_ok k' ps' c -> (pc_of c ps' = Hold -> pc_of c ps = Hold) ->
  (forall d, d <> c -> nk_count d k' = nk_count d k /\ nk_if d k' = nk_if d k /\
     nk_pending d k' = nk_pending d k /\ pc_of d ps' = pc_of d ps) ->
  linv (k', ps').
Proof.
  intros [Hwf Hlen Hcpu Hlk Hheld Hex] Hc Hwf' Hlen' Hl Hok Hh Hd. simpl in *.
  assert (forall d, pc_of d ps' = Hold -> pc_of d ps = Hold) as Hh'.
  { intros d. destruct (decide (d = c)) as [->|Hne]; [done|].
    destruct (Hd d Hne) as (_ & _ & _ & ->). done. }
  split; simpl; try done.
  - intros d Hdc. destruct (decide (d = c)) as [->|Hne]; [done|].
    unfold cpu_ok. destruct (Hd d Hne) as (-> & -> & -> & ->). by apply Hcpu.
  - by rewrite Hl.
  - intros d Hdc Hhd. rewrite Hl. eauto.
  - eauto.
Qed.

Ltac others :=
  let d := fresh "d" in let Hd := fresh "Hd" in
  intros d Hd; unfold pc_of; nk_simp; done.

Lemma linv_enter k ps k' c s1 :
  linv (k, ps) -> (c < MAX_CPUS)%nat -> pc_of c ps <> Spin ->
  k' = set_count c (nk_count c k + 1) (if nk_count c k =? 0 then s1 else set_if c false k) ->
  (s1 = set_if c false k \/ exists v, s1 = set_saved c v (set_if c false k)) ->
  linv (k', <[c := if nk_count c k' =? 1 then Spin else Hold]> ps).
Proof.
  intros Hinv Hc Hpc -> Hs1. pose proof (li_cpu _ Hinv c Hc) as (Hn & Hf).
  pose proof (li_wf _ Hinv) as Hwf. pose proof (li_len _ Hinv) as Hlen. simpl in *.
  assert (0 <= nk_count c k) as Hpos by (destruct (pc_of c ps); lia).
  set (k2 := if nk_count c k =? 0 then s1 else set_if c false k).
  assert (nk_wf k2 /\ big_kernel_lock k2 = big_kernel_lock k /\ nk_if c k2 = false /\
    nk_pending c k2 = nk_pending c k /\
    (forall d, d <> c -> nk_count d k2 = nk_count d k /\ nk_if d k2 = nk_if d k /\
       nk_pending d k2 = nk_pending d k)) as (Hwf2 & Hl2 & Hi2 & Hp2 & Hd2).
  { unfold k2. destruct (_ =? _), Hs1 as [->|[v ->]]; unfold nk_wf in Hwf; nk_simp;
      (split_and!; try tauto; intros d Hd; nk_simp; done). }
  clearbody k2. unfold nk_wf in Hwf2.
  assert (nk_count c (set_count c (nk_count c k + 1) k2) = nk_count c k + 1) as Hcnt.
  { nk_simp. done. }
  rewrite Hcnt. apply (linv_local k ps _ _ c Hinv Hc).
  - nk_simp. done.
  - by rewrite length_insert.
  - done.
  - unfold cpu_ok, pc_of. rewrite nth_insert_eq by lia. rewrite Hcnt. split.
    + destruct (Z.eqb_spec (nk_count c k + 1) 1); lia.
    + intros [_ Hp]%Hf. split; [intros _; exact Hi2|by transitivity (nk_pending c k)].
  - unfold pc_of in *. rewrite nth_insert_eq by lia. destruct (Z.eqb_spec (nk_count c k + 1) 1); [done|].
    intros _. destruct (nth c ps Free); [lia|done..].
  - intros d Hd. destruct (Hd2 d Hd) as (<- & <- & <-). unfold pc_of. nk_simp. done.
Qed.

(** A release: the count goes down; at zero the lock word is cleared. *)
Lemma linv_release k ps k' c :
  linv (k, ps) -> (c < MAX_CPUS)%nat -> pc_of c ps = Hold ->
  (nk_count c k = 1 /\ (exists b v, (nk_pending c k = 0 -> v = 0) /\
     k' = set_if c b (set_pending c v (set_lock 0 (set_count c 0 k)))) \/
   1 < nk_count c k /\ k' = set_count c (nk_count c k - 1) k) ->
  linv (k', <[c := if nk_count c k' =? 0 then Free else Hold]> ps).
Proof.
  intros Hinv Hc Hpc Hk. pose proof (li_cpu _ Hinv c Hc) as (Hn & Hf).
  pose proof (li_wf _ Hinv) as Hwf. pose proof (li_len _ Hinv) as Hlen. simpl in *.
  rewrite Hpc in Hn. destruct Hk as [[H1 (b & v & Hv & ->)]|[H1 ->]].
  - replace (nk_count c (set_if c b (set_pending c v (set_lock 0 (set_count c 0 k))))) with 0
      by (unfold nk_wf in Hwf; nk_simp; done).
    assert (forall d, d <> c -> (d < MAX_CPUS)%nat -> pc_of d ps <> Hold) as Hnone.
    { intros d Hd Hdc Hh. apply Hd. by apply (li_excl _ Hinv d c). }
    split; simpl; rewrite ?length_insert; try done.
    + unfold nk_wf in Hwf. nk_simp. done.
    + intros d Hdc. unfold cpu_ok, pc_of. destruct (decide (d = c)) as [->|Hd].
      * rewrite nth_insert_eq by lia. unfold nk_wf in Hwf. nk_simp. split; [done|].
        intros [_ Hp]%Hf. split; [lia|by apply Hv].
      * rewrite nth_insert_ne by done. pose proof (li_cpu _ Hinv d Hdc) as Hok.
        unfold cpu_ok, pc_of in Hok. simpl in Hok. nk_simp. done.
    + by left.
    + intros d Hdc. unfold pc_of. destruct (decide (d = c)) as [->|Hd].
      * by rewrite nth_insert_eq by lia.
      * rewrite nth_insert_ne by done. intros Hh. by destruct (Hnone d).
    + intros d e Hdc Hec. unfold pc_of. destruct (decide (d = c)) as [->|Hd].
      * by rewrite nth_insert_eq by lia.
      * rewrite nth_insert_ne by done. intros Hh. by destruct (Hnone d).
  - assert (nk_count c (set_count c (nk_count c k - 1) k) = nk_count c k - 1) as Hcnt
      by (unfold nk_wf in Hwf; nk_simp; done).
    rewrite Hcnt. destruct (Z.eqb_spec (nk_count c k - 1) 0); [lia|].
    apply (linv_local k ps _ _ c Hinv Hc).
    + unfold nk_wf in Hwf. nk_simp. done.
    + by rewrite length_insert.
    + done.
    + unfold cpu_ok, pc_of. rewrite nth_insert_eq by lia. rewrite Hcnt. split; [lia|].
      intros [Hif Hp]%Hf. split; [|done]. intros _. apply Hif. lia.
    + done.
    + others.
Qed.

Lemma linv_spin k ps c :
  linv (k, ps) -> (c < MAX_CPUS)%nat -> pc_of c ps = Spin ->
  linv (set_lock 1 k, <[c := if big_kernel_lock k =? 0 then Hold else Spin]> ps).
Proof.
  intros Hinv Hc Hpc. pose proof (li_cpu _ Hinv c Hc) as Hok.
  pose proof (li_wf _ Hinv) as Hwf. pose proof (li_len _ Hinv) as Hlen. simpl in *.
  destruct (Z.eqb_spec (big_kernel_lock k) 0) as [Hz|Hnz].
  - assert (forall d, (d < MAX_CPUS)%nat -> pc_of d ps <> Hold) as Hnone.
    { intros d Hdc Hh. pose proof (li_held _ Hinv d Hdc Hh) as H. simpl in H. lia. }
    split; simpl; rewrite ?length_insert; try done; auto.
    + intros d Hdc. unfold cpu_ok, pc_of. destruct (decide (d = c)) as [->|Hd].
      * rewrite nth_insert_eq by lia. unfold cpu_ok in Hok. rewrite Hpc in Hok.
        nk_unfold. intuition lia.
      * rewrite nth_insert_ne by done. by apply (li_cpu _ Hinv d Hdc).
    + intros d e Hdc Hec. unfold pc_of.
      destruct (decide (d = c)) as [->|Hd]; destruct (decide (e = c)) as [->|He]; [done|..].
      * rewrite (nth_insert_ne _ _ e) by done. intros _ Hh. by destruct (Hnone e).
      * rewrite (nth_insert_ne _ _ d) by done. intros Hh _. by destruct (Hnone d).
      * rewrite (nth_insert_ne _ _ d) by done. intros Hh _. by destruct (Hnone d).
  - replace (set_lock 1 k) with k; [|destruct k as [? ? ? lk ?]; unfold set_lock; simpl in *;
      destruct (li_lock _ Hinv); simpl in *; subst lk; done].
    apply (linv_local k ps _ _ c Hinv Hc); try done.
    + by rewrite length_insert.
    + unfold cpu_ok, pc_of in *. rewrite nth_insert_eq by lia. by rewrite Hpc in Hok.
    + unfold pc_of. by rewrite nth_insert_eq by lia.
    + others.
Qed.

(** A change of the interrupt flag or of the deferred-reschedule flag. *)
Lemma linv_flags k ps c b v :
  linv (k, ps) -> (c < MAX_CPUS)%nat ->
  (fresh = false -> (b = false \/ pc_of c ps = Free) /\ v = 0) ->
  linv (set_if c b (set_pending c v k), ps).
Proof.
  intros Hinv Hc Hb. pose proof (li_cpu _ Hinv c Hc) as (Hn & Hf).
  pose proof (li_wf _ Hinv) as Hwf. simpl in *. unfold nk_wf in Hwf.
  apply (linv_local k ps _ _ c Hinv Hc); try done.
  - nk_simp. done.
  - by apply li_len in Hinv.
  - unfold cpu_ok. nk_simp. split; [done|]. intros Hfr. split; [|by apply Hb].
    intros Hpos. destruct (Hb Hfr) as [[->|HF] _]; [done|]. rewrite HF in Hn. lia.
  - others.
Qed.

Lemma linv_set_if k ps c b :
  linv (k, ps) -> (c < MAX_CPUS)%nat -> (fresh = false -> b = false \/ pc_of c ps = Free) ->
  linv (set_if c b k, ps).
Proof.
  intros Hinv Hc Hb. pose proof (li_wf _ Hinv) as Hwf. pose proof (li_cpu _ Hinv c Hc) as (_ & Hf).
  rewrite <- (set_pending_id c (nk_pending c k) k) by done.
  apply linv_flags; [done..|]. intros Hfr. split; [auto|by apply Hf].
Qed.

(** What [NKern_Unlock] has done when it returns or reschedules. *)
Lemma unlock_point_spec c k :
  nk_wf k -> (c < MAX_CPUS)%nat -> 1 <= nk_count c k ->
  nk_count c k = 1 /\ (exists b v, (nk_pending c k = 0 -> v = 0) /\
    unlock_point c k = set_if c b (set_pending c v (set_lock 0 (set_count c 0 k)))) \/
  1 < nk_count c k /\ unlock_point c k = set_count c (nk_count c k - 1) k.
Proof.
  intros Hwf Hc Hn. unfold unlock_point. destruct (decide (nk_count c k = 1)) as [H1|H1].
  - left. split; [done|]. set (k1 := set_lock 0 (set_count c 0 k)).
    assert (nk_wf k1) as Hwf1 by (unfold k1, nk_wf in *; nk_simp; done).
    destruct (decide (nk_pending c k = 0)) as [Hp|Hp].
    + rewrite NKern_Unlock_run by done. cbn [final]. exists (if nk_saved c k =? 0 then nk_if c k else true), 0.
      split; [done|]. fold k1. rewrite (set_pending_id c 0 k1) by done.
      destruct (nk_saved c k =? 0); [|done]. symmetry. by apply set_if_id.
    + exists (nk_if c k), 0. split; [done|].
      unfold NKern_Unlock_cpu, dec_count, spin_release. mstep.
      rewrite H1. change (0 <? 1) with true. change (1 - 1) with 0. cbv iota.
      replace (nk_count c (set_count c 0 k)) with 0 by (unfold nk_wf in Hwf; nk_simp; done).
      change (0 =? 0) with true. cbv iota. mstep. fold k1.
      change (nk_pending c k1) with (nk_pending c k).
      destruct (Z.eqb_spec (nk_pending c k) 0); [done|]. cbn [negb]. mstep.
      unfold bind, hang. cbn [final]. symmetry. apply set_if_id; try done.
      unfold nk_wf in *; nk_simp; done.
  - right. split; [lia|]. rewrite NKern_Unlock_nested_run by (done || lia). done.
Qed.

Lemma linv_step s s' : linv s -> lstep s s' -> linv s'.
Proof.
  intros Hinv Hstep. destruct Hstep as [c k ps k' t Hc Hpc E|c k ps k' t Hc Hpc E|
    c k ps old k' t Hc Hpc E|c k ps k' Hc Hpc E|c k ps k' t Hc Hpc E|c k ps k' t Hc Hi E|
    c k ps Hc Hfr Hpc|c k ps k' t Hc Hpc E|c k ps k' t Hc E].
  all: pose proof (li_cpu _ Hinv c Hc) as (Hn & Hf); pose proof (li_wf _ Hinv) as Hwf; simpl in *.
  - rewrite Lock_enter_run in E. injection E as E _. subst k'.
    apply (linv_enter k ps _ c (set_saved c (Z.b2z (nk_if c k)) (set_if c false k))); eauto.
  - rewrite LockForSwitch_enter_run in E. injection E as E _. subst k'.
    apply (linv_enter k ps _ c (set_if c false k)); auto. by destruct (_ =? _).
  - unfold test_and_set in E. injection E as <- <- _. by apply linv_spin.
  - rewrite Hpc in Hn. apply (linv_release k); try done. subst k'. by apply unlock_point_spec.
  - rewrite Hpc in Hn. apply (linv_release k); try done.
    rewrite NKern_UnlockAfterSwitch_run in E by done. injection E as E _. subst k'.
    destruct (Z.eqb_spec (nk_count c k) 1); [left|right; split; [lia|done]].
    split; [done|]. exists true, (nk_pending c k). split; [done|]. rewrite set_pending_id; try done.
    unfold nk_wf in *. nk_simp. done.
  - unfold NKern_IsLocked in E. destruct (Z.ltb_spec 0 (nk_count c k)) as [H|]; [|injection E as <- _; done].
    injection E as E _. subst k'. rewrite <- (set_if_id c (nk_if c k) (set_pending c 1 k)); try done;
      [|unfold nk_wf in *; nk_simp; done].
    apply linv_flags; try done. intros Hfr. destruct (Hf Hfr) as [Hif _]. specialize (Hif H). congruence.
  - apply linv_set_if; try done. congruence.
  - unfold sti, instr in E. injection E as E _. subst k'. by apply linv_set_if; auto.
  - unfold cli, instr in E. injection E as E _. subst k'. by apply linv_set_if; auto.
Qed.

Lemma linv_boot : linv (nkern_boot, replicate MAX_CPUS Free).
Proof.
  split; simpl; try done; auto.
  - intros c Hc. unfold cpu_ok, pc_of. unfold MAX_CPUS in Hc.
    do 16 (destruct c as [|c]; [done|]). lia.
  - intros c Hc. unfold pc_of, MAX_CPUS in *. do 16 (destruct c as [|c]; [done|]). lia.
  - intros c d Hc. unfold pc_of, MAX_CPUS in *. do 16 (destruct c as [|c]; [done|]). lia.
Qed.

Lemma lreach_inv s : lreach s -> linv s.
Proof. induction 1; eauto using linv_boot, linv_step. Qed.

End Steps.

(** ** Safety of the lock *)


(** As long as no thread is started for the first time, a CPU that holds the
    lock, nested or not, or spins for it has its interrupts disabled; the timer
    interrupt never finds the lock held on its own CPU, so [NKern_RequestReschedule]
    is never called and no CPU ever has a reschedule pending when it unlocks. *)
Theorem nkern_no_deferred_reschedule k ps c :
  lreach false (k, ps) -> (c < MAX_CPUS)%nat ->
  (NKern_IsLocked c k = true -> nk_if c k = false) /\ nk_pending c k = 0.
Proof.
  intros Hinv%lreach_inv Hc. pose proof (li_cpu _ _ Hinv c Hc) as (Hn & Hf). simpl in *.
  destruct (Hf eq_refl) as [Hif Hp]. split; [|done]. intros Hl%Z.ltb_lt. by apply Hif.
Qed.

(** The first switch to a new thread breaks this: [popfq] enables interrupts before
    [thread_start64] has released the lock, and a tick that comes then finds the lock
    held by its own CPU. *)
Theorem nkern_fresh_thread_window : exists k ps,
  lreach true (k, ps) /\ pc_of 0 ps = Hold /\ nk_if 0 k = true /\ nk_pending 0 k = 1.
Proof.
  set (k1 := final (LockForSwitch_enter 0 nkern_boot)). set (k2 := final (test_and_set k1)).
  set (k3 := set_if 0 true k2).
  exists (set_pending 0 1 k3), (<[0%nat := Hold]> (<[0%nat := Spin]> (replicate MAX_CPUS Free))).
  split; [|done]. assert (0 < MAX_CPUS)%nat as H0 by (unfold MAX_CPUS; lia).
  apply (LR_step _ (k3, <[0%nat := Hold]> (<[0%nat := Spin]> (replicate MAX_CPUS Free)))).
  - apply (LR_step _ (k2, <[0%nat := Hold]> (<[0%nat := Spin]> (replicate MAX_CPUS Free)))).
    + apply (LR_step _ (k1, <[0%nat := Spin]> (replicate MAX_CPUS Free))).
      * eapply LR_step; [apply LR_boot|]. by eapply (LLockForSwitch _ 0); [| |reflexivity].
      * by apply (LSpin true 0 k1 _ 0 k2 []).
    + by apply (LPopf _ 0).
  - by eapply (LTick _ 0); [| |reflexivity].
Qed.

(** CPU 0 holds the lock, CPU 1 entered after it and spins. *)
Definition contended : sys :=
  let k1 := final (Lock_enter 0 nkern_boot) in
  let k2 := final (test_and_set k1) in
  let k3 := final (Lock_enter 1 k2) in
  (k3, <[1%nat := Spin]> (<[0%nat := Hold]> (<[0%nat := Spin]> (replicate MAX_CPUS Free)))).

Lemma contended_reach fresh : lreach fresh contended.
Proof.
  eapply LR_step; [eapply LR_step; [eapply LR_step; [exact (LR_boot fresh)|]|]|].
  - by eapply (LLock _ 0); [unfold MAX_CPUS; lia| |reflexivity].
  - by eapply (LSpin _ 0); [unfold MAX_CPUS; lia|reflexivity|reflexivity].
  - by eapply (LLock _ 1); [unfold MAX_CPUS; lia| |reflexivity].
Qed.


Lemma nkern_no_deferred_reschedule_witness :
  (NKern_IsLocked 1 (fst contended) = true -> nk_if 1 (fst contended) = false) /\
  nk_pending 1 (fst contended) = 0.
Proof.
  apply (nkern_no_deferred_reschedule _ (snd contended)); [exact (contended_reach false)|].
  unfold MAX_CPUS. lia.
Defined.

(** ** Nesting *)

Fixpoint repeatM {S} (n : nat) (m : M S unit) : M S unit :=
  match n with O => ret tt | Datatypes.S n' => m ;;; repeatM n' m end.

Lemma Unlock_nest rs c n : forall k,
  nk_wf k -> (c < MAX_CPUS)%nat -> nk_count c k = 1 + Z.of_nat n ->
  exists t, repeatM n (NKern_Unlock_cpu rs c) k = Done tt (set_count c 1 k) t.
Proof.
  induction n as [|n IH]; intros k Hwf Hc Hn.
  - exists []. by rewrite set_count_id.
  - cbn [repeatM]. rewrite (bind_done _ _ _ _ _ _ (NKern_Unlock_nested_run rs c k Hwf Hc ltac:(lia))).
    destruct (IH (set_count c (nk_count c k - 1) k)) as [t E].
    + unfold nk_wf in *. nk_simp. done.
    + done.
    + unfold nk_wf in Hwf. nk_simp. lia.
    + exists t. rewrite E. simpl. f_equal. destruct k. unfold set_count. simpl.
      by rewrite list_insert_insert_eq.
Qed.

Lemma Lock_nest c n : forall k,
  nk_wf k -> (c < MAX_CPUS)%nat -> 0 < nk_count c k -> nk_if c k = false ->
  exists t, repeatM n (NKern_Lock_cpu c) k = Done tt (set_count c (nk_count c k + Z.of_nat n) k) t.
Proof.
  induction n as [|n IH]; intros k Hwf Hc Hn Hi.
  - exists []. by rewrite set_count_id by (done || lia).
  - cbn [repeatM]. rewrite (bind_done _ _ _ _ _ _ (NKern_Lock_nested_run c k Hwf Hc Hn)).
    rewrite set_if_id by done.
    destruct (IH (set_count c (nk_count c k + 1) k)) as [t E]; try done.
    + unfold nk_wf in *. nk_simp. done.
    + unfold nk_wf in Hwf. nk_simp. lia.
    + exists ([EInstr "cli" 0] ++ t). rewrite E. unfold nk_wf in Hwf. simpl. f_equal.
      nk_simp. destruct k; simpl in *. rewrite list_insert_insert_eq. do 2 f_equal. lia.
Qed.

(** A CPU that finds the lock free can take it any number
    of times; after as many unlocks the lock is free again and the interrupt flag
    has the value it had before the first lock, whatever that was, and until the
    last unlock the lock word stays set and interrupts stay off. *)
Theorem nkern_nested_sections rs c n k :
  lock_idle (KernLockOps := nkern_lock_ops c rs) k ->
  exists k1 t1 k2 t2 k3 t3,
    repeatM (Datatypes.S n) (NKern_Lock_cpu c) k = Done tt k1 t1 /\
    nk_count c k1 = Z.of_nat n + 1 /\ big_kernel_lock k1 = 1 /\ nk_if c k1 = false /\
    repeatM n (NKern_Unlock_cpu rs c) k1 = Done tt k2 t2 /\
    big_kernel_lock k2 = 1 /\ nk_if c k2 = false /\
    NKern_Unlock_cpu rs c k2 = Done tt k3 t3 /\
    lock_idle (KernLockOps := nkern_lock_ops c rs) k3 /\ nk_if c k3 = nk_if c k.
Proof.
  intros Hidle. pose proof Hidle as (Hwf & Hc & Hn & Hp & Hl).
  pose proof (NKern_Lock_run c k Hwf Hc Hn Hl) as E1.
  destruct (lock_section (KernLock := nkern_lock c rs) k Hidle)
    as (ka & ta & kb & tb & Ea & _ & _ & Eb & Hib & Hqb).
  cbn [NKern_Lock NKern_Unlock nkern_lock_ops lock_irq] in *.
  rewrite E1 in Ea. injection Ea as <- _.
  set (k1 := set_lock 1 _) in *.
  assert (nk_wf k1 /\ nk_count c k1 = 1 /\ nk_if c k1 = false) as (Hwf1 & Hn1 & Hi1)
    by (unfold k1; unfold nk_wf in *; nk_simp; done).
  destruct (Lock_nest c n k1 Hwf1 Hc ltac:(lia) Hi1) as [t2 E2]. rewrite Hn1 in E2.
  set (k2 := set_count c (1 + Z.of_nat n) k1) in *.
  destruct (Unlock_nest rs c n k2) as [t3 E3];
    [unfold k2, nk_wf in *; nk_simp; done|done|unfold k2, nk_wf in *; nk_simp; done|].
  assert (set_count c 1 k2 = k1) as Hk.
  { unfold k2, k1, set_count, set_lock, set_saved, set_if. simpl. by rewrite !list_insert_insert_eq. }
  rewrite Hk in E3. exists k2, ([EInstr "cli" 0] ++ t2), k1, t3, kb, tb.
  split_and!; try done.
  - cbn [repeatM]. rewrite (bind_done _ _ _ _ _ _ E1). fold k1. by rewrite E2.
  - unfold k2, nk_wf in *. nk_simp. lia.
Qed.

Lemma nkern_nested_sections_witness :
  exists k1 t1 k2 t2 k3 t3,
    repeatM 3 (NKern_Lock_cpu 0) nkern_boot = Done tt k1 t1 /\
    nk_count 0 k1 = Z.of_nat 2 + 1 /\ big_kernel_lock k1 = 1 /\ nk_if 0 k1 = false /\
    repeatM 2 (NKern_Unlock_cpu (ret tt) 0) k1 = Done tt k2 t2 /\
    big_kernel_lock k2 = 1 /\ nk_if 0 k2 = false /\
    NKern_Unlock_cpu (ret tt) 0 k2 = Done tt k3 t3 /\
    lock_idle (KernLockOps := nkern_lock_ops 0 (ret tt)) k3 /\ nk_if 0 k3 = nk_if 0 nkern_boot.
Proof.
  apply (nkern_nested_sections (ret tt) 0 2). cbn. unfold nk_wf, MAX_CPUS.
  split_and!; done || lia.
Defined.
