(* ===== verification/Heap.v ===== *)
(** * heap.c: the kernel heap

    A static arena of 1 MB holds a doubly linked list of all blocks in address
    order.  Each block starts with a 32-byte header [block_t] (size at offset 0,
    free at 8, next at 16, prev at 24); an allocated block starts its payload with
    a 4-byte magic number.  The state is the memory, the head pointer and the
    state of the kernel lock the operations take. *)

From S2P Require Import Prelude Memory Machine KernLock.

Definition PANIC_HEAP_OOM : Z := 1.
Definition PANIC_HEAP_CORRUPT : Z := 2.
Definition HEAP_SIZE : Z := 1 * 1024 * 1024.
Definition BLOCK_MAGIC : Z := 0xDEADC0DE.
Definition sizeof_block_t : Z := 32.

(** A block has at least its header, so no more than [HEAP_SIZE / 32] blocks fit:
    walking the list takes at most that many steps and one to see the end. *)
Definition heap_fuel : nat := Z.to_nat 32769.

Definition align16 (n : Z) : Z := Z.land (u64 (n + 15)) (u64 (Z.lnot 15)).

(** Fields of [block_t] at address [b]. *)
Definition blk_size (m : mem) (b : Z) : Z := load64 m b.
Definition blk_free (m : mem) (b : Z) : Z := load32 m (b + 8).
Definition blk_next (m : mem) (b : Z) : Z := load64 m (b + 16).
Definition blk_prev (m : mem) (b : Z) : Z := load64 m (b + 24).
Definition set_size (b v : Z) (m : mem) : mem := store64 m b v.
Definition set_free (b v : Z) (m : mem) : mem := store32 m (b + 8) v.
Definition set_next (b v : Z) (m : mem) : mem := store64 m (b + 16) v.
Definition set_prev (b v : Z) (m : mem) : mem := store64 m (b + 24) v.

Section Heap.
Context {L : Type} {LO : KernLockOps L}.

(** Link-time address of [heap_arena]. *)
Context (heap_arena : Z).

Record heap := mkHeap { h_mem : mem; heap_list : Z; h_lock : L }.

Definition upd_mem (f : mem -> mem) : M heap unit :=
  modify (fun h => mkHeap (f (h_mem h)) (heap_list h) (h_lock h)).
Definition locked {A} (m : M L A) : M heap A :=
  zoom h_lock (fun l h => mkHeap (h_mem h) (heap_list h) l) m.

Definition heap_init : M heap unit :=
  modify (fun h => mkHeap (h_mem h) heap_arena (h_lock h)) ;;;
  b <- gets heap_list ;;
  upd_mem (set_size b (HEAP_SIZE - sizeof_block_t)) ;;;
  upd_mem (set_free b 1) ;;;
  upd_mem (set_next b 0) ;;;
  upd_mem (set_prev b 0).

Definition find_free_block (size : Z) : M heap Z :=
  b0 <- gets heap_list ;;
  loop heap_fuel (fun b =>
    if b =? 0 then ret (inr 0) else
    m <- gets h_mem ;;
    if negb (blk_free m b =? 0) && (size <=? blk_size m b)
    then ret (inr b)
    else ret (inl (blk_next m b))) b0.

Definition split_block (b size : Z) : M heap unit :=
  m <- gets h_mem ;;
  let remaining := u64 (blk_size m b - size) in
  if remaining <=? sizeof_block_t + 16 then ret tt else
  let new_block := b + sizeof_block_t + size in
  upd_mem (set_size new_block (u64 (remaining - sizeof_block_t))) ;;;
  upd_mem (set_free new_block 1) ;;;
  upd_mem (fun m => set_next new_block (blk_next m b) m) ;;;
  upd_mem (set_prev new_block b) ;;;
  upd_mem (fun m => if blk_next m b =? 0 then m
                    else set_prev (blk_next m b) new_block m) ;;;
  upd_mem (set_next b new_block) ;;;
  upd_mem (set_size b size).

Definition kmalloc (size : Z) : M heap Z :=
  if size =? 0 then ret 0 else
  let size := align16 size in
  locked NKern_Lock ;;;
  let total_needed := u64 (size + 4) in
  b <- find_free_block total_needed ;;
  if b =? 0 then
    locked NKern_Unlock ;;; neka_panic "HEAP" PANIC_HEAP_OOM
  else
    split_block b total_needed ;;;
    upd_mem (set_free b 0) ;;;
    upd_mem (fun m => store32 m (b + sizeof_block_t) BLOCK_MAGIC) ;;;
    locked NKern_Unlock ;;;
    ret (b + sizeof_block_t + 4).

Definition coalesce_forward (b : Z) : M heap unit :=
  m <- gets h_mem ;;
  let n := blk_next m b in
  if negb (n =? 0) && negb (blk_free m n =? 0) then
    upd_mem (fun m => set_size b (u64 (blk_size m b + u64 (sizeof_block_t + blk_size m n))) m) ;;;
    upd_mem (fun m => set_next b (blk_next m n) m) ;;;
    upd_mem (fun m => if blk_next m n =? 0 then m else set_prev (blk_next m n) b m)
  else ret tt.

Definition kfree (ptr : Z) : M heap unit :=
  if ptr =? 0 then ret tt else
  locked NKern_Lock ;;;
  m <- gets h_mem ;;
  let magic_slot := ptr - 4 in
  if negb (load32 m magic_slot =? BLOCK_MAGIC) then
    locked NKern_Unlock ;;; neka_panic "HEAP" PANIC_HEAP_CORRUPT
  else
    let b := magic_slot - sizeof_block_t in
    upd_mem (set_free b 1) ;;;
    upd_mem (fun m => store32 m magic_slot 0) ;;;
    coalesce_forward b ;;;
    m <- gets h_mem ;;
    (if negb (blk_prev m b =? 0) && negb (blk_free m (blk_prev m b) =? 0)
     then coalesce_forward (blk_prev m b) else ret tt) ;;;
    locked NKern_Unlock.

Definition heap_free_bytes : M heap Z :=
  b0 <- gets heap_list ;;
  loop heap_fuel (fun '(b, total) =>
    if b =? 0 then ret (inr total) else
    m <- gets h_mem ;;
    let total := if blk_free m b =? 0 then total else u64 (total + blk_size m b) in
    ret (inl (blk_next m b, total))) (b0, 0).

Definition heap_print_stats : M heap unit :=
  free_bytes <- heap_free_bytes ;;
  b0 <- gets heap_list ;;
  block_count <- loop heap_fuel (fun '(b, n) =>
    if b =? 0 then ret (inr n) else
    m <- gets h_mem ;; ret (inl (blk_next m b, i32 (n + 1)))) (b0, 0) ;;
  kprint "[heap] free=" ;;;
  kprint_hex64 free_bytes ;;;
  kprint " bytes, blocks=" ;;;
  kprint_hex64 (u64 block_count) ;;;
  kprint nl.

End Heap.
Arguments heap L : clear implicits.
Arguments mkHeap {L} _ _ _.
