(* ===== verification/HeapSpec.v ===== *)
(** * Abstract heap and representation invariant

    The heap as a plain list of blocks in address order, the first-fit allocator on
    that list, and what it means for the arena to represent such a list. *)

From S2P Require Import Prelude Memory Machine KernLock Heap.

(** ** The abstract heap *)

Record blk := Blk { b_size : Z; b_free : bool }.

#[export] Instance blk_eq_dec : EqDecision blk.
Proof. solve_decision. Defined.

(** Bytes a block occupies, and a run of blocks. *)
Definition extent (b : blk) : Z := sizeof_block_t + b_size b.
Fixpoint span (bs : list blk) : Z :=
  match bs with [] => 0 | b :: bs' => extent b + span bs' end.

Definition free_sum (bs : list blk) : Z :=
  foldr (fun b acc => (if b_free b then b_size b else 0) + acc) 0 bs.

(** First fit: the blocks before, the block found, the blocks after. *)
Fixpoint first_fit (need : Z) (bs : list blk) : option (list blk * blk * list blk) :=
  match bs with
  | [] => None
  | b :: bs' =>
      if b_free b && (need <=? b_size b) then Some ([], b, bs')
      else match first_fit need bs' with
           | Some (l, x, r) => Some (b :: l, x, r)
           | None => None
           end
  end.

(** The blocks that replace a free block when [need] bytes of it are taken. *)
Definition carve (b : blk) (need : Z) : list blk :=
  if b_size b - need <=? sizeof_block_t + 16 then [Blk (b_size b) false]
  else [Blk need false; Blk (b_size b - need - sizeof_block_t) true].

(** Offset of the block in the arena, and the new list. *)
Definition abs_kmalloc (need : Z) (bs : list blk) : option (Z * list blk) :=
  match first_fit need bs with
  | Some (l, b, r) => Some (span l, l ++ carve b need ++ r)
  | None => None
  end.

(** A free block swallows its right neighbour when that is free too. *)
Definition absorb (b : blk) (r : list blk) : list blk :=
  match r with
  | n :: r' => if b_free n then Blk (b_size b + extent n) true :: r' else b :: r
  | [] => [b]
  end.

(** Free the block between [l] and [r]. *)
Definition abs_kfree (l : list blk) (b : blk) (r : list blk) : list blk :=
  let tail := absorb (Blk (b_size b) true) r in
  match rev l with
  | p :: l' => if b_free p then rev l' ++ absorb p tail else l ++ tail
  | [] => tail
  end.

(** ** Well-formedness of the abstract heap *)

(** The magic number of an allocated block fits in it. *)
Definition blk_ok (b : blk) : Prop := 4 <= b_size b.

(** No two neighbours are both free. *)
Fixpoint coalesced (bs : list blk) : Prop :=
  match bs with
  | a :: (b :: _) as r => (b_free a && b_free b = false) /\ coalesced r
  | _ => True
  end.

(** Address [x] belongs to the payload of an allocated block. *)
Fixpoint in_payload (a : Z) (bs : list blk) (x : Z) : Prop :=
  match bs with
  | [] => False
  | b :: bs' => (b_free b = false /\ a + 36 <= x < a + extent b) \/
                in_payload (a + extent b) bs' x
  end.

(** ** Representation in memory *)

(** The header of block [b] at address [a], with its two links. *)
Definition hdr (m : mem) (a : Z) (b : blk) (prev nxt : Z) : Prop :=
  blk_size m a = b_size b /\ blk_free m a = (if b_free b then 1 else 0) /\
  blk_next m a = nxt /\ blk_prev m a = prev /\
  (b_free b = false -> load32 m (a + sizeof_block_t) = BLOCK_MAGIC).

(** Address of the first block of [bs] placed at [a], or [nxt] when there is none. *)
Definition head_or (bs : list blk) (a nxt : Z) : Z :=
  match bs with [] => nxt | _ => a end.

(** A run of blocks from [a], linked back to [prev] and forward to [nxt]. *)
Fixpoint seg (m : mem) (prev a : Z) (bs : list blk) (nxt : Z) : Prop :=
  match bs with
  | [] => True
  | b :: bs' => hdr m a b prev (head_or bs' (a + extent b) nxt) /\
                seg m a (a + extent b) bs' nxt
  end.

(** Address of the last block of [bs] placed at [a], or [prev] when there is none. *)
Fixpoint last_addr (prev a : Z) (bs : list blk) : Z :=
  match bs with [] => prev | b :: bs' => last_addr a (a + extent b) bs' end.

(** ** Facts about lists of blocks *)

Lemma span_app l1 l2 : span (l1 ++ l2) = span l1 + span l2.
Proof. induction l1 as [|b l1 IH]; simpl; lia. Qed.

Lemma span_pos bs : Forall blk_ok bs -> 0 <= span bs.
Proof.
  induction 1 as [|b bs Hb _ IH]; simpl; [lia|].
  unfold blk_ok, extent, sizeof_block_t in *. lia.
Qed.

Lemma span_length bs : Forall blk_ok bs -> 32 * Z.of_nat (length bs) <= span bs.
Proof.
  induction 1 as [|b bs Hb _ IH]; simpl; [lia|].
  unfold blk_ok, extent, sizeof_block_t in *. lia.
Qed.

Lemma free_sum_app l1 l2 : free_sum (l1 ++ l2) = free_sum l1 + free_sum l2.
Proof. induction l1 as [|b l1 IH]; simpl; lia. Qed.

Lemma free_sum_bound bs : Forall blk_ok bs -> 0 <= free_sum bs <= span bs.
Proof.
  induction 1 as [|b bs Hb _ IH]; simpl; [lia|].
  unfold blk_ok, extent, sizeof_block_t in *. destruct (b_free b); lia.
Qed.

Lemma last_addr_app prev a l1 l2 :
  last_addr prev a (l1 ++ l2) = last_addr (last_addr prev a l1) (a + span l1) l2.
Proof.
  revert prev a. induction l1 as [|b l1 IH]; intros prev a; simpl.
  - by rewrite Z.add_0_r.
  - rewrite IH. f_equal. lia.
Qed.

Lemma head_or_app l1 l2 a nxt :
  head_or (l1 ++ l2) a nxt = head_or l1 a (head_or l2 a nxt).
Proof. by destruct l1. Qed.

Lemma seg_app m prev a l1 l2 nxt :
  seg m prev a (l1 ++ l2) nxt <->
  seg m prev a l1 (head_or l2 (a + span l1) nxt) /\
  seg m (last_addr prev a l1) (a + span l1) l2 nxt.
Proof.
  revert prev a. induction l1 as [|b l1 IH]; intros prev a; simpl.
  - rewrite Z.add_0_r. tauto.
  - rewrite IH, head_or_app.
    replace (a + extent b + span l1) with (a + (extent b + span l1)) by lia.
    destruct l1 as [|c l1]; simpl; [|tauto].
    rewrite Z.add_0_r. tauto.
Qed.

Lemma first_fit_spec need bs l b r :
  first_fit need bs = Some (l, b, r) ->
  bs = l ++ b :: r /\ b_free b = true /\ need <= b_size b /\
  Forall (fun c => b_free c && (need <=? b_size c) = false) l.
Proof.
  revert l. induction bs as [|c bs IH]; intros l; simpl; [done|].
  destruct (b_free c && (need <=? b_size c)) eqn:E.
  - intros [= <- <- <-]. apply andb_true_iff in E as [? ?%Z.leb_le]. by repeat split.
  - destruct (first_fit need bs) as [[[l' x] r']|]; [|done].
    intros [= <- <- <-]. destruct (IH l') as (-> & ? & ? & ?); [done|].
    repeat split; auto.
Qed.

Lemma first_fit_none need bs :
  first_fit need bs = None -> Forall (fun c => b_free c && (need <=? b_size c) = false) bs.
Proof.
  induction bs as [|c bs IH]; simpl; [done|].
  destruct (b_free c && (need <=? b_size c)) eqn:E; [done|].
  destruct (first_fit need bs) as [[[? ?] ?]|]; [done|]. auto.
Qed.

(** ** Frame rules of the representation *)

Lemma hdr_frame m m' a b prev nxt :
  hdr m a b prev nxt ->
  same_on a (a + if b_free b then 32 else 36) m m' -> hdr m' a b prev nxt.
Proof.
  unfold hdr, blk_size, blk_free, blk_next, blk_prev, sizeof_block_t.
  intros (H1 & H2 & H3 & H4 & H5) Hs.
  assert (same_on a (a + 32) m m') as Hs32.
  { intros x Hx. apply Hs. destruct (b_free b); lia. }
  repeat split.
  - rewrite <- H1. symmetry. apply (load_same_on _ _ _ _ _ _ Hs32); lia.
  - rewrite <- H2. symmetry. apply (load_same_on _ _ _ _ _ _ Hs32); lia.
  - rewrite <- H3. symmetry. apply (load_same_on _ _ _ _ _ _ Hs32); lia.
  - rewrite <- H4. symmetry. apply (load_same_on _ _ _ _ _ _ Hs32); lia.
  - intros Hf. rewrite Hf in Hs. rewrite <- (H5 Hf). symmetry.
    apply (load_same_on _ _ _ _ _ _ Hs); lia.
Qed.

Lemma seg_frame m m' prev a bs nxt :
  Forall blk_ok bs -> seg m prev a bs nxt ->
  same_on a (a + span bs) m m' -> seg m' prev a bs nxt.
Proof.
  intros Hok. revert prev a. induction Hok as [|b bs Hb Hok IH]; intros prev a; simpl; [done|].
  intros [Hh Hr] Hs. pose proof (span_pos bs Hok).
  unfold blk_ok, extent, sizeof_block_t in *. split.
  - apply (hdr_frame m); [done|]. intros x Hx. apply Hs. destruct (b_free b); lia.
  - apply IH; [done|]. intros x Hx. apply Hs. lia.
Qed.

(** Relinking the first block of a run to another predecessor. *)
Lemma seg_relink m prev prev' a bs nxt :
  Forall blk_ok bs -> 0 <= prev' < 2 ^ 64 -> bs <> [] -> seg m prev a bs nxt ->
  seg (set_prev a prev' m) prev' a bs nxt.
Proof.
  destruct bs as [|b bs]; [done|]. intros Hok Hp _ [Hh Hr].
  apply Forall_cons_1 in Hok as [Hb Hok]. pose proof (span_pos bs Hok).
  unfold set_prev. split.
  - unfold hdr, blk_size, blk_free, blk_next, blk_prev, sizeof_block_t in *.
    destruct Hh as (H1 & H2 & H3 & H4 & H5). mem_simp. auto.
  - apply (seg_frame m); [done..|]. apply same_on_store.
    unfold extent, sizeof_block_t, blk_ok in *. lia.
Qed.

(** Writing outside every header and magic number keeps the representation. *)
Lemma in_payload_range a bs x :
  Forall blk_ok bs -> in_payload a bs x -> a + 36 <= x < a + span bs.
Proof.
  intros Hok. revert a. induction Hok as [|b bs Hb Hok IH]; intros a; simpl; [done|].
  pose proof (span_pos bs Hok). unfold blk_ok, extent, sizeof_block_t in *.
  intros [[_ ?]|?%IH]; lia.
Qed.

Lemma in_payload_app a l1 l2 x :
  in_payload a (l1 ++ l2) x <-> in_payload a l1 x \/ in_payload (a + span l1) l2 x.
Proof.
  revert a. induction l1 as [|b l1 IH]; intros a; simpl.
  - rewrite Z.add_0_r. tauto.
  - rewrite IH. replace (a + extent b + span l1) with (a + (extent b + span l1)) by lia. tauto.
Qed.

Lemma seg_payload_frame m m' prev a bs nxt :
  Forall blk_ok bs -> seg m prev a bs nxt ->
  (forall x, a <= x < a + span bs -> ~ in_payload a bs x -> m x = m' x) ->
  seg m' prev a bs nxt.
Proof.
  intros Hok. revert prev a. induction Hok as [|b bs Hb Hok IH]; intros prev a; simpl; [done|].
  intros [Hh Hr] Hs. pose proof (span_pos bs Hok).
  unfold blk_ok in Hb. assert (extent b = 32 + b_size b) as He by done. split.
  - apply (hdr_frame m); [done|]. intros x Hx. apply Hs; [destruct (b_free b); lia|].
    intros [[Hf Hi]|Hi]; [rewrite Hf in Hx; lia|].
    apply in_payload_range in Hi; [|done]. destruct (b_free b); lia.
  - apply IH; [done|]. intros x Hx Hn. apply Hs; [lia|]. intros [[_ ?]|?]; [lia|done].
Qed.

(** ** Coalescing *)

Lemma coalesced_app l b r :
  coalesced (l ++ b :: r) <->
  coalesced (l ++ [b]) /\ coalesced (b :: r).
Proof.
  induction l as [|a l IH]; [simpl; tauto|].
  destruct l as [|c l]; [simpl; tauto|].
  change (coalesced ((a :: c :: l) ++ b :: r)) with
    ((b_free a && b_free c = false) /\ coalesced ((c :: l) ++ b :: r)).
  change (coalesced ((a :: c :: l) ++ [b])) with
    ((b_free a && b_free c = false) /\ coalesced ((c :: l) ++ [b])).
  rewrite IH. tauto.
Qed.

Lemma coalesced_tail b r : coalesced (b :: r) -> coalesced r.
Proof. destruct r; simpl; tauto. Qed.

(** An allocated block separates its two sides. *)
Lemma coalesced_split l b r :
  b_free b = false -> coalesced (l ++ b :: r) <-> coalesced l /\ coalesced r.
Proof.
  intros Hb. rewrite coalesced_app. split.
  - intros [H1 H2%coalesced_tail]. split; [|done]. clear H2.
    induction l as [|a l IH]; [done|]. destruct l as [|c l]; [done|].
    destruct H1 as [H1 H2]. split; [done|]. by apply IH.
  - intros [H1 H2]. split.
    + clear H2. induction l as [|a l IH]; [done|]. destruct l as [|c l].
      * simpl. by rewrite Hb, andb_false_r.
      * destruct H1 as [H1 H2]. split; [done|]. by apply IH.
    + destruct r as [|c r]; [done|]. split; [by rewrite Hb|done].
Qed.

(** Only the free flags matter for coalescing. *)
Lemma coalesced_flags bs bs' :
  b_free <$> bs = b_free <$> bs' -> coalesced bs -> coalesced bs'.
Proof.
  revert bs'. induction bs as [|a bs IH]; intros [|a' bs'] Hm; try done.
  injection Hm as Ha Hm. destruct bs as [|b bs], bs' as [|b' bs']; try done.
  injection Hm as Hb Hm. intros [H1 H2]. split; [by rewrite <- Ha, <- Hb|].
  apply IH; [|done]. simpl. by rewrite Hb, Hm.
Qed.

(** ** The abstract operations keep the abstract heap well formed *)

Record bs_wf (bs : list blk) (total : Z) : Prop := {
  wf_ok : Forall blk_ok bs;
  wf_span : span bs = total;
  wf_coal : coalesced bs
}.

Lemma carve_span b need : span (carve b need) = extent b.
Proof. unfold carve. case_cmp; simpl; unfold extent; simpl; lia. Qed.

Lemma abs_kmalloc_wf need bs off bs' total :
  4 <= need -> bs_wf bs total -> abs_kmalloc need bs = Some (off, bs') -> bs_wf bs' total.
Proof.
  intros Hn [Hok Hsp Hco]. unfold abs_kmalloc.
  destruct (first_fit need bs) as [[[l b] r]|] eqn:E; [|done]. intros [= <- <-].
  apply first_fit_spec in E as (-> & Hf & Hfit & _).
  rewrite Forall_app, Forall_cons_iff in Hok. destruct Hok as (Hl & Hb & Hr).
  rewrite span_app in Hsp. simpl in Hsp. split.
  - rewrite !Forall_app. split_and!; [done| |done]. unfold carve, blk_ok, sizeof_block_t in *.
    case_cmp; repeat constructor; simpl; lia.
  - rewrite !span_app, carve_span. lia.
  - assert (coalesced l /\ coalesced (b :: r)) as [Hl' Hr'].
    { apply coalesced_app in Hco as [H1 H2]. split; [|done].
      apply (coalesced_split l (Blk 0 false) []); [done|].
      clear -H1. induction l as [|a l IH]; [done|]. destruct l as [|c l].
      - by simpl; rewrite andb_false_r.
      - destruct H1 as [H1 H2]. split; [done|]. by apply IH. }
    unfold carve. case_cmp; simpl.
    + apply coalesced_split; [done|]. split; [done|by eapply coalesced_tail].
    + apply coalesced_split; [done|]. split; [done|].
      apply (coalesced_flags (b :: r)); [|done]. simpl. by rewrite Hf.
Qed.

Lemma absorb_span b r : span (absorb b r) = extent b + span r.
Proof.
  destruct r as [|n r]; simpl; [lia|]. destruct (b_free n); simpl; [|lia].
  unfold extent. simpl. lia.
Qed.

Lemma absorb_ok b r : blk_ok b -> Forall blk_ok r -> Forall blk_ok (absorb b r).
Proof.
  intros Hb Hr. destruct Hr as [|n r Hn Hr]; simpl; [by repeat constructor|].
  destruct (b_free n); repeat constructor; auto.
  unfold blk_ok, extent, sizeof_block_t in *. simpl. lia.
Qed.

Lemma absorb_coalesced b r : b_free b = true -> coalesced r -> coalesced (absorb b r).
Proof.
  intros Hb Hr. destruct r as [|n r]; [done|]. simpl. destruct (b_free n) eqn:E.
  - apply (coalesced_flags (n :: r)); [simpl; by rewrite E|done].
  - split; [by rewrite E, andb_false_r|done].
Qed.

(** The result of [absorb] starts with a free block. *)
Lemma absorb_free_head b r : b_free b = true ->
  exists s tl, absorb b r = Blk s true :: tl.
Proof.
  intros Hb. destruct b as [s f]; simpl in Hb; subst f.
  destruct r as [|n r]; simpl; [by eexists _, _|]. destruct (b_free n); by eexists _, _.
Qed.

Lemma in_payload_absorb a b r x :
  b_free b = true -> in_payload a (absorb b r) x <-> in_payload (a + extent b) r x.
Proof.
  intros Hb. destruct r as [|n r]; simpl; [rewrite Hb; intuition congruence|].
  destruct (b_free n) eqn:E; simpl; rewrite ?Hb, ?E.
  - replace (a + extent (Blk (b_size b + extent n) true)) with (a + extent b + extent n)
      by (unfold extent; simpl; lia). intuition congruence.
  - intuition congruence.
Qed.

Lemma abs_kfree_wf l b r total :
  bs_wf (l ++ b :: r) total -> b_free b = false -> bs_wf (abs_kfree l b r) total.
Proof.
  intros [Hok Hsp Hco] Hf. rewrite Forall_app, Forall_cons_iff in Hok.
  destruct Hok as (Hl & Hb & Hr). rewrite span_app in Hsp. simpl in Hsp.
  apply coalesced_split in Hco as [Hcl Hcr]; [|done]. unfold abs_kfree.
  set (fb := Blk (b_size b) true). set (tail := absorb fb r).
  assert (Forall blk_ok tail) as Htok by (by apply absorb_ok).
  assert (span tail = extent b + span r) as Htsp by (unfold tail; by rewrite absorb_span).
  assert (coalesced tail) as Htco by (by apply absorb_coalesced).
  destruct (rev l) as [|p l'] eqn:E.
  - assert (l = []) as -> by (rewrite <- (rev_involutive l), E; done).
    split; auto. simpl in *. lia.
  - assert (l = rev l' ++ [p]) as -> by (rewrite <- (rev_involutive l), E; done).
    rewrite span_app in Hsp. simpl in Hsp. apply Forall_app in Hl as [Hl' Hp].
    apply Forall_cons_iff in Hp as [Hp _]. destruct (b_free p) eqn:Ep.
    + split.
      * rewrite Forall_app. split; [done|]. by apply absorb_ok.
      * rewrite span_app, absorb_span. lia.
      * destruct (absorb_free_head fb r) as (s & tl & Et); [done|]. fold tail in Et.
        rewrite Et in *. simpl. apply coalesced_app. split.
        -- apply (coalesced_flags (rev l' ++ [p])); [|done].
           rewrite !fmap_app. simpl. by rewrite Ep.
        -- by apply (coalesced_flags (Blk s true :: tl)).
    + split.
      * rewrite !Forall_app, Forall_cons_iff. split_and!; auto.
      * rewrite !span_app. simpl. lia.
      * rewrite <- app_assoc. simpl. apply coalesced_split; [done|].
        split; [|done]. by apply coalesced_split in Hcl as [? _].
Qed.

(** When every block of a well-formed heap is free there is only one block left. *)
Lemma all_free_single bs total :
  bs_wf bs total -> 0 < total -> Forall (fun b => b_free b = true) bs ->
  bs = [Blk (total - sizeof_block_t) true].
Proof.
  intros [Hok Hsp Hco] Ht Hfree. destruct bs as [|[s f] [|b' bs]]; simpl in *; [lia| |].
  - apply Forall_cons_iff in Hfree as [Hf _]. simpl in Hf. subst f.
    unfold extent in Hsp. simpl in Hsp. do 2 f_equal. lia.
  - apply Forall_cons_iff in Hfree as [Hf [Hf' _]%Forall_cons_iff]. simpl in *.
    destruct Hco as [Hc _]. by rewrite Hf, Hf' in Hc.
Qed.

(** An update at [A] that also relinks the block at [R] (the first of [r]) leaves
    these addresses alone. *)
Definition untouched (A R : Z) (r : list blk) (x : Z) : Prop :=
  x < A \/ (R <= x /\ (r <> [] -> R + 32 <= x)).

Lemma untouched_payload A R r x :
  Forall blk_ok r -> in_payload R r x -> untouched A R r x.
Proof. intros Hok H%in_payload_range; [|done]. right. lia. Qed.

Lemma untouched_after A R r x :
  Forall blk_ok r -> R + span r <= x -> untouched A R r x.
Proof.
  intros Hok H. right. pose proof (span_pos r Hok). split; [lia|]. intros Hr.
  destruct Hok as [|n r Hn Hok]; [done|]. simpl in *. pose proof (span_pos r Hok).
  unfold blk_ok, extent, sizeof_block_t in *. lia.
Qed.
