(* ===== verification/HeapMem.v ===== *)
(** * Heap: the memory updates of each operation

    How the stores of [split_block], [coalesce_forward], [kmalloc] and [kfree]
    transform the block list that the arena represents. *)

From S2P Require Import Prelude Memory Machine KernLock Heap HeapSpec.

Ltac heap_unfold :=
  unfold hdr, blk_size, blk_free, blk_next, blk_prev, set_size, set_free, set_next,
    set_prev, sizeof_block_t in *.

(** The stores do not reach the range in the goal. *)
Ltac frame_stores :=
  let x := fresh "x" in let Hx := fresh "Hx" in
  intros x Hx; heap_unfold; rewrite ?store_out by lia; reflexivity.

(** A block in the middle of a run. *)
Lemma seg_middle m prev a l b r nxt :
  seg m prev a (l ++ b :: r) nxt <->
  seg m prev a l (a + span l) /\
  hdr m (a + span l) b (last_addr prev a l) (head_or r (a + span l + extent b) nxt) /\
  seg m (a + span l) (a + span l + extent b) r nxt.
Proof. rewrite seg_app. simpl. tauto. Qed.

Lemma last_addr_bound prev a l :
  Forall blk_ok l -> 0 <= a -> 0 <= prev -> l <> [] -> a <= last_addr prev a l < a + span l.
Proof.
  intros Hok. revert prev a. induction Hok as [|b l Hb Hok IH]; intros prev a Ha Hp Hl; [done|].
  simpl. pose proof (span_pos l Hok). unfold blk_ok, extent, sizeof_block_t in *.
  destruct l as [|c l]; [simpl; lia|].
  specialize (IH a (a + (32 + b_size b))). lapply IH; [|lia]. intros IH'.
  specialize (IH' ltac:(lia) ltac:(done)). lia.
Qed.

Lemma Forall_mid {A} (P : A -> Prop) l b r :
  Forall P (l ++ b :: r) <-> Forall P l /\ P b /\ Forall P r.
Proof. rewrite Forall_app, Forall_cons_iff. tauto. Qed.

Lemma span_mid l b r : span (l ++ b :: r) = span l + extent b + span r.
Proof. rewrite span_app. simpl. lia. Qed.

Section Updates.
Context (a : Z) (Ha : 0 < a).

(** [b->free = 0; *magic_slot = BLOCK_MAGIC] *)
Definition take_mem (A : Z) (m : mem) : mem :=
  store32 (set_free A 0 m) (A + sizeof_block_t) BLOCK_MAGIC.

Lemma seg_take m l b r :
  Forall blk_ok (l ++ b :: r) -> seg m 0 a (l ++ b :: r) 0 ->
  seg (take_mem (a + span l) m) 0 a (l ++ Blk (b_size b) false :: r) 0.
Proof.
  rewrite Forall_mid. intros (Hl & Hb & Hr). rewrite !seg_middle.
  pose proof (span_pos l Hl). pose proof (span_pos r Hr).
  unfold extent, blk_ok, take_mem in *. cbn [b_size b_free].
  set (A := a + span l) in *. intros (H1 & H2 & H3). split_and!.
  - apply (seg_frame m); [done..|]. subst A. frame_stores.
  - heap_unfold. cbn [b_size b_free]. destruct H2 as (? & ? & ? & ? & _).
    rewrite !load_store_eq. mem_simp. split_and!; auto.
  - apply (seg_frame m); [done..|]. subst A. frame_stores.
Qed.

(** [b->free = 1; *magic_slot = 0] *)
Definition drop_mem (A : Z) (m : mem) : mem :=
  store32 (set_free A 1 m) (A + sizeof_block_t) 0.

Lemma seg_drop m l b r :
  Forall blk_ok (l ++ b :: r) -> seg m 0 a (l ++ b :: r) 0 ->
  seg (drop_mem (a + span l) m) 0 a (l ++ Blk (b_size b) true :: r) 0.
Proof.
  rewrite Forall_mid. intros (Hl & Hb & Hr). rewrite !seg_middle.
  pose proof (span_pos l Hl). pose proof (span_pos r Hr).
  unfold extent, blk_ok, drop_mem in *. cbn [b_size b_free].
  set (A := a + span l) in *. intros (H1 & H2 & H3). split_and!.
  - apply (seg_frame m); [done..|]. subst A. frame_stores.
  - heap_unfold. cbn [b_size b_free]. destruct H2 as (? & ? & ? & ? & _).
    mem_simp. split_and!; auto. done.
  - apply (seg_frame m); [done..|]. subst A. frame_stores.
Qed.

(** The stores of [split_block] when it does split. *)
Definition split_mem (A need : Z) (m : mem) : mem :=
  let NB := A + sizeof_block_t + need in
  let m1 := set_size NB (u64 (u64 (blk_size m A - need) - sizeof_block_t)) m in
  let m2 := set_free NB 1 m1 in
  let m3 := set_next NB (blk_next m2 A) m2 in
  let m4 := set_prev NB A m3 in
  let m5 := if blk_next m4 A =? 0 then m4 else set_prev (blk_next m4 A) NB m4 in
  set_size A need (set_next A NB m5).

Lemma seg_split m l b r need :
  Forall blk_ok (l ++ b :: r) -> seg m 0 a (l ++ b :: r) 0 ->
  a + span (l ++ b :: r) < 2 ^ 64 ->
  b_free b = true -> 0 <= need -> need + 36 <= b_size b ->
  seg (split_mem (a + span l) need m) 0 a
    (l ++ Blk need true :: Blk (b_size b - need - sizeof_block_t) true :: r) 0.
Proof.
  rewrite Forall_mid, span_mid. intros (Hl & Hb & Hr) Hseg Hspan Hf Hn Hfit.
  rewrite seg_middle in Hseg. destruct Hseg as (H1 & (E1 & E2 & E3 & E4 & _) & H3).
  rewrite seg_middle. cbn [seg]. rewrite Hf in E2.
  pose proof (span_pos l Hl). pose proof (span_pos r Hr).
  unfold extent, blk_ok, split_mem in *. cbn [b_size b_free head_or].
  set (A := a + span l) in *.
  replace (A + (sizeof_block_t + need) + (sizeof_block_t + (b_size b - need - sizeof_block_t)))
    with (A + (sizeof_block_t + b_size b)) by lia.
  rewrite E1, (u64_small (b_size b - need)), u64_small by (unfold sizeof_block_t in *; lia).
  set (N := head_or r (A + (sizeof_block_t + b_size b)) 0) in *.
  assert (0 <= N < 2 ^ 64) as HN.
  { subst N. destruct r; simpl; unfold sizeof_block_t in *; lia. }
  assert (r = [] /\ N = 0 \/ r <> [] /\ N = A + 32 + b_size b) as HNr.
  { subst N. destruct r; [by left|right]. split; [done|]. simpl. unfold sizeof_block_t. lia. }
  heap_unfold. cbn [b_size b_free]. replace (A + (32 + need)) with (A + 32 + need) by lia.
  mem_simp. rewrite E3.
  destruct HNr as [[-> HN0]|[Hrn HN0]].
  - rewrite HN0, Z.eqb_refl.
    split_and!; try done; try (mem_simp; congruence || lia).
    apply (seg_frame m); [done..|]. frame_stores.
  - destruct (Z.eqb_spec N 0) as [|_]; [lia|]. rewrite HN0.
    split_and!; try done; try (mem_simp; congruence || lia).
    + apply (seg_frame m); [done..|]. frame_stores.
    + replace (A + 32 + b_size b + 24) with (A + (32 + b_size b) + 24) by lia.
      apply (seg_frame (set_prev (A + (32 + b_size b)) (A + 32 + need) m)); [done| |].
      * apply (seg_relink m A); try done. lia.
      * intros x Hx. heap_unfold.
        rewrite (store_out 8 _ A), (store_out 8 _ (A + 16)) by lia.
        destruct (decide (A + (32 + b_size b) + 24 <= x < A + (32 + b_size b) + 32)).
        -- by rewrite !store_in by lia.
        -- by rewrite !store_out by lia.
Qed.

(** The stores of [coalesce_forward] when the next block is free. *)
Definition merge_mem (A n : Z) (m : mem) : mem :=
  let m1 := set_size A (u64 (blk_size m A + u64 (sizeof_block_t + blk_size m n))) m in
  let m2 := set_next A (blk_next m1 n) m1 in
  if blk_next m2 n =? 0 then m2 else set_prev (blk_next m2 n) A m2.

Lemma seg_merge m l b n r :
  Forall blk_ok (l ++ b :: n :: r) -> seg m 0 a (l ++ b :: n :: r) 0 ->
  a + span (l ++ b :: n :: r) < 2 ^ 64 -> b_free b = true ->
  seg (merge_mem (a + span l) (a + span l + extent b) m) 0 a
    (l ++ Blk (b_size b + extent n) true :: r) 0.
Proof.
  rewrite Forall_mid, span_mid. intros (Hl & Hb & [Hn Hr]%Forall_cons_iff) Hseg Hspan Hf.
  rewrite seg_middle in Hseg. cbn [seg head_or span] in *.
  destruct Hseg as (H1 & (E1 & E2 & E3 & E4 & _) & (F1 & F2 & F3 & F4 & _) & H3).
  rewrite seg_middle, Hf in *. pose proof (span_pos l Hl). pose proof (span_pos r Hr).
  unfold extent, blk_ok, merge_mem in *. cbn [b_size b_free].
  set (A := a + span l) in *. set (B := A + (sizeof_block_t + b_size b)) in *.
  rewrite E1, F1, (u64_small (_ + b_size n)), u64_small by (unfold sizeof_block_t in *; lia).
  replace (A + (sizeof_block_t + (b_size b + (sizeof_block_t + b_size n))))
    with (B + (sizeof_block_t + b_size n)) by (subst B; lia).
  set (N := head_or r (B + (sizeof_block_t + b_size n)) 0) in *.
  assert (r = [] /\ N = 0 \/ r <> [] /\ N = B + (sizeof_block_t + b_size n)) as HNr.
  { subst N. destruct r; [by left|by right]. }
  assert (0 <= N < 2 ^ 64) as HN.
  { unfold sizeof_block_t in *. destruct HNr as [[_ ->]|[_ ->]]; lia. }
  assert (B = A + 32 + b_size b) as HB by (subst B; unfold sizeof_block_t; lia).
  clearbody B. heap_unfold. cbn [b_size b_free]. mem_simp. rewrite F3. mem_simp.
  destruct HNr as [[-> HN0]|[Hrn HN0]].
  - rewrite HN0, Z.eqb_refl. split_and!; try done; try (mem_simp; congruence || lia).
    apply (seg_frame m); [done..|]. frame_stores.
  - destruct (Z.eqb_spec N 0) as [|_]; [lia|]. rewrite HN0.
    split_and!; try done; try (mem_simp; congruence || lia).
    + apply (seg_frame m); [done..|]. frame_stores.
    + apply (seg_frame (set_prev (B + (32 + b_size n)) A m)); [done| |].
      * apply (seg_relink m B); try done. lia.
      * intros x Hx. heap_unfold.
        destruct (decide (B + (32 + b_size n) + 24 <= x < B + (32 + b_size n) + 32)).
        -- by rewrite !store_in by lia.
        -- by rewrite !store_out by lia.
Qed.

End Updates.

(** ** What the updates leave alone *)

Lemma take_mem_frame A m x : ~ (A <= x < A + 36) -> take_mem A m x = m x.
Proof. intros H. unfold take_mem. heap_unfold. by rewrite !store_out by lia. Qed.

Lemma drop_mem_frame A m x : ~ (A <= x < A + 36) -> drop_mem A m x = m x.
Proof. intros H. unfold drop_mem. heap_unfold. by rewrite !store_out by lia. Qed.

Lemma split_mem_frame A need R r m x :
  blk_next m A = head_or r R 0 -> 0 <= need -> A + need + 64 <= R ->
  untouched A R r x -> split_mem A need m x = m x.
Proof.
  intros HN Hn HR Hx. unfold split_mem, untouched in *. heap_unfold. mem_simp. rewrite HN.
  destruct r as [|n r]; simpl.
  - by rewrite !store_out by lia.
  - assert (R + 32 <= x \/ x < A) by intuition congruence.
    destruct (Z.eqb_spec R 0); by rewrite !store_out by lia.
Qed.

Lemma merge_mem_frame A n R r m x :
  blk_next m n = head_or r R 0 -> A + 32 <= n -> n + 32 <= R ->
  untouched A R r x -> merge_mem A n m x = m x.
Proof.
  intros HN Hn HR Hx. unfold merge_mem, untouched in *. heap_unfold. mem_simp. rewrite HN.
  destruct r as [|c r]; simpl.
  - by rewrite !store_out by lia.
  - assert (R + 32 <= x \/ x < A) by intuition congruence.
    destruct (Z.eqb_spec R 0); by rewrite !store_out by lia.
Qed.
