(* ===== verification/HeapProof.v ===== *)
(** * Heap: the implementation refines the abstract allocator *)

From S2P Require Import Prelude Memory Machine KernLock Heap HeapSpec HeapMem.

Section HeapProof.
Context {L : Type} {LO : KernLockOps L} {LL : KernLock L}.
Context (heap_arena : Z).

(** Where the linker puts the arena: not at address 0, inside the address space. *)
Definition arena_ok : Prop := 0 < heap_arena /\ heap_arena + HEAP_SIZE < 2 ^ 64.

(** The heap state represents the block list [bs]. *)
Record heap_inv (h : heap L) (bs : list blk) : Prop := {
  inv_arena : arena_ok;
  inv_list : heap_list h = heap_arena;
  inv_seg : seg (h_mem h) 0 heap_arena bs 0;
  inv_ok : Forall blk_ok bs;
  inv_span : span bs = HEAP_SIZE;
  inv_coal : coalesced bs;
  inv_lock : lock_idle (h_lock h)
}.

(** ** Runs of the sequential parts *)

Lemma loop_S {S A B} n (body : A -> M S (A + B)) a s :
  loop (Datatypes.S n) body a s =
  bind (body a) (fun r => match r with inl a' => loop n body a' | inr b => ret b end) s.
Proof. done. Qed.

Lemma fuel_enough bs : Forall blk_ok bs -> span bs = HEAP_SIZE -> (length bs < heap_fuel)%nat.
Proof.
  intros Hok Hs. pose proof (span_length bs Hok). rewrite Hs in H.
  unfold heap_fuel, HEAP_SIZE in *. lia.
Qed.

(** A walk over the list visits the blocks of [bs] in order. *)
Lemma head_or_eqb (bs : list blk) a : 0 < a -> (head_or bs a 0 =? 0) = match bs with [] => true | _ => false end.
Proof. intros Ha. destruct bs; simpl; [done|]. apply Z.eqb_neq. lia. Qed.

Lemma find_loop (h : heap L) need bs : forall fuel prev a,
  0 < a -> Forall blk_ok bs -> seg (h_mem h) prev a bs 0 -> (length bs < fuel)%nat ->
  loop fuel (fun b =>
    if b =? 0 then ret (inr 0) else
    m <- gets h_mem ;;
    if negb (blk_free m b =? 0) && (need <=? blk_size m b)
    then ret (inr b) else ret (inl (blk_next m b))) (head_or bs a 0) h =
  Done (match first_fit need bs with Some (l, _, _) => a + span l | None => 0 end) h [].
Proof.
  induction bs as [|b bs IH]; intros fuel prev a Ha Hok Hseg Hf;
    (destruct fuel as [|fuel]; [simpl in *; lia|]); rewrite loop_S.
  - simpl. by rewrite bind_ret.
  - cbn [head_or]. destruct (Z.eqb_spec a 0); [lia|].
    apply Forall_cons_iff in Hok as [Hb Hok]. destruct Hseg as [(E1 & E2 & E3 & E4 & _) Hseg].
    mstep. rewrite E1, E2, E3. cbn [first_fit].
    replace (negb ((if b_free b then 1 else 0) =? 0)) with (b_free b) by (by destruct (b_free b)).
    destruct (b_free b && (need <=? b_size b)).
    + rewrite bind_ret. cbn [span]. by rewrite Z.add_0_r.
    + rewrite bind_ret. unfold blk_ok, extent, sizeof_block_t in *.
      rewrite (IH fuel a) by (try done; simpl in *; lia).
      destruct (first_fit need bs) as [[[l x] r]|]; [|done].
      cbn [span]. f_equal. unfold extent, sizeof_block_t. lia.
Qed.

Lemma find_free_block_run (h : heap L) bs need :
  arena_ok -> heap_list h = heap_arena -> seg (h_mem h) 0 heap_arena bs 0 ->
  Forall blk_ok bs -> span bs = HEAP_SIZE ->
  find_free_block need h =
  Done (match first_fit need bs with Some (l, _, _) => heap_arena + span l | None => 0 end) h [].
Proof.
  intros [Ha _] Hl Hseg Hok Hs. unfold find_free_block. mstep. rewrite Hl.
  rewrite <- (find_loop h need bs heap_fuel 0 heap_arena) by eauto using fuel_enough.
  destruct bs; [|done]. done.
Qed.

Lemma split_block_run (h : heap L) A need :
  split_block A need h =
  Done tt (if u64 (blk_size (h_mem h) A - need) <=? sizeof_block_t + 16 then h
           else mkHeap (split_mem A need (h_mem h)) (heap_list h) (h_lock h)) [].
Proof.
  unfold split_block, upd_mem. mstep.
  destruct (_ <=? _); [done|]. mstep. done.
Qed.

Lemma coalesce_run (h : heap L) A :
  coalesce_forward A h =
  Done tt (let n := blk_next (h_mem h) A in
           if negb (n =? 0) && negb (blk_free (h_mem h) n =? 0)
           then mkHeap (merge_mem A n (h_mem h)) (heap_list h) (h_lock h) else h) [].
Proof.
  unfold coalesce_forward, upd_mem. mstep.
  destruct (_ && _); [|done]. mstep. done.
Qed.

(** ** Requests *)

Lemma align16_spec n :
  0 <= n <= 2 ^ 64 - 16 ->
  n <= align16 n < n + 16 /\ align16 n mod 16 = 0 /\ 0 <= align16 n <= 2 ^ 64 - 16.
Proof.
  intros Hn. unfold align16.
  change (u64 (Z.lnot 15)) with (u64 (Z.lnot (2 ^ 4 - 1))).
  rewrite u64_small by lia. rewrite land_align by lia.
  change (2 ^ 4) with 16. split_and!; dlia.
Qed.

(** The lock around an operation. *)
Lemma lock_run (h : heap L) : lock_idle (h_lock h) ->
  exists l1 t1 l2 t2,
    locked NKern_Lock h = Done tt (mkHeap (h_mem h) (heap_list h) l1) t1 /\
    (forall m p, locked NKern_Unlock (mkHeap m p l1) = Done tt (mkHeap m p l2) t2) /\
    lock_idle l2 /\ lock_irq l2 = lock_irq (h_lock h).
Proof.
  intros (l1 & t1 & l2 & t2 & E1 & _ & _ & E2 & Hi & Hq)%lock_section.
  exists l1, t1, l2, t2. unfold locked, zoom. rewrite E1. split_and!; try done.
  intros m p. simpl. by rewrite E2.
Qed.

(** ** kmalloc *)

Lemma kmalloc_seg m bs need l b r :
  arena_ok -> seg m 0 heap_arena bs 0 -> bs_wf bs HEAP_SIZE -> 4 <= need ->
  first_fit need bs = Some (l, b, r) ->
  let A := heap_arena + span l in
  let m1 := if u64 (blk_size m A - need) <=? sizeof_block_t + 16 then m
            else split_mem A need m in
  seg (take_mem A m1) 0 heap_arena (l ++ carve b need ++ r) 0 /\
  (forall x, untouched A (A + extent b) r x -> take_mem A m1 x = m x).
Proof.
  intros [Ha Hb64] Hseg [Hok Hsp _] Hneed Hff A m1.
  apply first_fit_spec in Hff as (-> & Hf & Hfit & _).
  pose proof Hok as (Hl & Hb & Hr)%Forall_mid.
  pose proof (span_pos l Hl). pose proof (span_pos r Hr).
  rewrite span_mid in Hsp.
  pose proof Hseg as (_ & (E1 & _ & E3 & _) & _)%seg_middle.
  fold A in E1, E3. unfold blk_ok in Hb.
  assert (extent b = 32 + b_size b) as He by done.
  subst m1. rewrite E1, u64_small by (unfold HEAP_SIZE in *; lia). unfold carve.
  destruct (Z.leb_spec (b_size b - need) (sizeof_block_t + 16)) as [Hle|Hgt];
    unfold sizeof_block_t in *; split.
  - by apply seg_take.
  - intros x Hx. apply take_mem_frame. unfold untouched in Hx. lia.
  - apply (seg_split heap_arena Ha) with (need := need) in Hseg;
      [|done|rewrite span_mid; lia|done|lia..].
    apply seg_take in Hseg; [done..|].
    apply Forall_mid. split_and!; [done|unfold blk_ok; simpl; lia|].
    constructor; [unfold blk_ok, sizeof_block_t; simpl; lia|done].
  - intros x Hx. rewrite take_mem_frame by (unfold untouched in Hx; lia).
    apply (split_mem_frame _ _ (A + extent b) r); try done; lia.
Qed.

Definition outside_arena (x : Z) : Prop := x < heap_arena \/ heap_arena + HEAP_SIZE <= x.

(** Bytes of allocated payloads and bytes outside the arena: the clients' data. *)
Definition client_byte (bs : list blk) (x : Z) : Prop :=
  in_payload heap_arena bs x \/ outside_arena x.

Lemma client_byte_untouched l b r x :
  bs_wf (l ++ b :: r) HEAP_SIZE ->
  in_payload heap_arena l x \/ in_payload (heap_arena + span l + extent b) r x \/
    outside_arena x ->
  untouched (heap_arena + span l) (heap_arena + span l + extent b) r x.
Proof.
  intros [Hok Hsp _] Hx. apply Forall_mid in Hok as (Hl & Hb & Hr).
  rewrite span_mid in Hsp. pose proof (span_pos l Hl). pose proof (span_pos r Hr).
  destruct Hx as [Hx|[Hx|[Hx|Hx]]].
  - apply in_payload_range in Hx; [|done]. left. lia.
  - by apply untouched_payload.
  - left. lia.
  - apply untouched_after; [done|]. lia.
Qed.

(** [kmalloc] on a heap that represents [bs] does what the first-fit allocator
    does on [bs] for the size the code computes. *)
Lemma kmalloc_sim_gen (h : heap L) bs n need :
  heap_inv h bs -> n <> 0 -> need = u64 (align16 n + 4) -> 4 <= need ->
  match abs_kmalloc need bs with
  | Some (off, bs') => exists h' t,
      kmalloc n h = Done (heap_arena + off + 36) h' t /\ heap_inv h' bs' /\
      lock_irq (h_lock h') = lock_irq (h_lock h) /\
      (forall x, client_byte bs x -> h_mem h' x = h_mem h x)
  | None => exists h' t,
      kmalloc n h = Panic "HEAP" PANIC_HEAP_OOM h' t /\ heap_inv h' bs /\
      h_mem h' = h_mem h
  end.
Proof.
  intros [Ha Hl Hseg Hok Hsp Hco Hlk] Hn Eneed Hneed.
  assert (bs_wf bs HEAP_SIZE) as Hwf by done.
  destruct (lock_run h Hlk) as (l1 & t1 & l2 & t2 & E1 & E2 & Hi & Hq).
  unfold kmalloc. destruct (Z.eqb_spec n 0); [lia|].
  rewrite (bind_done _ _ _ _ _ _ E1). cbv zeta. rewrite <- Eneed. clear Eneed.
  rewrite (bind_done _ _ _ _ _ _
    (find_free_block_run (mkHeap (h_mem h) (heap_list h) l1) bs need Ha Hl Hseg Hok Hsp)).
  pose proof (abs_kmalloc_wf need bs) as Habs. unfold abs_kmalloc in *.
  destruct (first_fit need bs) as [[[l b] r]|] eqn:Hff.
  - pose proof (kmalloc_seg _ bs need l b r Ha Hseg Hwf ltac:(lia) Hff) as [Hs Hfr].
    pose proof Hff as (-> & Hbf & _)%first_fit_spec.
    pose proof Hok as (Hlok & _)%Forall_mid. pose proof (span_pos l Hlok).
    destruct (Z.eqb_spec (heap_arena + span l) 0); [destruct Ha; lia|].
    rewrite (bind_done _ _ _ _ _ _ (split_block_run _ _ _)).
    assert (forall x, client_byte (l ++ b :: r) x ->
      untouched (heap_arena + span l) (heap_arena + span l + extent b) r x) as Hcb.
    { intros x Hx. apply client_byte_untouched; [done|].
      destruct Hx as [Hx|]; [|auto]. apply in_payload_app in Hx. simpl in Hx.
      rewrite Hbf in Hx. intuition congruence. }
    assert (bs_wf (l ++ carve b need ++ r) HEAP_SIZE) as Hwf'
      by (by apply (Habs (span l)); [lia|..]).
    cbn [h_mem]. destruct (_ <=? sizeof_block_t + 16); unfold upd_mem; mstep;
      rewrite (bind_done _ _ _ _ _ _ (E2 _ _)); unfold ret; simpl;
      (eexists _, _; split_and!;
       [f_equal; unfold sizeof_block_t; lia|by destruct Hwf'; split|done|intros x Hx; by apply Hfr, Hcb]).
  - rewrite Z.eqb_refl. rewrite (bind_done _ _ _ _ _ _ (E2 _ _)). simpl.
    eexists _, _. split_and!; [done| |done]. by split.
Qed.

(** Requests that fit in the address space are rounded up and get 4 bytes more. *)
Lemma kmalloc_sim (h : heap L) bs n :
  heap_inv h bs -> 0 < n <= 2 ^ 64 - 16 ->
  match abs_kmalloc (align16 n + 4) bs with
  | Some (off, bs') => exists h' t,
      kmalloc n h = Done (heap_arena + off + 36) h' t /\ heap_inv h' bs' /\
      lock_irq (h_lock h') = lock_irq (h_lock h) /\
      (forall x, client_byte bs x -> h_mem h' x = h_mem h x)
  | None => exists h' t,
      kmalloc n h = Panic "HEAP" PANIC_HEAP_OOM h' t /\ heap_inv h' bs /\
      h_mem h' = h_mem h
  end.
Proof.
  intros Hinv Hn. pose proof (align16_spec n ltac:(lia)) as (Hal & _ & Hal').
  apply (kmalloc_sim_gen h bs n); [done|lia|by rewrite u64_small by lia|lia].
Qed.

(** ** kfree *)

(** [coalesce_forward] absorbs the right neighbour of a free block. *)
Lemma coalesce_sim (h : heap L) l b r :
  arena_ok -> seg (h_mem h) 0 heap_arena (l ++ b :: r) 0 -> Forall blk_ok (l ++ b :: r) ->
  span (l ++ b :: r) = HEAP_SIZE -> b_free b = true ->
  exists m', coalesce_forward (heap_arena + span l) h =
    Done tt (mkHeap m' (heap_list h) (h_lock h)) [] /\
    seg m' 0 heap_arena (l ++ absorb b r) 0 /\
    (forall x, x < heap_arena + span l \/ in_payload (heap_arena + span l + extent b) r x \/
       heap_arena + HEAP_SIZE <= x \/
       heap_arena + span l + 32 <= x < heap_arena + span l + extent b + 36 ->
       m' x = h_mem h x).
Proof.
  intros [Ha Hb64] Hseg Hok Hsp Hf. pose proof Hok as (Hl & Hb & Hr)%Forall_mid.
  pose proof (span_pos l Hl). pose proof Hseg as (_ & (_ & _ & E3 & _) & H3)%seg_middle.
  rewrite span_mid in Hsp. unfold blk_ok in Hb.
  assert (extent b = 32 + b_size b) as He by done.
  rewrite coalesce_run. cbv zeta. rewrite E3.
  destruct r as [|n r]; cbn [head_or absorb].
  { exists (h_mem h). split_and!; [by destruct h|done..]. }
  destruct (Z.eqb_spec (heap_arena + span l + extent b) 0); [lia|].
  destruct H3 as [(_ & F2 & F3 & _) H3]. rewrite F2.
  apply Forall_cons_iff in Hr as [Hn Hr]. pose proof (span_pos r Hr). cbn [span] in Hsp.
  assert (extent n = 32 + b_size n) as Hen by done. unfold blk_ok in Hn.
  destruct (b_free n) eqn:Hnf; simpl.
  - eexists. split_and!; [done| |].
    + apply (seg_merge heap_arena); try done. rewrite span_mid. simpl. lia.
    + intros x Hx. rewrite Hnf in Hx. set (R := heap_arena + span l + extent b + extent n) in *.
      destruct (decide (heap_arena + span l + 32 <= x < heap_arena + span l + extent b + 36)).
      * unfold merge_mem. heap_unfold. mem_simp. rewrite F3.
        destruct r as [|c r]; simpl; [by rewrite !store_out by lia|].
        destruct (Z.eqb_spec R 0); by rewrite !store_out by lia.
      * apply (merge_mem_frame _ _ R r); try done; try (unfold R; lia).
        destruct Hx as [Hx|[[[? _]|Hx]|[Hx|Hx]]]; try done.
        -- by left.
        -- by apply untouched_payload.
        -- apply untouched_after; [done|]. unfold R. lia.
  - exists (h_mem h). split_and!; [by destruct h|done..].
Qed.

(** The backward merge: the predecessor, when free, absorbs the block just freed. *)
Lemma merge_back_sim (h : heap L) l s tl :
  let tail := Blk s true :: tl in
  let A := heap_arena + span l in
  arena_ok -> seg (h_mem h) 0 heap_arena (l ++ tail) 0 -> Forall blk_ok (l ++ tail) ->
  span (l ++ tail) = HEAP_SIZE ->
  exists m',
    (if negb (blk_prev (h_mem h) A =? 0) && negb (blk_free (h_mem h) (blk_prev (h_mem h) A) =? 0)
     then coalesce_forward (blk_prev (h_mem h) A) else ret tt) h =
    Done tt (mkHeap m' (heap_list h) (h_lock h)) [] /\
    seg m' 0 heap_arena
      (match rev l with
       | p :: l' => if b_free p then rev l' ++ absorb p tail else l ++ tail
       | [] => tail end) 0 /\
    (forall x, in_payload heap_arena l x \/ in_payload A tail x \/ outside_arena x \/
       A + 32 <= x < A + 36 -> m' x = h_mem h x).
Proof.
  intros tail A [Ha Hb64] Hseg Hok Hsp.
  pose proof Hseg as (_ & (_ & _ & _ & E4 & _) & _)%seg_middle. fold A in E4. rewrite E4.
  destruct (rev l) as [|p l'] eqn:E.
  { assert (l = []) as -> by (rewrite <- (rev_involutive l), E; done).
    exists (h_mem h). by destruct h. }
  assert (l = rev l' ++ [p]) as -> by (rewrite <- (rev_involutive l), E; done). clear E.
  rewrite <- app_assoc in *. cbn [app] in *.
  pose proof Hok as (Hlok & Hp & Ht)%Forall_mid. pose proof (span_pos _ Hlok).
  pose proof Hseg as (_ & (_ & F2 & _) & _)%seg_middle.
  assert (A = heap_arena + span (rev l') + extent p) as HA
    by (unfold A; rewrite span_app; simpl; lia).
  assert (extent p = 32 + b_size p) as He by done. unfold blk_ok in Hp.
  rewrite last_addr_app. cbn [last_addr].
  destruct (Z.eqb_spec (heap_arena + span (rev l')) 0); [lia|]. rewrite F2.
  destruct (b_free p) eqn:Hpf; cbn [negb andb Z.eqb].
  - destruct (coalesce_sim h (rev l') p tail) as (m' & Er & Hs & Hfr); try done.
    exists m'. split_and!; [done..|]. intros x Hx. apply Hfr. rewrite <- HA.
    unfold outside_arena in Hx. rewrite in_payload_app in Hx. simpl in Hx.
    rewrite Hpf in Hx. destruct Hx as [[Hx|[[? _]|[]]]|[Hx|[[Hx|Hx]|Hx]]]; try done; auto.
    + apply in_payload_range in Hx; [|done]. left. lia.
    + left. lia.
    + right. right. right. lia.
  - exists (h_mem h). by destruct h.
Qed.

(** Freeing the allocated block between [l] and [r] does what [abs_kfree] does. *)
Lemma kfree_sim (h : heap L) l b r :
  heap_inv h (l ++ b :: r) -> b_free b = false ->
  exists h' t,
    kfree (heap_arena + span l + 36) h = Done tt h' t /\ heap_inv h' (abs_kfree l b r) /\
    lock_irq (h_lock h') = lock_irq (h_lock h) /\
    load32 (h_mem h') (heap_arena + span l + 32) = 0 /\
    (forall x, in_payload heap_arena l x \/ in_payload (heap_arena + span l + extent b) r x \/
       outside_arena x -> h_mem h' x = h_mem h x).
Proof.
  intros [Ha Hl Hseg Hok Hsp Hco Hlk] Hbf.
  pose proof (abs_kfree_wf l b r HEAP_SIZE (Build_bs_wf _ _ Hok Hsp Hco) Hbf) as Hwf.
  destruct (lock_run h Hlk) as (l1 & t1 & l2 & t2 & E1 & E2 & Hi & Hq).
  pose proof Hok as (Hlok & Hb & Hr)%Forall_mid. pose proof (span_pos l Hlok).
  pose proof Hseg as (_ & (_ & _ & _ & _ & Hmag) & _)%seg_middle. specialize (Hmag Hbf).
  set (A := heap_arena + span l) in *. unfold kfree.
  destruct (Z.eqb_spec (A + 36) 0); [unfold arena_ok in Ha; lia|].
  rewrite (bind_done _ _ _ _ _ _ E1). mstep.
  replace (A + 36 - 4) with (A + sizeof_block_t) by (unfold sizeof_block_t; lia).
  cbn [h_mem]. rewrite Hmag, Z.eqb_refl. cbn [negb].
  replace (A + sizeof_block_t - sizeof_block_t) with A by lia.
  unfold upd_mem. mstep. cbn [h_mem heap_list h_lock].
  set (fb := Blk (b_size b) true).
  pose proof (seg_drop heap_arena (h_mem h) l b r Hok Hseg) as Hs1. fold A in Hs1.
  assert (extent fb = extent b) as Hefb by done.
  assert (Forall blk_ok (l ++ fb :: r)) as Hok1 by (by apply Forall_mid).
  destruct (coalesce_sim (mkHeap (drop_mem A (h_mem h)) (heap_list h) l1) l fb r)
    as (m2 & Er2 & Hs2 & Hfr2); try done; [by rewrite span_mid in *|].
  fold A in Er2, Hfr2. rewrite (bind_done _ _ _ _ _ _ Er2). mstep. cbn [h_mem heap_list h_lock].
  destruct (absorb_free_head fb r) as (s & tl & Et); [done|].
  assert (Forall blk_ok (l ++ absorb fb r)) as Hok2
    by (apply Forall_app; split; [done|by apply absorb_ok]).
  assert (span (l ++ absorb fb r) = HEAP_SIZE) as Hsp2
    by (rewrite span_app, absorb_span; rewrite span_mid in Hsp; lia).
  pose proof (in_payload_absorb A fb r) as Hpay.
  unfold abs_kfree in *. fold fb in Hwf |- *. rewrite Et in *.
  destruct (merge_back_sim (mkHeap m2 (heap_list h) l1) l s tl) as (m3 & Er3 & Hs3 & Hfr3);
    try done. fold A in Er3, Hfr3. cbn [h_mem heap_list h_lock] in *.
  rewrite (bind_done _ _ _ _ _ _ Er3), E2. eexists _, _. split_and!; [done|by destruct Hwf; split|done| |].
  - cbn [h_mem]. rewrite (load_ext 4 m3 (drop_mem A (h_mem h))).
    + unfold drop_mem. by rewrite load_store_eq.
    + intros x Hx. assert (extent fb = 32 + b_size b) by done. unfold blk_ok in Hb.
      rewrite Hfr3 by (do 3 right; lia). rewrite Hfr2 by (do 3 right; lia). done.
  - cbn [h_mem]. intros x Hx. unfold blk_ok in Hb. assert (extent b = 32 + b_size b) by done.
    pose proof (client_byte_untouched l b r x (Build_bs_wf _ _ Hok Hsp Hco) Hx) as Hu.
    rewrite Hfr3, Hfr2.
    + apply drop_mem_frame. unfold untouched in Hu. fold A in Hu. lia.
    + rewrite Hefb. destruct Hx as [Hx|[Hx|[Hx|Hx]]]; auto; left.
      * apply in_payload_range in Hx; [|done]. lia.
      * lia.
    + rewrite Hpay by done. rewrite Hefb. destruct Hx as [Hx|[Hx|Hx]]; auto.
Qed.

End HeapProof.
