(* ===== verification/HeapClient.v ===== *)
(** * Heap: clients and histories

    The heap under arbitrary sequences of client operations: allocate, free a live
    pointer, write inside a live allocation.  [heap_reach] is the reachable states
    together with the live allocations (pointer and requested size); the theorems
    hold in every one of them. *)

From S2P Require Import Prelude Memory Machine KernLock Heap HeapSpec HeapMem HeapProof.

(** The pointers handed out for the allocated blocks, with the bytes they own. *)
Fixpoint allocs (a : Z) (bs : list blk) : list (Z * Z) :=
  match bs with
  | [] => []
  | b :: bs' => (if b_free b then [] else [(a + 36, b_size b - 4)]) ++ allocs (a + extent b) bs'
  end.

Lemma allocs_app a l1 l2 : allocs a (l1 ++ l2) = allocs a l1 ++ allocs (a + span l1) l2.
Proof.
  revert a. induction l1 as [|b l1 IH]; intros a; simpl.
  - by rewrite Z.add_0_r.
  - rewrite IH. replace (a + extent b + span l1) with (a + (extent b + span l1)) by lia.
    by rewrite app_assoc.
Qed.

Lemma allocs_absorb a b r : b_free b = true -> allocs a (absorb b r) = allocs (a + extent b) r.
Proof.
  intros Hb. destruct r as [|n r]; simpl; [by rewrite Hb|].
  destruct (b_free n) eqn:E; simpl; rewrite ?Hb, ?E; [|done].
  f_equal. unfold extent. simpl. lia.
Qed.

Lemma allocs_kfree a l b r :
  b_free b = false -> allocs a (abs_kfree l b r) = allocs a l ++ allocs (a + span l + extent b) r.
Proof.
  intros Hb. unfold abs_kfree. set (fb := Blk (b_size b) true).
  assert (allocs (a + span l) (absorb fb r) = allocs (a + span l + extent b) r) as Ht
    by (by rewrite allocs_absorb).
  destruct (rev l) as [|p l'] eqn:E.
  - assert (l = []) as -> by (rewrite <- (rev_involutive l), E; done).
    simpl in *. by rewrite Z.add_0_r in *.
  - assert (l = rev l' ++ [p]) as -> by (rewrite <- (rev_involutive l), E; done). clear E.
    destruct (b_free p) eqn:Hp.
    + rewrite !allocs_app, allocs_absorb by done. simpl. rewrite Hp. simpl. rewrite app_nil_r.
      rewrite <- Ht. do 2 f_equal. rewrite span_app. simpl. lia.
    + by rewrite allocs_app, Ht.
Qed.

Lemma allocs_carve a b need :
  4 <= need <= b_size b -> exists cap, allocs a (carve b need) = [(a + 36, cap)] /\ need - 4 <= cap.
Proof. intros Hn. unfold carve. case_cmp; simpl; eexists; (split; [done|lia]). Qed.

(** Every owned range lies in the run, and pointers are strictly increasing. *)
Lemma allocs_range a bs p c :
  Forall blk_ok bs -> (p, c) ∈ allocs a bs -> a + 36 <= p /\ p + c <= a + span bs /\ 0 <= c.
Proof.
  intros Hok. revert a. induction Hok as [|b bs Hb Hok IH]; intros a; simpl.
  { by intros ?%not_elem_of_nil. }
  pose proof (span_pos bs Hok). unfold blk_ok in Hb.
  assert (extent b = 32 + b_size b) as He by done.
  rewrite elem_of_app. intros [Hin|Hin%IH]; [|lia].
  destruct (b_free b); [by apply not_elem_of_nil in Hin|].
  apply list_elem_of_singleton in Hin as [= -> ->]. lia.
Qed.

Lemma allocs_disjoint a bs i j p c p' c' :
  Forall blk_ok bs -> allocs a bs !! i = Some (p, c) -> allocs a bs !! j = Some (p', c') ->
  (i < j)%nat -> p + c <= p'.
Proof.
  intros Hok. revert a i j. induction Hok as [|b bs Hb Hok IH]; intros a i j; simpl; [done|].
  unfold blk_ok in Hb. assert (extent b = 32 + b_size b) as He by done.
  destruct (b_free b); simpl; [apply IH|].
  destruct i as [|i], j as [|j]; simpl; try lia.
  - intros [= <- <-] Hj%list_elem_of_lookup_2 _. apply allocs_range in Hj; [|done]. lia.
  - intros. eapply IH; [done..|lia].
Qed.

Lemma allocs_mem a bs p c :
  (p, c) ∈ allocs a bs -> exists l b r,
    bs = l ++ b :: r /\ b_free b = false /\ p = a + span l + 36 /\ c = b_size b - 4.
Proof.
  revert a. induction bs as [|b bs IH]; intros a; simpl; [by intros ?%not_elem_of_nil|].
  rewrite elem_of_app. intros [Hin|Hin].
  - destruct (b_free b) eqn:E; [by apply not_elem_of_nil in Hin|].
    apply list_elem_of_singleton in Hin as [= -> ->].
    exists [], b, bs. simpl. split_and!; try done. lia.
  - destruct (IH _ Hin) as (l & b' & r & -> & ? & -> & ?).
    exists (b :: l), b', r. simpl. split_and!; try done. lia.
Qed.

Lemma allocs_payload a bs p c x :
  (p, c) ∈ allocs a bs -> p <= x < p + c -> in_payload a bs x.
Proof.
  intros (l & b & r & -> & Hf & -> & ->)%allocs_mem Hx.
  apply in_payload_app. right. left. split; [done|]. unfold extent, sizeof_block_t. lia.
Qed.

Lemma allocs_none_free a bs : allocs a bs = [] -> Forall (fun b => b_free b = true) bs.
Proof.
  revert a. induction bs as [|b bs IH]; intros a; simpl; [done|].
  destruct (b_free b) eqn:E; simpl; [|done]. intros H%IH. by constructor.
Qed.

Lemma allocs_NoDup a bs : Forall blk_ok bs -> NoDup (fst <$> allocs a bs).
Proof.
  intros Hok. revert a. induction Hok as [|b bs Hb Hok IH]; intros a; simpl; [constructor|].
  destruct (b_free b); simpl; [apply IH|]. constructor; [|apply IH].
  intros ([p c] & Hp & Hin)%list_elem_of_fmap. simpl in Hp. apply allocs_range in Hin; [|done].
  unfold blk_ok, extent, sizeof_block_t in *. lia.
Qed.

Section Client.
Context {L : Type} {LO : KernLockOps L} {LL : KernLock L}.
Context (heap_arena : Z).

(** ** heap_init and heap_free_bytes *)

Definition initial_blocks : list blk := [Blk (HEAP_SIZE - sizeof_block_t) true].

Lemma heap_init_sim (h : heap L) :
  arena_ok heap_arena -> lock_idle (h_lock h) ->
  exists h', heap_init heap_arena h = Done tt h' [] /\ heap_inv heap_arena h' initial_blocks.
Proof.
  intros Ha Hl. unfold heap_init, upd_mem. mstep. unfold modify. simpl.
  eexists. split; [done|]. split; try done.
  - simpl. heap_unfold. unfold arena_ok, HEAP_SIZE in *. simpl. split_and!; mem_simp; done.
  - repeat constructor. unfold blk_ok, HEAP_SIZE, sizeof_block_t. simpl. lia.
Qed.

Lemma free_loop (h : heap L) bs : forall fuel prev a total,
  0 < a -> Forall blk_ok bs -> seg (h_mem h) prev a bs 0 -> (length bs < fuel)%nat ->
  0 <= total -> total + free_sum bs < 2 ^ 64 ->
  loop fuel (fun '(b, total) =>
    if b =? 0 then ret (inr total) else
    m <- gets h_mem ;;
    let total := if blk_free m b =? 0 then total else u64 (total + blk_size m b) in
    ret (inl (blk_next m b, total))) (head_or bs a 0, total) h =
  Done (total + free_sum bs) h [].
Proof.
  induction bs as [|b bs IH]; intros fuel prev a total Ha Hok Hseg Hf Ht Hs;
    (destruct fuel as [|fuel]; [simpl in *; lia|]); rewrite loop_S.
  - simpl. rewrite bind_ret. unfold ret. f_equal. lia.
  - cbn [head_or]. destruct (Z.eqb_spec a 0); [lia|].
    apply Forall_cons_iff in Hok as [Hb Hok]. destruct Hseg as [(E1 & E2 & E3 & E4 & _) Hseg].
    pose proof (free_sum_bound bs Hok). mstep. cbv zeta. rewrite E1, E2, E3.
    cbn [free_sum foldr] in *. unfold blk_ok in Hb.
    change (foldr _ 0 bs) with (free_sum bs) in *.
    assert (0 < a + extent b) by (unfold extent, sizeof_block_t; lia).
    destruct (b_free b); cbn [Z.eqb].
    + rewrite u64_small by lia. rewrite (IH fuel a) by (try done; simpl in *; lia). f_equal. lia.
    + rewrite (IH fuel a) by (try done; simpl in *; lia). f_equal.
Qed.

Lemma heap_free_bytes_run (h : heap L) bs :
  heap_inv heap_arena h bs -> heap_free_bytes h = Done (free_sum bs) h [].
Proof.
  intros [[Ha Ha'] Hl Hseg Hok Hsp Hco Hlk]. unfold heap_free_bytes. mstep. rewrite Hl.
  pose proof (free_sum_bound bs Hok). unfold HEAP_SIZE in *.
  replace heap_arena with (head_or bs heap_arena 0) by (by destruct bs).
  rewrite (free_loop h bs heap_fuel 0 heap_arena) by (eauto using fuel_enough; lia).
  done.
Qed.

(** ** Histories *)

Inductive heap_step : heap L * list (Z * Z) -> heap L * list (Z * Z) -> Prop :=
| step_malloc h live n p h' t :
    0 < n <= 2 ^ 64 - 16 -> kmalloc n h = Done p h' t ->
    heap_step (h, live) (h', (p, n) :: live)
| step_free h live p n live' h' t :
    live ≡ₚ (p, n) :: live' -> kfree p h = Done tt h' t ->
    heap_step (h, live) (h', live')
| step_write h live p n x v :
    (p, n) ∈ live -> p <= x < p + n ->
    heap_step (h, live) (mkHeap (store8 (h_mem h) x v) (heap_list h) (h_lock h), live).

(** States reachable from a freshly initialised heap. *)
Inductive heap_reach : heap L * list (Z * Z) -> Prop :=
| reach_init h h' t :
    arena_ok heap_arena -> lock_idle (h_lock h) -> heap_init heap_arena h = Done tt h' t ->
    heap_reach (h', [])
| reach_step s s' : heap_reach s -> heap_step s s' -> heap_reach s'.

(** The live allocations are the allocated blocks, each at least as large as asked. *)
Definition live_ok (bs : list blk) (live : list (Z * Z)) : Prop :=
  fst <$> allocs heap_arena bs ≡ₚ fst <$> live /\
  forall p n, (p, n) ∈ live -> exists c, (p, c) ∈ allocs heap_arena bs /\ n <= c.

Definition client_inv (s : heap L * list (Z * Z)) : Prop :=
  exists bs, heap_inv heap_arena (fst s) bs /\ live_ok bs (snd s).

Lemma heap_inv_wf h bs : heap_inv heap_arena h bs -> bs_wf bs HEAP_SIZE.
Proof. by intros []. Qed.

Lemma client_inv_malloc h live n p h' t :
  client_inv (h, live) -> 0 < n <= 2 ^ 64 - 16 -> kmalloc n h = Done p h' t ->
  client_inv (h', (p, n) :: live).
Proof.
  intros (bs & Hinv & Hp & Hlive) Hn E. simpl in *.
  pose proof (kmalloc_sim heap_arena h bs n Hinv Hn) as Hsim.
  pose proof (align16_spec n ltac:(lia)) as (Hal & _).
  unfold abs_kmalloc in Hsim. destruct (first_fit _ bs) as [[[l b] r]|] eqn:Hff;
    [|by destruct Hsim as (? & ? & ? & _); congruence].
  destruct Hsim as (h1 & t1 & E1 & Hinv1 & _). rewrite E in E1. injection E1 as -> -> _.
  apply first_fit_spec in Hff as (-> & Hbf & Hfit & _).
  destruct (allocs_carve (heap_arena + span l) b (align16 n + 4)) as (cap & Hc & Hcap); [lia|].
  assert (allocs heap_arena (l ++ carve b (align16 n + 4) ++ r) =
    allocs heap_arena l ++ (heap_arena + span l + 36, cap) ::
      allocs (heap_arena + span l + extent b) r) as HA
    by (by rewrite !allocs_app, Hc, carve_span).
  assert (allocs heap_arena (l ++ b :: r) =
    allocs heap_arena l ++ allocs (heap_arena + span l + extent b) r) as HB
    by (rewrite allocs_app; simpl; by rewrite Hbf).
  exists (l ++ carve b (align16 n + 4) ++ r). split; [done|]. split; simpl.
  - rewrite HA, <- Hp, HB, !fmap_app. simpl. by rewrite Permutation_middle.
  - intros q k [[= -> ->]|(c & Hq & ?)%Hlive]%elem_of_cons.
    + exists cap. rewrite HA. split; [set_solver|lia].
    + exists c. rewrite HA. rewrite HB in Hq. split; [set_solver|done].
Qed.

Lemma client_inv_free h live p n live' :
  client_inv (h, live) -> live ≡ₚ (p, n) :: live' ->
  exists h' t, kfree p h = Done tt h' t /\ client_inv (h', live').
Proof.
  intros (bs & Hinv & Hp & Hlive) HL. simpl in *.
  destruct (Hlive p n) as (c & Hin & _); [rewrite HL; set_solver|].
  apply allocs_mem in Hin as (l & b & r & -> & Hbf & -> & ->).
  destruct (kfree_sim heap_arena h l b r Hinv Hbf) as (h' & t & E & Hinv' & _).
  assert (allocs heap_arena (l ++ b :: r) =
    allocs heap_arena l ++ (heap_arena + span l + 36, b_size b - 4) ::
      allocs (heap_arena + span l + extent b) r) as HA
    by (rewrite allocs_app; simpl; by rewrite Hbf).
  assert (fst <$> allocs heap_arena (abs_kfree l b r) ≡ₚ fst <$> live') as Hperm.
  { rewrite allocs_kfree by done. rewrite HL, HA, !fmap_app in Hp. simpl in Hp.
    rewrite <- Permutation_middle in Hp. rewrite fmap_app. by apply Permutation_cons_inv in Hp. }
  exists h', t. split; [done|]. exists (abs_kfree l b r).
  split; [exact Hinv'|]. split; [exact Hperm|]. cbn [snd].
  intros q k Hq. destruct (Hlive q k) as (c & Hc & ?); [rewrite HL; set_solver|].
  exists c. split; [|done]. rewrite HA in Hc. rewrite allocs_kfree by done.
  apply elem_of_app in Hc as [Hc|[[= -> ->]|Hc]%elem_of_cons]; [set_solver| |set_solver].
  exfalso. pose proof (allocs_NoDup heap_arena _ (inv_ok _ _ _ Hinv)) as Hnd.
  rewrite HA, fmap_app in Hnd. simpl in Hnd.
  rewrite allocs_kfree in Hperm by done. rewrite fmap_app in Hperm.
  apply NoDup_app in Hnd as (? & Hx & [Hy ?]%NoDup_cons).
  assert (heap_arena + span l + 36 ∈ fst <$> live') as Hz by (apply list_elem_of_fmap; by exists (heap_arena + span l + 36, k)).
  rewrite <- Hperm in Hz. set_solver.
Qed.

Lemma client_inv_write h live p n x v :
  client_inv (h, live) -> (p, n) ∈ live -> p <= x < p + n ->
  client_inv (mkHeap (store8 (h_mem h) x v) (heap_list h) (h_lock h), live).
Proof.
  intros (bs & [Ha Hl Hseg Hok Hsp Hco Hlk] & Hp & Hlive) Hin Hx. simpl in *.
  destruct (Hlive p n Hin) as (c & Hc & Hle).
  assert (in_payload heap_arena bs x) as Hpay by (apply (allocs_payload _ _ p c); [done|lia]).
  exists bs. split; [|done]. split; try done. simpl.
  apply (seg_payload_frame (h_mem h)); [done..|]. intros y Hy Hny.
  symmetry. apply store_out. assert (y <> x) by congruence. lia.
Qed.

Lemma heap_reach_inv s : heap_reach s -> client_inv s.
Proof.
  induction 1 as [h h' t Ha Hl E|s s' Hr IH Hs].
  - destruct (heap_init_sim h Ha Hl) as (h1 & E1 & Hinv). rewrite E in E1.
    injection E1 as -> _. exists initial_blocks. split; [done|]. split; [done|].
    intros p n ?%not_elem_of_nil. done.
  - destruct Hs as [h live n p h' t Hn E|h live p n live' h' t HL E|h live p n x v Hin Hx].
    + by eapply client_inv_malloc.
    + destruct (client_inv_free h live p n live' IH HL) as (h1 & t1 & E1 & Hinv).
      rewrite E in E1. injection E1 as -> _. done.
    + by eapply client_inv_write.
Qed.

(** ** What live allocations get, in any state that satisfies the invariant *)

Lemma live_disjoint h live i j p n p' n' :
  client_inv (h, live) -> live !! i = Some (p, n) -> live !! j = Some (p', n') -> i <> j ->
  heap_arena + 36 <= p /\ p + n <= heap_arena + HEAP_SIZE /\ (p + n <= p' \/ p' + n' <= p).
Proof.
  intros (bs & Hinv & Hp & Hl) Hi Hj Hne. simpl in *.
  pose proof (inv_ok _ _ _ Hinv) as Hok. pose proof (inv_span _ _ _ Hinv) as Hs.
  destruct (Hl p n) as (c & Hc & Hle); [by eapply list_elem_of_lookup_2|].
  destruct (Hl p' n') as (c' & Hc' & Hle'); [by eapply list_elem_of_lookup_2|].
  assert (p <> p') as Hpp.
  { intros <-. pose proof (allocs_NoDup heap_arena bs Hok) as Hnd. rewrite Hp in Hnd.
    apply Hne. eapply NoDup_lookup; [exact Hnd|..]; rewrite list_lookup_fmap; [by rewrite Hi|by rewrite Hj]. }
  pose proof (allocs_range _ _ _ _ Hok Hc) as (? & ? & _). split; [done|]. split; [lia|].
  apply list_elem_of_lookup in Hc as [a Ha]. apply list_elem_of_lookup in Hc' as [b Hb].
  destruct (Nat.lt_total a b) as [Hlt|[->|Hlt]].
  - left. pose proof (allocs_disjoint _ _ _ _ _ _ _ _ Hok Ha Hb Hlt). lia.
  - rewrite Ha in Hb. congruence.
  - right. pose proof (allocs_disjoint _ _ _ _ _ _ _ _ Hok Hb Ha Hlt). lia.
Qed.

Lemma live_NoDup h live : client_inv (h, live) -> NoDup live.*1.
Proof. intros (bs & Hinv & Hp & _). simpl in *. rewrite <- Hp. apply allocs_NoDup, (inv_ok _ _ _ Hinv). Qed.

Lemma malloc_keeps h live p n x k q h' t :
  client_inv (h, live) -> (p, n) ∈ live -> p <= x < p + n ->
  0 < k <= 2 ^ 64 - 16 -> kmalloc k h = Done q h' t -> h_mem h' x = h_mem h x.
Proof.
  intros (bs & Hinv & Hp & Hl) Hin Hx Hk E. simpl in *. destruct (Hl p n Hin) as (c & Hc & Hle).
  pose proof (kmalloc_sim heap_arena h bs k Hinv Hk) as Hsim.
  destruct (abs_kmalloc _ bs) as [[off bs']|]; destruct Hsim as (h1 & t1 & E1 & Hs);
    rewrite E in E1; [|done]. injection E1 as _ -> _. apply Hs. left.
  apply (allocs_payload _ _ p c); [done|lia].
Qed.

Lemma free_keeps h live p n x q k live' h' t :
  client_inv (h, live) -> (p, n) ∈ live -> p <= x < p + n ->
  live ≡ₚ (q, k) :: live' -> p <> q -> kfree q h = Done tt h' t -> h_mem h' x = h_mem h x.
Proof.
  intros (bs & Hinv & Hp & Hl) Hin Hx HL Hne E. simpl in *. destruct (Hl p n Hin) as (c & Hc & Hle).
  destruct (Hl q k) as (cq & Hcq & _); [rewrite HL; set_solver|].
  apply allocs_mem in Hcq as (l & b & r & -> & Hbf & -> & ->).
  destruct (kfree_sim heap_arena h l b r Hinv Hbf) as (h1 & t1 & E1 & _ & _ & _ & Hfr).
  rewrite E in E1. injection E1 as -> _. apply Hfr.
  rewrite allocs_app in Hc. simpl in Hc. rewrite Hbf in Hc.
  apply elem_of_app in Hc as [Hc|[[= -> ->]|Hc]%elem_of_cons]; [left|done|right; left];
    (eapply allocs_payload; [exact Hc|lia]).
Qed.

Lemma live_none h : client_inv (h, []) -> heap_free_bytes h = Done (HEAP_SIZE - sizeof_block_t) h [].
Proof.
  intros (bs & Hinv & Hp & _). simpl in *.
  apply Permutation_nil_r, fmap_nil_inv, allocs_none_free in Hp.
  rewrite (heap_free_bytes_run h bs Hinv).
  rewrite (all_free_single bs HEAP_SIZE) by (done || by eapply heap_inv_wf). done.
Qed.

(** Any change of bytes that live allocations own keeps the invariant. *)
Lemma client_inv_payload h h' live :
  client_inv (h, live) -> heap_list h' = heap_list h -> h_lock h' = h_lock h ->
  (forall x, h_mem h' x <> h_mem h x -> exists p n, (p, n) ∈ live /\ p <= x < p + n) ->
  client_inv (h', live).
Proof.
  intros (bs & [Ha Hl Hseg Hok Hsp Hco Hlk] & Hp & Hlive) E1 E2 Hx. simpl in *.
  exists bs. split; [|done]. split; try done; cbn [fst]; [congruence| |congruence].
  apply (seg_payload_frame (h_mem h)); [done..|]. intros y Hy Hny.
  destruct (Z.eq_dec (h_mem h' y) (h_mem h y)) as [E|E]; [done|].
  destruct (Hx y E) as (p & n & Hin & Hr). destruct (Hlive p n Hin) as (c & Hc & Hle).
  destruct Hny. apply (allocs_payload _ _ p c); [done|lia].
Qed.

End Client.
