(* ===== verification/HeapTheorems.v ===== *)
(** * Heap: what its clients get

    The theorems about heap.c, for any kernel lock that keeps the promise of
    [KernLock], and their instances with the lock of nkern_lock.c. *)

From S2P Require Import Prelude Memory Machine KernLock NKern.
From S2P Require Import Heap HeapSpec HeapMem HeapProof HeapClient.

Section Theorems.
Context {L : Type} {LO : KernLockOps L} {LL : KernLock L}.
Context (heap_arena : Z).

(** C4: on a heap that represents the block list [bs],
    [kmalloc n] returns the payload of the first free block that holds [n] rounded
    up to 16 plus the 4 bytes of the magic number, splits that block when more than
    48 bytes are left, and leaves a heap that represents the new list; it panics
    with [PANIC_HEAP_OOM], memory unchanged, exactly when no free block is large
    enough.  Bytes of other allocations and of memory outside the arena keep their
    values, and the interrupt flag is the one of before. *)
Theorem kmalloc_refines_first_fit (h : heap L) bs n :
  heap_inv heap_arena h bs -> 0 < n <= 2 ^ 64 - 16 ->
  match abs_kmalloc (align16 n + 4) bs with
  | Some (off, bs') => exists h' t,
      kmalloc n h = Done (heap_arena + off + 36) h' t /\ heap_inv heap_arena h' bs' /\
      lock_irq (h_lock h') = lock_irq (h_lock h) /\
      (forall x, client_byte heap_arena bs x -> h_mem h' x = h_mem h x)
  | None => exists h' t,
      kmalloc n h = Panic "HEAP" PANIC_HEAP_OOM h' t /\ heap_inv heap_arena h' bs /\
      h_mem h' = h_mem h
  end.
Proof. apply kmalloc_sim. Qed.

(** C5: freeing the payload of an allocated block marks the
    block free and merges it with its free neighbours on both sides, so that no two
    free blocks are adjacent; payloads of the other allocations and memory outside
    the arena keep their values. *)
Theorem kfree_refines_coalescing (h : heap L) l b r :
  heap_inv heap_arena h (l ++ b :: r) -> b_free b = false ->
  exists h' t,
    kfree (heap_arena + span l + 36) h = Done tt h' t /\
    heap_inv heap_arena h' (abs_kfree l b r) /\
    (forall x, in_payload heap_arena l x \/
       in_payload (heap_arena + span l + extent b) r x \/ outside_arena heap_arena x ->
       h_mem h' x = h_mem h x).
Proof.
  intros Hi Hb. destruct (kfree_sim heap_arena h l b r Hi Hb) as (h' & t & ? & ? & _ & _ & ?).
  by exists h', t.
Qed.

(** After any sequence of allocations, frees and writes by
    clients inside their own allocations, the live allocations lie inside the arena
    and any two of them are disjoint over the size that was asked for. *)
Theorem heap_live_disjoint (h : heap L) live i j p n p' n' :
  heap_reach heap_arena (h, live) -> live !! i = Some (p, n) -> live !! j = Some (p', n') ->
  i <> j ->
  heap_arena + 36 <= p /\ p + n <= heap_arena + HEAP_SIZE /\ (p + n <= p' \/ p' + n' <= p).
Proof. intros Hr%heap_reach_inv. intros. by eapply live_disjoint. Qed.

(** In every reachable state, neither an allocation nor a
    free of another allocation changes a byte a live allocation owns. *)
Theorem heap_live_data_kept (h : heap L) live p n x :
  heap_reach heap_arena (h, live) -> (p, n) ∈ live -> p <= x < p + n ->
  (forall k q h' t, 0 < k <= 2 ^ 64 - 16 -> kmalloc k h = Done q h' t -> h_mem h' x = h_mem h x) /\
  (forall q k live' h' t, live ≡ₚ (q, k) :: live' -> p <> q -> kfree q h = Done tt h' t ->
     h_mem h' x = h_mem h x).
Proof.
  intros Hr%heap_reach_inv Hin Hx. split.
  - intros k q h' t. by eapply malloc_keeps.
  - intros q k live' h' t. by eapply free_keeps.
Qed.

(** C22: in every reachable state, freeing a live allocation
    returns (it never panics and its walk ends), and the state after it is reachable
    with that allocation no longer live. *)
Theorem heap_free_live_succeeds (h : heap L) live p n live' :
  heap_reach heap_arena (h, live) -> live ≡ₚ (p, n) :: live' ->
  exists h' t, kfree p h = Done tt h' t /\ heap_reach heap_arena (h', live').
Proof.
  intros Hr HL. destruct (client_inv_free heap_arena h live p n live') as (h' & t & E & _);
    [by apply heap_reach_inv|done|].
  exists h', t. split; [done|]. eapply reach_step; [exact Hr|]. by eapply step_free.
Qed.

(** C23: freeing an allocation a second time, right after the
    first free, stops the system with [PANIC_HEAP_CORRUPT] and changes no memory. *)
Theorem heap_double_free_panics (h : heap L) live p n live' h' t :
  heap_reach heap_arena (h, live) -> live ≡ₚ (p, n) :: live' -> kfree p h = Done tt h' t ->
  exists h2 t2, kfree p h' = Panic "HEAP" PANIC_HEAP_CORRUPT h2 t2 /\ h_mem h2 = h_mem h'.
Proof.
  intros (bs & Hinv & Hp & Hl)%heap_reach_inv HL E. simpl in *.
  destruct (Hl p n) as (c & Hc & _); [rewrite HL; set_solver|].
  apply allocs_mem in Hc as (l & b & r & -> & Hbf & -> & ->).
  destruct (kfree_sim heap_arena h l b r Hinv Hbf) as (h1 & t1 & E1 & Hinv' & _ & Hz & _).
  rewrite E in E1. injection E1 as -> _.
  destruct (lock_run h1 (inv_lock _ _ _ Hinv')) as (l1 & t2 & l2 & t3 & EL & EU & _).
  pose proof (inv_ok _ _ _ Hinv) as (Hlok & _)%Forall_mid. pose proof (span_pos l Hlok).
  destruct (inv_arena _ _ _ Hinv) as [Ha _].
  unfold kfree. destruct (Z.eqb_spec (heap_arena + span l + 36) 0); [lia|].
  rewrite (bind_done _ _ _ _ _ _ EL). mstep. cbn [h_mem].
  replace (heap_arena + span l + 36 - 4) with (heap_arena + span l + 32) by lia.
  rewrite Hz. cbn [negb BLOCK_MAGIC Z.eqb]. rewrite (bind_done _ _ _ _ _ _ (EU _ _)).
  simpl. by eexists _, _.
Qed.

(** Whenever every allocation has been freed, in any
    order, the heap is one free block again: [heap_free_bytes] reports the whole
    arena less one header, as right after [heap_init]. *)
Theorem heap_all_freed_recovers (h : heap L) :
  heap_reach heap_arena (h, []) ->
  heap_free_bytes h = Done (HEAP_SIZE - sizeof_block_t) h [].
Proof. intros Hr%heap_reach_inv. by eapply live_none. Qed.

(** For the 15 largest values of [size_t] the rounding in
    [align16] wraps to 0, and [kmalloc] hands out a 4-byte block with no room for
    data instead of reporting that there is no memory. *)
Theorem kmalloc_size_wraps (h : heap L) bs n :
  heap_inv heap_arena h bs -> 2 ^ 64 - 16 < n < 2 ^ 64 ->
  match abs_kmalloc 4 bs with
  | Some (off, bs') => exists h' t,
      kmalloc n h = Done (heap_arena + off + 36) h' t /\ heap_inv heap_arena h' bs'
  | None => exists h' t, kmalloc n h = Panic "HEAP" PANIC_HEAP_OOM h' t
  end.
Proof.
  intros Hinv Hn.
  assert (align16 n = 0) as Ha.
  { unfold align16, u64 at 1. rewrite <- (Z.mod_unique (n + 15) (2 ^ 64) 1 (n + 15 - 2 ^ 64)) by lia.
    change (u64 (Z.lnot 15)) with (u64 (Z.lnot (2 ^ 4 - 1))).
    rewrite land_align by lia. rewrite Z.mod_small; lia. }
  pose proof (kmalloc_sim_gen heap_arena h bs n 4 Hinv ltac:(lia)) as Hsim.
  rewrite Ha in Hsim. specialize (Hsim eq_refl ltac:(lia)).
  destruct (abs_kmalloc 4 bs) as [[off bs']|]; destr_and; eauto.
Qed.

End Theorems.

(** ** A concrete heap

    The heap right after boot on CPU 0, and after two allocations. *)

Definition demo_arena : Z := 0x200000.
Definition demo_ops : KernLockOps nkern := nkern_lock_ops 0 (ret tt).
Definition demo_law : @KernLock nkern demo_ops := nkern_lock 0 (ret tt).
Definition demo0 : heap nkern :=
  final (heap_init demo_arena (mkHeap (fun _ => 0) 0 nkern_boot)).
Definition demo1 : heap nkern := final (kmalloc (LO := demo_ops) 100 demo0).
Definition demo2 : heap nkern := final (kmalloc (LO := demo_ops) 24 demo1).

Lemma demo_idle : lock_idle (KernLockOps := demo_ops) nkern_boot.
Proof. cbn. unfold nk_wf, MAX_CPUS. split_and!; done || lia. Qed.

Lemma demo_arena_ok : arena_ok demo_arena.
Proof. by split. Qed.

Lemma demo0_inv : heap_inv (LO := demo_ops) demo_arena demo0 initial_blocks.
Proof.
  destruct (heap_init_sim (LO := demo_ops) demo_arena (mkHeap (fun _ => 0) 0 nkern_boot)
    demo_arena_ok demo_idle) as (h & E & Hi). unfold demo0. by rewrite E.
Qed.

Lemma demo0_reach : heap_reach (LO := demo_ops) demo_arena (demo0, []).
Proof.
  eapply (reach_init (LO := demo_ops) _ (mkHeap (fun _ => 0) 0 nkern_boot));
    [exact demo_arena_ok|exact demo_idle|reflexivity].
Qed.

Definition demo_p1 : Z := demo_arena + 36.
Definition demo_p2 : Z := demo_arena + 184.

Lemma demo2_reach : heap_reach (LO := demo_ops) demo_arena (demo2, [(demo_p2, 24); (demo_p1, 100)]).
Proof.
  apply (reach_step (LO := demo_ops) _ (demo1, [(demo_p1, 100)])).
  { eapply reach_step; [exact demo0_reach|].
    eapply step_malloc; [lia|]. apply (value_done (kmalloc (LO := demo_ops) 100 demo0)).
    by vm_compute. }
  eapply step_malloc; [lia|]. apply (value_done (kmalloc (LO := demo_ops) 24 demo1)).
    by vm_compute.
Qed.

Definition demo_blocks : list blk := [Blk 116 false; Blk (HEAP_SIZE - 32 - 116 - 32) true].

Lemma demo_first_fit : abs_kmalloc (align16 100 + 4) initial_blocks = Some (0, demo_blocks).
Proof. by vm_compute. Qed.

Lemma kmalloc_refines_first_fit_witness : exists h' t,
  kmalloc (LO := demo_ops) 100 demo0 = Done (demo_arena + 0 + 36) h' t /\
  heap_inv (LO := demo_ops) demo_arena h' demo_blocks.
Proof.
  pose proof (kmalloc_refines_first_fit (LL := demo_law) demo_arena demo0 initial_blocks 100
    demo0_inv ltac:(lia)) as H. rewrite demo_first_fit in H.
  destruct H as (h' & t & E & Hi & _). exists h', t. exact (conj E Hi).
Defined.

Lemma kfree_refines_coalescing_witness : exists h' t,
  kfree (LO := demo_ops) (demo_arena + 0 + 36) demo1 = Done tt h' t /\
  heap_inv (LO := demo_ops) demo_arena h' initial_blocks.
Proof.
  assert (heap_inv (LO := demo_ops) demo_arena demo1
    ([] ++ Blk 116 false :: [Blk (HEAP_SIZE - 32 - 116 - 32) true])) as Hi.
  { pose proof (kmalloc_sim (LL := demo_law) demo_arena demo0 initial_blocks 100
      demo0_inv ltac:(lia)) as H. rewrite demo_first_fit in H.
    destruct H as (h' & t & E & Hi & _). unfold demo1. rewrite E. exact Hi. }
  destruct (kfree_refines_coalescing (LL := demo_law) demo_arena demo1 [] _ _ Hi eq_refl)
    as (h' & t & E & Hi' & _). exists h', t. exact (conj E Hi').
Defined.

Lemma heap_live_disjoint_witness :
  demo_arena + 36 <= demo_p2 /\ demo_p2 + 24 <= demo_arena + HEAP_SIZE /\
  (demo_p2 + 24 <= demo_p1 \/ demo_p1 + 100 <= demo_p2).
Proof.
  exact (heap_live_disjoint (LL := demo_law) demo_arena demo2 _ 0 1 _ _ _ _ demo2_reach
    eq_refl eq_refl ltac:(done)).
Defined.

Lemma heap_live_data_kept_witness :
  (forall k q h' t, 0 < k <= 2 ^ 64 - 16 -> kmalloc (LO := demo_ops) k demo2 = Done q h' t ->
     h_mem h' (demo_p1 + 99) = h_mem demo2 (demo_p1 + 99)) /\
  (forall q k live' h' t, [(demo_p2, 24); (demo_p1, 100)] ≡ₚ (q, k) :: live' -> demo_p1 <> q ->
     kfree (LO := demo_ops) q demo2 = Done tt h' t ->
     h_mem h' (demo_p1 + 99) = h_mem demo2 (demo_p1 + 99)).
Proof.
  refine (heap_live_data_kept (LL := demo_law) demo_arena demo2 _ demo_p1 100 (demo_p1 + 99)
    demo2_reach _ _).
  - apply list_elem_of_further, list_elem_of_here.
  - unfold demo_p1, demo_arena. lia.
Defined.

Lemma heap_free_live_succeeds_witness : exists h' t,
  kfree (LO := demo_ops) demo_p1 demo2 = Done tt h' t /\
  heap_reach (LO := demo_ops) demo_arena (h', [(demo_p2, 24)]).
Proof.
  apply (heap_free_live_succeeds (LL := demo_law) demo_arena demo2 _ demo_p1 100 _ demo2_reach).
  apply perm_swap.
Defined.

Definition demo3 : heap nkern := final (kfree (LO := demo_ops) demo_p1 demo2).

Lemma heap_double_free_panics_witness : exists h2 t2,
  kfree (LO := demo_ops) demo_p1 demo3 = Panic "HEAP" PANIC_HEAP_CORRUPT h2 t2 /\
  h_mem h2 = h_mem demo3.
Proof.
  apply (heap_double_free_panics (LL := demo_law) demo_arena demo2 _ demo_p1 100
    [(demo_p2, 24)] demo3 (trace (kfree (LO := demo_ops) demo_p1 demo2)) demo2_reach).
  - apply perm_swap.
  - apply value_done. by vm_compute.
Defined.

Lemma heap_all_freed_recovers_witness :
  heap_free_bytes demo0 = Done (HEAP_SIZE - sizeof_block_t) demo0 [].
Proof. exact (heap_all_freed_recovers (LL := demo_law) demo_arena demo0 demo0_reach). Defined.

Lemma kmalloc_size_wraps_witness : exists h' t,
  kmalloc (LO := demo_ops) (2 ^ 64 - 1) demo0 = Done (demo_arena + 0 + 36) h' t /\
  heap_inv (LO := demo_ops) demo_arena h' [Blk 4 false; Blk (HEAP_SIZE - 32 - 4 - 32) true].
Proof.
  pose proof (kmalloc_size_wraps (LL := demo_law) demo_arena demo0 initial_blocks (2 ^ 64 - 1)
    demo0_inv ltac:(lia)) as H.
  replace (abs_kmalloc 4 initial_blocks) with
    (Some (0, [Blk 4 false; Blk (HEAP_SIZE - 32 - 4 - 32) true])) in H by (by vm_compute).
  exact H.
Defined.
