(* ===== verification/HeapSmp.v ===== *)
(** * The heap on several CPUs

    All CPUs call [kmalloc] and [kfree] and write inside their allocations; their steps
    interleave with each other and with every step of the lock ([NKernSmp]).  A call
    enters [NKern_Lock]; once the CPU holds the lock it runs the critical section, which
    is not one step: it reads the heap at its beginning and its writes become visible at
    its end, whatever the other CPUs did in between.  That this is harmless is what the
    lock is for.  The critical section is that of [Heap], over a lock state of its own
    that does nothing. *)

From S2P Require Import Prelude Memory Machine KernLock NKern NKernSmp.
From S2P Require Import Heap HeapSpec HeapMem HeapProof HeapClient.

(** The lock operations inside of the critical section are those of the steps. *)
#[export] Instance section_ops : KernLockOps unit := {|
  NKern_Lock := ret tt; NKern_Unlock := ret tt;
  lock_idle _ := True; lock_held _ := True; lock_irq _ := false
|}.
#[export] Instance section_lock : KernLock unit.
Proof. split. intros [] _. by exists tt, [], tt, []. Qed.

Inductive heap_op := OpMalloc (n : Z) | OpFree (p : Z).

(** Where a CPU stands in a call; [Busy]: with the heap as it found it. *)
Inductive act := Idle | Call (op : heap_op) | Busy (op : heap_op) (found : heap unit) | Finish.

Record hsys := mkHsys {
  hs_lock : sys;
  hs_heap : heap unit;
  hs_act : nat -> act;
  hs_live : list (Z * Z)         (* allocations: pointer and size *)
}.

Definition set_act (c : nat) (a : act) (f : nat -> act) : nat -> act := fun i => if decide (i = c) then a else f i.

Lemma set_act_eq c a f : set_act c a f c = a.
Proof. unfold set_act. by rewrite decide_True. Qed.
Lemma set_act_ne c a f i : i <> c -> set_act c a f i = f i.
Proof. intros. unfold set_act. by rewrite decide_False. Qed.

(** CPU [c] is freeing [p]. *)
Definition freeing (a : act) (p : Z) : Prop :=
  match a with Call (OpFree q) | Busy (OpFree q) _ => q = p | _ => False end.

(** The heap after the critical section that found [found] and left [h']: what it wrote,
    and elsewhere what the others did. *)
Definition merge_heap (found h' cur : heap unit) : heap unit :=
  mkHeap (fun x => if h_mem h' x =? h_mem found x then h_mem cur x else h_mem h' x) (heap_list h') tt.

Section Steps.
Context (fresh : bool) (heap_arena : Z).

(** Labels: the write of a client, or anything else. *)
Inductive hstep : option (Z * Z) -> hsys -> hsys -> Prop :=
| H_lock l l' h a live :           (* the lock: spinning, ticks, other critical sections *)
    lstep fresh l l' ->
    (forall d, pc_of d (snd l') = pc_of d (snd l) \/ a d = Idle \/ pc_of d (snd l) = Spin) ->
    hstep None (mkHsys l h a live) (mkHsys l' h a live)
| H_call c op k ps k' t h a live : (* a call, up to the spin in [NKern_Lock] *)
    (c < MAX_CPUS)%nat -> pc_of c ps <> Spin -> a c = Idle -> Lock_enter c k = Done tt k' t ->
    match op with
    | OpMalloc n => 0 < n <= 2 ^ 64 - 16
    | OpFree p => (exists n, (p, n) ∈ live) /\ forall d, ~ freeing (a d) p
    end ->
    hstep None (mkHsys (k, ps) h a live)
      (mkHsys (k', <[c := if nk_count c k' =? 1 then Spin else Hold]> ps) h (set_act c (Call op) a) live)
| H_begin c op l h a live :
    a c = Call op -> pc_of c (snd l) = Hold ->
    hstep None (mkHsys l h a live) (mkHsys l h (set_act c (Busy op h) a) live)
| H_malloc c n found l h a live p h' t :
    a c = Busy (OpMalloc n) found -> kmalloc n found = Done p h' t ->
    hstep None (mkHsys l h a live) (mkHsys l (merge_heap found h' h) (set_act c Finish a) ((p, n) :: live))
| H_oom c n found l h a live msg code h' t :  (* the panic comes after the unlock *)
    a c = Busy (OpMalloc n) found -> kmalloc n found = Panic msg code h' t ->
    hstep None (mkHsys l h a live) (mkHsys l (merge_heap found h' h) (set_act c Finish a) live)
| H_free c p n found l h a live live' h' t :
    a c = Busy (OpFree p) found -> live ≡ₚ (p, n) :: live' -> kfree p found = Done tt h' t ->
    hstep None (mkHsys l h a live) (mkHsys l (merge_heap found h' h) (set_act c Finish a) live')
| H_unlock c l l' h a live :
    a c = Finish -> lstep fresh l l' -> (forall d, d <> c -> pc_of d (snd l') = pc_of d (snd l)) ->
    hstep None (mkHsys l h a live) (mkHsys l' h (set_act c Idle a) live)
| H_write p n x v l h a live :     (* a client writes a byte of an allocation it has not freed *)
    (p, n) ∈ live -> p <= x < p + n -> (forall d, ~ freeing (a d) p) ->
    hstep (Some (x, v)) (mkHsys l h a live) (mkHsys l (mkHeap (store8 (h_mem h) x v) (heap_list h) tt) a live).

Inductive hreach : hsys -> Prop :=
| HR_boot h0 h t :
    arena_ok heap_arena -> heap_init heap_arena h0 = Done tt h t ->
    hreach (mkHsys (nkern_boot, replicate MAX_CPUS Free) h (fun _ => Idle) [])
| HR_step l s s' : hreach s -> hstep l s s' -> hreach s'.

(** ** The invariant *)

Definition busy (a : act) : Prop := match a with Busy _ _ => True | _ => False end.

(** The heap as the CPU in its critical section found it, and what may have changed since:
    bytes of allocations that nobody is freeing. *)
Definition found_ok (s : hsys) (op : heap_op) (found : heap unit) : Prop :=
  client_inv heap_arena (found, hs_live s) /\ heap_list (hs_heap s) = heap_list found /\
  (forall x, h_mem (hs_heap s) x <> h_mem found x ->
     exists p n, (p, n) ∈ hs_live s /\ p <= x < p + n /\ op <> OpFree p).

Record hinv (s : hsys) : Prop := {
  hi_lock : linv fresh (hs_lock s);
  hi_cpu c : hs_act s c <> Idle -> (c < MAX_CPUS)%nat;
  hi_busy c : busy (hs_act s c) -> pc_of c (snd (hs_lock s)) = Hold;
  hi_op c op : hs_act s c = Call op \/ (exists f, hs_act s c = Busy op f) ->
    match op with
    | OpMalloc n => 0 < n <= 2 ^ 64 - 16
    | OpFree p => exists n, (p, n) ∈ hs_live s
    end;
  hi_free c d p : freeing (hs_act s c) p -> freeing (hs_act s d) p -> c = d;
  hi_heap : client_inv heap_arena (hs_heap s, hs_live s);
  hi_found c op f : hs_act s c = Busy op f -> found_ok s op f
}.

Lemma busy_one s c d : hinv s -> busy (hs_act s c) -> busy (hs_act s d) -> c = d.
Proof.
  intros Hs Hc Hd. apply (li_excl _ _ (hi_lock _ Hs)); try (by apply (hi_busy _ Hs));
    apply (hi_cpu _ Hs); [by destruct (hs_act s c)|by destruct (hs_act s d)].
Qed.

(** A step that moves CPU [c] from one point of its call to the next. *)
Lemma hinv_move s c a' :
  hinv s -> (c < MAX_CPUS)%nat -> (busy a' -> pc_of c (snd (hs_lock s)) = Hold) ->
  (forall op, a' = Call op \/ (exists f, a' = Busy op f) ->
     match op with OpMalloc n => 0 < n <= 2 ^ 64 - 16 | OpFree p => exists n, (p, n) ∈ hs_live s end) ->
  (forall p, freeing a' p -> forall d, d <> c -> ~ freeing (hs_act s d) p) ->
  (forall op f, a' = Busy op f -> found_ok s op f) ->
  hinv (mkHsys (hs_lock s) (hs_heap s) (set_act c a' (hs_act s)) (hs_live s)).
Proof.
  intros [H1 H2 H3 H4 H5 H6 H7] Hc Hb Ho Hf Hk. split; cbn [hs_lock hs_heap hs_act hs_live]; try done.
  - intros d. unfold set_act. case_decide as E; [by subst|apply H2].
  - intros d. unfold set_act. case_decide as E; [by subst|apply H3].
  - intros d op. unfold set_act. case_decide as E; [apply Ho|apply H4].
  - intros d e p. unfold set_act. case_decide as E1; case_decide as E2; subst; try done.
    + intros F1 F2. by destruct (Hf p F1 e).
    + intros F1 F2. by destruct (Hf p F2 d).
    + apply H5.
  - intros d op f. unfold set_act. case_decide as E; [apply Hk|apply H7].
Qed.

(** The lock moves; CPUs in their critical section stay there. *)
Lemma hinv_lock s l' :
  hinv s -> linv fresh l' ->
  (forall d, busy (hs_act s d) -> pc_of d (snd l') = Hold) ->
  hinv (mkHsys l' (hs_heap s) (hs_act s) (hs_live s)).
Proof. intros [H1 H2 H3 H4 H5 H6 H7] Hl Hp. by split. Qed.

(** The end of a critical section: the heap and the allocations change together. *)
Lemma hinv_end s c op found h' live' :
  hinv s -> hs_act s c = Busy op found -> client_inv heap_arena (h', live') ->
  (forall p n, (p, n) ∈ hs_live s -> op <> OpFree p -> (p, n) ∈ live') ->
  hinv (mkHsys (hs_lock s) (merge_heap found h' (hs_heap s)) (set_act c Finish (hs_act s)) live').
Proof.
  intros Hs Hc Hci Hl. pose proof (busy_one s) as Hone. pose proof Hs as [H1 H2 H3 H4 H5 H6 H7].
  destruct (H7 c op found Hc) as (_ & F2 & F3).
  assert (forall d, d <> c -> ~ busy (hs_act s d)) as Hnb.
  { intros d Hd Hb. apply Hd. apply (Hone d c Hs Hb). by rewrite Hc. }
  split; cbn [hs_lock hs_heap hs_act hs_live]; try done.
  - intros d. unfold set_act. case_decide as E; [|apply H2]. subst. intros _. apply H2. by rewrite Hc.
  - intros d. unfold set_act. case_decide as E; [done|apply H3].
  - intros d op'. unfold set_act. case_decide as E; [by intros [?|[? ?]]|]. intros Ho.
    pose proof (H4 d op' Ho) as Ho'. destruct op' as [n|p]; [done|]. destruct Ho' as [n Hin]. exists n.
    apply Hl; [done|]. intros ->. apply E. apply (H5 d c p); [|by rewrite Hc].
    by destruct Ho as [->|[f ->]].
  - intros d e p. unfold set_act. repeat case_decide; try done. apply H5.
  - apply (client_inv_payload _ h'); [done|done|by destruct (h_lock h')|].
    intros x Hx. cbn [merge_heap h_mem] in Hx. destruct (Z.eqb_spec (h_mem h' x) (h_mem found x)) as [E|E]; [|done].
    destruct (F3 x) as (p & n & Hin & Hr & Ho); [congruence|]. exists p, n. split; [|done]. by apply Hl.
  - intros d op' f. unfold set_act. case_decide as E; [done|]. intros Hd. destruct (Hnb d E). by rewrite Hd.
Qed.

Lemma hinv_step lb s s' : hinv s -> hstep lb s s' -> hinv s'.
Proof.
  intros Hs Hstep. pose proof Hs as [H1 H2 H3 H4 H5 H6 H7]. destruct Hstep as
    [l l' h a live Hl Hp|c op k ps k' t h a live Hc Hpc Ha E Hop|c op l h a live Ha Hp
    |c n found l h a live p h' t Ha E|c n found l h a live msg cd h' t Ha E|c p n found l h a live live' h' t Ha HL E
    |c l l' h a live Ha Hl Hp|p n x v l h a live Hin Hx Hf]; cbn [hs_lock hs_heap hs_act hs_live] in *.
  - apply (hinv_lock (mkHsys l h a live)); [done|by eapply linv_step|]. intros d Hb.
    destruct (Hp d) as [->|[Hd|Hd]]; [by apply H3|cbn in Hb; by rewrite Hd in Hb|]. rewrite (H3 d Hb) in Hd. done.
  - assert (linv fresh (k', <[c := if nk_count c k' =? 1 then Spin else Hold]> ps)) as Hl'
      by (eapply linv_step; [exact H1|by eapply LLock]).
    refine (hinv_move (mkHsys (k', _) h a live) c (Call op) _ Hc _ _ _ _).
    + apply (hinv_lock (mkHsys (k, ps) h a live)); [done..|]. intros d Hb. cbn [hs_act snd] in *.
      assert (d <> c) as Hne by (intros ->; by rewrite Ha in Hb). unfold pc_of.
      rewrite nth_insert_ne by done. by apply H3.
    + done.
    + intros op' [[= <-]|[f ?]]; [|done]. destruct op; [done|by destruct Hop].
    + intros p Hp d _. destruct op as [|q]; [done|]. cbn in Hp. subst. by destruct Hop.
    + done.
  - refine (hinv_move (mkHsys l h a live) c (Busy op h) Hs _ _ _ _ _); cbn [hs_lock hs_heap hs_act hs_live].
    + apply H2. by rewrite Ha.
    + done.
    + intros op' [?|[f [= <- _]]]; [done|]. apply (H4 c). by left.
    + intros p Hp' d Hne Hd. apply Hne. apply (H5 d c p Hd). rewrite Ha. by destruct op.
    + intros op' f [= <- <-]. by split_and!.
  - destruct (H7 c _ _ Ha) as (F1 & _ & _). pose proof (H4 c _ (or_intror (ex_intro _ _ Ha))) as Hn.
    apply (hinv_end (mkHsys l h a live) c (OpMalloc n) found h' ((p, n) :: live) Hs Ha).
    + by eapply client_inv_malloc.
    + intros q m Hq _. by apply list_elem_of_further.
  - destruct (H7 c _ _ Ha) as ((bs & Hi & Hb) & _ & _). pose proof (H4 c _ (or_intror (ex_intro _ _ Ha))) as Hn.
    apply (hinv_end (mkHsys l h a live) c (OpMalloc n) found h' live Hs Ha); [|done].
    pose proof (kmalloc_sim heap_arena found bs n Hi Hn) as Hsim. cbn [fst] in Hsim.
    destruct (abs_kmalloc _ bs) as [[off bs']|]; [by destruct Hsim as (? & ? & ? & _); congruence|].
    destruct Hsim as (h1 & t1 & E1 & Hi1 & _). rewrite E in E1. injection E1 as _ _ -> _. by exists bs.
  - destruct (H7 c _ _ Ha) as (F1 & _ & _).
    destruct (client_inv_free heap_arena found live p n live' F1 HL) as (h1 & t1 & E1 & Hci).
    rewrite E in E1. injection E1 as <- _.
    apply (hinv_end (mkHsys l h a live) c (OpFree p) found h' live' Hs Ha Hci).
    intros q m Hq Hne. cbn in Hq. rewrite HL in Hq. apply elem_of_cons in Hq as [[= -> ->]|Hq]; [done|done].
  - assert (linv fresh l') as Hl' by (by eapply linv_step).
    refine (hinv_move (mkHsys l' h a live) c Idle _ _ _ _ _ _); try done; cbn [hs_lock hs_heap hs_act hs_live].
    + apply (hinv_lock (mkHsys l h a live)); [done..|]. cbn [hs_act]. intros d Hb.
      assert (d <> c) as Hne by (intros ->; by rewrite Ha in Hb). rewrite Hp by done. by apply H3.
    + apply H2. by rewrite Ha.
    + by intros op [?|[? ?]].
  - split; cbn [hs_lock hs_heap hs_act hs_live]; try done.
    + pose proof (client_inv_write heap_arena h live p n x v H6 Hin Hx) as Hw. by destruct (h_lock h).
    + intros c op f Hc. destruct (H7 c op f Hc) as (F1 & F2 & F3). split_and!; try done. intros y Hy.
      cbn [hs_heap h_mem] in Hy. destruct (Z.eq_dec y x) as [->|Hne].
      * exists p, n. split_and!; try done; try lia. intros ->. apply (Hf c). by rewrite Hc.
      * apply F3. cbn [hs_heap]. by rewrite store_out in Hy by lia.
Qed.

Lemma hreach_inv s : hreach s -> hinv s.
Proof.
  induction 1 as [h0 h t Ha E|l s s' Hr IH Hst]; [|by eapply hinv_step].
  split; cbn [hs_lock hs_heap hs_act hs_live]; try done.
  - apply linv_boot.
  - by intros c op [?|[? ?]].
  - apply (heap_reach_inv heap_arena (h, [])). by eapply reach_init.
Qed.
End Steps.


(** ** Two CPUs in [kmalloc]

    CPU 0 is in its critical section, CPU 1 spins for the lock. *)

Definition smp_arena : Z := 0x200000.
Definition smp_heap0 : heap unit := final (heap_init smp_arena (mkHeap (fun _ => 0) 0 tt)).
Definition smp_lock1 : nkern := final (Lock_enter 0 nkern_boot).
Definition smp_lock2 : nkern := final (test_and_set smp_lock1).
Definition smp_lock3 : nkern := final (Lock_enter 1 smp_lock2).
Definition smp_pcs1 : list pc := <[0%nat := Spin]> (replicate MAX_CPUS Free).
Definition smp_pcs2 : list pc := <[0%nat := Hold]> smp_pcs1.

Definition smp_two : hsys := mkHsys (smp_lock3, <[1%nat := Spin]> smp_pcs2) smp_heap0
  (set_act 1 (Call (OpMalloc 24)) (set_act 0 (Busy (OpMalloc 100) smp_heap0) (set_act 0 (Call (OpMalloc 100)) (fun _ => Idle)))) [].

Lemma smp_two_reach : hreach false smp_arena smp_two.
Proof.
  assert (0 < MAX_CPUS)%nat as L0 by (unfold MAX_CPUS; lia). assert (1 < MAX_CPUS)%nat as L1 by (unfold MAX_CPUS; lia).
  eapply (HR_step _ _ None).
  { eapply (HR_step _ _ None).
    { eapply (HR_step _ _ None).
      { eapply (HR_step _ _ None).
        { apply (HR_boot false smp_arena (mkHeap (fun _ => 0) 0 tt) smp_heap0 []); [|reflexivity].
          unfold arena_ok, smp_arena, HEAP_SIZE. lia. }
        eapply (H_call _ 0 (OpMalloc 100) _ _ smp_lock1); [exact L0|done|done|reflexivity|lia]. }
      eapply (H_lock _ _ (smp_lock2, smp_pcs2)).
      - by apply (LSpin false 0 smp_lock1 smp_pcs1 0 smp_lock2 []).
      - intros d. cbn [snd]. unfold smp_pcs2, pc_of. destruct (decide (d = 0%nat)) as [->|Hne]; [by right; right|].
        left. by rewrite nth_insert_ne. }
    eapply (H_begin _ 0 (OpMalloc 100)); [by rewrite set_act_eq|reflexivity]. }
  eapply (H_call _ 1 (OpMalloc 24) _ _ smp_lock3); [exact L1|done|by rewrite !set_act_ne|reflexivity|lia].
Qed.

