(* ===== verification/Memmap.v ===== *)
(** * memmap.c: the physical memory map

    Regions of usable RAM collected from the multiboot or the UEFI memory map, and
    the bump allocator of page frames on top of them. *)

From S2P Require Import Prelude Memory Machine FrameSource.

Definition PANIC_MEMMAP_OOM : Z := 1.
Definition MAX_REGIONS : Z := 64.

Record region_t := mkRegion { base : Z; length_ : Z }.

#[export] Instance region_eq_dec : EqDecision region_t.
Proof. solve_decision. Defined.

(** [regions] holds the first [region_count] entries of the array. *)
Record memmap := mkMemmap {
  regions : list region_t;
  map_active : bool;
  reserve_start : Z;
  reserve_end : Z;
  cur_region : nat;
  cur_offset : Z
}.

Definition region_count (s : memmap) : Z := Z.of_nat (length (regions s)).

(** The zero-initialised static variables. *)
Definition memmap_boot : memmap := mkMemmap [] false 0 0 0 0.

Definition add_region (b len : Z) : M memmap unit := modify (fun s =>
  if MAX_REGIONS <=? region_count s then s
  else mkMemmap (regions s ++ [mkRegion b len]) (map_active s) (reserve_start s)
         (reserve_end s) (cur_region s) (cur_offset s)).

(** ** Multiboot

    [multiboot_info_t] has [flags] at 0, [mmap_length] at 44 and [mmap_addr] at 48;
    an entry has [size] at 0, [addr] at 4, [len] at 12 and [type] at 20. *)

Definition MULTIBOOT_FLAG_MMAP : Z := Z.shiftl 1 6.
Definition MULTIBOOT_MEM_AVAILABLE : Z := 1.

(** An entry takes at least 4 bytes, so the loop ends within this many rounds. *)
Definition mmap_fuel (ptr end_ : Z) : nat := Z.to_nat (end_ - ptr + 1).

Definition memmap_parse_multiboot (m : mem) (mbi_addr : Z) : M memmap unit :=
  if mbi_addr =? 0 then ret tt else
  if Z.land (load32 m mbi_addr) MULTIBOOT_FLAG_MMAP =? 0 then
    kprint ("[memmap] WARNING: GRUB did not provide memory map" +:+ nl)
  else
    let mmap_addr := load32 m (mbi_addr + 48) in
    let mmap_length := load32 m (mbi_addr + 44) in
    let end_ := u32 (mmap_addr + mmap_length) in
    loop (mmap_fuel mmap_addr end_) (fun ptr =>
      if ptr <? end_ then
        (if load32 m (ptr + 20) =? MULTIBOOT_MEM_AVAILABLE
         then add_region (load64 m (ptr + 4)) (load64 m (ptr + 12)) else ret tt) ;;;
        ret (inl (u64 (ptr + u64 (load32 m ptr + 4))))
      else ret (inr tt)) mmap_addr.

(** ** UEFI

    An [efi_mem_descriptor_t] has [type] at 0, [phys_start] at 8 and [num_pages] at
    24. *)

Definition EFI_CONVENTIONAL_MEMORY : Z := 7.

(** The loop visits offsets below [map_size]; after more rounds than there are such
    offsets it has repeated one and never ends. *)
Definition uefi_fuel (map_size : Z) : nat := Z.to_nat (map_size + 1).

Definition memmap_parse_uefi (m : mem) (map map_size descriptor_size : Z) : M memmap unit :=
  loop (uefi_fuel map_size) (fun offset =>
    if offset <? map_size then
      let d := map + offset in
      (if load32 m d =? EFI_CONVENTIONAL_MEMORY
       then add_region (load64 m (d + 8)) (u64 (load64 m (d + 24) * 4096)) else ret tt) ;;;
      ret (inl (u64 (offset + descriptor_size)))
    else ret (inr tt)) 0.

(** ** Queries and activation *)

Definition region_covers (addr len : Z) (r : region_t) : bool :=
  (base r <=? addr) && (u64 (addr + len) <=? u64 (base r + length_ r)).

Definition memmap_region_is_safe (addr len : Z) (s : memmap) : Z :=
  if existsb (region_covers addr len) (regions s) then 1 else 0.

Definition memmap_activate (reserved_lo reserved_hi : Z) : M memmap unit :=
  modify (fun s => mkMemmap (regions s) true reserved_lo reserved_hi 0 0) ;;;
  s <- get ;;
  let total := foldl (fun t r => u64 (t + length_ r)) 0 (regions s) in
  kprint "[memmap] activated: " ;;;
  kprint_hex64 (region_count s) ;;;
  kprint " regions, " ;;;
  kprint_hex64 total ;;;
  kprint (" bytes total usable RAM reported" +:+ nl).

Definition memmap_is_active (s : memmap) : bool := map_active s.

(** ** The frame allocator *)

Definition base_aligned (r : region_t) : Z := Z.land (u64 (base r + 0xFFF)) (u64 (Z.lnot 0xFFF)).

Definition set_cursor (i : nat) (off : Z) (s : memmap) : memmap :=
  mkMemmap (regions s) (map_active s) (reserve_start s) (reserve_end s) i off.

(** Each region is left, or a frame found, after at most the jump over low memory
    and the jump over the reserved range. *)
Definition frame_fuel (s : memmap) : nat := 4 * (length (regions s) - cur_region s) + 1.

(** The body of the [while] loop: [inl] goes round again, [inr] returns. *)
Definition frame_body (_ : unit) : M memmap (unit + Z) :=
  s <- get ;;
  match regions s !! cur_region s with
  | None => neka_panic "MEMMAP" PANIC_MEMMAP_OOM
  | Some r =>
      let ba := base_aligned r in
      let addr := u64 (ba + cur_offset s) in
      let region_end := u64 (base r + length_ r) in
      if region_end <=? addr then
        modify (set_cursor (S (cur_region s)) 0) ;;; ret (inl tt)
      else if addr <? 0x100000 then
        modify (set_cursor (cur_region s)
          (if ba <? 0x100000 then u64 (0x100000 - ba) else 0)) ;;; ret (inl tt)
      else if (addr <? reserve_end s) && (reserve_start s <? u64 (addr + 4096)) then
        modify (set_cursor (cur_region s)
          (if ba <? reserve_end s then u64 (reserve_end s - ba)
           else u64 (cur_offset s + 4096))) ;;; ret (inl tt)
      else
        modify (set_cursor (cur_region s) (u64 (cur_offset s + 4096))) ;;; ret (inr addr)
  end.

Definition memmap_alloc_frame : M memmap Z :=
  s0 <- get ;; loop (frame_fuel s0) frame_body tt.
