(* ===== verification/MemmapParse.v ===== *)
(** * Memory map: the parsers

    The bootloader's tables as lists of entries laid out in memory, and what the two
    parsers make of them. *)

From S2P Require Import Prelude Memory Machine FrameSource Memmap.

(** ** Adding regions *)

(** Regions beyond the 64th are dropped. *)
Definition add_regions (rs : list region_t) (s : memmap) : memmap :=
  mkMemmap (take (Z.to_nat MAX_REGIONS) (regions s ++ rs)) (map_active s) (reserve_start s)
    (reserve_end s) (cur_region s) (cur_offset s).

Definition regions_fit (s : memmap) : Prop := (length (regions s) <= Z.to_nat MAX_REGIONS)%nat.

Lemma add_regions_nil s : regions_fit s -> add_regions [] s = s.
Proof.
  intros H. unfold add_regions. rewrite app_nil_r, take_ge by done. by destruct s.
Qed.

Lemma add_regions_fit rs s : regions_fit (add_regions rs s).
Proof. unfold regions_fit. simpl. rewrite length_take. lia. Qed.

Lemma take_app_take {A} n (l1 l2 : list A) : take n (take n l1 ++ l2) = take n (l1 ++ l2).
Proof.
  destruct (decide (length l1 <= n)%nat) as [H|H].
  - by rewrite (take_ge l1).
  - rewrite !take_app, take_take, length_take. rewrite Nat.min_id.
    replace (n - n `min` length l1)%nat with 0%nat by lia.
    replace (n - length l1)%nat with 0%nat by lia. done.
Qed.

Lemma add_regions_app rs1 rs2 s : add_regions rs2 (add_regions rs1 s) = add_regions (rs1 ++ rs2) s.
Proof. unfold add_regions. simpl. by rewrite take_app_take, app_assoc. Qed.

Lemma add_region_run b l s :
  regions_fit s -> add_region b l s = Done tt (add_regions [mkRegion b l] s) [].
Proof.
  intros H. unfold add_region, modify, add_regions, regions_fit, region_count in *.
  do 2 f_equal. destruct (Z.leb_spec MAX_REGIONS (Z.of_nat (length (regions s)))).
  - rewrite take_app_le, take_ge by lia. by destruct s.
  - rewrite take_ge; [done|]. rewrite length_app. simpl. lia.
Qed.

(** One round of either parser: add the region when the entry is usable memory. *)
Lemma add_if_run (c : bool) b l s :
  regions_fit s ->
  (if c then add_region b l else ret tt) s =
  Done tt (add_regions (if c then [mkRegion b l] else []) s) [].
Proof.
  intros H. destruct c; [by apply add_region_run|]. by rewrite add_regions_nil.
Qed.

(** ** Multiboot *)

Record mb_entry := mkMb { e_size : Z; e_addr : Z; e_len : Z; e_type : Z }.

Definition mb_region (e : mb_entry) : list region_t :=
  if e_type e =? MULTIBOOT_MEM_AVAILABLE then [mkRegion (e_addr e) (e_len e)] else [].

(** The entries [es] are laid out from [ptr] on, each followed by the next. *)
Fixpoint mmap_at (m : mem) (ptr : Z) (es : list mb_entry) : Prop :=
  match es with
  | [] => True
  | e :: es' =>
      load32 m ptr = e_size e /\ load64 m (ptr + 4) = e_addr e /\
      load64 m (ptr + 12) = e_len e /\ load32 m (ptr + 20) = e_type e /\
      mmap_at m (ptr + e_size e + 4) es'
  end.

Fixpoint mmap_bytes (es : list mb_entry) : Z :=
  match es with [] => 0 | e :: es' => e_size e + 4 + mmap_bytes es' end.

Lemma mmap_bytes_pos m ptr es : mmap_at m ptr es -> 4 * Z.of_nat (length es) <= mmap_bytes es.
Proof.
  revert ptr. induction es as [|e es IH]; intros ptr; simpl; [lia|].
  intros (H & _ & _ & _ & Hr%IH). pose proof (load32_bound m ptr). lia.
Qed.

Lemma multiboot_loop m end_ es : forall fuel ptr s,
  mmap_at m ptr es -> 0 <= ptr -> ptr + mmap_bytes es = end_ -> end_ < 2 ^ 32 ->
  (length es < fuel)%nat -> regions_fit s ->
  loop fuel (fun ptr =>
    if ptr <? end_ then
      (if load32 m (ptr + 20) =? MULTIBOOT_MEM_AVAILABLE
       then add_region (load64 m (ptr + 4)) (load64 m (ptr + 12)) else ret tt) ;;;
      ret (inl (u64 (ptr + u64 (load32 m ptr + 4))))
    else ret (inr tt)) ptr s = Done tt (add_regions (concat (mb_region <$> es)) s) [].
Proof.
  induction es as [|e es IH]; intros fuel ptr s Hm Hp He Hlt Hf Hfit;
    (destruct fuel as [|fuel]; [simpl in *; lia|]); cbn [loop].
  - simpl in *. destruct (Z.ltb_spec ptr end_); [lia|]. mstep. by rewrite add_regions_nil.
  - destruct Hm as (H1 & H2 & H3 & H4 & Hm). simpl in He.
    pose proof (mmap_bytes_pos _ _ _ Hm). pose proof (load32_bound m ptr).
    destruct (Z.ltb_spec ptr end_); [|lia]. mstep.
    rewrite (bind_done _ _ _ _ _ _ (add_if_run _ _ _ s Hfit)). mstep.
    rewrite H1, H2, H3, H4, (u64_small (e_size e + 4)), u64_small by lia.
    rewrite Z.add_assoc, IH; try done; [|lia..|simpl in Hf; lia|apply add_regions_fit].
    rewrite add_regions_app. done.
Qed.

Lemma memmap_parse_multiboot_run m mbi p es s :
  0 < mbi -> Z.testbit (load32 m mbi) 6 = true ->
  load32 m (mbi + 48) = p -> load32 m (mbi + 44) = mmap_bytes es ->
  p + mmap_bytes es < 2 ^ 32 -> mmap_at m p es -> regions_fit s ->
  memmap_parse_multiboot m mbi s = Done tt (add_regions (concat (mb_region <$> es)) s) [].
Proof.
  intros Hmbi Hfl Hp Hl Hlt Hm Hfit. unfold memmap_parse_multiboot.
  destruct (Z.eqb_spec mbi 0); [lia|].
  destruct (Z.eqb_spec (Z.land (load32 m mbi) MULTIBOOT_FLAG_MMAP) 0) as [Hz|_].
  { apply (land_bit_zero _ 6) in Hz; [congruence|lia]. }
  cbv zeta. rewrite Hp, Hl. pose proof (mmap_bytes_pos _ _ _ Hm).
  pose proof (load32_bound m (mbi + 48)). rewrite u32_small by lia.
  apply multiboot_loop; try done; [lia|]. unfold mmap_fuel. lia.
Qed.

(** C32: when the bootloader's map at [mbi_addr] holds
    the entries [es], [memmap_parse_multiboot] terminates and appends exactly the
    available regions among them, in order, keeping at most 64 regions in all. *)
Theorem memmap_parse_multiboot_correct m mbi p es s :
  0 < mbi -> Z.testbit (load32 m mbi) 6 = true ->
  load32 m (mbi + 48) = p -> load32 m (mbi + 44) = mmap_bytes es ->
  p + mmap_bytes es < 2 ^ 32 -> mmap_at m p es -> regions_fit s ->
  memmap_parse_multiboot m mbi s = Done tt (add_regions (concat (mb_region <$> es)) s) [].
Proof. by apply memmap_parse_multiboot_run. Qed.

(** ** UEFI *)

Record efi_desc := mkEfi { d_type : Z; d_phys : Z; d_pages : Z }.

Definition efi_region (d : efi_desc) : list region_t :=
  if d_type d =? EFI_CONVENTIONAL_MEMORY then [mkRegion (d_phys d) (u64 (d_pages d * 4096))] else [].

(** The descriptors [ds] are laid out from [a] on, [stride] bytes apart. *)
Fixpoint efi_at (m : mem) (a stride : Z) (ds : list efi_desc) : Prop :=
  match ds with
  | [] => True
  | d :: ds' =>
      load32 m a = d_type d /\ load64 m (a + 8) = d_phys d /\ load64 m (a + 24) = d_pages d /\
      efi_at m (a + stride) stride ds'
  end.

Lemma uefi_loop m map size stride ds : forall fuel offset s,
  efi_at m (map + offset) stride ds -> 0 < stride -> 0 <= offset ->
  offset + stride * Z.of_nat (length ds) = size -> size + stride < 2 ^ 64 ->
  (length ds < fuel)%nat -> regions_fit s ->
  loop fuel (fun offset =>
    if offset <? size then
      let d := map + offset in
      (if load32 m d =? EFI_CONVENTIONAL_MEMORY
       then add_region (load64 m (d + 8)) (u64 (load64 m (d + 24) * 4096)) else ret tt) ;;;
      ret (inl (u64 (offset + stride)))
    else ret (inr tt)) offset s = Done tt (add_regions (concat (efi_region <$> ds)) s) [].
Proof.
  induction ds as [|d ds IH]; intros fuel offset s Hm Hst Hp He Hlt Hf Hfit;
    (destruct fuel as [|fuel]; [simpl in *; lia|]); cbn [loop].
  - simpl in *. destruct (Z.ltb_spec offset size); [lia|]. mstep. by rewrite add_regions_nil.
  - destruct Hm as (H1 & H2 & H3 & Hm). rewrite length_cons in He.
    destruct (Z.ltb_spec offset size); [|lia]. mstep.
    rewrite (bind_done _ _ _ _ _ _ (add_if_run _ _ _ s Hfit)). mstep.
    rewrite H1, H2, H3, u64_small by lia. rewrite <- Z.add_assoc in Hm.
    rewrite IH; try done; [|lia..|simpl in Hf; lia|apply add_regions_fit].
    rewrite add_regions_app. done.
Qed.

(** When the firmware's map holds the descriptors [ds]
    with a positive stride, [memmap_parse_uefi] terminates and appends exactly the
    conventional-memory regions, in order, keeping at most 64 regions in all. *)
Theorem memmap_parse_uefi_correct m map stride ds s :
  0 < stride -> stride * (Z.of_nat (length ds) + 1) < 2 ^ 64 -> efi_at m map stride ds ->
  regions_fit s ->
  memmap_parse_uefi m map (stride * Z.of_nat (length ds)) stride s =
  Done tt (add_regions (concat (efi_region <$> ds)) s) [].
Proof.
  intros Hst Hlt Hm Hfit. apply uefi_loop; try done; try lia.
  - by rewrite Z.add_0_r.
  - unfold uefi_fuel. nia.
Qed.

(** A descriptor size of 0 makes the loop over a
    non-empty map run forever. *)
Theorem memmap_parse_uefi_zero_stride m map size s :
  0 < size -> exists s', memmap_parse_uefi m map size 0 s = Hang s' [].
Proof.
  intros Hsz. unfold memmap_parse_uefi. generalize (uefi_fuel size). intros fuel. revert s.
  induction fuel as [|fuel IH]; intros s; [by exists s|]. cbn [loop].
  destruct (Z.ltb_spec 0 size); [|lia]. mstep. unfold add_region.
  destruct (_ =? EFI_CONVENTIONAL_MEMORY); mstep; apply IH.
Qed.

(** ** Safe ranges *)

(** [memmap_region_is_safe] answers 1 exactly when one
    region of the map covers the whole range (for ranges and regions that do not wrap
    around the address space). *)
Theorem memmap_region_is_safe_sound addr len s :
  0 <= addr -> addr + len < 2 ^ 64 -> 0 <= len ->
  Forall (fun r => 0 <= base r /\ 0 <= length_ r /\ base r + length_ r < 2 ^ 64) (regions s) ->
  memmap_region_is_safe addr len s = 1 <->
  exists r, r ∈ regions s /\ base r <= addr /\ addr + len <= base r + length_ r.
Proof.
  intros Ha Hl Hl0 Hok. rewrite Forall_forall in Hok. unfold memmap_region_is_safe.
  setoid_rewrite list_elem_of_In. setoid_rewrite list_elem_of_In in Hok.
  destruct (existsb _ _) eqn:E.
  - split; [|done]. intros _. apply existsb_exists in E as (r & Hr & E). exists r.
    pose proof (Hok r Hr). unfold region_covers in E.
    apply andb_true_iff in E as [?%Z.leb_le ?%Z.leb_le].
    rewrite !u64_small in * by lia. done.
  - split; [done|]. intros (r & Hr & H1 & H2). pose proof (Hok r Hr).
    enough (existsb (region_covers addr len) (regions s) = true) by congruence.
    apply existsb_exists. exists r. split; [done|]. unfold region_covers.
    rewrite !u64_small by lia. apply andb_true_iff. by rewrite !Z.leb_le.
Qed.

(** ** Concrete maps *)

Definition demo_mb_entries : list mb_entry :=
  [mkMb 20 0 0x9FC00 1; mkMb 20 0xF0000 0x10000 2; mkMb 20 0x100000 0x7EE0000 1].

(** The information structure at 0x9000, the map at 0x9100. *)
Definition demo_mb_mem : mem := mem_of
  [(0x9000, 4%nat, 0x40); (0x902C, 4%nat, 72); (0x9030, 4%nat, 0x9100);
   (0x9100, 4%nat, 20); (0x9104, 8%nat, 0); (0x910C, 8%nat, 0x9FC00); (0x9114, 4%nat, 1);
   (0x9118, 4%nat, 20); (0x911C, 8%nat, 0xF0000); (0x9124, 8%nat, 0x10000); (0x912C, 4%nat, 2);
   (0x9130, 4%nat, 20); (0x9134, 8%nat, 0x100000); (0x913C, 8%nat, 0x7EE0000); (0x9144, 4%nat, 1)].

Lemma memmap_parse_multiboot_correct_witness :
  memmap_parse_multiboot demo_mb_mem 0x9000 memmap_boot =
  Done tt (mkMemmap [mkRegion 0 0x9FC00; mkRegion 0x100000 0x7EE0000] false 0 0 0 0) [].
Proof.
  apply (memmap_parse_multiboot_correct demo_mb_mem 0x9000 0x9100 demo_mb_entries memmap_boot);
    try (by vm_compute). unfold regions_fit. simpl. lia.
Defined.

Definition demo_efi_descs : list efi_desc := [mkEfi 7 0x100000 0x700; mkEfi 4 0x800000 0x10].
Definition demo_efi_mem : mem := mem_of
  [(0x9000, 4%nat, 7); (0x9008, 8%nat, 0x100000); (0x9018, 8%nat, 0x700);
   (0x9030, 4%nat, 4); (0x9038, 8%nat, 0x800000); (0x9048, 8%nat, 0x10)].

Lemma memmap_parse_uefi_correct_witness :
  memmap_parse_uefi demo_efi_mem 0x9000 96 48 memmap_boot =
  Done tt (mkMemmap [mkRegion 0x100000 0x700000] false 0 0 0 0) [].
Proof.
  apply (memmap_parse_uefi_correct demo_efi_mem 0x9000 48 demo_efi_descs memmap_boot);
    [lia|simpl; lia|by vm_compute|unfold regions_fit; simpl; lia].
Defined.

Lemma memmap_parse_uefi_zero_stride_witness :
  exists s', memmap_parse_uefi demo_efi_mem 0x9000 96 0 memmap_boot = Hang s' [].
Proof. apply memmap_parse_uefi_zero_stride. lia. Defined.

Lemma memmap_region_is_safe_sound_witness :
  memmap_region_is_safe 0x8000 4096 (mkMemmap [mkRegion 0 0x9FC00] false 0 0 0 0) = 1.
Proof.
  apply memmap_region_is_safe_sound; [lia|lia|lia| |].
  - simpl. repeat constructor; simpl; lia.
  - exists (mkRegion 0 0x9FC00). simpl. split_and!; [apply list_elem_of_here|lia|lia].
Defined.
