(* ===== verification/MemmapProof.v ===== *)
(** * Memory map: the frames handed out

    The specification of the frame allocator is a list computed from the regions:
    the page-aligned addresses of each region that are neither below 1 MB nor in the
    reserved range.  [memmap_alloc_frame] hands out exactly this list. *)

From S2P Require Import Prelude Memory Machine FrameSource Memmap.

(** [a], [a + 4096], ... below [e]. *)
Definition frames_from (a e : Z) : list Z :=
  (fun k => a + 4096 * k) <$> seqZ 0 ((e - a + 4095) / 4096).

Definition usable (s : memmap) (f : Z) : bool :=
  (0x100000 <=? f) && negb ((f <? reserve_end s) && (reserve_start s <? f + 4096)).

(** Rounded up to a page. *)
Definition page_up (x : Z) : Z := (x + 4095) / 4096 * 4096.

(** [filter] of the Standard Library, on booleans. *)
Definition usable_from (s : memmap) (a e : Z) : list Z := List.filter (usable s) (frames_from a e).

Definition region_end (r : region_t) : Z := base r + length_ r.

Definition region_frames (s : memmap) (r : region_t) : list Z :=
  usable_from s (page_up (base r)) (region_end r).

(** The frames the allocator has still to hand out. *)
Definition frames_left (s : memmap) : list Z :=
  match drop (cur_region s) (regions s) with
  | [] => []
  | r :: rest => usable_from s (page_up (base r) + cur_offset s) (region_end r) ++
                 concat (region_frames s <$> rest)
  end.

(** Regions inside the address space; the reserved range ends on a page boundary. *)
Definition region_ok (r : region_t) : Prop :=
  0 <= base r /\ 0 <= length_ r /\ base r + length_ r <= 2 ^ 64 - 8192.

Record memmap_wf (s : memmap) : Prop := {
  mw_regions : Forall region_ok (regions s);
  mw_start : 0 <= reserve_start s;
  mw_end : 0 <= reserve_end s < 2 ^ 64 /\ reserve_end s mod 4096 = 0;
  mw_off : 0 <= cur_offset s /\ cur_offset s mod 4096 = 0;
  mw_bound r : regions s !! cur_region s = Some r ->
    page_up (base r) + cur_offset s <= Z.max (page_up (base r)) (Z.max (region_end r + 4096) (Z.max 0x100000 (reserve_end s)))
}.

(** ** Lists of frames *)

Lemma frames_from_nil a e : e <= a -> frames_from a e = [].
Proof.
  intros H. unfold frames_from. rewrite seqZ_nil; [done|].
  dlia.
Qed.

Lemma frames_from_cons a e : a < e -> frames_from a e = a :: frames_from (a + 4096) e.
Proof.
  intros H. unfold frames_from. rewrite seqZ_cons by (apply Z.div_str_pos; lia).
  rewrite fmap_cons. f_equal; [lia|].
  replace (Z.succ 0) with (1 + 0) by lia. rewrite <- (fmap_add_seqZ 1 0), <- list_fmap_compose.
  replace (Z.pred ((e - a + 4095) / 4096)) with ((e - (a + 4096) + 4095) / 4096) by dlia.
  apply list_fmap_ext. intros i x _. simpl. lia.
Qed.

Lemma elem_of_frames_from f a e :
  f ∈ frames_from a e <-> a <= f < e /\ (f - a) mod 4096 = 0.
Proof.
  unfold frames_from. rewrite list_elem_of_fmap. setoid_rewrite elem_of_seqZ. split.
  - intros (k & -> & Hk). dlia.
  - intros [Hf Hm]. exists ((f - a) / 4096). dlia.
Qed.

Lemma frames_from_NoDup a e : NoDup (frames_from a e).
Proof. unfold frames_from. apply NoDup_fmap_2; [intros ? ? ?; lia|apply NoDup_seqZ]. Qed.

(** Frames that are not usable may be skipped. *)
Lemma usable_from_skip s a b e :
  a <= b -> (b - a) mod 4096 = 0 -> (forall f, a <= f < b -> (f - a) mod 4096 = 0 -> usable s f = false) ->
  usable_from s a e = usable_from s b e.
Proof.
  intros Hab Hm Hf. assert (exists k : nat, b = a + 4096 * Z.of_nat k) as [k ->].
  { exists (Z.to_nat ((b - a) / 4096)). dlia. }
  clear Hab Hm. revert a Hf. induction k as [|k IH]; intros a Hf.
  { by rewrite Z.add_0_r. }
  unfold usable_from. destruct (Z.le_gt_cases e a) as [He|He].
  - rewrite !frames_from_nil by lia. done.
  - rewrite frames_from_cons by lia. simpl. rewrite Hf by dlia.
    replace (a + 4096 * Z.of_nat (S k)) with (a + 4096 + 4096 * Z.of_nat k) by lia.
    apply IH. intros f Hr Hm. apply Hf; dlia.
Qed.

Lemma page_up_spec x : x <= page_up x < x + 4096 /\ page_up x mod 4096 = 0.
Proof. unfold page_up. split; [dlia|]. apply Z_mod_mult. Qed.

Lemma base_aligned_page_up r : region_ok r -> base_aligned r = page_up (base r).
Proof.
  intros (Hb & Hl & He). unfold base_aligned, page_up.
  change (u64 (Z.lnot 0xFFF)) with (u64 (Z.lnot (2 ^ 12 - 1))).
  change 0xFFF with 4095. rewrite u64_small by lia. rewrite land_align by lia.
  change (2 ^ 12) with 4096. dlia.
Qed.

(** ** One round of the loop *)

(** Rounds the current region can still take. *)
Definition cur_rounds (s : memmap) : nat :=
  match regions s !! cur_region s with
  | None => 0
  | Some r =>
      let addr := page_up (base r) + cur_offset s in
      if region_end r <=? addr then 1
      else if addr <? 0x100000 then 3
      else if usable s addr then 1 else 2
  end.

(** The effect of a round: the cursor after it, and the frame returned, if any. *)
Definition round_result (s : memmap) (r : region_t) : memmap * option Z :=
  let addr := page_up (base r) + cur_offset s in
  if region_end r <=? addr then (set_cursor (S (cur_region s)) 0 s, None)
  else if addr <? 0x100000 then
    (set_cursor (cur_region s) (0x100000 - page_up (base r)) s, None)
  else if usable s addr then (set_cursor (cur_region s) (cur_offset s + 4096) s, Some addr)
  else (set_cursor (cur_region s) (reserve_end s - page_up (base r)) s, None).

Lemma frame_body_run s r :
  memmap_wf s -> regions s !! cur_region s = Some r ->
  frame_body tt s =
  Done (match snd (round_result s r) with Some f => inr f | None => inl tt end)
    (fst (round_result s r)) [].
Proof.
  intros [Hreg Hst [Hre Hre'] [Hoff Hoff'] Hb] Hr.
  pose proof (proj1 (Forall_lookup _ _) Hreg _ _ Hr) as Hok. pose proof Hok as (Hb0 & Hl0 & He0).
  pose proof (page_up_spec (base r)) as [Hpu Hpm]. specialize (Hb r Hr).
  unfold frame_body, round_result. mstep. rewrite Hr. cbv zeta.
  rewrite base_aligned_page_up by done. unfold region_end in *.
  set (P := page_up (base r)) in *. set (o := cur_offset s) in *.
  rewrite (u64_small (base r + length_ r)) by lia.
  assert (0 <= P + o < 2 ^ 64) as HPo by lia. rewrite (u64_small (P + o)) by lia.
  destruct (Z.leb_spec (base r + length_ r) (P + o)); [by mstep|].
  destruct (Z.ltb_spec (P + o) 0x100000).
  { destruct (Z.ltb_spec P 0x100000); [|lia]. rewrite u64_small by lia. by mstep. }
  rewrite (u64_small (P + o + 4096)), (u64_small (o + 4096)) by lia.
  unfold usable. destruct (Z.leb_spec 0x100000 (P + o)); [|lia]. cbn [andb].
  destruct (Z.ltb_spec (P + o) (reserve_end s)); cbn [andb negb]; [|by mstep].
  destruct (Z.ltb_spec (reserve_start s) (P + o + 4096)); cbn [negb]; [|by mstep].
  destruct (Z.ltb_spec P (reserve_end s)); [|lia]. rewrite u64_small by lia. by mstep.
Qed.

Lemma drop_cur {A} (l : list A) i x : l !! i = Some x -> drop i l = x :: drop (S i) l.
Proof. intros. by apply drop_S. Qed.

Lemma usable_cursor s i o : usable (set_cursor i o s) = usable s.
Proof. done. Qed.

(** A round keeps the state well formed, and removes from the frames left exactly
    the frame it returns. *)
Lemma round_frames s r :
  memmap_wf s -> regions s !! cur_region s = Some r ->
  let (s', f) := round_result s r in
  memmap_wf s' /\
  frames_left s = match f with Some a => [a] | None => [] end ++ frames_left s'.
Proof.
  intros Hwf Hr. pose proof Hwf as [Hreg Hst [Hre Hre'] [Hoff Hoff'] Hb].
  pose proof (proj1 (Forall_lookup _ _) Hreg _ _ Hr) as (Hb0 & Hl0 & He0).
  pose proof (page_up_spec (base r)) as [Hpu Hpm]. specialize (Hb r Hr).
  set (P := page_up (base r)) in *. set (o := cur_offset s) in *.
  assert (frames_left s = usable_from s (P + o) (region_end r) ++
    concat (region_frames s <$> drop (S (cur_region s)) (regions s))) as ->
    by (unfold frames_left; by rewrite (drop_cur _ _ _ Hr)).
  unfold round_result. fold P o.
  destruct (Z.leb_spec (region_end r) (P + o)).
  { split.
    - split; simpl; try done. intros r' _. lia.
    - unfold usable_from, frames_left. rewrite frames_from_nil by done. simpl.
      destruct (drop (S (cur_region s)) (regions s)) as [|r' rest]; [done|].
      simpl. rewrite Z.add_0_r. done. }
  assert (forall o', frames_left (set_cursor (cur_region s) o' s) =
    usable_from s (P + o') (region_end r) ++ concat (region_frames s <$> drop (S (cur_region s)) (regions s))) as Hfl.
  { intros o'. unfold frames_left. cbn [set_cursor regions cur_region cur_offset].
    by rewrite (drop_cur _ _ _ Hr). }
  assert (forall o', 0 <= o' -> o' mod 4096 = 0 ->
    P + o' <= Z.max P (Z.max (region_end r + 4096) (Z.max 0x100000 (reserve_end s))) ->
    memmap_wf (set_cursor (cur_region s) o' s)) as Hwf'.
  { intros o' ? ? ?. split; simpl; try done. intros r'. rewrite Hr. by intros [= <-]. }
  destruct (Z.ltb_spec (P + o) 0x100000).
  { split; [apply Hwf'; dlia|]. rewrite Hfl. simpl. f_equal.
    replace (P + (0x100000 - P)) with 0x100000 by lia.
    apply usable_from_skip; [lia|dlia|]. intros f Hf _. unfold usable.
    destruct (Z.leb_spec 0x100000 f); [lia|done]. }
  destruct (usable s (P + o)) eqn:Hu.
  - split; [apply Hwf'; dlia|]. rewrite Hfl. unfold usable_from at 1.
    rewrite frames_from_cons by done. simpl. rewrite Hu. by rewrite Z.add_assoc.
  - assert (P + o < reserve_end s /\ reserve_start s < P + o + 4096) as [Hlt Hlt2].
    { unfold usable in Hu. destruct (Z.leb_spec 0x100000 (P + o)); [|lia]. simpl in Hu.
      apply negb_false_iff, andb_true_iff in Hu as [?%Z.ltb_lt ?%Z.ltb_lt]. done. }
    split; [apply Hwf'; dlia|]. rewrite Hfl. simpl. f_equal.
    replace (P + (reserve_end s - P)) with (reserve_end s) by lia.
    apply usable_from_skip; [lia|dlia|]. intros f Hf _. unfold usable.
    destruct (Z.ltb_spec f (reserve_end s)); [|lia].
    destruct (Z.ltb_spec (reserve_start s) (f + 4096)); [|lia]. apply andb_false_r.
Qed.

(** A round that returns no frame brings the loop closer to its end. *)
Definition rounds_left (s : memmap) : nat :=
  cur_rounds s + 3 * (length (regions s) - S (cur_region s)).

Lemma cur_rounds_le s : (cur_rounds s <= 3)%nat.
Proof. unfold cur_rounds. repeat case_match; lia. Qed.

Lemma round_progress s r :
  memmap_wf s -> regions s !! cur_region s = Some r -> snd (round_result s r) = None ->
  (rounds_left (fst (round_result s r)) < rounds_left s)%nat.
Proof.
  intros Hwf Hr. pose proof Hwf as [Hreg Hst [Hre Hre'] [Hoff Hoff'] Hb].
  pose proof (lookup_lt_Some _ _ _ Hr) as Hlen. unfold round_result, rounds_left.
  destruct (Z.leb_spec (region_end r) (page_up (base r) + cur_offset s)).
  { intros _. simpl. pose proof (cur_rounds_le (set_cursor (S (cur_region s)) 0 s)).
    assert (cur_rounds s = 1%nat) as -> by
      (unfold cur_rounds; rewrite Hr; by destruct (Z.leb_spec (region_end r) (page_up (base r) + cur_offset s)); [|lia]).
    destruct (decide (S (cur_region s) < length (regions s))%nat); [lia|].
    assert (cur_rounds (set_cursor (S (cur_region s)) 0 s) = 0%nat) as ->; [|lia].
    unfold cur_rounds. simpl. rewrite lookup_ge_None_2 by lia. done. }
  unfold cur_rounds at 2. rewrite Hr. destruct (Z.leb_spec (region_end r) (page_up (base r) + cur_offset s)); [lia|].
  destruct (Z.ltb_spec (page_up (base r) + cur_offset s) 0x100000).
  { intros _. simpl. unfold cur_rounds. simpl. rewrite Hr.
    replace (page_up (base r) + (1048576 - page_up (base r))) with 0x100000 by lia.
    change (0x100000 <? 0x100000) with false. repeat case_match; lia. }
  destruct (usable s (page_up (base r) + cur_offset s)) eqn:Hu; [done|]. intros _. simpl.
  unfold cur_rounds. simpl. rewrite Hr.
  replace (page_up (base r) + (reserve_end s - page_up (base r))) with (reserve_end s) by lia.
  unfold usable in Hu |- *. cbn [set_cursor reserve_end reserve_start]. rewrite Z.ltb_irrefl.
  destruct (Z.leb_spec 0x100000 (page_up (base r) + cur_offset s)); [|lia].
  simpl in Hu. apply negb_false_iff, andb_true_iff in Hu as [?%Z.ltb_lt _].
  destruct (Z.ltb_spec (reserve_end s) 0x100000); [lia|].
  destruct (Z.leb_spec 0x100000 (reserve_end s)); [|lia]. simpl. repeat case_match; lia.
Qed.

Lemma frame_loop fuel : forall s,
  memmap_wf s -> (rounds_left s < fuel)%nat ->
  match frames_left s with
  | f :: rest => exists s', loop fuel frame_body tt s = Done f s' [] /\ memmap_wf s' /\
      frames_left s' = rest /\ (exists i o, s' = set_cursor i o s)
  | [] => exists s' t, loop fuel frame_body tt s = Panic "MEMMAP" PANIC_MEMMAP_OOM s' t
  end.
Proof.
  induction fuel as [|fuel IH]; intros s Hwf Hf; [lia|]. cbn [loop].
  destruct (regions s !! cur_region s) as [r|] eqn:Hr.
  - rewrite (bind_done _ _ _ _ _ _ (frame_body_run s r Hwf Hr)), add_trace_nil.
    pose proof (round_frames s r Hwf Hr) as Hrf. pose proof (round_progress s r Hwf Hr) as Hp.
    assert (exists i o, fst (round_result s r) = set_cursor i o s) as (i & o & Hc).
    { unfold round_result. repeat case_match; simpl; eauto. }
    destruct (round_result s r) as [s1 [f|]]; cbn [fst snd] in *; destruct Hrf as [Hwf1 Hfl];
      simpl in Hfl; rewrite Hfl.
    + exists s1. split_and!; eauto.
    + specialize (IH s1 Hwf1 ltac:(specialize (Hp eq_refl); lia)).
      destruct (frames_left s1); [done|]. destruct IH as (s2 & E & ? & ? & i2 & o2 & ->).
      subst s1. eexists. split_and!; [exact E|done..|]. by exists i2, o2.
  - unfold frames_left. rewrite drop_ge by (by apply lookup_ge_None).
    unfold frame_body at 1. mstep. rewrite Hr. by eexists _, _.
Qed.

(** [memmap_alloc_frame] returns the first of the frames left, or panics when there
    is none; it never loops forever. *)
Lemma alloc_frame_sim s :
  memmap_wf s ->
  match frames_left s with
  | f :: rest => exists s', memmap_alloc_frame s = Done f s' [] /\ memmap_wf s' /\
      frames_left s' = rest /\ (exists i o, s' = set_cursor i o s)
  | [] => exists s' t, memmap_alloc_frame s = Panic "MEMMAP" PANIC_MEMMAP_OOM s' t
  end.
Proof.
  intros Hwf. unfold memmap_alloc_frame. rewrite bind_get.
  apply (frame_loop (frame_fuel s) s Hwf).
  unfold rounds_left, frame_fuel. pose proof (cur_rounds_le s).
  destruct (regions s !! cur_region s) as [r|] eqn:Hr.
  - apply lookup_lt_Some in Hr. lia.
  - unfold cur_rounds. rewrite Hr. apply lookup_ge_None in Hr. lia.
Qed.
