(* ===== verification/Paging.v ===== *)
(** * paging64.c: page tables and address spaces

    Page tables live in byte-addressed memory and are reached through the identity
    map, so a pointer to a table is its physical address.  The state is the memory,
    the bump pointer of the bootstrap pool, the two kernel table pointers and the
    frame source (memmap.c). *)

From S2P Require Import Prelude Memory Machine FrameSource.

Definition PANIC_OUT_OF_FRAMES : Z := 1.
Definition DEMO_VA : Z := 0x40000000.
Definition POOL_FRAMES : Z := 64.
Definition USER_CODE_VA : Z := 0x50000000.
Definition USER_STACK_PAGE_VA : Z := 0x50001000.
Definition USER_STACK_TOP : Z := 0x50002000.

(** [t[i]] and [t[i] = v] for a table [t] of [uint64_t]. *)
Definition entry (m : mem) (t i : Z) : Z := load64 m (t + 8 * i).
Definition set_entry (t i v : Z) (m : mem) : mem := store64 m (t + 8 * i) v.

(** [e & ~0xFFFULL]. *)
Definition table_of (e : Z) : Z := Z.land e (u64 (Z.lnot 0xFFF)).

Definition zero_frame (f : Z) (m : mem) : mem := fill64 512 m f (fun _ => 0).

Definition user_program : list Z :=
  [0xB8; 0x01; 0x00; 0x00; 0x00;
   0xBF; 0x58; 0x00; 0x00; 0x00;
   0xCD; 0x80;
   0xEB; 0xFC].

(** [for (i = 0; i < n; i++) dst[i] = bytes[i]]. *)
Fixpoint copy_bytes (bs : list Z) (dst : Z) (m : mem) : mem :=
  match bs with
  | [] => m
  | b :: bs' => copy_bytes bs' (dst + 1) (store8 m dst b)
  end.

Section Paging.
Context {F : Type} {FO : FrameSourceOps F}.

(** Link-time address of [frame_pool]. *)
Context (frame_pool : Z).

Record paging := mkPaging {
  p_mem : mem;
  next_frame : Z;
  kernel_pml4 : Z;
  kernel_pdpt : Z;
  p_source : F
}.

Definition upd_pmem (f : mem -> mem) : M paging unit := modify (fun s =>
  mkPaging (f (p_mem s)) (next_frame s) (kernel_pml4 s) (kernel_pdpt s) (p_source s)).
Definition set_next_frame (n : Z) : M paging unit := modify (fun s =>
  mkPaging (p_mem s) n (kernel_pml4 s) (kernel_pdpt s) (p_source s)).
Definition set_pml4 (t : Z) : M paging unit := modify (fun s =>
  mkPaging (p_mem s) (next_frame s) t (kernel_pdpt s) (p_source s)).
Definition set_pdpt (t : Z) : M paging unit := modify (fun s =>
  mkPaging (p_mem s) (next_frame s) (kernel_pml4 s) t (p_source s)).
Definition in_source {A} (c : M F A) : M paging A :=
  zoom p_source (fun f s =>
    mkPaging (p_mem s) (next_frame s) (kernel_pml4 s) (kernel_pdpt s) f) c.

Definition pool_frame : M paging Z :=
  n <- gets next_frame ;;
  if POOL_FRAMES <=? n then neka_panic "PAGING" PANIC_OUT_OF_FRAMES
  else set_next_frame (n + 1) ;;; ret (frame_pool + 4096 * n).

Definition alloc_frame : M paging Z :=
  s <- get ;;
  frame <- (if fs_is_active (p_source s) then in_source fs_alloc_frame else pool_frame) ;;
  upd_pmem (zero_frame frame) ;;;
  ret frame.

Definition paging_init_kernel_map : M paging unit :=
  pml4 <- alloc_frame ;; set_pml4 pml4 ;;;
  pdpt <- alloc_frame ;; set_pdpt pdpt ;;;
  pd <- alloc_frame ;;
  upd_pmem (fun m => fill64 512 m pd (fun i => Z.lor (Z.shiftl i 21) 0x83)) ;;;
  upd_pmem (set_entry pdpt 0 (Z.lor pd 0x03)) ;;;
  upd_pmem (set_entry pml4 0 (Z.lor pdpt 0x03)) ;;;
  instr "mov cr3" pml4.

Definition paging_get_kernel_cr3 (s : paging) : Z := kernel_pml4 s.

Definition paging_map_mmio_2mb (pa : Z) : M paging unit :=
  let pdpt_idx := Z.land (Z.shiftr pa 30) 0x1FF in
  let pd_idx := Z.land (Z.shiftr pa 21) 0x1FF in
  t <- gets kernel_pdpt ;;
  m <- gets p_mem ;;
  (if Z.land (entry m t pdpt_idx) 1 =? 0 then
     new_pd <- alloc_frame ;;
     upd_pmem (set_entry t pdpt_idx (Z.lor new_pd 0x03))
   else ret tt) ;;;
  m <- gets p_mem ;;
  let pd := table_of (entry m t pdpt_idx) in
  upd_pmem (set_entry pd pd_idx (Z.lor pa 0x93)).

Definition get_or_create_next_level (table idx flags : Z) : M paging Z :=
  m <- gets p_mem ;;
  (if Z.land (entry m table idx) 1 =? 0 then
     new_table <- alloc_frame ;;
     upd_pmem (set_entry table idx (Z.lor new_table flags))
   else ret tt) ;;;
  m <- gets p_mem ;;
  ret (table_of (entry m table idx)).

(** The same code with the flags fixed to present and writable. *)
Definition get_or_create_pdpt_entry_table (pml4_table pml4_idx : Z) : M paging Z :=
  m <- gets p_mem ;;
  (if Z.land (entry m pml4_table pml4_idx) 1 =? 0 then
     new_table <- alloc_frame ;;
     upd_pmem (set_entry pml4_table pml4_idx (Z.lor new_table 0x03))
   else ret tt) ;;;
  m <- gets p_mem ;;
  ret (table_of (entry m pml4_table pml4_idx)).

Definition map_user_page (pml4_table va frame : Z) : M paging unit :=
  let pml4_idx := Z.land (Z.shiftr va 39) 0x1FF in
  let pdpt_idx := Z.land (Z.shiftr va 30) 0x1FF in
  let pd_idx := Z.land (Z.shiftr va 21) 0x1FF in
  let pt_idx := Z.land (Z.shiftr va 12) 0x1FF in
  let user_flags := 0x07 in
  pdpt_t <- get_or_create_pdpt_entry_table pml4_table pml4_idx ;;
  pd_t <- get_or_create_next_level pdpt_t pdpt_idx user_flags ;;
  pt_t <- get_or_create_next_level pd_t pd_idx user_flags ;;
  upd_pmem (set_entry pt_t pt_idx (Z.lor frame user_flags)).

(** The loop reads [kernel_pdpt] while it writes [new_pdpt]. *)
Definition inherit_mem (kpdpt new_pdpt : Z) (m : mem) : mem :=
  for_loop 512 0 (fun i m =>
    if Z.land (entry m kpdpt i) 1 =? 0 then m
    else set_entry new_pdpt i (entry m kpdpt i) m) m.

Definition inherit_kernel_pdpt (new_pdpt : Z) : M paging unit :=
  k <- gets kernel_pdpt ;; upd_pmem (inherit_mem k new_pdpt).

Definition create_user_process : M paging Z :=
  new_pml4 <- alloc_frame ;;
  new_pdpt <- alloc_frame ;;
  inherit_kernel_pdpt new_pdpt ;;;
  upd_pmem (set_entry new_pml4 0 (Z.lor new_pdpt 0x07)) ;;;
  code_frame <- alloc_frame ;;
  stack_frame <- alloc_frame ;;
  upd_pmem (copy_bytes user_program code_frame) ;;;
  map_user_page new_pml4 USER_CODE_VA code_frame ;;;
  map_user_page new_pml4 USER_STACK_PAGE_VA stack_frame ;;;
  ret new_pml4.

Definition create_address_space : M paging Z :=
  new_pml4 <- alloc_frame ;;
  new_pdpt <- alloc_frame ;;
  priv_pd <- alloc_frame ;;
  priv_pt <- alloc_frame ;;
  priv_frame <- alloc_frame ;;
  inherit_kernel_pdpt new_pdpt ;;;
  upd_pmem (set_entry priv_pt 0 (Z.lor priv_frame 0x03)) ;;;
  upd_pmem (set_entry priv_pd 0 (Z.lor priv_pt 0x03)) ;;;
  upd_pmem (set_entry new_pdpt 1 (Z.lor priv_pd 0x03)) ;;;
  upd_pmem (set_entry new_pml4 0 (Z.lor new_pdpt 0x03)) ;;;
  ret new_pml4.

End Paging.
Arguments paging F : clear implicits.
Arguments mkPaging {F} _ _ _ _ _.
