(* ===== verification/PagingSpec.v ===== *)
(** * Address translation

    The four-level page walk of x86-64 (Intel SDM vol. 3, 4.5) on the memory of the
    model, and how it depends on the tables. *)

From S2P Require Import Prelude Memory Machine FrameSource Paging.

(** ** The page walk *)

Record xlat := mkXlat { x_pa : Z; x_write : bool; x_user : bool; x_nocache : bool }.

#[export] Instance xlat_eq_dec : EqDecision xlat.
Proof. solve_decision. Defined.

(** Bits 51..12 of an entry. *)
Definition pte_addr (e : Z) : Z := Z.land e 0x000FFFFFFFFFF000.
Definition present (e : Z) : bool := Z.testbit e 0.
Definition bit_w (e : Z) : bool := Z.testbit e 1.
Definition bit_u (e : Z) : bool := Z.testbit e 2.
Definition bit_pcd (e : Z) : bool := Z.testbit e 4.
Definition bit_ps (e : Z) : bool := Z.testbit e 7.

Definition vidx (va s : Z) : Z := Z.land (Z.shiftr va s) 0x1FF.

(** The translation of [va] with table root [cr3], or [None] for a page fault.  An
    access is writable (user) when every entry on the path is. *)
Definition walk (m : mem) (cr3 va : Z) : option xlat :=
  let e4 := entry m (pte_addr cr3) (vidx va 39) in
  if negb (present e4) then None else
  let e3 := entry m (pte_addr e4) (vidx va 30) in
  if negb (present e3) then None else
  if bit_ps e3 then
    Some (mkXlat (Z.land e3 0x000FFFFFC0000000 + va mod 2 ^ 30)
            (bit_w e4 && bit_w e3) (bit_u e4 && bit_u e3) (bit_pcd e3))
  else
  let e2 := entry m (pte_addr e3) (vidx va 21) in
  if negb (present e2) then None else
  if bit_ps e2 then
    Some (mkXlat (Z.land e2 0x000FFFFFFFE00000 + va mod 2 ^ 21)
            (bit_w e4 && bit_w e3 && bit_w e2) (bit_u e4 && bit_u e3 && bit_u e2) (bit_pcd e2))
  else
  let e1 := entry m (pte_addr e2) (vidx va 12) in
  if negb (present e1) then None else
  Some (mkXlat (pte_addr e1 + va mod 2 ^ 12)
          (bit_w e4 && bit_w e3 && bit_w e2 && bit_w e1)
          (bit_u e4 && bit_u e3 && bit_u e2 && bit_u e1) (bit_pcd e1)).

(** The tables the walk reads. *)
Definition visited (m : mem) (cr3 va : Z) : list Z :=
  let e4 := entry m (pte_addr cr3) (vidx va 39) in
  pte_addr cr3 ::
  if negb (present e4) then [] else
  let e3 := entry m (pte_addr e4) (vidx va 30) in
  pte_addr e4 ::
  if negb (present e3) then [] else
  if bit_ps e3 then [] else
  let e2 := entry m (pte_addr e3) (vidx va 21) in
  pte_addr e3 ::
  if negb (present e2) then [] else if bit_ps e2 then [] else [pte_addr e2].

(** ** Indices and frames *)

(** Frames reached through the identity map of the first gigabyte; frame 0 is never
    handed out. *)
Definition frame_ok (f : Z) : Prop := f mod 4096 = 0 /\ 4096 <= f < 2 ^ 30.

Lemma vidx_arith va s : 0 <= s -> vidx va s = (va / 2 ^ s) mod 512.
Proof. intros H. unfold vidx. change 0x1FF with (2 ^ 9 - 1). by rewrite field_arith by lia. Qed.

Lemma vidx_bound va s : 0 <= s -> 0 <= vidx va s < 512.
Proof. intros H. rewrite vidx_arith by done. apply Z.mod_pos_bound. lia. Qed.

#[export] Hint Resolve vidx_bound : word.

(** Bits of a frame address with flags. *)
Lemma flags_bits a k i n :
  0 <= i < n -> a mod 2 ^ n = 0 -> 0 <= k < 2 ^ n -> Z.testbit (a + k) i = Z.testbit k i.
Proof.
  intros Hi Ha Hk. rewrite <- (lor_low a k n) by lia. rewrite Z.lor_spec.
  rewrite <- (Z.mod_pow2_bits_low a n i) by lia. by rewrite Ha, Z.bits_0.
Qed.

Lemma mask_field e lo hi :
  0 <= lo <= hi -> Z.land e (2 ^ hi - 2 ^ lo) = e mod 2 ^ hi - e mod 2 ^ lo.
Proof.
  intros H. replace (2 ^ hi - 2 ^ lo) with (Z.ldiff (Z.ones hi) (Z.ones lo)).
  - rewrite Z.ldiff_land, Z.land_assoc, Z.land_ones, <- Z.ldiff_land by lia.
    rewrite Z.ldiff_ones_r by lia. rewrite Z.shiftl_mul_pow2, Z.shiftr_div_pow2 by lia.
    pose proof (Z.div_mod (e mod 2 ^ hi) (2 ^ lo)).
    assert ((e mod 2 ^ hi) mod 2 ^ lo = e mod 2 ^ lo); [|lia].
    rewrite <- (Z.mod_mod_divide e (2 ^ hi) (2 ^ lo)); [done|].
    exists (2 ^ (hi - lo)). rewrite <- Z.pow_add_r by lia. f_equal. lia.
  - rewrite Z.ldiff_ones_r, Z.shiftr_div_pow2, Z.shiftl_mul_pow2, !Z.ones_equiv by lia.
    replace hi with (hi - lo + lo) at 1 by lia. rewrite Z.pow_add_r by lia.
    replace (Z.pred (2 ^ (hi - lo) * 2 ^ lo)) with ((2 ^ (hi - lo) - 1) * 2 ^ lo + (2 ^ lo - 1)) by lia.
    rewrite Z.div_add_l by lia. rewrite (Z.div_small (2 ^ lo - 1)) by lia.
    replace (2 ^ hi) with (2 ^ (hi - lo) * 2 ^ lo); [lia|]. rewrite <- Z.pow_add_r by lia. f_equal. lia.
Qed.

Lemma pte_addr_frame f k : frame_ok f -> 0 <= k < 4096 -> pte_addr (f + k) = f.
Proof.
  intros [Hm Hf] Hk. unfold pte_addr. change 0x000FFFFFFFFFF000 with (2 ^ 52 - 2 ^ 12).
  rewrite mask_field by lia. rewrite (Z.mod_small (f + k)) by lia.
  change (2 ^ 12) with 4096. dlia.
Qed.

Lemma pte_addr_self f : frame_ok f -> pte_addr f = f.
Proof. intros H. rewrite <- (Z.add_0_r f) at 1. apply pte_addr_frame; [done|lia]. Qed.

Lemma table_of_frame f k : frame_ok f -> 0 <= k < 4096 -> table_of (f + k) = f.
Proof.
  intros [Hm Hf] Hk. unfold table_of. change 0xFFF with (2 ^ 12 - 1).
  rewrite land_align by lia. change (2 ^ 12) with 4096. dlia.
Qed.

Lemma lor_frame f k : frame_ok f -> 0 <= k < 4096 -> Z.lor f k = f + k.
Proof. intros [Hm _] Hk. by apply (lor_low f k 12). Qed.

Lemma frame_bit f k i : frame_ok f -> 0 <= k < 4096 -> 0 <= i < 12 -> Z.testbit (f + k) i = Z.testbit k i.
Proof. intros [Hm _] Hk Hi. by apply (flags_bits f k i 12). Qed.

Lemma present_land e : (Z.land e 1 =? 0) = negb (present e).
Proof.
  unfold present. destruct (Z.eqb_spec (Z.land e 1) 0) as [H|H].
  - apply (land_bit_zero e 0) in H; [by rewrite H|lia].
  - destruct (Z.testbit e 0) eqn:E; [done|]. apply (land_bit_zero e 0) in E; [done|lia].
Qed.

(** ** Tables as functions of frame and index *)

Lemma entry_bound m t i : 0 <= entry m t i < 2 ^ 64.
Proof. apply load64_bound. Qed.
#[export] Hint Resolve entry_bound : word.

(** Different frames do not overlap. *)
Lemma frames_apart_z a b : a mod 4096 = 0 -> b mod 4096 = 0 -> a <> b -> a + 4096 <= b \/ b + 4096 <= a.
Proof. intros. dlia. Qed.

Lemma entry_set_eq m a i v : 0 <= v < 2 ^ 64 -> entry (set_entry a i v m) a i = v.
Proof. apply load64_store_eq. Qed.

Lemma entry_set_idx m a i j v : i <> j -> entry (set_entry a i v m) a j = entry m a j.
Proof. intros H. apply load_store_ne. unfold disjoint_range. lia. Qed.

Lemma entry_set_tbl m a b i j v :
  a mod 4096 = 0 -> b mod 4096 = 0 -> a <> b -> 0 <= i < 512 -> 0 <= j < 512 ->
  entry (set_entry a i v m) b j = entry m b j.
Proof.
  intros Ha Hb Hne Hi Hj. apply load_store_ne. unfold disjoint_range.
  destruct (frames_apart_z a b Ha Hb Hne); lia.
Qed.

(** A memory change confined to frame [a] is not seen in other frames. *)
Definition only_frame (a : Z) (m m' : mem) : Prop := forall x, ~ (a <= x < a + 4096) -> m' x = m x.

Lemma only_frame_entry a b j m m' :
  only_frame a m m' -> a mod 4096 = 0 -> b mod 4096 = 0 -> a <> b -> 0 <= j < 512 ->
  entry m' b j = entry m b j.
Proof.
  intros H Ha Hb Hne Hj. apply load_ext. intros x Hx. apply H.
  destruct (frames_apart_z a b Ha Hb Hne); lia.
Qed.

Lemma set_entry_only a i v m : 0 <= i < 512 -> only_frame a m (set_entry a i v m).
Proof. intros Hi x Hx. apply store_out. lia. Qed.

Lemma fill_only a m f : (forall i, 0 <= i < 512 -> 0 <= f i < 2 ^ 64) -> only_frame a m (fill64 512 m a f).
Proof. intros Hf x Hx. apply fill64_spec; [apply Hf|lia]. Qed.

Lemma entry_fill m a f j :
  (forall i, 0 <= i < 512 -> 0 <= f i < 2 ^ 64) -> 0 <= j < 512 -> entry (fill64 512 m a f) a j = f j.
Proof. intros Hf Hj. by apply fill64_spec. Qed.

Lemma zero_only a m : only_frame a m (zero_frame a m).
Proof. apply fill_only. lia. Qed.

Lemma entry_zero m a j : 0 <= j < 512 -> entry (zero_frame a m) a j = 0.
Proof. intros. unfold zero_frame. rewrite entry_fill by lia. done. Qed.

Lemma copy_bytes_out bs : forall dst m x,
  ~ (dst <= x < dst + Z.of_nat (length bs)) -> copy_bytes bs dst m x = m x.
Proof.
  induction bs as [|b bs IH]; intros dst m x Hx; [done|]. simpl in *.
  rewrite IH by lia. apply store_out. lia.
Qed.

Lemma copy_bytes_in bs : forall dst m i b,
  bs !! i = Some b -> 0 <= b < 256 -> load8 (copy_bytes bs dst m) (dst + Z.of_nat i) = b.
Proof.
  induction bs as [|c bs IH]; intros dst m i b Hb Hr; [done|]. destruct i as [|i]; simpl in *.
  - injection Hb as ->. rewrite Z.add_0_r. rewrite (load_ext 1 _ (store8 m dst b)).
    + by apply load8_store_eq.
    + intros x Hx. apply copy_bytes_out. lia.
  - replace (dst + Z.of_nat (S i)) with (dst + 1 + Z.of_nat i) by lia. by apply IH.
Qed.

(** Copying the kernel's top-level entries. *)
Lemma inherit_spec k n m :
  k mod 4096 = 0 -> n mod 4096 = 0 -> k <> n ->
  only_frame n m (inherit_mem k n m) /\
  forall j, 0 <= j < 512 ->
    entry (inherit_mem k n m) n j =
    if present (entry m k j) then entry m k j else entry m n j.
Proof.
  intros Hk Hn Hne. unfold inherit_mem.
  pose (I := fun (c : Z) (m' : mem) => only_frame n m m' /\
    forall j, 0 <= j < 512 -> entry m' n j =
      if (j <? c) && present (entry m k j) then entry m k j else entry m n j).
  assert (I (0 + Z.of_nat 512) (for_loop 512 0 (fun i m =>
    if Z.land (entry m k i) 1 =? 0 then m else set_entry n i (entry m k i) m) m)) as [H1 H2].
  { apply for_loop_inv.
    - split; [done|]. intros j Hj. by destruct (Z.ltb_spec j 0); [lia|].
    - intros c t Hc [H1 H2]. change (0 + Z.of_nat 512) with 512 in Hc.
      rewrite present_land. rewrite (only_frame_entry n k c m t) by (done || lia).
      destruct (present (entry m k c)) eqn:Hp; cbn [negb].
      + split.
        * intros x Hx. rewrite (set_entry_only n c _ t) by (lia || done). by apply H1.
        * intros j Hj. destruct (decide (j = c)) as [->|Hjc].
          -- rewrite entry_set_eq by apply entry_bound. rewrite Hp.
             by destruct (Z.ltb_spec c (c + 1)); [|lia].
          -- rewrite entry_set_idx by done. rewrite H2 by done.
             destruct (Z.ltb_spec j c), (Z.ltb_spec j (c + 1)); try lia; done.
      + split; [done|]. intros j Hj. rewrite H2 by done.
        destruct (decide (j = c)) as [->|Hjc]; [by rewrite Hp, !andb_false_r|].
        destruct (Z.ltb_spec j c), (Z.ltb_spec j (c + 1)); try lia; done. }
  split; [done|]. intros j Hj. rewrite H2 by done. by destruct (Z.ltb_spec j (0 + Z.of_nat 512)); [|lia].
Qed.

(** Reading entries after updates of other frames. *)
Lemma entry_zero_ne m a b j :
  a mod 4096 = 0 -> b mod 4096 = 0 -> a <> b -> 0 <= j < 512 ->
  entry (zero_frame a m) b j = entry m b j.
Proof. intros. apply (only_frame_entry a); try done. apply zero_only. Qed.

Lemma entry_fill_ne m a b f j :
  (forall i, 0 <= i < 512 -> 0 <= f i < 2 ^ 64) ->
  a mod 4096 = 0 -> b mod 4096 = 0 -> a <> b -> 0 <= j < 512 ->
  entry (fill64 512 m a f) b j = entry m b j.
Proof. intros. apply (only_frame_entry a); try done. by apply fill_only. Qed.

Lemma entry_inherit_ne m k n b j :
  k mod 4096 = 0 -> n mod 4096 = 0 -> k <> n -> b mod 4096 = 0 -> n <> b -> 0 <= j < 512 ->
  entry (inherit_mem k n m) b j = entry m b j.
Proof. intros. apply (only_frame_entry n); try done. by apply inherit_spec. Qed.

Lemma entry_inherit m k n j :
  k mod 4096 = 0 -> n mod 4096 = 0 -> k <> n -> 0 <= j < 512 ->
  entry (inherit_mem k n m) n j = if present (entry m k j) then entry m k j else entry m n j.
Proof. intros. by apply inherit_spec. Qed.

Lemma copy_only bs a m : Z.of_nat (length bs) <= 4096 -> only_frame a m (copy_bytes bs a m).
Proof. intros H x Hx. apply copy_bytes_out. lia. Qed.

Lemma entry_copy_ne bs m a b j :
  Z.of_nat (length bs) <= 4096 -> a mod 4096 = 0 -> b mod 4096 = 0 -> a <> b -> 0 <= j < 512 ->
  entry (copy_bytes bs a m) b j = entry m b j.
Proof. intros. apply (only_frame_entry a); try done. by apply copy_only. Qed.

(** Evaluate an entry of a memory built by table updates; frames are told apart by
    hypotheses of the context. *)
Ltac clear_ne := repeat match goal with H : ~ (_ = _) |- _ => clear H end.
Ltac tbl_side :=
  first [ assumption
        | match goal with |- ~ (_ = _) => first [congruence | clear_ne; lia] end
        | clear_ne; lia | apply vidx_bound; lia | done ].
Ltac tbl :=
  repeat first
    [ rewrite entry_set_eq by tbl_side
    | rewrite entry_set_idx by tbl_side
    | rewrite entry_set_tbl by tbl_side
    | rewrite entry_zero by tbl_side
    | rewrite entry_zero_ne by tbl_side
    | rewrite entry_copy_ne by tbl_side
    | rewrite entry_inherit by tbl_side
    | rewrite entry_inherit_ne by tbl_side
    | rewrite entry_fill by tbl_side
    | rewrite entry_fill_ne by tbl_side ].

(** Split a [NoDup] of explicit frames into inequalities. *)
Ltac split_nots :=
  repeat match goal with
  | H : ~ (_ \/ _) |- _ => apply Decidable.not_or in H; destruct H
  end.
Ltac nodup_facts H := rewrite ?NoDup_cons, ?elem_of_cons in H; destr_and; split_nots.

(** ** The walk depends only on the tables it visits *)

Lemma same_entry m m' t i : same_on t (t + 4096) m m' -> 0 <= i < 512 -> entry m' t i = entry m t i.
Proof. intros H Hi. symmetry. apply (load_same_on _ _ _ _ _ _ H); lia. Qed.

Lemma walk_frame m m' cr3 va :
  (forall t, t ∈ visited m cr3 va -> same_on t (t + 4096) m m') ->
  walk m' cr3 va = walk m cr3 va /\ visited m' cr3 va = visited m cr3 va.
Proof.
  intros H. unfold walk, visited in *.
  rewrite (same_entry m m' (pte_addr cr3)) by (try (apply H; set_solver); apply vidx_bound; lia).
  set (e4 := entry m (pte_addr cr3) (vidx va 39)) in *.
  destruct (present e4); cbn [negb] in *; [|done].
  rewrite (same_entry m m' (pte_addr e4)) by (try (apply H; set_solver); apply vidx_bound; lia).
  set (e3 := entry m (pte_addr e4) (vidx va 30)) in *.
  destruct (present e3); cbn [negb] in *; [|done]. destruct (bit_ps e3); [done|].
  rewrite (same_entry m m' (pte_addr e3)) by (try (apply H; set_solver); apply vidx_bound; lia).
  set (e2 := entry m (pte_addr e3) (vidx va 21)) in *.
  destruct (present e2); cbn [negb] in *; [|done]. destruct (bit_ps e2); [done|].
  rewrite (same_entry m m' (pte_addr e2)) by (try (apply H; set_solver); apply vidx_bound; lia).
  done.
Qed.
