(* ===== verification/PagingProof.v ===== *)
(** * Page tables: the kernel map

    Frame allocation, the invariant of the kernel's own tables and its preservation
    by [paging_init_kernel_map] and [paging_map_mmio_2mb]. *)

From S2P Require Import Prelude Memory Machine Runs FrameSource Paging PagingSpec.

Section PagingProof.
Context {F : Type} {FO : FrameSourceOps F} {FS : FrameSource F}.
Context (frame_pool : Z).

(** Where the linker puts the pool: page aligned, in the first gigabyte. *)
Definition pool_ok : Prop := frame_pool mod 4096 = 0 /\ 4096 <= frame_pool /\ frame_pool + 4096 * POOL_FRAMES <= 2 ^ 30.

(** The frames [alloc_frame] will hand out next, in order. *)
Definition avail (p : paging F) : list Z :=
  if fs_is_active (p_source p) then fs_frames (p_source p)
  else (fun k => frame_pool + 4096 * k) <$> seqZ (next_frame p) (POOL_FRAMES - next_frame p).

Definition pg_wf (p : paging F) : Prop :=
  pool_ok /\ 0 <= next_frame p /\ (fs_is_active (p_source p) = true -> fs_wf (p_source p)).

Lemma avail_NoDup p : pg_wf p -> NoDup (avail p).
Proof.
  intros (_ & _ & Hs). unfold avail. destruct (fs_is_active (p_source p)).
  - by apply fs_distinct, Hs.
  - apply NoDup_fmap_2; [intros ? ? ?; lia|apply NoDup_seqZ].
Qed.

Lemma avail_aligned p f : pg_wf p -> f ∈ avail p -> f mod 4096 = 0.
Proof.
  intros ((Hp & _) & _ & Hs). unfold avail. destruct (fs_is_active (p_source p)).
  - intros Hf. by apply (fs_aligned (p_source p) f (Hs eq_refl)).
  - intros (k & -> & _)%list_elem_of_fmap. dlia.
Qed.

(** ** alloc_frame *)

(** [p'] is [p] with the frames [fs] taken and memory [m]. *)
Definition grown (p p' : paging F) (fs : list Z) (m : mem) : Prop :=
  p_mem p' = m /\ kernel_pml4 p' = kernel_pml4 p /\ kernel_pdpt p' = kernel_pdpt p /\
  avail p = fs ++ avail p' /\ pg_wf p'.

Lemma alloc_frame_run p f rest :
  pg_wf p -> avail p = f :: rest ->
  exists p', alloc_frame frame_pool p = Done f p' [] /\ grown p p' [f] (zero_frame f (p_mem p)).
Proof.
  intros Hwf Ha. pose proof Hwf as (Hp & Hn & Hs). unfold alloc_frame. mstep.
  unfold avail in Ha. destruct (fs_is_active (p_source p)) eqn:Eact.
  - pose proof (fs_alloc (p_source p) (Hs eq_refl)) as H. rewrite Ha in H.
    destruct H as (s' & E & Hwf' & Hfs & Hact).
    unfold in_source, zoom, bind at 1. rewrite E. rewrite add_trace_nil. unfold upd_pmem. mstep.
    unfold ret. eexists. split; [done|]. unfold grown, avail, pg_wf. simpl.
    rewrite Eact in *. rewrite Hact, Ha, Hfs. by split_and!.
  - unfold pool_frame. mstep. destruct (Z.leb_spec POOL_FRAMES (next_frame p)).
    { rewrite seqZ_nil in Ha by lia. done. }
    rewrite seqZ_cons in Ha by lia. simpl in Ha. injection Ha as <- Hrest.
    unfold set_next_frame, upd_pmem. mstep. unfold ret. eexists. split; [done|].
    unfold grown, avail, pg_wf. simpl. rewrite Eact. split_and!; try done; [|lia].
    rewrite seqZ_cons by lia. simpl. do 3 f_equal; lia.
Qed.

(** With no frame left [alloc_frame] panics and returns nothing. *)
Lemma alloc_frame_empty p :
  pg_wf p -> avail p = [] ->
  exists p' t, alloc_frame frame_pool p =
    Panic (if fs_is_active (p_source p) then "MEMMAP" else "PAGING") 1 p' t.
Proof.
  intros Hwf Ha. pose proof Hwf as (Hp & Hn & Hs). unfold alloc_frame. mstep.
  unfold avail in Ha. destruct (fs_is_active (p_source p)) eqn:Eact.
  - pose proof (fs_alloc (p_source p) (Hs eq_refl)) as H. rewrite Ha in H.
    destruct H as (s' & t & E). unfold in_source, zoom, bind at 1. rewrite E. by eexists _, _.
  - unfold pool_frame. mstep. destruct (Z.leb_spec POOL_FRAMES (next_frame p)); [by eexists _, _|].
    rewrite seqZ_cons in Ha by lia. done.
Qed.

(** As long as the memory map is not active the frame source is not touched. *)
Definition source_is (f0 : F) (p : paging F) : Prop := p_source p = f0.

Lemma alloc_frame_source f0 : fs_is_active f0 = false -> keeps (source_is f0) (alloc_frame frame_pool).
Proof.
  intros Hf. unfold alloc_frame, pool_frame, set_next_frame, upd_pmem. keeps_steps; [|done].
  unfold source_is in *. subst f0. rewrite Hf. keeps_steps. destruct (_ <=? _); keeps_steps; done.
Qed.

Lemma paging_init_source f0 : fs_is_active f0 = false -> keeps (source_is f0) (paging_init_kernel_map frame_pool).
Proof.
  intros Hf. unfold paging_init_kernel_map, set_pml4, set_pdpt, upd_pmem.
  keeps_steps; try done; by apply alloc_frame_source.
Qed.

Lemma paging_map_mmio_source f0 pa :
  fs_is_active f0 = false -> keeps (source_is f0) (paging_map_mmio_2mb frame_pool pa).
Proof.
  intros Hf. unfold paging_map_mmio_2mb, upd_pmem. cbv zeta. keeps_steps; [|done].
  destruct (_ =? 0); keeps_steps; [by apply alloc_frame_source|done].
Qed.

Lemma grown_trans p1 p2 p3 fs1 fs2 m1 m2 :
  grown p1 p2 fs1 m1 -> grown p2 p3 fs2 m2 -> grown p1 p3 (fs1 ++ fs2) m2.
Proof.
  intros (_ & H2 & H3 & H4 & _) (K1 & K2 & K3 & K4 & K5). unfold grown.
  rewrite K2, K3, H2, H3, H4, K4, app_assoc. by split_and!.
Qed.

(** ** The kernel map *)

(** [K n] is the flags of 2 MB page [n] ([0] when it is not mapped); page [n] is
    always mapped to physical page [n]. *)
Definition leaf (K : Z -> Z) (n : Z) : Z := if K n =? 0 then 0 else n * 2 ^ 21 + K n.

Definition leaf_flags (k : Z) : Prop := k = 0 \/ k = 0x83 \/ k = 0x93.

(** The page directory of gigabyte [i], if there is one. *)
Definition pd_of (pds : list (Z * Z)) (i : Z) : option Z :=
  snd <$> List.find (fun q => fst q =? i) pds.

Record kmap (p : paging F) (pds : list (Z * Z)) (K : Z -> Z) : Prop := {
  km_wf : pg_wf p;
  km_frames : Forall frame_ok (kernel_pml4 p :: kernel_pdpt p :: pds.*2);
  km_nodup : NoDup (kernel_pml4 p :: kernel_pdpt p :: pds.*2);
  km_fresh f : f ∈ kernel_pml4 p :: kernel_pdpt p :: pds.*2 -> f ∉ avail p;
  km_idx : NoDup (pds.*1);
  km_pml4 i : 0 <= i < 512 ->
    entry (p_mem p) (kernel_pml4 p) i = if i =? 0 then kernel_pdpt p + 3 else 0;
  km_pdpt i : 0 <= i < 512 ->
    entry (p_mem p) (kernel_pdpt p) i = match pd_of pds i with Some pd => pd + 3 | None => 0 end;
  km_leaf i pd j : (i, pd) ∈ pds -> 0 <= j < 512 -> entry (p_mem p) pd j = leaf K (i * 512 + j);
  km_flags n : leaf_flags (K n);
  km_range i pd : (i, pd) ∈ pds -> 0 <= i < 512;
  km_none n : pd_of pds (n / 512) = None -> K n = 0
}.

Lemma pd_of_elem pds i pd : pd_of pds i = Some pd -> (i, pd) ∈ pds.
Proof.
  unfold pd_of. destruct (List.find _ pds) as [[i' pd']|] eqn:E; [|done].
  intros [= <-]. apply find_some in E as [Hin Hi]. simpl in Hi.
  apply Z.eqb_eq in Hi as ->. by apply list_elem_of_In.
Qed.

Lemma elem_pd_of pds i pd : NoDup (pds.*1) -> (i, pd) ∈ pds -> pd_of pds i = Some pd.
Proof.
  unfold pd_of. induction pds as [|[i' pd'] pds IH]; [by intros _ ?%not_elem_of_nil|].
  simpl. intros [Hn Hnd]%NoDup_cons [[= <- <-]|Hin]%elem_of_cons; [by rewrite Z.eqb_refl|].
  destruct (Z.eqb_spec i' i) as [->|]; [|by apply IH].
  destruct Hn. apply list_elem_of_fmap. by exists (i, pd).
Qed.

Lemma pd_in_frames (pds : list (Z * Z)) i pd : (i, pd) ∈ pds -> pd ∈ pds.*2.
Proof. intros H. apply list_elem_of_fmap. by exists (i, pd). Qed.

(** Translation by a map of 2 MB pages onto themselves. *)
Definition kernel_xlat (K : Z -> Z) (va : Z) : option xlat :=
  if (va <? 2 ^ 39) && negb (K (va / 2 ^ 21) =? 0)
  then Some (mkXlat va true false (bit_pcd (K (va / 2 ^ 21)))) else None.

(** A 2 MB leaf entry. *)
Lemma leaf_walk K n :
  leaf_flags (K n) -> 0 <= n < 2 ^ 18 ->
  0 <= leaf K n < 2 ^ 64 /\
  present (leaf K n) = negb (K n =? 0) /\
  (K n <> 0 -> bit_ps (leaf K n) = true /\ bit_w (leaf K n) = true /\ bit_u (leaf K n) = false /\
     bit_pcd (leaf K n) = bit_pcd (K n) /\ Z.land (leaf K n) 0x000FFFFFFFE00000 = n * 2 ^ 21).
Proof.
  intros HK Hn. unfold leaf. destruct (Z.eqb_spec (K n) 0) as [E|E]; [by rewrite E|].
  assert (0 <= K n < 2 ^ 12) as Hk by (destruct HK as [?|[-> | ->]]; [done|lia..]).
  assert (forall i, 0 <= i < 12 -> Z.testbit (n * 2 ^ 21 + K n) i = Z.testbit (K n) i) as Hb.
  { intros i Hi. apply (flags_bits _ _ i 12); [lia|dlia|lia]. }
  unfold present, bit_ps, bit_w, bit_u, bit_pcd. rewrite !Hb by lia.
  split; [lia|]. split; [by destruct HK as [?|[-> | ->]]|]. intros _.
  split_and!; try (by destruct HK as [?|[-> | ->]]).
  change 0x000FFFFFFFE00000 with (2 ^ 52 - 2 ^ 21). rewrite mask_field by lia.
  rewrite (Z.mod_small _ (2 ^ 52)) by lia. dlia.
Qed.

Lemma idx_split va : 0 <= va < 2 ^ 48 -> va / 2 ^ 21 = (va / 2 ^ 30) * 512 + vidx va 21.
Proof. intros H. rewrite vidx_arith by lia. dlia. Qed.

(** Frames with a user or supervisor directory entry. *)
Lemma dir_bits f k : frame_ok f -> k = 3 \/ k = 7 ->
  present (f + k) = true /\ bit_w (f + k) = true /\ bit_ps (f + k) = false /\
  bit_u (f + k) = (k =? 7) /\ bit_pcd (f + k) = false /\ pte_addr (f + k) = f.
Proof.
  intros Hf Hk. unfold present, bit_w, bit_ps, bit_u, bit_pcd.
  rewrite !frame_bit by (done || lia). rewrite pte_addr_frame by (done || lia).
  by destruct Hk as [->| ->].
Qed.

(** The part of a walk below the top level, through tables shared with the kernel:
    [e4] is any entry for a copy [t3] of the kernel's second-level table. *)
Lemma shared_walk p pds K va e4 :
  kmap p pds K -> 0 <= va < 2 ^ 39 ->
  forall m t4, (forall i pd, (i, pd) ∈ pds -> same_on pd (pd + 4096) (p_mem p) m) ->
  entry m (pte_addr t4) 0 = e4 -> present e4 = true -> bit_w e4 = true ->
  entry m (pte_addr e4) (vidx va 30) = entry (p_mem p) (kernel_pdpt p) (vidx va 30) ->
  walk m t4 va = kernel_xlat K va /\
  forall t, t ∈ visited m t4 va -> t = pte_addr t4 \/ t = pte_addr e4 \/ t ∈ pds.*2.
Proof.
  intros Hk Hva m t4 Hsame E4 Hp4 Hw4 E3. unfold walk, visited, kernel_xlat.
  assert (vidx va 39 = 0) as -> by (rewrite vidx_arith by lia; dlia).
  rewrite E4, Hp4. cbn [negb]. rewrite E3. destruct (Z.ltb_spec va (2 ^ 39)); [|lia]. cbn [andb].
  assert (vidx va 30 = va / 2 ^ 30) as Hi3 by (rewrite vidx_arith by lia; dlia).
  rewrite (km_pdpt _ _ _ Hk) by (apply vidx_bound; lia). rewrite Hi3.
  assert (va / 2 ^ 21 / 512 = va / 2 ^ 30) as Hd by dlia.
  destruct (pd_of pds (va / 2 ^ 30)) as [pd|] eqn:Epd.
  - pose proof (pd_of_elem _ _ _ Epd) as Hin.
    assert (frame_ok pd) as Hpd.
    { pose proof (km_frames _ _ _ Hk) as H'. rewrite Forall_forall in H'. apply H'.
      do 2 apply list_elem_of_further. by eapply pd_in_frames. }
    destruct (dir_bits pd 3 Hpd) as (-> & -> & -> & -> & _ & ->); [by left|]. cbn [negb Z.eqb].
    rewrite (same_entry (p_mem p) m pd) by (eauto || (apply vidx_bound; lia)).
    rewrite (km_leaf _ _ _ Hk _ _ _ Hin) by (apply vidx_bound; lia).
    rewrite <- idx_split by lia. set (n := va / 2 ^ 21) in *.
    destruct (leaf_walk K n (km_flags _ _ _ Hk n)) as (_ & -> & Hl); [unfold n; dlia|].
    destruct (Z.eqb_spec (K n) 0) as [E0|E0]; cbn [negb].
    + split; [done|]. intros t Ht. pose proof (pd_in_frames _ _ _ Hin).
      rewrite !elem_of_cons, elem_of_nil in Ht. naive_solver.
    + destruct (Hl E0) as (-> & -> & -> & -> & ->). rewrite Hw4, !andb_false_r. cbn [andb]. split.
      * do 2 f_equal. unfold n. dlia.
      * intros t Ht. pose proof (pd_in_frames _ _ _ Hin).
        rewrite !elem_of_cons, elem_of_nil in Ht. naive_solver.
  - cbn [present]. rewrite (km_none _ _ _ Hk) by (by rewrite Hd). cbn. split; [done|].
    intros t Ht. rewrite !elem_of_cons, elem_of_nil in Ht. naive_solver.
Qed.

Lemma kernel_walk p pds K va :
  kmap p pds K -> 0 <= va < 2 ^ 48 ->
  walk (p_mem p) (kernel_pml4 p) va = kernel_xlat K va /\
  forall t, t ∈ visited (p_mem p) (kernel_pml4 p) va ->
    t ∈ kernel_pml4 p :: kernel_pdpt p :: pds.*2.
Proof.
  intros Hk Hva. pose proof (km_frames _ _ _ Hk) as [H4 [H3 _]%Forall_cons_iff]%Forall_cons_iff.
  destruct (Z.lt_ge_cases va (2 ^ 39)) as [Hlt|Hge].
  - destruct (dir_bits (kernel_pdpt p) 3 H3) as (Hp & Hw & _ & _ & _ & Ha); [by left|].
    destruct (shared_walk p pds K va (kernel_pdpt p + 3) Hk ltac:(lia) (p_mem p) (kernel_pml4 p))
      as [Hwk Hv]; try done.
    + rewrite pte_addr_self by done. by rewrite (km_pml4 _ _ _ Hk) by lia.
    + by rewrite Ha.
    + split; [done|]. intros t Ht. apply Hv in Ht. rewrite Ha, (pte_addr_self (kernel_pml4 p)) in Ht by done.
      rewrite !elem_of_cons. naive_solver.
  - unfold walk, visited, kernel_xlat. rewrite pte_addr_self by done.
    assert (vidx va 39 <> 0) as Hi by (rewrite vidx_arith by lia; dlia).
    rewrite (km_pml4 _ _ _ Hk) by (apply vidx_bound; lia).
    destruct (Z.eqb_spec (vidx va 39) 0); [done|]. destruct (Z.ltb_spec va (2 ^ 39)); [lia|].
    split; [done|]. intros t Ht. simpl in Ht. rewrite elem_of_cons, elem_of_nil in Ht.
    rewrite !elem_of_cons. naive_solver.
Qed.

(** ** paging_init_kernel_map *)

Definition identity_1gb : Z -> Z := fun n => if (0 <=? n) && (n <? 512) then 0x83 else 0.

Lemma identity_leaf j : 0 <= j < 512 -> Z.lor (Z.shiftl j 21) 0x83 = leaf identity_1gb j.
Proof.
  intros Hj. unfold leaf, identity_1gb. destruct (Z.leb_spec 0 j); [|lia].
  destruct (Z.ltb_spec j 512); [|lia]. cbn [andb Z.eqb]. rewrite shiftl_arith by lia.
  apply (lor_low _ _ 21); [lia|dlia|lia].
Qed.

Lemma identity_entry i : 0 <= i < 512 -> 0 <= Z.lor (Z.shiftl i 21) 0x83 < 2 ^ 64.
Proof.
  intros Hi. rewrite identity_leaf by done. apply leaf_walk; [|lia]. unfold identity_1gb.
  destruct (_ && _); [right; by left|by left].
Qed.

Lemma paging_init_run p f4 f3 fd rest :
  pg_wf p -> avail p = f4 :: f3 :: fd :: rest -> Forall frame_ok [f4; f3; fd] ->
  exists p', paging_init_kernel_map frame_pool p = Done tt p' [EInstr "mov cr3" f4] /\
    kernel_pml4 p' = f4 /\ kernel_pdpt p' = f3 /\ avail p' = rest /\ pg_wf p' /\
    p_mem p' = set_entry f4 0 (f3 + 3) (set_entry f3 0 (fd + 3)
      (fill64 512 (zero_frame fd (zero_frame f3 (zero_frame f4 (p_mem p)))) fd
         (fun i => Z.lor (Z.shiftl i 21) 0x83))).
Proof.
  intros Hwf Ha [H4 [H3 [Hd _]%Forall_cons_iff]%Forall_cons_iff]%Forall_cons_iff.
  destruct (alloc_frame_run p f4 _ Hwf Ha) as (p1 & E1 & M1 & _ & _ & V1 & W1).
  rewrite Ha in V1. injection V1 as V1. unfold paging_init_kernel_map.
  rewrite (bind_done _ _ _ _ _ _ E1), add_trace_nil. unfold set_pml4, set_pdpt, upd_pmem, instr. mstep.
  set (q1 := mkPaging _ _ _ _ _).
  destruct (alloc_frame_run q1 f3 (fd :: rest) W1 (eq_sym V1)) as (p2 & E2 & M2 & K2 & _ & V2 & W2).
  rewrite (bind_done _ _ _ _ _ _ E2), add_trace_nil. mstep.
  assert (avail p2 = fd :: rest) as V2' by (change (avail q1) with (avail p1) in V2; rewrite <- V1 in V2; by injection V2).
  set (q2 := mkPaging _ _ _ _ _).
  destruct (alloc_frame_run q2 fd rest W2 V2') as (p3 & E3 & M3 & K3 & K3' & V3 & W3).
  rewrite (bind_done _ _ _ _ _ _ E3), add_trace_nil. mstep.
  change (avail q2) with (avail p2) in V3. rewrite V2' in V3. injection V3 as V3.
  cbn [p_mem q1 q2] in *. rewrite M1 in M2. rewrite M2 in M3.
  unfold emit. eexists. split; [done|]. cbn [kernel_pml4 kernel_pdpt p_mem]. rewrite K3, K3'.
  cbn [q2 kernel_pml4 kernel_pdpt]. rewrite K2. split; [done|]. split; [done|].
  split; [by symmetry|]. split; [done|].
  rewrite M3. by rewrite !lor_frame by (done || lia).
Qed.

Lemma paging_init_kmap p p' f4 f3 fd rest :
  pg_wf p -> avail p = f4 :: f3 :: fd :: rest -> Forall frame_ok [f4; f3; fd] ->
  kernel_pml4 p' = f4 -> kernel_pdpt p' = f3 -> avail p' = rest -> pg_wf p' ->
  p_mem p' = set_entry f4 0 (f3 + 3) (set_entry f3 0 (fd + 3)
      (fill64 512 (zero_frame fd (zero_frame f3 (zero_frame f4 (p_mem p)))) fd
         (fun i => Z.lor (Z.shiftl i 21) 0x83))) ->
  kmap p' [(0, fd)] identity_1gb.
Proof.
  intros Hwf Ha Hok <- <- <- Hwf' Hm. pose proof (avail_NoDup p Hwf) as Hnd. rewrite Ha in Hnd.
  pose proof Hok as [[A4 B4] [[A3 B3] [[Ad Bd] _]%Forall_cons_iff]%Forall_cons_iff]%Forall_cons_iff.
  pose proof Hnd as Hnd'. nodup_facts Hnd'. pose proof identity_entry as Hie.
  set (f4 := kernel_pml4 p') in *. set (f3 := kernel_pdpt p') in *.
  split; rewrite ?Hm; fold f4 f3; try done; simpl fmap.
  - change (f4 :: f3 :: fd :: avail p') with ([f4; f3; fd] ++ avail p') in Hnd. by apply NoDup_app in Hnd as [? _].
  - intros f Hf. change (f4 :: f3 :: fd :: avail p') with ([f4; f3; fd] ++ avail p') in Hnd. by apply NoDup_app in Hnd as (_ & ? & _); auto.
  - apply NoDup_singleton.
  - intros i Hi. destruct (Z.eqb_spec i 0) as [->|]; by tbl.
  - intros i Hi. unfold pd_of. cbn [List.find fst]. destruct (Z.eqb_spec 0 i) as [<-|]; by tbl.
  - intros i pd j [= -> ->]%list_elem_of_singleton Hj. tbl. by apply identity_leaf.
  - intros n. unfold identity_1gb. destruct (_ && _); [right; by left|by left].
  - intros i pd [= -> ->]%list_elem_of_singleton. lia.
  - intros n. unfold pd_of, identity_1gb. cbn [List.find fst]. destruct (Z.eqb_spec 0 (n / 512)); [done|].
    intros _. destruct (Z.leb_spec 0 n), (Z.ltb_spec n 512); simpl; dlia.
Qed.

(** ** paging_map_mmio_2mb *)

Definition with_mem (p : paging F) (m : mem) : paging F :=
  mkPaging m (next_frame p) (kernel_pml4 p) (kernel_pdpt p) (p_source p).

Lemma kmap_frame_facts p pds K i pd :
  kmap p pds K -> (i, pd) ∈ pds ->
  frame_ok pd /\ pd <> kernel_pml4 p /\ pd <> kernel_pdpt p.
Proof.
  intros Hk Hin%pd_in_frames. pose proof (km_frames _ _ _ Hk) as Hf. rewrite Forall_forall in Hf.
  pose proof (km_nodup _ _ _ Hk) as [N4 [N3 _]%NoDup_cons]%NoDup_cons.
  split; [apply Hf; by do 2 apply list_elem_of_further|].
  rewrite elem_of_cons in N4. naive_solver.
Qed.

Lemma kmap_roots p pds K :
  kmap p pds K -> frame_ok (kernel_pml4 p) /\ frame_ok (kernel_pdpt p) /\ kernel_pml4 p <> kernel_pdpt p.
Proof.
  intros Hk. pose proof (km_frames _ _ _ Hk) as [? [? _]%Forall_cons_iff]%Forall_cons_iff.
  pose proof (km_nodup _ _ _ Hk) as [N4 _]%NoDup_cons. rewrite elem_of_cons in N4. tauto.
Qed.

(** Two directories of the kernel map are the same only for the same gigabyte. *)
Lemma kmap_pd_inj p pds K i i' pd :
  kmap p pds K -> (i, pd) ∈ pds -> (i', pd) ∈ pds -> i = i'.
Proof.
  intros Hk [a Ha]%list_elem_of_lookup [b Hb]%list_elem_of_lookup.
  pose proof (km_nodup _ _ _ Hk) as [_ [_ Hnd]%NoDup_cons]%NoDup_cons.
  assert (a = b) as ->; [|congruence].
  eapply NoDup_lookup; [exact Hnd|..]; rewrite list_lookup_fmap; [by rewrite Ha|by rewrite Hb].
Qed.

Lemma kmap_set_leaf p pds K i pd j k :
  kmap p pds K -> (i, pd) ∈ pds -> 0 <= j < 512 -> leaf_flags k -> k <> 0 ->
  kmap (with_mem p (set_entry pd j ((i * 512 + j) * 2 ^ 21 + k) (p_mem p))) pds
    (fun n => if n =? i * 512 + j then k else K n).
Proof.
  intros Hk Hin Hj Hfl Hk0. destruct (kmap_frame_facts _ _ _ _ _ Hk Hin) as ([Apd Bpd] & Hn4 & Hn3).
  destruct (kmap_roots _ _ _ Hk) as ([A4 _] & [A3 _] & _).
  pose proof (km_range _ _ _ Hk _ _ Hin) as Hi.
  destruct Hk as [Hwf Hfr Hnd Hfresh Hidx H4 H3 Hleaf Hflags Hrange Hnone] eqn:Ek. clear Ek.
  split; simpl; try done.
  - intros i' Hi'. tbl. by apply H4.
  - intros i' Hi'. tbl. by apply H3.
  - intros i' pd' j' Hin' Hj'. unfold leaf. destruct (decide (pd' = pd)) as [->|Hne].
    + assert (i' = i) as -> by (by eapply kmap_pd_inj).
      destruct (decide (j' = j)) as [->|Hjj].
      * rewrite Z.eqb_refl. destruct (Z.eqb_spec k 0); [done|]. apply entry_set_eq.
        destruct Hfl as [?|[-> | ->]]; lia.
      * rewrite entry_set_idx by done. destruct (Z.eqb_spec (i * 512 + j') (i * 512 + j)); [lia|].
        by apply Hleaf.
    + destruct (kmap_frame_facts p pds K i' pd') as ([A' _] & _); [done..|]. tbl.
      rewrite (Hleaf _ _ _ Hin' Hj'). destruct (Z.eqb_spec (i' * 512 + j') (i * 512 + j)); [|done].
      assert (i' = i) as -> by lia. apply (elem_pd_of _ _ _ Hidx) in Hin, Hin'. congruence.
  - intros n. by destruct (_ =? _).
  - intros n Hn. destruct (Z.eqb_spec n (i * 512 + j)) as [->|]; [|by apply Hnone].
    replace ((i * 512 + j) / 512) with i in Hn by dlia.
    apply (elem_pd_of _ _ _ Hidx) in Hin. congruence.
Qed.

Lemma kmap_add_pd p p1 pds K i f :
  kmap p pds K -> pd_of pds i = None -> 0 <= i < 512 -> frame_ok f ->
  grown p p1 [f] (zero_frame f (p_mem p)) ->
  kmap (with_mem p1 (set_entry (kernel_pdpt p) i (f + 3) (p_mem p1))) ((i, f) :: pds) K.
Proof.
  intros Hk Hno Hi Hf (M1 & P4 & P3 & V & W). pose proof Hf as [Af Bf].
  destruct (kmap_roots _ _ _ Hk) as ([A4 _] & [A3 _] & N43).
  pose proof (avail_NoDup p (km_wf _ _ _ Hk)) as Hnd. rewrite V in Hnd. simpl in V, Hnd.
  apply NoDup_cons in Hnd as [Hf1 Hnd]. pose proof (km_fresh _ _ _ Hk) as Hfresh. rewrite V in Hfresh.
  assert (forall g, g ∈ kernel_pml4 p :: kernel_pdpt p :: pds.*2 -> g <> f /\ g ∉ avail p1) as Hfr.
  { intros g Hg%Hfresh. rewrite elem_of_cons in Hg. tauto. }
  assert (kernel_pml4 p <> f) as Nf4 by (apply Hfr; set_solver).
  assert (kernel_pdpt p <> f) as Nf3 by (apply Hfr; set_solver).
  assert (f ∉ pds.*2) as Nfd.
  { intros Hfp. destruct (Hfr f); [by do 2 apply list_elem_of_further|done]. }
  assert (i ∉ pds.*1) as Hni.
  { intros ([i' pd] & -> & Hin)%list_elem_of_fmap.
    apply (elem_pd_of _ _ _ (km_idx _ _ _ Hk)) in Hin. simpl in Hno. congruence. }
  pose proof (km_nodup _ _ _ Hk) as [N4 [N3 Nd]%NoDup_cons]%NoDup_cons.
  pose proof (km_frames _ _ _ Hk) as [F4 [F3 Fd]%Forall_cons_iff]%Forall_cons_iff.
  split; cbn [with_mem p_mem kernel_pml4 kernel_pdpt]; rewrite ?fmap_cons; cbn [fst snd];
    rewrite ?M1, ?P4, ?P3; try done.
  - by do 3 (constructor; [done|]).
  - rewrite !NoDup_cons, !elem_of_cons in *. split_and!; try done; naive_solver.
  - intros g Hg. change (avail (with_mem p1 _)) with (avail p1). rewrite !elem_of_cons in Hg.
    assert (g = f \/ g ∈ kernel_pml4 p :: kernel_pdpt p :: pds.*2) as [->|Hg'].
    { rewrite !elem_of_cons. tauto. }
    + done.
    + by apply Hfr.
  - constructor; [done|by apply (km_idx _ _ _ Hk)].
  - intros j Hj. tbl. by apply (km_pml4 _ _ _ Hk).
  - intros j Hj. unfold pd_of. cbn [List.find fst]. destruct (Z.eqb_spec i j) as [->|Hij].
    + by tbl.
    + tbl. by apply (km_pdpt _ _ _ Hk).
  - intros i' pd j [[= -> ->]|Hin]%elem_of_cons Hj.
    + tbl. unfold leaf. by rewrite (km_none _ _ _ Hk) by (by replace ((i * 512 + j) / 512) with i by dlia).
    + destruct (kmap_frame_facts _ _ _ _ _ Hk Hin) as ([Apd _] & _).
      assert (pd <> f) by (intros ->; by apply pd_in_frames in Hin).
      destruct (kmap_frame_facts _ _ _ _ _ Hk Hin) as (_ & _ & ?). tbl. by apply (km_leaf _ _ _ Hk).
  - apply (km_flags _ _ _ Hk).
  - intros i' pd [[= -> ->]|Hin]%elem_of_cons; [done|by apply (km_range _ _ _ Hk) in Hin].
  - intros n Hn. apply (km_none _ _ _ Hk). unfold pd_of in Hn |- *. cbn [List.find fst] in Hn.
    by destruct (i =? n / 512).
Qed.

Definition mmio_map (K : Z -> Z) (pa : Z) : Z -> Z := fun n => if n =? pa / 2 ^ 21 then 0x93 else K n.

Lemma kmap_ext p pds K K' : (forall n, K n = K' n) -> kmap p pds K -> kmap p pds K'.
Proof.
  intros E Hk. destruct Hk. split; try done; intros; rewrite <- ?E; auto.
  unfold leaf. rewrite <- E. by apply km_leaf0.
Qed.

(** The map only depends on the frames that hold its tables. *)
Lemma kmap_same p pds K m :
  kmap p pds K ->
  (forall t, t ∈ kernel_pml4 p :: kernel_pdpt p :: pds.*2 -> same_on t (t + 4096) (p_mem p) m) ->
  kmap (with_mem p m) pds K.
Proof.
  intros Hk Hs.
  assert (forall t i, t ∈ kernel_pml4 p :: kernel_pdpt p :: pds.*2 -> 0 <= i < 512 ->
    entry m t i = entry (p_mem p) t i) as He.
  { intros t i Ht Hi. symmetry. apply load_ext. intros x Hx. apply (Hs t Ht). lia. }
  destruct Hk. split; cbn [with_mem p_mem kernel_pml4 kernel_pdpt]; try done.
  - intros i Hi. rewrite He by (done || apply list_elem_of_here). by auto.
  - intros i Hi. rewrite He by (done || apply list_elem_of_further, list_elem_of_here). by auto.
  - intros i pd j Hin Hj. rewrite He; [by auto| |done].
    do 2 apply list_elem_of_further. by eapply pd_in_frames.
Qed.

(** Mapping registers in a gigabyte that has a page directory writes one entry of it. *)
Lemma paging_map_mmio_present p pds K pa pd :
  kmap p pds K -> 0 <= pa < 2 ^ 39 -> pa mod 2 ^ 21 = 0 -> pd_of pds (pa / 2 ^ 30) = Some pd ->
  exists p', paging_map_mmio_2mb frame_pool pa p = Done tt p' [] /\
    p' = with_mem p (set_entry pd (vidx pa 21) (Z.lor pa 0x93) (p_mem p)) /\
    kmap p' pds (mmio_map K pa).
Proof.
  intros Hk Hpa Hal Epd. unfold paging_map_mmio_2mb.
  change (Z.land (Z.shiftr pa 30) 511) with (vidx pa 30).
  change (Z.land (Z.shiftr pa 21) 511) with (vidx pa 21). cbv zeta. mstep.
  assert (vidx pa 30 = pa / 2 ^ 30) as Hi by (rewrite vidx_arith by lia; dlia).
  pose proof (vidx_bound pa 21) as Hj. set (j := vidx pa 21) in *.
  assert (pa / 2 ^ 21 = pa / 2 ^ 30 * 512 + j) as Hn by (apply idx_split; lia).
  assert (Z.lor pa 0x93 = (pa / 2 ^ 30 * 512 + j) * 2 ^ 21 + 0x93) as Hlor.
  { rewrite (lor_low pa _ 21) by lia. rewrite <- Hn. dlia. }
  rewrite Hi, Hlor, present_land, (km_pdpt _ _ _ Hk), Epd by dlia.
  apply pd_of_elem in Epd as Hin. destruct (kmap_frame_facts _ _ _ _ _ Hk Hin) as (Fpd & _).
  destruct (dir_bits pd 3 Fpd) as (-> & _); [by left|]. cbn [negb]. mstep. unfold upd_pmem.
  rewrite (km_pdpt _ _ _ Hk), Epd by dlia. rewrite table_of_frame by (done || lia).
  eexists. split; [done|]. split; [done|]. unfold mmio_map. rewrite Hn.
  apply (kmap_set_leaf p pds K _ pd j 0x93); try done; [lia|by do 2 right].
Qed.

Lemma paging_map_mmio_run p pds K pa :
  kmap p pds K -> 0 <= pa < 2 ^ 39 -> pa mod 2 ^ 21 = 0 ->
  (pd_of pds (pa / 2 ^ 30) = None -> exists f rest, avail p = f :: rest /\ frame_ok f) ->
  exists p' pds', paging_map_mmio_2mb frame_pool pa p = Done tt p' [] /\
    kmap p' pds' (mmio_map K pa) /\ kernel_pml4 p' = kernel_pml4 p /\
    is_Some (pd_of pds' (pa / 2 ^ 30)) /\
    (forall t, t ∈ pds'.*2 -> t ∈ pds.*2 \/ head (avail p) = Some t) /\
    kernel_pdpt p' = kernel_pdpt p /\ (exists k, (k <= 1)%nat /\ avail p' = drop k (avail p)) /\
    (forall x, (forall t, t ∈ kernel_pdpt p :: pds'.*2 -> ~ (t <= x < t + 4096)) -> p_mem p' x = p_mem p x) /\
    (forall i, i <> pa / 2 ^ 30 -> pd_of pds' i = pd_of pds i).
Proof.
  intros Hk Hpa Hal Hnone. destruct (pd_of pds (pa / 2 ^ 30)) as [pd|] eqn:Epd.
  { destruct (paging_map_mmio_present p pds K pa pd Hk Hpa Hal Epd) as (p' & E & -> & Hk').
    eexists _, pds. split_and!; [done..|by eexists|tauto|done|by exists 0%nat; split; [lia|]| |done].
    intros x Hx. apply store_out. pose proof (vidx_bound pa 21).
    enough (~ (pd <= x < pd + 4096)) by lia. apply Hx, list_elem_of_further.
    apply pd_of_elem in Epd. by eapply pd_in_frames. }
  unfold paging_map_mmio_2mb.
  change (Z.land (Z.shiftr pa 30) 511) with (vidx pa 30).
  change (Z.land (Z.shiftr pa 21) 511) with (vidx pa 21). cbv zeta. mstep.
  assert (vidx pa 30 = pa / 2 ^ 30) as Hi by (rewrite vidx_arith by lia; dlia).
  pose proof (vidx_bound pa 21) as Hj. set (j := vidx pa 21) in *.
  assert (pa / 2 ^ 21 = pa / 2 ^ 30 * 512 + j) as Hn by (apply idx_split; lia).
  assert (Z.lor pa 0x93 = (pa / 2 ^ 30 * 512 + j) * 2 ^ 21 + 0x93) as Hlor.
  { rewrite (lor_low pa _ 21) by lia. rewrite <- Hn. dlia. }
  rewrite Hi, Hlor, present_land. rewrite (km_pdpt _ _ _ Hk) by dlia.
  assert (forall q pds' pd, kmap q pds' K -> (pa / 2 ^ 30, pd) ∈ pds' ->
    entry (p_mem q) (kernel_pdpt q) (pa / 2 ^ 30) = pd + 3) as Hent.
  { intros q pds' pd Hq Hin. rewrite (km_pdpt _ _ _ Hq) by dlia.
    by rewrite (elem_pd_of _ _ _ (km_idx _ _ _ Hq) Hin). }
  unfold mmio_map. rewrite Hn, Epd.
  - destruct (Hnone eq_refl) as (f & rest & Ha & Hf). change (negb (present 0)) with true. cbv iota. mstep.
    destruct (alloc_frame_run p f rest (km_wf _ _ _ Hk) Ha) as (p1 & E1 & G1).
    rewrite (bind_done _ _ _ _ _ _ E1), add_trace_nil. unfold upd_pmem. mstep.
    rewrite lor_frame by (done || lia).
    pose proof (kmap_add_pd p p1 pds K (pa / 2 ^ 30) f Hk Epd ltac:(dlia) Hf G1) as Hk1.
    pose proof G1 as (M1 & P4 & P3 & _). set (q := with_mem _ _) in Hk1.
    fold (with_mem p1 (set_entry (kernel_pdpt p) (pa / 2 ^ 30) (f + 3) (p_mem p1))). fold q.
    rewrite <- P3. change (kernel_pdpt p1) with (kernel_pdpt q).
    rewrite (Hent q ((pa / 2 ^ 30, f) :: pds) f) by (done || apply list_elem_of_here).
    rewrite table_of_frame by (done || lia).
    eexists _, _. split; [done|]. split; [|split_and!; [done| | |done| | |]].
    + apply (kmap_set_leaf q _ K _ f j 0x93); [exact Hk1|apply list_elem_of_here|lia|by do 2 right|done].
    + unfold pd_of. cbn. by rewrite Z.eqb_refl.
    + rewrite fmap_cons, Ha. intros t [->|Ht]%elem_of_cons; [by right|by left].
    + exists 1%nat. split; [lia|]. cbn [avail p_source next_frame]. destruct G1 as (_ & _ & _ & -> & _). done.
    + rewrite fmap_cons. cbn [snd p_mem q with_mem]. intros x Hx.
      pose proof (Hx (kernel_pdpt q) ltac:(apply list_elem_of_here)) as H3.
      pose proof (Hx f ltac:(apply list_elem_of_further, list_elem_of_here)) as H4.
      cbn [q with_mem kernel_pdpt] in H3. rewrite P3 in H3. rewrite M1. unfold set_entry.
      rewrite !store_out by dlia. by apply zero_only.
    + intros i' Hne. unfold pd_of. cbn [List.find fst]. destruct (Z.eqb_spec (pa / 2 ^ 30) i'); [congruence|done].
Qed.
End PagingProof.
