(* ===== verification/PagingSpaces.v ===== *)
(** * Page tables: address spaces

    What [create_address_space] and [create_user_process] build: the complete
    translation of the new space, and that building it touches nothing but frames
    that were free. *)

From S2P Require Import Prelude Memory Machine FrameSource Paging PagingSpec PagingProof.

(** The lemmas of [PagingSpec] say all about these updates. *)
#[local] Opaque zero_frame inherit_mem set_entry copy_bytes entry.

(** A space: its root, the tables it does not share, and its translation. *)
Record space := mkSpace { sp_cr3 : Z; sp_tables : list Z; sp_xlat : Z -> option xlat }.

Definition space_ok (m : mem) (shared : list Z) (s : space) : Prop :=
  forall va, 0 <= va < 2 ^ 48 ->
    walk m (sp_cr3 s) va = sp_xlat s va /\
    forall t, t ∈ visited m (sp_cr3 s) va -> t ∈ sp_tables s ++ shared.

(** The page at [page] of gigabyte 1 goes to the frame given by [pages], everything
    outside of gigabyte 1 goes where the kernel map sends it. *)
Definition private_xlat (K : Z -> Z) (user : bool) (pages : Z -> option Z) (va : Z) : option xlat :=
  if va / 2 ^ 30 =? 1
  then (fun f => mkXlat (f + va mod 2 ^ 12) true user false) <$> pages (va / 2 ^ 12)
  else kernel_xlat K va.

Definition demo_page (fp page : Z) : option Z := if page =? DEMO_VA / 2 ^ 12 then Some fp else None.
Definition user_page (fc fs page : Z) : option Z :=
  if page =? USER_CODE_VA / 2 ^ 12 then Some fc
  else if page =? USER_STACK_PAGE_VA / 2 ^ 12 then Some fs else None.

(** ** Changes confined to a set of frames *)

Definition only_frames (fs : list Z) (m m' : mem) : Prop :=
  forall x, (forall f, f ∈ fs -> ~ (f <= x < f + 4096)) -> m' x = m x.

Lemma only_frames_one fs f m m' : f ∈ fs -> only_frame f m m' -> only_frames fs m m'.
Proof. intros Hf H x Hx. by apply H, Hx. Qed.

Lemma only_frames_trans fs m1 m2 m3 : only_frames fs m1 m2 -> only_frames fs m2 m3 -> only_frames fs m1 m3.
Proof. intros H1 H2 x Hx. rewrite H2 by done. by apply H1. Qed.

Lemma only_frames_same fs m m' t :
  only_frames fs m m' -> t mod 4096 = 0 -> (forall f, f ∈ fs -> f mod 4096 = 0) -> t ∉ fs ->
  same_on t (t + 4096) m m'.
Proof.
  intros H Ht Hal Hn x Hx. symmetry. apply H. intros f Hf.
  assert (f <> t) as Hne by congruence. destruct (frames_apart_z f t (Hal f Hf) Ht Hne); lia.
Qed.

(** Close [only_frames] for a memory built by table updates of listed frames. *)
Ltac only_side := rewrite ?elem_of_cons; tauto.
Ltac only_step :=
  match goal with
  | |- only_frames _ _ (set_entry ?f _ _ _) => eapply only_frames_trans; [|apply (only_frames_one _ f); [only_side|apply set_entry_only; lia]]
  | |- only_frames _ _ (zero_frame ?f _) => eapply only_frames_trans; [|apply (only_frames_one _ f); [only_side|apply zero_only]]
  | |- only_frames _ _ (inherit_mem _ ?f _) => eapply only_frames_trans; [|apply (only_frames_one _ f); [only_side|by apply inherit_spec]]
  | |- only_frames _ _ (copy_bytes _ ?f _) => eapply only_frames_trans; [|apply (only_frames_one _ f); [only_side|apply copy_only; simpl; lia]]
  | |- only_frames _ ?m ?m => by intros ? ?
  end.

(** A space is not affected by changes to frames that hold none of its tables. *)
Lemma space_ok_frame m m' shared fs s :
  space_ok m shared s -> only_frames fs m m' -> (forall f, f ∈ fs -> f mod 4096 = 0) ->
  (forall t, t ∈ sp_tables s ++ shared -> t mod 4096 = 0 /\ t ∉ fs) ->
  space_ok m' shared s.
Proof.
  intros Hs Ho Hal Hd va Hva. destruct (Hs va Hva) as [Hw Hv].
  destruct (walk_frame m m' (sp_cr3 s) va) as [-> ->]; [|done].
  intros t [Ht Hn]%Hv%Hd. by apply (only_frames_same fs).
Qed.

(** ** A space with one private branch

    Root [f4] with one entry for [f3], a copy of the kernel's second level except
    entry 1, which leads through directory [fd] to table [ft]. *)

Section Branch.
Context {F : Type} {FO : FrameSourceOps F} {FS : FrameSource F}.
Context (frame_pool : Z).

Record branch (p : paging F) (m : mem) (k : Z) (f4 f3 fd ft jd : Z) (pt : Z -> option Z) : Prop := {
  br_f4 i : 0 <= i < 512 -> entry m f4 i = if i =? 0 then f3 + k else 0;
  br_f3 i : 0 <= i < 512 -> entry m f3 i = if i =? 1 then fd + k else entry (p_mem p) (kernel_pdpt p) i;
  br_fd i : 0 <= i < 512 -> entry m fd i = if i =? jd then ft + k else 0;
  br_ft i : 0 <= i < 512 -> entry m ft i = match pt i with Some f => f + k | None => 0 end;
  br_frames : Forall frame_ok [f4; f3; fd; ft];
  br_pt i f : pt i = Some f -> frame_ok f;
  br_k : k = 3 \/ k = 7;
  br_jd : 0 <= jd < 512
}.

Lemma branch_space p pds K m k f4 f3 fd ft jd pt pages :
  kmap frame_pool p pds K -> branch p m k f4 f3 fd ft jd pt ->
  (forall i pd, (i, pd) ∈ pds -> same_on pd (pd + 4096) (p_mem p) m) ->
  (forall n, 2 ^ 18 <= n < 2 ^ 19 -> pages n = if (n / 512) mod 512 =? jd then pt (n mod 512) else None) ->
  space_ok m (pds.*2) (mkSpace f4 [f4; f3; fd; ft] (private_xlat K (k =? 7) pages)).
Proof.
  intros Hk [B4 B3 Bd Bt Hfr Hpt Hkk Hjd] Hsame Hpages va Hva. cbn [sp_cr3 sp_tables sp_xlat].
  apply Forall_cons_iff in Hfr as [H4 [H3 [Hd [Ht _]%Forall_cons_iff]%Forall_cons_iff]%Forall_cons_iff].
  destruct (dir_bits f3 k H3 Hkk) as (P3 & W3 & S3 & U3 & C3 & A3).
  destruct (dir_bits fd k Hd Hkk) as (Pd & Wd & Sd & Ud & Cd & Ad).
  destruct (dir_bits ft k Ht Hkk) as (Pt & Wt & St & Ut & Ct & At).
  unfold private_xlat. destruct (Z.lt_ge_cases va (2 ^ 39)) as [Hlt|Hge].
  - destruct (Z.eqb_spec (va / 2 ^ 30) 1) as [H1|H1].
    + unfold walk, visited. rewrite (pte_addr_self f4) by done.
      assert (vidx va 39 = 0) as -> by (rewrite vidx_arith by lia; dlia).
      assert (vidx va 30 = 1) as -> by (rewrite vidx_arith by lia; dlia).
      rewrite B4 by lia. cbn [Z.eqb]. rewrite P3, A3. rewrite B3 by lia.
      cbn [negb Z.eqb Pos.eqb]. rewrite Pd, Sd, Ad. cbn [negb].
      rewrite Bd by (apply vidx_bound; lia). rewrite Hpages by dlia.
      rewrite (vidx_arith va 21), (vidx_arith va 12) by lia.
      replace (va / 2 ^ 12 / 512) with (va / 2 ^ 21) by dlia.
      destruct (Z.eqb_spec ((va / 2 ^ 21) mod 512) jd) as [Hj|Hj].
      * rewrite Pt, St, At. cbn [negb]. rewrite Bt by (apply Z.mod_pos_bound; lia).
        set (j := (va / 2 ^ 12) mod 512). split.
        -- destruct (pt j) as [f|] eqn:Ef; [|done].
           destruct (dir_bits f k (Hpt j f Ef) Hkk) as (-> & -> & _ & -> & -> & ->).
           simpl. rewrite W3, Wd, Wt, U3, Ud, Ut. by rewrite !andb_diag.
        -- intros t Ht'. rewrite !elem_of_cons, elem_of_nil in Ht'.
           rewrite elem_of_app, !elem_of_cons. tauto.
      * change (present 0) with false. cbn [negb]. split; [done|]. intros t Ht'.
        rewrite !elem_of_cons, elem_of_nil in Ht'. rewrite elem_of_app, !elem_of_cons. tauto.
    + destruct (shared_walk frame_pool p pds K va (f3 + k) Hk ltac:(lia) m f4) as [Hw Hv]; try done.
      * rewrite pte_addr_self by done. by rewrite B4 by lia.
      * rewrite A3, B3 by (apply vidx_bound; lia). rewrite vidx_arith by lia.
        destruct (Z.eqb_spec ((va / 2 ^ 30) mod 512) 1); [dlia|done].
      * split; [done|]. intros t Ht'%Hv. rewrite A3, pte_addr_self in Ht' by done.
        rewrite elem_of_app, !elem_of_cons. tauto.
  - unfold walk, visited, kernel_xlat. rewrite pte_addr_self by done.
    assert (vidx va 39 <> 0) as Hi by (rewrite vidx_arith by lia; dlia).
    rewrite B4 by (apply vidx_bound; lia). destruct (Z.eqb_spec (vidx va 39) 0); [done|].
    destruct (Z.eqb_spec (va / 2 ^ 30) 1); [dlia|]. destruct (Z.ltb_spec va (2 ^ 39)); [lia|].
    split; [done|]. intros t Ht'. simpl in Ht'. rewrite elem_of_cons, elem_of_nil in Ht'.
    rewrite elem_of_app, !elem_of_cons. tauto.
Qed.

(** ** Running the allocations *)

Notation avail := (avail frame_pool).
Notation grown := (grown frame_pool).

Lemma alloc_bind {B} p f rest (k : Z -> M (paging F) B) :
  pg_wf frame_pool p -> avail p = f :: rest ->
  exists p', bind (alloc_frame frame_pool) k p = k f p' /\
    grown p p' [f] (zero_frame f (p_mem p)) /\ pg_wf frame_pool p' /\ avail p' = rest.
Proof.
  intros Hwf Ha. destruct (alloc_frame_run frame_pool p f rest Hwf Ha) as (p' & E & G).
  exists p'. rewrite (bind_done _ _ _ _ _ _ E), add_trace_nil.
  pose proof G as (_ & _ & _ & V & W). rewrite Ha in V. by injection V as V.
Qed.

Lemma upd_bind {B} g (k : unit -> M (paging F) B) p :
  bind (upd_pmem g) k p = k tt (with_mem p (g (p_mem p))).
Proof. unfold upd_pmem. by mstep. Qed.

Lemma grown_with p p' fs m m' : grown p p' fs m -> grown p (with_mem p' m') fs m'.
Proof. unfold PagingProof.grown, with_mem. simpl. tauto. Qed.

Lemma grown_mem p p' fs m : grown p p' fs m -> p_mem p' = m.
Proof. by intros (? & _). Qed.

Lemma grown_rest p p' fs m rest : grown p p' fs m -> avail p = fs ++ rest -> avail p' = rest.
Proof. intros (_ & _ & _ & V' & _) V. rewrite V in V'. by apply app_inv_head in V'. Qed.

(** Take the next frame from the goal's state. *)
Ltac take_frame W V p' G W' V' :=
  let E := fresh "E" in
  match goal with |- context [bind (alloc_frame frame_pool) ?k ?p] =>
    destruct (alloc_bind p _ _ k W V) as (p' & E & G & W' & V'); rewrite E; clear E
  end.

Definition space_mem (k f4 f3 fd ft fp : Z) (m : mem) : mem :=
  set_entry f4 0 (f3 + 3) (set_entry f3 1 (fd + 3) (set_entry fd 0 (ft + 3) (set_entry ft 0 (fp + 3)
    (inherit_mem k f3 (zero_frame fp (zero_frame ft (zero_frame fd (zero_frame f3 (zero_frame f4 m))))))))).

Lemma create_address_space_run p f4 f3 fd ft fp rest :
  pg_wf frame_pool p -> avail p = f4 :: f3 :: fd :: ft :: fp :: rest ->
  Forall frame_ok [f4; f3; fd; ft; fp] ->
  exists p', create_address_space frame_pool p = Done f4 p' [] /\
    grown p p' [f4; f3; fd; ft; fp] (space_mem (kernel_pdpt p) f4 f3 fd ft fp (p_mem p)).
Proof.
  intros W V Hok. unfold create_address_space.
  apply Forall_cons_iff in Hok as [O4 [O3 [Od [Ot [Op _]%Forall_cons_iff]%Forall_cons_iff]%Forall_cons_iff]%Forall_cons_iff].
  take_frame W V p1 G1 W1 V1. take_frame W1 V1 p2 G2 W2 V2. take_frame W2 V2 p3 G3 W3 V3.
  take_frame W3 V3 p4 G4 W4 V4. take_frame W4 V4 p5 G5 W5 V5.
  rewrite !lor_frame by (done || lia). unfold inherit_kernel_pdpt. mstep. rewrite !upd_bind.
  unfold ret. eexists. split; [done|]. cbn [with_mem p_mem].
  pose proof (grown_trans _ _ _ _ _ _ _ _ (grown_trans _ _ _ _ _ _ _ _ (grown_trans _ _ _ _ _ _ _ _
    (grown_trans _ _ _ _ _ _ _ _ G1 G2) G3) G4) G5) as G.
  apply grown_mem in G1 as M1, G2 as M2, G3 as M3, G4 as M4.
  pose proof G as (M5 & _ & K5 & _). rewrite K5, M5, M4, M3, M2, M1.
  do 5 (eapply grown_with). exact G.
Qed.

(** ** The kernel map is kept *)

Lemma kmap_grown p p' pds K fs m' :
  kmap frame_pool p pds K -> grown p p' fs m' -> only_frames fs (p_mem p) m' ->
  kmap frame_pool p' pds K.
Proof.
  intros Hk (M' & P4 & P3 & V & W) Ho.
  pose proof (km_fresh _ _ _ _ Hk) as Hfresh. pose proof (km_wf _ _ _ _ Hk) as Hwf.
  assert (forall f, f ∈ fs -> f mod 4096 = 0) as Hal.
  { intros f Hf. apply (avail_aligned frame_pool p); [done|]. rewrite V, elem_of_app; tauto. }
  assert (forall t, t ∈ kernel_pml4 p :: kernel_pdpt p :: pds.*2 ->
    same_on t (t + 4096) (p_mem p) (p_mem p')) as Hsame.
  { intros t Ht. pose proof (km_frames _ _ _ _ Hk) as Hf. rewrite Forall_forall in Hf.
    rewrite M'. apply (only_frames_same fs); [done|by apply Hf|done|].
    intros Hin. apply (Hfresh t Ht). rewrite V, elem_of_app; tauto. }
  assert (forall t i, t ∈ kernel_pml4 p :: kernel_pdpt p :: pds.*2 -> 0 <= i < 512 ->
    entry (p_mem p') t i = entry (p_mem p) t i) as He.
  { intros t i Ht Hi. by apply same_entry; [apply Hsame|]. }
  split; rewrite ?P4, ?P3.
  - done.
  - apply (km_frames _ _ _ _ Hk).
  - apply (km_nodup _ _ _ _ Hk).
  - intros f Hf Hin. apply (Hfresh f Hf). rewrite V, elem_of_app; tauto.
  - apply (km_idx _ _ _ _ Hk).
  - intros i Hi. rewrite He by (done || (rewrite !elem_of_cons; tauto)). by apply (km_pml4 _ _ _ _ Hk).
  - intros i Hi. rewrite He by (done || (rewrite !elem_of_cons; tauto)). by apply (km_pdpt _ _ _ _ Hk).
  - intros i pd j Hin Hj. rewrite He; [by apply (km_leaf _ _ _ _ Hk)| |done].
    do 2 apply list_elem_of_further. by eapply pd_in_frames.
  - apply (km_flags _ _ _ _ Hk).
  - apply (km_range _ _ _ _ Hk).
  - apply (km_none _ _ _ _ Hk).
Qed.

(** Facts about fresh frames relative to a kernel map. *)
Lemma kmap_fresh_frames p pds K fs rest :
  kmap frame_pool p pds K -> avail p = fs ++ rest ->
  NoDup fs /\ kernel_pdpt p ∉ fs /\ kernel_pdpt p mod 4096 = 0 /\
  (forall i pd, (i, pd) ∈ pds -> pd mod 4096 = 0 /\ pd ∉ fs).
Proof.
  intros Hk V. pose proof (avail_NoDup frame_pool p (km_wf _ _ _ _ Hk)) as Hnd. rewrite V in Hnd.
  apply NoDup_app in Hnd as (Hnd & _). pose proof (km_fresh _ _ _ _ Hk) as Hf. rewrite V in Hf.
  destruct (kmap_roots _ _ _ _ Hk) as (_ & [A3 _] & _).
  split; [done|]. split; [intros Hin; apply (Hf (kernel_pdpt p)); rewrite ?elem_of_cons, ?elem_of_app; tauto|]. split; [done|].
  intros i pd Hin. destruct (kmap_frame_facts _ _ _ _ _ _ Hk Hin) as ([Ap _] & _). split; [done|].
  intros Hi. apply pd_in_frames in Hin. apply (Hf pd); rewrite ?elem_of_cons, ?elem_of_app; tauto.
Qed.

(** The kernel's second-level entries are present or zero. *)
Lemma kpdpt_present p pds K i :
  kmap frame_pool p pds K -> 0 <= i < 512 ->
  (if present (entry (p_mem p) (kernel_pdpt p) i) then entry (p_mem p) (kernel_pdpt p) i else 0) =
  entry (p_mem p) (kernel_pdpt p) i.
Proof.
  intros Hk Hi. rewrite (km_pdpt _ _ _ _ Hk) by done. destruct (pd_of pds i) as [pd|] eqn:E; [|done].
  apply pd_of_elem in E. destruct (kmap_frame_facts _ _ _ _ _ _ Hk E) as (Fpd & _).
  by destruct (dir_bits pd 3 Fpd) as (-> & _); [left|].
Qed.

(** ** create_address_space *)

Definition demo_space (K : Z -> Z) (f4 f3 fd ft fp : Z) : space :=
  mkSpace f4 [f4; f3; fd; ft] (private_xlat K false (demo_page fp)).

Lemma space_mem_only k f4 f3 fd ft fp m :
  k mod 4096 = 0 -> f3 mod 4096 = 0 -> k <> f3 ->
  only_frames [f4; f3; fd; ft; fp] m (space_mem k f4 f3 fd ft fp m).
Proof. intros. unfold space_mem. repeat only_step. Qed.

Lemma space_mem_branch p pds K f4 f3 fd ft fp rest :
  kmap frame_pool p pds K -> avail p = [f4; f3; fd; ft; fp] ++ rest ->
  Forall frame_ok [f4; f3; fd; ft; fp] ->
  branch p (space_mem (kernel_pdpt p) f4 f3 fd ft fp (p_mem p)) 3 f4 f3 fd ft 0
    (fun i => if i =? 0 then Some fp else None).
Proof.
  intros Hk V Hok. destruct (kmap_fresh_frames _ _ _ _ _ Hk V) as (Hnd & Hn3 & A3 & _).
  nodup_facts Hnd. rewrite !elem_of_cons in Hn3. split_nots.
  assert (Forall frame_ok [f4; f3; fd; ft]) as Hok' by (by apply (Forall_app _ [f4; f3; fd; ft] [fp])).
  rewrite !Forall_cons_iff in Hok. unfold frame_ok in Hok. destr_and. unfold space_mem.
  split; try done; try lia.
  - intros i Hi. destruct (Z.eqb_spec i 0) as [->|]; by tbl.
  - intros i Hi. destruct (Z.eqb_spec i 1) as [->|]; [by tbl|]. tbl. by eapply kpdpt_present.
  - intros i Hi. destruct (Z.eqb_spec i 0) as [->|]; by tbl.
  - intros i Hi. destruct (Z.eqb_spec i 0) as [->|]; by tbl.
  - intros i f. destruct (i =? 0); [|done]. intros [= <-]. by split.
Qed.

(** The outcome of [create_address_space], in full. *)
Lemma create_address_space_spec p pds K f4 f3 fd ft fp rest :
  kmap frame_pool p pds K -> avail p = [f4; f3; fd; ft; fp] ++ rest ->
  Forall frame_ok [f4; f3; fd; ft; fp] ->
  exists p', create_address_space frame_pool p = Done f4 p' [] /\
    grown p p' [f4; f3; fd; ft; fp] (p_mem p') /\ kmap frame_pool p' pds K /\
    only_frames [f4; f3; fd; ft; fp] (p_mem p) (p_mem p') /\
    space_ok (p_mem p') (pds.*2) (demo_space K f4 f3 fd ft fp).
Proof.
  intros Hk V Hok. pose proof (space_mem_branch _ _ _ _ _ _ _ _ _ Hk V Hok) as Hb.
  destruct (create_address_space_run p f4 f3 fd ft fp rest (km_wf _ _ _ _ Hk) V Hok) as (p' & E & G).
  destruct (kmap_fresh_frames _ _ _ _ _ Hk V) as (Hnd & Hn3 & A3 & Hpd).
  assert (f3 mod 4096 = 0) as Af3 by (rewrite !Forall_cons_iff in Hok; unfold frame_ok in Hok; tauto).
  assert (kernel_pdpt p <> f3) as Hne by (intros <-; apply Hn3; rewrite !elem_of_cons; tauto).
  pose proof (space_mem_only (kernel_pdpt p) f4 f3 fd ft fp (p_mem p) A3 Af3 Hne) as Ho.
  assert (forall f, f ∈ [f4; f3; fd; ft; fp] -> f mod 4096 = 0) as Hal.
  { intros f Hf. rewrite Forall_forall in Hok. by apply Hok. }
  exists p'. pose proof G as (M' & _). rewrite M'. split; [done|]. split; [done|].
  split; [by eapply kmap_grown|]. split; [done|].
  apply (branch_space p pds K _ 3 f4 f3 fd ft 0 (fun i => if i =? 0 then Some fp else None)); try done.
  - intros i pd Hin. destruct (Hpd i pd Hin) as [Ap Np]. by eapply only_frames_same.
  - intros n Hn. unfold demo_page. change (DEMO_VA / 2 ^ 12) with (2 ^ 18).
    destruct (Z.eqb_spec n (2 ^ 18)) as [->|]; [done|].
    destruct (Z.eqb_spec ((n / 512) mod 512) 0), (Z.eqb_spec (n mod 512) 0); try done. dlia.
Qed.

End Branch.
