(* ===== verification/PagingUser.v ===== *)
(** * Page tables: the ring-3 process

    [create_user_process] and [map_user_page]. *)

From S2P Require Import Prelude Memory Machine FrameSource Paging PagingSpec PagingProof.
From S2P Require Import PagingSpaces.

#[local] Opaque zero_frame inherit_mem set_entry copy_bytes entry.

Section User.
Context {F : Type} {FO : FrameSourceOps F} {FS : FrameSource F}.
Context (frame_pool : Z).

Notation avail := (avail frame_pool).
Notation grown := (grown frame_pool).

Lemma goc_present p table idx flags t k :
  entry (p_mem p) table idx = t + k -> frame_ok t -> k = 3 \/ k = 7 ->
  get_or_create_next_level frame_pool table idx flags p = Done t p [].
Proof.
  intros E Ht Hk. unfold get_or_create_next_level. mstep. rewrite present_land, E.
  destruct (dir_bits t k Ht Hk) as (-> & _). cbn [negb]. mstep. rewrite E.
  rewrite table_of_frame by (done || lia). done.
Qed.

Lemma goc_absent p table idx flags f rest :
  entry (p_mem p) table idx = 0 -> pg_wf frame_pool p -> avail p = f :: rest -> frame_ok f ->
  flags = 3 \/ flags = 7 ->
  exists p', get_or_create_next_level frame_pool table idx flags p = Done f p' [] /\
    grown p p' [f] (set_entry table idx (f + flags) (zero_frame f (p_mem p))) /\
    pg_wf frame_pool p' /\ avail p' = rest.
Proof.
  intros E W V Hf Hk. unfold get_or_create_next_level. mstep. rewrite present_land, E.
  change (negb (present 0)) with true. cbv iota. mstep.
  match goal with |- context [bind (alloc_frame frame_pool) ?k ?p] =>
    destruct (alloc_bind frame_pool p _ _ k W V) as (p1 & E1 & G1 & W1 & V1); rewrite E1 end.
  rewrite lor_frame by (done || lia). rewrite upd_bind. mstep.
  cbn [with_mem p_mem]. rewrite entry_set_eq by (destruct Hf; lia).
  rewrite table_of_frame by (done || lia). eexists. split; [done|].
  pose proof (grown_mem _ _ _ _ _ G1) as ->. split; [by eapply grown_with|done].
Qed.

(** [map_user_page] with its first helper as an instance of the second. *)
Lemma map_user_page_eq pml4 va frame (p : paging F) :
  map_user_page frame_pool pml4 va frame p =
  (pdpt_t <- get_or_create_next_level frame_pool pml4 (vidx va 39) 0x03 ;;
   pd_t <- get_or_create_next_level frame_pool pdpt_t (vidx va 30) 0x07 ;;
   pt_t <- get_or_create_next_level frame_pool pd_t (vidx va 21) 0x07 ;;
   upd_pmem (set_entry pt_t (vidx va 12) (Z.lor frame 0x07))) p.
Proof. reflexivity. Qed.

Definition user_mem (k f4 f3 fc fs fd ft : Z) (m : mem) : mem :=
  set_entry ft 1 (fs + 7) (set_entry ft 0 (fc + 7)
  (set_entry fd 128 (ft + 7) (zero_frame ft
  (set_entry f3 1 (fd + 7) (zero_frame fd
  (copy_bytes user_program fc (zero_frame fs (zero_frame fc
  (set_entry f4 0 (f3 + 7) (inherit_mem k f3 (zero_frame f3 (zero_frame f4 m)))))))))))).

Lemma user_mem_only k f4 f3 fc fs fd ft m :
  k mod 4096 = 0 -> f3 mod 4096 = 0 -> k <> f3 ->
  only_frames [f4; f3; fc; fs; fd; ft] m (user_mem k f4 f3 fc fs fd ft m).
Proof. intros. unfold user_mem. repeat only_step. Qed.

(** Mapping a page whose upper levels exist sets one entry. *)
Lemma map_user_page_present p pml4 va frame f3 fd ft :
  entry (p_mem p) pml4 (vidx va 39) = f3 + 7 -> entry (p_mem p) f3 (vidx va 30) = fd + 7 ->
  entry (p_mem p) fd (vidx va 21) = ft + 7 -> Forall frame_ok [f3; fd; ft; frame] ->
  map_user_page frame_pool pml4 va frame p =
  Done tt (with_mem p (set_entry ft (vidx va 12) (frame + 7) (p_mem p))) [].
Proof.
  intros E4 E3 Ed Hok. rewrite !Forall_cons_iff in Hok. destruct Hok as (H3 & Hd & Ht & Hf & _).
  rewrite map_user_page_eq. rewrite (bind_done _ _ _ _ _ _ (goc_present p _ _ _ _ 7 E4 H3 ltac:(auto))).
  rewrite (bind_done _ _ _ _ _ _ (goc_present p _ _ _ _ 7 E3 Hd ltac:(auto))).
  rewrite (bind_done _ _ _ _ _ _ (goc_present p _ _ _ _ 7 Ed Ht ltac:(auto))).
  rewrite !add_trace_nil. rewrite lor_frame by (done || lia). done.
Qed.

(** Mapping a page in a gigabyte with no directory builds directory and table. *)
Lemma map_user_page_fresh p pml4 va frame f3 fd ft rest :
  pg_wf frame_pool p -> avail p = fd :: ft :: rest ->
  entry (p_mem p) pml4 (vidx va 39) = f3 + 7 -> entry (p_mem p) f3 (vidx va 30) = 0 ->
  Forall frame_ok [f3; fd; ft; frame] -> NoDup [pml4; f3; fd; ft] ->
  exists p', map_user_page frame_pool pml4 va frame p = Done tt p' [] /\
    grown p p' [fd; ft] (set_entry ft (vidx va 12) (frame + 7)
      (set_entry fd (vidx va 21) (ft + 7) (zero_frame ft
      (set_entry f3 (vidx va 30) (fd + 7) (zero_frame fd (p_mem p)))))) /\
    pg_wf frame_pool p' /\ avail p' = rest.
Proof.
  intros W V E4 E3 Hok Hnd. nodup_facts Hnd.
  rewrite !Forall_cons_iff in Hok. destruct Hok as (O3 & Od & Ot & Of & _).
  pose proof O3 as [A3 _]. pose proof Od as [Ad _]. pose proof (vidx_bound va 21 ltac:(lia)).
  pose proof (vidx_bound va 30 ltac:(lia)).
  rewrite map_user_page_eq. rewrite (bind_done _ _ _ _ _ _ (goc_present p _ _ _ _ 7 E4 O3 ltac:(auto))).
  rewrite add_trace_nil.
  destruct (goc_absent p f3 (vidx va 30) 7 fd _ E3 W V Od) as (p1 & R1 & G1 & W1 & V1); [by right|].
  rewrite (bind_done _ _ _ _ _ _ R1), add_trace_nil.
  pose proof (grown_mem _ _ _ _ _ G1) as M1.
  destruct (goc_absent p1 fd (vidx va 21) 7 ft rest) as (p2 & R2 & G2 & W2 & V2); try done; [|by right|].
  { rewrite M1. tbl. done. }
  rewrite (bind_done _ _ _ _ _ _ R2), add_trace_nil. rewrite lor_frame by (done || lia).
  pose proof (grown_mem _ _ _ _ _ G2) as M2. pose proof (grown_trans _ _ _ _ _ _ _ _ G1 G2) as G.
  exists (with_mem p2 (set_entry ft (vidx va 12) (frame + 7) (p_mem p2))).
  split; [done|]. rewrite M2, M1 in *. split; [by eapply grown_with|done].
Qed.

Lemma create_user_process_run p pds K f4 f3 fc fs fd ft rest :
  kmap frame_pool p pds K -> pd_of pds 1 = None ->
  avail p = [f4; f3; fc; fs; fd; ft] ++ rest -> Forall frame_ok [f4; f3; fc; fs; fd; ft] ->
  exists p', create_user_process frame_pool p = Done f4 p' [] /\
    grown p p' [f4; f3; fc; fs; fd; ft]
      (user_mem (kernel_pdpt p) f4 f3 fc fs fd ft (p_mem p)).
Proof.
  intros Hk Hno V Hok. destruct (kmap_fresh_frames _ _ _ _ _ _ Hk V) as (Hnd & Hn3 & A3 & _).
  pose proof (km_wf _ _ _ _ Hk) as W. pose proof (km_pdpt _ _ _ _ Hk 1 ltac:(lia)) as Hk1.
  rewrite Hno in Hk1.
  assert (NoDup [f4; f3; fd; ft]) as Hnd4.
  { eapply sublist_NoDup; [exact Hnd|]. repeat constructor. }
  nodup_facts Hnd. rewrite !elem_of_cons in Hn3. split_nots.
  rewrite !Forall_cons_iff in Hok. destruct Hok as (O4 & O3 & Oc & Os & Od & Ot & _).
  pose proof O4 as [A4 B4]. pose proof O3 as [A3' B3]. pose proof Oc as [Ac Bc].
  pose proof Os as [As Bs]. pose proof Od as [Ad Bd]. pose proof Ot as [At Bt].
  unfold create_user_process.
  match goal with |- context [bind (alloc_frame frame_pool) ?k ?p] =>
    destruct (alloc_bind frame_pool p _ _ k W V) as (p1 & -> & G1 & W1 & V1) end.
  match goal with |- context [bind (alloc_frame frame_pool) ?k ?p] =>
    destruct (alloc_bind frame_pool p _ _ k W1 V1) as (p2 & -> & G2 & W2 & V2) end.
  unfold inherit_kernel_pdpt. mstep. rewrite !upd_bind. rewrite lor_frame by (done || lia).
  set (q := with_mem (with_mem p2 _) _).
  pose proof (grown_trans _ _ _ _ _ _ _ _ G1 G2) as G12.
  assert (grown p q [f4; f3] (p_mem q)) as Gq by (do 2 eapply grown_with; exact G12).
  match goal with |- context [bind (alloc_frame frame_pool) ?k ?p] =>
    destruct (alloc_bind frame_pool q fc _ k W2 V2) as (p3 & -> & G3 & W3 & V3) end.
  match goal with |- context [bind (alloc_frame frame_pool) ?k ?p] =>
    destruct (alloc_bind frame_pool p3 fs _ k W3 V3) as (p4 & -> & G4 & W4 & V4) end.
  rewrite upd_bind. set (r := with_mem p4 _).
  pose proof (grown_trans _ _ _ _ _ _ _ _ (grown_trans _ _ _ _ _ _ _ _ Gq G3) G4) as G34.
  assert (grown p r [f4; f3; fc; fs] (p_mem r)) as Gr by (eapply grown_with; exact G34).
  assert (p_mem r = copy_bytes user_program fc (zero_frame fs (zero_frame fc
    (set_entry f4 0 (f3 + 7) (inherit_mem (kernel_pdpt p) f3 (zero_frame f3 (zero_frame f4 (p_mem p)))))))) as Mr.
  { unfold r. cbn [with_mem p_mem]. rewrite (grown_mem _ _ _ _ _ G4), (grown_mem _ _ _ _ _ G3).
    unfold q. cbn [with_mem p_mem]. rewrite (grown_mem _ _ _ _ _ G2), (grown_mem _ _ _ _ _ G1).
    destruct G12 as (_ & _ & -> & _). done. }
  assert (Z.of_nat (length user_program) <= 4096) as Hlen by (simpl; lia).
  destruct (map_user_page_fresh r f4 USER_CODE_VA fc f3 fd ft rest W4 V4) as (p5 & R5 & G5 & W5 & V5).
  { change (vidx USER_CODE_VA 39) with 0. rewrite Mr. tbl. done. }
  { change (vidx USER_CODE_VA 30) with 1. rewrite Mr. tbl. rewrite Hk1. by destruct (present 0). }
  { by do 4 (constructor; [done|]). }
  { done. }
  rewrite (bind_done _ _ _ _ _ _ R5), add_trace_nil. pose proof (grown_mem _ _ _ _ _ G5) as M5.
  change (vidx USER_CODE_VA 12) with 0 in M5. change (vidx USER_CODE_VA 21) with 128 in M5.
  change (vidx USER_CODE_VA 30) with 1 in M5. rewrite Mr in M5.
  rewrite (bind_done _ _ _ _ _ _ (map_user_page_present p5 f4 USER_STACK_PAGE_VA fs f3 fd ft
    ltac:(change (vidx USER_STACK_PAGE_VA 39) with 0; rewrite M5; tbl; done)
    ltac:(change (vidx USER_STACK_PAGE_VA 30) with 1; rewrite M5; tbl; done)
    ltac:(change (vidx USER_STACK_PAGE_VA 21) with 128; rewrite M5; tbl; done)
    ltac:(by do 4 (constructor; [done|])))), add_trace_nil.
  unfold ret. eexists. split; [done|]. change (vidx USER_STACK_PAGE_VA 12) with 1. rewrite M5.
  eapply grown_with. exact (grown_trans _ _ _ _ _ _ _ _ Gr G5).
Qed.

Definition user_space (K : Z -> Z) (f4 f3 fc fs fd ft : Z) : space :=
  mkSpace f4 [f4; f3; fd; ft] (private_xlat K true (user_page fc fs)).

Lemma user_mem_branch p pds K f4 f3 fc fs fd ft rest :
  kmap frame_pool p pds K -> avail p = [f4; f3; fc; fs; fd; ft] ++ rest ->
  Forall frame_ok [f4; f3; fc; fs; fd; ft] ->
  branch p (user_mem (kernel_pdpt p) f4 f3 fc fs fd ft (p_mem p)) 7 f4 f3 fd ft 128
    (fun i => if i =? 0 then Some fc else if i =? 1 then Some fs else None).
Proof.
  intros Hk V Hok. destruct (kmap_fresh_frames _ _ _ _ _ _ Hk V) as (Hnd & Hn3 & A3 & _).
  nodup_facts Hnd. rewrite !elem_of_cons in Hn3. split_nots.
  rewrite !Forall_cons_iff in Hok. destruct Hok as (O4 & O3 & Oc & Os & Od & Ot & _).
  pose proof O4 as [A4 B4]. pose proof O3 as [A3' B3]. pose proof Oc as [Ac Bc].
  pose proof Os as [As Bs]. pose proof Od as [Ad Bd]. pose proof Ot as [At Bt].
  assert (Z.of_nat (length user_program) <= 4096) as Hlen by (simpl; lia). unfold user_mem.
  split.
  - intros i Hi. destruct (Z.eqb_spec i 0) as [->|]; by tbl.
  - intros i Hi. destruct (Z.eqb_spec i 1) as [->|]; [by tbl|]. tbl. by eapply kpdpt_present.
  - intros i Hi. destruct (Z.eqb_spec i 128) as [->|]; by tbl.
  - intros i Hi. destruct (Z.eqb_spec i 0) as [->|]; [by tbl|].
    destruct (Z.eqb_spec i 1) as [->|]; by tbl.
  - by do 4 (constructor; [done|]).
  - intros i f. destruct (i =? 0); [by intros [= <-]|]. destruct (i =? 1); [by intros [= <-]|done].
  - by right.
  - clear_ne. lia.
Qed.

(** The outcome of [create_user_process], in full. *)
Lemma create_user_process_spec p pds K f4 f3 fc fs fd ft rest :
  kmap frame_pool p pds K -> pd_of pds 1 = None ->
  avail p = [f4; f3; fc; fs; fd; ft] ++ rest -> Forall frame_ok [f4; f3; fc; fs; fd; ft] ->
  exists p', create_user_process frame_pool p = Done f4 p' [] /\
    grown p p' [f4; f3; fc; fs; fd; ft] (p_mem p') /\ kmap frame_pool p' pds K /\
    only_frames [f4; f3; fc; fs; fd; ft] (p_mem p) (p_mem p') /\
    space_ok (p_mem p') (pds.*2) (user_space K f4 f3 fc fs fd ft) /\
    (forall i b, user_program !! i = Some b -> load8 (p_mem p') (fc + Z.of_nat i) = b).
Proof.
  intros Hk Hno V Hok. pose proof (user_mem_branch _ _ _ _ _ _ _ _ _ _ Hk V Hok) as Hb.
  destruct (create_user_process_run p pds K f4 f3 fc fs fd ft rest Hk Hno V Hok) as (p' & E & G).
  destruct (kmap_fresh_frames _ _ _ _ _ _ Hk V) as (Hnd & Hn3 & A3 & Hpd).
  assert (f3 mod 4096 = 0) as Af3 by (rewrite !Forall_cons_iff in Hok; unfold frame_ok in Hok; tauto).
  assert (kernel_pdpt p <> f3) as Hne by (intros <-; apply Hn3; rewrite !elem_of_cons; tauto).
  pose proof (user_mem_only (kernel_pdpt p) f4 f3 fc fs fd ft (p_mem p) A3 Af3 Hne) as Ho.
  assert (forall f, f ∈ [f4; f3; fc; fs; fd; ft] -> f mod 4096 = 0) as Hal.
  { intros f Hf. rewrite Forall_forall in Hok. by apply Hok. }
  exists p'. pose proof G as (M' & _). rewrite M'. split; [done|]. split; [done|].
  split; [by eapply kmap_grown|]. split; [done|]. split.
  - apply (branch_space frame_pool p pds K _ 7 f4 f3 fd ft 128
      (fun i => if i =? 0 then Some fc else if i =? 1 then Some fs else None)); try done.
    + intros i pd Hin. destruct (Hpd i pd Hin) as [Ap Np]. by eapply only_frames_same.
    + intros n Hn. unfold user_page. change (USER_CODE_VA / 2 ^ 12) with (2 ^ 18 + 2 ^ 16).
      change (USER_STACK_PAGE_VA / 2 ^ 12) with (2 ^ 18 + 2 ^ 16 + 1).
      destruct (Z.eqb_spec n (2 ^ 18 + 2 ^ 16)) as [->|]; [done|].
      destruct (Z.eqb_spec n (2 ^ 18 + 2 ^ 16 + 1)) as [->|]; [done|].
      destruct (Z.eqb_spec ((n / 512) mod 512) 128); [|done].
      destruct (Z.eqb_spec (n mod 512) 0); [dlia|]. destruct (Z.eqb_spec (n mod 512) 1); [dlia|done].
  - intros i b Hi. assert (0 <= b < 256 /\ (i < 14)%nat) as [Hb' Hi'].
    { split; [|by apply lookup_lt_Some in Hi]. do 14 (destruct i as [|i]; [injection Hi as <-; lia|]). done. }
    rewrite <- (copy_bytes_in user_program fc (zero_frame fs (zero_frame fc
      (set_entry f4 0 (f3 + 7) (inherit_mem (kernel_pdpt p) f3 (zero_frame f3 (zero_frame f4 (p_mem p))))))) i b Hi Hb').
    apply (load_same_on fc (fc + 4096)); [|lia|simpl; lia]. apply same_on_sym.
    nodup_facts Hnd.
    eapply (only_frames_same [ft; fd; f3]); [unfold user_mem; repeat only_step|..].
    + apply Hal. rewrite !elem_of_cons. tauto.
    + intros f Hf. apply Hal. rewrite !elem_of_cons in *. tauto.
    + rewrite !elem_of_cons, elem_of_nil. intros [?|[?|[?|[]]]]; congruence.
Qed.

End User.
