(* ===== verification/PagingTheorems.v ===== *)
(** * Page tables: theorems

    The kernel identity map, MMIO mappings, and the isolation of address spaces. *)

From S2P Require Import Prelude Memory Machine FrameSource Memmap MemmapProof MemmapTheorems.
From S2P Require Import Paging PagingSpec PagingProof PagingSpaces PagingUser.

Section Theorems.
Context {F : Type} {FO : FrameSourceOps F} {FS : FrameSource F}.
Context (frame_pool : Z).

(** The state at the first call: nothing allocated, no memory map yet. *)
Definition at_boot (p : paging F) : Prop :=
  pool_ok frame_pool /\ fs_is_active (p_source p) = false /\ next_frame p = 0.

Lemma boot_frames p : at_boot p ->
  pg_wf frame_pool p /\
  avail frame_pool p = frame_pool :: frame_pool + 4096 :: frame_pool + 8192 ::
    ((fun k => frame_pool + 4096 * k) <$> seqZ 3 61) /\
  Forall frame_ok [frame_pool; frame_pool + 4096; frame_pool + 8192].
Proof.
  intros (Hp & Ha & Hn). split_and!.
  - unfold pg_wf. rewrite Ha, Hn. by split_and!.
  - unfold avail. rewrite Ha, Hn. change (POOL_FRAMES - 0) with 64.
    change (seqZ 0 64) with (0 :: 1 :: 2 :: seqZ 3 61). rewrite !fmap_cons.
    by rewrite Z.mul_0_r, Z.add_0_r.
  - destruct Hp as (? & ? & ?). unfold POOL_FRAMES in *.
    repeat constructor; dlia.
Qed.

Lemma paging_init_at_boot p : at_boot p -> exists p',
  paging_init_kernel_map frame_pool p = Done tt p' [EInstr "mov cr3" (kernel_pml4 p')] /\
  kmap frame_pool p' [(0, frame_pool + 8192)] identity_1gb /\
  avail frame_pool p' = (fun k => frame_pool + 4096 * k) <$> seqZ 3 61.
Proof.
  intros Hb. destruct (boot_frames p Hb) as (W & V & O).
  destruct (paging_init_run frame_pool p _ _ _ _ W V O) as (p' & E & K4 & K3 & V' & W' & M').
  exists p'. rewrite K4. split; [done|]. split; [|done].
  by apply (paging_init_kmap frame_pool p p' frame_pool (frame_pool + 4096) (frame_pool + 8192)
    ((fun k => frame_pool + 4096 * k) <$> seqZ 3 61)).
Qed.

(** [paging_init_kernel_map] builds tables under which every
    address of the first gigabyte translates to itself, writable and for the
    supervisor only, and every other address is unmapped; it loads CR3 with their
    root. *)
Theorem paging_init_identity (p : paging F) :
  at_boot p -> exists p',
    paging_init_kernel_map frame_pool p = Done tt p' [EInstr "mov cr3" (kernel_pml4 p')] /\
    forall va, 0 <= va < 2 ^ 48 ->
      walk (p_mem p') (kernel_pml4 p') va =
      if va <? 2 ^ 30 then Some (mkXlat va true false false) else None.
Proof.
  intros (p' & E & Hk & _)%paging_init_at_boot. exists p'. split; [done|]. intros va Hva.
  destruct (kernel_walk _ _ _ _ va Hk Hva) as [-> _]. unfold kernel_xlat, identity_1gb.
  destruct (Z.leb_spec 0 (va / 2 ^ 21)); [|dlia].
  destruct (Z.ltb_spec va (2 ^ 30)), (Z.ltb_spec (va / 2 ^ 21) 512), (Z.ltb_spec va (2 ^ 39));
    try dlia; done.
Qed.

(** Mapping a 2 MB page of device registers makes exactly the
    addresses of that page translate to themselves, writable, supervisor-only and
    uncached; the translation of every other address stays as it was, whether or not
    a new page directory was needed. *)
Theorem paging_map_mmio_maps (p : paging F) pds K pa :
  kmap frame_pool p pds K -> 0 <= pa < 2 ^ 39 -> pa mod 2 ^ 21 = 0 ->
  (pd_of pds (pa / 2 ^ 30) = None -> exists f rest, avail frame_pool p = f :: rest /\ frame_ok f) ->
  exists p', paging_map_mmio_2mb frame_pool pa p = Done tt p' [] /\
    kernel_pml4 p' = kernel_pml4 p /\
    forall va, 0 <= va < 2 ^ 48 ->
      walk (p_mem p') (kernel_pml4 p') va =
      if (pa <=? va) && (va <? pa + 2 ^ 21) then Some (mkXlat va true false true)
      else walk (p_mem p) (kernel_pml4 p) va.
Proof.
  intros Hk Hpa Hal Hn. destruct (paging_map_mmio_run _ _ _ _ _ Hk Hpa Hal Hn) as (p' & pds' & E & Hk' & K4 & _).
  exists p'. split_and!; [done..|]. intros va Hva.
  destruct (kernel_walk _ _ _ _ va Hk' Hva) as [-> _]. destruct (kernel_walk _ _ _ _ va Hk Hva) as [-> _].
  unfold kernel_xlat, mmio_map.
  destruct (Z.leb_spec pa va), (Z.ltb_spec va (pa + 2 ^ 21)), (Z.eqb_spec (va / 2 ^ 21) (pa / 2 ^ 21));
    try dlia; cbn [andb negb]; try done.
  destruct (Z.ltb_spec va (2 ^ 39)); [done|dlia].
Qed.

(** The space [create_address_space] returns
    translates the demo page to a frame of its own (writable, supervisor), leaves the
    rest of the second gigabyte unmapped, and translates every other address, MMIO
    included, as the kernel map does; the kernel map itself is unchanged, and no
    byte outside the five frames it took is written. *)
Theorem create_address_space_correct (p : paging F) pds K f4 f3 fd ft fp rest :
  kmap frame_pool p pds K -> avail frame_pool p = [f4; f3; fd; ft; fp] ++ rest ->
  Forall frame_ok [f4; f3; fd; ft; fp] ->
  exists p', create_address_space frame_pool p = Done f4 p' [] /\
    avail frame_pool p' = rest /\ kmap frame_pool p' pds K /\
    only_frames [f4; f3; fd; ft; fp] (p_mem p) (p_mem p') /\
    forall va, 0 <= va < 2 ^ 48 ->
      walk (p_mem p') f4 va =
      if (DEMO_VA <=? va) && (va <? DEMO_VA + 4096) then Some (mkXlat (fp + (va - DEMO_VA)) true false false)
      else if va / 2 ^ 30 =? 1 then None
      else walk (p_mem p) (kernel_pml4 p) va.
Proof.
  intros Hk V Hok.
  destruct (create_address_space_spec _ _ _ _ _ _ _ _ _ _ Hk V Hok) as (p' & E & G & Hk' & Ho & Hs).
  exists p'. split; [done|]. split; [|split_and!; [done..|]].
  { by eapply grown_rest. }
  intros va Hva. destruct (Hs va Hva) as [Hw _]. cbn [sp_cr3 sp_xlat demo_space] in Hw.
  rewrite Hw. destruct (kernel_walk _ _ _ _ va Hk Hva) as [-> _]. unfold private_xlat, demo_page. change (DEMO_VA / 2 ^ 12) with (2 ^ 18).
  unfold DEMO_VA. destruct (Z.leb_spec 0x40000000 va), (Z.ltb_spec va (0x40000000 + 4096)),
    (Z.eqb_spec (va / 2 ^ 30) 1); try dlia; cbn [andb]; try done;
    destruct (Z.eqb_spec (va / 2 ^ 12) (2 ^ 18)); try dlia; try done.
  simpl. do 2 f_equal. dlia.
Qed.

(** C19: the process [create_user_process] builds can
    reach from ring 3 exactly its code page and its stack page, each in a frame of
    its own, and the code frame starts with the program; every other address, the
    kernel's included, is not accessible to it, while the kernel map is inherited for
    the supervisor. *)
Theorem create_user_process_correct (p : paging F) pds K f4 f3 fc fs fd ft rest :
  kmap frame_pool p pds K -> pd_of pds 1 = None ->
  avail frame_pool p = [f4; f3; fc; fs; fd; ft] ++ rest ->
  Forall frame_ok [f4; f3; fc; fs; fd; ft] ->
  exists p', create_user_process frame_pool p = Done f4 p' [] /\
    kmap frame_pool p' pds K /\ only_frames [f4; f3; fc; fs; fd; ft] (p_mem p) (p_mem p') /\
    (forall i b, user_program !! i = Some b -> load8 (p_mem p') (fc + Z.of_nat i) = b) /\
    forall va, 0 <= va < 2 ^ 48 ->
      walk (p_mem p') f4 va =
      if (USER_CODE_VA <=? va) && (va <? USER_CODE_VA + 4096)
      then Some (mkXlat (fc + (va - USER_CODE_VA)) true true false)
      else if (USER_STACK_PAGE_VA <=? va) && (va <? USER_STACK_TOP)
      then Some (mkXlat (fs + (va - USER_STACK_PAGE_VA)) true true false)
      else if va / 2 ^ 30 =? 1 then None
      else kernel_xlat K va.
Proof.
  intros Hk Hno V Hok.
  destruct (create_user_process_spec _ _ _ _ _ _ _ _ _ _ _ Hk Hno V Hok)
    as (p' & E & G & Hk' & Ho & Hs & Hprog).
  exists p'. split_and!; [done..|]. intros va Hva. destruct (Hs va Hva) as [Hw _].
  cbn [sp_cr3 sp_xlat user_space] in Hw. rewrite Hw. unfold private_xlat, user_page.
  change (USER_CODE_VA / 2 ^ 12) with 0x50000. change (USER_STACK_PAGE_VA / 2 ^ 12) with 0x50001.
  unfold USER_CODE_VA, USER_STACK_PAGE_VA, USER_STACK_TOP.
  destruct (Z.eqb_spec (va / 2 ^ 30) 1).
  - destruct (Z.eqb_spec (va / 2 ^ 12) 0x50000).
    { destruct (Z.leb_spec 0x50000000 va), (Z.ltb_spec va (0x50000000 + 4096)); try dlia.
      simpl. do 2 f_equal. dlia. }
    destruct (Z.leb_spec 0x50000000 va), (Z.ltb_spec va (0x50000000 + 4096)); cbn [andb]; try dlia;
    (destruct (Z.eqb_spec (va / 2 ^ 12) 0x50001);
     destruct (Z.leb_spec 0x50001000 va), (Z.ltb_spec va 0x50002000); cbn [andb]; try dlia; try done).
    simpl. do 2 f_equal. dlia.
  - destruct (Z.leb_spec 0x50000000 va), (Z.ltb_spec va (0x50000000 + 4096)); cbn [andb]; try dlia;
    destruct (Z.leb_spec 0x50001000 va), (Z.ltb_spec va 0x50002000); cbn [andb]; try dlia; done.
Qed.

(** ** Histories of address spaces *)

Section Histories.
Context (p0 : paging F) (pds : list (Z * Z)) (K : Z -> Z).
Context (Hk0 : kmap frame_pool p0 pds K) (Hno : pd_of pds 1 = None).

(** The spaces created since [p0], latest first, each with its private frames. *)
Inductive spaces : paging F -> list (space * list Z) -> Prop :=
| sp_none : spaces p0 []
| sp_demo p ss f4 f3 fd ft fp rest p' t :
    spaces p ss -> avail frame_pool p = [f4; f3; fd; ft; fp] ++ rest ->
    Forall frame_ok [f4; f3; fd; ft; fp] -> create_address_space frame_pool p = Done f4 p' t ->
    spaces p' ((demo_space K f4 f3 fd ft fp, [fp]) :: ss)
| sp_user p ss f4 f3 fc fs fd ft rest p' t :
    spaces p ss -> avail frame_pool p = [f4; f3; fc; fs; fd; ft] ++ rest ->
    Forall frame_ok [f4; f3; fc; fs; fd; ft] -> create_user_process frame_pool p = Done f4 p' t ->
    spaces p' ((user_space K f4 f3 fc fs fd ft, [fc; fs]) :: ss).

(** The second gigabyte of a space leads to its private frames only. *)
Definition private_ok (s : space) (fs : list Z) : Prop :=
  forall va x, 0 <= va < 2 ^ 48 -> va / 2 ^ 30 = 1 -> sp_xlat s va = Some x ->
    exists f, f ∈ fs /\ f <= x_pa x < f + 4096.

(** The frames a space owns: its tables and its private pages. *)
Definition space_frames (e : space * list Z) : list Z := sp_tables (fst e) ++ snd e.

Record spaces_inv (p : paging F) (ss : list (space * list Z)) : Prop := {
  si_kmap : kmap frame_pool p pds K;
  si_ok s fs : (s, fs) ∈ ss -> space_ok (p_mem p) (pds.*2) s /\ private_ok s fs;
  si_frames s fs t : (s, fs) ∈ ss -> t ∈ sp_tables s ++ fs -> t mod 4096 = 0 /\ t ∉ avail frame_pool p;
  si_shared s fs t : (s, fs) ∈ ss -> t ∈ sp_tables s ++ fs ->
    t ∉ kernel_pml4 p :: kernel_pdpt p :: pds.*2;
  si_nodup : NoDup (concat (space_frames <$> ss))
}.

Lemma spaces_add p p' ss s priv taken :
  spaces_inv p ss -> grown frame_pool p p' taken (p_mem p') ->
  only_frames taken (p_mem p) (p_mem p') -> kmap frame_pool p' pds K ->
  space_ok (p_mem p') (pds.*2) s -> private_ok s priv ->
  NoDup (sp_tables s ++ priv) -> (forall t, t ∈ sp_tables s ++ priv -> t ∈ taken) -> spaces_inv p' ((s, priv) :: ss).
Proof.
  intros [Hk Hok Hfr Hsh Hnd] (_ & P4 & P3 & V & _) Ho Hk' Hs Hp Hpn Ht.
  pose proof (avail_NoDup _ _ (km_wf _ _ _ _ Hk)) as Hav. rewrite V in Hav.
  apply NoDup_app in Hav as (_ & Hdis & _).
  assert (forall f, f ∈ taken -> f mod 4096 = 0) as Hal.
  { intros f Hf. apply (avail_aligned _ _ _ (km_wf _ _ _ _ Hk)). rewrite V, elem_of_app. tauto. }
  split; [done| | | |].
  - intros s' fs' [[= -> ->]|Hin]%elem_of_cons; [done|]. destruct (Hok _ _ Hin) as [Hs' Hp'].
    split; [|done]. apply (space_ok_frame (p_mem p) _ _ taken); try done.
    intros t [Ht'|Ht']%elem_of_app.
    + destruct (Hfr _ _ t Hin) as [? Hn]; [rewrite elem_of_app; tauto|]. split; [done|].
      intros Hi. apply Hn. rewrite V, elem_of_app. tauto.
    + pose proof (km_frames _ _ _ _ Hk) as Hf. rewrite Forall_forall in Hf.
      split; [apply Hf; by do 2 apply list_elem_of_further|]. intros Hi.
      apply (km_fresh _ _ _ _ Hk t); [by do 2 apply list_elem_of_further|]. rewrite V, elem_of_app. tauto.
  - intros s' fs' t [[= -> ->]|Hin]%elem_of_cons Ht'.
    + apply Ht in Ht'. split; [by apply Hal|by apply Hdis].
    + destruct (Hfr _ _ t Hin Ht') as [? Hn]. split; [done|]. intros Hi. apply Hn.
      rewrite V, elem_of_app. tauto.
  - rewrite P4, P3. intros s' fs' t [[= -> ->]|Hin]%elem_of_cons Ht'; [|by eapply Hsh].
    intros Hi. apply (km_fresh _ _ _ _ Hk t Hi). rewrite V, elem_of_app. left. by apply Ht.
  - rewrite fmap_cons. simpl. apply NoDup_app. split_and!; [done| |done]. intros f Hf Hc.
    apply list_elem_of_In, in_concat in Hc as (fs' & Hfs & Hf'). apply list_elem_of_In in Hfs, Hf'.
    apply list_elem_of_fmap in Hfs as ([s' fs''] & -> & Hin).
    destruct (Hfr _ _ f Hin Hf') as [_ Hn]. apply Hn.
    rewrite V, elem_of_app. left. by apply Ht.
Qed.

Lemma demo_private K' f4 f3 fd ft fp : private_ok (demo_space K' f4 f3 fd ft fp) [fp].
Proof.
  intros va x Hva H1. cbn [sp_xlat demo_space]. unfold private_xlat, demo_page. rewrite H1.
  cbn [Z.eqb Pos.eqb]. destruct (_ =? _); [|done]. intros [= <-]. exists fp. simpl.
  split; [apply list_elem_of_here|]. dlia.
Qed.

Lemma user_private K' f4 f3 fc fs fd ft : private_ok (user_space K' f4 f3 fc fs fd ft) [fc; fs].
Proof.
  intros va x Hva H1. cbn [sp_xlat user_space]. unfold private_xlat, user_page. rewrite H1.
  cbn [Z.eqb Pos.eqb]. destruct (_ =? _); [|destruct (_ =? _); [|done]]; intros [= <-];
    [exists fc|exists fs]; simpl; (split; [rewrite !elem_of_cons; tauto|dlia]).
Qed.

Lemma spaces_invariant p ss : spaces p ss -> spaces_inv p ss.
Proof.
  induction 1 as [|p ss f4 f3 fd ft fp rest p' t _ IH V Hok E|p ss f4 f3 fc fs fd ft rest p' t _ IH V Hok E].
  - split; [done|by intros ? ? ?%not_elem_of_nil|by intros ? ? ? ?%not_elem_of_nil..|constructor].
  - destruct (create_address_space_spec _ _ _ _ _ _ _ _ _ _ (si_kmap _ _ IH) V Hok)
      as (q & E' & G & Hk & Ho & Hs). rewrite E in E'. injection E' as <- _.
    destruct (kmap_fresh_frames _ _ _ _ _ _ (si_kmap _ _ IH) V) as (Hnd & _).
    apply (spaces_add p p' ss _ _ [f4; f3; fd; ft; fp] IH G Ho Hk Hs); [apply demo_private|done|].
    intros t'. simpl. rewrite !elem_of_cons. tauto.
  - destruct (create_user_process_spec _ _ _ _ _ _ _ _ _ _ _ (si_kmap _ _ IH) Hno V Hok)
      as (q & E' & G & Hk & Ho & Hs & _). rewrite E in E'. injection E' as <- _.
    destruct (kmap_fresh_frames _ _ _ _ _ _ (si_kmap _ _ IH) V) as (Hnd & _).
    apply (spaces_add p p' ss _ _ [f4; f3; fc; fs; fd; ft] IH G Ho Hk Hs); [apply user_private| |].
    + eapply NoDup_Permutation_proper; [|exact Hnd]. cbn [sp_tables user_space app]. solve_Permutation.
    + intros t'. simpl. rewrite !elem_of_cons. tauto.
Qed.

End Histories.

(** C17: after any sequence of [create_address_space] and
    [create_user_process], each space still translates as it did when it was created,
    and two different spaces never reach the same physical byte through the private
    part of their address space. *)
Theorem address_spaces_isolated (p0 p : paging F) pds K ss i j s fs s' fs' :
  kmap frame_pool p0 pds K -> pd_of pds 1 = None -> spaces p0 K p ss ->
  ss !! i = Some (s, fs) -> ss !! j = Some (s', fs') -> i <> j ->
  (forall va, 0 <= va < 2 ^ 48 -> walk (p_mem p) (sp_cr3 s) va = sp_xlat s va) /\
  (forall va va' x x', 0 <= va < 2 ^ 48 -> 0 <= va' < 2 ^ 48 -> va / 2 ^ 30 = 1 -> va' / 2 ^ 30 = 1 ->
     walk (p_mem p) (sp_cr3 s) va = Some x -> walk (p_mem p) (sp_cr3 s') va' = Some x' ->
     x_pa x <> x_pa x').
Proof.
  intros Hk Hno Hr Hi Hj Hne. pose proof (spaces_invariant p0 pds K Hk Hno p ss Hr) as [Hk' Hok Hfr _ Hnd].
  pose proof (list_elem_of_lookup_2 _ _ _ Hi) as Ii. pose proof (list_elem_of_lookup_2 _ _ _ Hj) as Ij.
  destruct (Hok _ _ Ii) as [Hs Hp]. destruct (Hok _ _ Ij) as [Hs' Hp'].
  split; [intros va Hva; by destruct (Hs va Hva)|].
  intros va va' x x' Hva Hva' H1 H1' Hx Hx' Heq.
  destruct (Hs va Hva) as [Hw _]. destruct (Hs' va' Hva') as [Hw' _]. rewrite Hx in Hw. rewrite Hx' in Hw'.
  destruct (Hp va x Hva H1 (eq_sym Hw)) as (f & Hf & Hfx).
  destruct (Hp' va' x' Hva' H1' (eq_sym Hw')) as (f' & Hf' & Hfx').
  assert (f = f') as <-.
  { destruct (Hfr _ _ f Ii) as [Af _]; [rewrite elem_of_app; tauto|].
    destruct (Hfr _ _ f' Ij) as [Af' _]; [rewrite elem_of_app; tauto|]. dlia. }
  apply list_elem_of_lookup in Hf as [a Ha]. apply list_elem_of_lookup in Hf' as [b Hb].
  apply Hne.
  apply (concat_NoDup_inj (space_frames <$> ss) i j (space_frames (s, fs)) (space_frames (s', fs')) f);
    rewrite ?list_lookup_fmap, ?Hi, ?Hj; try done;
    unfold space_frames; rewrite elem_of_app; right; by eapply list_elem_of_lookup_2.
Qed.
End Theorems.

(** ** Concrete runs from boot, with the pool at 4 MB *)

Definition demo_pool : Z := 0x400000.
Definition demo_paging : paging memmap := mkPaging (fun _ => 0) 0 0 0 memmap_boot.

Lemma demo_at_boot : at_boot demo_pool demo_paging.
Proof. unfold at_boot, pool_ok, demo_pool, POOL_FRAMES. simpl. split_and!; done || lia. Qed.

Lemma paging_init_identity_witness : exists p',
  paging_init_kernel_map demo_pool demo_paging = Done tt p' [EInstr "mov cr3" (kernel_pml4 p')] /\
  walk (p_mem p') (kernel_pml4 p') 0xB8000 = Some (mkXlat 0xB8000 true false false).
Proof.
  destruct (paging_init_identity demo_pool demo_paging demo_at_boot) as (p' & E & H).
  exists p'. split; [done|]. by rewrite H by lia.
Defined.

(** The frames of the pool after the kernel map is built. *)
Lemma demo_after_init : exists p : paging memmap,
  kmap demo_pool p [(0, demo_pool + 8192)] identity_1gb /\
  avail demo_pool p = ((fun k => demo_pool + 4096 * k) <$> seqZ 3 61).
Proof.
  destruct (paging_init_at_boot demo_pool demo_paging demo_at_boot) as (p' & _ & H). by exists p'.
Qed.

Lemma demo_frame_ok k : 0 <= k < 64 -> frame_ok (demo_pool + 4096 * k).
Proof. intros Hk. unfold frame_ok, demo_pool. dlia. Qed.

Lemma demo_frames_ok (l : list Z) :
  Forall (fun k => 0 <= k < 64) l -> Forall frame_ok ((fun k => demo_pool + 4096 * k) <$> l).
Proof. induction 1; constructor; [by apply demo_frame_ok|done]. Qed.

Lemma paging_map_mmio_maps_witness : exists p p' : paging memmap,
  paging_map_mmio_2mb demo_pool 0xFEE00000 p = Done tt p' [] /\
  walk (p_mem p') (kernel_pml4 p') 0xFEE000B0 = Some (mkXlat 0xFEE000B0 true false true).
Proof.
  destruct demo_after_init as (p & Hk & V).
  destruct (paging_map_mmio_maps demo_pool p _ _ 0xFEE00000 Hk ltac:(lia) eq_refl) as (p' & E & _ & H).
  - intros _. rewrite V. by eexists _, _; split; [|apply (demo_frame_ok 3)].
  - exists p, p'. split; [done|]. by rewrite H by lia.
Defined.

Lemma create_address_space_correct_witness : exists p p' : paging memmap,
  create_address_space demo_pool p = Done (demo_pool + 4096 * 3) p' [] /\
  walk (p_mem p') (demo_pool + 4096 * 3) (DEMO_VA + 8) =
    Some (mkXlat (demo_pool + 4096 * 7 + 8) true false false) /\
  walk (p_mem p') (demo_pool + 4096 * 3) (DEMO_VA + 4096) = None.
Proof.
  destruct demo_after_init as (p & Hk & V).
  destruct (create_address_space_correct demo_pool p _ _ _ _ _ _ _ _ Hk V) as (p' & E & _ & _ & _ & H).
  - apply (demo_frames_ok [3; 4; 5; 6; 7]). by repeat constructor.
  - exists p, p'. split; [done|]. rewrite !H by (unfold DEMO_VA; lia). done.
Defined.

Lemma create_user_process_correct_witness : exists p p' : paging memmap,
  create_user_process demo_pool p = Done (demo_pool + 4096 * 3) p' [] /\
  walk (p_mem p') (demo_pool + 4096 * 3) USER_CODE_VA =
    Some (mkXlat (demo_pool + 4096 * 5 + 0) true true false) /\
  walk (p_mem p') (demo_pool + 4096 * 3) 0x100000 = Some (mkXlat 0x100000 true false false).
Proof.
  destruct demo_after_init as (p & Hk & V).
  destruct (create_user_process_correct demo_pool p _ _ _ _ _ _ _ _ _ Hk eq_refl V)
    as (p' & E & _ & _ & _ & H).
  - apply (demo_frames_ok [3; 4; 5; 6; 7; 8]). by repeat constructor.
  - exists p, p'. split; [done|]. rewrite !H by (unfold USER_CODE_VA; lia). done.
Defined.

Lemma address_spaces_isolated_witness : exists (p : paging memmap) s s',
  sp_cr3 s <> sp_cr3 s' /\
  forall va va' x x', 0 <= va < 2 ^ 48 -> 0 <= va' < 2 ^ 48 -> va / 2 ^ 30 = 1 -> va' / 2 ^ 30 = 1 ->
     walk (p_mem p) (sp_cr3 s) va = Some x -> walk (p_mem p) (sp_cr3 s') va' = Some x' ->
     x_pa x <> x_pa x'.
Proof.
  destruct demo_after_init as (p0 & Hk & V).
  assert (Forall frame_ok ((fun k => demo_pool + 4096 * k) <$> [3; 4; 5; 6; 7])) as O1
    by (apply demo_frames_ok; by repeat constructor).
  assert (Forall frame_ok ((fun k => demo_pool + 4096 * k) <$> [8; 9; 10; 11; 12; 13])) as O2
    by (apply demo_frames_ok; by repeat constructor).
  destruct (create_address_space_spec demo_pool p0 _ _ _ _ _ _ _ _ Hk V O1)
    as (p1 & E1 & G1 & Hk1 & _ & _).
  pose proof (grown_rest _ _ _ _ _ _ G1 V) as V1.
  destruct (create_user_process_spec demo_pool p1 _ _ _ _ _ _ _ _ _ Hk1 eq_refl V1 O2)
    as (p2 & E2 & _).
  pose proof (sp_none demo_pool p0 identity_1gb) as S0.
  eapply sp_demo in S0; [|exact V|exact O1|exact E1].
  eapply sp_user in S0; [|exact V1|exact O2|exact E2].
  eexists p2, _, _. split; [|exact (proj2 (address_spaces_isolated demo_pool p0 p2 _ _ _ 0 1 _ _ _ _
    Hk eq_refl S0 eq_refl eq_refl (Nat.neq_0_succ 0)))]. done.
Defined.
