(* ===== verification/AddressSpaces.v ===== *)
(** * Address spaces as seen by the scheduler

    [sched64_create_thread] asks paging64.c for an address space and writes the
    thread's first stack frame through the identity map.  [AddressSpaces] is that
    interface: the state with its memory, and the operation. *)

From S2P Require Import Prelude Memory Machine FrameSource Paging.

Class AddressSpaces (P : Type) := {
  as_create : M P Z;
  as_mem : P -> mem;
  as_set_mem : mem -> P -> P
}.

(** Writing memory and reading it back. *)
Class AddressSpacesLaws (P : Type) `{AddressSpaces P} := {
  as_mem_set m s : as_mem (as_set_mem m s) = m
}.

Section Instance.
Context {F : Type} {FO : FrameSourceOps F} (frame_pool : Z).

#[export] Instance paging_spaces : AddressSpaces (paging F) := {|
  as_create := create_address_space frame_pool;
  as_mem := p_mem;
  as_set_mem m s := mkPaging m (next_frame s) (kernel_pml4 s) (kernel_pdpt s) (p_source s)
|}.

#[export] Instance paging_spaces_laws : AddressSpacesLaws (paging F).
Proof. by split. Qed.
End Instance.
