(* ===== verification/Sched64.v ===== *)
(** * sched64.c: the preemptive scheduler

    Threads are entries of a static array and are named by their index; a thread
    pointer is an option of an index ([NULL] is [None]).  The threads of one priority
    form a ring through [next]; [ready_queue] points into it.  Every operation takes
    the index of the CPU it runs on ([get_cpu_index()]).

    [context_switch64] (context_switch64.s) is modelled by its effect on the stack
    pointers: the [call] and its seven pushes move the old stack down by 64 bytes,
    the pops and the [ret] move the new one up by 64.  A reschedule is seen from the
    CPU that executes it: what follows the switch on that CPU is the call of
    [NKern_UnlockAfterSwitch], in [thread_start64] for a new thread and after
    [context_switch64] for a resumed one. *)

From S2P Require Import Prelude Memory Machine KernLock NKern AddressSpaces.

Definition MAX_THREADS64 : nat := 16.
Definition NUM_PRIORITIES64 : nat := 8.
Definition STACK_SIZE64 : Z := 8192.
Definition MAX_SCHED_CPUS : nat := 16.

(** Layout of [thread64_t]: [stack] at offset 32, [name] and [next] after it. *)
Definition stack_offset : Z := 32.
Definition sizeof_thread64 : Z := 8240.

Inductive thread64_state := T64_UNUSED | T64_READY | T64_RUNNING.

#[export] Instance thread64_state_eq_dec : EqDecision thread64_state.
Proof. solve_decision. Defined.

Record thread64 := mkThread {
  rsp : Z;
  cr3 : Z;
  priority : Z;
  state : thread64_state;
  time_slice : Z;
  name : string;
  next : option nat
}.

Definition thread_zero : thread64 := mkThread 0 0 0 T64_UNUSED 0 "" None.

Definition set_rsp (v : Z) (t : thread64) : thread64 :=
  mkThread v (cr3 t) (priority t) (state t) (time_slice t) (name t) (next t).
Definition set_state (v : thread64_state) (t : thread64) : thread64 :=
  mkThread (rsp t) (cr3 t) (priority t) v (time_slice t) (name t) (next t).
Definition set_slice (v : Z) (t : thread64) : thread64 :=
  mkThread (rsp t) (cr3 t) (priority t) (state t) v (name t) (next t).
Definition set_nxt (v : option nat) (t : thread64) : thread64 :=
  mkThread (rsp t) (cr3 t) (priority t) (state t) (time_slice t) (name t) v.

(** [pos] from 31 down to a set bit. *)
Definition find_highest_bit64 (bitmap : Z) : Z :=
  if bitmap =? 0 then -1
  else (fix down (n : nat) : Z :=
          match n with
          | O => 0
          | S n' => if Z.land bitmap (u32 (Z.shiftl 1 (Z.of_nat n))) =? 0 then down n' else Z.of_nat n
          end) 31%nat.

Section Sched.
Context {P : Type} {AS : AddressSpaces P}.

(** Link-time addresses of [threads64] and [thread_start64]. *)
Context (threads64_addr thread_start64 : Z).

Record sched := mkSched {
  ready_bitmap : Z;
  ready_queue : list (option nat);
  current : list (option nat);
  threads64 : list thread64;
  thread64_count : nat;
  loaded_cr3 : list Z;
  dummy_rsp : list Z;
  cpu_rsp : list Z;           (* the stack pointer register of each CPU *)
  s_space : P;
  s_lock : nkern
}.

Definition queue_head (p : nat) (s : sched) : option nat := nth p (ready_queue s) None.
Definition running (c : nat) (s : sched) : option nat := nth c (current s) None.
Definition thr (i : nat) (s : sched) : thread64 := nth i (threads64 s) thread_zero.

Definition set_queue (p : nat) (h : option nat) (s : sched) : sched :=
  mkSched (ready_bitmap s) (<[p:=h]> (ready_queue s)) (current s) (threads64 s) (thread64_count s)
    (loaded_cr3 s) (dummy_rsp s) (cpu_rsp s) (s_space s) (s_lock s).
Definition set_bitmap (b : Z) (s : sched) : sched :=
  mkSched b (ready_queue s) (current s) (threads64 s) (thread64_count s)
    (loaded_cr3 s) (dummy_rsp s) (cpu_rsp s) (s_space s) (s_lock s).
Definition set_current (c : nat) (h : option nat) (s : sched) : sched :=
  mkSched (ready_bitmap s) (ready_queue s) (<[c:=h]> (current s)) (threads64 s) (thread64_count s)
    (loaded_cr3 s) (dummy_rsp s) (cpu_rsp s) (s_space s) (s_lock s).
Definition upd_thread (i : nat) (f : thread64 -> thread64) (s : sched) : sched :=
  mkSched (ready_bitmap s) (ready_queue s) (current s) (<[i:=f (thr i s)]> (threads64 s))
    (thread64_count s) (loaded_cr3 s) (dummy_rsp s) (cpu_rsp s) (s_space s) (s_lock s).
Definition set_threads (n : nat) (s : sched) : sched :=
  mkSched (ready_bitmap s) (ready_queue s) (current s) (threads64 s) n
    (loaded_cr3 s) (dummy_rsp s) (cpu_rsp s) (s_space s) (s_lock s).
Definition set_loaded_cr3 (c : nat) (v : Z) (s : sched) : sched :=
  mkSched (ready_bitmap s) (ready_queue s) (current s) (threads64 s) (thread64_count s)
    (<[c:=v]> (loaded_cr3 s)) (dummy_rsp s) (cpu_rsp s) (s_space s) (s_lock s).
Definition set_dummy (c : nat) (v : Z) (s : sched) : sched :=
  mkSched (ready_bitmap s) (ready_queue s) (current s) (threads64 s) (thread64_count s)
    (loaded_cr3 s) (<[c:=v]> (dummy_rsp s)) (cpu_rsp s) (s_space s) (s_lock s).
Definition set_cpu_rsp (c : nat) (v : Z) (s : sched) : sched :=
  mkSched (ready_bitmap s) (ready_queue s) (current s) (threads64 s) (thread64_count s)
    (loaded_cr3 s) (dummy_rsp s) (<[c:=v]> (cpu_rsp s)) (s_space s) (s_lock s).
Definition set_space (p : P) (s : sched) : sched :=
  mkSched (ready_bitmap s) (ready_queue s) (current s) (threads64 s) (thread64_count s)
    (loaded_cr3 s) (dummy_rsp s) (cpu_rsp s) p (s_lock s).
Definition set_klock (k : nkern) (s : sched) : sched :=
  mkSched (ready_bitmap s) (ready_queue s) (current s) (threads64 s) (thread64_count s)
    (loaded_cr3 s) (dummy_rsp s) (cpu_rsp s) (s_space s) k.

Definition in_space {A} (m : M P A) : M sched A := zoom s_space set_space m.
Definition in_lock {A} (m : M nkern A) : M sched A := zoom s_lock set_klock m.

Definition sched64_init : M sched unit := modify (fun s =>
  mkSched 0 (replicate NUM_PRIORITIES64 None) (replicate MAX_SCHED_CPUS None) (threads64 s) 0
    (loaded_cr3 s) (dummy_rsp s) (cpu_rsp s) (s_space s) (s_lock s)).

(** ** Creating a thread *)

Definition stack_top (i : nat) : Z :=
  threads64_addr + sizeof_thread64 * Z.of_nat i + stack_offset + STACK_SIZE64.

(** The first frame, written downwards from the top of the stack. *)
Definition first_frame (entry sp : Z) (m : mem) : mem * Z :=
  let sp := sp - 8 in
  let sp := sp - 8 in let m := store64 m sp entry in
  let sp := sp - 8 in let m := store64 m sp thread_start64 in
  let sp := sp - 8 in let m := store64 m sp 0x202 in
  let sp := sp - 8 * 6 in
  (fill64 6 m sp (fun _ => 0), sp).

(** [while (tail->next != head) tail = tail->next] over at most all threads. *)
Fixpoint find_tail (fuel : nat) (ths : list thread64) (head tail : nat) : option nat :=
  match fuel with
  | O => None
  | S n =>
      let nx := next (nth tail ths thread_zero) in
      if decide (nx = Some head) then Some tail
      else match nx with Some t => find_tail n ths head t | None => None end
  end.

Definition enqueue (i p : nat) : M sched unit :=
  s <- get ;;
  match queue_head p s with
  | None =>
      modify (upd_thread i (set_nxt (Some i))) ;;;
      modify (set_queue p (Some i))
  | Some head =>
      match find_tail (S MAX_THREADS64) (threads64 s) head head with
      | None => hang
      | Some tail =>
          modify (upd_thread tail (set_nxt (Some i))) ;;;
          modify (upd_thread i (set_nxt (Some head)))
      end
  end.

Definition sched64_create_thread (entry prio : Z) (nm : string) : M sched (option nat) :=
  s <- get ;;
  if (MAX_THREADS64 <=? thread64_count s)%nat || (Z.of_nat NUM_PRIORITIES64 <=? prio) then ret None else
  let i := thread64_count s in
  modify (set_threads (S i)) ;;;
  modify (upd_thread i (fun t => mkThread (rsp t) (cr3 t) prio T64_READY 5 nm (next t))) ;;;
  space <- in_space as_create ;;
  modify (upd_thread i (fun t =>
    mkThread (rsp t) space (priority t) (state t) (time_slice t) (name t) (next t))) ;;;
  s <- get ;;
  let (m, sp) := first_frame entry (stack_top i) (as_mem (s_space s)) in
  modify (set_space (as_set_mem m (s_space s))) ;;;
  modify (upd_thread i (set_rsp sp)) ;;;
  enqueue i (Z.to_nat prio) ;;;
  modify (fun s => set_bitmap (u32 (Z.lor (ready_bitmap s) (Z.shiftl 1 prio))) s) ;;;
  ret (Some i).

(** ** Switching *)

Definition context_switch64 (c : nat) (prev : option nat) (new_rsp : Z) : M sched unit :=
  s <- get ;;
  let saved := u64 (nth c (cpu_rsp s) 0 - 64) in
  modify (match prev with
          | Some i => upd_thread i (set_rsp saved)
          | None => set_dummy c saved
          end) ;;;
  modify (set_cpu_rsp c (u64 (new_rsp + 64))).

(** Lines 109-132: make [nx] the running thread of CPU [c] instead of [prev]. *)
Definition switch_to (c nx : nat) (prev : option nat) : M sched unit :=
  modify (set_current c (Some nx)) ;;;
  modify (upd_thread nx (set_state T64_RUNNING)) ;;;
  (match prev with
   | Some p => modify (upd_thread p (set_state T64_READY))
   | None => ret tt
   end) ;;;
  s <- get ;;
  let space := cr3 (thr nx s) in
  let need_cr3_switch := negb (space =? nth c (loaded_cr3 s) 0) in
  (if need_cr3_switch then modify (set_loaded_cr3 c space) else ret tt) ;;;
  (if need_cr3_switch then instr "mov cr3" space else ret tt) ;;;
  s <- get ;;
  context_switch64 c prev (rsp (thr nx s)).

Definition sched64_reschedule (c : nat) : M sched unit :=
  in_lock (NKern_LockForSwitch c) ;;;
  s <- get ;;
  let prio := find_highest_bit64 (ready_bitmap s) in
  if prio <? 0 then in_lock (NKern_UnlockAfterSwitch c) else
  let p := Z.to_nat prio in
  match queue_head p s with
  | None => hang                        (* head is dereferenced *)
  | Some head =>
      let prev := running c s in
      let nx := next (thr head s) in
      let rotate := bool_decide (Some head = prev) && negb (bool_decide (nx = Some head)) in
      match (if rotate then nx else Some head) with
      | None => hang
      | Some nxt =>
          (if rotate then modify (set_queue p (Some nxt)) else ret tt) ;;;
          if decide (Some nxt = prev) then in_lock (NKern_UnlockAfterSwitch c)
          else
            switch_to c nxt prev ;;;
            in_lock (NKern_UnlockAfterSwitch c)
      end
  end.

Definition sched64_timer_tick (c : nat) : M sched unit :=
  s <- get ;;
  match running c s with
  | None => ret tt
  | Some cur =>
      let ts := time_slice (thr cur s) in
      if 0 <? ts then
        modify (upd_thread cur (set_slice (ts - 1))) ;;;
        if ts - 1 =? 0 then
          modify (upd_thread cur (set_slice 5)) ;;;
          s <- get ;;
          if NKern_IsLocked c (s_lock s) then in_lock (NKern_RequestReschedule c)
          else sched64_reschedule c
        else ret tt
      else ret tt
  end.

End Sched.
Arguments sched P : clear implicits.
Arguments mkSched {P} _ _ _ _ _ _ _ _ _ _.
