(* ===== verification/Sched64Spec.v ===== *)
(** * Scheduler: rings and the abstract scheduler

    The threads of one priority as a list, what it means for the [next] pointers to
    form a ring over it, and the invariant of the scheduler state. *)

From S2P Require Import Prelude Memory Machine KernLock NKern AddressSpaces Sched64.

(** ** Highest set bit *)

Definition down (bitmap : Z) : nat -> Z :=
  fix down (n : nat) : Z :=
    match n with
    | O => 0
    | S n' => if Z.land bitmap (u32 (Z.shiftl 1 (Z.of_nat n))) =? 0 then down n' else Z.of_nat n
    end.

Lemma down_spec b n :
  (n < 32)%nat -> 0 < b < 2 ^ (Z.of_nat n + 1) -> down b n = Z.log2 b.
Proof.
  induction n as [|n IH]; intros Hn Hb.
  - simpl in *. assert (b = 1) as -> by lia. done.
  - cbn [down]. rewrite Z.shiftl_1_l, u32_small by (split; [lia|apply Z.pow_lt_mono_r; lia]).
    destruct (Z.eqb_spec (Z.land b (2 ^ Z.of_nat (S n))) 0) as [E|E].
    + apply IH; [lia|]. split; [lia|]. apply land_bit_zero in E; [|lia].
      destruct (Z.lt_ge_cases b (2 ^ (Z.of_nat n + 1))) as [|Hge]; [done|].
      assert (Z.log2 b = Z.of_nat (S n)) as Hl.
      { apply Z.log2_unique; [lia|]. replace (Z.succ (Z.of_nat (S n))) with (Z.of_nat (S n) + 1) by lia.
        replace (Z.of_nat (S n)) with (Z.of_nat n + 1) at 1 by lia. lia. }
      rewrite <- Hl, Z.bit_log2 in E by lia. done.
    + assert (Z.testbit b (Z.of_nat (S n)) = true) as Ht.
      { destruct (Z.testbit b (Z.of_nat (S n))) eqn:E'; [done|]. apply land_bit_zero in E'; [done|lia]. }
      assert (2 ^ Z.of_nat (S n) <= b) as Hge.
      { destruct (Z.le_gt_cases (2 ^ Z.of_nat (S n)) b) as [|Hlt]; [done|].
        rewrite Z.bits_above_log2 in Ht; [done|lia|]. apply Z.log2_lt_pow2; lia. }
      symmetry. apply Z.log2_unique; [lia|].
      replace (Z.succ (Z.of_nat (S n))) with (Z.of_nat (S n) + 1) by lia. lia.
Qed.

Lemma find_highest_bit64_run b :
  0 <= b < 2 ^ 32 -> find_highest_bit64 b = if b =? 0 then -1 else Z.log2 b.
Proof.
  intros Hb. unfold find_highest_bit64. destruct (Z.eqb_spec b 0); [done|].
  apply (down_spec b 31); [lia|]. change (2 ^ (Z.of_nat 31 + 1)) with (2 ^ 32). lia.
Qed.

(** ** Rings *)

(** The links along [l] lead from each element to the next and from the last to [e]. *)
Fixpoint path (nxt : nat -> option nat) (l : list nat) (e : nat) : Prop :=
  match l with
  | [] => True
  | x :: l' => nxt x = Some (hd e l') /\ path nxt l' e
  end.

Definition ring (nxt : nat -> option nat) (l : list nat) : Prop :=
  match l with [] => True | h :: _ => path nxt l h end.

Lemma path_app nxt l1 l2 e : path nxt (l1 ++ l2) e <-> path nxt l1 (hd e l2) /\ path nxt l2 e.
Proof.
  induction l1 as [|x l1 IH]; simpl; [tauto|]. rewrite IH.
  destruct l1 as [|y l1]; simpl; tauto.
Qed.

Lemma path_ext nxt nxt' l e : (forall x, x ∈ l -> nxt' x = nxt x) -> path nxt l e -> path nxt' l e.
Proof.
  induction l as [|x l IH]; simpl; [done|]. intros H [H1 H2].
  split; [rewrite H by apply list_elem_of_here; done|]. apply IH; [|done].
  intros y Hy. apply H. by apply list_elem_of_further.
Qed.

Lemma ring_rotate nxt x l : ring nxt (x :: l) -> ring nxt (l ++ [x]).
Proof.
  destruct l as [|y l]; [done|]. simpl. intros [H1 H2]. split.
  - destruct H2 as [H2 _]. rewrite H2. by destruct l.
  - destruct H2 as [_ H2]. apply path_app. simpl. auto.
Qed.

(** Appending [i] to a ring whose last element is [t]. *)
Lemma ring_insert nxt nxt' l t i :
  ring nxt (l ++ [t]) -> NoDup (l ++ [t]) -> i ∉ l ++ [t] ->
  (forall x, x <> t -> x <> i -> nxt' x = nxt x) -> nxt' t = Some i ->
  nxt' i = Some (hd t l) -> ring nxt' (l ++ [t; i]).
Proof.
  intros Hr Hnd Hi Hx Ht Hi'.
  assert (path nxt (l ++ [t]) (hd t l)) as Hp by (by destruct l).
  assert (path nxt' (l ++ [t; i]) (hd t l)) as Hp'; [|by destruct l].
  apply path_app in Hp as [Hp _]. apply path_app. simpl in *. split_and!; try done.
  apply (path_ext nxt); [|done]. intros x Hxl. apply NoDup_app in Hnd as (_ & Hnd & _).
  apply Hx; intros ->; [by apply (Hnd t Hxl), list_elem_of_here|]. apply Hi. rewrite elem_of_app. by left.
Qed.

Lemma find_tail_run ths h l : forall fuel x,
  path (fun i => next (nth i ths thread_zero)) (x :: l) h -> h ∉ l -> (length l < fuel)%nat ->
  find_tail fuel ths h x = last (x :: l).
Proof.
  induction l as [|y l IH]; intros fuel x Hp Hh Hf; (destruct fuel as [|fuel]; [simpl in *; lia|]).
  - destruct Hp as [H1 _]. simpl in *. rewrite H1. by rewrite decide_True.
  - destruct Hp as [H1 Hp]. cbn [find_tail]. rewrite H1. cbn [hd].
    apply not_elem_of_cons in Hh as [Hy Hh]. rewrite decide_False by congruence.
    rewrite (IH fuel y); [done|done|done|simpl in *; lia].
Qed.

(** ** The abstract scheduler *)

Definition rotate (l : list nat) : list nat :=
  match l with [] => [] | x :: l' => l' ++ [x] end.

(** The highest priority with a thread. *)
Definition top_prio (rings : nat -> list nat) : option nat :=
  List.find (fun p => match rings p with [] => false | _ => true end) [7; 6; 5; 4; 3; 2; 1; 0]%nat.

(** The ring of the top priority after a reschedule on a CPU that runs [cur]: it turns
    by one when [cur] is its first thread. *)
Definition turned (l : list nat) (cur : option nat) : list nat :=
  if decide (head l = cur) then rotate l else l.

Definition upd_ring (rings : nat -> list nat) (p : nat) (l : list nat) : nat -> list nat :=
  fun q => if decide (q = p) then l else rings q.

(** ** The invariant *)

Section Inv.
Context {P : Type} {AS : AddressSpaces P}.

Definition nxt_of (s : sched P) (i : nat) : option nat := next (thr i s).

Record sched_inv (s : sched P) (rings : nat -> list nat) : Prop := {
  sv_queue_len : length (ready_queue s) = NUM_PRIORITIES64;
  sv_cur_len : length (current s) = MAX_SCHED_CPUS;
  sv_thr_len : length (threads64 s) = MAX_THREADS64;
  sv_cpu_len : length (cpu_rsp s) = MAX_SCHED_CPUS /\ length (loaded_cr3 s) = MAX_SCHED_CPUS /\
    length (dummy_rsp s) = MAX_SCHED_CPUS;
  sv_count : (thread64_count s <= MAX_THREADS64)%nat;
  sv_bitmap : 0 <= ready_bitmap s < 2 ^ 8;
  sv_bits p : (p < 8)%nat -> Z.testbit (ready_bitmap s) (Z.of_nat p) =
    match rings p with [] => false | _ => true end;
  sv_heads p : (p < 8)%nat -> queue_head p s = head (rings p);
  sv_ring p : (p < 8)%nat -> ring (nxt_of s) (rings p);
  sv_nodup p : (p < 8)%nat -> NoDup (rings p);
  sv_members p i : (p < 8)%nat -> i ∈ rings p <->
    (i < thread64_count s)%nat /\ priority (thr i s) = Z.of_nat p;
  sv_prio i : (i < thread64_count s)%nat -> 0 <= priority (thr i s) < 8;
  sv_current c i : running c s = Some i -> (i < thread64_count s)%nat;
  sv_slice i : (i < thread64_count s)%nat -> 1 <= time_slice (thr i s) <= 5
}.

(** The lock as the scheduler finds it on CPU [c]. *)
Definition lock_ready (c : nat) (s : sched P) : Prop :=
  nk_wf (s_lock s) /\ (c < MAX_CPUS)%nat /\ nk_count c (s_lock s) = 0 /\ big_kernel_lock (s_lock s) = 0.

End Inv.
