(* ===== verification/Sched64Proof.v ===== *)
(** * Scheduler: the operations keep the rings *)

From S2P Require Import Prelude Memory Machine KernLock NKern AddressSpaces Sched64 Sched64Spec.

Lemma log2_bits b p :
  0 <= b < 2 ^ 8 -> (p < 8)%nat -> Z.testbit b (Z.of_nat p) = true ->
  (forall q, (p < q < 8)%nat -> Z.testbit b (Z.of_nat q) = false) -> Z.log2 b = Z.of_nat p.
Proof.
  intros Hb Hp Ht Hq. assert (0 < b) as Hpos.
  { destruct (Z.eq_dec b 0) as [->|]; [by rewrite Z.bits_0 in Ht|lia]. }
  assert (Z.log2 b < 8) as Hl by (apply Z.log2_lt_pow2; lia). pose proof (Z.log2_nonneg b).
  destruct (Z.lt_total (Z.log2 b) (Z.of_nat p)) as [Hlt|[|Hgt]]; [|done|].
  - rewrite Z.bits_above_log2 in Ht by lia. done.
  - specialize (Hq (Z.to_nat (Z.log2 b)) ltac:(lia)). rewrite Z2Nat.id, Z.bit_log2 in Hq by lia. done.
Qed.

Section SchedProof.
Context {P : Type} {AS : AddressSpaces P} {AL : AddressSpacesLaws P}.
Notation sched := (sched P).

(** ** Reading updated states *)

Lemma thr_upd_eq i f (s : sched) : (i < length (threads64 s))%nat -> thr i (upd_thread i f s) = f (thr i s).
Proof. intros. unfold thr at 1. simpl. by rewrite nth_insert_eq. Qed.

Lemma thr_upd_ne i j f (s : sched) : i <> j -> thr j (upd_thread i f s) = thr j s.
Proof. intros. unfold thr at 1. simpl. by rewrite nth_insert_ne. Qed.

(** [s'] has the rings, priorities and slices of [s]. *)
Record same_links (s s' : sched) : Prop := {
  sl_bitmap : ready_bitmap s' = ready_bitmap s;
  sl_queue : ready_queue s' = ready_queue s;
  sl_count : thread64_count s' = thread64_count s;
  sl_lens : length (threads64 s') = length (threads64 s) /\ length (current s') = length (current s) /\
    length (cpu_rsp s') = length (cpu_rsp s) /\ length (loaded_cr3 s') = length (loaded_cr3 s) /\
    length (dummy_rsp s') = length (dummy_rsp s);
  sl_thr i : next (thr i s') = next (thr i s) /\ priority (thr i s') = priority (thr i s) /\
    time_slice (thr i s') = time_slice (thr i s)
}.

Lemma same_links_refl s : same_links s s.
Proof. by split. Qed.

Lemma same_links_trans s1 s2 s3 : same_links s1 s2 -> same_links s2 s3 -> same_links s1 s3.
Proof.
  intros [A1 A2 A3 A4 A5] [B1 B2 B3 B4 B5]. split; try congruence.
  - intuition congruence.
  - intros i. destruct (A5 i) as (? & ? & ?), (B5 i) as (? & ? & ?). split_and!; congruence.
Qed.

Lemma inv_same s s' rings :
  sched_inv s rings -> same_links s s' ->
  (forall c i, running c s' = Some i -> (i < thread64_count s)%nat) -> sched_inv s' rings.
Proof.
  intros [I1 I2 I3 I4 I5 I6 I7 I8 I9 I10 I11 I12 I13 I14] [S1 S2 S3 (S4 & S5 & S6 & S7 & S8) S9] Hc.
  assert (forall p, queue_head p s' = queue_head p s) as Hq by (intros p; unfold queue_head; by rewrite S2).
  constructor; rewrite ?S1, ?S2, ?S3, ?S4, ?S5, ?S6, ?S7, ?S8; auto.
  - intros p Hp. unfold queue_head. rewrite S2. by apply I8.
  - intros p Hp. specialize (I9 p Hp). unfold ring in *. destruct (rings p); [done|].
    apply (path_ext (nxt_of s)); [|done]. intros x _. unfold nxt_of. by destruct (S9 x) as (-> & _).
  - intros p i Hp. rewrite I11 by done. by destruct (S9 i) as (_ & -> & _).
  - intros i Hi. destruct (S9 i) as (_ & -> & _). by apply I12.
  - intros i Hi. destruct (S9 i) as (_ & _ & ->). by apply I14.
Qed.

(** Changing a thread's stack pointer or state does not touch the rings. *)
Lemma upd_links i f s :
  (forall t, next (f t) = next t /\ priority (f t) = priority t /\ time_slice (f t) = time_slice t) ->
  same_links s (upd_thread i f s).
Proof.
  intros Hf. split; simpl; rewrite ?length_insert; try done. intros j.
  destruct (decide (i = j)) as [<-|Hij]; [|by rewrite thr_upd_ne].
  destruct (decide (i < length (threads64 s))%nat).
  - rewrite thr_upd_eq by done. apply Hf.
  - unfold thr. simpl. by rewrite list_insert_ge by lia.
Qed.

Lemma set_rsp_links i v s : same_links s (upd_thread i (set_rsp v) s).
Proof. by apply upd_links. Qed.
Lemma set_state_links i v s : same_links s (upd_thread i (set_state v) s).
Proof. by apply upd_links. Qed.
Lemma set_current_links c h s : same_links s (set_current c h s).
Proof. split; simpl; rewrite ?length_insert; done. Qed.
Lemma set_cpu_rsp_links c h s : same_links s (set_cpu_rsp c h s).
Proof. split; simpl; rewrite ?length_insert; done. Qed.
Lemma set_loaded_links c h s : same_links s (set_loaded_cr3 c h s).
Proof. split; simpl; rewrite ?length_insert; done. Qed.
Lemma set_dummy_links c h s : same_links s (set_dummy c h s).
Proof. split; simpl; rewrite ?length_insert; done. Qed.
Lemma set_klock_links k s : same_links s (set_klock k s).
Proof. by split. Qed.

#[local] Hint Resolve same_links_refl set_rsp_links set_state_links set_current_links
  set_cpu_rsp_links set_loaded_links set_dummy_links set_klock_links : kernel.

(** ** Switching *)

Lemma switch_to_run c nx prev (s : sched) :
  (c < length (current s))%nat -> (c < length (cpu_rsp s))%nat -> (c < length (loaded_cr3 s))%nat ->
  (nx < length (threads64 s))%nat ->
  (forall p, prev = Some p -> (p < length (threads64 s))%nat /\ p <> nx) ->
  exists s' t, switch_to c nx prev s = Done tt s' t /\ same_links s s' /\
    current s' = <[c := Some nx]> (current s) /\ s_lock s' = s_lock s /\ s_space s' = s_space s /\
    nth c (cpu_rsp s') 0 = u64 (rsp (thr nx s) + 64) /\
    nth c (loaded_cr3 s') 0 = cr3 (thr nx s) /\
    (forall p, prev = Some p -> rsp (thr p s') = u64 (nth c (cpu_rsp s) 0 - 64) /\ state (thr p s') = T64_READY) /\
    state (thr nx s') = T64_RUNNING.
Proof.
  intros Hc Hcr Hcl Hnx Hprev. unfold switch_to, context_switch64. mstep.
  set (s1 := upd_thread nx (set_state T64_RUNNING) (set_current c (Some nx) s)).
  set (s2 := match prev with Some p => upd_thread p (set_state T64_READY) s1 | None => s1 end).
  assert (same_links s s2) as L2.
  { apply (same_links_trans _ s1); [apply (same_links_trans _ (set_current c (Some nx) s)); unfold s1|unfold s2; destruct prev];
      auto with kernel. }
  assert (thr nx s2 = set_state T64_RUNNING (thr nx s)) as Tn.
  { assert (thr nx s1 = set_state T64_RUNNING (thr nx s)) as T1 by (unfold s1; by rewrite thr_upd_eq).
    unfold s2. destruct prev as [p|]; [|done]. destruct (Hprev p eq_refl) as [_ Hne].
    by rewrite thr_upd_ne by done. }
  assert (forall p, prev = Some p -> state (thr p s2) = T64_READY) as Tp.
  { intros p ->. unfold s2. rewrite thr_upd_eq; [done|]. unfold s1. simpl. rewrite length_insert.
    by destruct (Hprev p eq_refl). }
  assert (s_lock s2 = s_lock s /\ s_space s2 = s_space s /\ current s2 = <[c := Some nx]> (current s) /\
    cpu_rsp s2 = cpu_rsp s /\ loaded_cr3 s2 = loaded_cr3 s) as (F1 & F2 & F3 & F4 & F5)
    by (unfold s2, s1; by destruct prev).
  assert ((match prev with Some p => modify (upd_thread p (set_state T64_READY)) | None => ret tt end) s1
    = Done tt s2 []) as E2 by (unfold s2; by destruct prev).
  rewrite (bind_done _ _ _ _ _ _ E2), add_trace_nil. mstep. rewrite Tn. cbn [cr3 set_state].
  set (s3 := if negb (cr3 (thr nx s) =? nth c (loaded_cr3 s2) 0) then set_loaded_cr3 c (cr3 (thr nx s)) s2 else s2).
  assert (same_links s2 s3 /\ s_lock s3 = s_lock s /\ s_space s3 = s_space s /\ current s3 = current s2 /\
    cpu_rsp s3 = cpu_rsp s /\ threads64 s3 = threads64 s2 /\ nth c (loaded_cr3 s3) 0 = cr3 (thr nx s))
    as (L3 & G1 & G2 & G3 & G4 & G5 & G6).
  { unfold s3. destruct (Z.eqb_spec (cr3 (thr nx s)) (nth c (loaded_cr3 s2) 0)); simpl.
    - by split_and!; eauto with kernel.
    - rewrite nth_insert_eq by (rewrite F5; done). by split_and!; eauto with kernel. }
  assert (exists t, forall {B} (k : unit -> M sched B),
    bind (if negb (cr3 (thr nx s) =? nth c (loaded_cr3 s2) 0) then modify (set_loaded_cr3 c (cr3 (thr nx s))) else ret tt)
      (fun _ => bind (if negb (cr3 (thr nx s) =? nth c (loaded_cr3 s2) 0) then instr "mov cr3" (cr3 (thr nx s)) else ret tt) k) s2 =
    add_trace t (k tt s3)) as [t3 E3].
  { unfold s3, instr. destruct (negb _); [|exists []; intros; by mstep].
    exists [EInstr "mov cr3" (cr3 (thr nx s))]. intros. mstep. reflexivity. }
  rewrite E3. clear E3. mstep.
  assert (thr nx s3 = set_state T64_RUNNING (thr nx s)) as Tn3 by (unfold thr at 1; by rewrite G5).
  rewrite Tn3. cbn [rsp set_state]. rewrite G4. unfold modify. cbn [add_trace].
  set (sv := u64 (nth c (cpu_rsp s) 0 - 64)).
  set (s4 := match prev with Some i => upd_thread i (set_rsp sv) | None => set_dummy c sv end s3).
  assert (same_links s3 s4 /\ s_lock s4 = s_lock s /\ s_space s4 = s_space s /\ current s4 = current s2 /\
    cpu_rsp s4 = cpu_rsp s /\ loaded_cr3 s4 = loaded_cr3 s3 /\ state (thr nx s4) = T64_RUNNING /\
    (forall p, prev = Some p -> rsp (thr p s4) = sv /\ state (thr p s4) = T64_READY))
    as (L4 & H1 & H2 & H3 & H4 & H5 & H6 & H7).
  { unfold s4. destruct prev as [p|].
    - destruct (Hprev p eq_refl) as [Hp Hne]. rewrite thr_upd_ne, Tn3 by done.
      split_and!; eauto with kernel; try (by simpl). intros p' [= <-].
      assert (length (threads64 s3) = length (threads64 s)) as Hl.
      { destruct L2 as [_ _ _ [? _] _], L3 as [_ _ _ [? _] _]. congruence. }
      rewrite thr_upd_eq by lia. simpl. split; [done|]. unfold thr. rewrite G5. by apply Tp.
    - change (thr nx (set_dummy c sv s3)) with (thr nx s3). rewrite Tn3.
      split_and!; eauto with kernel; try (by simpl). }
  eexists _, _. split; [reflexivity|]. split_and!; try done.
  - eapply same_links_trans; [exact L2|]. eapply same_links_trans; [exact L3|].
    eapply same_links_trans; [exact L4|]. eauto with kernel.
  - simpl. rewrite H3. done.
  - simpl. rewrite nth_insert_eq by (rewrite H4; done). done.
  - simpl. rewrite H5. done.
Qed.

End SchedProof.
