(* ===== verification/Sched64Run.v ===== *)
(** * Scheduler: runs of the operations against the abstract scheduler *)

From S2P Require Import Prelude Memory Machine KernLock NKern AddressSpaces.
From S2P Require Import Sched64 Sched64Spec Sched64Proof.

Section Run.
Context {P : Type} {AS : AddressSpaces P} {AL : AddressSpacesLaws P}.
Notation sched := (sched P).

(** ** The lock around a switch *)

Lemma lock_switch c (s : sched) : lock_ready c s ->
  exists k1 t1 k2 t2,
    in_lock (NKern_LockForSwitch c) s = Done tt (set_klock k1 s) t1 /\
    (forall s' : sched, s_lock s' = k1 -> in_lock (NKern_UnlockAfterSwitch c) s' = Done tt (set_klock k2 s') t2) /\
    (forall s' : sched, lock_ready c (set_klock k2 s')) /\ nk_if c k2 = true /\
    (forall d, d <> c -> nk_count d k2 = nk_count d (s_lock s)).
Proof.
  intros (Hwf & Hc & Hn & Hl).
  set (k1 := set_lock 1 (set_count c 1 (set_if c false (s_lock s)))).
  assert (nk_wf k1) as Hwf1 by (unfold k1, nk_wf in *; nk_simp; done).
  assert (nk_count c k1 = 1) as Hn1 by (unfold k1, nk_wf in *; nk_simp; done).
  exists k1, [EInstr "cli" 0], (set_if c true (set_lock 0 (set_count c 0 k1))), [EInstr "sti" 0].
  split_and!.
  - unfold in_lock, zoom. by rewrite NKern_LockForSwitch_run by done.
  - intros s' Hs. unfold in_lock, zoom. rewrite Hs, NKern_UnlockAfterSwitch_run by (done || lia).
    by rewrite Hn1.
  - intros s'. unfold lock_ready. simpl. unfold nk_wf in *. nk_simp. done.
  - unfold nk_wf in *. nk_simp. done.
  - intros d Hd. unfold k1, nk_wf in *. nk_simp. done.
Qed.

(** ** The top priority *)

Lemma top_prio_spec rings p :
  top_prio rings = Some p -> (p < 8)%nat /\ rings p <> [] /\ forall q, (p < q < 8)%nat -> rings q = [].
Proof.
  unfold top_prio. simpl.
  repeat (match goal with |- context [match rings ?k with _ => _ end] =>
      destruct (rings k) eqn:? end;
    [|intros Hp; simplify_eq; split; [lia|]; split; [congruence|]; intros q Hq;
      do 8 (destruct q as [|q]; [done || lia|]); lia]). done.
Qed.

Lemma top_prio_none rings q : top_prio rings = None -> (q < 8)%nat -> rings q = [].
Proof.
  unfold top_prio. simpl.
  repeat (match goal with |- context [match rings ?k with _ => _ end] =>
      destruct (rings k) eqn:? end; [|done]). intros _ Hq.
  do 8 (destruct q as [|q]; [done|]). lia.
Qed.

Lemma top_prio_bitmap (s : sched) rings :
  sched_inv s rings ->
  find_highest_bit64 (ready_bitmap s) =
  match top_prio rings with Some p => Z.of_nat p | None => -1 end.
Proof.
  intros Hi. pose proof (sv_bitmap _ _ Hi) as Hb. rewrite find_highest_bit64_run by lia.
  destruct (top_prio rings) as [p|] eqn:E.
  - apply top_prio_spec in E as (Hp & Hne & Hq). pose proof (sv_bits _ _ Hi p Hp) as Hbit.
    assert (Z.testbit (ready_bitmap s) (Z.of_nat p) = true) as Ht by (rewrite Hbit; by destruct (rings p)).
    destruct (Z.eqb_spec (ready_bitmap s) 0) as [E0|_]; [by rewrite E0, Z.bits_0 in Ht|].
    apply log2_bits; try done. intros q Hlt. rewrite (sv_bits _ _ Hi) by lia. by rewrite Hq.
  - destruct (Z.eqb_spec (ready_bitmap s) 0) as [|Hne]; [done|]. exfalso. apply Hne.
    apply Z.bits_inj'. intros n Hn. rewrite Z.bits_0.
    destruct (Z.lt_ge_cases n 8) as [Hlt|Hge].
    + rewrite <- (Z2Nat.id n) by lia. rewrite (sv_bits _ _ Hi) by lia.
      by rewrite (top_prio_none rings) by (done || lia).
    + destruct (Z.eq_dec (ready_bitmap s) 0); [done|].
      apply Z.bits_above_log2; [lia|]. apply Z.log2_lt_pow2; [lia|].
      apply Z.lt_le_trans with (2 ^ 8); [lia|]. apply Z.pow_le_mono_r; lia.
Qed.

(** ** Turning a ring *)

Lemma inv_turn (s : sched) rings p x l :
  sched_inv s rings -> (p < 8)%nat -> rings p = x :: l ->
  sched_inv (set_queue p (head (l ++ [x])) s) (upd_ring rings p (l ++ [x])).
Proof.
  intros [I1 I2 I3 I4 I5 I6 I7 I8 I9 I10 I11 I12 I13 I14] Hp Hr.
  constructor; simpl; rewrite ?length_insert; auto; unfold upd_ring.
  - intros q Hq. rewrite I7 by done. destruct (decide (q = p)) as [->|]; [|done].
    rewrite Hr. by destruct l.
  - intros q Hq. unfold queue_head. simpl. destruct (decide (q = p)) as [->|].
    + rewrite nth_insert_eq; [done|]. rewrite I1. exact Hp.
    + rewrite nth_insert_ne by done. by apply I8.
  - intros q Hq. destruct (decide (q = p)) as [->|]; [|by apply I9].
    apply ring_rotate. rewrite <- Hr. by apply I9.
  - intros q Hq. destruct (decide (q = p)) as [->|]; [|by apply I10].
    specialize (I10 p Hq). rewrite Hr in I10. by rewrite Permutation_app_comm.
  - intros q i Hq. destruct (decide (q = p)) as [->|]; [|by apply I11].
    rewrite <- (I11 p i Hq), Hr, elem_of_app, !elem_of_cons, elem_of_nil. tauto.
Qed.

Lemma upd_ring_same rings p (s : sched) : sched_inv s rings -> sched_inv s (upd_ring rings p (rings p)).
Proof.
  assert (forall q, upd_ring rings p (rings p) q = rings q) as E
    by (intros q; unfold upd_ring; by destruct (decide (q = p)) as [->|]).
  intros [I1 I2 I3 I4 I5 I6 I7 I8 I9 I10 I11 I12 I13 I14].
  constructor; auto; intros q; rewrite E; auto.
Qed.

(** ** sched64_reschedule *)

Lemma reschedule_sim c (s : sched) rings :
  sched_inv s rings -> lock_ready c s ->
  exists s' t, sched64_reschedule c s = Done tt s' t /\ lock_ready c s' /\
    nk_if c (s_lock s') = true /\
    (forall d, d <> c -> nk_count d (s_lock s') = nk_count d (s_lock s)) /\
    s_space s' = s_space s /\
    (forall i, time_slice (thr i s') = time_slice (thr i s)) /\
    match top_prio rings with
    | None => sched_inv s' rings /\ current s' = current s
    | Some p =>
        let l := turned (rings p) (running c s) in
        sched_inv s' (upd_ring rings p l) /\ current s' = <[c := head l]> (current s) /\
        (forall i, head l = Some i -> Some i <> running c s ->
           nth c (cpu_rsp s') 0 = u64 (rsp (thr i s) + 64) /\
           nth c (loaded_cr3 s') 0 = cr3 (thr i s) /\ state (thr i s') = T64_RUNNING)
    end.
Proof.
  intros Hi Hlk. destruct (lock_switch c s Hlk) as (k1 & t1 & k2 & t2 & E1 & E2 & Hr & Hif & Hoth).
  pose proof Hlk as (_ & Hc & _). unfold sched64_reschedule.
  rewrite (bind_done _ _ _ _ _ _ E1). mstep. set (s1 := set_klock k1 s).
  change (ready_bitmap s1) with (ready_bitmap s). rewrite (top_prio_bitmap s rings Hi).
  assert (forall s' : sched, sched_inv s' rings -> sched_inv (set_klock k2 s') rings) as Hkl.
  { intros s' Hs'. apply (inv_same s'); [done|apply set_klock_links|apply (sv_current _ _ Hs')]. }
  destruct (top_prio rings) as [p|] eqn:Etop.
  2:{ cbn [Z.ltb Z.compare]. rewrite E2 by done. eexists _, _. split; [done|]. split_and!; auto.
      apply (inv_same s); [done|by split|apply (sv_current _ _ Hi)]. }
  apply top_prio_spec in Etop as (Hp & Hne & _). destruct (Z.ltb_spec (Z.of_nat p) 0); [lia|].
  rewrite Nat2Z.id. change (queue_head p s1) with (queue_head p s). rewrite (sv_heads _ _ Hi p Hp).
  destruct (rings p) as [|h l] eqn:Er; [done|]. cbn [head].
  change (running c s1) with (running c s). change (thr h s1) with (thr h s).
  pose proof (sv_ring _ _ Hi p Hp) as Hring. rewrite Er in Hring. destruct Hring as [Hnx _].
  pose proof (sv_nodup _ _ Hi p Hp) as Hnd. rewrite Er in Hnd. unfold nxt_of in Hnx. rewrite Hnx.
  set (rot := bool_decide (Some h = running c s) && negb (bool_decide (Some (hd h l) = Some h))).
  set (l' := turned (h :: l) (running c s)).
  (* the queue after the optional rotation *)
  assert (exists n, head l' = Some n /\ (if rot then Some (hd h l) else Some h) = Some n /\
    sched_inv (if rot then set_queue p (Some n) s else s) (upd_ring rings p l')) as (n & Hn & -> & Hi').
  { unfold l', turned, rot. cbn [head]. destruct (decide (Some h = running c s)) as [Hd|Hd].
    - rewrite bool_decide_true by done. cbn [rotate]. destruct l as [|y l]; cbn [hd app].
      + rewrite bool_decide_true by done. exists h. split_and!; try done.
        rewrite <- Er. by apply upd_ring_same.
      + rewrite bool_decide_false; [|intros [= ->]; by apply NoDup_cons in Hnd as [[]%not_elem_of_cons _]].
        exists y. split_and!; try done. by apply (inv_turn s rings p h (y :: l)).
    - rewrite bool_decide_false by done. exists h. split_and!; try done.
      rewrite <- Er. by apply upd_ring_same. }
  set (s2 := if rot then set_queue p (Some n) s1 else s1).
  assert ((if rot then modify (set_queue p (Some n)) else ret tt) s1 = Done tt s2 []) as E3
    by (unfold s2; by destruct rot).
  rewrite (bind_done _ _ _ _ _ _ E3), add_trace_nil.
  assert (sched_inv s2 (upd_ring rings p l') /\ s_lock s2 = k1 /\ s_space s2 = s_space s /\ current s2 = current s /\
    (forall i, thr i s2 = thr i s) /\ cpu_rsp s2 = cpu_rsp s) as (I2 & K2 & P2 & C2 & T2 & R2).
  { split; [|unfold s2; by destruct rot]. eapply (inv_same _ s2) in Hi'; [exact Hi'|..].
    - unfold s2. destruct rot; by split.
    - intros d i Hd. apply (sv_current _ _ Hi' d). unfold s2 in Hd. by destruct rot. }
  assert (n < thread64_count s2)%nat as Hnc.
  { apply (sv_members _ _ I2 p n Hp). unfold upd_ring. rewrite decide_True by done.
    destruct l' as [|n' l'']; [done|]. injection Hn as ->. apply list_elem_of_here. }
  assert (sched_inv (set_klock k2 s2) (upd_ring rings p l')) as I2'.
  { apply (inv_same s2); [done|apply set_klock_links|apply (sv_current _ _ I2)]. }
  assert (c < length (current s))%nat as Hcc by (rewrite (sv_cur_len _ _ Hi); exact Hc).
  destruct (decide (Some n = running c s)) as [Hsame|Hdiff].
  - rewrite E2 by done. eexists _, _. split; [done|]. split_and!; auto.
    + intros i. by rewrite <- T2.
    + simpl. rewrite C2, Hn, Hsame. symmetry. unfold running. by eapply insert_nth_id.
    + intros i Hi2. rewrite Hn in Hi2. injection Hi2 as <-. done.
  - assert (forall q, running c s = Some q -> (q < length (threads64 s2))%nat /\ q <> n) as Hprev.
    { intros q Hq. split; [|congruence]. rewrite (sv_thr_len _ _ I2). pose proof (sv_count _ _ I2).
      assert (q < thread64_count s2)%nat; [|lia]. apply (sv_current _ _ I2 c). unfold running. by rewrite C2. }
    pose proof (sv_cpu_len _ _ I2) as (Hl1 & Hl2 & _). pose proof (sv_count _ _ I2).
    destruct (switch_to_run c n (running c s) s2) as (s3 & t3 & E4 & L4 & C4 & K4 & P4 & Q1 & Q2 & Q3 & Q4);
      [rewrite C2; done|rewrite Hl1; exact Hc|rewrite Hl2; exact Hc|rewrite (sv_thr_len _ _ I2); lia|done|].
    rewrite (bind_done _ _ _ _ _ _ E4). rewrite E2 by congruence.
    eexists _, _. split; [done|]. rewrite T2 in Q1, Q2.
    assert (forall d i, running d s3 = Some i -> (i < thread64_count s2)%nat) as Hcur.
    { intros d i Hd. unfold running in Hd. rewrite C4, C2 in Hd. destruct (decide (d = c)) as [->|Hdc].
      - rewrite nth_insert_eq in Hd by done. injection Hd as <-. done.
      - rewrite nth_insert_ne in Hd by done. apply (sv_current _ _ I2 d). unfold running. by rewrite C2. }
    split_and!; auto.
    + simpl. congruence.
    + intros i. rewrite <- T2. by destruct (sl_thr _ _ L4 i) as (_ & _ & <-).
    + apply (inv_same s2); [done| |].
      * eapply same_links_trans; [exact L4|apply set_klock_links].
      * exact Hcur.
    + simpl. rewrite C4, C2, Hn. done.
    + intros i Hi2 _. rewrite Hn in Hi2. injection Hi2 as <-. by simpl.
Qed.

End Run.
