(* ===== verification/Sched64Create.v ===== *)
(** * Scheduler: creating threads *)

From S2P Require Import Prelude Memory Machine KernLock NKern AddressSpaces.
From S2P Require Import Sched64 Sched64Spec Sched64Proof Sched64Run.

(** ** The first stack frame *)

Lemma first_frame_spec thread_start64 entry top m :
  0 <= entry < 2 ^ 64 -> 0 <= thread_start64 < 2 ^ 64 ->
  let (m', sp) := first_frame thread_start64 entry top m in
  sp = top - 80 /\ (forall i, 0 <= i < 6 -> load64 m' (sp + 8 * i) = 0) /\
  load64 m' (sp + 48) = 0x202 /\ load64 m' (sp + 56) = thread_start64 /\
  load64 m' (sp + 64) = entry /\
  (forall x, ~ (top - 80 <= x < top) -> m' x = m x).
Proof.
  intros He Ht. unfold first_frame. cbv zeta.
  replace (top - 8 - 8 - 8 - 8 - 8 * 6) with (top - 80) by lia.
  set (m1 := store64 (store64 (store64 m (top - 8 - 8) entry) (top - 8 - 8 - 8) thread_start64)
    (top - 8 - 8 - 8 - 8) 0x202).
  destruct (fill64_spec 6 m1 (top - 80) (fun _ => 0)) as [H1 H2]; [lia|].
  change (8 * Z.of_nat 6) with 48 in H2. change (Z.of_nat 6) with 6 in H1.
  assert (forall a, top - 32 <= a -> load64 (fill64 6 m1 (top - 80) (fun _ => 0)) a = load64 m1 a) as Hl.
  { intros a Ha. apply load_ext. intros x Hx. apply H2. lia. }
  split_and!; try done.
  - rewrite Hl by lia. replace (top - 80 + 48) with (top - 8 - 8 - 8 - 8) by lia.
    unfold m1. by mem_simp.
  - rewrite Hl by lia. replace (top - 80 + 56) with (top - 8 - 8 - 8) by lia.
    unfold m1. by mem_simp.
  - rewrite Hl by lia. replace (top - 80 + 64) with (top - 8 - 8) by lia.
    unfold m1. by mem_simp.
  - intros x Hx. rewrite H2 by lia. unfold m1. by rewrite !store_out by lia.
Qed.

Section Create.
Context {P : Type} {AS : AddressSpaces P} {AL : AddressSpacesLaws P}.
Notation sched := (sched P).
Context (threads64_addr thread_start64 : Z).

(** What appending thread [i] to the ring of priority [p] does to the state. *)
Record appended (s s' : sched) (i p : nat) (l : list nat) : Prop := {
  ap_count : thread64_count s' = S i;
  ap_bitmap : ready_bitmap s' = u32 (Z.lor (ready_bitmap s) (Z.shiftl 1 (Z.of_nat p)));
  ap_queue : ready_queue s' = match l with [] => <[p := Some i]> (ready_queue s) | _ => ready_queue s end;
  ap_lens : length (threads64 s') = length (threads64 s) /\ length (cpu_rsp s') = length (cpu_rsp s) /\
    length (loaded_cr3 s') = length (loaded_cr3 s) /\ length (dummy_rsp s') = length (dummy_rsp s);
  ap_current : current s' = current s;
  ap_next_i : nxt_of s' i = Some (hd i l);
  ap_next_last t : last l = Some t -> nxt_of s' t = Some i;
  ap_next j : j <> i -> Some j <> last l -> nxt_of s' j = nxt_of s j;
  ap_thr j : j <> i -> priority (thr j s') = priority (thr j s) /\ time_slice (thr j s') = time_slice (thr j s);
  ap_new : priority (thr i s') = Z.of_nat p /\ time_slice (thr i s') = 5
}.

Lemma bitmap_set b p :
  0 <= b < 2 ^ 8 -> (p < 8)%nat ->
  0 <= u32 (Z.lor b (Z.shiftl 1 (Z.of_nat p))) < 2 ^ 8 /\
  forall q, (q < 8)%nat -> Z.testbit (u32 (Z.lor b (Z.shiftl 1 (Z.of_nat p)))) (Z.of_nat q) =
    Z.testbit b (Z.of_nat q) || (p =? q)%nat.
Proof.
  intros Hb Hp. rewrite Z.shiftl_1_l.
  assert (0 <= Z.lor b (2 ^ Z.of_nat p) < 2 ^ 8) as Hr.
  { split; [apply Z.lor_nonneg; lia|]. destruct (Z.eq_dec (Z.lor b (2 ^ Z.of_nat p)) 0) as [->|]; [lia|].
    assert (0 <= Z.lor b (2 ^ Z.of_nat p)) by (apply Z.lor_nonneg; lia).
    apply Z.log2_lt_pow2; [lia|]. rewrite Z.log2_lor by lia. apply Z.max_lub_lt.
    - destruct (Z.eq_dec b 0) as [->|]; [done|]. apply Z.log2_lt_pow2; lia.
    - rewrite Z.log2_pow2 by lia. lia. }
  rewrite u32_small by lia. split; [done|]. intros q Hq.
  rewrite Z.lor_spec, Z.pow2_bits_eqb by lia. f_equal.
  destruct (Z.eqb_spec (Z.of_nat p) (Z.of_nat q)), (Nat.eqb_spec p q); done || lia.
Qed.

Lemma inv_append (s s' : sched) rings p :
  sched_inv s rings -> (p < 8)%nat -> (thread64_count s < MAX_THREADS64)%nat ->
  appended s s' (thread64_count s) p (rings p) ->
  sched_inv s' (upd_ring rings p (rings p ++ [thread64_count s])).
Proof.
  intros Hi Hp Hlt [A1 A2 A3 (A4 & A5 & A6 & A7) A8 A9 A10 A11 A12 [A13 A14]].
  pose proof Hi as [I1 I2 I3 I4 I5 I6 I7 I8 I9 I10 I11 I12 I13 I14]. set (i := thread64_count s) in *.
  assert (forall q, (q < 8)%nat -> i ∉ rings q) as Hnew by (intros q Hq [? _]%I11; [lia|done]).
  destruct (bitmap_set (ready_bitmap s) p I6 Hp) as [B1 B2].
  constructor; rewrite ?A1, ?A2, ?A4, ?A5, ?A6, ?A7, ?A8; try done; unfold upd_ring.
  - rewrite A3. destruct (rings p); by rewrite ?length_insert.
  - intros q Hq. rewrite B2, I7 by done. destruct (decide (q = p)) as [->|Hne].
    + rewrite Nat.eqb_refl, orb_true_r. by destruct (rings p).
    + destruct (Nat.eqb_spec p q); [congruence|]. apply orb_false_r.
  - intros q Hq. unfold queue_head. rewrite A3. destruct (decide (q = p)) as [->|Hne].
    + specialize (I8 p Hp). unfold queue_head in I8. destruct (rings p); simpl in *; [|done].
      rewrite nth_insert_eq; [done|]. rewrite I1. exact Hp.
    + specialize (I8 q Hq). unfold queue_head in I8. destruct (rings p); [|done].
      by rewrite nth_insert_ne.
  - intros q Hq. destruct (decide (q = p)) as [->|Hne].
    + destruct (rings p) as [|x l] eqn:Er using rev_ind; [split; done|clear IHl].
      rewrite <- app_assoc. simpl. pose proof (Hnew p Hp) as Hn. rewrite Er in Hn.
      specialize (I9 p Hp). specialize (I10 p Hp). rewrite Er in I9, I10.
      rewrite last_snoc in *.
      eapply (ring_insert (nxt_of s)); [done|done|done| |by apply A10|].
      * intros y Hy Hyi. apply A11; [done|congruence].
      * rewrite A9. by destruct l.
    + specialize (I9 q Hq). unfold ring in *. destruct (rings q) as [|h l] eqn:Er; [done|].
      apply (path_ext (nxt_of s)); [|done]. intros x Hx. rewrite <- Er in Hx.
      apply A11; [intros ->; by apply (Hnew q Hq)|]. intros Hl. symmetry in Hl.
      apply last_Some_elem_of in Hl. apply I11 in Hx, Hl; [|done..]. destruct Hx as [_ Hx], Hl as [_ Hl]. lia.
  - intros q Hq. destruct (decide (q = p)) as [->|Hne]; [|by apply I10].
    apply NoDup_app. split_and!; [by apply I10| |apply NoDup_singleton].
    intros x Hx ->%list_elem_of_singleton. by apply (Hnew p Hp).
  - intros q j Hq. destruct (decide (j = i)) as [->|Hj].
    + rewrite A13. destruct (decide (q = p)) as [->|Hne].
      * rewrite elem_of_app, list_elem_of_singleton. split; [|by right]. intros _. split; [lia|done].
      * split; [by intros ?%Hnew|]. intros [_ ?]. lia.
    + destruct (A12 j Hj) as [-> _]. assert ((j < S i)%nat <-> (j < i)%nat) as -> by lia.
      rewrite <- (I11 q j Hq). destruct (decide (q = p)) as [->|Hne]; [|done].
      rewrite elem_of_app, list_elem_of_singleton. tauto.
  - intros j Hj. destruct (decide (j = i)) as [->|Hne]; [rewrite A13; lia|].
    destruct (A12 j Hne) as [-> _]. apply I12. lia.
  - intros c j. unfold running. rewrite A8. intros Hc%I13. lia.
  - intros j Hj. destruct (decide (j = i)) as [->|Hne]; [rewrite A14; lia|].
    destruct (A12 j Hne) as [_ ->]. apply I14. lia.
Qed.

(** [s3] is [s] with entry [i] of the thread array filled in. *)
Record filled (s s3 : sched) (i : nat) (t : thread64) : Prop := {
  fi_count : thread64_count s3 = S i;
  fi_new : thr i s3 = t;
  fi_old j : j <> i -> thr j s3 = thr j s;
  fi_same : ready_bitmap s3 = ready_bitmap s /\ ready_queue s3 = ready_queue s /\
    current s3 = current s /\ cpu_rsp s3 = cpu_rsp s /\ loaded_cr3 s3 = loaded_cr3 s /\
    dummy_rsp s3 = dummy_rsp s /\ s_lock s3 = s_lock s /\ length (threads64 s3) = length (threads64 s)
}.

Lemma find_tail_ext ths ths' h : forall fuel x,
  (forall j, next (nth j ths' thread_zero) = next (nth j ths thread_zero)) ->
  find_tail fuel ths' h x = find_tail fuel ths h x.
Proof.
  induction fuel as [|fuel IH]; intros x H; [done|]. cbn [find_tail]. rewrite H.
  destruct (decide _); [done|]. destruct (next _); auto.
Qed.

(** The ring is found in the old links: the new thread is not in it. *)
Lemma enqueue_run (s s3 : sched) rings p t :
  let i := thread64_count s in
  sched_inv s rings -> (p < 8)%nat -> (i < MAX_THREADS64)%nat -> filled s s3 i t ->
  next t = next (thr i s) ->
  exists s4, enqueue i p s3 = Done tt s4 [] /\ thread64_count s4 = S i /\
    ready_bitmap s4 = ready_bitmap s /\ s_lock s4 = s_lock s /\ s_space s4 = s_space s3 /\
    current s4 = current s /\ cpu_rsp s4 = cpu_rsp s /\ loaded_cr3 s4 = loaded_cr3 s /\
    dummy_rsp s4 = dummy_rsp s /\ length (threads64 s4) = length (threads64 s) /\
    ready_queue s4 = match rings p with [] => <[p := Some i]> (ready_queue s) | _ => ready_queue s end /\
    thr i s4 = set_nxt (Some (hd i (rings p))) t /\
    (forall j, last (rings p) = Some j -> thr j s4 = set_nxt (Some i) (thr j s)) /\
    (forall j, j <> i -> Some j <> last (rings p) -> thr j s4 = thr j s).
Proof.
  intros i Hi Hp Hlt [F1 F2 F3 (G1 & G2 & G3 & G4 & G5 & G6 & G7 & G8)] Hnx.
  pose proof (sv_thr_len _ _ Hi) as Hlen.
  assert (i < length (threads64 s3))%nat as Hil by (rewrite G8, Hlen; exact Hlt).
  unfold enqueue. mstep. unfold queue_head. rewrite G2. fold (queue_head p s).
  rewrite (sv_heads _ _ Hi p Hp). destruct (rings p) as [|h l] eqn:Er; cbn [head].
  - mstep. unfold modify. eexists. split; [done|]. simpl. rewrite length_insert, G2.
    split_and!; try done.
    + change (thr i (set_queue p (Some i) ?x)) with (thr i x). rewrite <- F2. by apply thr_upd_eq.
    + intros j Hj _. rewrite <- F3 by done. by apply thr_upd_ne.
  - assert (forall j, next (nth j (threads64 s3) thread_zero) = next (nth j (threads64 s) thread_zero)) as Hext.
    { intros j. fold (thr j s3) (thr j s). destruct (decide (j = i)) as [->|]; [by rewrite F2|by rewrite F3]. }
    pose proof (sv_ring _ _ Hi p Hp) as Hring. pose proof (sv_nodup _ _ Hi p Hp) as Hnd. rewrite Er in Hring, Hnd.
    assert (forall x, x ∈ h :: l -> (x < i)%nat) as Hmem.
    { intros x Hx. rewrite <- Er in Hx. by apply (sv_members _ _ Hi p x Hp). }
    rewrite (find_tail_ext (threads64 s) (threads64 s3)) by done.
    rewrite (find_tail_run (threads64 s) h l); [|exact Hring|by apply NoDup_cons in Hnd as [? _]|].
    2:{ assert (length (h :: l) <= i)%nat; [|simpl in *; unfold MAX_THREADS64 in *; lia].
        rewrite <- (length_seq i 0). apply submseteq_length, NoDup_submseteq; [done|].
        intros x Hx. apply elem_of_seq. specialize (Hmem x Hx). lia. }
    destruct (last (h :: l)) as [tl|] eqn:El; [|by apply last_None in El].
    pose proof (last_Some_elem_of _ _ El) as Htl. pose proof (Hmem tl Htl) as Hti.
    mstep. unfold modify. eexists. split; [done|]. simpl. rewrite !length_insert.
    assert (length (threads64 (upd_thread tl (set_nxt (Some i)) s3)) = length (threads64 s3)) as HL
      by (simpl; by rewrite length_insert).
    split_and!; try done.
    + rewrite thr_upd_eq by lia. rewrite thr_upd_ne by lia. by rewrite F2.
    + intros j [= <-]. rewrite thr_upd_ne by lia. rewrite thr_upd_eq by (rewrite G8, Hlen; lia).
      by rewrite F3 by lia.
    + intros j Hj Hjl. rewrite thr_upd_ne by done. rewrite thr_upd_ne by congruence. by apply F3.
Qed.

Lemma create_thread_run entry prio nm (s : sched) rings space p' t0 :
  sched_inv s rings -> (thread64_count s < MAX_THREADS64)%nat -> 0 <= prio < 8 ->
  as_create (s_space s) = Done space p' t0 ->
  let i := thread64_count s in
  let (m, sp) := first_frame thread_start64 entry (stack_top threads64_addr i) (as_mem p') in
  exists s', sched64_create_thread threads64_addr thread_start64 entry prio nm s = Done (Some i) s' t0 /\
    appended s s' i (Z.to_nat prio) (rings (Z.to_nat prio)) /\ s_lock s' = s_lock s /\
    s_space s' = as_set_mem m p' /\
    rsp (thr i s') = sp /\ cr3 (thr i s') = space /\ state (thr i s') = T64_READY /\ name (thr i s') = nm /\
    (forall j, j <> i -> rsp (thr j s') = rsp (thr j s) /\ cr3 (thr j s') = cr3 (thr j s) /\
       state (thr j s') = state (thr j s)).
Proof.
  intros Hi Hlt Hprio Has i. destruct (first_frame _ _ _ _) as [m sp] eqn:Eff.
  pose proof (sv_thr_len _ _ Hi) as Hlen.
  unfold sched64_create_thread. mstep.
  destruct (Nat.leb_spec MAX_THREADS64 (thread64_count s)); [lia|].
  destruct (Z.leb_spec (Z.of_nat NUM_PRIORITIES64) prio); [unfold NUM_PRIORITIES64 in *; lia|].
  cbn [orb]. fold i. mstep.
  set (s1 := upd_thread i _ (set_threads (S i) s)).
  assert (in_space as_create s1 = Done space (set_space p' s1) t0) as E1
    by (unfold in_space, zoom; change (s_space s1) with (s_space s); by rewrite Has).
  rewrite (bind_done _ _ _ _ _ _ E1). mstep. cbn [s_space set_space upd_thread]. rewrite Eff. mstep.
  match goal with |- context [enqueue i (Z.to_nat prio)] =>
    match goal with |- context [bind (enqueue i (Z.to_nat prio)) ?k ?st] => set (s3 := st) end end.
  assert (filled s s3 i (mkThread sp space prio T64_READY 5 nm (next (thr i s)))) as Hfill.
  { assert (forall f g h (q1 q2 : P), thr i (upd_thread i f (set_space q2 (upd_thread i g (set_space q1
      (upd_thread i h (set_threads (S i) s)))))) = f (g (h (thr i s)))) as Hu.
    { intros. unfold thr at 1. simpl. rewrite nth_insert_eq by (rewrite !length_insert; lia).
      unfold thr at 1. simpl. rewrite nth_insert_eq by (rewrite !length_insert; lia).
      unfold thr at 1. simpl. rewrite nth_insert_eq by lia. done. }
    split.
    - done.
    - unfold s3, s1. rewrite Hu. done.
    - intros j Hj. unfold s3, s1, thr. simpl. by rewrite !nth_insert_ne.
    - unfold s3, s1. simpl. rewrite !length_insert. done. }
  destruct (enqueue_run s s3 rings (Z.to_nat prio) _ Hi ltac:(lia) Hlt Hfill eq_refl)
    as (s4 & E4 & J1 & J2 & J3 & J4 & J5 & J6 & J7 & J8 & J9 & J10 & J11 & J12 & J13).
  rewrite (bind_done _ _ _ _ _ _ E4). mstep. unfold ret. cbn [add_trace]. rewrite app_nil_r.
  eexists. split; [done|]. fold i in J1, J10, J11, J12, J13.
  assert (forall j, j <> i -> exists n, thr j s4 = set_nxt n (thr j s)) as Hold.
  { intros j Hj. destruct (decide (Some j = last (rings (Z.to_nat prio)))) as [El|El].
    - eauto.
    - exists (next (thr j s)). rewrite J13 by done. by destruct (thr j s). }
  unfold nxt_of. split_and!; cbn [set_bitmap s_lock s_space]; try done.
  - constructor; unfold nxt_of; cbn [set_bitmap thread64_count ready_bitmap ready_queue threads64 cpu_rsp
      loaded_cr3 dummy_rsp current]; try done.
    + by rewrite J2, Z2Nat.id by lia.
    + by rewrite J6, J7, J8, J9.
    + change (thr i (set_bitmap ?b s4)) with (thr i s4). by rewrite J11.
    + intros t Ht. change (thr t (set_bitmap ?b s4)) with (thr t s4). by rewrite J12.
    + intros j Hj Hl. change (thr j (set_bitmap ?b s4)) with (thr j s4). by rewrite J13.
    + intros j Hj. change (thr j (set_bitmap ?b s4)) with (thr j s4).
      by destruct (Hold j Hj) as [n ->].
    + change (thr i (set_bitmap ?b s4)) with (thr i s4). rewrite J11. simpl. lia.
  - change (thr i (set_bitmap ?b s4)) with (thr i s4). by rewrite J11.
  - change (thr i (set_bitmap ?b s4)) with (thr i s4). by rewrite J11.
  - change (thr i (set_bitmap ?b s4)) with (thr i s4). by rewrite J11.
  - change (thr i (set_bitmap ?b s4)) with (thr i s4). by rewrite J11.
  - intros j Hj. change (thr j (set_bitmap ?b s4)) with (thr j s4). by destruct (Hold j Hj) as [n ->].
Qed.

End Create.
