(* ===== verification/Sched64Theorems.v ===== *)
(** * Scheduler: theorems *)

From S2P Require Import Prelude Memory Machine KernLock NKern FrameSource Memmap MemmapTheorems.
From S2P Require Import Paging PagingSpec PagingProof PagingSpaces PagingTheorems AddressSpaces.
From S2P Require Import Sched64 Sched64Spec Sched64Proof Sched64Run Sched64Create NKernSmp.

(** ** Turning a ring k times *)

Definition rot (k : nat) (l : list nat) : list nat := drop k l ++ take k l.

Lemma rotate_rot k l : (k < length l)%nat -> rotate (rot k l) = rot (S k) l.
Proof.
  intros Hk. unfold rot. destruct (lookup_lt_is_Some_2 l k Hk) as [x Hx].
  rewrite (drop_S _ _ _ Hx). simpl. rewrite (take_S_r _ _ _ Hx). by rewrite app_assoc.
Qed.

Lemma rot_full l : rot (length l) l = l.
Proof. unfold rot. by rewrite drop_all, firstn_all. Qed.

Lemma mod_succ k n : n <> 0%nat ->
  (S k mod n = if decide (S (k mod n) = n) then 0 else S (k mod n))%nat.
Proof.
  intros Hn. pose proof (Nat.div_mod k n Hn). pose proof (Nat.mod_upper_bound k n Hn).
  symmetry. destruct (decide _) as [E|E].
  - apply (Nat.mod_unique _ _ (S (k / n))); lia.
  - apply (Nat.mod_unique _ _ (k / n)); lia.
Qed.

Lemma rotate_iter k l : l <> [] -> Nat.iter k rotate l = rot (k mod length l) l.
Proof.
  intros Hl. assert (length l <> 0%nat) as Hlen by (by destruct l).
  induction k as [|k IH]; [rewrite Nat.Div0.mod_0_l; unfold rot; by rewrite app_nil_r|].
  simpl. rewrite IH, rotate_rot by (by apply Nat.mod_upper_bound). rewrite mod_succ by done.
  destruct (decide _) as [E|E]; [|done]. rewrite E, rot_full. unfold rot. by rewrite app_nil_r.
Qed.

Lemma rot_head k l : (k < length l)%nat -> head (rot k l) = l !! k.
Proof.
  intros Hk. unfold rot. destruct (lookup_lt_is_Some_2 l k Hk) as [x Hx].
  by rewrite (drop_S _ _ _ Hx), Hx.
Qed.

Lemma top_prio_ext rings rings' :
  (forall q, (q < 8)%nat -> rings q = [] <-> rings' q = []) -> top_prio rings' = top_prio rings.
Proof.
  intros H. unfold top_prio. simpl.
  assert (forall q, (q < 8)%nat -> (match rings' q with [] => false | _ => true end) =
    (match rings q with [] => false | _ => true end)) as E.
  { intros q Hq. specialize (H q Hq). destruct (rings q), (rings' q); try done; intuition congruence. }
  by rewrite !E by lia.
Qed.

Section Theorems.
Context {P : Type} {AS : AddressSpaces P} {AL : AddressSpacesLaws P}.
Context (threads64_addr thread_start64 : Z).

(** What a created thread is: see the theorem. *)
Lemma create_thread_spec (s : sched P) rings entry prio nm space p' t0 :
  sched_inv s rings -> 0 <= prio < 256 -> 0 <= entry < 2 ^ 64 -> 0 <= thread_start64 < 2 ^ 64 ->
  threads64_addr mod 16 = 0 -> as_create (s_space s) = Done space p' t0 ->
  let i := thread64_count s in
  if (i <? MAX_THREADS64)%nat && (prio <? 8) then
    exists s', sched64_create_thread threads64_addr thread_start64 entry prio nm s = Done (Some i) s' t0 /\
      sched_inv s' (upd_ring rings (Z.to_nat prio) (rings (Z.to_nat prio) ++ [i])) /\
      current s' = current s /\ cr3 (thr i s') = space /\ state (thr i s') = T64_READY /\
      let m := as_mem (s_space s') in let r := rsp (thr i s') in
      let bottom := threads64_addr + sizeof_thread64 * Z.of_nat i + stack_offset in
      (forall k, 0 <= k < 6 -> load64 m (r + 8 * k) = 0) /\ load64 m (r + 48) = 0x202 /\
      load64 m (r + 56) = thread_start64 /\ load64 m (r + 64) = entry /\ (r + 72) mod 16 = 8 /\
      bottom <= r /\ r + 72 < bottom + STACK_SIZE64 /\
      (forall x, ~ (bottom <= x < bottom + STACK_SIZE64) -> m x = as_mem p' x)
  else sched64_create_thread threads64_addr thread_start64 entry prio nm s = Done None s [].
Proof.
  intros Hi Hprio He Hts Hal Has i.
  destruct (Nat.ltb_spec i MAX_THREADS64) as [Hlt|Hge], (Z.ltb_spec prio 8) as [Hp|Hp]; cbn [andb].
  - pose proof (create_thread_run threads64_addr thread_start64 entry prio nm s rings space p' t0
      Hi Hlt ltac:(lia) Has) as H. cbv zeta in H. fold i in H.
    pose proof (first_frame_spec thread_start64 entry (stack_top threads64_addr i) (as_mem p') He Hts) as Hff.
    destruct (first_frame _ _ _ _) as [m sp].
    destruct H as (s' & E & Ha & _ & Hm & Hr & Hc & Hst & _). destruct Hff as (-> & F1 & F2 & F3 & F4 & F5).
    exists s'. rewrite Hm, as_mem_set, Hr. unfold stack_top in *.
    set (b := threads64_addr + sizeof_thread64 * Z.of_nat i + stack_offset) in *.
    assert (b mod 16 = 0) as Hb by (unfold b, sizeof_thread64, stack_offset; dlia).
    unfold STACK_SIZE64 in *. cbv zeta. split_and!; try done; try lia.
    + apply inv_append; try done; try lia.
    + by destruct Ha.
    + dlia.
    + intros x Hx. apply F5. lia.
  - unfold sched64_create_thread. mstep. fold i. unfold NUM_PRIORITIES64.
    destruct (Z.leb_spec (Z.of_nat 8) prio); [|lia]. by rewrite orb_true_r.
  - unfold sched64_create_thread. mstep. fold i. by destruct (Nat.leb_spec MAX_THREADS64 i); [|lia].
  - unfold sched64_create_thread. mstep. fold i. by destruct (Nat.leb_spec MAX_THREADS64 i); [|lia].
Qed.

(** C25: on a scheduler whose queues form rings,
    [sched64_create_thread] with room and a valid priority appends the new thread at
    the end of the ring of its priority and keeps all rings; its first frame makes
    the first switch restore zeroed registers and RFLAGS 0x202, return to
    [thread_start64] and from there enter [entry] with RSP at 8 modulo 16, as the ABI
    wants; it writes only inside the thread's own stack.  Without room or with a bad
    priority it returns NULL and changes nothing. *)
Theorem sched64_create_thread_correct (s : sched P) rings entry prio nm space p' t0 :
  sched_inv s rings -> 0 <= prio < 256 -> 0 <= entry < 2 ^ 64 -> 0 <= thread_start64 < 2 ^ 64 ->
  threads64_addr mod 16 = 0 -> as_create (s_space s) = Done space p' t0 ->
  let i := thread64_count s in
  if (i <? MAX_THREADS64)%nat && (prio <? 8) then
    exists s', sched64_create_thread threads64_addr thread_start64 entry prio nm s = Done (Some i) s' t0 /\
      sched_inv s' (upd_ring rings (Z.to_nat prio) (rings (Z.to_nat prio) ++ [i])) /\
      current s' = current s /\ cr3 (thr i s') = space /\ state (thr i s') = T64_READY /\
      let m := as_mem (s_space s') in let r := rsp (thr i s') in
      let bottom := threads64_addr + sizeof_thread64 * Z.of_nat i + stack_offset in
      (forall k, 0 <= k < 6 -> load64 m (r + 8 * k) = 0) /\ load64 m (r + 48) = 0x202 /\
      load64 m (r + 56) = thread_start64 /\ load64 m (r + 64) = entry /\ (r + 72) mod 16 = 8 /\
      bottom <= r /\ r + 72 < bottom + STACK_SIZE64 /\
      (forall x, ~ (bottom <= x < bottom + STACK_SIZE64) -> m x = as_mem p' x)
  else sched64_create_thread threads64_addr thread_start64 entry prio nm s = Done None s [].
Proof. apply create_thread_spec. Qed.


(** One reschedule of a CPU that runs the head of the top ring turns the ring. *)
Lemma reschedule_turn c (s : sched P) rings p :
  sched_inv s rings -> lock_ready c s -> top_prio rings = Some p -> running c s = head (rings p) ->
  exists s' t, sched64_reschedule c s = Done tt s' t /\ lock_ready c s' /\
    sched_inv s' (upd_ring rings p (rotate (rings p))) /\ running c s' = head (rotate (rings p)) /\
    top_prio (upd_ring rings p (rotate (rings p))) = Some p.
Proof.
  intros Hi Hl Ht Hr. destruct (reschedule_sim c s rings Hi Hl) as (s' & t & E & Hl' & _ & _ & _ & _ & H).
  rewrite Ht in H. cbv zeta in H. unfold turned in H. rewrite decide_True in H by done.
  destruct H as (Hi' & Hc & _). exists s', t. split_and!; try done.
  - unfold running. rewrite Hc. apply nth_insert_eq. rewrite (sv_cur_len _ _ Hi). by destruct Hl as (_ & ? & _).
  - rewrite <- Ht. apply top_prio_ext. intros q _. unfold upd_ring.
    destruct (decide (q = p)) as [->|]; [|done]. destruct (rings p) as [|x l]; simpl; [done|].
    split; [done|]. by intros [_ ?]%app_nil.
Qed.

Lemma round_robin_run c k (s : sched P) rings p :
  sched_inv s rings -> lock_ready c s -> top_prio rings = Some p -> running c s = head (rings p) ->
  exists s' t, repeatM k (sched64_reschedule c) s = Done tt s' t /\ lock_ready c s' /\
    running c s' = rings p !! (k mod length (rings p))%nat.
Proof.
  intros Hi Hl Ht Hr. pose proof (top_prio_spec _ _ Ht) as (_ & Hne & _).
  assert (exists s' t rings', repeatM k (sched64_reschedule c) s = Done tt s' t /\ lock_ready c s' /\
    running c s' = head (Nat.iter k rotate (rings p)) /\ sched_inv s' rings' /\
    top_prio rings' = Some p /\ rings' p = Nat.iter k rotate (rings p)) as (s' & t & _ & E & Hl' & Hr' & _).
  { clear Hne. revert s rings Hi Hl Ht Hr. induction k as [|k IH]; intros s rings Hi Hl Ht Hr.
    { exists s, [], rings. split_and!; done. }
    destruct (reschedule_turn c s rings p Hi Hl Ht Hr) as (s1 & t1 & E1 & Hl1 & Hi1 & Hr1 & Ht1).
    assert (upd_ring rings p (rotate (rings p)) p = rotate (rings p)) as Hup
      by (unfold upd_ring; by rewrite decide_True).
    destruct (IH s1 _ Hi1 Hl1 Ht1) as (s2 & t2 & r2 & E2 & Hl2 & Hr2 & Hi2 & Ht2 & Hrp); [by rewrite Hup|].
    rewrite Hup in *. exists s2, (t1 ++ t2), r2. cbn [repeatM].
    rewrite (bind_done _ _ _ _ _ _ E1), E2. rewrite Nat.iter_succ_r. split_and!; done. }
  exists s', t. split_and!; [done..|]. rewrite Hr', rotate_iter by done. apply rot_head.
  apply Nat.mod_upper_bound. by destruct (rings p).
Qed.

(** C24: on a CPU that runs the first thread of the highest
    priority ring [l], the thread running after [k] reschedules is the one at position
    [k mod length l]: every thread of that priority runs once in every [length l]
    reschedules. *)
Theorem sched64_round_robin c k (s : sched P) rings p :
  sched_inv s rings -> lock_ready c s -> top_prio rings = Some p -> running c s = head (rings p) ->
  exists s' t, repeatM k (sched64_reschedule c) s = Done tt s' t /\ lock_ready c s' /\
    running c s' = rings p !! (k mod length (rings p))%nat.
Proof. by apply round_robin_run. Qed.

(** What a tick does. *)
Lemma timer_tick_sim c (s : sched P) rings cur :
  sched_inv s rings -> lock_ready c s -> running c s = Some cur ->
  exists s' t rings', sched64_timer_tick c s = Done tt s' t /\ sched_inv s' rings' /\ lock_ready c s' /\
    (forall d, d <> c -> nk_count d (s_lock s') = nk_count d (s_lock s)) /\
    if time_slice (thr cur s) =? 1
    then time_slice (thr cur s') = 5 /\
         exists t1, sched64_reschedule c (upd_thread cur (set_slice 5) s) = Done tt s' t1
    else time_slice (thr cur s') = time_slice (thr cur s) - 1 /\ current s' = current s /\ t = [].
Proof.
  intros Hi Hl Hr. pose proof (sv_current _ _ Hi c cur Hr) as Hc. pose proof (sv_slice _ _ Hi cur Hc) as Hs.
  assert (cur < length (threads64 s))%nat as Hcl.
  { rewrite (sv_thr_len _ _ Hi). pose proof (sv_count _ _ Hi). lia. }
  assert (forall v, 1 <= v <= 5 -> sched_inv (upd_thread cur (set_slice v) s) rings) as Hup.
  { intros v Hv. pose proof Hi as [I1 I2 I3 I4 I5 I6 I7 I8 I9 I10 I11 I12 I13 I14].
    assert (forall j, next (thr j (upd_thread cur (set_slice v) s)) = next (thr j s) /\
      priority (thr j (upd_thread cur (set_slice v) s)) = priority (thr j s)) as Hj.
    { intros j. destruct (decide (cur = j)) as [<-|]; [by rewrite thr_upd_eq|by rewrite thr_upd_ne]. }
    constructor; auto.
    - simpl. by rewrite length_insert.
    - intros q Hq. specialize (I9 q Hq). unfold ring in *. destruct (rings q); [done|].
      apply (path_ext (nxt_of s)); [|done]. intros x _. apply Hj.
    - intros q j Hq. rewrite I11 by done. by destruct (Hj j) as [_ ->].
    - intros j Hj'. destruct (Hj j) as [_ ->]. by apply I12.
    - intros j Hj'. destruct (decide (cur = j)) as [<-|]; [by rewrite thr_upd_eq|].
      rewrite thr_upd_ne by done. by apply I14. }
  unfold sched64_timer_tick. mstep. rewrite Hr. cbv zeta.
  destruct (Z.ltb_spec 0 (time_slice (thr cur s))); [|lia]. mstep.
  destruct (Z.eqb_spec (time_slice (thr cur s)) 1) as [E1|E1].
  - rewrite E1. change (1 - 1 =? 0) with true. cbv iota. mstep.
    assert (upd_thread cur (set_slice 5) (upd_thread cur (set_slice (1 - 1)) s) =
      upd_thread cur (set_slice 5) s) as Hu.
    { unfold upd_thread at 1. rewrite thr_upd_eq by done. unfold upd_thread. simpl. f_equal.
      by rewrite list_insert_insert_eq. }
    rewrite Hu.
    assert (lock_ready c (upd_thread cur (set_slice 5) s)) as Hl1 by done.
    pose proof Hl as (_ & _ & Hn & _). unfold NKern_IsLocked. cbn [upd_thread s_lock]. rewrite Hn.
    change (0 <? 0) with false. cbv iota.
    pose proof (reschedule_sim c _ rings (Hup 5 ltac:(lia)) Hl1) as (s' & t & E & Hl' & _ & Hoth & _ & Hts & Hres).
    assert (exists rings', sched_inv s' rings') as [rings' Hi']
      by (destruct (top_prio rings); destruct Hres as [Hres _]; by eexists).
    exists s', t, rings'. split; [exact E|]. split; [done|]. split; [done|]. split; [exact Hoth|]. split.
    + rewrite Hts, thr_upd_eq by done. done.
    + exists t. exact E.
  - destruct (Z.eqb_spec (time_slice (thr cur s) - 1) 0); [lia|]. unfold ret. simpl.
    eexists _, _, rings. split; [done|]. split; [apply Hup; lia|]. split; [done|]. split; [done|].
    rewrite thr_upd_eq by done. done.
Qed.

(** C26: a tick with more than one slice left takes one off
    and switches nothing; the last one gives a new slice of 5 and reschedules; in
    both cases all rings and slices stay in order.  (The lock is free: ticks only
    arrive with interrupts on.) *)
Theorem sched64_timer_tick_correct c (s : sched P) rings cur :
  sched_inv s rings -> lock_ready c s -> running c s = Some cur ->
  exists s' t rings', sched64_timer_tick c s = Done tt s' t /\ sched_inv s' rings' /\ lock_ready c s' /\
    if time_slice (thr cur s) =? 1
    then time_slice (thr cur s') = 5 /\
         exists t1, sched64_reschedule c (upd_thread cur (set_slice 5) s) = Done tt s' t1
    else time_slice (thr cur s') = time_slice (thr cur s) - 1 /\ current s' = current s /\ t = [].
Proof.
  intros Hi Hl Hr. destruct (timer_tick_sim c s rings cur Hi Hl Hr) as (s' & t & rings' & E & Hi' & Hl' & _ & H).
  by exists s', t, rings'.
Qed.

(** No threads yet. *)
Lemma init_inv (s : sched P) :
  length (threads64 s) = MAX_THREADS64 -> length (cpu_rsp s) = MAX_SCHED_CPUS ->
  length (loaded_cr3 s) = MAX_SCHED_CPUS -> length (dummy_rsp s) = MAX_SCHED_CPUS ->
  sched_inv (final (sched64_init s)) (fun _ => []).
Proof.
  intros H1 H2 H3 H4. split; try done; cbn; try lia.
  - intros p _. apply Z.bits_0.
  - intros p Hp. do 8 (destruct p as [|p]; [done|]). lia.
  - constructor.
  - intros p i _. rewrite elem_of_nil. lia.
  - intros c i. unfold running. cbn. intros Hc. do 16 (destruct c as [|c]; [done|]). by destruct c.
Qed.

(** [sched64_reschedule] never looks at a thread's state:
    two idle CPUs that reschedule one after the other both start the first thread of
    the top ring, on the same stack, whatever other threads are ready. *)
Theorem sched64_same_thread_twice c d (s : sched P) rings p h l :
  sched_inv s rings -> lock_ready c s -> c <> d -> (d < MAX_CPUS)%nat ->
  nk_count d (s_lock s) = 0 -> top_prio rings = Some p -> rings p = h :: l ->
  running c s = None -> running d s = None ->
  exists s1 t1 s2 t2, sched64_reschedule c s = Done tt s1 t1 /\ sched64_reschedule d s1 = Done tt s2 t2 /\
    running c s2 = Some h /\ running d s2 = Some h.
Proof.
  intros Hi Hl Hcd Hd Hn Ht Hr Hc0 Hd0. assert (c < MAX_CPUS)%nat as Hc by (by destruct Hl as (_ & ? & _)).
  destruct (reschedule_sim c s rings Hi Hl) as (s1 & t1 & E1 & Hl1 & _ & Hoth & _ & _ & H1).
  rewrite Ht in H1. cbv zeta in H1. unfold turned in H1. rewrite Hr, Hc0, decide_False in H1 by done.
  destruct H1 as (Hi1 & Hc1 & _).
  assert (lock_ready d s1) as Hld.
  { destruct Hl1 as (Hwf & _ & _ & Hb). split_and!; try done.
    by rewrite Hoth. }
  destruct (reschedule_sim d s1 _ Hi1 Hld) as (s2 & t2 & E2 & _ & _ & _ & _ & _ & H2).
  assert (top_prio (upd_ring rings p (h :: l)) = Some p) as Ht1.
  { rewrite <- Ht. apply top_prio_ext. intros q _. unfold upd_ring.
    destruct (decide (q = p)) as [->|]; [rewrite Hr|]; reflexivity. }
  rewrite Ht1 in H2. cbv zeta in H2. destruct H2 as (_ & Hc2 & _).
  assert (running d s1 = None) as Hd1 by (unfold running; by rewrite Hc1, nth_insert_ne).
  assert (upd_ring rings p (h :: l) p = h :: l) as Hu by (unfold upd_ring; by rewrite decide_True).
  unfold turned in Hc2. rewrite Hu, Hd1, decide_False in Hc2 by done.
  exists s1, t1, s2, t2. split_and!; [done..| |]; unfold running; rewrite Hc2.
  - rewrite nth_insert_ne by done. rewrite Hc1. apply nth_insert_eq. rewrite (sv_cur_len _ _ Hi). exact Hc.
  - apply nth_insert_eq. rewrite (sv_cur_len _ _ Hi1). exact Hd.
Qed.
End Theorems.

(** ** A concrete scheduler: two threads of priority 4; CPU 0 runs [cur] *)

Definition demo_thread (n : nat) : thread64 := mkThread 0x500000 0x401000 4 T64_READY 5 "demo" (Some n).

Definition demo_sched (cur : option nat) : sched (paging memmap) :=
  mkSched 16 (<[4%nat := Some 0%nat]> (replicate NUM_PRIORITIES64 None))
    (<[0%nat := cur]> (replicate MAX_SCHED_CPUS None))
    (demo_thread 1 :: demo_thread 0 :: replicate 14 thread_zero) 2
    (replicate MAX_SCHED_CPUS 0) (replicate MAX_SCHED_CPUS 0) (replicate MAX_SCHED_CPUS 0x300000)
    demo_paging nkern_boot.

Definition demo_rings (p : nat) : list nat := if (p =? 4)%nat then [0; 1]%nat else [].

Lemma demo_sched_inv cur : cur = None \/ cur = Some 0%nat -> sched_inv (demo_sched cur) demo_rings.
Proof.
  intros Hcur. constructor; try done; try (simpl; unfold MAX_THREADS64; lia).
  - intros p Hp. do 8 (destruct p as [|p]; [done|]). lia.
  - intros p Hp. do 8 (destruct p as [|p]; [done|]). lia.
  - intros p Hp. do 8 (destruct p as [|p]; [done|]). lia.
  - intros p Hp. unfold demo_rings. destruct (Nat.eqb_spec p 4); [|constructor].
    by apply (bool_decide_unpack _).
  - intros p i Hp. unfold demo_rings. simpl. destruct (Nat.eqb_spec p 4) as [->|Hne].
    + rewrite !elem_of_cons, elem_of_nil. split.
      * intros [->|[->|[]]]; split; done || lia.
      * intros [Hi _]. lia.
    + rewrite elem_of_nil. split; [done|]. intros [Hi He].
      destruct i as [|[|i]]; [unfold thr in He; simpl in He; lia..|lia].
  - intros i Hi. simpl in Hi. destruct i as [|[|i]]; [unfold thr; simpl; lia..|lia].
  - intros c i Hi. unfold running in Hi. simpl in *. destruct c as [|c].
    + simpl in Hi. destruct Hcur as [-> | ->]; [done|]. injection Hi as <-. lia.
    + simpl in Hi. do 15 (destruct c as [|c]; [done|]). by destruct c.
  - intros i Hi. simpl in Hi. destruct i as [|[|i]]; [unfold thr; simpl; lia..|lia].
Qed.

Lemma demo_lock_ready c cur : (c < MAX_CPUS)%nat -> lock_ready c (demo_sched cur).
Proof.
  intros Hc. split_and!; try done. simpl. unfold MAX_CPUS in *.
  do 16 (destruct c as [|c]; [done|]). lia.
Qed.

Lemma sched64_create_thread_correct_witness : exists s',
  sched64_create_thread (AS := paging_spaces demo_pool) 0x500000 0x100200 0x100400 4 "demo" (demo_sched None) =
    Done (Some 2%nat) s' [] /\
  sched_inv s' (upd_ring demo_rings 4 [0; 1; 2]%nat) /\
  load64 (as_mem (AddressSpaces := paging_spaces demo_pool) (s_space s')) (rsp (thr 2 s') + 64) = 0x100400.
Proof.
  destruct (boot_frames demo_pool demo_paging demo_at_boot) as (W & V & _).
  destruct (create_address_space_run demo_pool demo_paging _ _ _ _ _ _ W V) as (p' & E & _).
  { apply (demo_frames_ok [0; 1; 2; 3; 4]). by repeat constructor. }
  pose proof (sched64_create_thread_correct (AS := paging_spaces demo_pool)
    (AL := paging_spaces_laws demo_pool) 0x500000 0x100200 (demo_sched None) demo_rings 0x100400 4 "demo"
    _ p' [] (demo_sched_inv None ltac:(by left)) ltac:(lia) ltac:(lia) ltac:(lia) eq_refl E) as H.
  destruct H as (s' & E' & Hi & _ & _ & _ & _ & _ & _ & He & _). exists s'. split_and!; done.
Defined.


Lemma sched64_round_robin_witness : exists s' t,
  repeatM 5 (sched64_reschedule 0) (demo_sched (Some 0%nat)) = Done tt s' t /\ running 0 s' = Some 1%nat.
Proof.
  destruct (sched64_round_robin 0 5 (demo_sched (Some 0%nat)) demo_rings 4)
    as (s' & t & E & _ & Hr).
  - apply demo_sched_inv. by right.
  - apply demo_lock_ready. unfold MAX_CPUS. lia.
  - reflexivity.
  - reflexivity.
  - exists s', t. split; [exact E|]. by rewrite Hr.
Defined.

Lemma sched64_timer_tick_correct_witness : exists s' t,
  sched64_timer_tick 0 (demo_sched (Some 0%nat)) = Done tt s' t /\ time_slice (thr 0 s') = 4.
Proof.
  destruct (sched64_timer_tick_correct 0 (demo_sched (Some 0%nat)) demo_rings 0)
    as (s' & t & _ & E & _ & _ & H & _).
  - apply demo_sched_inv. by right.
  - apply demo_lock_ready. unfold MAX_CPUS. lia.
  - reflexivity.
  - exists s', t. exact (conj E H).
Defined.

Lemma sched64_same_thread_twice_witness : exists s1 t1 s2 t2,
  sched64_reschedule 0 (demo_sched None) = Done tt s1 t1 /\ sched64_reschedule 1 s1 = Done tt s2 t2 /\
  running 0 s2 = Some 0%nat /\ running 1 s2 = Some 0%nat.
Proof.
  apply (sched64_same_thread_twice 0 1 (demo_sched None) demo_rings 4 0 [1%nat]).
  - apply demo_sched_inv. by left.
  - apply demo_lock_ready. unfold MAX_CPUS. lia.
  - lia.
  - unfold MAX_CPUS. lia.
  - reflexivity.
  - reflexivity.
  - reflexivity.
  - reflexivity.
  - reflexivity.
Defined.
