(* ===== verification/Sched64Reach.v ===== *)
(** * The scheduler over any history

    The states of the scheduler that creations, reschedules and ticks, on any CPUs in any
    order, lead to from [sched64_init].  The operations run under the kernel lock, one
    after the other ([NKernSmp], [HeapSmp] show what the lock gives). *)

From S2P Require Import Prelude Memory Machine KernLock NKern NKernSmp AddressSpaces.
From S2P Require Import FrameSource Memmap MemmapTheorems Paging PagingSpec PagingProof PagingSpaces PagingTheorems.
From S2P Require Import Sched64 Sched64Spec Sched64Proof Sched64Run Sched64Create Sched64Theorems.

Section Reach.
Context {P : Type} {AS : AddressSpaces P} {AL : AddressSpacesLaws P}.
Context (threads64_addr thread_start64 : Z).

Inductive sched_step : sched P -> sched P -> Prop :=
| ss_create entry prio nm s r s' t :
    0 <= prio < 256 -> (exists space p' t0, as_create (s_space s) = Done space p' t0) ->
    sched64_create_thread threads64_addr thread_start64 entry prio nm s = Done r s' t -> sched_step s s'
| ss_reschedule c s s' t :
    (c < MAX_CPUS)%nat -> sched64_reschedule c s = Done tt s' t -> sched_step s s'
| ss_tick c s s' t :
    (c < MAX_CPUS)%nat -> sched64_timer_tick c s = Done tt s' t -> sched_step s s'.

(** The static arrays before [sched64_init], with the lock free. *)
Record static_ok (s : sched P) : Prop := {
  so_threads : length (threads64 s) = MAX_THREADS64;
  so_cpu : length (cpu_rsp s) = MAX_SCHED_CPUS;
  so_cr3 : length (loaded_cr3 s) = MAX_SCHED_CPUS;
  so_dummy : length (dummy_rsp s) = MAX_SCHED_CPUS;
  so_lock c : (c < MAX_CPUS)%nat -> lock_ready c s
}.

Inductive sched_reach : sched P -> Prop :=
| sr_init s s' t : static_ok s -> sched64_init s = Done tt s' t -> sched_reach s'
| sr_step s s' : sched_reach s -> sched_step s s' -> sched_reach s'.

Definition sched_ok (s : sched P) : Prop :=
  (exists rings, sched_inv s rings) /\ forall c, (c < MAX_CPUS)%nat -> lock_ready c s.

(** An operation on CPU [c] that leaves the lock as it found it. *)
Lemma lock_ready_all c (s s' : sched P) :
  (forall d, (d < MAX_CPUS)%nat -> lock_ready d s) -> lock_ready c s' ->
  (forall d, d <> c -> nk_count d (s_lock s') = nk_count d (s_lock s)) ->
  forall d, (d < MAX_CPUS)%nat -> lock_ready d s'.
Proof.
  intros Hall Hc Hoth d Hd. destruct (decide (d = c)) as [->|Hne]; [done|].
  destruct Hc as (Hwf & _ & _ & Hb), (Hall d Hd) as (_ & _ & Hn & _). split_and!; try done. by rewrite Hoth.
Qed.

(** Every operation returns, in a state that is well formed again. *)
Lemma reschedule_ok c s : sched_ok s -> (c < MAX_CPUS)%nat ->
  exists s' t, sched64_reschedule c s = Done tt s' t /\ sched_ok s'.
Proof.
  intros [[rings Hi] Hl] Hc.
  destruct (reschedule_sim c s rings Hi (Hl c Hc)) as (s' & t & E & Hl' & _ & Hoth & _ & _ & H).
  exists s', t. split; [done|]. split; [|by eapply lock_ready_all].
  destruct (top_prio rings); destruct H as [H _]; by eexists.
Qed.

Lemma tick_ok c s : sched_ok s -> (c < MAX_CPUS)%nat ->
  exists s' t, sched64_timer_tick c s = Done tt s' t /\ sched_ok s'.
Proof.
  intros [[rings Hi] Hl] Hc. destruct (running c s) as [cur|] eqn:Hr.
  - destruct (timer_tick_sim c s rings cur Hi (Hl c Hc) Hr) as (s' & t & rings' & E & Hi' & Hl' & Hoth & _).
    exists s', t. split; [done|]. split; [by exists rings'|by eapply lock_ready_all].
  - exists s, []. split; [|split; [by exists rings|done]].
    unfold sched64_timer_tick. mstep. by rewrite Hr.
Qed.

Lemma create_ok entry prio nm s : sched_ok s -> 0 <= prio < 256 ->
  (exists space p' t0, as_create (s_space s) = Done space p' t0) ->
  exists r s' t, sched64_create_thread threads64_addr thread_start64 entry prio nm s = Done r s' t /\ sched_ok s'.
Proof.
  intros [[rings Hi] Hl] Hp (space & p' & t0 & Has). set (i := thread64_count s).
  destruct (decide ((i < MAX_THREADS64)%nat /\ prio < 8)) as [[Hlt Hp8]|Hno].
  - pose proof (create_thread_run threads64_addr thread_start64 entry prio nm s rings space p' t0
      Hi Hlt ltac:(lia) Has) as H. cbv zeta in H. fold i in H. destruct (first_frame _ _ _ _) as [m sp].
    destruct H as (s' & E & Ha & Hlk & _). exists (Some i), s', t0. split; [done|]. split.
    + eexists. apply (inv_append s s'); try done; lia.
    + intros c Hc. unfold lock_ready. rewrite Hlk. by apply Hl.
  - exists None, s, []. split; [|split; [by exists rings|done]].
    unfold sched64_create_thread. mstep. fold i. unfold NUM_PRIORITIES64.
    destruct (Nat.leb_spec MAX_THREADS64 i); [done|]. destruct (Z.leb_spec (Z.of_nat 8) prio); [done|]. lia.
Qed.

Lemma sched_reach_ok s : sched_reach s -> sched_ok s.
Proof.
  induction 1 as [s s' t [H1 H2 H3 H4 H5] E|s s' _ IH Hst].
  - pose proof (init_inv s H1 H2 H3 H4) as Hi. unfold sched64_init, modify in *. injection E as <- _.
    split; [by eexists|]. intros c Hc. apply (H5 c Hc).
  - destruct Hst as [entry prio nm s r s' t Hp Has E|c s s' t Hc E|c s s' t Hc E].
    + destruct (create_ok entry prio nm s IH Hp Has) as (r1 & s1 & t1 & E1 & Hok). rewrite E in E1.
      by injection E1 as _ -> _.
    + destruct (reschedule_ok c s IH Hc) as (s1 & t1 & E1 & Hok). rewrite E in E1. by injection E1 as -> _.
    + destruct (tick_ok c s IH Hc) as (s1 & t1 & E1 & Hok). rewrite E in E1. by injection E1 as -> _.
Qed.

(** C6: in every state the scheduler gets to, whatever threads are created and however
    reschedules and ticks of the 16 CPUs follow each other, its data is well formed: the
    queues are rings without repetition of exactly the created threads of their
    priority, the bitmap says which are not empty, every CPU runs no thread or a created
    one, slices are between 1 and 5, and the lock is free; and from there every
    operation returns: nothing is ever dereferenced that is not there. *)
Theorem sched64_well_formed s :
  sched_reach s ->
  (exists rings,
     (forall p, (p < 8)%nat -> NoDup (rings p) /\ queue_head p s = head (rings p) /\ ring (nxt_of s) (rings p) /\
        Z.testbit (ready_bitmap s) (Z.of_nat p) = (match rings p with [] => false | _ => true end) /\
        forall i, i ∈ rings p <-> (i < thread64_count s)%nat /\ priority (thr i s) = Z.of_nat p)) /\
  (forall c i, running c s = Some i -> (i < thread64_count s)%nat) /\
  (forall i, (i < thread64_count s)%nat -> 1 <= time_slice (thr i s) <= 5 /\ 0 <= priority (thr i s) < 8) /\
  (forall c, (c < MAX_CPUS)%nat -> lock_ready c s) /\
  (forall c, (c < MAX_CPUS)%nat ->
     (exists s' t, sched64_reschedule c s = Done tt s' t) /\ (exists s' t, sched64_timer_tick c s = Done tt s' t)) /\
  (forall entry prio nm, 0 <= prio < 256 -> (exists space p' t0, as_create (s_space s) = Done space p' t0) ->
     exists r s' t, sched64_create_thread threads64_addr thread_start64 entry prio nm s = Done r s' t).
Proof.
  intros Hok%sched_reach_ok. pose proof Hok as [[rings Hi] Hl]. split_and!.
  - exists rings. intros p Hp. split_and!; [by apply (sv_nodup _ _ Hi)|by apply (sv_heads _ _ Hi)|
      by apply (sv_ring _ _ Hi)|by apply (sv_bits _ _ Hi)|intros i; by apply (sv_members _ _ Hi)].
  - apply (sv_current _ _ Hi).
  - intros i Hlt. split; [by apply (sv_slice _ _ Hi)|by apply (sv_prio _ _ Hi)].
  - done.
  - intros c Hc. destruct (reschedule_ok c s Hok Hc) as (s1 & t1 & E1 & _), (tick_ok c s Hok Hc) as (s2 & t2 & E2 & _).
    split; [by exists s1, t1|by exists s2, t2].
  - intros entry prio nm Hp Has. destruct (create_ok entry prio nm s Hok Hp Has) as (r & s1 & t1 & E & _). by exists r, s1, t1.
Qed.
End Reach.

(** ** A thread is created from boot, and CPU 1 reschedules *)

Definition reach_boot : sched (paging memmap) := final (sched64_init (demo_sched None)).

Lemma reach_boot_reach : sched_reach (AS := paging_spaces demo_pool) 0x500000 0x100200 reach_boot.
Proof.
  eapply (sr_init (AS := paging_spaces demo_pool) _ _ (demo_sched None)); [|reflexivity].
  split; try reflexivity. intros c Hc. by apply demo_lock_ready.
Qed.

Lemma sched64_well_formed_witness : exists s1 s2 t2,
  sched_reach (AS := paging_spaces demo_pool) 0x500000 0x100200 s1 /\ thread64_count s1 = 1%nat /\
  sched64_reschedule 1 s1 = Done tt s2 t2.
Proof.
  destruct (boot_frames demo_pool demo_paging demo_at_boot) as (W & V & _).
  destruct (create_address_space_run demo_pool demo_paging _ _ _ _ _ _ W V) as (p' & E & _).
  { apply (demo_frames_ok [0; 1; 2; 3; 4]). by repeat constructor. }
  assert (exists space p1 t0, as_create (AddressSpaces := paging_spaces demo_pool) (s_space reach_boot) = Done space p1 t0)
    as Has by (eexists _, p', []; exact E).
  destruct (sched64_well_formed (AS := paging_spaces demo_pool) 0x500000 0x100200
    reach_boot reach_boot_reach) as (_ & _ & _ & _ & _ & H).
  destruct (H 0x100400 4 "demo" ltac:(lia) Has) as (r & s1 & t1 & E1). clear H.
  assert (sched_reach (AS := paging_spaces demo_pool) 0x500000 0x100200 s1) as Hr1
    by (eapply sr_step; [exact reach_boot_reach|by eapply (ss_create (AS := paging_spaces demo_pool) _ _ _ 4)]).
  destruct (sched64_well_formed (AS := paging_spaces demo_pool) 0x500000 0x100200
    s1 Hr1) as (_ & _ & _ & _ & H & _).
  destruct (H 1%nat) as [(s2 & t2 & E2) _]; [unfold MAX_CPUS; lia|].
  exists s1, s2, t2. split; [exact Hr1|]. split; [|exact E2].
  destruct (create_thread_run (AS := paging_spaces demo_pool) 0x500000 0x100200 0x100400 4 "demo"
    reach_boot (fun _ => []) _ p' [] (init_inv (demo_sched None) eq_refl eq_refl eq_refl eq_refl) ltac:(unfold MAX_THREADS64; cbn; lia) ltac:(lia) E)
    as (s1' & E1' & Ha & _). rewrite E1' in E1. injection E1 as _ <- _. by destruct Ha.
Defined.
