(* ===== verification/SchedSlices.v ===== *)
(** * The scheduler does not look at time slices when it switches

    [sched64_reschedule] neither reads nor writes the slices of the threads, so it
    commutes with any change of them.  This is what makes the timer's unlocked accesses
    to them harmless for the queues ([SchedSmp]). *)

From S2P Require Import Prelude Memory Machine KernLock NKern AddressSpaces.
From S2P Require Import Sched64 Sched64Spec Sched64Proof Sched64Run.

(** ** Computations that commute with a change of the state *)

Section Commute.
Context {S : Type}.

Definition at_state {A} (g : S -> S) (o : outcome S A) : outcome S A :=
  match o with
  | Done a s t => Done a (g s) t
  | Panic m c s t => Panic m c (g s) t
  | Hang s t => Hang (g s) t
  end.

Lemma at_state_trace {A} g t (o : outcome S A) : at_state g (add_trace t o) = add_trace t (at_state g o).
Proof. by destruct o. Qed.

(** At one state: the rest of the computation may use what it has read. *)
Lemma commute_bind {A B} g (m : M S A) (k1 k2 : A -> M S B) s :
  m (g s) = at_state g (m s) -> (forall a s', k1 a (g s') = at_state g (k2 a s')) ->
  bind m k1 (g s) = at_state g (bind m k2 s).
Proof.
  intros Hm Hk. unfold bind. rewrite Hm. destruct (m s) as [a s' t| |]; cbn [at_state]; [|done..].
  by rewrite Hk, at_state_trace.
Qed.

Lemma commute_modify g (f : S -> S) s : f (g s) = g (f s) -> modify f (g s) = at_state g (modify f s).
Proof. unfold modify. cbn. by intros ->. Qed.

Lemma commute_zoom {T A} g (view : S -> T) upd (m : M T A) s :
  view (g s) = view s -> (forall t, upd t (g s) = g (upd t s)) ->
  zoom view upd m (g s) = at_state g (zoom view upd m s).
Proof. intros Hv Hu. unfold zoom. rewrite Hv. destruct (m (view s)); cbn; by rewrite Hu. Qed.
End Commute.

(** ** Other slices *)

Section Slices.
Context {P : Type} {AS : AddressSpaces P}.
Notation sched := (sched P).

Definition with_slices (f : nat -> Z) (s : sched) : sched :=
  mkSched (ready_bitmap s) (ready_queue s) (current s) (imap (fun i t => set_slice (f i) t) (threads64 s))
    (thread64_count s) (loaded_cr3 s) (dummy_rsp s) (cpu_rsp s) (s_space s) (s_lock s).

Definition slices (s : sched) (i : nat) : Z := time_slice (thr i s).

Lemma thr_with f s i : (i < length (threads64 s))%nat -> thr i (with_slices f s) = set_slice (f i) (thr i s).
Proof.
  intros Hi. destruct (lookup_lt_is_Some_2 _ _ Hi) as [t Ht].
  unfold thr. cbn. rewrite !nth_lookup, list_lookup_imap, Ht. done.
Qed.
Lemma thr_with_ge f s i : (length (threads64 s) <= i)%nat -> thr i (with_slices f s) = thr i s.
Proof. intros Hi. unfold thr. cbn. by rewrite !nth_overflow by (rewrite ?length_imap; lia). Qed.

(** All but the slice is the same. *)
Lemma thr_with_fields f s i :
  next (thr i (with_slices f s)) = next (thr i s) /\ priority (thr i (with_slices f s)) = priority (thr i s) /\
  rsp (thr i (with_slices f s)) = rsp (thr i s) /\ cr3 (thr i (with_slices f s)) = cr3 (thr i s).
Proof.
  destruct (decide (i < length (threads64 s))%nat).
  - by rewrite thr_with.
  - by rewrite thr_with_ge by lia.
Qed.

Lemma upd_with f g i s :
  (forall v t, g (set_slice v t) = set_slice v (g t)) ->
  upd_thread i g (with_slices f s) = with_slices f (upd_thread i g s).
Proof.
  intros Hg. destruct (decide (i < length (threads64 s))%nat) as [Hi|Hi].
  2:{ unfold upd_thread, with_slices. cbn. by rewrite !list_insert_ge by (rewrite ?length_imap; lia). }
  unfold upd_thread. rewrite (thr_with f s i Hi), Hg. unfold with_slices. cbn. f_equal.
  apply list_eq. intros j. rewrite list_lookup_imap. destruct (decide (i = j)) as [<-|Hne].
  - rewrite !list_lookup_insert_eq by (rewrite ?length_imap; lia). done.
  - by rewrite !list_lookup_insert_ne, list_lookup_imap by done.
Qed.

Lemma with_with f g s : with_slices f (with_slices g s) = with_slices f s.
Proof.
  unfold with_slices. cbn. f_equal. apply list_eq. intros j. rewrite !list_lookup_imap.
  by destruct (threads64 s !! j).
Qed.

Lemma with_ext f g s : (forall i, (i < length (threads64 s))%nat -> f i = g i) -> with_slices f s = with_slices g s.
Proof.
  intros H. unfold with_slices. f_equal. apply imap_ext. intros i t Hi.
  f_equal. apply H. by eapply lookup_lt_Some.
Qed.

Lemma with_own s : with_slices (slices s) s = s.
Proof.
  destruct s as [b q c ths n l d r p k]. unfold with_slices. cbn. f_equal. apply list_eq. intros j.
  rewrite list_lookup_imap. unfold slices, thr. cbn. destruct (ths !! j) as [t|] eqn:E; [|done].
  rewrite nth_lookup, E. by destruct t.
Qed.

(** A change of one slice. *)
Lemma slice_with i v s :
  upd_thread i (set_slice v) s = with_slices (fun j => if decide (j = i) then v else slices s j) s.
Proof.
  unfold upd_thread, with_slices, slices, thr. f_equal. apply list_eq. intros j. rewrite list_lookup_imap.
  destruct (decide (j = i)) as [->|Hne].
  - destruct (decide (i < length (threads64 s))%nat) as [Hi|Hi].
    + rewrite list_lookup_insert_eq by done. destruct (lookup_lt_is_Some_2 _ _ Hi) as [t Ht].
      by rewrite nth_lookup, Ht.
    + rewrite list_insert_ge by lia. by rewrite lookup_ge_None_2 by lia.
  - rewrite list_lookup_insert_ne by done. destruct (threads64 s !! j) as [t|] eqn:E; [|done].
    rewrite nth_lookup, E. by destruct t.
Qed.

(** ** The operations *)

Lemma lock_with {A} f (m : M nkern A) s : in_lock m (with_slices f s) = at_state (with_slices f) (in_lock m s).
Proof. by apply commute_zoom. Qed.

Lemma switch_to_with f c nx prev s :
  switch_to c nx prev (with_slices f s) = at_state (with_slices f) (switch_to c nx prev s).
Proof.
  unfold switch_to, context_switch64. apply commute_bind; [by apply commute_modify|]. intros [] s1.
  apply commute_bind; [by apply commute_modify, upd_with|]. intros [] s2.
  apply commute_bind; [destruct prev; [by apply commute_modify, upd_with|done]|]. intros [] s3.
  rewrite !bind_get. destruct (thr_with_fields f s3 nx) as (_ & _ & _ & ->).
  change (loaded_cr3 (with_slices f s3)) with (loaded_cr3 s3).
  apply commute_bind; [destruct (negb _); [by apply commute_modify|done]|]. intros [] s4.
  apply commute_bind; [by destruct (negb _)|]. intros [] s5.
  rewrite !bind_get. destruct (thr_with_fields f s5 nx) as (_ & _ & -> & _).
  change (cpu_rsp (with_slices f s5)) with (cpu_rsp s5).
  apply commute_bind; [destruct prev; apply commute_modify; [by apply upd_with|done]|]. intros [] s6.
  by apply commute_modify.
Qed.

Lemma reschedule_with f c s :
  sched64_reschedule c (with_slices f s) = at_state (with_slices f) (sched64_reschedule c s).
Proof.
  unfold sched64_reschedule. apply commute_bind; [apply lock_with|]. intros [] s1. rewrite !bind_get.
  change (ready_bitmap (with_slices f s1)) with (ready_bitmap s1).
  destruct (_ <? 0); [apply lock_with|].
  change (queue_head ?p (with_slices f s1)) with (queue_head p s1).
  destruct (queue_head _ s1) as [h|]; [|done].
  destruct (thr_with_fields f s1 h) as (-> & _). change (running c (with_slices f s1)) with (running c s1).
  cbv zeta. destruct (if _ && _ then _ else _) as [n|]; [|done].
  apply commute_bind; [destruct (_ && _); [by apply commute_modify|done]|]. intros [] s2.
  destruct (decide _); [apply lock_with|]. apply commute_bind; [apply switch_to_with|]. intros [] s3. apply lock_with.
Qed.

(** The invariant of [Sched64Spec], whatever the slices are. *)
Lemma inv_with s rings f : sched_inv s rings -> (forall i, 1 <= f i <= 5) -> sched_inv (with_slices f s) rings.
Proof.
  intros [I1 I2 I3 I4 I5 I6 I7 I8 I9 I10 I11 I12 I13 I14] Hf. split; auto.
  - cbn. by rewrite length_imap.
  - intros p Hp. specialize (I9 p Hp). unfold ring in *. destruct (rings p); [done|].
    apply (path_ext (nxt_of s)); [|done]. intros x _. apply thr_with_fields.
  - intros p i Hp. rewrite I11 by done. by destruct (thr_with_fields f s i) as (_ & -> & _).
  - intros i Hi. destruct (thr_with_fields f s i) as (_ & -> & _). by apply I12.
  - intros i Hi. cbn in Hi. rewrite thr_with by (rewrite I3; lia). apply Hf.
Qed.
End Slices.
