(* ===== verification/SchedSmp.v ===== *)
(** * The scheduler on several CPUs

    Reschedules and timer ticks of all CPUs interleaved with each other and with every
    step of the kernel lock ([NKernSmp]).  A reschedule enters [NKern_LockForSwitch];
    once its CPU holds the lock the critical section, from the choice of the thread to
    the switch of stacks, reads the scheduler's data at its beginning and its writes
    become visible at its end.  A tick takes no lock: each of its accesses to
    [current[c]->time_slice] (line 151 of sched64.c) is a step of its own.

    The steps allow more than the hardware does: ticks come at any time, whatever the
    interrupt flag, and a CPU may reschedule whenever it is not doing so already. *)

From S2P Require Import Prelude Memory Machine KernLock NKern NKernSmp AddressSpaces.
From S2P Require Import FrameSource Memmap MemmapTheorems Paging PagingSpec PagingProof PagingSpaces PagingTheorems.
From S2P Require Import Sched64 Sched64Spec Sched64Proof Sched64Run Sched64Create Sched64Theorems Sched64Reach SchedSlices.

Section Smp.
Context {P : Type} {AS : AddressSpaces P} {AL : AddressSpacesLaws P}.
Context (threads64_addr thread_start64 : Z) (fresh : bool).
Notation sched := (sched P).

(** Where a CPU stands in [sched64_reschedule]; [SBusy]: with the data as it found it. *)
Inductive sact := SIdle | SCall | SBusy (found : sched) | SFinish.

(** Where it stands in [sched64_timer_tick]: it has seen a slice above 0; it has read the
    slice again and is about to store it less one; it has used the slice up. *)
Inductive stick := TNone | TTested (cur : nat) | TLoaded (cur : nat) (v : Z) | TUsed (cur : nat).

(** [sm_lock] is the lock; the copy inside of [sm_data] is the one the critical section
    runs on, which it finds free and leaves free. *)
Record ssys := mkSsys {
  sm_lock : sys;
  sm_data : sched;
  sm_act : nat -> sact;
  sm_tick : nat -> stick
}.

Definition at_cpu {A} (c : nat) (a : A) (f : nat -> A) : nat -> A := fun i => if decide (i = c) then a else f i.

(** The data after a critical section that leaves [s']: it does not write slices, so
    these are as the ticks have left them in [cur]. *)
Definition end_section (s' cur : sched) : sched := with_slices (slices cur) s'.

Inductive sstep : ssys -> ssys -> Prop :=
| S_lock l l' d a k :              (* the lock: spinning, other critical sections *)
    lstep fresh l l' ->
    (forall c, pc_of c (snd l') = pc_of c (snd l) \/ a c = SIdle \/ pc_of c (snd l) = Spin) ->
    sstep (mkSsys l d a k) (mkSsys l' d a k)
| S_call c lk ps lk' d a k t :     (* up to the spin in [NKern_LockForSwitch] *)
    (c < MAX_CPUS)%nat -> pc_of c ps = Free -> a c = SIdle -> LockForSwitch_enter c lk = Done tt lk' t ->
    sstep (mkSsys (lk, ps) d a k)
      (mkSsys (lk', <[c := if nk_count c lk' =? 1 then Spin else Hold]> ps) d (at_cpu c SCall a) k)
| S_begin c l d a k :
    a c = SCall -> pc_of c (snd l) = Hold ->
    sstep (mkSsys l d a k) (mkSsys l d (at_cpu c (SBusy d) a) k)
| S_end c found s' l d a k t :
    a c = SBusy found -> sched64_reschedule c found = Done tt s' t ->
    sstep (mkSsys l d a k) (mkSsys l (end_section s' d) (at_cpu c SFinish a) k)
| S_unlock c l l' d a k :          (* [NKern_UnlockAfterSwitch] *)
    a c = SFinish -> lstep fresh l l' -> (forall i, i <> c -> pc_of i (snd l') = pc_of i (snd l)) ->
    sstep (mkSsys l d a k) (mkSsys l' d (at_cpu c SIdle a) k)
| S_tick_test c cur l d a k :      (* [cur->time_slice > 0] *)
    k c = TNone -> running c d = Some cur -> 0 < slices d cur ->
    sstep (mkSsys l d a k) (mkSsys l d a (at_cpu c (TTested cur) k))
| S_tick_load c cur l d a k :      (* [--cur->time_slice] *)
    k c = TTested cur ->
    sstep (mkSsys l d a k) (mkSsys l d a (at_cpu c (TLoaded cur (u32 (slices d cur - 1))) k))
| S_tick_store c cur v l d a k :
    k c = TLoaded cur v ->
    sstep (mkSsys l d a k)
      (mkSsys l (upd_thread cur (set_slice v) d) a (at_cpu c (if v =? 0 then TUsed cur else TNone) k))
| S_tick_reload c cur l d a k :    (* [cur->time_slice = 5]; the reschedule is an [S_call] *)
    k c = TUsed cur ->
    sstep (mkSsys l d a k) (mkSsys l (upd_thread cur (set_slice 5) d) a (at_cpu c TNone k)).

Inductive sreach : ssys -> Prop :=
| SR_boot d : sched_reach threads64_addr thread_start64 d ->
    sreach (mkSsys (nkern_boot, replicate MAX_CPUS Free) d (fun _ => SIdle) (fun _ => TNone))
| SR_step s s' : sreach s -> sstep s s' -> sreach s'.

(** ** The invariant *)

Definition sbusy (a : sact) : Prop := match a with SBusy _ => True | _ => False end.

(** Well formed but for the slices. *)
Definition data_ok (d : sched) : Prop := sched_ok (with_slices (fun _ => 1) d).

Record sinv (s : ssys) : Prop := {
  si_lock : linv fresh (sm_lock s);
  si_cpu c : sm_act s c <> SIdle -> (c < MAX_CPUS)%nat;
  si_busy c : sbusy (sm_act s c) -> pc_of c (snd (sm_lock s)) = Hold;
  si_data : data_ok (sm_data s);
  si_found c f : sm_act s c = SBusy f -> exists g, sm_data s = with_slices g f
}.

Lemma data_ok_with f d : data_ok d -> data_ok (with_slices f d).
Proof. unfold data_ok. by rewrite with_with. Qed.

Lemma sched_data_ok d : sched_ok d -> data_ok d.
Proof. intros [[rings Hi] Hl]. split; [|exact Hl]. exists rings. apply inv_with; [done|lia]. Qed.

(** A reschedule on well-formed data returns, whatever the slices. *)
Lemma reschedule_data c d : data_ok d -> (c < MAX_CPUS)%nat ->
  exists s' t, sched64_reschedule c d = Done tt s' t /\ data_ok s'.
Proof.
  intros Hd Hc. destruct (reschedule_ok c _ Hd Hc) as (s1 & t & E & Hok). exists (with_slices (slices d) s1), t.
  rewrite <- (with_own d) at 1. rewrite <- (with_with _ (fun _ => 1)), reschedule_with, E. split; [done|].
  by apply data_ok_with, sched_data_ok.
Qed.

Lemma sbusy_one s c d : sinv s -> sbusy (sm_act s c) -> sbusy (sm_act s d) -> c = d.
Proof.
  intros Hs Hc Hd. apply (li_excl _ _ (si_lock _ Hs)); try (by apply (si_busy _ Hs));
    apply (si_cpu _ Hs); [by destruct (sm_act s c)|by destruct (sm_act s d)].
Qed.

(** The critical section has the effect of a reschedule of the data as they are now. *)
Lemma section_now s c found : sinv s -> sm_act s c = SBusy found ->
  exists s' t, sched64_reschedule c found = Done tt s' t /\
    sched64_reschedule c (sm_data s) = Done tt (end_section s' (sm_data s)) t /\ data_ok s'.
Proof.
  intros Hs Ha. destruct (si_found _ Hs c found Ha) as [g E].
  assert (found = with_slices (slices found) (sm_data s)) as Ef by (by rewrite E, with_with, with_own).
  destruct (reschedule_data c found) as (s' & t & E1 & Hok).
  - rewrite Ef. apply data_ok_with, (si_data _ Hs).
  - apply (si_cpu _ Hs). by rewrite Ha.
  - exists s', t. split; [done|]. split; [|done]. unfold end_section.
    rewrite <- (with_own (sm_data s)) at 1. rewrite E at 2. by rewrite with_with, reschedule_with, E1.
Qed.

(** ** Preservation *)

(** The lock moves; CPUs in their critical section stay there. *)
Lemma sinv_lock s l' : sinv s -> linv fresh l' ->
  (forall c, sbusy (sm_act s c) -> pc_of c (snd l') = Hold) ->
  sinv (mkSsys l' (sm_data s) (sm_act s) (sm_tick s)).
Proof. intros [H1 H2 H3 H4 H5] Hl Hp. by split. Qed.

(** A CPU moves on without leaving or entering its critical section. *)
Lemma sinv_move s c a' : sinv s -> (c < MAX_CPUS)%nat -> ~ sbusy a' ->
  sinv (mkSsys (sm_lock s) (sm_data s) (at_cpu c a' (sm_act s)) (sm_tick s)).
Proof.
  intros [H1 H2 H3 H4 H5] Hc Ha. split; cbn; try done; intros d; unfold at_cpu; case_decide as E; auto.
  - by subst.
  - done.
  - intros f ->. by destruct Ha.
  - apply H5.
Qed.

(** A tick changes a slice, at most. *)
Lemma sinv_tick s f k' : sinv s -> sinv (mkSsys (sm_lock s) (with_slices f (sm_data s)) (sm_act s) k').
Proof.
  intros [H1 H2 H3 H4 H5]. split; cbn; try done; [by apply data_ok_with|].
  intros c found Ha. destruct (H5 c found Ha) as [g ->]. exists f. apply with_with.
Qed.

Lemma sinv_keep s k' : sinv s -> sinv (mkSsys (sm_lock s) (sm_data s) (sm_act s) k').
Proof. intros Hs. rewrite <- (with_own (sm_data s)) at 1. by apply sinv_tick. Qed.

Lemma sinv_step s s' : sinv s -> sstep s s' -> sinv s'.
Proof.
  intros Hs Hst. pose proof Hs as [H1 H2 H3 H4 H5]. destruct Hst as
    [l l' d a k Hl Hp|c lk ps lk' d a k t Hc Hpc Ha E|c l d a k Ha Hp|c found s' l d a k t Ha E|c l l' d a k Ha Hl Hp
    |c cur l d a k Hk Hr Hpos|c cur l d a k Hk|c cur v l d a k Hk|c cur l d a k Hk]; cbn [sm_lock sm_data sm_act sm_tick] in *.
  - apply (sinv_lock (mkSsys l d a k)); [done|by eapply linv_step|]. intros c Hb.
    destruct (Hp c) as [->|[Hc|Hc]]; [by apply H3|cbn in Hb; by rewrite Hc in Hb|]. rewrite (H3 c Hb) in Hc. done.
  - refine (sinv_move (mkSsys (lk', _) d a k) c SCall _ Hc _); [|by intros []].
    apply (sinv_lock (mkSsys (lk, ps) d a k)); [done|eapply linv_step; [exact H1|eapply LLockForSwitch; [done| |done]]|].
    + by rewrite Hpc.
    + intros i Hb. cbn [sm_act snd] in *. assert (i <> c) as Hne by (intros ->; by rewrite Ha in Hb).
      unfold pc_of. rewrite nth_insert_ne by done. by apply H3.
  - assert (c < MAX_CPUS)%nat as Hc by (apply H2; by rewrite Ha).
    split; cbn; try done; intros i; unfold at_cpu; case_decide as Ei; auto.
    + by subst.
    + by subst.
    + intros f [= <-]. exists (slices d). by rewrite with_own.
    + apply H5.
  - destruct (section_now (mkSsys l d a k) c found Hs Ha) as (s1 & t1 & E1 & _ & Hok). rewrite E in E1.
    injection E1 as <- _. split; cbn; try done.
    + intros i. unfold at_cpu. case_decide; [subst; intros _; apply H2; by rewrite Ha|apply H2].
    + intros i. unfold at_cpu. case_decide; [done|apply H3].
    + by apply data_ok_with.
    + intros i f. unfold at_cpu. case_decide as Ei; [done|]. intros Hi. destruct Ei.
      apply (sbusy_one (mkSsys l d a k) i c Hs); cbn; [by rewrite Hi|by rewrite Ha].
  - refine (sinv_move (mkSsys l' d a k) c SIdle _ _ _); [|apply H2; by rewrite Ha|by intros []].
    apply (sinv_lock (mkSsys l d a k)); [done|by eapply linv_step|]. cbn. intros i Hb.
    assert (i <> c) as Hne by (intros ->; by rewrite Ha in Hb). rewrite Hp by done. by apply H3.
  - by apply (sinv_keep (mkSsys l d a k)).
  - by apply (sinv_keep (mkSsys l d a k)).
  - rewrite slice_with. by apply (sinv_tick (mkSsys l d a k)).
  - rewrite slice_with. by apply (sinv_tick (mkSsys l d a k)).
Qed.

Lemma sreach_inv s : sreach s -> sinv s.
Proof.
  induction 1 as [d Hd|s s' _ IH Hst]; [|by eapply sinv_step].
  split; cbn; try done.
  - apply linv_boot.
  - by apply sched_data_ok, (sched_reach_ok threads64_addr thread_start64).
Qed.

(** C8: however the reschedules and ticks of all CPUs interleave, only one CPU is in the
    critical section of [sched64_reschedule]; whatever it has read at the beginning,
    when it ends it has done to the data as they are then exactly what the whole
    [sched64_reschedule] does, run at once; the ticks in between, which take no lock,
    change no queue, no bitmap and no current thread, and at every moment the queues are
    rings of exactly the created threads of their priority and every CPU runs a created
    thread or none. *)
Theorem sched_smp_atomic s :
  sreach s ->
  (forall c d, sbusy (sm_act s c) -> sbusy (sm_act s d) -> c = d) /\
  (forall c found, sm_act s c = SBusy found -> exists s' t,
     sched64_reschedule c found = Done tt s' t /\
     sched64_reschedule c (sm_data s) = Done tt (end_section s' (sm_data s)) t) /\
  (exists rings, forall p, (p < 8)%nat ->
     NoDup (rings p) /\ queue_head p (sm_data s) = head (rings p) /\ ring (nxt_of (sm_data s)) (rings p) /\
     Z.testbit (ready_bitmap (sm_data s)) (Z.of_nat p) = (match rings p with [] => false | _ => true end) /\
     forall i, i ∈ rings p <->
       (i < thread64_count (sm_data s))%nat /\ priority (thr i (sm_data s)) = Z.of_nat p) /\
  (forall c i, running c (sm_data s) = Some i -> (i < thread64_count (sm_data s))%nat).
Proof.
  intros Hs%sreach_inv. split_and!.
  - intros c d. by apply sbusy_one.
  - intros c found Ha. destruct (section_now s c found Hs Ha) as (s' & t & E1 & E2 & _). by exists s', t.
  - destruct (si_data _ Hs) as [[rings Hi] _]. exists rings. intros p Hp. split_and!.
    + by apply (sv_nodup _ _ Hi).
    + apply (sv_heads _ _ Hi p Hp).
    + pose proof (sv_ring _ _ Hi p Hp) as Hr. unfold ring in *. destruct (rings p); [done|].
      apply (path_ext (nxt_of (with_slices (fun _ => 1) (sm_data s)))); [|done]. intros x _.
      symmetry. apply thr_with_fields.
    + apply (sv_bits _ _ Hi p Hp).
    + intros i. rewrite (sv_members _ _ Hi) by done. by destruct (thr_with_fields (fun _ => 1) (sm_data s) i) as (_ & -> & _).
  - intros c i. destruct (si_data _ Hs) as [[rings Hi] _]. apply (sv_current _ _ Hi).
Qed.

(** Two CPUs that run the same thread (see [sched64_same_thread_twice]) may both see a
    slice of 1 and both take one off: it wraps around, and the thread is not preempted
    for the next 2^32 ticks. *)
Theorem sched_smp_slice_wraps l d a c c' i :
  sreach (mkSsys l d a (fun _ => TNone)) -> c <> c' -> running c d = Some i -> running c' d = Some i -> slices d i = 1 ->
  exists s', sreach s' /\ slices (sm_data s') i = 2 ^ 32 - 1 /\ sm_tick s' c' = TNone.
Proof.
  intros Hr Hne Hc Hc' Hsl.
  assert (i < length (threads64 d))%nat as Hi.
  { destruct (decide (i < length (threads64 d))%nat); [done|]. unfold slices, thr in Hsl.
    rewrite nth_overflow in Hsl by lia. done. }
  set (k1 := at_cpu c' (TTested i) (at_cpu c (TTested i) (fun _ => TNone))).
  set (k2 := at_cpu c (TLoaded i 0) k1). set (d1 := upd_thread i (set_slice 0) d).
  set (k3 := at_cpu c (TUsed i) k2). set (k4 := at_cpu c' (TLoaded i (2 ^ 32 - 1)) k3).
  assert (slices d1 i = 0) as H1 by (unfold slices, d1; by rewrite thr_upd_eq).
  exists (mkSsys l (upd_thread i (set_slice (2 ^ 32 - 1)) d1) a (at_cpu c' TNone k4)). split_and!.
  - eapply SR_step; [|apply S_tick_store; unfold k4, at_cpu; by rewrite decide_True].
    eapply SR_step; [|unfold k4; pose proof (S_tick_load c' i l d1 a k3) as S; rewrite H1 in S; apply S].
    2:{ unfold k3, k2, k1, at_cpu. by rewrite !(decide_False (P := c' = c)), decide_True. }
    eapply SR_step; [|apply (S_tick_store c i 0); unfold k2, at_cpu; by rewrite decide_True].
    eapply SR_step; [|unfold k2; pose proof (S_tick_load c i l d a k1) as S; rewrite Hsl in S; apply S].
    2:{ unfold k1, at_cpu. by rewrite decide_False, decide_True. }
    eapply SR_step; [|apply (S_tick_test c' i); [unfold at_cpu; by rewrite decide_False|done|lia]].
    eapply SR_step; [exact Hr|apply (S_tick_test c i); [done|done|lia]].
  - unfold slices. cbn [sm_data]. rewrite thr_upd_eq; [done|]. unfold d1. cbn. by rewrite length_insert.
  - cbn. unfold at_cpu. by rewrite decide_True.
Qed.
End Smp.

(** ** One thread, which CPU 1 runs *)

#[local] Instance demo_spaces : AddressSpaces (paging memmap) := paging_spaces demo_pool.
#[local] Instance demo_laws : AddressSpacesLaws (paging memmap) := paging_spaces_laws demo_pool.

Definition ring0 : nat -> list nat := upd_ring (fun _ => []) 4 [0%nat].

Lemma demo_created : exists s, sched_reach 0x500000 0x100200 s /\ sched_inv s ring0 /\
  (forall c, running c s = None) /\ slices s 0 = 5.
Proof.
  destruct (boot_frames demo_pool demo_paging demo_at_boot) as (W & V & _).
  destruct (create_address_space_run demo_pool demo_paging _ _ _ _ _ _ W V) as (p' & E & _).
  { apply (demo_frames_ok [0; 1; 2; 3; 4]). by repeat constructor. }
  pose proof (init_inv (demo_sched None) eq_refl eq_refl eq_refl eq_refl : sched_inv reach_boot _) as Hi.
  pose proof (create_thread_run 0x500000 0x100200 0x100400 4 "demo" reach_boot (fun _ => []) _ p' [] Hi
    ltac:(unfold MAX_THREADS64; cbn; lia) ltac:(lia) E) as H. cbv zeta in H. destruct (first_frame _ _ _ _) as [m sp].
  destruct H as (s & E1 & Ha & _). exists s. split_and!.
  - eapply sr_step; [exact reach_boot_reach|]. eapply (ss_create _ _ _ 4); [lia|by exists (demo_pool), p', []|exact E1].
  - apply (inv_append reach_boot s (fun _ => []) 4 Hi); [lia|unfold MAX_THREADS64; cbn; lia|exact Ha].
  - intros c. unfold running. rewrite (ap_current _ _ _ _ _ Ha). cbn. do 16 (destruct c as [|c]; [done|]). by destruct c.
  - apply (ap_new _ _ _ _ _ Ha).
Qed.

(** A CPU without a thread takes the only one, whoever runs it. *)
Lemma demo_take c s : sched_reach 0x500000 0x100200 s -> sched_inv s ring0 -> (c < MAX_CPUS)%nat -> running c s = None ->
  exists s' t, sched64_reschedule c s = Done tt s' t /\ sched_inv s' ring0 /\ current s' = <[c := Some 0%nat]> (current s) /\
    slices s' 0 = slices s 0.
Proof.
  intros Hr Hi Hc Hn. destruct (sched_reach_ok _ _ _ Hr) as [_ Hl].
  destruct (reschedule_sim c s ring0 Hi (Hl c Hc)) as (s' & t & E & _ & _ & _ & _ & Hs & H).
  change (top_prio ring0) with (Some 4%nat) in H. cbv zeta in H. rewrite Hn in H.
  change (turned (ring0 4%nat) None) with [0%nat] in H. destruct H as (Hi' & Hcur & _).
  exists s', t. split_and!; [done| |exact Hcur|apply Hs].
  destruct Hi' as [I1 I2 I3 I4 I5 I6 I7 I8 I9 I10 I11 I12 I13 I14]. split; try done; intros p.
  all: specialize (I7 p); specialize (I8 p); specialize (I9 p); specialize (I10 p); specialize (I11 p).
  all: assert (upd_ring ring0 4 [0%nat] p = ring0 p) as Ep by (unfold ring0, upd_ring; by destruct (decide (p = 4%nat))).
  all: rewrite Ep in *; assumption.
Qed.

Lemma demo_running : exists s, sched_reach 0x500000 0x100200 s /\ sched_inv s ring0 /\
  running 0 s = None /\ running 1 s = Some 0%nat /\ slices s 0 = 5.
Proof.
  destruct demo_created as (s & Hr & Hi & Hn & Hs).
  destruct (demo_take 1 s Hr Hi ltac:(unfold MAX_CPUS; lia) (Hn 1%nat)) as (s' & t & E & Hi' & Hc & Hs').
  exists s'. split_and!; try done.
  - eapply sr_step; [exact Hr|]. eapply (ss_reschedule _ _ 1); [unfold MAX_CPUS; lia|exact E].
  - unfold running. rewrite Hc, nth_insert_ne by done. apply Hn.
  - unfold running. rewrite Hc. apply nth_insert_eq. rewrite (sv_cur_len _ _ Hi). unfold MAX_SCHED_CPUS. lia.
  - congruence.
Qed.

(** CPU 0 is in its critical section while CPU 1 takes a tick. *)
Definition section_lock0 : sys :=
  (final (test_and_set (final (LockForSwitch_enter 0 nkern_boot))),
   <[0%nat := Hold]> (<[0%nat := Spin]> (replicate MAX_CPUS Free))).
Definition in_section (d : sched (paging memmap)) (k : nat -> stick) : ssys :=
  mkSsys section_lock0 d (at_cpu 0 (SBusy d) (at_cpu 0 SCall (fun _ => SIdle))) k.

Lemma in_section_reach d : sched_reach 0x500000 0x100200 d -> sreach 0x500000 0x100200 true (in_section d (fun _ => TNone)).
Proof.
  intros Hd. eapply SR_step; [|apply S_begin; [done|reflexivity]].
  set (lk := final (LockForSwitch_enter 0 nkern_boot)).
  apply (SR_step _ _ _ (mkSsys (lk, <[0%nat := Spin]> (replicate MAX_CPUS Free)) d (at_cpu 0 SCall (fun _ => SIdle)) (fun _ => TNone))).
  - eapply SR_step; [by apply SR_boot|]. by apply (S_call _ 0 nkern_boot _ lk _ _ _ [EInstr "cli" 0]); [unfold MAX_CPUS; lia|..].
  - apply S_lock.
    + by apply (LSpin true 0 lk _ 0 _ []); [unfold MAX_CPUS; lia|..].
    + intros c. destruct c as [|c]; [by right; right|by right; left].
Qed.

Lemma sched_smp_atomic_witness : exists (d s' : sched (paging memmap)) t,
  running 1 d = Some 0%nat /\ sched64_reschedule 0 d = Done tt s' t /\
  sched64_reschedule 0 (upd_thread 0 (set_slice 4) d) = Done tt (end_section s' (upd_thread 0 (set_slice 4) d)) t.
Proof.
  destruct demo_running as (d & Hr & Hi & H0 & H1 & Hs).
  assert (sreach 0x500000 0x100200 true (mkSsys section_lock0 (upd_thread 0 (set_slice 4) d)
    (at_cpu 0 (SBusy d) (at_cpu 0 SCall (fun _ => SIdle))) 
    (at_cpu 1 TNone (at_cpu 1 (TLoaded 0 4) (at_cpu 1 (TTested 0) (fun _ => TNone)))))) as Hx.
  { eapply SR_step; [|by apply (S_tick_store _ 1 0 4)].
    eapply SR_step; [|pose proof (S_tick_load true 1 0 section_lock0 d
      (at_cpu 0 (SBusy d) (at_cpu 0 SCall (fun _ => SIdle))) (at_cpu 1 (TTested 0) (fun _ => TNone)) eq_refl) as S;
      rewrite Hs in S; exact S].
    eapply SR_step; [by apply in_section_reach|]. apply (S_tick_test _ 1); [done|done|lia]. }
  destruct (sched_smp_atomic 0x500000 0x100200 true _ Hx) as (_ & H & _).
  destruct (H 0%nat d eq_refl) as (s' & t & E1 & E2). by exists d, s', t.
Defined.

(** CPU 0 takes the thread too, and four ticks bring its slice to 1. *)
Lemma demo_tick s : sched_reach 0x500000 0x100200 s -> running 1 s = Some 0%nat -> 1 < slices s 0 ->
  exists s', sched_reach 0x500000 0x100200 s' /\ current s' = current s /\ slices s' 0 = slices s 0 - 1.
Proof.
  intros Hr H1 Hs. destruct (sched_reach_ok _ _ _ Hr) as [[rings Hi] Hl].
  destruct (timer_tick_sim 1 s rings 0 Hi (Hl 1%nat ltac:(unfold MAX_CPUS; lia)) H1) as (s' & t & _ & E & _ & _ & _ & H).
  fold (slices s 0%nat) (slices s' 0%nat) in H. destruct (Z.eqb_spec (slices s 0) 1); [lia|]. destruct H as (Hv & Hc & _).
  exists s'. split_and!; try done. eapply sr_step; [exact Hr|].
  eapply (ss_tick _ _ 1); [unfold MAX_CPUS; lia|exact E].
Qed.

Lemma sched_smp_slice_wraps_witness : exists s' : ssys,
  sreach (P := paging memmap) 0x500000 0x100200 true s' /\ slices (sm_data s') 0 = 2 ^ 32 - 1.
Proof.
  destruct demo_running as (s & Hr & Hi & H0 & H1 & Hs).
  destruct (demo_take 0 s Hr Hi ltac:(unfold MAX_CPUS; lia) H0) as (d & t & E & Hi' & Hc & Hs').
  assert (sched_reach 0x500000 0x100200 d) as Hd
    by (eapply sr_step; [exact Hr|eapply (ss_reschedule _ _ 0); [unfold MAX_CPUS; lia|exact E]]).
  assert (running 0 d = Some 0%nat /\ running 1 d = Some 0%nat) as [R0 R1].
  { unfold running. rewrite Hc. split; [|by rewrite nth_insert_ne].
    apply nth_insert_eq. rewrite (sv_cur_len _ _ Hi). unfold MAX_SCHED_CPUS. lia. }
  rewrite Hs in Hs'. clear s Hr Hi H0 H1 Hs Hc E.
  assert (forall n, (n <= 4)%nat -> exists d', sched_reach 0x500000 0x100200 d' /\ current d' = current d /\
    slices d' 0 = 5 - Z.of_nat n) as H.
  { intros n. induction n as [|n IH]; intros Hn; [by exists d|]. destruct (IH ltac:(lia)) as (d1 & A1 & A2 & A3).
    destruct (demo_tick d1 A1) as (d2 & B1 & B2 & B3); [unfold running; by rewrite A2|lia|].
    exists d2. split_and!; [done|congruence|lia]. }
  destruct (H 4%nat ltac:(lia)) as (d' & A1 & A2 & A3).
  destruct (sched_smp_slice_wraps 0x500000 0x100200 true _ d' _ 0 1 0 (SR_boot _ _ _ d' A1)) as (s' & W1 & W2 & _);
    [done|unfold running; by rewrite A2|unfold running; by rewrite A2|done|]. by exists s'.
Defined.
