(* ===== verification/Keyboard.v ===== *)
(** * keyboard.c: the keyboard driver

    Scan code translation with the shift state, and the ring buffer between the
    interrupt handler and its readers.  The byte read from port 0x60 is an argument.
    Characters are their ASCII codes. *)

From S2P Require Import Prelude Machine.

(** Initialisers shorter than the array leave zeros. *)
Definition pad128 (l : list Z) : list Z := l ++ replicate (128 - length l) 0.

Definition scancode_ascii : list Z := pad128
  [0; 27; 49; 50; 51; 52; 53; 54; 55; 56; 57; 48; 45; 61; 8;
   9; 113; 119; 101; 114; 116; 121; 117; 105; 111; 112; 91; 93; 10;
   0; (* left ctrl *)
   97; 115; 100; 102; 103; 104; 106; 107; 108; 59; 39; 96;
   0; (* left shift *)
   92; 122; 120; 99; 118; 98; 110; 109; 44; 46; 47;
   0; (* right shift *)
   42; 0; 32].

Definition scancode_ascii_shift : list Z := pad128
  [0; 27; 33; 64; 35; 36; 37; 94; 38; 42; 40; 41; 95; 43; 8;
   9; 81; 87; 69; 82; 84; 89; 85; 73; 79; 80; 123; 125; 10;
   0;
   65; 83; 68; 70; 71; 72; 74; 75; 76; 58; 34; 126;
   0;
   124; 90; 88; 67; 86; 66; 78; 77; 60; 62; 63;
   0; 42; 0; 32].

Definition KBD_SCANCODE_LSHIFT : Z := 0x2A.
Definition KBD_SCANCODE_RSHIFT : Z := 0x36.
Definition KBD_BUF_SIZE : Z := 256.

Record kbd := mkKbd {
  shift_held : bool;
  kbd_buffer : list Z;
  kbd_head : Z;
  kbd_tail : Z
}.

Definition kbd_boot : kbd := mkKbd false (replicate (Z.to_nat KBD_BUF_SIZE) 0) 0 0.

Definition kbd_buffer_push (c : Z) : M kbd unit := modify (fun k =>
  let nxt := (kbd_head k + 1) mod KBD_BUF_SIZE in
  if nxt =? kbd_tail k then k
  else mkKbd (shift_held k) (<[Z.to_nat (kbd_head k) := c]> (kbd_buffer k)) nxt (kbd_tail k)).

(** The character, or [None] for the return value 0. *)
Definition kbd_buffer_pop : M kbd (option Z) :=
  k <- get ;;
  if kbd_tail k =? kbd_head k then ret None else
  let c := nth (Z.to_nat (kbd_tail k)) (kbd_buffer k) 0 in
  modify (fun k => mkKbd (shift_held k) (kbd_buffer k) (kbd_head k)
                     ((kbd_tail k + 1) mod KBD_BUF_SIZE)) ;;;
  ret (Some c).

Definition set_shift (b : bool) : M kbd unit :=
  modify (fun k => mkKbd b (kbd_buffer k) (kbd_head k) (kbd_tail k)).

Definition char_string (c : Z) : string := String (Ascii.ascii_of_nat (Z.to_nat c)) EmptyString.

Definition keyboard_handle_irq (scancode : Z) : M kbd unit :=
  if (scancode =? KBD_SCANCODE_LSHIFT) || (scancode =? KBD_SCANCODE_RSHIFT) then set_shift true
  else if (scancode =? Z.lor KBD_SCANCODE_LSHIFT 0x80) || (scancode =? Z.lor KBD_SCANCODE_RSHIFT 0x80)
  then set_shift false
  else if negb (Z.land scancode 0x80 =? 0) then ret tt
  else
    k <- get ;;
    let c := nth (Z.to_nat scancode)
               (if shift_held k then scancode_ascii_shift else scancode_ascii) 0 in
    if negb (c =? 0) then
      kbd_buffer_push c ;;;
      kprint "[kbd] key: '" ;;;
      kprint (char_string c) ;;;
      kprint ("'" +:+ nl)
    else ret tt.

(** ** The buffer as a queue *)

Record kbd_wf (k : kbd) : Prop := {
  kw_len : length (kbd_buffer k) = Z.to_nat KBD_BUF_SIZE;
  kw_head : 0 <= kbd_head k < KBD_BUF_SIZE;
  kw_tail : 0 <= kbd_tail k < KBD_BUF_SIZE
}.

(** Number of characters waiting, and the characters, oldest first. *)
Definition kbd_count (k : kbd) : Z := (kbd_head k - kbd_tail k) mod KBD_BUF_SIZE.
Definition kbd_at (k : kbd) (j : Z) : Z :=
  nth (Z.to_nat ((kbd_tail k + j) mod KBD_BUF_SIZE)) (kbd_buffer k) 0.
Definition kbd_queue (k : kbd) : list Z := kbd_at k <$> seqZ 0 (kbd_count k).

Lemma kbd_queue_ext k k' :
  kbd_count k' = kbd_count k -> (forall j, 0 <= j < kbd_count k -> kbd_at k' j = kbd_at k j) ->
  kbd_queue k' = kbd_queue k.
Proof.
  intros Hc Ha. unfold kbd_queue. rewrite Hc. apply list_fmap_ext.
  intros i x Hx. apply Ha. apply list_elem_of_lookup_2, elem_of_seqZ in Hx. lia.
Qed.

Lemma kbd_count_bound k : 0 <= kbd_count k < KBD_BUF_SIZE.
Proof. apply Z.mod_pos_bound. unfold KBD_BUF_SIZE. lia. Qed.

Lemma kbd_push_spec c k :
  kbd_wf k -> exists k', kbd_buffer_push c k = Done tt k' [] /\ kbd_wf k' /\
    shift_held k' = shift_held k /\
    kbd_queue k' = if kbd_count k =? KBD_BUF_SIZE - 1 then kbd_queue k else kbd_queue k ++ [c].
Proof.
  intros [Hl Hh Ht]. unfold kbd_buffer_push, modify. eexists. split; [done|].
  unfold KBD_BUF_SIZE in *. pose proof (kbd_count_bound k) as Hcb. unfold KBD_BUF_SIZE in Hcb.
  destruct (Z.eqb_spec ((kbd_head k + 1) mod 256) (kbd_tail k)) as [E|E].
  - split_and!; try done. replace (kbd_count k) with 255 by (unfold kbd_count, KBD_BUF_SIZE; dlia). done.
  - assert (kbd_count k < 255) as Hlt.
    { assert (kbd_count k <> 255); [|lia]. unfold kbd_count, KBD_BUF_SIZE. intros H. apply E. dlia. }
    destruct (Z.eqb_spec (kbd_count k) (256 - 1)); [lia|].
    set (k' := mkKbd _ _ _ _). assert (kbd_count k' = kbd_count k + 1) as Hc.
    { unfold kbd_count, k', KBD_BUF_SIZE in *. simpl. dlia. }
    assert (forall j, 0 <= j < kbd_count k -> kbd_at k' j = kbd_at k j) as Ha.
    { intros j Hj. unfold kbd_at, k', KBD_BUF_SIZE. simpl. apply nth_insert_ne.
      unfold kbd_count, KBD_BUF_SIZE in Hj. dlia. }
    split_and!; try done.
    + split; simpl; rewrite ?length_insert; try done; unfold KBD_BUF_SIZE; dlia.
    + unfold kbd_queue. rewrite Hc. rewrite seqZ_app by lia. rewrite fmap_app. f_equal.
      * apply list_fmap_ext. intros i x Hx. apply Ha. apply list_elem_of_lookup_2, elem_of_seqZ in Hx. lia.
      * simpl. f_equal. unfold kbd_at, k', KBD_BUF_SIZE. simpl.
        replace ((kbd_tail k + (Z.of_nat 0 + (0 + kbd_count k))) mod 256) with (kbd_head k)
          by (unfold kbd_count, KBD_BUF_SIZE; dlia).
        apply nth_insert_eq. rewrite Hl. lia.
Qed.

Lemma kbd_pop_spec k :
  kbd_wf k -> exists k', kbd_buffer_pop k = Done (head (kbd_queue k)) k' [] /\ kbd_wf k' /\
    kbd_queue k' = tail (kbd_queue k).
Proof.
  intros Hwf. pose proof Hwf as [Hl Hh Ht]. unfold kbd_buffer_pop. mstep.
  unfold KBD_BUF_SIZE in *. destruct (Z.eqb_spec (kbd_tail k) (kbd_head k)) as [E|E].
  - exists k. unfold kbd_queue. replace (kbd_count k) with 0 by (unfold kbd_count, KBD_BUF_SIZE; dlia).
    done.
  - assert (0 < kbd_count k) as Hpos by (unfold kbd_count, KBD_BUF_SIZE; dlia).
    mstep. eexists. split.
    + unfold ret. repeat f_equal. unfold kbd_queue. rewrite seqZ_cons by lia. simpl. f_equal.
      unfold kbd_at. rewrite Z.add_0_r. unfold KBD_BUF_SIZE. by rewrite Z.mod_small by lia.
    + split; [split; simpl; unfold KBD_BUF_SIZE; [done|lia|dlia]|].
      unfold kbd_queue at 2. rewrite seqZ_cons by lia. rewrite fmap_cons. cbn [tail].
      unfold kbd_queue. set (k' := mkKbd _ _ _ _).
      assert (kbd_count k' = kbd_count k - 1) as Hc
        by (unfold kbd_count, k', KBD_BUF_SIZE in *; simpl; dlia).
      rewrite Hc. replace (Z.pred (kbd_count k)) with (kbd_count k - 1) by lia.
      change (Z.succ 0) with (1 + 0). rewrite <- fmap_add_seqZ, <- list_fmap_compose.
      apply list_fmap_ext. intros i x Hx. apply list_elem_of_lookup_2, elem_of_seqZ in Hx.
      unfold kbd_at, k', KBD_BUF_SIZE. simpl. f_equal. f_equal. dlia.
Qed.

(** ** Theorems *)

(** The key buffer is a first-in first-out queue of at most 255
    characters: a push appends, and is dropped without effect on the queue when 255
    characters wait; a pop takes the oldest character, and reports an empty buffer
    exactly when no character waits. *)
Theorem kbd_buffer_fifo k c :
  kbd_wf k ->
  (exists k', kbd_buffer_push c k = Done tt k' [] /\ kbd_wf k' /\
    kbd_queue k' = if Z.of_nat (length (kbd_queue k)) =? 255 then kbd_queue k else kbd_queue k ++ [c]) /\
  (exists k', kbd_buffer_pop k = Done (head (kbd_queue k)) k' [] /\ kbd_wf k' /\
    kbd_queue k' = tail (kbd_queue k)).
Proof.
  intros Hwf. split.
  - destruct (kbd_push_spec c k Hwf) as (k' & E & Hwf' & _ & Hq). exists k'. split_and!; try done.
    unfold kbd_queue at 2. rewrite length_fmap, length_seqZ, Z2Nat.id by apply kbd_count_bound. done.
  - by apply kbd_pop_spec.
Qed.

Lemma kbd_buffer_fifo_witness :
  exists k', kbd_buffer_push 65 kbd_boot = Done tt k' [] /\ kbd_queue k' = [65].
Proof.
  destruct (kbd_buffer_fifo kbd_boot 65) as [(k' & E & _ & Hq) _].
  - split; done.
  - exists k'. split; [done|]. by rewrite Hq.
Defined.

(** What a scan code does: the new shift state and the character typed, if any. *)
Definition kbd_spec (shift : bool) (scancode : Z) : bool * option Z :=
  if bool_decide (scancode ∈ [0x2A; 0x36]) then (true, None)
  else if bool_decide (scancode ∈ [0xAA; 0xB6]) then (false, None)
  else if 128 <=? scancode then (shift, None)
  else (shift, let c := nth (Z.to_nat scancode) (if shift then scancode_ascii_shift else scancode_ascii) 0 in
               if c =? 0 then None else Some c).

(** Bit 7 tells a release from a press. *)
Lemma make_code_lt x : 0 <= x < 256 -> (Z.land x 0x80 =? 0) = (x <? 128).
Proof.
  intros Hx. apply eq_bool_prop_intro. rewrite !Is_true_true, Z.eqb_eq, Z.ltb_lt.
  rewrite (land_bit_zero x 7) by lia. rewrite Z.testbit_false by lia. dlia.
Qed.

(** The shift keys touch only the shift state. *)
Lemma set_shift_spec b k :
  kbd_wf k -> exists k', set_shift b k = Done tt k' [] /\ kbd_wf k' /\
    shift_held k' = b /\ kbd_queue k' = kbd_queue k.
Proof. intros [Hl Hh Ht]. eexists. split; [reflexivity|]. by split_and!. Qed.

Ltac shift_key b k Hwf :=
  let k' := fresh in let E := fresh in let W := fresh in let S := fresh in let Q := fresh in
  destruct (set_shift_spec b k Hwf) as (k' & E & W & S & Q);
  exists k', []; split_and!; [exact E|exact W|exact S|exact Q|lia].


