(* ===== verification/KeyboardSmp.v ===== *)
(** * keyboard.c: the key buffer between its interrupt handler and a reader

    The handler runs in the middle of the reader's code, or on another CPU at the same
    time: the buffer has no lock.  Here every access to [kbd_head], [kbd_tail] and the
    array is a step of its own, and the steps of one [kbd_buffer_push] and one
    [kbd_buffer_pop] interleave in any way.  (IRQ 1 goes to one CPU, with interrupts off
    in the handler, so there is one producer; there is one reader.)  Memory is
    sequentially consistent here, and the compiler is taken to keep the store of the
    character before the store of [kbd_head]; only the indices are volatile. *)

From stdpp Require Import relations.
From S2P Require Import Prelude Machine Keyboard.

(** ** The accesses *)

(** Where the producer is, with its local variables. *)
Inductive producer :=
| PIdle
| PNext (c : Z)              (* next = (kbd_head + 1) % KBD_BUF_SIZE *)
| PFull (c nxt : Z)          (* next == kbd_tail ? *)
| PIndex (c nxt : Z)         (* the index of kbd_buffer[kbd_head] = c *)
| PStore (c nxt i : Z)       (* its store *)
| PPublish (c nxt : Z).      (* kbd_head = next *)

(** C does not say which operand of [kbd_tail == kbd_head] is read first. *)
Inductive consumer :=
| CIdle
| CTest
| CHead (t : Z)              (* kbd_tail read *)
| CTail (h : Z)              (* kbd_head read *)
| CIndex                     (* the index of kbd_buffer[kbd_tail] *)
| CLoad (t : Z)
| CBump (c : Z)              (* reads kbd_tail for kbd_tail + 1 *)
| CPublish (c t : Z).        (* kbd_tail = (t + 1) % KBD_BUF_SIZE *)

Record ksys := mkKsys { ks : kbd; prod : producer; cons : consumer }.

Definition set_buffer (i c : Z) (k : kbd) : kbd :=
  mkKbd (shift_held k) (<[Z.to_nat i := c]> (kbd_buffer k)) (kbd_head k) (kbd_tail k).
Definition set_head (h : Z) (k : kbd) : kbd := mkKbd (shift_held k) (kbd_buffer k) h (kbd_tail k).
Definition set_tail (t : Z) (k : kbd) : kbd := mkKbd (shift_held k) (kbd_buffer k) (kbd_head k) t.

(** What a finished call has done. *)
Inductive kop := Pushed (c : Z) | Dropped (c : Z) | Popped (c : Z) | Empty.

(** The next access of the producer; the access that decides the outcome is labelled. *)
Definition push_step (k : kbd) (p : producer) : option (kbd * producer * option kop) :=
  match p with
  | PIdle => None
  | PNext c => Some (k, PFull c ((kbd_head k + 1) mod KBD_BUF_SIZE), None)
  | PFull c nxt => if nxt =? kbd_tail k then Some (k, PIdle, Some (Dropped c)) else Some (k, PIndex c nxt, None)
  | PIndex c nxt => Some (k, PStore c nxt (kbd_head k), None)
  | PStore c nxt i => Some (set_buffer i c k, PPublish c nxt, None)
  | PPublish c nxt => Some (set_head nxt k, PIdle, Some (Pushed c))
  end.

(** The next access of the reader; [tail_first] is the compiler's choice. *)
Definition pop_step (tail_first : bool) (k : kbd) (c : consumer) : option (kbd * consumer * option kop) :=
  match c with
  | CIdle => None
  | CTest => if tail_first then Some (k, CHead (kbd_tail k), None)
             else Some (k, CTail (kbd_head k), if kbd_head k =? kbd_tail k then Some Empty else None)
  | CHead t => if t =? kbd_head k then Some (k, CIdle, Some Empty) else Some (k, CIndex, None)
  | CTail h => if kbd_tail k =? h then Some (k, CIdle, None) else Some (k, CIndex, None)
  | CIndex => Some (k, CLoad (kbd_tail k), None)
  | CLoad t => Some (k, CBump (nth (Z.to_nat t) (kbd_buffer k) 0), None)
  | CBump ch => Some (k, CPublish ch (kbd_tail k), None)
  | CPublish ch t => Some (set_tail ((t + 1) mod KBD_BUF_SIZE) k, CIdle, Some (Popped ch))
  end.

Inductive kstep (b : bool) : ksys -> option kop -> ksys -> Prop :=
| k_push c k q : kstep b (mkKsys k PIdle q) None (mkKsys k (PNext c) q)
| k_pop k p : kstep b (mkKsys k p CIdle) None (mkKsys k p CTest)
| k_producer k p q k' p' l : push_step k p = Some (k', p', l) -> kstep b (mkKsys k p q) l (mkKsys k' p' q)
| k_consumer k p q k' q' l : pop_step b k q = Some (k', q', l) -> kstep b (mkKsys k p q) l (mkKsys k' p q').

(** ** What it implements *)

(** A queue of at most 255 characters. *)
Definition fifo_op (q : list Z) (o : kop) (q' : list Z) : Prop :=
  match o with
  | Pushed c => (length q < 255)%nat /\ q' = q ++ [c]
  | Dropped _ => length q = 255%nat /\ q' = q
  | Popped c => q = c :: q'
  | Empty => q = [] /\ q' = q
  end.

(** ** The invariant *)

Definition producer_ok (k : kbd) (p : producer) : Prop :=
  match p with
  | PIdle | PNext _ => True
  | PFull _ nxt => nxt = (kbd_head k + 1) mod KBD_BUF_SIZE
  | PIndex _ nxt => nxt = (kbd_head k + 1) mod KBD_BUF_SIZE /\ kbd_count k < 255
  | PStore _ nxt i => nxt = (kbd_head k + 1) mod KBD_BUF_SIZE /\ kbd_count k < 255 /\ i = kbd_head k
  | PPublish c nxt => nxt = (kbd_head k + 1) mod KBD_BUF_SIZE /\ kbd_count k < 255 /\
      nth (Z.to_nat (kbd_head k)) (kbd_buffer k) 0 = c
  end.

Definition consumer_ok (k : kbd) (q : consumer) : Prop :=
  match q with
  | CIdle | CTest => True
  | CHead t => t = kbd_tail k
  | CTail h => h <> kbd_tail k -> 0 < kbd_count k
  | CIndex => 0 < kbd_count k
  | CLoad t => 0 < kbd_count k /\ t = kbd_tail k
  | CBump c => 0 < kbd_count k /\ head (kbd_queue k) = Some c
  | CPublish c t => 0 < kbd_count k /\ head (kbd_queue k) = Some c /\ t = kbd_tail k
  end.

Definition kinv (s : ksys) : Prop := kbd_wf (ks s) /\ producer_ok (ks s) (prod s) /\ consumer_ok (ks s) (cons s).

(** Publishing a character that is in its place. *)
Lemma queue_publish k :
  kbd_wf k -> kbd_count k < 255 -> let k' := set_head ((kbd_head k + 1) mod KBD_BUF_SIZE) k in
  kbd_wf k' /\ kbd_count k' = kbd_count k + 1 /\
  kbd_queue k' = kbd_queue k ++ [nth (Z.to_nat (kbd_head k)) (kbd_buffer k) 0].
Proof.
  intros [Hl Hh Ht] Hc k'. unfold KBD_BUF_SIZE in *.
  assert (kbd_count k' = kbd_count k + 1) as Hc' by (unfold kbd_count, k', KBD_BUF_SIZE in *; simpl; dlia).
  split; [split; simpl; unfold KBD_BUF_SIZE; [done|dlia|done]|]. split; [done|].
  unfold kbd_queue. rewrite Hc'. rewrite seqZ_app by (pose proof (kbd_count_bound k); lia). rewrite fmap_app. f_equal.
  simpl. f_equal. unfold kbd_at, k', KBD_BUF_SIZE. simpl. f_equal. f_equal.
  unfold kbd_count, KBD_BUF_SIZE in *. dlia.
Qed.

(** Storing behind the queue does not change it. *)
Lemma queue_store k c :
  kbd_wf k -> kbd_count k < 255 -> let k' := set_buffer (kbd_head k) c k in
  kbd_wf k' /\ kbd_count k' = kbd_count k /\ kbd_queue k' = kbd_queue k.
Proof.
  intros [Hl Hh Ht] Hc k'. split; [split; simpl; by rewrite ?length_insert|]. split; [done|].
  apply kbd_queue_ext; [done|]. intros j Hj. unfold kbd_at, k', set_buffer. simpl. apply nth_insert_ne.
  unfold kbd_count, KBD_BUF_SIZE in *. dlia.
Qed.

(** Taking the oldest character. *)
Lemma queue_take k :
  kbd_wf k -> 0 < kbd_count k -> let k' := set_tail ((kbd_tail k + 1) mod KBD_BUF_SIZE) k in
  kbd_wf k' /\ kbd_count k' = kbd_count k - 1 /\
  kbd_queue k = nth (Z.to_nat (kbd_tail k)) (kbd_buffer k) 0 :: kbd_queue k'.
Proof.
  intros Hwf Hc k'. destruct (kbd_pop_spec k Hwf) as (k1 & E & Hwf1 & Hq).
  unfold kbd_buffer_pop in E. rewrite bind_get in E.
  destruct (Z.eqb_spec (kbd_tail k) (kbd_head k)) as [Et|_].
  { unfold kbd_count in Hc. rewrite Et, Z.sub_diag in Hc. done. }
  rewrite bind_modify in E. injection E as E1 E2. fold k' in E2. subst k1.
  split; [done|]. split; [unfold kbd_count, k', KBD_BUF_SIZE in *; simpl; destruct Hwf; dlia|].
  unfold k', set_tail. rewrite Hq. destruct (kbd_queue k); [done|]. simpl in *. by simplify_eq.
Qed.

Lemma head_empty k : kbd_wf k -> (kbd_tail k = kbd_head k <-> kbd_count k = 0).
Proof. intros [_ Hh Ht]. unfold kbd_count, KBD_BUF_SIZE in *. split; intros; dlia. Qed.

Lemma next_full k : kbd_wf k -> ((kbd_head k + 1) mod KBD_BUF_SIZE = kbd_tail k <-> kbd_count k = 255).
Proof. intros [_ Hh Ht]. unfold kbd_count, KBD_BUF_SIZE in *. split; intros; dlia. Qed.

Lemma queue_length k : Z.of_nat (length (kbd_queue k)) = kbd_count k.
Proof. unfold kbd_queue. rewrite length_fmap, length_seqZ, Z2Nat.id; [done|]. apply kbd_count_bound. Qed.

Lemma queue_nil k : kbd_count k = 0 -> kbd_queue k = [].
Proof. intros H. unfold kbd_queue. by rewrite H. Qed.

(** ** Each access *)

(** An access of the producer: what it does to the queue, and that the reader's view of
    its end stays true. *)
Lemma push_step_ok k p q k' p' l :
  kbd_wf k -> producer_ok k p -> consumer_ok k q -> push_step k p = Some (k', p', l) ->
  kbd_wf k' /\ producer_ok k' p' /\ consumer_ok k' q /\
  match l with None => kbd_queue k' = kbd_queue k | Some o => fifo_op (kbd_queue k) o (kbd_queue k') end.
Proof.
  intros W P C E. pose proof (queue_length k) as Hlen. pose proof (kbd_count_bound k) as Hb. unfold KBD_BUF_SIZE in Hb.
  destruct p as [|c|c nxt|c nxt|c nxt i|c nxt]; cbn in E, P.
  - done.
  - injection E as <- <- <-. done.
  - subst nxt. pose proof (next_full k W) as Hf. destruct (Z.eqb_spec ((kbd_head k + 1) mod KBD_BUF_SIZE) (kbd_tail k));
      injection E as <- <- <-; split_and!; try done; [split; [lia|done]|cbn; split; [done|lia]].
  - injection E as <- <- <-. destruct P as [P1 P2]. by split_and!.
  - injection E as <- <- <-. destruct P as (P1 & P2 & ->).
    destruct (queue_store k c W P2) as (W' & Hc & Hq). split; [done|]. split; [|split; [|done]].
    + cbn. split; [done|]. split; [by rewrite <- Hc in P2|]. destruct W as [Hl Hh _]. apply nth_insert_eq.
      rewrite Hl. lia.
    + destruct q; cbn in *; rewrite ?Hc, ?Hq; done.
  - injection E as <- <- <-. destruct P as (-> & P2 & P3).
    destruct (queue_publish k W P2) as (W' & Hc & Hq). rewrite P3 in Hq. split; [done|]. split; [done|]. split.
    + assert (forall x, head (kbd_queue k) = Some x -> head (kbd_queue k ++ [c]) = Some x) as Hh by (by destruct (kbd_queue k)).
      destruct q; cbn [consumer_ok] in *; rewrite ?Hc, ?Hq; destr_and; repeat split; auto; intros; lia.
    + cbn. split; [lia|done].
Qed.

Lemma pop_step_ok b k p q k' q' l :
  kbd_wf k -> producer_ok k p -> consumer_ok k q -> pop_step b k q = Some (k', q', l) ->
  kbd_wf k' /\ producer_ok k' p /\ consumer_ok k' q' /\
  match l with None => kbd_queue k' = kbd_queue k | Some o => fifo_op (kbd_queue k) o (kbd_queue k') end.
Proof.
  intros W P C E. pose proof (queue_length k) as Hlen. pose proof (kbd_count_bound k) as Hb. unfold KBD_BUF_SIZE in Hb.
  pose proof (head_empty k W) as He.
  destruct q as [| |t|h| |t|c|c t]; cbn in E, C.
  - done.
  - destruct b; injection E as <- <- <-; [by split_and!|]. split; [done|]. split; [done|]. split; [cbn; intros; lia|].
    destruct (Z.eqb_spec (kbd_head k) (kbd_tail k)) as [Heq|]; [|done]. split; [|done]. apply queue_nil. by apply He.
  - subst t. destruct (Z.eqb_spec (kbd_tail k) (kbd_head k)); injection E as <- <- <-; split_and!; try done.
    + split; [|done]. apply queue_nil. by apply He.
    + cbn. lia.
  - destruct (Z.eqb_spec (kbd_tail k) h); injection E as <- <- <-; split_and!; try done. cbn. apply C. congruence.
  - injection E as <- <- <-. by split_and!.
  - injection E as <- <- <-. destruct C as [C ->]. split_and!; try done.
    cbn [consumer_ok]. by destruct (queue_take k W C) as (_ & _ & ->).
  - injection E as <- <- <-. destruct C as [C1 C2]. by split_and!.
  - injection E as <- <- <-. destruct C as (C & Hh & ->). destruct (queue_take k W C) as (W' & Hc & Hq).
    rewrite Hq in Hh. injection Hh as Hh. rewrite Hh in Hq. split; [done|]. split; [|split; [done|by rewrite Hq]].
    destruct p; cbn [producer_ok set_tail kbd_head kbd_buffer] in *; rewrite ?Hc; split_and?; try done; try lia.
Qed.

Lemma kstep_ok b s l s' : kinv s -> kstep b s l s' ->
  kinv s' /\ match l with None => kbd_queue (ks s') = kbd_queue (ks s)
                        | Some o => fifo_op (kbd_queue (ks s)) o (kbd_queue (ks s')) end.
Proof.
  intros Hi Hs. destruct Hs as [c k q|k p|k p q k' p' l' E|k p q k' q' l' E]; destruct Hi as (W & P & C);
    unfold kinv; cbn [ks prod cons] in *.
  - split; [split; [exact W|split; [exact I|exact C]]|done].
  - split; [split; [exact W|split; [exact P|exact I]]|done].
  - destruct (push_step_ok k p q k' p' l' W P C E) as (H1 & H2 & H3 & H4). by split_and!.
  - destruct (pop_step_ok b k p q k' q' l' W P C E) as (H1 & H2 & H3 & H4). by split_and!.
Qed.

(** ** Runs *)

Definition label (l : option kop) : list kop := match l with Some o => [o] | None => [] end.

(** Executions, with the outcomes of the calls in order. *)
Inductive kruns (b : bool) : ksys -> list kop -> ksys -> Prop :=
| kr_nil s : kruns b s [] s
| kr_step s l s1 ops s2 : kstep b s l s1 -> kruns b s1 ops s2 -> kruns b s (label l ++ ops) s2.

Lemma kruns_app b s1 o1 s2 o2 s3 : kruns b s1 o1 s2 -> kruns b s2 o2 s3 -> kruns b s1 (o1 ++ o2) s3.
Proof. induction 1 as [|s l s1' ops s2 H _ IH]; intros H2; [done|]. rewrite <- app_assoc. eapply kr_step; eauto. Qed.

(** The characters put in and taken out. *)
Definition pushed (ops : list kop) : list Z := omap (fun o => match o with Pushed c => Some c | _ => None end) ops.
Definition popped (ops : list kop) : list Z := omap (fun o => match o with Popped c => Some c | _ => None end) ops.

Lemma kruns_fifo b s ops s' : kruns b s ops s' -> kinv s ->
  kinv s' /\ kbd_queue (ks s) ++ pushed ops = popped ops ++ kbd_queue (ks s').
Proof.
  induction 1 as [s|s l s1 ops s2 H _ IH]; intros Hi.
  - split; [done|]. apply app_nil_r.
  - destruct (kstep_ok b s l s1 Hi H) as [H1 Hq]. destruct (IH H1) as [H2 E]. split; [done|].
    unfold pushed, popped in *. destruct l as [[c|c|c|]|]; cbn in Hq |- *.
    + destruct Hq as [_ Hq]. rewrite Hq in E. by rewrite <- app_assoc in E.
    + destruct Hq as [_ Hq]. by rewrite <- Hq.
    + rewrite Hq. cbn [app]. by rewrite E.
    + destruct Hq as [_ Hq]. by rewrite <- Hq.
    + by rewrite <- Hq.
Qed.

(** The accesses left to a call, at most. *)
Definition push_left (p : producer) : nat :=
  match p with PIdle => 0 | PNext _ => 5 | PFull _ _ => 4 | PIndex _ _ => 3 | PStore _ _ _ => 2 | PPublish _ _ => 1 end.
Definition pop_left (q : consumer) : nat :=
  match q with CIdle => 0 | CTest => 6 | CHead _ | CTail _ => 5 | CIndex => 4 | CLoad _ => 3 | CBump _ => 2 | CPublish _ _ => 1 end.

Lemma push_step_left k p : p <> PIdle ->
  exists k' p' l, push_step k p = Some (k', p', l) /\ (push_left p' < push_left p)%nat.
Proof. intros H. destruct p; [done|..]; cbn; repeat case_match; by eexists _, _, _; (split; [reflexivity|cbn; lia]). Qed.
Lemma pop_step_left b k q : q <> CIdle ->
  exists k' q' l, pop_step b k q = Some (k', q', l) /\ (pop_left q' < pop_left q)%nat.
Proof. intros H. destruct q; [done|..]; cbn; repeat case_match; by eexists _, _, _; (split; [reflexivity|cbn; lia]). Qed.

(** Calls that nothing comes between are the functions of [Keyboard]. *)
Lemma kruns_push b k p q k' p' l ops s :
  push_step k p = Some (k', p', l) -> kruns b (mkKsys k' p' q) ops s -> kruns b (mkKsys k p q) (label l ++ ops) s.
Proof. intros H. eapply kr_step. by apply k_producer. Qed.
Lemma kruns_pop b k p q k' q' l ops s :
  pop_step b k q = Some (k', q', l) -> kruns b (mkKsys k' p q') ops s -> kruns b (mkKsys k p q) (label l ++ ops) s.
Proof. intros H. eapply kr_step. by apply k_consumer. Qed.

Lemma push_alone b k q c : exists o k',
  kruns b (mkKsys k PIdle q) [o] (mkKsys k' PIdle q) /\ kbd_buffer_push c k = Done tt k' [].
Proof.
  unfold kbd_buffer_push, modify. cbv zeta.
  destruct ((kbd_head k + 1) mod KBD_BUF_SIZE =? kbd_tail k) eqn:E.
  - exists (Dropped c), k. split; [|done]. apply (kr_step b _ None _ [Dropped c] _ (k_push b c k q)).
    eapply (kruns_push b _ _ q _ _ None [Dropped c]); [reflexivity|].
    eapply (kruns_push b _ _ q _ _ (Some (Dropped c)) [] _); [cbn; by rewrite E|]. apply kr_nil.
  - eexists (Pushed c), _. split; [|reflexivity]. apply (kr_step b _ None _ [Pushed c] _ (k_push b c k q)).
    eapply (kruns_push b _ _ q _ _ None [Pushed c]); [reflexivity|].
    eapply (kruns_push b _ _ q _ _ None [Pushed c] _); [cbn; by rewrite E|].
    eapply (kruns_push b _ _ q _ _ None [Pushed c]); [reflexivity|].
    eapply (kruns_push b _ _ q _ _ None [Pushed c]); [reflexivity|].
    eapply (kruns_push b _ _ q _ _ (Some (Pushed c)) []); [reflexivity|]. apply kr_nil.
Qed.

Lemma pop_alone b k p : exists o k',
  kruns b (mkKsys k p CIdle) [o] (mkKsys k' p CIdle) /\
  kbd_buffer_pop k = Done (match o with Popped c => Some c | _ => None end) k' [].
Proof.
  unfold kbd_buffer_pop. rewrite bind_get. destruct (kbd_tail k =? kbd_head k) eqn:E.
  - exists Empty, k. split; [|done]. apply (kr_step b _ None _ [Empty] _ (k_pop b k p)). destruct b.
    + eapply (kruns_pop true _ p _ _ _ None [Empty]); [reflexivity|].
      eapply (kruns_pop true _ p _ _ _ (Some Empty) [] _); [cbn; by rewrite E|]. apply kr_nil.
    + eapply (kruns_pop false _ p _ _ _ (Some Empty) [] _); [cbn; by rewrite Z.eqb_sym, E|].
      eapply (kruns_pop false _ p _ _ _ None [] _); [cbn; by rewrite E|]. apply kr_nil.
  - set (c := nth (Z.to_nat (kbd_tail k)) (kbd_buffer k) 0).
    exists (Popped c), (set_tail ((kbd_tail k + 1) mod KBD_BUF_SIZE) k). split; [|done].
    apply (kr_step b _ None _ [Popped c] _ (k_pop b k p)).
    assert (kruns b (mkKsys k p CIndex) [Popped c] (mkKsys (set_tail ((kbd_tail k + 1) mod KBD_BUF_SIZE) k) p CIdle)) as H.
    { do 3 (eapply (kruns_pop b _ p _ _ _ None [Popped c]); [reflexivity|]).
      eapply (kruns_pop b _ p _ _ _ (Some (Popped c)) []); [reflexivity|]. apply kr_nil. }
    destruct b.
    + eapply (kruns_pop true _ p _ _ _ None [Popped c]); [reflexivity|].
      eapply (kruns_pop true _ p _ _ _ None [Popped c] _); [cbn; by rewrite E|]. exact H.
    + eapply (kruns_pop false _ p _ _ _ None [Popped c] _); [cbn; by rewrite Z.eqb_sym, E|].
      eapply (kruns_pop false _ p _ _ _ None [Popped c] _); [cbn; by rewrite E|]. exact H.
Qed.

(** C34: without a lock the key buffer is a queue.  However the accesses of the handler and
    of one reader interleave, and whichever index the compiler compares first: the access
    that decides a call does what the call reports to a first-in first-out queue of at
    most 255 characters (a push is dropped when 255 wait, a pop reports an empty buffer
    when none does), every other access leaves the queue alone; the characters taken out,
    followed by those that wait, are the characters put in.  A call ends after at most six
    accesses of its own, whatever the other side does, and without interference it is the
    function of the sequential model. *)
Theorem kbd_buffer_spsc b ops s :
  kruns b (mkKsys kbd_boot PIdle CIdle) ops s ->
  kbd_wf (ks s) /\ pushed ops = popped ops ++ kbd_queue (ks s) /\
  (forall l s', kstep b s l s' ->
     match l with None => kbd_queue (ks s') = kbd_queue (ks s)
                | Some o => fifo_op (kbd_queue (ks s)) o (kbd_queue (ks s')) end) /\
  (prod s <> PIdle -> exists k' p' l, push_step (ks s) (prod s) = Some (k', p', l) /\
     (push_left p' < push_left (prod s) <= 6)%nat) /\
  (cons s <> CIdle -> exists k' q' l, pop_step b (ks s) (cons s) = Some (k', q', l) /\
     (pop_left q' < pop_left (cons s) <= 6)%nat) /\
  (prod s = PIdle -> forall c, exists o k', kruns b s [o] (mkKsys k' PIdle (cons s)) /\
     kbd_buffer_push c (ks s) = Done tt k' []) /\
  (cons s = CIdle -> exists o k', kruns b s [o] (mkKsys k' (prod s) CIdle) /\
     kbd_buffer_pop (ks s) = Done (match o with Popped c => Some c | _ => None end) k' []).
Proof.
  intros H. destruct (kruns_fifo b _ _ _ H) as [Hi E].
  { split_and!; try done. }
  split; [apply Hi|]. split; [exact E|]. split; [intros l s' Hs; by apply (kstep_ok b s l s')|].
  destruct s as [k p q]. cbn [ks prod cons] in *. split_and!.
  - intros Hp. destruct (push_step_left k p Hp) as (k' & p' & l & E1 & Hl). exists k', p', l.
    split; [done|]. split; [done|]. destruct p; cbn; lia.
  - intros Hq. destruct (pop_step_left b k q Hq) as (k' & q' & l & E1 & Hl). exists k', q', l.
    split; [done|]. split; [done|]. destruct q; cbn; lia.
  - intros -> c. apply push_alone.
  - intros ->. apply pop_alone.
Qed.

(** The handler puts in two characters while the reader takes out the first. *)
Lemma kbd_buffer_spsc_witness : exists s,
  kruns true (mkKsys kbd_boot PIdle CIdle) [Pushed 97; Popped 97; Pushed 98] s /\ kbd_queue (ks s) = [98].
Proof.
  eexists. match goal with |- ?A /\ _ => assert A as H end.
  - eapply kruns_app with (o1 := [Pushed 97]); [|eapply kruns_app with (o1 := [Popped 97])].
    + apply (kr_step true _ None _ [Pushed 97] _ (k_push true 97 _ _)).
      do 4 (eapply (kruns_push true _ _ _ _ _ None [Pushed 97]); [reflexivity|]).
      eapply (kruns_push true _ _ _ _ _ (Some (Pushed 97)) []); [reflexivity|]. apply kr_nil.
    + apply (kr_step true _ None _ [Popped 97] _ (k_push true 98 _ _)).
      apply (kr_step true _ None _ [Popped 97] _ (k_pop true _ _)).
      do 3 (eapply (kruns_push true _ _ _ _ _ None [Popped 97]); [reflexivity|]).
      do 5 (eapply (kruns_pop true _ _ _ _ _ None [Popped 97]); [reflexivity|]).
      eapply (kruns_pop true _ _ _ _ _ (Some (Popped 97)) []); [reflexivity|]. apply kr_nil.
    + eapply (kruns_push true _ _ _ _ _ None [Pushed 98]); [reflexivity|].
      eapply (kruns_push true _ _ _ _ _ (Some (Pushed 98)) []); [reflexivity|]. apply kr_nil.
  - split; [exact H|]. destruct (kbd_buffer_spsc true _ _ H) as (_ & E & _). exact (f_equal (@tail Z) (eq_sym E)).
Defined.
