(* ===== verification/Terminal64.v ===== *)
(** * terminal64.c: the console of the 64-bit kernel

    The VGA text buffer (80 by 25 cells of 16 bits at 0xB8000) in byte-addressed
    memory, the cursor, the serial port and the console lock.  Characters are bytes;
    a C string is the list of its bytes, ended by the end of the list or by a NUL.

    The line status register of the serial port is a device: [lsr n] is the value of
    its [n]-th read, and the wait of [serial_putc] is bounded by [fuel] polls. *)

From S2P Require Import Prelude Memory Machine.

Definition VGA_MEMORY : Z := 0xB8000.
Definition COM1 : Z := 0x3F8.

Record term := mkTerm {
  t_mem : mem;
  term_row : Z;
  term_col : Z;
  print_lock : Z;
  lsr_reads : nat;
  t_if : bool              (* interrupt flag of the CPU that prints *)
}.

Definition set_tmem (m : mem) (t : term) : term :=
  mkTerm m (term_row t) (term_col t) (print_lock t) (lsr_reads t) (t_if t).
Definition set_row (v : Z) (t : term) : term :=
  mkTerm (t_mem t) v (term_col t) (print_lock t) (lsr_reads t) (t_if t).
Definition set_col (v : Z) (t : term) : term :=
  mkTerm (t_mem t) (term_row t) v (print_lock t) (lsr_reads t) (t_if t).
Definition set_plock (v : Z) (t : term) : term :=
  mkTerm (t_mem t) (term_row t) (term_col t) v (lsr_reads t) (t_if t).
Definition set_reads (n : nat) (t : term) : term :=
  mkTerm (t_mem t) (term_row t) (term_col t) (print_lock t) n (t_if t).
Definition set_tif (b : bool) (t : term) : term :=
  mkTerm (t_mem t) (term_row t) (term_col t) (print_lock t) (lsr_reads t) b.

(** [(uint16_t)c | 0x0A00]; [char] is signed, so [c] is sign-extended first. *)
Definition vga_cell (c : Z) : Z := u16 (Z.lor (u16 (i8 c)) 0x0A00).

Definition serial_init : M term unit :=
  outb (COM1 + 1) 0x00 ;;; outb (COM1 + 3) 0x80 ;;;
  outb (COM1 + 0) 0x03 ;;; outb (COM1 + 1) 0x00 ;;;
  outb (COM1 + 3) 0x03 ;;; outb (COM1 + 2) 0xC7 ;;;
  outb (COM1 + 4) 0x0B.

Section Console.
Context (lsr : nat -> Z) (fuel : nat).

Definition inb_lsr : M term Z :=
  t <- get ;; modify (set_reads (S (lsr_reads t))) ;;; ret (lsr (lsr_reads t)).

Definition serial_putc (c : Z) : M term unit :=
  loop fuel (fun _ : unit =>
    v <- inb_lsr ;; ret (if Z.land v 0x20 =? 0 then inl tt else inr tt)) tt ;;;
  outb COM1 (u8 c).

(** Run alone, a CPU that finds the console lock taken spins forever. *)
Definition print_lock_acquire : M term unit :=
  old <- gets print_lock ;; modify (set_plock 1) ;;;
  if old =? 0 then ret tt else hang.
Definition print_lock_release : M term unit := modify (set_plock 0).

Definition next_row : M term unit :=
  modify (set_col 0) ;;;
  modify (fun t => set_row (i32 (term_row t + 1)) t) ;;;
  modify (fun t => if 25 <=? term_row t then set_row 0 t else t).

Definition putc_vga (c : Z) : M term unit :=
  if c =? 10 then next_row else
  modify (fun t => set_tmem (store16 (t_mem t) (VGA_MEMORY + 2 * (term_row t * 80 + term_col t)) (vga_cell c)) t) ;;;
  modify (fun t => set_col (i32 (term_col t + 1)) t) ;;;
  t <- get ;;
  if 80 <=? term_col t then next_row else ret tt.

Fixpoint print_chars (s : list Z) : M term unit :=
  match s with
  | [] => ret tt
  | c :: r => if c =? 0 then ret tt else putc_vga c ;;; serial_putc c ;;; print_chars r
  end.

Definition kprint (s : list Z) : M term unit :=
  flags <- gets t_if ;;
  instr "cli" 0 ;;; modify (set_tif false) ;;;
  print_lock_acquire ;;;
  print_chars s ;;;
  print_lock_release ;;;
  if (flags : bool) then instr "sti" 0 ;;; modify (set_tif true) else ret tt.

(** "0123456789ABCDEF" *)
Definition hex_digit (d : Z) : Z :=
  nth (Z.to_nat d) [48; 49; 50; 51; 52; 53; 54; 55; 56; 57; 65; 66; 67; 68; 69; 70] 0.

(** The loop of [kprint_hex64] and of [terminal_write_hex]: digit [i] goes to
    [buf[last - i]]. *)
Fixpoint hex_fill (n : nat) (last : nat) (v : Z) (buf : list Z) : list Z :=
  match n with
  | O => buf
  | S n' => hex_fill n' (pred last) (Z.shiftr v 4) (<[last := hex_digit (Z.land v 0xF)]> buf)
  end.

(** "0x0000000000000000" *)
Definition hex_buf64 (v : Z) : list Z := hex_fill 16 17 v ([48; 120] ++ replicate 16 48).

Definition kprint_hex64 (v : Z) : M term unit := kprint (hex_buf64 v).

Definition clear_screen (m : mem) : mem :=
  for_loop 25 0 (fun y => for_loop 80 0 (fun x m =>
    store16 m (VGA_MEMORY + 2 * (y * 80 + x)) (Z.lor 0x0A00 32))) m.

Definition terminal64_init : M term unit :=
  serial_init ;;;
  modify (fun t => set_tmem (clear_screen (t_mem t)) t) ;;;
  modify (set_row 0) ;;; modify (set_col 0).

End Console.
