(* ===== verification/Terminal64Proof.v ===== *)
(** * The 64-bit console against a linear screen

    The screen as 2000 cells in a row: printing a character fills the cell at the
    cursor and moves it on by one, a newline moves it to the start of the next row,
    and the end of the screen wraps to its beginning. *)

From S2P Require Import Prelude Memory Machine Terminal64.

Definition cursor (t : term) : Z := term_row t * 80 + term_col t.

Record term_wf (t : term) : Prop := {
  tw_row : 0 <= term_row t < 25;
  tw_col : 0 <= term_col t < 80
}.

Definition put_spec (mp : mem * Z) (c : Z) : mem * Z :=
  let (m, p) := mp in
  if c =? 10 then (m, ((p / 80 + 1) * 80) mod 2000)
  else (store16 m (VGA_MEMORY + 2 * p) (vga_cell c), (p + 1) mod 2000).

Definition print_spec (s : list Z) (mp : mem * Z) : mem * Z := foldl put_spec mp s.

(** The bytes before the first NUL. *)
Fixpoint cstr (s : list Z) : list Z :=
  match s with
  | [] => []
  | c :: r => if c =? 0 then [] else c :: cstr r
  end.

Definition serial_bytes (s : list Z) : list event := (fun c => EOutb COM1 (u8 c)) <$> s.

(** What printing does not touch. *)
Definition same_rest (t t' : term) : Prop := print_lock t' = print_lock t /\ t_if t' = t_if t.

Lemma i32_small x : - 2 ^ 31 <= x < 2 ^ 31 -> i32 x = x.
Proof. intros H. unfold i32. rewrite Z.mod_small by lia. lia. Qed.

Lemma next_row_run t :
  0 <= term_row t < 25 ->
  next_row t = Done tt (set_row ((term_row t + 1) mod 25) (set_col 0 t)) [].
Proof.
  intros H. unfold next_row. mstep. unfold modify. cbn. rewrite i32_small by lia.
  destruct (Z.leb_spec 25 (term_row t + 1)).
  - replace ((term_row t + 1) mod 25) with 0 by dlia. done.
  - by rewrite Z.mod_small by lia.
Qed.

Lemma putc_vga_run c t :
  term_wf t -> exists t', putc_vga c t = Done tt t' [] /\ term_wf t' /\
    (t_mem t', cursor t') = put_spec (t_mem t, cursor t) c /\ same_rest t t' /\
    lsr_reads t' = lsr_reads t.
Proof.
  intros [Hr Hc]. unfold putc_vga, put_spec, cursor. destruct (c =? 10).
  - rewrite next_row_run by done. eexists. split; [done|]. split; [split; cbn; dlia|].
    split; [|done]. cbn. f_equal. dlia.
  - mstep. cbn [term_col set_col set_tmem]. rewrite i32_small by lia.
    destruct (Z.leb_spec 80 (term_col t + 1)).
    + rewrite next_row_run by done. eexists. split; [done|]. split; [split; cbn; dlia|].
      split; [|done]. cbn. f_equal. dlia.
    + eexists. split; [done|]. split; [split; cbn; lia|]. split; [|done]. cbn. f_equal. dlia.
Qed.

Section Printing.
Context (lsr : nat -> Z) (fuel : nat).

(** The transmitter becomes empty within [fuel] polls. *)
Hypothesis serial_ready : forall n, exists k, (k < fuel)%nat /\ Z.land (lsr (n + k)) 0x20 <> 0.

Lemma serial_putc_run c t :
  exists n, serial_putc lsr fuel c t = Done tt (set_reads n t) [EOutb COM1 (u8 c)].
Proof.
  destruct (serial_ready (lsr_reads t)) as (k & Hk & Hr).
  unfold serial_putc.
  assert (forall k fuel t, (k < fuel)%nat -> Z.land (lsr (lsr_reads t + k)) 0x20 <> 0 ->
    exists n, loop fuel (fun _ : unit =>
      v <- inb_lsr lsr ;; ret (if Z.land v 0x20 =? 0 then inl tt else inr tt)) tt t
      = Done tt (set_reads n t) []) as Hloop.
  { clear. induction k as [|k IH]; intros [|fuel] t Hk Hr; try lia; cbn [loop];
      unfold inb_lsr at 1; mstep.
    - rewrite Nat.add_0_r in Hr. destruct (Z.eqb_spec (Z.land (lsr (lsr_reads t)) 0x20) 0); [done|].
      mstep. by eexists.
    - destruct (Z.eqb_spec (Z.land (lsr (lsr_reads t)) 0x20) 0); [|mstep; by eexists].
      mstep. destruct (IH fuel (set_reads (S (lsr_reads t)) t)) as [n E]; [lia| |].
      + cbn [lsr_reads set_reads]. by replace (S (lsr_reads t) + k)%nat with (lsr_reads t + S k)%nat by lia.
      + exists n. rewrite E. done. }
  destruct (Hloop k fuel t Hk Hr) as [n E]. exists n. by rewrite (bind_done _ _ _ _ _ _ E).
Qed.

Lemma print_chars_run s : forall t,
  term_wf t -> exists t', print_chars lsr fuel s t = Done tt t' (serial_bytes (cstr s)) /\
    term_wf t' /\ same_rest t t' /\
    (t_mem t', cursor t') = print_spec (cstr s) (t_mem t, cursor t).
Proof.
  induction s as [|c s IH]; intros t Hwf; cbn [print_chars cstr].
  { exists t. by split_and!. }
  destruct (c =? 0); [exists t; by split_and!|].
  destruct (putc_vga_run c t Hwf) as (t1 & E1 & Hwf1 & Hp1 & [Hl1 Hi1] & _).
  rewrite (bind_done _ _ _ _ _ _ E1), add_trace_nil.
  destruct (serial_putc_run c t1) as [n E2]. rewrite (bind_done _ _ _ _ _ _ E2).
  destruct (IH (set_reads n t1)) as (t' & E & Hwf' & [Hl Hi] & Hp); [by destruct Hwf1|].
  rewrite E. exists t'. split; [done|]. split; [done|]. split; [split; cbn in *; congruence|].
  rewrite Hp. unfold print_spec. cbn [foldl]. by rewrite <- Hp1.
Qed.

Lemma kprint_run s t :
  term_wf t -> print_lock t = 0 ->
  exists t', kprint lsr fuel s t =
      Done tt t' (EInstr "cli" 0 :: serial_bytes (cstr s) ++
                  (if t_if t then [EInstr "sti" 0] else [])) /\
    term_wf t' /\ same_rest t t' /\
    (t_mem t', cursor t') = print_spec (cstr s) (t_mem t, cursor t).
Proof.
  intros Hwf Hl. unfold kprint, print_lock_acquire, instr. mstep. rewrite bind_emit. mstep.
  cbn [print_lock set_tif]. rewrite Hl. change (0 =? 0) with true. cbv iota. mstep.
  destruct (print_chars_run s (set_plock 1 (set_tif false t))) as (t' & E & Hwf' & [Hl' Hi'] & Hp);
    [by destruct Hwf|].
  rewrite (bind_done _ _ _ _ _ _ E). unfold print_lock_release. mstep.
  destruct (t_if t) eqn:Hif; eexists; (split; [reflexivity|]); (split; [by destruct Hwf'|]);
    (split; [|exact Hp]); unfold same_rest; cbn; rewrite ?Hl, ?Hif; done.
Qed.

End Printing.

(** ** The specification *)

Lemma print_spec_app s s' mp : print_spec (s ++ s') mp = print_spec s' (print_spec s mp).
Proof. apply foldl_app. Qed.

Lemma put_spec_bounds m p c :
  0 <= p < 2000 -> 0 <= snd (put_spec (m, p) c) < 2000 /\
  forall x, ~ (VGA_MEMORY <= x < VGA_MEMORY + 4000) -> fst (put_spec (m, p) c) x = m x.
Proof.
  intros Hp. unfold put_spec. destruct (c =? 10); cbn; [split; [dlia|done]|].
  split; [dlia|]. intros x Hx. apply store_out. lia.
Qed.

Lemma print_spec_bounds s : forall m p,
  0 <= p < 2000 -> 0 <= snd (print_spec s (m, p)) < 2000 /\
  forall x, ~ (VGA_MEMORY <= x < VGA_MEMORY + 4000) -> fst (print_spec s (m, p)) x = m x.
Proof.
  induction s as [|c s IH]; intros m p Hp; [done|].
  unfold print_spec. cbn [foldl]. fold (print_spec s (put_spec (m, p) c)).
  destruct (put_spec_bounds m p c Hp) as [H1 H2].
  destruct (put_spec (m, p) c) as [m1 p1] eqn:E. cbn [fst snd] in H1, H2.
  destruct (IH m1 p1 H1) as [H3 H4]. split; [done|]. intros x Hx. rewrite H4, H2; done.
Qed.

Lemma vga_cell_bound c : 0 <= vga_cell c < 2 ^ 16.
Proof. apply u16_bound. Qed.

(** A line that fits before the end of the screen appears cell by cell. *)
Lemma print_spec_line s : forall m p,
  0 <= p -> p + Z.of_nat (length s) < 2000 -> 10 ∉ s ->
  snd (print_spec s (m, p)) = p + Z.of_nat (length s) /\
  (forall i c, s !! i = Some c ->
    load16 (fst (print_spec s (m, p))) (VGA_MEMORY + 2 * (p + Z.of_nat i)) = vga_cell c) /\
  (forall x, ~ (VGA_MEMORY + 2 * p <= x < VGA_MEMORY + 2 * (p + Z.of_nat (length s))) ->
    fst (print_spec s (m, p)) x = m x).
Proof.
  induction s as [|c s IH]; intros m p Hp Hl Hn; [cbn; split_and!; [lia|done|done]|].
  cbn [length] in Hl. apply not_elem_of_cons in Hn as [Hc Hn].
  assert (print_spec (c :: s) (m, p) =
    print_spec s (store16 m (VGA_MEMORY + 2 * p) (vga_cell c), p + 1)) as ->.
  { unfold print_spec. cbn [foldl]. f_equal. unfold put_spec.
    destruct (Z.eqb_spec c 10); [done|]. by rewrite (Z.mod_small (p + 1)) by lia. }
  destruct (IH (store16 m (VGA_MEMORY + 2 * p) (vga_cell c)) (p + 1)) as (H1 & H2 & H3); [lia..|done|].
  split_and!; [cbn [length]; rewrite H1; lia| |].
  - intros [|i] c' Hi; cbn in Hi.
    + simplify_eq. rewrite Z.add_0_r. rewrite (load_ext 2 _ (store16 m (VGA_MEMORY + 2 * p) (vga_cell c'))).
      * rewrite load_store_eq. apply Z.mod_small, vga_cell_bound.
      * intros x Hx. apply H3. lia.
    + replace (p + Z.of_nat (S i)) with (p + 1 + Z.of_nat i) by lia. by apply H2.
  - intros x Hx. cbn [length] in Hx. rewrite H3 by lia. apply store_out. lia.
Qed.
