(* ===== verification/Terminal64Theorems.v ===== *)
(** * Theorems on the 64-bit console *)

From S2P Require Import Prelude Memory Machine Terminal64 Terminal64Proof.

(** ** Cells *)

(** Every byte keeps its low eight bits; the colour is light green on black for
    ASCII, and 0xFF for bytes from 128 on, whose sign bits run into the colour. *)
Lemma vga_cell_attribute c :
  0 <= c < 256 -> vga_cell c = (if c <? 128 then 0x0A00 else 0xFF00) + c.
Proof.
  intros H.
  assert (forallb (fun c => vga_cell c =? (if c <? 128 then 0x0A00 else 0xFF00) + c)
            (seqZ 0 256) = true) as Hall by (vm_compute; reflexivity).
  rewrite forallb_forall in Hall. apply Z.eqb_eq, Hall.
  apply list_elem_of_In, elem_of_seqZ. lia.
Qed.

(** ** Printing a string *)

(** When the console lock is free, [kprint] returns; it sends
    exactly the bytes of the string to the serial port, releases the lock, restores
    the interrupt flag, keeps the cursor on the screen and writes nothing outside the
    4000 bytes of the text buffer.  A line that fits before the end of the screen
    appears at the cursor character by character, in light green where it is ASCII,
    and the cursor stands behind it. *)
Theorem kprint_correct lsr fuel s t :
  (forall n, exists k, (k < fuel)%nat /\ Z.land (lsr (n + k)%nat) 0x20 <> 0) ->
  term_wf t -> print_lock t = 0 ->
  exists t', kprint lsr fuel s t =
      Done tt t' (EInstr "cli" 0 :: serial_bytes (cstr s) ++
                  (if t_if t then [EInstr "sti" 0] else [])) /\
    term_wf t' /\ print_lock t' = 0 /\ t_if t' = t_if t /\
    (forall x, ~ (0xB8000 <= x < 0xB8000 + 4000) -> t_mem t' x = t_mem t x) /\
    (cursor t + Z.of_nat (length (cstr s)) < 2000 -> 10 ∉ cstr s ->
      cursor t' = cursor t + Z.of_nat (length (cstr s)) /\
      forall i c, cstr s !! i = Some c -> 0 <= c < 256 ->
        load16 (t_mem t') (0xB8000 + 2 * (cursor t + Z.of_nat i)) =
        (if c <? 128 then 0x0A00 else 0xFF00) + c).
Proof.
  intros Hr Hwf Hl. destruct (kprint_run lsr fuel Hr s t Hwf Hl) as (t' & E & Hwf' & [Hl' Hi'] & Hp).
  assert (0 <= cursor t < 2000) as Hc by (destruct Hwf; unfold cursor; lia).
  destruct (print_spec_bounds (cstr s) (t_mem t) (cursor t) Hc) as [_ Hout].
  rewrite <- Hp in Hout. exists t'. split_and!; try done; [congruence|].
  intros Hfit Hnl. destruct (print_spec_line (cstr s) (t_mem t) (cursor t)) as (H1 & H2 & _); [lia..|done|].
  rewrite <- Hp in H1, H2. split; [exact H1|]. intros i c Hi Hb.
  rewrite <- vga_cell_attribute by done. by apply H2.
Qed.

Definition term_boot (m : mem) : term := mkTerm m 0 0 0 0 false.

Lemma kprint_correct_witness : exists t',
  kprint (fun _ => 0x60) 1 [72; 105] (term_boot (fun _ => 0)) =
    Done tt t' [EInstr "cli" 0; EOutb 0x3F8 72; EOutb 0x3F8 105] /\
  load16 (t_mem t') 0xB8002 = 0x0A69.
Proof.
  destruct (kprint_correct (fun _ => 0x60) 1 [72; 105] (term_boot (fun _ => 0)))
    as (t' & E & _ & _ & _ & _ & H).
  - intros n. exists 0%nat. split; [lia|]. vm_compute. discriminate.
  - split; vm_compute; split; congruence.
  - reflexivity.
  - destruct H as [_ H]; [vm_compute; reflexivity|set_solver|].
    exists t'. split; [exact E|]. apply (H 1%nat 105); [reflexivity|lia].
Defined.

(** ** Hexadecimal output *)

Fixpoint hex_digits (n : nat) (v : Z) : list Z :=
  match n with
  | O => []
  | S n' => hex_digits n' (v / 16) ++ [hex_digit (v mod 16)]
  end.

Lemma length_hex_digits n : forall v, length (hex_digits n v) = n.
Proof. induction n as [|n IH]; intros v; [done|]. cbn. rewrite length_app, IH. cbn. lia. Qed.

Lemma hex_fill_digits n : forall last v buf,
  (n <= S last)%nat -> (last < length buf)%nat ->
  hex_fill n last v buf = take (S last - n) buf ++ hex_digits n v ++ drop (S last) buf.
Proof.
  induction n as [|n IH]; intros last v buf Hn Hl; cbn [hex_fill hex_digits].
  { rewrite Nat.sub_0_r, app_nil_l. by rewrite take_drop. }
  change 0xF with (2 ^ 4 - 1). rewrite land_ones_mod by lia. rewrite Z.shiftr_div_pow2 by lia.
  change (2 ^ 4) with 16. destruct last as [|last].
  - assert (n = 0%nat) as -> by lia. cbn [hex_fill hex_digits pred].
    destruct buf as [|b buf]; cbn in *; [lia|]. done.
  - cbn [pred]. rewrite IH by (rewrite ?length_insert; lia).
    rewrite take_insert_ge by lia. replace (S (S last) - S n)%nat with (S last - n)%nat by lia.
    rewrite <- app_assoc. do 2 f_equal.
    rewrite drop_insert_ge by lia. rewrite Nat.sub_diag.
    destruct (drop (S last) buf) as [|b r] eqn:Hd.
    + apply (f_equal length) in Hd. rewrite length_drop in Hd. cbn in Hd. lia.
    + cbn. f_equal. change (S (S last)) with (1 + S last)%nat. rewrite Nat.add_comm, <- drop_drop, Hd. done.
Qed.

(** Reading a number back. *)
Definition hex_value (c : Z) : option Z :=
  if (48 <=? c) && (c <=? 57) then Some (c - 48)
  else if (65 <=? c) && (c <=? 70) then Some (c - 55) else None.

Definition hex_step (acc : option Z) (c : Z) : option Z :=
  match acc, hex_value c with Some a, Some d => Some (16 * a + d) | _, _ => None end.

Definition parse_hex (s : list Z) : option Z :=
  match s with
  | 48 :: 120 :: r => foldl hex_step (Some 0) r
  | _ => None
  end.

Lemma hex_value_digit d : 0 <= d < 16 -> hex_value (hex_digit d) = Some d.
Proof.
  intros H.
  assert (forallb (fun d => bool_decide (hex_value (hex_digit d) = Some d)) (seqZ 0 16) = true)
    as Hall by (vm_compute; reflexivity).
  rewrite forallb_forall in Hall. eapply bool_decide_eq_true, Hall.
  apply list_elem_of_In, elem_of_seqZ. lia.
Qed.

Lemma parse_hex_digits n : forall v,
  foldl hex_step (Some 0) (hex_digits n v) = Some (v mod 16 ^ Z.of_nat n).
Proof.
  induction n as [|n IH]; intros v; [by rewrite Z.mod_1_r|].
  cbn [hex_digits]. rewrite foldl_app, IH. cbn [foldl hex_step].
  pose proof (Z.mod_pos_bound v 16). rewrite hex_value_digit by lia. f_equal.
  rewrite Nat2Z.inj_succ, Z.pow_succ_r, Z.rem_mul_r by lia. lia.
Qed.

Lemma hex_buf64_digits v : hex_buf64 v = [48; 120] ++ hex_digits 16 v.
Proof.
  unfold hex_buf64. rewrite hex_fill_digits by (cbn; lia).
  change (take (18 - 16) ([48; 120] ++ replicate 16 48)) with [48; 120].
  change (drop 18 ([48; 120] ++ replicate 16 48)) with (@nil Z). by rewrite app_nil_r.
Qed.

Lemma hex_digits_printable n c : forall v, c ∈ hex_digits n v -> 48 <= c <= 70.
Proof.
  induction n as [|n IH]; intros v; cbn; [by intros ?%elem_of_nil|].
  intros [?|?%list_elem_of_singleton]%elem_of_app; [eauto|]. subst c.
  pose proof (Z.mod_pos_bound v 16).
  assert (exists d, v mod 16 = d /\ hex_value (hex_digit d) = Some d) as (d & -> & Hd)
    by (eexists; split; [done|apply hex_value_digit; lia]).
  unfold hex_value in Hd. repeat case_match; try done; case_cmp; simplify_eq; cbn in *;
    repeat match goal with H : andb _ _ = true |- _ => apply andb_prop in H as [? ?] end; lia.
Qed.

Lemma cstr_id s : 0 ∉ s -> cstr s = s.
Proof.
  induction s as [|c s IH]; intros Hn; [done|]. apply not_elem_of_cons in Hn as [H1 H2].
  cbn. destruct (Z.eqb_spec c 0); [done|]. by rewrite IH.
Qed.

(** [kprint_hex64] sends "0x" and sixteen hexadecimal
    digits to the serial port, never a NUL early, and reading the text back gives the
    64-bit value that was printed. *)
Theorem kprint_hex64_roundtrip lsr fuel v t :
  (forall n, exists k, (k < fuel)%nat /\ Z.land (lsr (n + k)%nat) 0x20 <> 0) ->
  term_wf t -> print_lock t = 0 -> 0 <= v < 2 ^ 64 ->
  exists t' s,
    kprint_hex64 lsr fuel v t =
      Done tt t' (EInstr "cli" 0 :: ((fun c => EOutb 0x3F8 c) <$> s) ++
                  (if t_if t then [EInstr "sti" 0] else [])) /\
    term_wf t' /\ length s = 18%nat /\ parse_hex s = Some v.
Proof.
  intros Hr Hwf Hl Hv.
  destruct (kprint_run lsr fuel Hr (hex_buf64 v) t Hwf Hl) as (t' & E & Hwf' & _).
  assert (forall c, c ∈ hex_buf64 v -> 48 <= c <= 120) as Hch.
  { intros c. rewrite hex_buf64_digits. intros [Hc|Hc]%elem_of_app.
    - rewrite !elem_of_cons, elem_of_nil in Hc. lia.
    - apply hex_digits_printable in Hc. lia. }
  rewrite cstr_id in E by (intros H; apply Hch in H; lia).
  exists t', (hex_buf64 v). split_and!; [|done| |].
  - unfold kprint_hex64. rewrite E. do 3 f_equal. apply list_fmap_ext.
    intros i c Hi. rewrite u8_small; [done|]. apply list_elem_of_lookup_2, Hch in Hi. lia.
  - rewrite hex_buf64_digits, length_app, length_hex_digits. done.
  - rewrite hex_buf64_digits. cbn [app parse_hex]. rewrite parse_hex_digits.
    f_equal. apply Z.mod_small. lia.
Qed.

Lemma kprint_hex64_roundtrip_witness : exists t' s,
  kprint_hex64 (fun _ => 0x20) 1 0xFEE00000 (term_boot (fun _ => 0)) =
    Done tt t' (EInstr "cli" 0 :: ((fun c => EOutb 0x3F8 c) <$> s) ++ []) /\
  parse_hex s = Some 0xFEE00000.
Proof.
  destruct (kprint_hex64_roundtrip (fun _ => 0x20) 1 0xFEE00000 (term_boot (fun _ => 0)))
    as (t' & s & E & _ & _ & H).
  - intros n. exists 0%nat. split; [lia|]. vm_compute. discriminate.
  - split; vm_compute; split; congruence.
  - reflexivity.
  - lia.
  - exists t', s. split; [exact E|exact H].
Defined.
