(* ===== verification/Terminal64Smp.v ===== *)
(** * Printing from several CPUs

    Every CPU may call [kprint], from normal code and from interrupt handlers; the
    steps of the calls interleave.  A call saves the interrupt flag and disables
    interrupts, spins on the console lock, alternates [putc_vga] and [serial_putc],
    and releases the lock.  Exceptions, which [cli] does not mask, are assumed not to
    print. *)

From stdpp Require Import relations.
From S2P Require Import Prelude Memory Machine Terminal64 Terminal64Proof Terminal64Theorems.

(** Where a call of [kprint] stands, with the interrupt flag it saved. *)
Inductive frame :=
| FSpin (saved : bool) (s : list Z)          (* in [print_lock_acquire] *)
| FPrint (saved : bool) (rest : list Z)      (* at the loop test *)
| FSerial (saved : bool) (c : Z) (rest : list Z).  (* before [serial_putc] *)

Record pcpu := mkPcpu { frames : list frame; pif : bool }.

(** [p_begun] lists the strings whose printing began, in order of acquisition. *)
Record psys := mkPsys {
  p_term : term;
  p_cpus : nat -> pcpu;
  p_out : list event;
  p_begun : list (list Z)
}.

Definition set_pcpu (c : nat) (x : pcpu) (f : nat -> pcpu) : nat -> pcpu :=
  fun i => if decide (i = c) then x else f i.

Lemma set_pcpu_eq c x f : set_pcpu c x f c = x.
Proof. unfold set_pcpu. by rewrite decide_True. Qed.
Lemma set_pcpu_ne c x f i : i <> c -> set_pcpu c x f i = f i.
Proof. intros. unfold set_pcpu. by rewrite decide_False. Qed.

Section Interleaving.
Context (lsr : nat -> Z) (fuel : nat).

Inductive pstep : psys -> psys -> Prop :=
| P_flag c b t cs out l :
    frames (cs c) = [] ->
    pstep (mkPsys t cs out l) (mkPsys t (set_pcpu c (mkPcpu [] b) cs) out l)
| P_call c s t cs out l :
    frames (cs c) = [] \/ pif (cs c) = true ->
    pstep (mkPsys t cs out l)
      (mkPsys t (set_pcpu c (mkPcpu (FSpin (pif (cs c)) s :: frames (cs c)) false) cs) out l)
| P_acquire c sv s fs b t t' tr cs out l :
    cs c = mkPcpu (FSpin sv s :: fs) b ->
    print_lock_acquire t = Done tt t' tr ->
    pstep (mkPsys t cs out l)
      (mkPsys t' (set_pcpu c (mkPcpu (FPrint sv s :: fs) b) cs) (out ++ tr) (l ++ [s]))
| P_putc c sv ch r fs b t t' tr cs out l :
    cs c = mkPcpu (FPrint sv (ch :: r) :: fs) b -> ch <> 0 ->
    putc_vga ch t = Done tt t' tr ->
    pstep (mkPsys t cs out l)
      (mkPsys t' (set_pcpu c (mkPcpu (FSerial sv ch r :: fs) b) cs) (out ++ tr) l)
| P_serial c sv ch r fs b t t' tr cs out l :
    cs c = mkPcpu (FSerial sv ch r :: fs) b ->
    serial_putc lsr fuel ch t = Done tt t' tr ->
    pstep (mkPsys t cs out l)
      (mkPsys t' (set_pcpu c (mkPcpu (FPrint sv r :: fs) b) cs) (out ++ tr) l)
| P_release c sv r fs b t t' tr cs out l :
    cs c = mkPcpu (FPrint sv r :: fs) b -> r = [] \/ head r = Some 0 ->
    print_lock_release t = Done tt t' tr ->
    pstep (mkPsys t cs out l)
      (mkPsys t' (set_pcpu c (mkPcpu fs (sv || b)) cs) (out ++ tr) l).

Definition psteps : psys -> psys -> Prop := rtc pstep.

(** Nobody prints yet. *)
Definition psys_boot (t : term) (ifs : nat -> bool) : psys :=
  mkPsys t (fun c => mkPcpu [] (ifs c)) [] [].

Definition holding (f : frame) : Prop := match f with FSpin _ _ => False | _ => True end.

(** The text of the strings [l], as the console should show it. *)
Definition text (l : list (list Z)) : list Z := concat (cstr <$> l).

#[local] Arguments text : simpl never.
#[local] Arguments cursor : simpl never.
#[local] Arguments put_spec : simpl never.
#[local] Arguments print_spec : simpl never.

Lemma text_snoc l s : text (l ++ [s]) = text l ++ cstr s.
Proof. unfold text. rewrite fmap_app, concat_app. cbn. by rewrite app_nil_r. Qed.

(** The screen and the port have seen [shown] and [sent]. *)
Definition shows (t0 t : term) (out : list event) (shown sent : list Z) : Prop :=
  (t_mem t, cursor t) = print_spec shown (t_mem t0, cursor t0) /\ out = serial_bytes sent.

(** The holder [c] of the lock has printed the part [p] of its string. *)
Definition holds (t0 : term) (s : psys) (c : nat) : Prop :=
  exists d str p f, p_begun s = d ++ [str] /\ frames (p_cpus s c) = [f] /\
    match f with
    | FSpin _ _ => False
    | FPrint _ r => cstr str = p ++ cstr r /\ shows t0 (p_term s) (p_out s) (text d ++ p) (text d ++ p)
    | FSerial _ ch r => ch <> 0 /\ cstr str = p ++ ch :: cstr r /\
        shows t0 (p_term s) (p_out s) (text d ++ p ++ [ch]) (text d ++ p)
    end.

Record pinv (t0 : term) (s : psys) : Prop := {
  pi_wf : term_wf (p_term s);
  pi_cpu : forall c, frames (p_cpus s c) = [] \/
    exists f, frames (p_cpus s c) = [f] /\ pif (p_cpus s c) = false;
  pi_lock : (print_lock (p_term s) = 0 /\
       (forall c f, f ∈ frames (p_cpus s c) -> ~ holding f) /\
       shows t0 (p_term s) (p_out s) (text (p_begun s)) (text (p_begun s))) \/
    (print_lock (p_term s) = 1 /\ exists c, holds t0 s c /\
       forall c' f, c' <> c -> f ∈ frames (p_cpus s c') -> ~ holding f)
}.

Hypothesis serial_ready : forall n, exists k, (k < fuel)%nat /\ Z.land (lsr (n + k)%nat) 0x20 <> 0.

(** A CPU whose frame holds the lock is the holder. *)
Lemma pinv_holder t0 s c f :
  pinv t0 s -> f ∈ frames (p_cpus s c) -> holding f ->
  frames (p_cpus s c) = [f] /\ print_lock (p_term s) = 1 /\ holds t0 s c /\
  forall c' f, c' <> c -> f ∈ frames (p_cpus s c') -> ~ holding f.
Proof.
  intros [_ Hcpu Hlock] Hf Hh. split.
  - destruct (Hcpu c) as [E|(g & E & _)]; rewrite E in Hf |- *; [by apply elem_of_nil in Hf|].
    apply list_elem_of_singleton in Hf. by subst.
  - destruct Hlock as [(_ & Hn & _)|(Hl & c0 & H0 & Hn)].
    + by destruct (Hn c f Hf).
    + destruct (decide (c = c0)) as [->|Hne]; [done|]. by destruct (Hn c f Hne Hf).
Qed.

(** Moving one CPU between frames. *)
Lemma pi_cpu_set c x (cs : nat -> pcpu) :
  (forall c, frames (cs c) = [] \/ exists f, frames (cs c) = [f] /\ pif (cs c) = false) ->
  frames x = [] \/ (exists f, frames x = [f] /\ pif x = false) ->
  forall i, frames (set_pcpu c x cs i) = [] \/
    exists f, frames (set_pcpu c x cs i) = [f] /\ pif (set_pcpu c x cs i) = false.
Proof. intros Hcs Hx i. unfold set_pcpu. case_decide; [done|]. apply Hcs. Qed.

Lemma holds_others t0 t cs out l c x c' :
  c' <> c -> holds t0 (mkPsys t cs out l) c' -> holds t0 (mkPsys t (set_pcpu c x cs) out l) c'.
Proof. intros Hne. unfold holds. cbn. by rewrite set_pcpu_ne. Qed.

(** A CPU that does not hold the lock and does not take it. *)
Lemma pinv_bystander t0 t cs out l c x :
  pinv t0 (mkPsys t cs out l) ->
  (forall f, f ∈ frames (cs c) -> ~ holding f) -> (forall f, f ∈ frames x -> ~ holding f) ->
  frames x = [] \/ (exists f, frames x = [f] /\ pif x = false) ->
  pinv t0 (mkPsys t (set_pcpu c x cs) out l).
Proof.
  intros [Hwf Hcpu Hlock] Hold Hnew Hx. cbn in *. split; cbn; [done|by apply pi_cpu_set|].
  destruct Hlock as [(Hl & Hn & Hs)|(Hl & c0 & H0 & Hn)]; [left|right]; (split; [done|]).
  - split; [|done]. intros c' f. unfold set_pcpu. case_decide; [apply Hnew|apply Hn].
  - exists c0. assert (c0 <> c) as Hne.
    { intros ->. destruct H0 as (d & str & p & f & _ & Hf & H). cbn in Hf.
      apply (Hold f); [rewrite Hf; apply list_elem_of_here|]. by destruct f. }
    split; [by apply holds_others|]. intros c' f Hc'. unfold set_pcpu. case_decide; [|by apply Hn].
    intros. by apply Hnew.
Qed.

(** The holder advances. *)
Lemma pinv_advance t0 t t' cs out out' l c f b :
  pinv t0 (mkPsys t cs out l) ->
  (forall c' f, c' <> c -> f ∈ frames (cs c') -> ~ holding f) ->
  term_wf t' -> print_lock t' = 1 ->
  holds t0 (mkPsys t' (set_pcpu c (mkPcpu [f] b) cs) out' l) c -> b = false ->
  pinv t0 (mkPsys t' (set_pcpu c (mkPcpu [f] b) cs) out' l).
Proof.
  intros [_ Hcpu _] Hn Hwf Hl Hh ->. cbn in *.
  split; cbn; [done|apply pi_cpu_set; [done|right; by eexists]|].
  right. split; [done|]. exists c. split; [done|]. intros c' g Hne. rewrite set_pcpu_ne by done. by apply Hn.
Qed.

(** Inside [kprint] interrupts are off. *)
Lemma pinv_if_off t0 t cs out l c f fs b :
  pinv t0 (mkPsys t cs out l) -> cs c = mkPcpu (f :: fs) b -> b = false.
Proof.
  intros Hinv Hc. destruct (pi_cpu _ _ Hinv c) as [E|(g & _ & E)]; cbn in E; rewrite Hc in E; done.
Qed.

Lemma pinv_acquire t0 t t' tr cs out l c sv str fs b :
  pinv t0 (mkPsys t cs out l) -> cs c = mkPcpu (FSpin sv str :: fs) b ->
  print_lock_acquire t = Done tt t' tr ->
  pinv t0 (mkPsys t' (set_pcpu c (mkPcpu (FPrint sv str :: fs) b) cs) (out ++ tr) (l ++ [str])).
Proof.
  intros Hinv Hc Hrun. pose proof (pinv_if_off _ _ _ _ _ _ _ _ _ Hinv Hc) as ->.
  pose proof Hinv as [Hwf Hcpu Hlock]. cbn in *.
  assert (fs = []) as -> by (destruct (Hcpu c) as [E|(g & E & _)]; rewrite Hc in E; cbn in E; congruence).
  unfold print_lock_acquire in Hrun. rewrite !add_trace_nil in Hrun.
  destruct (Z.eqb_spec (print_lock t) 0) as [E|E]; [|done]. unfold ret in Hrun. simplify_eq.
  destruct Hlock as [(_ & Hn & Hs & Hout)|(Hl & _)]; [|congruence].
  split; cbn; [by destruct Hwf|apply pi_cpu_set; [done|right; by eexists]|].
  right. split; [done|]. exists c. split.
  - exists l, str, [], (FPrint sv str). cbn. rewrite set_pcpu_eq, !app_nil_r. done.
  - intros c' f Hne. rewrite set_pcpu_ne by done. apply Hn.
Qed.

Lemma pinv_release t0 t t' tr cs out l c sv r fs b :
  pinv t0 (mkPsys t cs out l) -> cs c = mkPcpu (FPrint sv r :: fs) b ->
  r = [] \/ head r = Some 0 -> print_lock_release t = Done tt t' tr ->
  pinv t0 (mkPsys t' (set_pcpu c (mkPcpu fs (sv || b)) cs) (out ++ tr) l).
Proof.
  intros Hinv Hc Hr Hrun. unfold print_lock_release, modify in Hrun. simplify_eq.
  destruct (pinv_holder t0 _ c (FPrint sv r) Hinv) as (Ef & Hl & Hh & Hn);
    [cbn; rewrite Hc; apply list_elem_of_here|done|]. cbn in *. rewrite Hc in Ef. cbn in Ef.
  simplify_eq. pose proof Hinv as [Hwf Hcpu _]. cbn in *.
  split; cbn; [by destruct Hwf|apply pi_cpu_set; [done|by left]|]. left. split; [done|]. split.
  - intros c' f. unfold set_pcpu. case_decide; [cbn; by intros ?%elem_of_nil|by apply Hn].
  - destruct Hh as (d & str & p & f & El & Ef & H). cbn in *. subst l. rewrite Hc in Ef. cbn in Ef. simplify_eq.
    destruct H as (H & Hs & ->). rewrite text_snoc, H.
    replace (cstr r) with (@nil Z) by (destruct Hr as [->|Hr]; [done|]; destruct r; cbn in *; by simplify_eq).
    rewrite !app_nil_r. split; [exact Hs|done].
Qed.

(** One step keeps the invariant. *)
Lemma pinv_step t0 s s' : pinv t0 s -> pstep s s' -> pinv t0 s'.
Proof.
  intros Hinv Hstep. destruct Hstep as
    [c b t cs out l Hf|c str t cs out l Hf|c sv str fs b t t' tr cs out l Hc Hrun
    |c sv ch r fs b t t' tr cs out l Hc Hch Hrun|c sv ch r fs b t t' tr cs out l Hc Hrun
    |c sv r fs b t t' tr cs out l Hc Hr Hrun].
  - apply pinv_bystander; cbn; try done; [rewrite Hf|..]; try (intros f ?%elem_of_nil; done). by left.
  - destruct (pi_cpu _ _ Hinv c) as [E|(f & E & Eif)]; cbn in E.
    + apply pinv_bystander; cbn; rewrite ?E; try done.
      * by intros f ?%elem_of_nil.
      * intros f Hx. apply list_elem_of_singleton in Hx. subst; exact (fun H => H).
      * right. by eexists.
    + cbn in Eif. destruct Hf as [Hf|Hf]; congruence.
  - by apply (pinv_acquire t0 t).
  - destruct (pinv_holder t0 _ c (FPrint sv (ch :: r)) Hinv) as (Ef & Hl & Hh & Hn);
      [cbn; rewrite Hc; apply list_elem_of_here|done|]. cbn in *. rewrite Hc in Ef. cbn in Ef.
    simplify_eq. destruct (putc_vga_run ch t (pi_wf _ _ Hinv)) as (t1 & E & Hwf1 & Hp & [Hl1 _] & _).
    rewrite E in Hrun. simplify_eq. apply pinv_advance with (t := t) (out := out); try done; [congruence| |].
    + destruct Hh as (d & str & p & f & El & Ef & H). cbn in *. rewrite Hc in Ef. cbn in Ef. simplify_eq.
      exists d, str, p, (FSerial sv ch r). cbn. rewrite set_pcpu_eq. split_and!; try done.
      * destruct H as [H _]. rewrite H. cbn. by destruct (Z.eqb_spec ch 0).
      * destruct H as (_ & Hs & Hout). rewrite app_nil_r. split; [|exact Hout].
        rewrite Hp, Hs, app_assoc, (print_spec_app _ [ch]). done.
    + eapply pinv_if_off; [exact Hinv|exact Hc].
  - destruct (pinv_holder t0 _ c (FSerial sv ch r) Hinv) as (Ef & Hl & Hh & Hn);
      [cbn; rewrite Hc; apply list_elem_of_here|done|]. cbn in *. rewrite Hc in Ef. cbn in Ef.
    simplify_eq. destruct (serial_putc_run lsr fuel serial_ready ch t) as [n E].
    rewrite E in Hrun. simplify_eq. pose proof (pi_wf _ _ Hinv) as Hwf.
    apply pinv_advance with (t := t) (out := out); try done; [by destruct Hwf| |].
    + destruct Hh as (d & str & p & f & El & Ef & H). cbn in *. rewrite Hc in Ef. cbn in Ef. simplify_eq.
      destruct H as (Hch & H & Hs & ->).
      exists d, str, (p ++ [ch]), (FPrint sv r). cbn. rewrite set_pcpu_eq. split_and!; try done.
      * by rewrite <- app_assoc.
      * split; [by rewrite <- ?app_assoc in *|]. unfold serial_bytes. by rewrite app_assoc, !fmap_app.
    + eapply pinv_if_off; [exact Hinv|exact Hc].
  - by eapply pinv_release.
Qed.

Lemma pinv_reachable t0 ifs s :
  term_wf t0 -> print_lock t0 = 0 -> psteps (psys_boot t0 ifs) s -> pinv t0 s.
Proof.
  intros Hwf Hl Hsteps. assert (pinv t0 (psys_boot t0 ifs)) as H0.
  { split; cbn; [done|by left|]. left. split_and!; [done| |done]. by intros c f ?%elem_of_nil. }
  remember (psys_boot t0 ifs) as s0. clear Heqs0. induction Hsteps as [|x y z Hxy _ IH]; [done|].
  apply IH. by eapply pinv_step.
Qed.

(** C28: under every interleaving of calls of [kprint] by any number of
    CPUs, from normal code and from interrupt handlers, the serial port receives the
    strings one after the other in the order in which the calls took the console lock,
    each complete before the next begins; whenever the lock is free the screen is what
    printing these strings one by one gives.  A CPU that waits for the lock never
    holds it itself. *)
Theorem kprint_atomic t0 ifs s :
  term_wf t0 -> print_lock t0 = 0 -> psteps (psys_boot t0 ifs) s ->
  (exists whole part rest, p_out s = serial_bytes (concat (cstr <$> whole) ++ part) /\
     p_begun s = whole ++ rest /\ (length rest <= 1)%nat /\
     part `prefix_of` concat (cstr <$> rest)) /\
  (print_lock (p_term s) = 0 ->
     p_out s = serial_bytes (concat (cstr <$> p_begun s)) /\
     (t_mem (p_term s), cursor (p_term s)) =
       print_spec (concat (cstr <$> p_begun s)) (t_mem t0, cursor t0)) /\
  (forall c sv str fs, frames (p_cpus s c) = FSpin sv str :: fs -> fs = []).
Proof.
  intros Hwf Hl Hsteps. pose proof (pinv_reachable t0 ifs s Hwf Hl Hsteps) as [_ Hcpu Hlock].
  split_and!.
  - destruct Hlock as [(_ & _ & _ & Hout)|(_ & c & (d & str & p & f & Hb & _ & H) & _)].
    + exists (p_begun s), [], []. rewrite !app_nil_r. split_and!; [done|done|cbn; lia|done].
    + exists d, p, [str]. split_and!; [|done|done|].
      * destruct f; [done|apply H|apply H].
      * cbn. rewrite app_nil_r. destruct f as [|? r|? ch r]; [done| |].
        -- destruct H as [-> _]. by apply prefix_app_r.
        -- destruct H as (_ & -> & _). by apply prefix_app_r.
  - intros H0. destruct Hlock as [(_ & _ & Hs & Hout)|(H1 & _)]; [done|congruence].
  - intros c sv str fs E. destruct (Hcpu c) as [E'|(f & E' & _)]; congruence.
Qed.

End Interleaving.

(** Two CPUs print "A" and "B"; the second waits until the first is done. *)
Lemma two_cpus_print : exists s,
  psteps (fun _ => 0x20) 1 (psys_boot (term_boot (fun _ => 0)) (fun _ => false)) s /\
  p_begun s = [[65]; [66]] /\ print_lock (p_term s) = 0.
Proof.
  eexists. split; [|].
  - eapply rtc_l; [apply (P_call _ _ 0 [65]); by left|].
    eapply rtc_l; [apply (P_call _ _ 1 [66]); by left|].
    eapply rtc_l; [eapply (P_acquire _ _ 0); reflexivity|].
    eapply rtc_l; [eapply (P_putc _ _ 0); [reflexivity|lia|reflexivity]|].
    eapply rtc_l; [eapply (P_serial _ _ 0); reflexivity|].
    eapply rtc_l; [eapply (P_release _ _ 0); [reflexivity|by left|reflexivity]|].
    eapply rtc_l; [eapply (P_acquire _ _ 1); reflexivity|].
    eapply rtc_l; [eapply (P_putc _ _ 1); [reflexivity|lia|reflexivity]|].
    eapply rtc_l; [eapply (P_serial _ _ 1); reflexivity|].
    eapply rtc_l; [eapply (P_release _ _ 1); [reflexivity|by left|reflexivity]|].
    apply rtc_refl.
  - split; reflexivity.
Qed.

Lemma kprint_atomic_witness : exists s,
  psteps (fun _ => 0x20) 1 (psys_boot (term_boot (fun _ => 0)) (fun _ => false)) s /\
  p_out s = [EOutb 0x3F8 65; EOutb 0x3F8 66].
Proof.
  destruct two_cpus_print as (s & Hs & Hb & Hl). exists s. split; [exact Hs|].
  destruct (kprint_atomic (fun _ => 0x20) 1) with (t0 := term_boot (fun _ => 0))
    (ifs := fun _ : nat => false) (s := s) as (_ & H & _).
  - intros n. exists 0%nat. split; [lia|]. vm_compute. discriminate.
  - split; vm_compute; split; congruence.
  - reflexivity.
  - exact Hs.
  - destruct (H Hl) as [-> _]. rewrite Hb. reflexivity.
Defined.
