(* ===== verification/Terminal.v ===== *)
(** * terminal.c: the console of the 32-bit kernel

    The same screen and serial port without a lock; state and device as in
    [Terminal64].  The console is shown to do what the 64-bit one does. *)

From S2P Require Import Prelude Memory Machine Terminal64 Terminal64Proof Terminal64Theorems.

Definition VGA_WIDTH : Z := 80.
Definition VGA_HEIGHT : Z := 25.
Definition term_color : Z := 0x0A.

Definition vga_entry (c color : Z) : Z :=
  u16 (Z.lor (u16 (i8 c)) (Z.shiftl (u16 color) 8)).

Section Console32.
Context (lsr : nat -> Z) (fuel : nat).

Definition serial_putchar (c : Z) : M term unit :=
  loop fuel (fun _ : unit =>
    v <- inb_lsr lsr ;; ret (if Z.land v 0x20 =? 0 then inl tt else inr tt)) tt ;;;
  outb COM1 (u8 c).

Definition serial_init32 : M term unit :=
  outb (COM1 + 1) 0x00 ;;; outb (COM1 + 3) 0x80 ;;;
  outb (COM1 + 0) 0x03 ;;; outb (COM1 + 1) 0x00 ;;;
  outb (COM1 + 3) 0x03 ;;; outb (COM1 + 2) 0xC7 ;;;
  outb (COM1 + 4) 0x0B.

Definition clear32 (m : mem) : mem :=
  for_loop 25 0 (fun y => for_loop 80 0 (fun x m =>
    store16 m (VGA_MEMORY + 2 * (y * VGA_WIDTH + x)) (vga_entry 32 term_color))) m.

Definition terminal_init : M term unit :=
  serial_init32 ;;;
  modify (fun t => set_tmem (clear32 (t_mem t)) t) ;;;
  modify (set_row 0) ;;; modify (set_col 0).

Definition terminal_newline : M term unit :=
  modify (set_col 0) ;;;
  modify (fun t => set_row (i32 (term_row t + 1)) t) ;;;
  modify (fun t => if VGA_HEIGHT <=? term_row t then set_row 0 t else t).

Definition terminal_putchar (c : Z) : M term unit :=
  if c =? 10 then terminal_newline else
  modify (fun t => set_tmem
    (store16 (t_mem t) (VGA_MEMORY + 2 * (term_row t * VGA_WIDTH + term_col t)) (vga_entry c term_color)) t) ;;;
  modify (fun t => set_col (i32 (term_col t + 1)) t) ;;;
  t <- get ;;
  if VGA_WIDTH <=? term_col t then terminal_newline else ret tt.

Fixpoint terminal_writestring (s : list Z) : M term unit :=
  match s with
  | [] => ret tt
  | c :: r => if c =? 0 then ret tt
              else terminal_putchar c ;;; serial_putchar c ;;; terminal_writestring r
  end.

(** "0x00000000" *)
Definition hex_buf32 (v : Z) : list Z := hex_fill 8 9 v ([48; 120] ++ replicate 8 48).

Definition terminal_write_hex (v : Z) : M term unit := terminal_writestring (hex_buf32 v).

(** ** The 64-bit console *)

Lemma vga_entry_cell c : vga_entry c term_color = vga_cell c.
Proof. reflexivity. Qed.

Lemma terminal_writestring_64 s t :
  terminal_writestring s t = print_chars lsr fuel s t.
Proof.
  revert t. induction s as [|c s IH]; intros t; [done|]. cbn [terminal_writestring print_chars].
  destruct (c =? 0); [done|].
  change (terminal_putchar c) with (putc_vga c).
  change (serial_putchar c) with (serial_putc lsr fuel c).
  unfold bind. destruct (putc_vga c t) as [[] t1 tr1| |]; [|done..].
  destruct (serial_putc lsr fuel c t1) as [[] t2 tr2| |]; [|done..]. by rewrite IH.
Qed.

Lemma hex_buf32_digits v : hex_buf32 v = [48; 120] ++ hex_digits 8 v.
Proof.
  unfold hex_buf32. rewrite hex_fill_digits by (cbn; lia).
  change (take (10 - 8) ([48; 120] ++ replicate 8 48)) with [48; 120].
  change (drop 10 ([48; 120] ++ replicate 8 48)) with (@nil Z). by rewrite app_nil_r.
Qed.

End Console32.

(** The text of a number holds no terminator. *)
Lemma cstr_hex32 v : cstr (hex_buf32 v) = hex_buf32 v.
Proof.
  apply cstr_id. rewrite hex_buf32_digits. intros [H|H]%elem_of_app.
  - rewrite !elem_of_cons, elem_of_nil in H. lia.
  - apply hex_digits_printable in H. lia.
Qed.

(** C40: the 32-bit console puts every string on the
    screen and on the serial port exactly as the linear screen of the 64-bit one, keeps
    the cursor on the screen, touches no interrupt flag, and [terminal_write_hex]
    prints a text that reads back as its 32-bit argument. *)
Theorem terminal_writestring_correct lsr fuel s v t :
  (forall n, exists k, (k < fuel)%nat /\ Z.land (lsr (n + k)%nat) 0x20 <> 0) ->
  term_wf t -> 0 <= v < 2 ^ 32 ->
  (exists t', terminal_writestring lsr fuel s t = Done tt t' (serial_bytes (cstr s)) /\
    term_wf t' /\ t_if t' = t_if t /\
    (t_mem t', cursor t') = print_spec (cstr s) (t_mem t, cursor t)) /\
  (exists t' s', terminal_write_hex lsr fuel v t = Done tt t' (serial_bytes s') /\
    term_wf t' /\ parse_hex s' = Some v).
Proof.
  intros Hr Hwf Hv. split.
  - destruct (print_chars_run lsr fuel Hr s t Hwf) as (t' & E & Hwf' & [_ Hi] & Hp).
    exists t'. by rewrite terminal_writestring_64.
  - destruct (print_chars_run lsr fuel Hr (hex_buf32 v) t Hwf) as (t' & E & Hwf' & _).
    exists t', (hex_buf32 v). unfold terminal_write_hex. rewrite terminal_writestring_64, E.
    split_and!; [|done|].
    + by rewrite cstr_hex32.
    + rewrite hex_buf32_digits. cbn [app parse_hex]. rewrite parse_hex_digits.
      f_equal. apply Z.mod_small. lia.
Qed.

Lemma terminal_writestring_correct_witness : exists t',
  terminal_writestring (fun _ => 0x20) 1 [72; 10] (term_boot (fun _ => 0)) =
    Done tt t' [EOutb 0x3F8 72; EOutb 0x3F8 10].
Proof.
  destruct (terminal_writestring_correct (fun _ => 0x20) 1 [72; 10] 0 (term_boot (fun _ => 0)))
    as [(t' & E & _) _].
  - intros n. exists 0%nat. split; [lia|]. vm_compute. discriminate.
  - split; vm_compute; split; congruence.
  - lia.
  - exists t'. exact E.
Defined.
