(* ===== verification/Timer.v ===== *)
(** * timer.c and timer64.c: the 8259 interrupt controllers and the 8254 timer

    Both files only write to ports; the devices, as their data sheets describe them,
    are the specification: the initialisation sequence of an 8259 and the reload value
    of channel 0 of the 8254. *)

From S2P Require Import Prelude Machine.

Section Timer.
Context {S : Type}.

(** timer64.c *)
Definition pic_remap : M S unit :=
  outb 0x20 0x11 ;;; outb 0xA0 0x11 ;;;
  outb 0x21 0x20 ;;; outb 0xA1 0x28 ;;;
  outb 0x21 0x04 ;;; outb 0xA1 0x02 ;;;
  outb 0x21 0x01 ;;; outb 0xA1 0x01 ;;;
  outb 0x21 0x0 ;;; outb 0xA1 0x0.

Definition pit_init (freq : Z) : M S unit :=
  divisor <- udiv 1193180 freq ;;
  outb 0x43 0x36 ;;;
  outb 0x40 (u8 (Z.land divisor 0xFF)) ;;;
  outb 0x40 (u8 (Z.land (Z.shiftr divisor 8) 0xFF)).

(** timer.c *)
Definition pic_remap32 : M S unit :=
  outb 0x20 0x11 ;;; outb 0xA0 0x11 ;;;
  outb 0x21 0x20 ;;; outb 0xA1 0x28 ;;;
  outb 0x21 0x04 ;;; outb 0xA1 0x02 ;;;
  outb 0x21 0x01 ;;; outb 0xA1 0x01 ;;;
  outb 0x21 0x0 ;;; outb 0xA1 0x0.

Definition timer_init (freq : Z) : M S unit :=
  divisor <- udiv 1193180 freq ;;
  outb 0x43 0x36 ;;;
  outb 0x40 (u8 (Z.land divisor 0xFF)) ;;;
  outb 0x40 (u8 (Z.land (Z.shiftr divisor 8) 0xFF)).
End Timer.

(** ** The 8259 *)

(** What the next write to the data port means. *)
Inductive pic_expect := ICW2 | ICW3 | ICW4 | OCW1.

Record pic := mkPic {
  p_expect : pic_expect;
  p_icw4 : bool;       (* ICW1 announced an ICW4 *)
  p_offset : Z;        (* vector of input 0 *)
  p_cascade : Z;
  p_mode : Z;
  p_mask : Z
}.

(** A command with bit 4 set starts an initialisation and clears the mask. *)
Definition pic_command (v : Z) (p : pic) : pic :=
  if Z.testbit v 4 then mkPic ICW2 (Z.testbit v 0) (p_offset p) (p_cascade p) 0 0 else p.

Definition pic_data (v : Z) (p : pic) : pic :=
  match p_expect p with
  | ICW2 => mkPic ICW3 (p_icw4 p) (Z.land v 0xF8) (p_cascade p) (p_mode p) (p_mask p)
  | ICW3 => mkPic (if p_icw4 p then ICW4 else OCW1) (p_icw4 p) (p_offset p) v (p_mode p) (p_mask p)
  | ICW4 => mkPic OCW1 (p_icw4 p) (p_offset p) (p_cascade p) v (p_mask p)
  | OCW1 => mkPic OCW1 (p_icw4 p) (p_offset p) (p_cascade p) (p_mode p) v
  end.

(** Master and slave, driven by the port writes of a trace. *)
Definition pics_event (ms : pic * pic) (e : event) : pic * pic :=
  let (m, s) := ms in
  match e with
  | EOutb 0x20 v => (pic_command v m, s)
  | EOutb 0x21 v => (pic_data v m, s)
  | EOutb 0xA0 v => (m, pic_command v s)
  | EOutb 0xA1 v => (m, pic_data v s)
  | _ => ms
  end.
Definition pics_run (ms : pic * pic) (t : list event) : pic * pic := foldl pics_event ms t.

(** The vector of interrupt request [n], if it is not masked; the slave's requests
    pass through input 2 of the master. *)
Definition pics_vector (ms : pic * pic) (n : Z) : option Z :=
  let (m, s) := ms in
  if n <? 8 then if Z.testbit (p_mask m) n then None else Some (p_offset m + n)
  else if Z.testbit (p_mask m) 2 || Z.testbit (p_mask s) (n - 8) then None
  else Some (p_offset s + (n - 8)).

(** ** The 8254 *)

(** The reload value of channel 0 after a control word 0x36 (low byte, then high
    byte, square wave). *)
Definition pit_reload (t : list event) : option Z :=
  match t with
  | [EOutb 0x43 0x36; EOutb 0x40 lo; EOutb 0x40 hi] => Some (lo + 256 * hi)
  | _ => None
  end.

(** ** Theorems *)

(** Whatever state the two interrupt controllers are in,
    [pic_remap] runs their whole initialisation sequence, joins the slave at input 2
    and leaves every request unmasked on vector 32 + n, so that no hardware interrupt
    falls on an exception vector. *)
Theorem pic_remap_vectors {S} (s : S) ms :
  exists t, pic_remap s = Done tt s t /\
    p_expect (pics_run ms t).1 = OCW1 /\ p_expect (pics_run ms t).2 = OCW1 /\
    p_cascade (pics_run ms t).1 = 2 ^ 2 /\ p_cascade (pics_run ms t).2 = 2 /\
    forall n, 0 <= n < 16 -> pics_vector (pics_run ms t) n = Some (32 + n).
Proof.
  eexists. split; [reflexivity|]. destruct ms as [m sl]. split_and!; try reflexivity.
  intros n Hn. cbn -[Z.testbit Z.add Z.sub Z.ltb]. rewrite !Z.testbit_0_l. cbn [orb].
  change (p_offset _) with 0x20 at 1. change (p_offset _) with 0x28.
  destruct (Z.ltb_spec n 8); apply f_equal; lia.
Qed.

Lemma pic_remap_vectors_witness : exists t,
  pic_remap tt = Done tt tt t /\
  pics_vector (pics_run (mkPic OCW1 false 8 4 1 0xB8, mkPic OCW1 false 0x70 2 1 0x8E) t) 1 = Some 33.
Proof.
  destruct (pic_remap_vectors tt (mkPic OCW1 false 8 4 1 0xB8, mkPic OCW1 false 0x70 2 1 0x8E))
    as (t & E & _ & _ & _ & _ & H).
  exists t. split; [exact E|]. apply (H 1). lia.
Defined.

Lemma pit_init_run {S} freq (s : S) :
  0 < freq ->
  pit_init freq s = Done tt s
    [EOutb 0x43 0x36; EOutb 0x40 (1193180 / freq mod 256); EOutb 0x40 (1193180 / freq / 256 mod 256)].
Proof.
  intros H. unfold pit_init, udiv. destruct (Z.eqb_spec freq 0); [lia|]. rewrite bind_ret.
  change 0xFF with (2 ^ 8 - 1). rewrite !land_ones_mod, Z.shiftr_div_pow2 by lia.
  unfold u8. rewrite !Z.mod_mod by lia. reflexivity.
Qed.

(** For the frequencies the 16-bit counter can produce (19 Hz to
    1193180 Hz) the timer is loaded with the largest divisor whose rate is at least
    the one asked for; below 19 Hz the divisor loses its high bits and the rate is
    wrong; a frequency of 0 divides by zero.  [timer_init] of the 32-bit kernel is the
    same function. *)
Theorem pit_init_rate {S} (s : S) freq :
  0 <= freq < 2 ^ 32 ->
  (19 <= freq <= 1193180 -> exists t d, pit_init freq s = Done tt s t /\ pit_reload t = Some d /\
     0 < d < 2 ^ 16 /\ d * freq <= 1193180 < (d + 1) * freq) /\
  (0 < freq < 19 -> exists t d, pit_init freq s = Done tt s t /\ pit_reload t = Some d /\
     d = (1193180 / freq) mod 2 ^ 16 /\ d <> 1193180 / freq) /\
  (freq = 0 -> exists t, pit_init freq s = Hang s t) /\
  timer_init freq s = pit_init freq s.
Proof.
  intros Hf. split_and!.
  - intros H. rewrite pit_init_run by lia. eexists _, (1193180 / freq). split; [done|].
    assert (0 < 1193180 / freq < 2 ^ 16) as Hd.
    { split; [apply Z.div_str_pos; lia|]. apply Z.div_lt_upper_bound; lia. }
    split_and!; try lia.
    + cbn. f_equal. dlia.
    + pose proof (Z.mul_div_le 1193180 freq). lia.
    + pose proof (Z.mul_succ_div_gt 1193180 freq). lia.
  - intros H. rewrite pit_init_run by lia. eexists _, ((1193180 / freq) mod 2 ^ 16).
    split; [done|]. split_and!; [cbn; f_equal; dlia|done|].
    assert (2 ^ 16 <= 1193180 / freq) by (apply Z.div_le_lower_bound; lia).
    pose proof (Z.mod_pos_bound (1193180 / freq) (2 ^ 16)). lia.
  - intros ->. eexists. reflexivity.
  - reflexivity.
Qed.

Lemma pit_init_rate_witness : exists t d,
  pit_init 100 tt = Done tt tt t /\ pit_reload t = Some d /\ d * 100 <= 1193180 < (d + 1) * 100.
Proof.
  destruct (pit_init_rate tt 100) as ((t & d & E & H & _ & Hd) & _).
  - lia.
  - lia.
  - exists t, d. split_and!; [exact E|exact H|apply Hd|apply Hd].
Defined.
