(* ===== verification/Fpu.v ===== *)
(** * fpu.c: enabling the FPU and SSE

    The control registers of the CPU that runs [fpu_init]. *)

From S2P Require Import Prelude Machine.

Record cpu_cr := mkCr { cr0 : Z; cr4 : Z }.

Definition fpu_init : M cpu_cr unit :=
  c0 <- gets cr0 ;;
  let c0 := Z.land c0 (u64 (Z.lnot (Z.shiftl 1 2))) in
  let c0 := Z.lor c0 (Z.shiftl 1 1) in
  instr "mov cr0" c0 ;;; modify (fun r => mkCr c0 (cr4 r)) ;;;
  c4 <- gets cr4 ;;
  let c4 := Z.lor c4 (Z.lor (Z.shiftl 1 9) (Z.shiftl 1 10)) in
  instr "mov cr4" c4 ;;; modify (fun r => mkCr (cr0 r) c4) ;;;
  instr "fninit" 0.

(** SSE instructions do not fault: emulation off, OSFXSR on. *)
Definition sse_usable (r : cpu_cr) : bool := negb (Z.testbit (cr0 r) 2) && Z.testbit (cr4 r) 9.

Lemma testbit_shiftl1 k i : 0 <= k -> 0 <= i -> Z.testbit (Z.shiftl 1 k) i = (k =? i).
Proof. intros. rewrite Z.shiftl_1_l. by apply Z.pow2_bits_eqb. Qed.

Lemma testbit_clear k i :
  0 <= k -> 0 <= i < 64 -> Z.testbit (u64 (Z.lnot (Z.shiftl 1 k))) i = negb (k =? i).
Proof.
  intros. unfold u64. rewrite Z.mod_pow2_bits_low, Z.lnot_spec, testbit_shiftl1 by lia. done.
Qed.

(** [fpu_init] makes SSE usable on the CPU it runs on (EM clear,
    MP, OSFXSR and OSXMMEXCPT set) and changes no other bit of the control registers. *)
Theorem fpu_init_enables r i :
  0 <= i < 64 ->
  exists r' t, fpu_init r = Done tt r' t /\ sse_usable r' = true /\
    Z.testbit (cr0 r') i = (if i =? 2 then false else if i =? 1 then true else Z.testbit (cr0 r) i) /\
    Z.testbit (cr4 r') i = (if (i =? 9) || (i =? 10) then true else Z.testbit (cr4 r) i).
Proof.
  intros Hi. eexists _, _. split; [reflexivity|]. cbn [cr0 cr4]. unfold sse_usable. cbn [cr0 cr4].
  rewrite !Z.lor_spec, !Z.land_spec, !testbit_clear, !testbit_shiftl1 by lia. split_and!.
  - cbn. rewrite andb_false_r. cbn. by rewrite orb_true_r.
  - rewrite (Z.eqb_sym 2), (Z.eqb_sym 1). destruct (Z.eqb_spec i 2) as [->|]; [cbn; by rewrite andb_false_r|].
    cbn [negb]. rewrite andb_true_r. destruct (i =? 1); [apply orb_true_r|apply orb_false_r].
  - rewrite (Z.eqb_sym 9), (Z.eqb_sym 10).
    destruct (i =? 9), (i =? 10); cbn; rewrite ?orb_true_r, ?orb_false_r; done.
Qed.

Lemma fpu_init_enables_witness : exists r' t,
  fpu_init (mkCr 0x80000015 0x20) = Done tt r' t /\ sse_usable r' = true.
Proof.
  destruct (fpu_init_enables (mkCr 0x80000015 0x20) 0) as (r' & t & E & H & _); [lia|].
  exists r', t. split; [exact E|exact H].
Defined.
