(* ===== verification/Gdt64.v ===== *)
(** * gdt64.c: segment descriptors and task state segments

    The GDT, the task state segments and the ring-0 stacks are static objects of the
    kernel image, at addresses fixed at link time; they live in byte-addressed
    memory, where the CPU reads them.  Loading a register is an event. *)

From S2P Require Import Prelude Memory Machine.

Definition KSTACK0_SIZE : Z := 8192.
Definition MAX_TSS_CPUS : Z := 4.
Definition SEL_KCODE : Z := 0x08.
Definition SEL_KDATA : Z := 0x10.
Definition SEL_UCODE : Z := 0x18.
Definition SEL_UDATA : Z := 0x20.
Definition SEL_TSS_BASE : Z := 0x28.

(** Layout of the packed [tss64_t]. *)
Definition sizeof_tss64 : Z := 104.
Definition tss_rsp0 : Z := 4.
Definition tss_iomap_base : Z := 102.

Section Gdt.
(** Link-time addresses of [gdt], [gdt_ptr], [tss] and [kstack0]. *)
Context (gdt gdt_ptr tss kstack0 : Z).

Definition gdt_slot (i : Z) : Z := gdt + 8 * i.
Definition tss_at (cpu_idx : Z) : Z := tss + sizeof_tss64 * cpu_idx.
Definition kstack0_top (cpu_idx : Z) : Z := kstack0 + KSTACK0_SIZE * cpu_idx + KSTACK0_SIZE.

(** The two words of the descriptor of a task state segment. *)
Definition tss_desc_low (base limit : Z) : Z :=
  Z.lor (Z.lor (Z.lor (Z.lor (Z.land limit 0xFFFF)
    (u64 (Z.shiftl (Z.land base 0xFFFFFF) 16)))
    (u64 (Z.shiftl 0x89 40)))
    (u64 (Z.shiftl (Z.land (Z.shiftr limit 16) 0xF) 48)))
    (u64 (Z.shiftl (Z.land (Z.shiftr base 24) 0xFF) 56)).
Definition tss_desc_high (base : Z) : Z := Z.land (Z.shiftr base 32) 0xFFFFFFFF.

Definition gdt_setup_cpu_tss (cpu_idx : Z) : M mem unit :=
  if (cpu_idx <? 0) || (MAX_TSS_CPUS <=? cpu_idx) then ret tt else
  let t := tss_at cpu_idx in
  modify (fun m => fill64 (Z.to_nat (sizeof_tss64 / 8)) m t (fun _ => 0)) ;;;
  modify (fun m => store64 m (t + tss_rsp0) (kstack0_top cpu_idx)) ;;;
  modify (fun m => store16 m (t + tss_iomap_base) sizeof_tss64) ;;;
  let base := t in
  let limit := sizeof_tss64 - 1 in
  let slot := 5 + cpu_idx * 2 in
  modify (fun m => store64 m (gdt_slot slot) (tss_desc_low base limit)) ;;;
  modify (fun m => store64 m (gdt_slot (slot + 1)) (tss_desc_high base)) ;;;
  instr "ltr" (u16 (SEL_TSS_BASE + cpu_idx * 0x10)).

Definition kcode_desc : Z :=
  Z.lor (Z.lor (Z.lor (Z.shiftl 1 43) (Z.shiftl 1 44)) (Z.shiftl 1 47)) (Z.shiftl 1 53).
Definition kdata_desc : Z := Z.lor (Z.lor (Z.shiftl 1 44) (Z.shiftl 1 47)) (Z.shiftl 1 41).

Definition gdt_init : M mem unit :=
  let kcode := kcode_desc in
  let kdata := kdata_desc in
  let ucode := Z.lor kcode (Z.shiftl 3 45) in
  let udata := Z.lor kdata (Z.shiftl 3 45) in
  modify (fun m => store64 m (gdt_slot 0) 0) ;;;
  modify (fun m => store64 m (gdt_slot 1) kcode) ;;;
  modify (fun m => store64 m (gdt_slot 2) kdata) ;;;
  modify (fun m => store64 m (gdt_slot 3) ucode) ;;;
  modify (fun m => store64 m (gdt_slot 4) udata) ;;;
  modify (fun m => store16 m gdt_ptr (8 * (5 + 2 * MAX_TSS_CPUS) - 1)) ;;;
  modify (fun m => store64 m (gdt_ptr + 2) gdt) ;;;
  instr "lgdt" gdt_ptr ;;;
  instr "mov ds,es,fs,gs,ss" SEL_KDATA ;;;
  instr "lretq cs" SEL_KCODE ;;;
  gdt_setup_cpu_tss 0.

Definition gdt_get_ptr_address : Z := gdt_ptr.

Definition gdt_get_tss_rsp0 (cpu_idx : Z) (m : mem) : Z :=
  if (cpu_idx <? 0) || (MAX_TSS_CPUS <=? cpu_idx) then 0 else load64 m (tss_at cpu_idx + tss_rsp0).

End Gdt.

(** ** Descriptors as the CPU reads them (Intel SDM, volume 3, chapters 3 and 8) *)

Definition bits (d lo n : Z) : Z := (d / 2 ^ lo) mod 2 ^ n.

Record descriptor := mkDesc {
  d_base : Z; d_limit : Z; d_type : Z; d_segment : Z; d_dpl : Z; d_present : Z; d_long : Z
}.

Definition decode (lo hi : Z) : descriptor :=
  mkDesc (bits lo 16 24 + 2 ^ 24 * bits lo 56 8 + 2 ^ 32 * bits hi 0 32)
    (bits lo 0 16 + 2 ^ 16 * bits lo 48 4)
    (bits lo 40 4) (bits lo 44 1) (bits lo 45 2) (bits lo 47 1) (bits lo 53 1).

(** Types: 9 is an available 64-bit TSS; code segments have bit 3 set, writable data
    segments bit 1. *)
Definition TYPE_TSS : Z := 9.

Lemma tss_desc_low_arith base limit :
  0 <= base < 2 ^ 64 -> 0 <= limit < 2 ^ 16 ->
  tss_desc_low base limit =
  limit + (base mod 2 ^ 24) * 2 ^ 16 + 0x89 * 2 ^ 40 + ((base / 2 ^ 24) mod 2 ^ 8) * 2 ^ 56.
Proof.
  intros Hb Hl. unfold tss_desc_low, u64.
  change 0xFFFF with (2 ^ 16 - 1). change 0xFFFFFF with (2 ^ 24 - 1).
  change 0xFF with (2 ^ 8 - 1). change 0xF with (2 ^ 4 - 1).
  rewrite !field_arith, !land_ones_mod, !shiftl_arith by lia.
  rewrite (Z.mod_small limit), (Z.div_small limit) by lia.
  pose proof (Z.mod_pos_bound base (2 ^ 24)). pose proof (Z.mod_pos_bound (base / 2 ^ 24) (2 ^ 8)).
  set (x := base mod 2 ^ 24) in *. set (y := (base / 2 ^ 24) mod 2 ^ 8) in *.
  rewrite (Z.mod_small (x * 2 ^ 16)), (Z.mod_small (y * 2 ^ 56)) by lia.
  change ((137 * 2 ^ 40) mod 2 ^ 64) with (137 * 2 ^ 40).
  change ((0 mod 2 ^ 4 * 2 ^ 48) mod 2 ^ 64) with 0. rewrite Z.lor_0_r.
  rewrite (Z.lor_comm limit), (lor_low _ limit 16) by (lia || dlia).
  rewrite (Z.lor_comm (x * 2 ^ 16 + limit)), (lor_low _ (x * 2 ^ 16 + limit) 40) by (lia || dlia).
  rewrite (Z.lor_comm (137 * 2 ^ 40 + (x * 2 ^ 16 + limit))),
    (lor_low _ (137 * 2 ^ 40 + (x * 2 ^ 16 + limit)) 56) by (lia || dlia). lia.
Qed.

Lemma tss_desc_high_arith base :
  0 <= base < 2 ^ 64 -> tss_desc_high base = base / 2 ^ 32.
Proof.
  intros Hb. unfold tss_desc_high. change 0xFFFFFFFF with (2 ^ 32 - 1).
  rewrite field_arith by lia. apply Z.mod_small. dlia.
Qed.

(** The descriptor names the segment it was built for. *)
Lemma decode_tss base limit :
  0 <= base < 2 ^ 64 -> 0 <= limit < 2 ^ 16 ->
  decode (tss_desc_low base limit) (tss_desc_high base) = mkDesc base limit TYPE_TSS 0 0 1 0 /\
  0 <= tss_desc_low base limit < 2 ^ 64 /\ 0 <= tss_desc_high base < 2 ^ 64.
Proof.
  intros Hb Hl. rewrite tss_desc_low_arith, tss_desc_high_arith by done.
  pose proof (Z.mod_pos_bound base (2 ^ 24)). pose proof (Z.mod_pos_bound (base / 2 ^ 24) (2 ^ 8)).
  assert (base = base mod 2 ^ 24 + 2 ^ 24 * ((base / 2 ^ 24) mod 2 ^ 8) + 2 ^ 32 * (base / 2 ^ 32)) as Hsplit
    by dlia.
  assert (0 <= base / 2 ^ 32 < 2 ^ 32) by dlia.
  set (x := base mod 2 ^ 24) in *. set (y := (base / 2 ^ 24) mod 2 ^ 8) in *. set (z := base / 2 ^ 32) in *.
  clearbody x y z. subst base. unfold decode, bits, TYPE_TSS. split; [|lia].
  f_equal; dlia.
Qed.
