(* ===== verification/Gdt64Theorems.v ===== *)
(** * Theorems on the descriptor tables *)

From S2P Require Import Prelude Memory Machine Gdt64.

(** The bytes of a zero word are zero. *)
Lemma load_zero_byte n m : forall a i,
  load n m a = 0 -> 0 <= i < Z.of_nat n -> load8 m (a + i) = 0.
Proof.
  induction n as [|n IH]; intros a i H Hi; [lia|]. rewrite load_S in H.
  pose proof (u8_bound (m a)). pose proof (load_bound n m (a + 1)).
  destruct (Z.eq_dec i 0) as [->|Hne].
  - rewrite Z.add_0_r, load_S. change (load 0 m (a + 1)) with 0. lia.
  - replace (a + i) with (a + 1 + (i - 1)) by lia. apply IH; lia.
Qed.

Section Layout.
Context (gdt gdt_ptr tss kstack0 : Z).

(** The linker places the objects apart, in the low half of the address space. *)
Record gdt_layout : Prop := {
  gl_range : 0 <= gdt /\ gdt + 104 <= 2 ^ 47 /\ 0 <= gdt_ptr /\ gdt_ptr + 10 <= 2 ^ 47 /\
    0 <= tss /\ tss + 416 <= 2 ^ 47 /\ 0 <= kstack0 /\ kstack0 + 32768 <= 2 ^ 47;
  gl_gdt_ptr : disjoint_range gdt 104 gdt_ptr 10;
  gl_gdt_tss : disjoint_range gdt 104 tss 416;
  gl_ptr_tss : disjoint_range gdt_ptr 10 tss 416
}.
Hypothesis layout : gdt_layout.

Local Abbreviation setup := (gdt_setup_cpu_tss gdt tss kstack0).

(** The memory after the setup of CPU [c]. *)
Definition setup_mem (c : Z) (m : mem) : mem :=
  let t := tss_at tss c in
  let m := fill64 13 m t (fun _ => 0) in
  let m := store64 m (t + tss_rsp0) (kstack0_top kstack0 c) in
  let m := store16 m (t + tss_iomap_base) sizeof_tss64 in
  let m := store64 m (gdt_slot gdt (5 + c * 2)) (tss_desc_low t (sizeof_tss64 - 1)) in
  store64 m (gdt_slot gdt (5 + c * 2 + 1)) (tss_desc_high t).

Lemma setup_run c m :
  0 <= c < 4 -> setup c m = Done tt (setup_mem c m) [EInstr "ltr" (0x28 + 16 * c)].
Proof.
  intros Hc. unfold gdt_setup_cpu_tss, MAX_TSS_CPUS.
  destruct (Z.ltb_spec c 0); [lia|]. destruct (Z.leb_spec 4 c); [lia|]. cbn [orb]. mstep.
  unfold instr, emit. do 3 f_equal. unfold SEL_TSS_BASE. rewrite u16_small by lia. f_equal. lia.
Qed.

Ltac layout_lia :=
  destruct layout as [? ? ? ?];
  unfold tss_at, kstack0_top, gdt_slot, sizeof_tss64, KSTACK0_SIZE, tss_rsp0, tss_iomap_base,
    disjoint_range in *; lia.

(** Every word of the task state segment. *)
Lemma setup_mem_tss c m :
  0 <= c < 4 ->
  load64 (setup_mem c m) (tss_at tss c + 4) = kstack0_top kstack0 c /\
  load16 (setup_mem c m) (tss_at tss c + 102) = 104 /\
  (forall i, 0 <= i < 104 -> ~ (4 <= i < 12) -> ~ (102 <= i) ->
     load8 (setup_mem c m) (tss_at tss c + i) = 0).
Proof.
  intros Hc. unfold setup_mem. destruct (fill64_spec 13 m (tss_at tss c) (fun _ => 0)) as [Hz _]; [lia|].
  set (z := fill64 13 m (tss_at tss c) (fun _ => 0)) in *. split_and!.
  - rewrite !load_store_ne by layout_lia. apply load64_store_eq. layout_lia.
  - rewrite (load_store_ne 8 2), (load_store_ne 8 2) by layout_lia.
    rewrite load_store_eq. reflexivity.
  - intros i Hi H1 H2. rewrite !load_store_ne by layout_lia.
    replace (tss_at tss c + i) with (tss_at tss c + 8 * (i / 8) + i mod 8) by dlia.
    apply (load_zero_byte 8); [|dlia]. rewrite Hz by dlia. done.
Qed.

Lemma setup_mem_desc c m :
  0 <= c < 4 ->
  decode (load64 (setup_mem c m) (gdt_slot gdt (5 + 2 * c)))
         (load64 (setup_mem c m) (gdt_slot gdt (6 + 2 * c))) =
  mkDesc (tss_at tss c) 103 TYPE_TSS 0 0 1 0.
Proof.
  intros Hc. destruct (decode_tss (tss_at tss c) (sizeof_tss64 - 1)) as (Hd & H1 & H2); [layout_lia|done|].
  unfold setup_mem. replace (6 + 2 * c) with (5 + c * 2 + 1) by lia.
  replace (5 + 2 * c) with (5 + c * 2) by lia.
  rewrite (load64_store_eq _ _ (tss_desc_high _)) by done.
  rewrite (load_store_ne 8 8) by layout_lia. rewrite load64_store_eq by done. exact Hd.
Qed.

(** Nothing else is written. *)
Lemma setup_mem_out c m x :
  0 <= c < 4 ->
  ~ (tss_at tss c <= x < tss_at tss c + 104) ->
  ~ (gdt_slot gdt (5 + 2 * c) <= x < gdt_slot gdt (7 + 2 * c)) ->
  setup_mem c m x = m x.
Proof.
  intros Hc H1 H2. unfold setup_mem. rewrite !store_out by layout_lia.
  destruct (fill64_spec 13 m (tss_at tss c) (fun _ => 0)) as [_ Ho]; [lia|]. apply Ho. lia.
Qed.

Lemma gdt_setup_cpu_tss_run c m :
  (0 <= c < 4 -> exists m', setup c m = Done tt m' [EInstr "ltr" (8 * (5 + 2 * c))] /\
    decode (load64 m' (gdt_slot gdt (5 + 2 * c))) (load64 m' (gdt_slot gdt (6 + 2 * c))) =
      mkDesc (tss_at tss c) 103 TYPE_TSS 0 0 1 0 /\
    load64 m' (tss_at tss c + 4) = kstack0 + 8192 * (c + 1) /\
    gdt_get_tss_rsp0 tss c m' = kstack0 + 8192 * (c + 1) /\
    load16 m' (tss_at tss c + 102) = 104 /\
    (forall i, 0 <= i < 104 -> ~ (4 <= i < 12) -> ~ (102 <= i) -> load8 m' (tss_at tss c + i) = 0) /\
    (forall x, ~ (tss_at tss c <= x < tss_at tss c + 104) ->
       ~ (gdt_slot gdt (5 + 2 * c) <= x < gdt_slot gdt (7 + 2 * c)) -> m' x = m x) /\
    (forall c', 0 <= c' < 4 -> c' <> c ->
       disjoint_range (tss_at tss c) 104 (tss_at tss c') 104 /\
       disjoint_range (gdt_slot gdt (5 + 2 * c)) 16 (gdt_slot gdt (5 + 2 * c')) 16 /\
       disjoint_range (kstack0_top kstack0 c - 8192) 8192 (kstack0_top kstack0 c' - 8192) 8192)) /\
  (~ (0 <= c < 4) -> setup c m = Done tt m [] /\ gdt_get_tss_rsp0 tss c m = 0).
Proof.
  split.
  - intros Hc. exists (setup_mem c m). split; [rewrite setup_run by done; do 3 f_equal; lia|].
    destruct (setup_mem_tss c m Hc) as (H1 & H2 & H3).
    assert (kstack0_top kstack0 c = kstack0 + 8192 * (c + 1)) as Ht
      by (unfold kstack0_top, KSTACK0_SIZE; lia).
    split_and!; [by apply setup_mem_desc|congruence| |done|done|by intros; apply setup_mem_out|].
    + unfold gdt_get_tss_rsp0, MAX_TSS_CPUS. destruct (Z.ltb_spec c 0); [lia|].
      destruct (Z.leb_spec 4 c); [lia|]. unfold tss_rsp0. cbn [orb]. congruence.
    + intros c' Hc' Hne. unfold tss_at, gdt_slot, kstack0_top, sizeof_tss64, KSTACK0_SIZE, disjoint_range. lia.
  - intros Hc. unfold gdt_setup_cpu_tss, gdt_get_tss_rsp0, MAX_TSS_CPUS.
    destruct (Z.ltb_spec c 0), (Z.leb_spec 4 c); try done; lia.
Qed.

(** C33: for each of the four CPUs it supports
    [gdt_setup_cpu_tss] builds, in the slots its task register selector names, the
    descriptor of that CPU's own task state segment, whose only non-zero fields are the
    top of that CPU's own ring-0 stack and an I/O map beyond the limit; it writes
    nothing else, and selectors, segments and stacks of different CPUs do not meet.
    For every other index it does nothing, so that CPU gets no task register. *)
Theorem gdt_setup_cpu_tss_correct c m :
  (0 <= c < 4 -> exists m', setup c m = Done tt m' [EInstr "ltr" (8 * (5 + 2 * c))] /\
    decode (load64 m' (gdt_slot gdt (5 + 2 * c))) (load64 m' (gdt_slot gdt (6 + 2 * c))) =
      mkDesc (tss_at tss c) 103 TYPE_TSS 0 0 1 0 /\
    load64 m' (tss_at tss c + 4) = kstack0 + 8192 * (c + 1) /\
    gdt_get_tss_rsp0 tss c m' = kstack0 + 8192 * (c + 1) /\
    load16 m' (tss_at tss c + 102) = 104 /\
    (forall i, 0 <= i < 104 -> ~ (4 <= i < 12) -> ~ (102 <= i) -> load8 m' (tss_at tss c + i) = 0) /\
    (forall x, ~ (tss_at tss c <= x < tss_at tss c + 104) ->
       ~ (gdt_slot gdt (5 + 2 * c) <= x < gdt_slot gdt (7 + 2 * c)) -> m' x = m x) /\
    (forall c', 0 <= c' < 4 -> c' <> c ->
       disjoint_range (tss_at tss c) 104 (tss_at tss c') 104 /\
       disjoint_range (gdt_slot gdt (5 + 2 * c)) 16 (gdt_slot gdt (5 + 2 * c')) 16 /\
       disjoint_range (kstack0_top kstack0 c - 8192) 8192 (kstack0_top kstack0 c' - 8192) 8192)) /\
  (~ (0 <= c < 4) -> setup c m = Done tt m [] /\ gdt_get_tss_rsp0 tss c m = 0).
Proof. by apply gdt_setup_cpu_tss_run. Qed.

(** The five segment descriptors and the register image. *)
Definition gdt_mem (m : mem) : mem :=
  let m := store64 m (gdt_slot gdt 0) 0 in
  let m := store64 m (gdt_slot gdt 1) kcode_desc in
  let m := store64 m (gdt_slot gdt 2) kdata_desc in
  let m := store64 m (gdt_slot gdt 3) (Z.lor kcode_desc (Z.shiftl 3 45)) in
  let m := store64 m (gdt_slot gdt 4) (Z.lor kdata_desc (Z.shiftl 3 45)) in
  let m := store16 m gdt_ptr 103 in
  store64 m (gdt_ptr + 2) gdt.

Lemma gdt_init_run m :
  gdt_init gdt gdt_ptr tss kstack0 m =
  Done tt (setup_mem 0 (gdt_mem m))
    [EInstr "lgdt" gdt_ptr; EInstr "mov ds,es,fs,gs,ss" 0x10; EInstr "lretq cs" 0x08;
     EInstr "ltr" 0x28].
Proof.
  unfold gdt_init. mstep. unfold instr. rewrite bind_emit, bind_emit, bind_emit.
  fold (gdt_mem m). rewrite setup_run by lia. reflexivity.
Qed.

(** A word of the table that the task state segments do not touch. *)
Lemma setup_mem_low n m a :
  (a + Z.of_nat n <= gdt_slot gdt 5 /\ gdt <= a) \/
  (gdt_ptr <= a /\ a + Z.of_nat n <= gdt_ptr + 10) ->
  load n (setup_mem 0 m) a = load n m a.
Proof. intros Ha. apply load_ext. intros x Hx. apply setup_mem_out; layout_lia. Qed.

(** After [gdt_init] the register image describes the thirteen
    words of the table; the null descriptor is zero, the kernel code and data segments
    have privilege level 0 and the user ones level 3, the code segments are 64-bit and
    executable, the data segments writable; CS and the data segment registers hold the
    kernel selectors and the task register the boot CPU's task state segment. *)
Theorem gdt_init_segments m :
  exists m', gdt_init gdt gdt_ptr tss kstack0 m =
    Done tt m' [EInstr "lgdt" gdt_ptr; EInstr "mov ds,es,fs,gs,ss" SEL_KDATA;
                EInstr "lretq cs" SEL_KCODE; EInstr "ltr" SEL_TSS_BASE] /\
    load16 m' gdt_ptr = 8 * 13 - 1 /\ load64 m' (gdt_ptr + 2) = gdt /\
    load64 m' gdt = 0 /\
    decode (load64 m' (gdt + SEL_KCODE)) 0 = mkDesc 0 0 8 1 0 1 1 /\
    decode (load64 m' (gdt + SEL_KDATA)) 0 = mkDesc 0 0 2 1 0 1 0 /\
    decode (load64 m' (gdt + SEL_UCODE)) 0 = mkDesc 0 0 8 1 3 1 1 /\
    decode (load64 m' (gdt + SEL_UDATA)) 0 = mkDesc 0 0 2 1 3 1 0 /\
    decode (load64 m' (gdt + SEL_TSS_BASE)) (load64 m' (gdt + SEL_TSS_BASE + 8)) =
      mkDesc tss 103 TYPE_TSS 0 0 1 0.
Proof.
  exists (setup_mem 0 (gdt_mem m)). split; [apply gdt_init_run|].
  unfold SEL_KCODE, SEL_KDATA, SEL_UCODE, SEL_UDATA, SEL_TSS_BASE.
  pose proof (setup_mem_desc 0 (gdt_mem m)) as Ht. unfold gdt_slot, tss_at in Ht.
  change (sizeof_tss64 * 0) with 0 in Ht. rewrite (Z.add_0_r tss) in Ht. replace (gdt + 0x28 + 8) with (gdt + 0x30) by lia.
  rewrite (setup_mem_low 2), !(setup_mem_low 8) by layout_lia.
  split_and!; [..|exact (Ht ltac:(lia))]; unfold gdt_mem; cbv zeta.
  - rewrite (load_store_ne 8 2) by layout_lia. rewrite load_store_eq. done.
  - apply load64_store_eq. layout_lia.
  - rewrite !load_store_ne by layout_lia. replace gdt with (gdt_slot gdt 0) at 2 by (unfold gdt_slot; lia).
    by rewrite load64_store_eq.
  - rewrite !load_store_ne by layout_lia. by rewrite load64_store_eq.
  - rewrite !load_store_ne by layout_lia. by rewrite load64_store_eq.
  - rewrite !load_store_ne by layout_lia. by rewrite load64_store_eq.
  - rewrite !load_store_ne by layout_lia. by rewrite load64_store_eq.
Qed.
End Layout.

Lemma gdt_layout_ex : gdt_layout 0x110000 0x110100 0x111000 0x112000.
Proof. split; unfold disjoint_range; lia. Qed.

Lemma gdt_setup_cpu_tss_correct_witness : exists m',
  gdt_setup_cpu_tss 0x110000 0x111000 0x112000 1 (fun _ => 0) = Done tt m' [EInstr "ltr" 0x38] /\
  load64 m' (0x111000 + 104 + 4) = 0x116000.
Proof.
  destruct (gdt_setup_cpu_tss_correct _ _ _ _ gdt_layout_ex 1 (fun _ => 0)) as [H _].
  destruct H as (m' & E & _ & H & _); [lia|]. exists m'. split; [exact E|exact H].
Defined.

Lemma gdt_init_segments_witness : exists m' t,
  gdt_init 0x110000 0x110100 0x111000 0x112000 (fun _ => 0) = Done tt m' t /\
  decode (load64 m' 0x110018) 0 = mkDesc 0 0 8 1 3 1 1.
Proof.
  destruct (gdt_init_segments _ _ _ _ gdt_layout_ex (fun _ => 0)) as (m' & E & _ & _ & _ & _ & _ & H & _).
  exists m'. eexists. split; [exact E|exact H].
Defined.
