(* ===== verification/Acpi.v ===== *)
(** * acpi.c: finding the CPUs and the interrupt controllers

    The firmware tables in byte-addressed memory and the root pointer [g_rsdp]
    ([NULL] is 0).  Out-parameters are returned. *)

From S2P Require Import Prelude Memory Machine.

(** Offsets in the packed structures. *)
Definition rsdp_revision : Z := 15.
Definition rsdp_rsdt_address : Z := 16.
Definition rsdp_xsdt_address : Z := 24.
Definition sizeof_sdt_header : Z := 36.
Definition sdt_length : Z := 4.
Definition madt_local_apic_address : Z := 36.
Definition madt_entries : Z := 44.

Definition MADT_TYPE_LOCAL_APIC : Z := 0.
Definition MADT_TYPE_IO_APIC : Z := 1.
Definition MADT_FLAG_ENABLED : Z := 1.

Record acpi := mkAcpi { a_mem : mem; g_rsdp : Z }.

Definition set_rsdp (p : Z) (a : acpi) : acpi := mkAcpi (a_mem a) p.

(** [signature[i] == s[i]] for every character of [s]. *)
Definition sig_at (m : mem) (p : Z) (s : list Z) : bool :=
  forallb (fun '(i, c) => load8 m (p + Z.of_nat i) =? c) (imap pair s).

(** "RSD PTR " and "APIC" *)
Definition RSDP_SIG : list Z := [82; 83; 68; 32; 80; 84; 82; 32].
Definition MADT_SIG : list Z := [65; 80; 73; 67].

Definition checksum_ok (m : mem) (data : Z) (len : nat) : bool :=
  for_loop len 0 (fun i sum => u8 (sum + load8 m (data + i))) 0 =? 0.

(** One round of the scan: [inr] leaves the loop. *)
Definition scan_body (m : mem) (stop addr : Z) : Z + Z :=
  if negb (addr <? stop) then inr 0
  else if sig_at m addr RSDP_SIG && checksum_ok m addr 20 then inr addr
  else inl (u64 (addr + 16)).

Definition scan_for_rsdp (start stop : Z) : M acpi Z :=
  m <- gets a_mem ;;
  loop (Z.to_nat ((stop - start) / 16 + 2)) (fun addr => ret (scan_body m stop addr)) start.

Definition acpi_find_rsdp_bios : M acpi unit :=
  a <- get ;;
  if negb (g_rsdp a =? 0) then ret tt else
  let ebda_seg := load16 (a_mem a) 0x40E in
  let ebda_addr := u64 (Z.shiftl ebda_seg 4) in
  (if negb (ebda_addr =? 0) then
     p <- scan_for_rsdp ebda_addr (u64 (ebda_addr + 1024)) ;; modify (set_rsdp p)
   else ret tt) ;;;
  a <- get ;;
  (if g_rsdp a =? 0 then p <- scan_for_rsdp 0xE0000 0x100000 ;; modify (set_rsdp p)
   else ret tt) ;;;
  a <- get ;;
  if g_rsdp a =? 0 then kprint ("[acpi] WARNING: RSDP not found via BIOS scan" +:+ nl) else ret tt.

Definition acpi_set_rsdp (rsdp : Z) : M acpi unit := modify (set_rsdp rsdp).

(** The loop over the table pointers: entries of [w] bytes at [tables]. *)
Fixpoint find_table (w : nat) (m : mem) (tables : Z) (n : nat) (i : Z) : Z :=
  match n with
  | O => 0
  | S n' => let t := load w m (tables + Z.of_nat w * i) in
            if sig_at m t MADT_SIG then t else find_table w m tables n' (i + 1)
  end.

(** [(sdt->length - sizeof(sdt_header_t)) / w], a [size_t] cut to 32 bits. *)
Definition table_count (w : nat) (m : mem) (sdt : Z) : Z :=
  u32 (u64 (load32 m (sdt + sdt_length) - sizeof_sdt_header) / Z.of_nat w).

Definition find_madt (a : acpi) : Z :=
  let m := a_mem a in
  let r := g_rsdp a in
  if r =? 0 then 0 else
  if (2 <=? load8 m (r + rsdp_revision)) && negb (load64 m (r + rsdp_xsdt_address) =? 0) then
    let xsdt := load64 m (r + rsdp_xsdt_address) in
    find_table 8 m (xsdt + sizeof_sdt_header) (Z.to_nat (table_count 8 m xsdt)) 0
  else
    let rsdt := load32 m (r + rsdp_rsdt_address) in
    find_table 4 m (rsdt + sizeof_sdt_header) (Z.to_nat (table_count 4 m rsdt)) 0.

(** The entries of the MADT end [length] bytes after its start. *)
Definition madt_end (m : mem) (madt : Z) : Z := madt + load32 m (madt + sdt_length).
Definition madt_fuel (m : mem) (madt : Z) : nat := S (Z.to_nat (load32 m (madt + sdt_length))).

(** The return value, and the two addresses when they are written. *)
Definition acpi_find_apic_bases : M acpi (bool * option (Z * Z)) :=
  a <- get ;;
  let m := a_mem a in
  let madt := find_madt a in
  if madt =? 0 then ret (false, None) else
  ioapic <- loop (madt_fuel m madt) (fun ptr => ret (
      if negb (ptr <? madt_end m madt) then inr 0
      else if load8 m ptr =? MADT_TYPE_IO_APIC then inr (load32 m (ptr + 4))
      else inl (ptr + load8 m (ptr + 1)))) (madt + madt_entries) ;;
  ret (negb (ioapic =? 0), Some (load32 m (madt + madt_local_apic_address), ioapic)).

(** The identifiers written to [apic_ids_out]; their number is the return value. *)
Definition acpi_find_cpus (max_cpus : Z) : M acpi (list Z) :=
  a <- get ;;
  let m := a_mem a in
  let madt := find_madt a in
  if madt =? 0 then
    kprint ("[acpi] WARNING: MADT not found, assuming single-CPU" +:+ nl) ;;; ret []
  else
  ids <- loop (madt_fuel m madt) (fun '(ptr, ids) => ret (
      if negb ((ptr <? madt_end m madt) && (Z.of_nat (length ids) <? max_cpus)) then inr ids
      else
        let ids := if (load8 m ptr =? MADT_TYPE_LOCAL_APIC) &&
                      negb (Z.land (load32 m (ptr + 4)) MADT_FLAG_ENABLED =? 0)
                   then ids ++ [load8 m (ptr + 3)] else ids in
        inl (ptr + load8 m (ptr + 1), ids))) (madt + madt_entries, []) ;;
  kprint "[acpi] MADT: found " ;;;
  kprint_hex64 (Z.of_nat (length ids)) ;;;
  kprint (" enabled CPU(s)" +:+ nl) ;;;
  ret ids.
