(* ===== verification/AcpiTheorems.v ===== *)
(** * Theorems on the firmware tables *)

From S2P Require Import Prelude Memory Machine Acpi.

(** ** The root pointer *)

Definition byte_sum (m : mem) (p : Z) (n : nat) : Z :=
  foldr Z.add 0 ((fun i => load8 m (p + i)) <$> seqZ 0 (Z.of_nat n)).

(** The signature, and the twenty bytes of version 1.0 add up to zero. *)
Definition rsdp_valid (m : mem) (p : Z) : bool :=
  sig_at m p RSDP_SIG && (byte_sum m p 20 mod 256 =? 0).

Definition rsdp_candidates (start stop : Z) : list Z :=
  (fun k => start + 16 * k) <$> seqZ 0 ((stop - start + 15) / 16).

Definition first_rsdp (m : mem) (start stop : Z) : option Z :=
  List.find (rsdp_valid m) (rsdp_candidates start stop).

Lemma foldr_add_snoc l x : foldr Z.add 0 (l ++ [x]) = foldr Z.add 0 l + x.
Proof. induction l as [|y l IH]; cbn; [lia|]. rewrite IH. lia. Qed.

Lemma byte_sum_snoc m p n : byte_sum m p (S n) = byte_sum m p n + load8 m (p + Z.of_nat n).
Proof.
  unfold byte_sum. replace (Z.of_nat (S n)) with (Z.of_nat n + 1) by lia.
  rewrite seqZ_app, (seqZ_cons _ 1), (seqZ_nil _ (Z.pred 1)), fmap_app, fmap_cons, fmap_nil by lia.
  by rewrite foldr_add_snoc.
Qed.

Lemma checksum_ok_sum m p n : checksum_ok m p n = (byte_sum m p n mod 256 =? 0).
Proof.
  unfold checksum_ok. f_equal.
  pose proof (for_loop_inv (fun j s => 0 <= j -> s = byte_sum m p (Z.to_nat j) mod 256) n 0
    (fun i sum => u8 (sum + load8 m (p + i))) 0) as H.
  cbv beta in H. rewrite H; [by rewrite Z.add_0_l, Nat2Z.id|done| |lia].
  intros j s Hj Hs _. rewrite Hs by lia. replace (Z.to_nat (j + 1)) with (S (Z.to_nat j)) by lia.
  rewrite byte_sum_snoc, Z2Nat.id by lia. unfold u8. change (2 ^ 8) with 256.
  by rewrite Zplus_mod_idemp_l.
Qed.

Lemma scan_loop m stop n : forall fuel addr (a : acpi),
  (n < fuel)%nat -> 0 <= addr -> stop + 16 <= 2 ^ 64 ->
  n = Z.to_nat ((stop - addr + 15) / 16) ->
  loop fuel (fun addr => ret (scan_body m stop addr)) addr a =
  Done (default 0 (first_rsdp m addr stop)) a [].
Proof.
  induction n as [|n IH]; intros [|fuel] addr a Hf Ha Hs Hn; try lia; cbn [loop]; mstep;
    unfold scan_body at 1.
  - destruct (Z.ltb_spec addr stop); [dlia|]. unfold first_rsdp, rsdp_candidates.
    rewrite seqZ_nil by dlia. done.
  - destruct (Z.ltb_spec addr stop); [|dlia]. cbn [negb].
    unfold first_rsdp, rsdp_candidates. rewrite seqZ_cons by dlia. rewrite fmap_cons. cbn [List.find].
    rewrite Z.mul_0_r, Z.add_0_r. unfold rsdp_valid at 1. rewrite checksum_ok_sum.
    destruct (_ && _); [done|]. rewrite u64_small by lia.
    rewrite (IH fuel (addr + 16)) by (lia || dlia). do 2 f_equal. unfold first_rsdp, rsdp_candidates.
    change (Z.succ 0) with (1 + 0). rewrite <- fmap_add_seqZ, <- list_fmap_compose.
    f_equal. replace (Z.pred ((stop - addr + 15) / 16)) with ((stop - (addr + 16) + 15) / 16) by dlia.
    apply list_fmap_ext. intros i x _. cbn. lia.
Qed.

Lemma scan_for_rsdp_run start stop a :
  0 <= start <= stop -> stop + 16 <= 2 ^ 64 ->
  scan_for_rsdp start stop a = Done (default 0 (first_rsdp (a_mem a) start stop)) a [].
Proof.
  intros Hs He. unfold scan_for_rsdp. mstep.
  eapply (scan_loop _ _ (Z.to_nat ((stop - start + 15) / 16))); [|lia|lia|done]. dlia.
Qed.

Lemma first_rsdp_pos m start stop p : 0 < start -> first_rsdp m start stop = Some p -> start <= p.
Proof.
  intros Hs H. apply find_some in H as [H _]. apply list_elem_of_In in H.
  unfold rsdp_candidates in H. apply list_elem_of_fmap in H as (k & -> & Hk).
  apply elem_of_seqZ in Hk. lia.
Qed.

(** The places the ACPI specification names, in order. *)
Definition bios_rsdp (m : mem) : option Z :=
  let ebda := 16 * load16 m 0x40E in
  match (if ebda =? 0 then None else first_rsdp m ebda (ebda + 1024)) with
  | Some p => Some p
  | None => first_rsdp m 0xE0000 0x100000
  end.

Lemma acpi_find_rsdp_bios_run a :
  acpi_find_rsdp_bios a =
  if negb (g_rsdp a =? 0) then Done tt a []
  else match bios_rsdp (a_mem a) with
       | Some p => Done tt (set_rsdp p a) []
       | None => Done tt a [EPrint ("[acpi] WARNING: RSDP not found via BIOS scan" +:+ nl)]
       end.
Proof.
  destruct a as [m r]. unfold acpi_find_rsdp_bios, bios_rsdp. mstep. cbn [g_rsdp a_mem].
  destruct (Z.eqb_spec r 0) as [->|Hr]; cbn [negb]; [|done].
  pose proof (load16_bound m 0x40E). rewrite shiftl_arith by lia.
  rewrite (u64_small (load16 m 0x40E * 2 ^ 4)) by lia.
  replace (load16 m 0x40E * 2 ^ 4) with (16 * load16 m 0x40E) by lia.
  destruct (Z.eqb_spec (16 * load16 m 0x40E) 0) as [E|E]; cbn [negb].
  - mstep. cbn [g_rsdp]. change (0 =? 0) with true. cbv iota.
    rewrite bind_assoc, (bind_done _ _ _ _ _ _ (scan_for_rsdp_run 0xE0000 0x100000 _ ltac:(lia) ltac:(lia))).
    mstep. cbn [a_mem set_rsdp g_rsdp]. destruct (first_rsdp m 0xE0000 0x100000) as [p|] eqn:Hp; [|done].
    apply first_rsdp_pos in Hp; [|lia]. cbn. by destruct (Z.eqb_spec p 0); [lia|].
  - rewrite (u64_small (16 * load16 m 0x40E + 1024)) by lia. mstep.
    rewrite (bind_done _ _ _ _ _ _ (scan_for_rsdp_run (16 * load16 m 0x40E)
      (16 * load16 m 0x40E + 1024) _ ltac:(lia) ltac:(lia))). mstep. cbn [a_mem set_rsdp g_rsdp].
    destruct (first_rsdp m (16 * load16 m 0x40E) _) as [p|] eqn:Hp; cbn [default from_option id].
    + apply first_rsdp_pos in Hp; [|lia]. destruct (Z.eqb_spec p 0); [lia|]. mstep. cbn.
      by destruct (Z.eqb_spec p 0); [lia|].
    + change (0 =? 0) with true. cbv iota.
      rewrite bind_assoc, (bind_done _ _ _ _ _ _ (scan_for_rsdp_run 0xE0000 0x100000 _ ltac:(lia) ltac:(lia))).
      mstep. cbn [a_mem set_rsdp g_rsdp]. destruct (first_rsdp m 0xE0000 0x100000) as [p|] eqn:Hq; [|done].
      apply first_rsdp_pos in Hq; [|lia]. cbn. by destruct (Z.eqb_spec p 0); [lia|].
Qed.

(** The search for the root pointer terminates; it
    keeps a pointer set before, and otherwise finds the first 16-byte aligned place
    with the right signature and checksum in the first kilobyte of the EBDA or, failing
    that, in 0xE0000-0xFFFFF; only when there is none it warns and leaves NULL. *)
Theorem acpi_find_rsdp_bios_correct a :
  acpi_find_rsdp_bios a =
  if negb (g_rsdp a =? 0) then Done tt a []
  else match bios_rsdp (a_mem a) with
       | Some p => Done tt (set_rsdp p a) []
       | None => Done tt a [EPrint ("[acpi] WARNING: RSDP not found via BIOS scan" +:+ nl)]
       end.
Proof. by apply acpi_find_rsdp_bios_run. Qed.

(** ** The tables *)

(** The pointers of the table directory: 64-bit ones of the XSDT for revision 2 and
    later, 32-bit ones of the RSDT otherwise. *)
Definition directory (a : acpi) : nat * Z :=
  let m := a_mem a in let r := g_rsdp a in
  if (2 <=? load8 m (r + 15)) && negb (load64 m (r + 24) =? 0)
  then (8%nat, load64 m (r + 24)) else (4%nat, load32 m (r + 16)).

Definition sdt_tables (a : acpi) : list Z :=
  let (w, sdt) := directory a in
  (fun i => load w (a_mem a) (sdt + 36 + Z.of_nat w * i)) <$>
    seqZ 0 ((load32 (a_mem a) (sdt + 4) - 36) / Z.of_nat w).

Definition directory_ok (a : acpi) : Prop :=
  g_rsdp a <> 0 /\ 36 <= load32 (a_mem a) ((directory a).2 + 4).

Lemma find_table_find w m tables n : forall i,
  find_table w m tables n i =
  default 0 (List.find (fun t => sig_at m t MADT_SIG)
    ((fun i => load w m (tables + Z.of_nat w * i)) <$> seqZ i (Z.of_nat n))).
Proof.
  induction n as [|n IH]; intros i; [done|]. cbn [find_table].
  rewrite seqZ_cons by lia. rewrite fmap_cons. cbn [List.find].
  destruct (sig_at m _ MADT_SIG); [done|]. rewrite IH.
  replace (Z.pred (Z.of_nat (S n))) with (Z.of_nat n) by lia. by replace (Z.succ i) with (i + 1) by lia.
Qed.

Lemma table_count_exact (w : nat) m sdt :
  (0 < w)%nat -> 36 <= load32 m (sdt + 4) ->
  table_count w m sdt = (load32 m (sdt + 4) - 36) / Z.of_nat w.
Proof.
  intros Hw Hl. unfold table_count, sdt_length, sizeof_sdt_header.
  pose proof (load32_bound m (sdt + 4)). rewrite u64_small by lia.
  apply u32_small. split; [apply Z.div_pos; lia|]. apply Z.div_lt_upper_bound; nia.
Qed.

Lemma find_madt_first a :
  directory_ok a ->
  find_madt a = default 0 (List.find (fun t => sig_at (a_mem a) t MADT_SIG) (sdt_tables a)).
Proof.
  intros [Hr Hl]. unfold find_madt, sdt_tables, directory in *.
  unfold rsdp_revision, rsdp_xsdt_address, rsdp_rsdt_address, sizeof_sdt_header.
  destruct (Z.eqb_spec (g_rsdp a) 0); [done|].
  destruct (_ && _); cbn [snd] in Hl; rewrite find_table_find, table_count_exact by (lia || done);
    rewrite Z2Nat.id by (apply Z.div_pos; lia); done.
Qed.

(** The entries of the MADT between [p] and [e], by address; each says how long it
    is. *)
Inductive entries_at (m : mem) (e : Z) : Z -> list Z -> Prop :=
| entries_end p : e <= p -> entries_at m e p []
| entries_cons p es :
    p < e -> 0 < load8 m (p + 1) -> entries_at m e (p + load8 m (p + 1)) es ->
    entries_at m e p (p :: es).

Lemma entries_at_length m e p es :
  entries_at m e p es -> Z.of_nat (length es) <= Z.max 0 (e - p).
Proof. induction 1 as [|p es Hp Hl _ IH]; cbn; lia. Qed.

(** A processor that can be started: type 0, enabled. *)
Definition enabled_cpu (m : mem) (p : Z) : option Z :=
  if (load8 m p =? 0) && Z.testbit (load32 m (p + 4)) 0 then Some (load8 m (p + 3)) else None.

Definition ioapic_of (m : mem) (p : Z) : option Z :=
  if load8 m p =? 1 then Some (load32 m (p + 4)) else None.

Lemma enabled_flag x : negb (Z.land x MADT_FLAG_ENABLED =? 0) = Z.testbit x 0.
Proof.
  unfold MADT_FLAG_ENABLED. change 1 with (2 ^ 0). pose proof (land_bit_zero x 0 ltac:(lia)) as H.
  destruct (Z.eqb_spec (Z.land x (2 ^ 0)) 0) as [E|E], (Z.testbit x 0); cbn; try done; tauto || intuition congruence.
Qed.

Lemma cpus_loop m e (mx : Z) (a : acpi) p es : entries_at m e p es -> forall fuel ids,
  (length es < fuel)%nat -> 0 <= mx -> Z.of_nat (length ids) <= mx ->
  loop fuel (fun '(ptr, ids) => ret (
      if negb ((ptr <? e) && (Z.of_nat (length ids) <? mx)) then inr ids
      else
        let ids := if (load8 m ptr =? MADT_TYPE_LOCAL_APIC) &&
                      negb (Z.land (load32 m (ptr + 4)) MADT_FLAG_ENABLED =? 0)
                   then ids ++ [load8 m (ptr + 3)] else ids in
        inl (ptr + load8 m (ptr + 1), ids))) (p, ids) a =
  Done (take (Z.to_nat mx) (ids ++ omap (enabled_cpu m) es)) a [].
Proof.
  intros Hes. induction Hes as [p Hp|p es Hp Hl _ IH]; intros [|fuel] ids Hf Hm Hi; cbn [length] in *;
    try lia; cbn [loop]; mstep.
  - destruct (Z.ltb_spec p e); [lia|]. cbn. rewrite app_nil_r. unfold ret. f_equal.
    rewrite take_ge; [done|lia].
  - destruct (Z.ltb_spec p e); [|lia]. cbn [andb].
    destruct (Z.ltb_spec (Z.of_nat (length ids)) mx); cbn [negb].
    + rewrite enabled_flag. cbn [omap]. rewrite IH; [|lia|lia|].
      * cbn. unfold enabled_cpu at 2. unfold MADT_TYPE_LOCAL_APIC.
        destruct (_ && _); cbn; [by rewrite <- app_assoc|done].
      * destruct (_ && _); [|lia]. rewrite length_app. cbn. lia.
    + cbn. unfold ret. f_equal. rewrite take_app_le by lia. symmetry. apply take_ge. lia.
Qed.

Lemma bases_loop m e (a : acpi) p es : entries_at m e p es -> forall fuel,
  (length es < fuel)%nat ->
  loop fuel (fun ptr => ret (
      if negb (ptr <? e) then inr 0
      else if load8 m ptr =? MADT_TYPE_IO_APIC then inr (load32 m (ptr + 4))
      else inl (ptr + load8 m (ptr + 1)))) p a =
  Done (default 0 (head (omap (ioapic_of m) es))) a [].
Proof.
  intros Hes. induction Hes as [p Hp|p es Hp Hl _ IH]; intros [|fuel] Hf; cbn [length] in *;
    try lia; cbn [loop]; mstep.
  - by destruct (Z.ltb_spec p e); [lia|].
  - destruct (Z.ltb_spec p e); [|lia]. cbn [negb]. cbn. unfold ioapic_of at 1, MADT_TYPE_IO_APIC.
    destruct (load8 m p =? 1); [done|]. rewrite IH by lia. done.
Qed.

(** The MADT that [a] leads to, with its entries. *)
Definition madt_entries_of (a : acpi) (madt : Z) (es : list Z) : Prop :=
  directory_ok a /\
  List.find (fun t => sig_at (a_mem a) t MADT_SIG) (sdt_tables a) = Some madt /\ 0 < madt /\
  entries_at (a_mem a) (madt + load32 (a_mem a) (madt + 4)) (madt + 44) es.

Lemma madt_entries_of_fuel a madt es :
  madt_entries_of a madt es -> find_madt a = madt /\ (length es < madt_fuel (a_mem a) madt)%nat.
Proof.
  intros (Hd & Hf & Hp & He). split; [by rewrite find_madt_first, Hf|].
  apply entries_at_length in He. unfold madt_fuel, sdt_length.
  pose proof (load32_bound (a_mem a) (madt + 4)). lia.
Qed.

Lemma acpi_find_cpus_run a madt es max_cpus :
  madt_entries_of a madt es -> 0 <= max_cpus ->
  exists t, acpi_find_cpus max_cpus a =
    Done (take (Z.to_nat max_cpus) (omap (enabled_cpu (a_mem a)) es)) a t.
Proof.
  intros H Hm. destruct (madt_entries_of_fuel a madt es H) as [Hf Hl]. destruct H as (_ & _ & Hp & He).
  unfold acpi_find_cpus. mstep. rewrite Hf. destruct (Z.eqb_spec madt 0); [lia|].
  unfold madt_end, madt_entries, sdt_length.
  rewrite (bind_done _ _ _ _ _ _ (cpus_loop _ _ max_cpus a _ _ He _ [] Hl Hm ltac:(cbn; lia))).
  cbn [app]. eexists. reflexivity.
Qed.

(** C36: when the firmware provides an MADT whose entries have
    positive lengths, [acpi_find_cpus] terminates with the APIC identifiers of the
    enabled processors among its entries, in order, at most [max_cpus] of them. *)
Theorem acpi_find_cpus_correct a madt es max_cpus :
  madt_entries_of a madt es -> 0 <= max_cpus ->
  exists t, acpi_find_cpus max_cpus a =
    Done (take (Z.to_nat max_cpus) (omap (enabled_cpu (a_mem a)) es)) a t.
Proof. by apply acpi_find_cpus_run. Qed.

Lemma acpi_find_apic_bases_run a madt es :
  madt_entries_of a madt es ->
  let ioapic := default 0 (head (omap (ioapic_of (a_mem a)) es)) in
  acpi_find_apic_bases a =
    Done (negb (ioapic =? 0), Some (load32 (a_mem a) (madt + 36), ioapic)) a [].
Proof.
  intros H ioapic. destruct (madt_entries_of_fuel a madt es H) as [Hf Hl]. destruct H as (_ & _ & Hp & He).
  unfold acpi_find_apic_bases. mstep. rewrite Hf. destruct (Z.eqb_spec madt 0); [lia|].
  unfold madt_end, madt_entries, sdt_length, madt_local_apic_address.
  by rewrite (bind_done _ _ _ _ _ _ (bases_loop _ _ a _ _ He _ Hl)).
Qed.

(** For the same tables [acpi_find_apic_bases]
    reports the local APIC address of the MADT and the address of its first I/O APIC,
    and succeeds exactly when that address exists and is not zero; without a root
    pointer it fails and writes nothing. *)
Theorem acpi_find_apic_bases_correct a madt es :
  madt_entries_of a madt es ->
  let ioapic := default 0 (head (omap (ioapic_of (a_mem a)) es)) in
  acpi_find_apic_bases a =
    Done (negb (ioapic =? 0), Some (load32 (a_mem a) (madt + 36), ioapic)) a [] /\
  acpi_find_apic_bases (set_rsdp 0 a) = Done (false, None) (set_rsdp 0 a) [].
Proof. intros H ioapic. split; [by apply acpi_find_apic_bases_run|reflexivity]. Qed.

Lemma loop_stuck {S A B} (body : A -> M S (A + B)) x fuel s :
  (forall b, body x b = Done (inl x) b []) -> loop fuel body x s = Hang s [].
Proof.
  intros H. induction fuel as [|fuel IH]; [done|]. cbn [loop].
  by rewrite (bind_done _ _ _ _ _ _ (H s)), IH.
Qed.

(** An entry of length zero, which only a broken firmware produces, is read for
    ever. *)
Lemma acpi_zero_length_hangs a max_cpus :
  find_madt a <> 0 -> 0 < max_cpus ->
  44 < load32 (a_mem a) (find_madt a + 4) ->
  load8 (a_mem a) (find_madt a + 44) = 2 -> load8 (a_mem a) (find_madt a + 45) = 0 ->
  acpi_find_cpus max_cpus a = Hang a [].
Proof.
  intros Hm Hmax Hl Ht Hz. unfold acpi_find_cpus. mstep.
  destruct (Z.eqb_spec (find_madt a) 0); [done|].
  unfold bind at 1. rewrite loop_stuck; [done|]. intros b.
  unfold madt_end, madt_entries, sdt_length in *.
  destruct (Z.ltb_spec (find_madt a + 44) (find_madt a + load32 (a_mem a) (find_madt a + 4))); [|lia].
  cbn [length]. destruct (Z.ltb_spec (Z.of_nat 0) max_cpus); [|lia]. cbn [andb negb].
  rewrite Ht. replace (find_madt a + 44 + 1) with (find_madt a + 45) by lia.
  by rewrite Hz, Z.add_0_r.
Qed.

(** Two processors, of which the second is enabled, and an I/O APIC. *)
Definition acpi_ex : acpi := mkAcpi (mem_of
  [(0x1010, 4%nat, 0x2000);                            (* rsdt_address *)
   (0x2004, 4%nat, 40); (0x2024, 4%nat, 0x3000);       (* RSDT: one table *)
   (0x3000, 4%nat, 0x43495041); (0x3004, 4%nat, 72);   (* "APIC", length *)
   (0x3024, 4%nat, 0xFEE00000);
   (0x302C, 8%nat, 0x0000000000000800);
   (0x3034, 8%nat, 0x0000000101010800);
   (0x303C, 2%nat, 0x0C01); (0x3040, 4%nat, 0xFEC00000)]) 0x1000.

Lemma acpi_ex_entries : madt_entries_of acpi_ex 0x3000 [0x302C; 0x3034; 0x303C].
Proof.
  split; [split; [discriminate|vm_compute; discriminate]|]. split; [vm_compute; reflexivity|].
  split; [lia|]. repeat (apply entries_cons; [vm_compute; reflexivity..|]).
  apply entries_end. vm_compute. discriminate.
Qed.

Lemma acpi_find_cpus_correct_witness : exists t,
  acpi_find_cpus 8 acpi_ex = Done [1] acpi_ex t.
Proof.
  destruct (acpi_find_cpus_correct acpi_ex 0x3000 [0x302C; 0x3034; 0x303C] 8) as [t E].
  - exact acpi_ex_entries.
  - lia.
  - exists t. rewrite E. reflexivity.
Defined.

Lemma acpi_find_apic_bases_correct_witness :
  acpi_find_apic_bases acpi_ex = Done (true, Some (0xFEE00000, 0xFEC00000)) acpi_ex [].
Proof.
  destruct (acpi_find_apic_bases_correct acpi_ex 0x3000 [0x302C; 0x3034; 0x303C] acpi_ex_entries) as [E _].
  rewrite E. reflexivity.
Defined.
