(* ===== verification/Apic.v ===== *)
(** * apic.c: the local APIC, the I/O APIC and the tick source

    Memory-mapped and port writes are events; what the devices answer is a record of
    inputs: the CPUID word, the local APIC's identifier register (one per CPU), the
    APIC base register, the successive reads of port 0x61 and the timer's current
    count when it is read.  The wait for the calibration timer is bounded by
    [poll_fuel] polls. *)

From S2P Require Import Prelude Memory Machine FrameSource Paging Acpi.

Record apic_dev := mkDev {
  cpuid1_edx : Z;
  lapic_id_reg : Z;
  msr_apic_base : Z;
  port61 : nat -> Z;
  timer_cur : Z;
  poll_fuel : nat
}.

Definition PANIC_NO_APIC : Z := 1.
Definition LAPIC_EOI : Z := 0xB0.
Definition LAPIC_SPURIOUS : Z := 0xF0.
Definition LAPIC_LVT_TIMER : Z := 0x320.
Definition LAPIC_TIMER_INIT : Z := 0x380.
Definition LAPIC_TIMER_DIV : Z := 0x3E0.
Definition MAX_TRACKED_CPUS : Z := 16.

Section Apic.
Context {F : Type} {FO : FrameSourceOps F} (frame_pool : Z) (dev : apic_dev).

Record apic := mkApic {
  lapic_base_pa : Z;
  ioapic_base_pa : Z;
  x_rsdp : Z;
  x_paging : paging F
}.

(** The static initialisers. *)
Definition apic_boot (rsdp : Z) (p : paging F) : apic := mkApic 0xFEE00000 0xFEC00000 rsdp p.

Definition set_paging (p : paging F) (s : apic) : apic :=
  mkApic (lapic_base_pa s) (ioapic_base_pa s) (x_rsdp s) p.
Definition in_paging {A} (m : M (paging F) A) : M apic A := zoom x_paging set_paging m.

(** The firmware tables are in the same memory as the page tables. *)
Definition acpi_of (s : apic) : acpi := mkAcpi (p_mem (x_paging s)) (x_rsdp s).
Definition set_acpi (a : acpi) (s : apic) : apic :=
  let p := x_paging s in
  mkApic (lapic_base_pa s) (ioapic_base_pa s) (g_rsdp a)
    (mkPaging (a_mem a) (next_frame p) (kernel_pml4 p) (kernel_pdpt p) (p_source p)).
Definition in_acpi {A} (m : M acpi A) : M apic A := zoom acpi_of set_acpi m.

Definition LAPIC_REG_write (off v : Z) : M apic unit :=
  b <- gets lapic_base_pa ;; emit (EMmio32 (b + off) v).

Definition apic_check_supported : M apic unit :=
  if Z.land (cpuid1_edx dev) (Z.shiftl 1 9) =? 0 then neka_panic "APIC" PANIC_NO_APIC else ret tt.

Definition apic_apply_acpi_bases : M apic unit :=
  r <- in_acpi acpi_find_apic_bases ;;
  match r with
  | (true, Some (lapic_pa, ioapic_pa)) =>
      modify (fun s => mkApic lapic_pa ioapic_pa (x_rsdp s) (x_paging s)) ;;;
      kprint ("[apic] using ACPI-discovered LAPIC/IOAPIC addresses" +:+ nl)
  | _ => kprint ("[apic] ACPI bases unavailable, using standard defaults" +:+ nl)
  end.

Definition disable_legacy_pic : M apic unit := outb 0xA1 0xFF ;;; outb 0x21 0xFF.

Definition lapic_get_id : Z := u8 (Z.land (Z.shiftr (lapic_id_reg dev) 24) 0xFF).

Definition get_cpu_index : Z :=
  if (0 <=? lapic_get_id) && (lapic_get_id <? MAX_TRACKED_CPUS) then lapic_get_id else 0.

Definition lapic_enable : M apic unit :=
  b <- gets lapic_base_pa ;;
  in_paging (paging_map_mmio_2mb frame_pool b) ;;;
  emit (EWrmsr 0x1B (Z.lor (msr_apic_base dev) (Z.shiftl 1 11))) ;;;
  LAPIC_REG_write LAPIC_SPURIOUS 0x1FF.

Definition lapic_send_eoi : M apic unit := LAPIC_REG_write LAPIC_EOI 0.

(** [while (!(inb(0x61) & 0x20));] from the [n]-th read on. *)
Fixpoint wait_out2 (fuel n : nat) : bool :=
  match fuel with
  | O => false
  | S f => negb (Z.land (port61 dev n) 0x20 =? 0) || wait_out2 f (S n)
  end.

Definition pit_count (ms : Z) : Z := u32 (u64 (1193182 * ms) / 1000).

Definition lapic_calibrate_ticks (ms : Z) : M apic Z :=
  LAPIC_REG_write LAPIC_TIMER_DIV 0x3 ;;;
  let x := port61 dev 0 in
  outb 0x61 (u8 (Z.lor (Z.land x (Z.lnot 0x02)) 0x01)) ;;;
  let count := pit_count ms in
  outb 0x43 0xB0 ;;;
  outb 0x42 (u8 (Z.land count 0xFF)) ;;;
  outb 0x42 (u8 (Z.land (Z.shiftr count 8) 0xFF)) ;;;
  LAPIC_REG_write LAPIC_TIMER_INIT 0xFFFFFFFF ;;;
  (if wait_out2 (poll_fuel dev) 1 then ret tt else hang) ;;;
  ret (u32 (0xFFFFFFFF - timer_cur dev)).

Definition apic_timer_init (vector hz : Z) : M apic unit :=
  period_ms <- udiv 1000 hz ;;
  ticks <- lapic_calibrate_ticks period_ms ;;
  LAPIC_REG_write LAPIC_LVT_TIMER (Z.lor vector (Z.shiftl 1 17)) ;;;
  LAPIC_REG_write LAPIC_TIMER_DIV 0x3 ;;;
  LAPIC_REG_write LAPIC_TIMER_INIT ticks ;;;
  kprint "[apic] LAPIC timer calibrated: " ;;;
  kprint_hex64 ticks ;;;
  kprint (" ticks/period" +:+ nl).

Definition ioapic_write (reg v : Z) : M apic unit :=
  b <- gets ioapic_base_pa ;;
  in_paging (paging_map_mmio_2mb frame_pool b) ;;;
  emit (EMmio32 (b + 0x00) reg) ;;;
  emit (EMmio32 (b + 0x10) v).

Definition ioapic_set_redirect (irq vector : Z) : M apic unit :=
  let low := vector in
  let high := u32 (Z.shiftl lapic_get_id 24) in
  ioapic_write (u8 (0x10 + irq * 2)) low ;;;
  ioapic_write (u8 (0x10 + irq * 2 + 1)) high.

End Apic.
Arguments apic F : clear implicits.
Arguments mkApic {F} _ _ _ _.
