(* ===== verification/ApicTheorems.v ===== *)
(** * Theorems on the interrupt controllers and the tick source *)

From S2P Require Import Prelude Memory Machine FrameSource Paging PagingSpec PagingProof.
From S2P Require Import Memmap MemmapProof MemmapTheorems PagingTheorems.
From S2P Require Import Acpi AcpiTheorems Timer Apic.

(** ** The CPU index *)

Lemma lapic_get_id_bound dev : 0 <= lapic_get_id dev < 256.
Proof. apply u8_bound. Qed.

(** The index is a valid index of every per-CPU array; CPUs with identifiers below 16
    get their own, all others share index 0 with the boot CPU. *)
Lemma get_cpu_index_bounds dev :
  0 <= get_cpu_index dev < 16 /\
  get_cpu_index dev = if lapic_get_id dev <? 16 then lapic_get_id dev else 0.
Proof.
  unfold get_cpu_index, MAX_TRACKED_CPUS. pose proof (lapic_get_id_bound dev).
  destruct (Z.leb_spec 0 (lapic_get_id dev)), (Z.ltb_spec (lapic_get_id dev) 16); cbn; lia.
Qed.

(** ** The I/O APIC as its data sheet describes it *)

Record ioapic := mkIoapic { io_sel : Z; io_reg : Z -> Z }.

Definition ioapic_event (base : Z) (d : ioapic) (e : event) : ioapic :=
  match e with
  | EMmio32 a v =>
      if a =? base then mkIoapic (v mod 256) (io_reg d)
      else if a =? base + 0x10 then
        mkIoapic (io_sel d) (fun r => if r =? io_sel d then v else io_reg d r)
      else d
  | _ => d
  end.
Definition ioapic_run (base : Z) (t : list event) (d : ioapic) : ioapic :=
  foldl (ioapic_event base) d t.

(** A redirection entry: vector, delivery mode, destination mode, trigger, mask and
    destination. *)
Record redirection := mkRedir {
  r_vector : Z; r_delivery : Z; r_logical : bool; r_level : bool; r_masked : bool; r_dest : Z
}.
Definition redirection_of (d : ioapic) (irq : Z) : redirection :=
  let lo := io_reg d (0x10 + 2 * irq) in
  let hi := io_reg d (0x11 + 2 * irq) in
  mkRedir (lo mod 256) ((lo / 2 ^ 8) mod 8) (Z.testbit lo 11) (Z.testbit lo 15)
    (Z.testbit lo 16) ((hi / 2 ^ 24) mod 256).

Section Theorems.
Context {F : Type} {FO : FrameSourceOps F} {FS : FrameSource F}.
Context (frame_pool : Z) (dev : apic_dev).

(** The page of the registers at [pa] can be mapped. *)
Definition mmio_ok (p : paging F) (pds : list (Z * Z)) (pa : Z) : Prop :=
  0 <= pa < 2 ^ 39 /\ pa mod 2 ^ 21 = 0 /\
  (pd_of pds (pa / 2 ^ 30) = None ->
   exists f rest, avail frame_pool p = f :: rest /\ frame_ok f).

Lemma ioapic_write_run (s : apic F) pds K reg v :
  kmap frame_pool (x_paging s) pds K -> mmio_ok (x_paging s) pds (ioapic_base_pa s) ->
  exists p' pds', ioapic_write frame_pool reg v s =
      Done tt (set_paging p' s) [EMmio32 (ioapic_base_pa s) reg; EMmio32 (ioapic_base_pa s + 0x10) v] /\
    kmap frame_pool p' pds' (mmio_map K (ioapic_base_pa s)) /\
    mmio_ok p' pds' (ioapic_base_pa s) /\ kernel_pml4 p' = kernel_pml4 (x_paging s).
Proof.
  intros Hk (Hpa & Hal & Hf).
  destruct (paging_map_mmio_run frame_pool _ _ _ _ Hk Hpa Hal Hf) as (p' & pds' & E & Hk' & K4 & _).
  exists p', pds'. split_and!; [|done| |done].
  - unfold ioapic_write, in_paging. mstep.
    assert (zoom x_paging set_paging (paging_map_mmio_2mb frame_pool (ioapic_base_pa s)) s =
            Done tt (set_paging p' s) []) as Ez by (unfold zoom; by rewrite E).
    rewrite (bind_done _ _ _ _ _ _ Ez), Z.add_0_r. reflexivity.
  - split_and!; [lia|lia|done|]. intros Hn. exfalso.
    pose proof (km_none _ _ _ _ Hk' (ioapic_base_pa s / 2 ^ 21)) as Hz.
    replace (ioapic_base_pa s / 2 ^ 21 / 512) with (ioapic_base_pa s / 2 ^ 30) in Hz by dlia.
    specialize (Hz Hn). unfold mmio_map in Hz. by rewrite Z.eqb_refl in Hz.
Qed.

(** Mapping the page twice is mapping it once. *)
Lemma mmio_map_idem K pa n : mmio_map (mmio_map K pa) pa n = mmio_map K pa n.
Proof. unfold mmio_map. by destruct (n =? pa / 2 ^ 21). Qed.

(** [ioapic_set_redirect] programs the entry of the
    interrupt line through the register window: fixed delivery, physical destination
    the calling CPU, edge triggered, not masked, on the given vector; no other register
    of the I/O APIC changes, and its page is mapped for the kernel uncached. *)
Theorem ioapic_set_redirect_correct (s : apic F) pds K irq vector d :
  kmap frame_pool (x_paging s) pds K -> mmio_ok (x_paging s) pds (ioapic_base_pa s) ->
  0 <= irq < 24 -> 0 <= vector < 256 ->
  exists s' t, ioapic_set_redirect frame_pool dev irq vector s = Done tt s' t /\
    let d' := ioapic_run (ioapic_base_pa s) t d in
    redirection_of d' irq = mkRedir vector 0 false false false (lapic_get_id dev) /\
    (forall r, r <> 0x10 + 2 * irq -> r <> 0x11 + 2 * irq -> io_reg d' r = io_reg d r) /\
    forall va, ioapic_base_pa s <= va < ioapic_base_pa s + 2 ^ 21 ->
      walk (p_mem (x_paging s')) (kernel_pml4 (x_paging s')) va = Some (mkXlat va true false true).
Proof.
  intros Hk Hm Hi Hv. pose proof Hm as (Hpa & Hal & _). pose proof (lapic_get_id_bound dev) as Hid.
  destruct (ioapic_write_run s pds K (u8 (0x10 + irq * 2)) vector Hk Hm)
    as (p1 & pds1 & E1 & Hk1 & Hm1 & _).
  destruct (ioapic_write_run (set_paging p1 s) pds1 _ (u8 (0x10 + irq * 2 + 1))
    (u32 (Z.shiftl (lapic_get_id dev) 24)) Hk1 Hm1) as (p2 & pds2 & E2 & Hk2 & _).
  unfold ioapic_set_redirect. rewrite (bind_done _ _ _ _ _ _ E1), E2. eexists _, _. split; [reflexivity|].
  cbn [ioapic_base_pa set_paging x_paging]. set (b := ioapic_base_pa s) in *.
  rewrite (u8_small (0x10 + irq * 2)), (u8_small (0x10 + irq * 2 + 1)), shiftl_arith, u32_small by lia.
  unfold ioapic_run. cbn [app foldl ioapic_event].
  rewrite Z.eqb_refl, (Z.eqb_refl (b + 16)). destruct (Z.eqb_spec (b + 16) b); [lia|].
  cbn [io_sel io_reg]. rewrite (Z.mod_small (0x10 + irq * 2)), (Z.mod_small (0x10 + irq * 2 + 1)) by lia.
  split_and!.
  - unfold redirection_of. cbn [io_reg].
    destruct (Z.eqb_spec (16 + 2 * irq) (16 + irq * 2 + 1)); [lia|].
    destruct (Z.eqb_spec (16 + 2 * irq) (16 + irq * 2)); [|lia].
    destruct (Z.eqb_spec (17 + 2 * irq) (16 + irq * 2 + 1)); [|lia].
    assert (forall k, 8 <= k -> Z.testbit vector k = false) as Hb.
    { intros k Hk'. rewrite <- (Z.mod_small vector (2 ^ 8)) by lia. apply Z.mod_pow2_bits_high. lia. }
    rewrite !Hb by lia. f_equal; dlia.
  - intros r H1 H2. destruct (Z.eqb_spec r (16 + irq * 2 + 1)); [lia|].
    destruct (Z.eqb_spec r (16 + irq * 2)); [lia|]. done.
  - intros va Hva. destruct (kernel_walk _ _ _ _ va Hk2) as [-> _]; [lia|].
    unfold kernel_xlat. rewrite mmio_map_idem. unfold mmio_map.
    change (ioapic_base_pa (set_paging p1 s)) with b.
    destruct (Z.eqb_spec (va / 2 ^ 21) (b / 2 ^ 21)); [|dlia].
    destruct (Z.ltb_spec va (2 ^ 39)); [done|dlia].
Qed.

(** ** The tick source *)

Lemma pit_count_arith ms : 0 <= ms < 2 ^ 32 -> pit_count ms = (1193182 * ms / 1000) mod 2 ^ 32.
Proof. intros H. unfold pit_count, u32. by rewrite u64_small by lia. Qed.

(** The writes that calibrate the timer over [ms] milliseconds. *)
Definition calibration_writes (base ms : Z) : list event :=
  [EMmio32 (base + 0x3E0) 3; EOutb 0x61 (u8 (Z.lor (Z.land (port61 dev 0) (Z.lnot 2)) 1));
   EOutb 0x43 0xB0; EOutb 0x42 (pit_count ms mod 256); EOutb 0x42 (pit_count ms / 256 mod 256);
   EMmio32 (base + 0x380) 0xFFFFFFFF].

Lemma lapic_calibrate_run ms (s : apic F) :
  lapic_calibrate_ticks dev ms s =
  if wait_out2 dev (poll_fuel dev) 1
  then Done (u32 (0xFFFFFFFF - timer_cur dev)) s (calibration_writes (lapic_base_pa s) ms)
  else Hang s (calibration_writes (lapic_base_pa s) ms).
Proof.
  unfold lapic_calibrate_ticks, calibration_writes, LAPIC_REG_write.
  change 0xFF with (2 ^ 8 - 1). rewrite !land_ones_mod, Z.shiftr_div_pow2 by lia.
  unfold u8 at 2 3. rewrite !Z.mod_mod by lia. change (2 ^ 8) with 256.
  by destruct (wait_out2 dev (poll_fuel dev) 1).
Qed.

(** The interrupt comes: some poll sees OUT2 set. *)
Lemma wait_out2_true fuel : forall n k,
  (k < fuel)%nat -> Z.land (port61 dev (n + k)) 0x20 <> 0 -> wait_out2 dev fuel n = true.
Proof.
  induction fuel as [|fuel IH]; intros n k Hk Hp; [lia|]. cbn [wait_out2].
  destruct (Z.eqb_spec (Z.land (port61 dev n) 0x20) 0) as [E|E]; [|done]. cbn [negb orb].
  destruct k as [|k]; [by rewrite Nat.add_0_r in Hp|].
  apply (IH (S n) k); [lia|]. by replace (S n + k)%nat with (n + S k)%nat by lia.
Qed.

(** C37: at 19 to 1000 ticks per second the calibration loads
    channel 2 of the PIT with the number of its clocks in one period (at most 16 bits)
    and waits for it, and the timer ends up unmasked in periodic mode on the given
    vector, divided by 16, with the number of its ticks that went by in that period as
    its initial count; at 0 Hz the division faults. *)
Theorem apic_timer_init_correct (s : apic F) vector hz k :
  0 <= vector < 256 -> (k < poll_fuel dev)%nat -> Z.land (port61 dev (1 + k)) 0x20 <> 0 ->
  0 <= timer_cur dev < 2 ^ 32 ->
  let ticks := 0xFFFFFFFF - timer_cur dev in
  let b := lapic_base_pa s in
  (19 <= hz <= 1000 ->
     let count := 1193182 * (1000 / hz) / 1000 in
     count < 2 ^ 16 /\
     exists lo hi x, lo + 256 * hi = count /\ 0 <= lo < 256 /\ 0 <= hi < 256 /\
     apic_timer_init dev vector hz s = Done tt s
       [EMmio32 (b + 0x3E0) 3; EOutb 0x61 x; EOutb 0x43 0xB0; EOutb 0x42 lo; EOutb 0x42 hi;
        EMmio32 (b + 0x380) 0xFFFFFFFF;
        EMmio32 (b + 0x320) (2 ^ 17 + vector); EMmio32 (b + 0x3E0) 3; EMmio32 (b + 0x380) ticks;
        EPrint "[apic] LAPIC timer calibrated: "; EPrintHex ticks; EPrint (" ticks/period" +:+ nl)]) /\
  (hz = 0 -> apic_timer_init dev vector hz s = Hang s [EInstr "#DE" 0]).
Proof.
  intros Hv Hk Hp Ht ticks b. split; [|by intros ->].
  intros Hz count. assert (1 <= 1000 / hz <= 52) as Hper.
  { split; [apply Z.div_le_lower_bound; lia|]. apply Z.lt_succ_r, Z.div_lt_upper_bound; lia. }
  assert (0 <= count < 2 ^ 16) as Hc by (unfold count; dlia).
  split; [lia|]. eexists (count mod 256), (count / 256 mod 256), _. split_and!; [dlia..|].
  unfold apic_timer_init, udiv. destruct (Z.eqb_spec hz 0); [lia|]. rewrite bind_ret.
  pose proof (lapic_calibrate_run (1000 / hz) s) as E. rewrite (wait_out2_true _ 1 k Hk Hp) in E.
  rewrite (bind_done _ _ _ _ _ _ E), u32_small by lia. unfold calibration_writes.
  rewrite pit_count_arith by lia. fold count. rewrite (Z.mod_small count) by lia.
  rewrite (Z.lor_comm vector), shiftl_arith, (lor_low (1 * 2 ^ 17) vector 17) by (lia || done).
  reflexivity.
Qed.

(** After [disable_legacy_pic] neither of the
    (initialised) 8259s delivers any interrupt. *)
Theorem disable_legacy_pic_masks (s : apic F) m sl :
  p_expect m = OCW1 -> p_expect sl = OCW1 ->
  exists t, disable_legacy_pic s = Done tt s t /\
    forall n, 0 <= n < 16 -> pics_vector (pics_run (m, sl) t) n = None.
Proof.
  intros H1 H2. eexists. split; [reflexivity|]. intros n Hn.
  unfold pics_run, pics_vector. cbn [foldl app pics_event]. unfold pic_data. rewrite H1, H2. cbn [p_mask].
  assert (forall k, 0 <= k < 8 -> Z.testbit 0xFF k = true) as Hb.
  { intros k Hk. change 0xFF with (Z.ones 8). by apply Z.ones_spec_low. }
  destruct (Z.ltb_spec n 8); [by rewrite Hb by lia|]. by rewrite (Hb 2) by lia.
Qed.

(** With an MADT the registers are taken where it says. *)
Lemma apic_apply_acpi_bases_run (s : apic F) madt es pa :
  madt_entries_of (acpi_of s) madt es ->
  head (omap (ioapic_of (p_mem (x_paging s))) es) = Some pa -> pa <> 0 ->
  exists s' t, apic_apply_acpi_bases s = Done tt s' t /\ x_paging s' = x_paging s /\
    lapic_base_pa s' = load32 (p_mem (x_paging s)) (madt + 36) /\ ioapic_base_pa s' = pa /\
    x_rsdp s' = x_rsdp s.
Proof.
  intros H Hh Hpa. pose proof (acpi_find_apic_bases_run _ _ _ H) as E. cbv zeta in E.
  cbn [acpi_of a_mem] in E. rewrite Hh in E. cbn [default from_option id] in E.
  destruct (Z.eqb_spec pa 0); [done|]. cbn [negb] in E.
  unfold apic_apply_acpi_bases, in_acpi.
  assert (zoom acpi_of set_acpi acpi_find_apic_bases s =
    Done (true, Some (load32 (p_mem (x_paging s)) (madt + 36), pa)) (set_acpi (acpi_of s) s) []) as Ez.
  { unfold zoom. by rewrite E. }
  rewrite (bind_done _ _ _ _ _ _ Ez). destruct s as [l i r p]. destruct p. cbn.
  eexists _, _. by split_and!.
Qed.
End Theorems.

(** ** Concrete runs *)

Definition dev_ex : apic_dev := mkDev 0x200 0x02000000 0xFEE00900 (fun _ => 0x20) 0xFFF00000 4.

Lemma ioapic_set_redirect_correct_witness : exists (s s' : apic memmap) t,
  ioapic_set_redirect demo_pool dev_ex 1 33 s = Done tt s' t /\
  redirection_of (ioapic_run (ioapic_base_pa s) t (mkIoapic 0 (fun _ => 0x10000))) 1 =
    mkRedir 33 0 false false false 2.
Proof.
  destruct demo_after_init as (p & Hk & V).
  destruct (ioapic_set_redirect_correct demo_pool dev_ex (apic_boot 0 p) _ _ 1 33
    (mkIoapic 0 (fun _ => 0x10000)) Hk) as (s' & t & E & H & _).
  - split; [cbn; lia|]. split; [reflexivity|]. intros _. cbn [x_paging apic_boot]. rewrite V.
    eexists _, _. split; [reflexivity|]. apply (demo_frame_ok 3). lia.
  - lia.
  - lia.
  - exists (apic_boot 0 p), s', t. split; [exact E|exact H].
Defined.

Lemma apic_timer_init_correct_witness : exists t,
  apic_timer_init dev_ex 32 100 (apic_boot 0 demo_paging) = Done tt (apic_boot 0 demo_paging) t.
Proof.
  destruct (apic_timer_init_correct dev_ex (apic_boot 0 demo_paging) 32 100 0) as [H _].
  - lia.
  - cbn. lia.
  - vm_compute. discriminate.
  - cbn. lia.
  - destruct H as (_ & lo & hi & x & _ & _ & _ & E); [lia|]. eexists. exact E.
Defined.

Lemma disable_legacy_pic_masks_witness : exists t,
  disable_legacy_pic (apic_boot 0 demo_paging) = Done tt (apic_boot 0 demo_paging) t /\
  pics_vector (pics_run (mkPic OCW1 true 8 4 1 0, mkPic OCW1 true 0x70 2 1 0) t) 0 = None.
Proof.
  destruct (disable_legacy_pic_masks (apic_boot 0 demo_paging)
    (mkPic OCW1 true 8 4 1 0) (mkPic OCW1 true 0x70 2 1 0) eq_refl eq_refl) as (t & E & H).
  exists t. split; [exact E|]. apply H. lia.
Defined.
