(* ===== verification/Idt.v ===== *)
(** * idt.c: interrupt gates and the dispatcher

    The table is a static object in byte-addressed memory.  [interrupt_dispatch] gets
    the address of the frame the stub pushed and reads the fields of
    [interrupt_frame_t] from memory; it calls the scheduler, the keyboard driver and
    the local APIC, whose states the kernel's state puts together. *)

From S2P Require Import Prelude Memory Machine KernLock NKern FrameSource Paging AddressSpaces.
From S2P Require Import Sched64 Keyboard Acpi Apic.

(** ** Gates *)

Section Gates.
(** Link-time addresses of [idt], [idt_ptr] and of the stubs [isr0], [isr1], ... *)
Context (idt idt_ptr : Z) (isr : Z -> Z).

Definition gate_at (vector : Z) : Z := idt + 16 * vector.

Definition idt_set_gate (vector handler ist dpl : Z) : M mem unit :=
  let g := gate_at vector in
  modify (fun m => store16 m g (Z.land handler 0xFFFF)) ;;;
  modify (fun m => store16 m (g + 2) 0x08) ;;;
  modify (fun m => store8 m (g + 4) ist) ;;;
  modify (fun m => store8 m (g + 5) (u8 (Z.lor (Z.lor 0x80 (Z.shiftl (Z.land dpl 3) 5)) 0x0E))) ;;;
  modify (fun m => store16 m (g + 6) (Z.land (Z.shiftr handler 16) 0xFFFF)) ;;;
  modify (fun m => store32 m (g + 8) (Z.land (Z.shiftr handler 32) 0xFFFFFFFF)) ;;;
  modify (fun m => store32 m (g + 12) 0).

(** The calls of [idt_init]: vector and privilege level. *)
Definition idt_gates : list (Z * Z) := ((fun v => (v, 0)) <$> seqZ 0 34) ++ [(128, 3)].

Fixpoint set_gates (l : list (Z * Z)) : M mem unit :=
  match l with
  | [] => ret tt
  | (v, dpl) :: l' => idt_set_gate v (isr v) 0 dpl ;;; set_gates l'
  end.

Definition idt_init : M mem unit :=
  modify (fun m => store16 m idt_ptr (16 * 256 - 1)) ;;;
  modify (fun m => store64 m (idt_ptr + 2) idt) ;;;
  set_gates idt_gates ;;;
  instr "lidt" idt_ptr.

Definition idt_load_current_cpu : M mem unit := instr "lidt" idt_ptr.
End Gates.

Definition exception_names : list string :=
  ["Divide Error"; "Debug"; "NMI"; "Breakpoint";
   "Overflow"; "Bound Range Exceeded"; "Invalid Opcode"; "Device Not Available";
   "Double Fault"; "Coprocessor Segment Overrun"; "Invalid TSS"; "Segment Not Present";
   "Stack-Segment Fault"; "General Protection Fault"; "Page Fault"; "Reserved";
   "x87 FPU Error"; "Alignment Check"; "Machine Check"; "SIMD FP Exception";
   "Virtualization Exception"; "Control Protection"; "Reserved"; "Reserved";
   "Reserved"; "Reserved"; "Reserved"; "Reserved";
   "Hypervisor Injection"; "VMM Communication"; "Security Exception"; "Reserved"].

Definition exception_name (vector : Z) : string :=
  if vector <? 32 then nth (Z.to_nat vector) exception_names "" else "Unknown".

(** ** Dispatch *)

Section Dispatch.
Context {F : Type} {FO : FrameSourceOps F} (frame_pool : Z).

Record kernel := mkKernel {
  k_sched : sched (paging F);
  k_kbd : kbd;
  k_lapic : Z;                (* lapic_base_pa, ioapic_base_pa, g_rsdp *)
  k_ioapic : Z;
  k_rsdp : Z;
  call_count : Z;
  shown : bool
}.

Definition set_ksched (s : sched (paging F)) (k : kernel) : kernel :=
  mkKernel s (k_kbd k) (k_lapic k) (k_ioapic k) (k_rsdp k) (call_count k) (shown k).
Definition set_kkbd (b : kbd) (k : kernel) : kernel :=
  mkKernel (k_sched k) b (k_lapic k) (k_ioapic k) (k_rsdp k) (call_count k) (shown k).
Definition set_calls (n : Z) (k : kernel) : kernel :=
  mkKernel (k_sched k) (k_kbd k) (k_lapic k) (k_ioapic k) (k_rsdp k) n (shown k).
Definition set_shown (k : kernel) : kernel :=
  mkKernel (k_sched k) (k_kbd k) (k_lapic k) (k_ioapic k) (k_rsdp k) (call_count k) true.

Definition apic_of (k : kernel) : apic F :=
  mkApic (k_lapic k) (k_ioapic k) (k_rsdp k) (s_space (k_sched k)).
Definition set_apic (a : apic F) (k : kernel) : kernel :=
  mkKernel (set_space (x_paging a) (k_sched k)) (k_kbd k) (lapic_base_pa a) (ioapic_base_pa a)
    (x_rsdp a) (call_count k) (shown k).

Definition in_sched {A} (m : M (sched (paging F)) A) : M kernel A := zoom k_sched set_ksched m.
Definition in_kbd {A} (m : M kbd A) : M kernel A := zoom k_kbd set_kkbd m.
Definition in_apic {A} (m : M (apic F) A) : M kernel A := zoom apic_of set_apic m.

Definition k_mem (k : kernel) : mem := p_mem (s_space (k_sched k)).

(** Fields of the frame at [f]. *)
Definition f_rdi (m : mem) (f : Z) : Z := load64 m (f + 8 * 9).
Definition f_rax (m : mem) (f : Z) : Z := load64 m (f + 8 * 14).
Definition f_vector (m : mem) (f : Z) : Z := load64 m (f + 8 * 15).
Definition f_error_code (m : mem) (f : Z) : Z := load64 m (f + 8 * 16).
Definition f_rip (m : mem) (f : Z) : Z := load64 m (f + 8 * 17).
Definition f_cs (m : mem) (f : Z) : Z := load64 m (f + 8 * 18).
Definition f_rflags (m : mem) (f : Z) : Z := load64 m (f + 8 * 19).

Fixpoint dump_stack (m : mem) (f : Z) (n : nat) (i : Z) : M kernel unit :=
  match n with
  | O => ret tt
  | S n' =>
      kprint "[diag] f[" ;;; kprint_hex64 i ;;; kprint "] = " ;;;
      kprint_hex64 (load64 m (f + 8 * i)) ;;; kprint nl ;;;
      dump_stack m f n' (i + 1)
  end.

Definition report_exception (m : mem) (f : Z) : M kernel unit :=
  kprint (nl +:+ "*** EXCEPTION: ") ;;;
  kprint (exception_name (f_vector m f)) ;;;
  kprint " (vector " ;;; kprint_hex64 (f_vector m f) ;;;
  kprint ", error_code " ;;; kprint_hex64 (f_error_code m f) ;;;
  kprint (")" +:+ nl +:+ "RIP=") ;;; kprint_hex64 (f_rip m f) ;;;
  kprint " RSP-frame CS=" ;;; kprint_hex64 (f_cs m f) ;;;
  kprint " RFLAGS=" ;;; kprint_hex64 (f_rflags m f) ;;;
  kprint (nl +:+ "Halting kernel (no recovery implemented)." +:+ nl) ;;;
  kprint "[diag] frame ptr f = " ;;; kprint_hex64 f ;;; kprint nl ;;;
  dump_stack m f 24 0.

(** Vector 128. *)
Definition syscall (m : mem) (f : Z) : M kernel unit :=
  let from_ring3 := Z.land (f_cs m f) 3 =? 3 in
  if f_rax m f =? 1 then
    let c := Z.land (f_rdi m f) 0xFF in
    modify (fun k => set_calls (u32 (call_count k + 1)) k) ;;;
    k <- get ;;
    (if call_count k mod 300000 =? 1 then
       kprint "[ring3] " ;;; kprint (char_string c) ;;;
       kprint " (syscall #" ;;; kprint_hex64 (call_count k) ;;; kprint (")" +:+ nl)
     else ret tt) ;;;
    if from_ring3 then
      k <- get ;;
      if shown k then ret tt
      else modify set_shown ;;;
           kprint ("[syscall] confirmed genuine CPL3 caller (CS&3==3)" +:+ nl)
    else ret tt
  else ret tt.

(** [c] is the CPU, [scancode] what the keyboard port holds if it is read. *)
Definition interrupt_dispatch (c : nat) (scancode f : Z) : M kernel unit :=
  m <- gets k_mem ;;
  let vector := f_vector m f in
  (if vector <? 32 then
     report_exception m f ;;; instr "cli" 0 ;;; instr "hlt" 0 ;;; hang
   else ret tt) ;;;
  (if vector =? 32 then in_apic lapic_send_eoi ;;; in_sched (sched64_timer_tick c) else ret tt) ;;;
  (if vector =? 33 then in_kbd (keyboard_handle_irq scancode) ;;; in_apic lapic_send_eoi else ret tt) ;;;
  (if vector =? 128 then syscall m f else ret tt).

End Dispatch.
Arguments kernel F : clear implicits.
Arguments mkKernel {F} _ _ _ _ _ _ _.
