(* ===== verification/IdtTheorems.v ===== *)
(** * Theorems on interrupt gates and dispatch *)

From S2P Require Import Prelude Memory Machine KernLock NKern NKernSmp FrameSource Paging AddressSpaces.
From S2P Require Import Sched64 Keyboard Acpi Apic Memmap MemmapTheorems PagingTheorems Idt.

(** ** Gates as the CPU reads them *)

Record gate := mkGate {
  g_offset : Z; g_selector : Z; g_ist : Z; g_type : Z; g_dpl : Z; g_present : bool
}.

Definition decode_gate (m : mem) (a : Z) : gate :=
  let attr := load8 m (a + 5) in
  mkGate (load16 m a + 2 ^ 16 * load16 m (a + 6) + 2 ^ 32 * load32 m (a + 8))
    (load16 m (a + 2)) (load8 m (a + 4)) (attr mod 32) ((attr / 32) mod 4) (Z.testbit attr 7).

Section Gates.
Context (idt idt_ptr : Z) (isr : Z -> Z).
Hypothesis isr_addr : forall v, 0 <= isr v < 2 ^ 64.

Lemma decode_gate_ext m m' a :
  (forall x, a <= x < a + 16 -> m x = m' x) -> decode_gate m a = decode_gate m' a.
Proof.
  intros H. unfold decode_gate.
  rewrite (load_ext 2 m m' a), (load_ext 2 m m' (a + 6)), (load_ext 4 m m' (a + 8)),
    (load_ext 2 m m' (a + 2)), (load_ext 1 m m' (a + 4)), (load_ext 1 m m' (a + 5))
    by (intros x Hx; apply H; lia). done.
Qed.

Definition gate_mem (m : mem) (v handler dpl : Z) : mem :=
  let g := gate_at idt v in
  let m := store16 m g (Z.land handler 0xFFFF) in
  let m := store16 m (g + 2) 0x08 in
  let m := store8 m (g + 4) 0 in
  let m := store8 m (g + 5) (u8 (Z.lor (Z.lor 0x80 (Z.shiftl (Z.land dpl 3) 5)) 0x0E)) in
  let m := store16 m (g + 6) (Z.land (Z.shiftr handler 16) 0xFFFF) in
  let m := store32 m (g + 8) (Z.land (Z.shiftr handler 32) 0xFFFFFFFF) in
  store32 m (g + 12) 0.

Lemma idt_set_gate_run v handler dpl m :
  idt_set_gate idt v handler 0 dpl m = Done tt (gate_mem m v handler dpl) [].
Proof. unfold idt_set_gate. mstep. reflexivity. Qed.

Lemma gate_mem_out m v handler dpl x :
  ~ (gate_at idt v <= x < gate_at idt v + 16) -> gate_mem m v handler dpl x = m x.
Proof. intros H. unfold gate_mem. rewrite !store_out by lia. done. Qed.

Lemma gate_mem_decode m v handler dpl :
  0 <= handler < 2 ^ 64 -> 0 <= dpl < 4 ->
  decode_gate (gate_mem m v handler dpl) (gate_at idt v) = mkGate handler 8 0 0xE dpl true.
Proof.
  intros Hh Hd. set (g := gate_at idt v). unfold decode_gate, gate_mem. fold g.
  change 0xFFFF with (2 ^ 16 - 1). change 0xFFFFFFFF with (2 ^ 32 - 1).
  rewrite !field_arith, land_ones_mod by lia.
  assert (u8 (Z.lor (Z.lor 128 (Z.shiftl (Z.land dpl 3) 5)) 14) = 128 + 32 * dpl + 14) as ->.
  { assert (dpl = 0 \/ dpl = 1 \/ dpl = 2 \/ dpl = 3) as [-> | [-> | [-> | ->]]] by lia; done. }
  repeat match goal with
  | |- context [load ?k (store ?k _ ?a _) ?a] => rewrite (load_store_eq k _ a)
  | |- context [load ?k (store ?n _ ?a _) ?b] =>
      rewrite (load_store_ne n k _ a b) by (unfold disjoint_range; lia)
  end.
  change (256 ^ Z.of_nat 2) with (2 ^ 16). change (256 ^ Z.of_nat 4) with (2 ^ 32).
  change (256 ^ Z.of_nat 1) with (2 ^ 8). rewrite !Z.mod_mod by lia.
  rewrite (Z.mod_small (128 + 32 * dpl + 14)) by lia. f_equal; try dlia; try done.
  rewrite Z.testbit_true by lia. dlia.
Qed.

(** Gates set one after the other, on distinct vectors. *)
Lemma set_gates_run l : forall m,
  NoDup l.*1 -> exists m', set_gates idt isr l m = Done tt m' [] /\
    (forall v, (forall d, (v, d) ∈ l -> 0 <= d < 4) -> 
       decode_gate m' (gate_at idt v) =
       match List.find (fun g => g.1 =? v) l with
       | Some g => mkGate (isr v) 8 0 0xE g.2 true
       | None => decode_gate m (gate_at idt v)
       end) /\
    (forall x, (forall v, v ∈ l.*1 -> ~ (gate_at idt v <= x < gate_at idt v + 16)) -> m' x = m x).
Proof.
  induction l as [|[v0 d0] l IH]; intros m Hnd; [by exists m|].
  apply NoDup_cons in Hnd as [Hn Hnd]. cbn [set_gates].
  rewrite (bind_done _ _ _ _ _ _ (idt_set_gate_run v0 (isr v0) d0 m)), add_trace_nil.
  destruct (IH (gate_mem m v0 (isr v0) d0) Hnd) as (m' & E & Hg & Ho). exists m'. split; [done|]. split.
  - intros v Hd. rewrite Hg by (intros d Hin; apply Hd; by apply list_elem_of_further).
    cbn [List.find fst]. destruct (Z.eqb_spec v0 v) as [->|Hne].
    + destruct (List.find (fun g => g.1 =? v) l) as [[v' d']|] eqn:Ef.
      * apply find_some in Ef as [Hin Hv]. cbn in Hv. apply Z.eqb_eq in Hv as ->.
        destruct Hn. apply list_elem_of_fmap. exists (v, d'). split; [done|by apply list_elem_of_In].
      * apply gate_mem_decode; [done|]. apply Hd. apply list_elem_of_here.
    + destruct (List.find (fun g => g.1 =? v) l); [done|]. apply decode_gate_ext.
      intros x Hx. apply gate_mem_out. unfold gate_at in *. lia.
  - intros x Hx. rewrite Ho by (intros v Hv; apply Hx; by apply list_elem_of_further).
    apply gate_mem_out, Hx, list_elem_of_here.
Qed.

(** Which gates the list names. *)
Lemma gate_find v :
  0 <= v < 256 ->
  List.find (fun g => g.1 =? v) idt_gates =
  if (v <? 34) || (v =? 128) then Some (v, if v =? 128 then 3 else 0) else None.
Proof.
  intros Hv.
  assert (forallb (fun v => bool_decide (List.find (fun g => g.1 =? v) idt_gates =
    if (v <? 34) || (v =? 128) then Some (v, if v =? 128 then 3 else 0) else None)) (seqZ 0 256) = true)
    as Hall by (vm_compute; reflexivity).
  rewrite forallb_forall in Hall. eapply bool_decide_eq_true, Hall.
  apply list_elem_of_In, elem_of_seqZ. lia.
Qed.

Lemma idt_init_run m :
  0 <= idt < 2 ^ 64 -> disjoint_range idt 4096 idt_ptr 10 ->
  (forall x, idt <= x < idt + 4096 -> m x = 0) ->
  exists m', idt_init idt idt_ptr isr m = Done tt m' [EInstr "lidt" idt_ptr] /\
    load16 m' idt_ptr = 16 * 256 - 1 /\ load64 m' (idt_ptr + 2) = idt /\
    (forall v, 0 <= v < 256 ->
      decode_gate m' (idt + 16 * v) =
      if (v <? 34) || (v =? 128) then mkGate (isr v) 8 0 0xE (if v =? 128 then 3 else 0) true
      else mkGate 0 0 0 0 0 false) /\
    forall x, ~ (idt <= x < idt + 4096) -> ~ (idt_ptr <= x < idt_ptr + 10) -> m' x = m x.
Proof.
  intros Hi Hd Hz. unfold idt_init. mstep.
  set (m1 := store64 (store16 m idt_ptr (16 * 256 - 1)) (idt_ptr + 2) idt).
  destruct (set_gates_run idt_gates m1) as (m' & E & Hg & Ho).
  { apply (bool_decide_unpack _). vm_compute. exact I. }
  rewrite (bind_done _ _ _ _ _ _ E). exists m'. split; [done|].
  assert (forall x, ~ (idt <= x < idt + 4096) -> m' x = m1 x) as Hout.
  { intros x Hx. apply Ho. intros v Hv.
    assert (0 <= v < 256) as Hvb.
    { rewrite list_elem_of_fmap in Hv. destruct Hv as ([v' d] & -> & Hv).
      unfold idt_gates in Hv. apply elem_of_app in Hv as [Hv|Hv].
      - apply list_elem_of_fmap in Hv as (w & [= -> ->] & Hw). apply elem_of_seqZ in Hw. cbn. lia.
      - apply list_elem_of_singleton in Hv. simplify_eq. cbn. lia. }
    unfold gate_at in *. lia. }
  assert (forall n a, idt_ptr <= a -> a + Z.of_nat n <= idt_ptr + 10 -> load n m' a = load n m1 a) as Hp.
  { intros n a H1 H2. apply load_ext. intros x Hx. apply Hout. unfold disjoint_range in *. lia. }
  split_and!.
  - rewrite Hp by (cbn; lia). unfold m1. rewrite load_store_ne by (unfold disjoint_range; lia).
    rewrite load_store_eq. done.
  - rewrite Hp by (cbn; lia). by apply load64_store_eq.
  - intros v Hv. change (idt + 16 * v) with (gate_at idt v). rewrite Hg.
    2:{ intros d [Hin|Hin]%elem_of_app.
        - apply list_elem_of_fmap in Hin as (w & [= _ ->] & _). lia.
        - apply list_elem_of_singleton in Hin. simplify_eq. lia. }
    assert (decode_gate m1 (gate_at idt v) = mkGate 0 0 0 0 0 false) as ->.
    { rewrite (decode_gate_ext _ (fun _ => 0)); [done|]. intros x Hx. unfold m1.
      unfold disjoint_range, gate_at in *. rewrite !store_out by lia. apply Hz. lia. }
    rewrite gate_find by done. by destruct ((v <? 34) || (v =? 128)).
  - intros x H1 H2. rewrite Hout by done. unfold m1. by rewrite !store_out by lia.
Qed.

(** In a table that starts out empty, [idt_init] installs an
    interrupt gate on the kernel code segment for exactly the vectors 0 to 33 and 128,
    each leading to the stub of its own vector; only 128 can be raised by software in
    ring 3.  Every other vector, the spurious vector 255 of the local APIC included,
    stays not present.  The register image covers the 256 gates; no
    other byte is written. *)
Theorem idt_init_gates m :
  0 <= idt < 2 ^ 64 -> disjoint_range idt 4096 idt_ptr 10 ->
  (forall x, idt <= x < idt + 4096 -> m x = 0) ->
  exists m', idt_init idt idt_ptr isr m = Done tt m' [EInstr "lidt" idt_ptr] /\
    load16 m' idt_ptr = 16 * 256 - 1 /\ load64 m' (idt_ptr + 2) = idt /\
    (forall v, 0 <= v < 256 ->
      decode_gate m' (idt + 16 * v) =
      if (v <? 34) || (v =? 128) then mkGate (isr v) 8 0 0xE (if v =? 128 then 3 else 0) true
      else mkGate 0 0 0 0 0 false) /\
    forall x, ~ (idt <= x < idt + 4096) -> ~ (idt_ptr <= x < idt_ptr + 10) -> m' x = m x.
Proof. by apply idt_init_run. Qed.
End Gates.

Lemma idt_init_gates_witness : exists m',
  idt_init 0x120000 0x121000 (fun v => 0x101000 + 16 * v) (fun _ => 0) =
    Done tt m' [EInstr "lidt" 0x121000] /\
  decode_gate m' (0x120000 + 16 * 128) = mkGate 0x101800 8 0 0xE 3 true /\
  g_present (decode_gate m' (0x120000 + 16 * 255)) = false.
Proof.
  destruct (idt_init_gates 0x120000 0x121000 (fun v => (0x101000 + 16 * v) mod 2 ^ 64)) with (m := fun _ : Z => 0)
    as (m' & E & _ & _ & H & _).
  - intros v. apply Z.mod_pos_bound. lia.
  - lia.
  - unfold disjoint_range. lia.
  - reflexivity.
  - exists m'. split; [exact E|]. split; rewrite H by lia; reflexivity.
Defined.

(** ** Dispatch *)

Section Dispatch.
Context {F : Type} {FO : FrameSourceOps F}.

Lemma set_apic_id (k : kernel F) : set_apic (apic_of k) k = k.
Proof. destruct k as [s ? ? ? ? ? ?]. by destruct s. Qed.

Lemma eoi_run (k : kernel F) :
  in_apic lapic_send_eoi k = Done tt k [EMmio32 (k_lapic k + 0xB0) 0].
Proof. unfold in_apic, zoom. cbn. f_equal. apply set_apic_id. Qed.

Lemma dump_stack_run m f n : forall i (k : kernel F), exists t, dump_stack m f n i k = Done tt k t.
Proof.
  induction n as [|n IH]; intros i k; [by eexists|]. cbn [dump_stack].
  destruct (IH (i + 1) k) as [t E]. unfold kprint, kprint_hex64. rewrite !bind_emit, E. by eexists.
Qed.

Lemma dispatch_128 c scancode f (k : kernel F) :
  f_vector (k_mem k) f = 128 -> interrupt_dispatch c scancode f k = syscall (k_mem k) f k.
Proof.
  intros Hv. unfold interrupt_dispatch. rewrite bind_gets, Hv.
  change (128 <? 32) with false. cbv iota. rewrite !bind_ret.
  change (128 =? 32) with false. cbv iota. rewrite !bind_ret. change (128 =? 33) with false. cbv iota.
  by rewrite !bind_ret.
Qed.


(** ** System calls *)

Definition count_event (e : event) (t : list event) : Z := Z.of_nat (length (filter (e =.) t)).

Lemma count_event_app e t t' : count_event e (t ++ t') = count_event e t + count_event e t'.
Proof. unfold count_event. rewrite filter_app, length_app. lia. Qed.

Lemma count_event_cons e x t :
  count_event e (x :: t) = (if decide (e = x) then 1 else 0) + count_event e t.
Proof. unfold count_event. rewrite filter_cons. case_decide; cbn [length]; lia. Qed.

Definition CALL_MSG : event := EPrint "[ring3] ".
Definition RING3_MSG : event := EPrint ("[syscall] confirmed genuine CPL3 caller (CS&3==3)" +:+ nl).

(** One print system call. *)
Lemma syscall_run m f (k : kernel F) :
  f_rax m f = 1 -> 0 <= call_count k < 2 ^ 32 - 1 ->
  let ring3 := Z.land (f_cs m f) 3 =? 3 in
  exists k' t, syscall m f k = Done tt k' t /\
    k_sched k' = k_sched k /\ k_kbd k' = k_kbd k /\ call_count k' = call_count k + 1 /\
    shown k' = shown k || ring3 /\
    count_event CALL_MSG t = (if call_count k mod 300000 =? 0 then 1 else 0) /\
    count_event RING3_MSG t = (if ring3 && negb (shown k) then 1 else 0).
Proof.
  intros Ha Hc ring3. unfold syscall. rewrite Ha. change (1 =? 1) with true. cbv iota. fold ring3. mstep.
  cbn [call_count set_calls]. rewrite u32_small by lia.
  assert (((call_count k + 1) mod 300000 =? 1) = (call_count k mod 300000 =? 0)) as ->.
  { destruct (Z.eqb_spec ((call_count k + 1) mod 300000) 1), (Z.eqb_spec (call_count k mod 300000) 0);
      try done; dlia. }
  set (k1 := set_calls (call_count k + 1) k). set (ch := char_string _).
  set (b := call_count k mod 300000 =? 0).
  pose (t1 := if b then [CALL_MSG; EPrint ch; EPrint " (syscall #"; EPrintHex (call_count k + 1);
                         EPrint (")" +:+ nl)] else []).
  assert (forall g : unit -> M (kernel F) unit,
    bind (if b then kprint "[ring3] " ;;; kprint ch ;;; kprint " (syscall #" ;;;
                 kprint_hex64 (call_count k + 1) ;;; kprint (")" +:+ nl) else ret tt) g k1 =
    add_trace t1 (g tt k1)) as -> by (intros g; unfold t1; by destruct b).
  assert (count_event CALL_MSG t1 = (if b then 1 else 0) /\ count_event RING3_MSG t1 = 0) as [C1 C2].
  { unfold t1. destruct b; [|done]. unfold CALL_MSG, RING3_MSG, ch, char_string, nl.
    rewrite !count_event_cons. split; repeat case_decide; cbn in *; congruence || done. }
  clearbody t1 b. destruct ring3.
  - rewrite bind_get. change (shown k1) with (shown k). destruct (shown k) eqn:Hs.
    + exists k1, t1. cbn. rewrite app_nil_r. by rewrite Hs.
    + eexists _, _. split; [reflexivity|]. cbn [app]. rewrite !count_event_app, C1, C2. cbn.
      split_and!; try done. by destruct b.
  - exists k1, t1. cbn. rewrite app_nil_r, orb_false_r. done.
Qed.

(** A row of them, from any count. *)
Lemma syscalls_run c scancode f n : forall k : kernel F,
  let m := k_mem k in
  let ring3 := Z.land (f_cs m f) 3 =? 3 in
  f_vector m f = 128 -> f_rax m f = 1 -> 0 <= call_count k -> call_count k + Z.of_nat n < 2 ^ 32 ->
  exists k' t, repeatM n (interrupt_dispatch c scancode f) k = Done tt k' t /\
    k_sched k' = k_sched k /\ k_kbd k' = k_kbd k /\ call_count k' = call_count k + Z.of_nat n /\
    count_event CALL_MSG t =
      (call_count k + Z.of_nat n + 299999) / 300000 - (call_count k + 299999) / 300000 /\
    count_event RING3_MSG t = (if ring3 && negb (shown k) && (0 <? n)%nat then 1 else 0).
Proof.
  induction n as [|n IH]; intros k m ring3 Hv Ha Hc Hn.
  { exists k, []. change (Z.of_nat 0) with 0. rewrite !Z.add_0_r, andb_false_r.
    split_and!; try done. rewrite Z.sub_diag. done. }
  cbn [repeatM]. destruct (syscall_run m f k Ha) as (k1 & t1 & E1 & S1 & B1 & C1 & Sh1 & P1 & R1); [lia|].
  pose proof (dispatch_128 c scancode f k Hv) as Ed. fold m in Ed. rewrite E1 in Ed. clear E1. rename Ed into E1.
  rewrite (bind_done _ _ _ _ _ _ E1).
  assert (k_mem k1 = m) as Hm by (unfold k_mem; by rewrite S1).
  destruct (IH k1) as (k' & t & E & S & B & C & P & R); rewrite ?Hm; [done..|lia|lia|].
  rewrite E. exists k', (t1 ++ t). split; [done|]. rewrite !count_event_app, P1, R1, P, R, S, B, C, C1, S1, B1.
  rewrite Hm. fold ring3. rewrite Sh1. split_and!; [done|done|lia| |].
  - destruct (Z.eqb_spec (call_count k mod 300000) 0); dlia.
  - fold ring3. destruct ring3, (shown k); cbn; lia.
Qed.

(** [n] print system calls in a row (fewer than 2^32), whoever
    makes them, touch nothing but the two counters of the handler; every 300000th call,
    beginning with the first, prints, and the note that the caller runs in ring 3 is
    printed once if it does and never if it does not. *)
Theorem syscall_throttle n c scancode f (k : kernel F) :
  let m := k_mem k in
  let ring3 := Z.land (f_cs m f) 3 =? 3 in
  f_vector m f = 128 -> f_rax m f = 1 -> call_count k = 0 -> shown k = false -> Z.of_nat n < 2 ^ 32 ->
  exists k' t, repeatM n (interrupt_dispatch c scancode f) k = Done tt k' t /\
    k_sched k' = k_sched k /\ k_kbd k' = k_kbd k /\ call_count k' = Z.of_nat n /\
    count_event CALL_MSG t = (Z.of_nat n + 299999) / 300000 /\
    count_event RING3_MSG t = (if ring3 && (0 <? n)%nat then 1 else 0).
Proof.
  intros m ring3 Hv Ha Hc Hs Hn.
  destruct (syscalls_run c scancode f n k) as (k' & t & E & H1 & H2 & H3 & H4 & H5); [done..|lia|lia|].
  exists k', t. rewrite Hc in *. rewrite Hs in H5. cbn [negb] in H5. rewrite andb_true_r in H5.
  split_and!; try done. rewrite H4. change ((0 + 299999) / 300000) with 0. rewrite Z.add_0_l. lia.
Qed.
End Dispatch.

(** ** Concrete runs *)

Definition kernel_ex {F} (p : paging F) (m : mem) : kernel F :=
  mkKernel (mkSched 0 (replicate 8 None) (replicate 16 None) (replicate 16 thread_zero) 0
              (replicate 16 0) (replicate 16 0) (replicate 16 0)
              (mkPaging m (next_frame p) (kernel_pml4 p) (kernel_pdpt p) (p_source p)) nkern_boot)
    kbd_boot 0xFEE00000 0xFEC00000 0 0 false.

(** A frame of vector [v] from ring 3 with RAX = 1 and RDI = "X". *)
Definition frame_ex (v : Z) : mem :=
  mem_of [(0x9048, 8%nat, 88); (0x9070, 8%nat, 1); (0x9078, 8%nat, v); (0x9090, 8%nat, 0x1B)].


Lemma syscall_throttle_witness : exists k' t,
  repeatM 2 (interrupt_dispatch 0 0 0x9000) (kernel_ex demo_paging (frame_ex 128)) = Done tt k' t /\
  call_count k' = 2 /\ count_event CALL_MSG t = 1 /\ count_event RING3_MSG t = 1.
Proof.
  destruct (syscall_throttle 2 0 0 0x9000 (kernel_ex demo_paging (frame_ex 128)))
    as (k' & t & E & _ & _ & H1 & H2 & H3).
  - vm_compute. reflexivity.
  - vm_compute. reflexivity.
  - reflexivity.
  - reflexivity.
  - lia.
  - exists k', t. split_and!; [exact E|exact H1|exact H2|exact H3].
Defined.
