(* ===== verification/Sched.v ===== *)
(** * sched.c: the cooperative scheduler of the 32-bit kernel

    One CPU, no lock, no address spaces: otherwise the ancestor of sched64.c.  Threads
    are indices of the static array; [context_switch] (context_switch.s) is modelled by
    its effect on the stack pointers: the [call] and its five pushes move the old stack
    down by 24 bytes, the pops and the [ret] move the new one up by 24. *)

From S2P Require Import Prelude Memory Machine.

Definition MAX_THREADS : nat := 16.
Definition NUM_PRIORITIES : nat := 8.
Definition STACK_SIZE : Z := 4096.

(** Layout of [thread_t]: [stack] at offset 16, [name] and [next] after it. *)
Definition stack_offset32 : Z := 16.
Definition sizeof_thread : Z := 4120.

Inductive thread_state := THREAD_UNUSED | THREAD_READY | THREAD_RUNNING | THREAD_SUSPENDED.

Record thread_t := mkThr {
  esp : Z;
  t_priority : Z;
  t_state : thread_state;
  t_slice : Z;
  t_name : string;
  t_next : option nat
}.

Definition thr_zero : thread_t := mkThr 0 0 THREAD_UNUSED 0 "" None.

Definition with_esp (v : Z) (t : thread_t) : thread_t :=
  mkThr v (t_priority t) (t_state t) (t_slice t) (t_name t) (t_next t).
Definition with_state (v : thread_state) (t : thread_t) : thread_t :=
  mkThr (esp t) (t_priority t) v (t_slice t) (t_name t) (t_next t).
Definition with_slice (v : Z) (t : thread_t) : thread_t :=
  mkThr (esp t) (t_priority t) (t_state t) v (t_name t) (t_next t).
Definition with_next (v : option nat) (t : thread_t) : thread_t :=
  mkThr (esp t) (t_priority t) (t_state t) (t_slice t) (t_name t) v.

Definition find_highest_bit (bitmap : Z) : Z :=
  if bitmap =? 0 then -1
  else (fix down (n : nat) : Z :=
          match n with
          | O => 0
          | S n' => if Z.land bitmap (u32 (Z.shiftl 1 (Z.of_nat n))) =? 0 then down n' else Z.of_nat n
          end) 31%nat.

Record scheduler := mkScheduler {
  r_bitmap : Z;
  r_queue : list (option nat);
  r_current : option nat;
  threads : list thread_t;
  thread_count : nat;
  dummy_esp : Z;
  cpu_esp : Z;                (* the stack pointer register *)
  r_mem : mem
}.

Definition th (i : nat) (s : scheduler) : thread_t := nth i (threads s) thr_zero.

Definition with_bitmap (b : Z) (s : scheduler) : scheduler :=
  mkScheduler b (r_queue s) (r_current s) (threads s) (thread_count s) (dummy_esp s) (cpu_esp s) (r_mem s).
Definition with_queue (p : nat) (h : option nat) (s : scheduler) : scheduler :=
  mkScheduler (r_bitmap s) (<[p:=h]> (r_queue s)) (r_current s) (threads s) (thread_count s)
    (dummy_esp s) (cpu_esp s) (r_mem s).
Definition with_current (c : option nat) (s : scheduler) : scheduler :=
  mkScheduler (r_bitmap s) (r_queue s) c (threads s) (thread_count s) (dummy_esp s) (cpu_esp s) (r_mem s).
Definition upd_th (i : nat) (f : thread_t -> thread_t) (s : scheduler) : scheduler :=
  mkScheduler (r_bitmap s) (r_queue s) (r_current s) (<[i:=f (th i s)]> (threads s)) (thread_count s)
    (dummy_esp s) (cpu_esp s) (r_mem s).
Definition with_count (n : nat) (s : scheduler) : scheduler :=
  mkScheduler (r_bitmap s) (r_queue s) (r_current s) (threads s) n (dummy_esp s) (cpu_esp s) (r_mem s).
Definition with_dummy (v : Z) (s : scheduler) : scheduler :=
  mkScheduler (r_bitmap s) (r_queue s) (r_current s) (threads s) (thread_count s) v (cpu_esp s) (r_mem s).
Definition with_cpu_esp (v : Z) (s : scheduler) : scheduler :=
  mkScheduler (r_bitmap s) (r_queue s) (r_current s) (threads s) (thread_count s) (dummy_esp s) v (r_mem s).
Definition with_rmem (m : mem) (s : scheduler) : scheduler :=
  mkScheduler (r_bitmap s) (r_queue s) (r_current s) (threads s) (thread_count s) (dummy_esp s) (cpu_esp s) m.

Definition sched_init : M scheduler unit := modify (fun s =>
  mkScheduler 0 (replicate NUM_PRIORITIES None) None (threads s) 0 (dummy_esp s) (cpu_esp s) (r_mem s)).

Section Create.
(** Link-time address of [threads]. *)
Context (threads_addr : Z).

Definition stack_top32 (i : nat) : Z :=
  threads_addr + sizeof_thread * Z.of_nat i + stack_offset32 + STACK_SIZE.

Definition first_frame32 (entry sp : Z) (m : mem) : mem * Z :=
  let sp := sp - 4 in let m := store32 m sp entry in
  let sp := sp - 4 * 5 in
  (for_loop 5 0 (fun i m => store32 m (sp + 4 * i) 0) m, sp).

(** [while (tail->next != head) tail = tail->next] *)
Fixpoint ring_tail (fuel : nat) (ths : list thread_t) (head tail : nat) : option nat :=
  match fuel with
  | O => None
  | S n =>
      let nx := t_next (nth tail ths thr_zero) in
      if decide (nx = Some head) then Some tail
      else match nx with Some t => ring_tail n ths head t | None => None end
  end.

Definition ring_append (i p : nat) : M scheduler unit :=
  s <- get ;;
  match nth p (r_queue s) None with
  | None =>
      modify (upd_th i (with_next (Some i))) ;;;
      modify (with_queue p (Some i))
  | Some head =>
      match ring_tail (S MAX_THREADS) (threads s) head head with
      | None => hang
      | Some tail =>
          modify (upd_th tail (with_next (Some i))) ;;;
          modify (upd_th i (with_next (Some head)))
      end
  end.

Definition sched_create_thread (entry prio : Z) (nm : string) : M scheduler (option nat) :=
  s <- get ;;
  if (MAX_THREADS <=? thread_count s)%nat || (Z.of_nat NUM_PRIORITIES <=? prio) then ret None else
  let i := thread_count s in
  modify (with_count (S i)) ;;;
  modify (upd_th i (fun t => mkThr (esp t) prio THREAD_READY 5 nm (t_next t))) ;;;
  s <- get ;;
  let (m, sp) := first_frame32 entry (stack_top32 i) (r_mem s) in
  modify (with_rmem m) ;;;
  modify (upd_th i (with_esp sp)) ;;;
  ring_append i (Z.to_nat prio) ;;;
  modify (fun s => with_bitmap (u32 (Z.lor (r_bitmap s) (Z.shiftl 1 prio))) s) ;;;
  ret (Some i).
End Create.

Definition context_switch (prev : option nat) (new_esp : Z) : M scheduler unit :=
  s <- get ;;
  let saved := u32 (cpu_esp s - 24) in
  modify (match prev with
          | Some i => upd_th i (with_esp saved)
          | None => with_dummy saved
          end) ;;;
  modify (with_cpu_esp (u32 (new_esp + 24))).

Definition sched_reschedule : M scheduler unit :=
  s <- get ;;
  let prio := find_highest_bit (r_bitmap s) in
  if prio <? 0 then ret tt else
  let p := Z.to_nat prio in
  match nth p (r_queue s) None with
  | None => hang                        (* head is dereferenced *)
  | Some head =>
      let prev := r_current s in
      let nx := t_next (th head s) in
      let turn := bool_decide (Some head = prev) && negb (bool_decide (nx = Some head)) in
      match (if turn then nx else Some head) with
      | None => hang
      | Some nxt =>
          (if turn then modify (with_queue p (Some nxt)) else ret tt) ;;;
          if decide (Some nxt = prev) then ret tt
          else
            modify (with_current (Some nxt)) ;;;
            modify (upd_th nxt (with_state THREAD_RUNNING)) ;;;
            (match prev with
             | Some q => modify (upd_th q (with_state THREAD_READY))
             | None => ret tt
             end) ;;;
            s <- get ;;
            context_switch prev (esp (th nxt s))
      end
  end.

(** Not called by any code of the kernel. *)
Definition thread_trampoline : M scheduler unit := instr "sti" 0 ;;; instr "hlt" 0 ;;; hang.

Definition sched_yield : M scheduler unit := sched_reschedule.

Definition sched_current (s : scheduler) : option nat := r_current s.

Definition sched_timer_tick : M scheduler unit :=
  s <- get ;;
  match r_current s with
  | None => ret tt
  | Some c =>
      let ts := t_slice (th c s) in
      if 0 <? ts then
        modify (upd_th c (with_slice (ts - 1))) ;;;
        if ts - 1 =? 0 then
          modify (upd_th c (with_slice 5)) ;;; sched_reschedule
        else ret tt
      else ret tt
  end.
