(* ===== verification/SchedTheorems.v ===== *)
(** * Theorems on the cooperative scheduler

    A state of the 32-bit scheduler is read as a state of the 64-bit one, on CPU 0 and
    with nothing but the rings: both keep the same invariant and make the same
    decisions, so the ring lemmas of sched64.c serve here too. *)

From S2P Require Import Prelude Memory Machine KernLock NKern NKernSmp AddressSpaces.
From S2P Require Import Sched64 Sched64Spec Sched64Proof Sched64Run Sched64Create Sched64Theorems Sched.

Definition lift_state (t : thread_state) : thread64_state :=
  match t with THREAD_UNUSED => T64_UNUSED | THREAD_RUNNING => T64_RUNNING | _ => T64_READY end.
Definition lift_thread (t : thread_t) : thread64 :=
  mkThread (esp t) 0 (t_priority t) (lift_state (t_state t)) (t_slice t) (t_name t) (t_next t).

Definition lift (s : scheduler) : sched unit :=
  mkSched (r_bitmap s) (r_queue s) (r_current s :: replicate 15 None) (lift_thread <$> threads s)
    (thread_count s) (replicate 16 0) (replicate 16 0) (replicate 16 0) tt nkern_boot.

(** The rings of the scheduler state, per priority. *)
Definition sched32_inv (s : scheduler) (rings : nat -> list nat) : Prop := sched_inv (lift s) rings.

Lemma thr_lift i s : thr i (lift s) = lift_thread (th i s).
Proof.
  unfold thr, th. cbn [threads64 lift]. change thread_zero with (lift_thread thr_zero).
  apply map_nth.
Qed.

Lemma running_lift s : running 0 (lift s) = r_current s.
Proof. done. Qed.

Lemma running_lift_some c s i : running c (lift s) = Some i -> r_current s = Some i.
Proof. unfold running. cbn. do 16 (destruct c as [|c]; [done|]). by destruct c. Qed.

Lemma th_upd_eq i f s : (i < length (threads s))%nat -> th i (upd_th i f s) = f (th i s).
Proof. intros. unfold th at 1. cbn. by rewrite nth_insert_eq. Qed.
Lemma th_upd_ne i j f s : i <> j -> th j (upd_th i f s) = th j s.
Proof. intros. unfold th at 1. cbn. by rewrite nth_insert_ne. Qed.

(** States with the same rings. *)
Record same32 (s s' : scheduler) : Prop := {
  s3_bitmap : r_bitmap s' = r_bitmap s;
  s3_queue : r_queue s' = r_queue s;
  s3_count : thread_count s' = thread_count s;
  s3_len : length (threads s') = length (threads s);
  s3_th i : t_next (th i s') = t_next (th i s) /\ t_priority (th i s') = t_priority (th i s) /\
    t_slice (th i s') = t_slice (th i s)
}.

Lemma same32_trans s1 s2 s3 : same32 s1 s2 -> same32 s2 s3 -> same32 s1 s3.
Proof.
  intros [A1 A2 A3 A4 A5] [B1 B2 B3 B4 B5]. split; try congruence.
  intros i. destruct (A5 i) as (? & ? & ?), (B5 i) as (? & ? & ?). split_and!; congruence.
Qed.

Lemma upd_same32 i f s :
  (forall t, t_next (f t) = t_next t /\ t_priority (f t) = t_priority t /\ t_slice (f t) = t_slice t) ->
  same32 s (upd_th i f s).
Proof.
  intros Hf. split; [done|done|done|cbn; by rewrite length_insert|]. intros j.
  destruct (decide (i = j)) as [<-|]; [|by rewrite th_upd_ne].
  destruct (decide (i < length (threads s))%nat).
  - rewrite th_upd_eq by done. apply Hf.
  - unfold th. cbn. by rewrite list_insert_ge by lia.
Qed.

Lemma inv_same32 s s' rings :
  sched32_inv s rings -> same32 s s' ->
  (forall i, r_current s' = Some i -> (i < thread_count s)%nat) -> sched32_inv s' rings.
Proof.
  intros Hi [A1 A2 A3 A4 A5] Hc. apply (inv_same (lift s)); [done| |].
  - split; [done|done|done|cbn; rewrite !length_fmap; by split_and!|].
    intros i. rewrite !thr_lift. apply A5.
  - intros c i H. apply Hc. by eapply running_lift_some.
Qed.

Lemma find_highest_lift s rings :
  sched32_inv s rings -> find_highest_bit (r_bitmap s) =
  match top_prio rings with Some p => Z.of_nat p | None => -1 end.
Proof. intros Hi. exact (top_prio_bitmap (lift s) rings Hi). Qed.

(** Making [n] the running thread. *)
Lemma switch32_run n prev s :
  (n < length (threads s))%nat ->
  (forall q, prev = Some q -> (q < length (threads s))%nat /\ q <> n) ->
  exists s', (modify (with_current (Some n)) ;;;
      modify (upd_th n (with_state THREAD_RUNNING)) ;;;
      (match prev with
       | Some q => modify (upd_th q (with_state THREAD_READY))
       | None => ret tt
       end) ;;;
      s <- get ;; context_switch prev (esp (th n s))) s = Done tt s' [] /\
    same32 s s' /\ r_current s' = Some n /\ cpu_esp s' = u32 (esp (th n s) + 24) /\
    t_state (th n s') = THREAD_RUNNING /\
    (forall q, prev = Some q -> esp (th q s') = u32 (cpu_esp s - 24) /\ t_state (th q s') = THREAD_READY).
Proof.
  intros Hn Hq. mstep. set (s1 := upd_th n (with_state THREAD_RUNNING) (with_current (Some n) s)).
  assert (same32 s s1) as L1 by (eapply same32_trans; [|by apply upd_same32]; by split).
  assert (th n s1 = with_state THREAD_RUNNING (th n s)) as T1 by (unfold s1; by rewrite th_upd_eq).
  destruct prev as [q|].
  - destruct (Hq q eq_refl) as [Hql Hne]. rewrite bind_modify. unfold context_switch. mstep.
    set (s2 := upd_th q (with_state THREAD_READY) s1). unfold modify.
    assert (th n s2 = with_state THREAD_RUNNING (th n s)) as T2 by (unfold s2; by rewrite th_upd_ne).
    rewrite T2. eexists. split; [reflexivity|].
    assert (length (threads s2) = length (threads s)) as Hl
      by (unfold s2, s1; cbn; by rewrite !length_insert).
    split_and!; try done.
    + eapply same32_trans; [exact L1|]. apply (same32_trans _ s2); [by apply upd_same32|].
      eapply same32_trans; [by apply (upd_same32 q (with_esp (u32 (cpu_esp s2 - 24))) s2)|by split].
    + change (th n (with_cpu_esp ?v ?x)) with (th n x). rewrite th_upd_ne by done. by rewrite T2.
    + intros q' [= <-]. change (th q (with_cpu_esp ?v ?x)) with (th q x).
      rewrite th_upd_eq by lia. cbn [esp with_esp t_state]. split; [done|].
      unfold s2. rewrite th_upd_eq; [done|]. unfold s1. cbn. by rewrite length_insert.
  - rewrite bind_ret. unfold context_switch. mstep. unfold modify. rewrite T1. eexists. split; [reflexivity|].
    split_and!; try done.
    + eapply same32_trans; [exact L1|by split].
    + change (th n (with_cpu_esp ?v (with_dummy ?w ?x))) with (th n x). by rewrite T1.
Qed.

Lemma reschedule32_sim s rings :
  sched32_inv s rings ->
  exists s', sched_reschedule s = Done tt s' [] /\
    match top_prio rings with
    | None => s' = s
    | Some p =>
        let l := turned (rings p) (r_current s) in
        sched32_inv s' (upd_ring rings p l) /\ r_current s' = head l /\
        (forall i, head l = Some i -> Some i <> r_current s ->
           cpu_esp s' = u32 (esp (th i s) + 24) /\ t_state (th i s') = THREAD_RUNNING /\
           forall q, r_current s = Some q ->
             esp (th q s') = u32 (cpu_esp s - 24) /\ t_state (th q s') = THREAD_READY)
    end.
Proof.
  intros Hi. unfold sched_reschedule. mstep. rewrite (find_highest_lift s rings Hi).
  destruct (top_prio rings) as [p|] eqn:Etop; [|by exists s].
  apply top_prio_spec in Etop as (Hp & Hne & _). destruct (Z.ltb_spec (Z.of_nat p) 0); [lia|].
  rewrite Nat2Z.id. pose proof (sv_heads _ _ Hi p Hp) as Hh. unfold queue_head in Hh.
  cbn [ready_queue lift] in Hh. rewrite Hh. destruct (rings p) as [|h l] eqn:Er; [done|]. cbn [head].
  pose proof (sv_ring _ _ Hi p Hp) as Hring. rewrite Er in Hring. destruct Hring as [Hnx _].
  unfold nxt_of in Hnx. rewrite thr_lift in Hnx. cbn [next lift_thread] in Hnx. rewrite Hnx.
  pose proof (sv_nodup _ _ Hi p Hp) as Hnd. rewrite Er in Hnd.
  set (turn := bool_decide (Some h = r_current s) && negb (bool_decide (Some (hd h l) = Some h))).
  set (l' := turned (h :: l) (r_current s)).
  assert (exists n, head l' = Some n /\ (if turn then Some (hd h l) else Some h) = Some n /\
    sched32_inv (if turn then with_queue p (Some n) s else s) (upd_ring rings p l')) as (n & Hn & -> & Hi').
  { unfold l', turned, turn. cbn [head]. destruct (decide (Some h = r_current s)) as [Hd|Hd].
    - rewrite bool_decide_true by done. cbn [rotate]. destruct l as [|y l]; cbn [hd app].
      + rewrite bool_decide_true by done. exists h. split_and!; try done.
        rewrite <- Er. by apply upd_ring_same.
      + rewrite bool_decide_false; [|intros [= ->]; by apply NoDup_cons in Hnd as [[]%not_elem_of_cons _]].
        exists y. split_and!; try done. by apply (inv_turn (lift s) rings p h (y :: l)).
    - rewrite bool_decide_false by done. exists h. split_and!; try done.
      rewrite <- Er. by apply upd_ring_same. }
  set (s2 := if turn then with_queue p (Some n) s else s) in *.
  assert ((if turn then modify (with_queue p (Some n)) else ret tt) s = Done tt s2 []) as E2
    by (unfold s2; by destruct turn).
  rewrite (bind_done _ _ _ _ _ _ E2), add_trace_nil.
  assert (r_current s2 = r_current s /\ cpu_esp s2 = cpu_esp s /\ (forall i, th i s2 = th i s))
    as (C2 & R2 & T2) by (unfold s2; by destruct turn).
  destruct (decide (Some n = r_current s)) as [Hs|Hs].
  - exists s2. split; [done|]. cbv zeta. fold l'. rewrite C2, Hn. split_and!; try done.
    intros i [= <-]. congruence.
  - assert (n < thread_count s2)%nat as Hnc.
    { apply (sv_members _ _ Hi' p n Hp). unfold upd_ring. rewrite decide_True by done.
      destruct l' as [|n' l'']; [done|]. injection Hn as ->. apply list_elem_of_here. }
    pose proof (sv_count _ _ Hi') as Hcn. pose proof (sv_thr_len _ _ Hi') as Hlen.
    cbn [lift thread64_count threads64] in Hcn, Hlen. rewrite length_fmap in Hlen.
    assert (forall q, r_current s2 = Some q -> (q < thread_count s2)%nat) as Hcur.
    { intros q Hq. apply (sv_current _ _ Hi' 0%nat). exact Hq. }
    destruct (switch32_run n (r_current s) s2) as (s3 & E3 & L3 & C3 & P3 & S3 & Q3); [lia| |].
    { intros q Hq. split; [|congruence]. rewrite <- C2 in Hq. apply Hcur in Hq. lia. }
    exists s3. split; [exact E3|]. cbv zeta. fold l'. split_and!.
    + apply (inv_same32 s2); [done|done|]. rewrite C3. by intros i [= <-].
    + congruence.
    + intros i Hi2 _. rewrite Hn in Hi2. injection Hi2 as <-. rewrite <- R2, <- T2. by split_and!.
Qed.

(** C38: the cooperative scheduler runs the first thread of
    the highest non-empty ring, after turning that ring by one when this thread is the
    one that gives way; switching saves the stack pointer of the old thread and
    continues on the one saved for the new; without a ready thread nothing happens. *)
Theorem sched_reschedule_refines s rings :
  sched32_inv s rings ->
  exists s', sched_reschedule s = Done tt s' [] /\ sched_yield s = Done tt s' [] /\
    match top_prio rings with
    | None => s' = s
    | Some p =>
        let l := turned (rings p) (r_current s) in
        sched32_inv s' (upd_ring rings p l) /\ r_current s' = head l /\
        (forall i, head l = Some i -> Some i <> r_current s ->
           cpu_esp s' = u32 (esp (th i s) + 24) /\ t_state (th i s') = THREAD_RUNNING /\
           forall q, r_current s = Some q ->
             esp (th q s') = u32 (cpu_esp s - 24) /\ t_state (th q s') = THREAD_READY)
    end.
Proof. intros Hi. destruct (reschedule32_sim s rings Hi) as (s' & E & H). by exists s'. Qed.

(** ** Creating threads *)

Lemma first_frame32_spec entry top m :
  0 <= entry < 2 ^ 32 ->
  let (m', sp) := first_frame32 entry top m in
  sp = top - 24 /\ (forall i, 0 <= i < 5 -> load32 m' (sp + 4 * i) = 0) /\
  load32 m' (sp + 20) = entry /\ (forall x, ~ (top - 24 <= x < top) -> m' x = m x).
Proof.
  intros He. unfold first_frame32. cbv zeta. replace (top - 4 - 4 * 5) with (top - 24) by lia.
  split; [done|]. cbn [for_loop]. replace (top - 4) with (top - 24 + 20) by lia. set (sp := top - 24).
  split_and!.
  - intros i Hi. assert (i = 0 \/ i = 1 \/ i = 2 \/ i = 3 \/ i = 4) as Hc by lia.
    destruct Hc as [-> | [-> | [-> | [-> | ->]]]];
      repeat (rewrite load_store_ne by (unfold disjoint_range; lia)); by rewrite load32_store_eq.
  - repeat (rewrite load_store_ne by (unfold disjoint_range; lia)). by rewrite load32_store_eq.
  - intros x Hx. rewrite !store_out by lia. done.
Qed.

Lemma ring_tail_run ths h l : forall fuel x,
  path (fun i => t_next (nth i ths thr_zero)) (x :: l) h -> h ∉ l -> (length l < fuel)%nat ->
  ring_tail fuel ths h x = last (x :: l).
Proof.
  induction l as [|y l IH]; intros fuel x Hp Hh Hf; (destruct fuel as [|fuel]; [cbn in *; lia|]).
  - destruct Hp as [H1 _]. cbn in *. rewrite H1. by rewrite decide_True.
  - destruct Hp as [H1 Hp]. cbn [ring_tail]. rewrite H1. cbn [hd].
    apply not_elem_of_cons in Hh as [Hy Hh]. rewrite decide_False by congruence.
    rewrite (IH fuel y); [done|done|done|cbn in *; lia].
Qed.

(** Appending entry [i], whose other fields are filled in, to its ring. *)
Lemma ring_append_run s0 s rings p :
  let i := thread_count s0 in
  sched32_inv s0 rings -> (p < 8)%nat -> (i < MAX_THREADS)%nat ->
  r_queue s = r_queue s0 -> length (threads s) = length (threads s0) ->
  (forall j, j <> i -> th j s = th j s0) -> t_next (th i s) = t_next (th i s0) ->
  exists s', ring_append i p s = Done tt s' [] /\
    r_bitmap s' = r_bitmap s /\ r_current s' = r_current s /\ thread_count s' = thread_count s /\
    r_mem s' = r_mem s /\ cpu_esp s' = cpu_esp s /\ length (threads s') = length (threads s) /\
    r_queue s' = match rings p with [] => <[p := Some i]> (r_queue s0) | _ => r_queue s0 end /\
    th i s' = with_next (Some (hd i (rings p))) (th i s) /\
    (forall j, last (rings p) = Some j -> th j s' = with_next (Some i) (th j s0)) /\
    (forall j, j <> i -> Some j <> last (rings p) -> th j s' = th j s0).
Proof.
  intros i Hi Hp Hlt Hq Hl Hold Hnew. pose proof (sv_thr_len _ _ Hi) as Hlen.
  cbn [lift threads64] in Hlen. rewrite length_fmap in Hlen.
  assert (i < length (threads s))%nat as Hil by (rewrite Hl, Hlen; exact Hlt).
  unfold ring_append. mstep. rewrite Hq. pose proof (sv_heads _ _ Hi p Hp) as Hh. unfold queue_head in Hh.
  cbn [ready_queue lift] in Hh. rewrite Hh. destruct (rings p) as [|h l] eqn:Er; cbn [head].
  - mstep. unfold modify. eexists. split; [done|]. cbn [upd_th with_queue threads r_queue].
    rewrite length_insert, Hq. split_and!; try done.
    + change (th i (with_queue p (Some i) ?x)) with (th i x). by apply th_upd_eq.
    + intros j Hj _. change (th j (with_queue p (Some i) ?x)) with (th j x).
      rewrite th_upd_ne by done. by apply Hold.
  - pose proof (sv_ring _ _ Hi p Hp) as Hring. pose proof (sv_nodup _ _ Hi p Hp) as Hnd. rewrite Er in Hring, Hnd.
    assert (forall x, x ∈ h :: l -> (x < i)%nat) as Hmem.
    { intros x Hx. rewrite <- Er in Hx. by apply (sv_members _ _ Hi p x Hp). }
    rewrite (ring_tail_run (threads s) h l).
    2:{ apply (path_ext (nxt_of (lift s0))); [|exact Hring]. intros x Hx. unfold nxt_of. rewrite thr_lift.
        fold (th x s). rewrite Hold; [done|]. specialize (Hmem x Hx). lia. }
    2:{ by apply NoDup_cons in Hnd as [? _]. }
    2:{ assert (length (h :: l) <= i)%nat; [|cbn in *; unfold MAX_THREADS in *; lia].
        rewrite <- (length_seq i 0). apply submseteq_length, NoDup_submseteq; [done|].
        intros x Hx. apply elem_of_seq. specialize (Hmem x Hx). lia. }
    destruct (last (h :: l)) as [tl|] eqn:El; [|by apply last_None in El].
    pose proof (Hmem tl (last_Some_elem_of _ _ El)) as Hti.
    mstep. unfold modify. eexists. split; [done|].
    assert (length (threads (upd_th tl (with_next (Some i)) s)) = length (threads s)) as HL
      by (cbn; by rewrite length_insert).
    split_and!; try done.
    + cbn. by rewrite !length_insert.
    + rewrite th_upd_eq by lia. by rewrite th_upd_ne by lia.
    + intros j [= <-]. rewrite th_upd_ne by lia. rewrite th_upd_eq by lia. by rewrite Hold by lia.
    + intros j Hj Hjl. rewrite th_upd_ne by done. rewrite th_upd_ne by congruence. by apply Hold.
Qed.

Section Create.
Context (threads_addr : Z).

Lemma create32_sim s rings entry prio nm :
  sched32_inv s rings -> 0 <= entry < 2 ^ 32 -> 0 <= prio < 256 ->
  let i := thread_count s in
  if (i <? 16)%nat && (prio <? 8)
  then exists s', sched_create_thread threads_addr entry prio nm s = Done (Some i) s' [] /\
    sched32_inv s' (upd_ring rings (Z.to_nat prio) (rings (Z.to_nat prio) ++ [i])) /\
    thread_count s' = S i /\ r_current s' = r_current s /\ t_state (th i s') = THREAD_READY /\ t_slice (th i s') = 5 /\
    let lo := threads_addr + 4120 * Z.of_nat i + 16 in
    esp (th i s') = lo + 4096 - 24 /\
    (forall k, 0 <= k < 5 -> load32 (r_mem s') (esp (th i s') + 4 * k) = 0) /\
    load32 (r_mem s') (esp (th i s') + 20) = entry /\
    (forall x, ~ (lo <= x < lo + 4096) -> r_mem s' x = r_mem s x)
  else sched_create_thread threads_addr entry prio nm s = Done None s [].
Proof.
  intros Hi He Hprio i. unfold sched_create_thread. mstep. unfold MAX_THREADS, NUM_PRIORITIES. fold i.
  change (Z.of_nat 8) with 8.
  destruct (Nat.ltb_spec i 16), (Z.ltb_spec prio 8), (Nat.leb_spec 16 i), (Z.leb_spec 8 prio);
    try lia; cbn [andb orb]; try done.
  pose proof (first_frame32_spec entry (stack_top32 threads_addr i) (r_mem s) He) as Hff.
  mstep. cbn [r_mem upd_th with_count]. destruct (first_frame32 _ _ _) as [m sp] eqn:Eff.
  destruct Hff as (Hsp & Hz & Hen & Hout). mstep.
  pose proof (sv_thr_len _ _ Hi) as Hlen. cbn [lift threads64] in Hlen. rewrite length_fmap in Hlen.
  match goal with |- context [bind (ring_append i (Z.to_nat prio)) ?k ?st] => set (s3 := st) end.
  assert (th i s3 = mkThr sp prio THREAD_READY 5 nm (t_next (th i s))) as Ti.
  { unfold s3, th. cbn. rewrite nth_insert_eq by (rewrite !length_insert, Hlen; exact H).
    unfold th. cbn. rewrite nth_insert_eq by (rewrite ?length_insert, Hlen; exact H). done. }
  assert (forall j, j <> i -> th j s3 = th j s) as Tj.
  { intros j Hj. unfold s3, th. cbn. by rewrite !nth_insert_ne. }
  destruct (ring_append_run s s3 rings (Z.to_nat prio) Hi ltac:(lia) H eq_refl)
    as (s4 & E4 & B4 & C4 & N4 & M4 & _ & L4 & Q4 & Ti4 & Tl4 & Tj4).
  { unfold s3. cbn. by rewrite !length_insert. }
  { exact Tj. }
  { fold i. by rewrite Ti. }
  fold i in E4, Q4, Ti4, Tl4, Tj4. rewrite (bind_done _ _ _ _ _ _ E4). mstep. unfold ret. cbn [add_trace app].
  eexists. split; [reflexivity|]. set (s' := with_bitmap _ s4).
  assert (forall j, th j s' = th j s4) as Ts by done. rewrite Ts, Ti4, Ti. cbn [t_state t_slice esp with_next].
  split_and!; try done.
  - apply (inv_append (lift s) (lift s')); [done|lia|exact H|].
    assert (forall j, j <> i -> exists n, th j s' = with_next n (th j s)) as Hold.
    { intros j Hj. rewrite Ts. destruct (decide (Some j = last (rings (Z.to_nat prio)))) as [El|El].
      - eauto.
      - exists (t_next (th j s)). rewrite Tj4 by done. by destruct (th j s). }
    constructor; unfold nxt_of; rewrite ?thr_lift; cbn [lift thread64_count ready_bitmap ready_queue
      threads64 cpu_rsp loaded_cr3 dummy_rsp current]; fold i.
    + exact N4.
    + unfold s'. cbn. rewrite B4. by rewrite Z2Nat.id by lia.
    + exact Q4.
    + rewrite !length_fmap. split_and!; try done.
      change (threads s') with (threads s4). rewrite L4. unfold s3. cbn. by rewrite !length_insert.
    + change (r_current s') with (r_current s4). by rewrite C4.
    + cbn [next lift_thread]. by rewrite Ts, Ti4.
    + intros t Ht. rewrite thr_lift. cbn [next lift_thread]. by rewrite Ts, Tl4.
    + intros j Hj Hjl. rewrite !thr_lift. cbn [next lift_thread]. by rewrite Ts, Tj4.
    + intros j Hj. rewrite !thr_lift. by destruct (Hold j Hj) as [n ->].
    + rewrite Ts, Ti4, Ti. cbn. lia.
  - intros k Hk. unfold s'. cbn [r_mem with_bitmap]. rewrite M4. by apply Hz.
  - unfold s'. cbn [r_mem with_bitmap]. rewrite M4. exact Hen.
  - intros x Hx. unfold s'. cbn [r_mem with_bitmap]. rewrite M4. apply Hout.
    unfold stack_top32, sizeof_thread, stack_offset32, STACK_SIZE. lia.
Qed.

(** While the array has room and the priority is below
    8, [sched_create_thread] takes the next entry, puts the new thread at the end of the
    ring of its priority, and prepares, inside the thread's own stack, a frame from
    which [context_switch] pops five zero registers and returns to the entry point;
    otherwise it returns NULL and changes nothing. *)
Theorem sched_create_thread_correct s rings entry prio nm :
  sched32_inv s rings -> 0 <= entry < 2 ^ 32 -> 0 <= prio < 256 ->
  let i := thread_count s in
  if (i <? 16)%nat && (prio <? 8)
  then exists s', sched_create_thread threads_addr entry prio nm s = Done (Some i) s' [] /\
    sched32_inv s' (upd_ring rings (Z.to_nat prio) (rings (Z.to_nat prio) ++ [i])) /\
    r_current s' = r_current s /\ t_state (th i s') = THREAD_READY /\ t_slice (th i s') = 5 /\
    let lo := threads_addr + 4120 * Z.of_nat i + 16 in
    esp (th i s') = lo + 4096 - 24 /\
    (forall k, 0 <= k < 5 -> load32 (r_mem s') (esp (th i s') + 4 * k) = 0) /\
    load32 (r_mem s') (esp (th i s') + 20) = entry /\
    (forall x, ~ (lo <= x < lo + 4096) -> r_mem s' x = r_mem s x)
  else sched_create_thread threads_addr entry prio nm s = Done None s [].
Proof.
  intros Hi He Hp i. pose proof (create32_sim s rings entry prio nm Hi He Hp) as H. cbv zeta in H.
  fold i in H. destruct ((i <? 16)%nat && (prio <? 8)); [|done].
  destruct H as (s' & H1 & H2 & _ & H3). by exists s'.
Qed.
End Create.

(** ** A concrete scheduler: two threads of priority 4 *)

Definition demo_thr (n : nat) : thread_t := mkThr 0x20000 4 THREAD_READY 5 "demo" (Some n).

Definition demo_scheduler (cur : option nat) : scheduler :=
  mkScheduler 16 (<[4%nat := Some 0%nat]> (replicate NUM_PRIORITIES None)) cur
    (demo_thr 1 :: demo_thr 0 :: replicate 14 thr_zero) 2 0 0x90000 (fun _ => 0).

Lemma demo_scheduler_inv : sched32_inv (demo_scheduler (Some 0%nat)) demo_rings.
Proof.
  constructor; try done; try (cbn; unfold MAX_THREADS64; lia).
  - intros p Hp. do 8 (destruct p as [|p]; [done|]). lia.
  - intros p Hp. do 8 (destruct p as [|p]; [done|]). lia.
  - intros p Hp. do 8 (destruct p as [|p]; [done|]). lia.
  - intros p Hp. unfold demo_rings. destruct (Nat.eqb_spec p 4); [|constructor].
    by apply (bool_decide_unpack _).
  - intros p i Hp. change (thread64_count (lift (demo_scheduler (Some 0%nat)))) with 2%nat.
    rewrite thr_lift. unfold demo_rings. destruct (Nat.eqb_spec p 4) as [->|Hne].
    + rewrite !elem_of_cons, elem_of_nil. split; [intros [->|[->|[]]]; split; done || lia|].
      intros [Hi _]. lia.
    + rewrite elem_of_nil. split; [done|]. intros [Hi He].
      destruct i as [|[|i]]; [cbn in He; lia..|lia].
  - intros i Hi. rewrite thr_lift. cbn in Hi. destruct i as [|[|i]]; [cbn; lia..|lia].
  - intros c i Hi. apply running_lift_some in Hi. cbn in *. simplify_eq. lia.
  - intros i Hi. rewrite thr_lift. cbn in Hi. destruct i as [|[|i]]; [cbn; lia..|lia].
Qed.

Lemma sched_reschedule_refines_witness : exists s',
  sched_reschedule (demo_scheduler (Some 0%nat)) = Done tt s' [] /\ r_current s' = Some 1%nat /\
  cpu_esp s' = 0x20018.
Proof.
  destruct (sched_reschedule_refines _ _ demo_scheduler_inv) as (s' & E & _ & H).
  change (top_prio demo_rings) with (Some 4%nat) in H. destruct H as (_ & Hc & H).
  exists s'. split; [exact E|]. split; [exact Hc|].
  apply (H 1%nat); [reflexivity|discriminate].
Defined.

Lemma sched_create_thread_correct_witness : exists s',
  sched_create_thread 0x120000 0x101000 4 "new" (demo_scheduler (Some 0%nat)) = Done (Some 2%nat) s' [] /\
  load32 (r_mem s') (esp (th 2 s') + 20) = 0x101000.
Proof.
  pose proof (sched_create_thread_correct 0x120000 _ _ 0x101000 4 "new" demo_scheduler_inv
    ltac:(lia) ltac:(lia)) as (s' & E & _ & _ & _ & _ & _ & _ & H & _).
  exists s'. split; [exact E|exact H].
Defined.
