(* ===== verification/Main.v ===== *)
(** * main.c: the 32-bit kernel

    [kernel_main] up to its idle loop, on the console and the scheduler, then the rounds
    of whichever context has the CPU: the idle loop of [kernel_main] or the loop body of
    one of the three threads, each up to the switch it ends in. *)

From S2P Require Import Prelude Memory Machine Runs NKernSmp Terminal64 Terminal64Proof Terminal64Theorems.
From S2P Require Import Terminal Timer.
From S2P Require Import Sched64 Sched64Spec Sched64Run Sched64Theorems Sched SchedTheorems.

(** The bytes of a string literal. *)
Definition bytes (s : string) : list Z :=
  (fun a => Z.of_nat (Ascii.nat_of_ascii a)) <$> String.list_ascii_of_string s.

Record main32 := mkMain32 {
  m_term : term; m_sched : scheduler;
  counter_a : Z; counter_b : Z; counter_c : Z }.

Definition set_term (t : term) (s : main32) : main32 :=
  mkMain32 t (m_sched s) (counter_a s) (counter_b s) (counter_c s).
Definition set_sched (r : scheduler) (s : main32) : main32 :=
  mkMain32 (m_term s) r (counter_a s) (counter_b s) (counter_c s).
Definition set_a (v : Z) (s : main32) : main32 :=
  mkMain32 (m_term s) (m_sched s) v (counter_b s) (counter_c s).
Definition set_b (v : Z) (s : main32) : main32 :=
  mkMain32 (m_term s) (m_sched s) (counter_a s) v (counter_c s).
Definition set_c (v : Z) (s : main32) : main32 :=
  mkMain32 (m_term s) (m_sched s) (counter_a s) (counter_b s) v.

Section Main.
Context (lsr : nat -> Z) (fuel : nat).
(** Link-time addresses of [threads] and of the thread functions. *)
Context (threads_addr thread_a thread_b thread_c_low_priority : Z).

Definition on_term {A} (m : M term A) : M main32 A := zoom m_term set_term m.
Definition on_sched {A} (m : M scheduler A) : M main32 A := zoom m_sched set_sched m.

Definition write (s : string) : M main32 unit := on_term (terminal_writestring lsr fuel (bytes s)).
Definition write_hex (v : Z) : M main32 unit := on_term (terminal_write_hex lsr fuel v).

(** One turn of the [for (;;)] loop of each thread.  The switch inside [sched_yield]
    leaves the loop where the next turn starts; the delay loop has no effect. *)
Definition thread_a_round : M main32 unit :=
  modify (fun s => set_a (u32 (counter_a s + 1)) s) ;;;
  write "[A] tick " ;;;
  v <- gets counter_a ;; write_hex v ;;;
  write nl ;;;
  on_sched sched_yield.

Definition thread_b_round : M main32 unit :=
  modify (fun s => set_b (u32 (counter_b s + 1)) s) ;;;
  write "  [B] tick " ;;;
  v <- gets counter_b ;; write_hex v ;;;
  write nl ;;;
  on_sched sched_yield.

Definition thread_c_round : M main32 unit :=
  modify (fun s => set_c (u32 (counter_c s + 1)) s) ;;;
  write "    [C low-prio] tick " ;;;
  v <- gets counter_c ;; write_hex v ;;;
  write nl ;;;
  on_sched sched_yield.

(** Up to the [for (;;)] loop. *)
Definition kernel_main (magic : Z) : M main32 unit :=
  on_term terminal_init ;;;
  write ("========================================" +:+ nl) ;;;
  write ("   NEKA — New EKA (bitmap scheduler)   " +:+ nl) ;;;
  write ("========================================" +:+ nl) ;;;
  (if negb (magic =? 0x2BADB002)
   then write ("WARNING: not booted by multiboot loader!" +:+ nl) else ret tt) ;;;
  pic_remap32 ;;;
  timer_init 100 ;;;
  on_sched sched_init ;;;
  on_sched (sched_create_thread threads_addr thread_a 5 "ThreadA") ;;;
  on_sched (sched_create_thread threads_addr thread_b 5 "ThreadB") ;;;
  on_sched (sched_create_thread threads_addr thread_c_low_priority 2 "ThreadC-low") ;;;
  write ("Starting scheduler..." +:+ nl +:+ nl).

(** One turn of the loop of [kernel_main]: the [hlt] is reached only when
    [sched_reschedule] returns without having switched to a thread. *)
Definition idle_round : M main32 unit :=
  on_sched sched_reschedule ;;;
  c <- gets (fun s => r_current (m_sched s)) ;;
  match c with None => instr "hlt" 0 | Some _ => ret tt end.

(** The context that has the CPU: thread [i] is the one the [i]-th call of
    [sched_create_thread] made. *)
Definition kernel_round : M main32 unit :=
  c <- gets (fun s => r_current (m_sched s)) ;;
  match c with
  | None => idle_round
  | Some O => thread_a_round
  | Some (S O) => thread_b_round
  | Some (S (S O)) => thread_c_round
  | Some _ => hang
  end.

Definition kernel_rounds (n : nat) : M main32 unit := repeatM n kernel_round.

(** ** The console *)

Hypothesis serial_ready : forall n, exists k, (k < fuel)%nat /\ Z.land (lsr (n + k)%nat) 0x20 <> 0.

Lemma print_yields bs st : term_wf (m_term st) ->
  yields (on_term (terminal_writestring lsr fuel bs)) st (fun _ st' t =>
    t = serial_bytes (cstr bs) /\ exists t', st' = set_term t' st /\ term_wf t').
Proof.
  intros Hwf. destruct (print_chars_run lsr fuel serial_ready bs (m_term st) Hwf)
    as (t & E & Hwf' & _).
  apply yields_zoom. eapply yields_done; [rewrite terminal_writestring_64; exact E|]. eauto.
Qed.

Lemma write_runs s st : term_wf (m_term st) ->
  runs (write s) st (fun _ st' => exists t', st' = set_term t' st /\ term_wf t').
Proof.
  intros Hwf. destruct (print_yields (bytes s) st Hwf) as (a & st' & t & E & _ & H). by eapply runs_done.
Qed.

Lemma terminal_init_runs t : runs terminal_init t (fun _ t' => term_wf t').
Proof. eapply runs_done; [reflexivity|]. split; cbn; lia. Qed.

(** ** The scheduler *)

Definition boot_rings (p : nat) : list nat :=
  if (p =? 5)%nat then [0; 1]%nat else if (p =? 2)%nat then [2]%nat else [].

Lemma sched_init_runs s :
  length (threads s) = MAX_THREADS ->
  runs sched_init s (fun _ s' => sched32_inv s' (fun _ => []) /\ thread_count s' = 0%nat /\ r_current s' = None).
Proof.
  intros Hl. apply runs_modify. split; [|done]. unfold sched32_inv.
  constructor; cbn; rewrite ?length_fmap; try done.
  - unfold MAX_THREADS64. lia.
  - intros p Hp. by rewrite Z.bits_0.
  - intros p Hp. unfold queue_head. cbn. do 8 (destruct p as [|p]; [done|]). lia.
  - intros p Hp. apply NoDup_nil_2.
  - intros p i Hp. rewrite elem_of_nil. lia.
  - intros i Hi. lia.
  - intros c i H. do 16 (destruct c as [|c]; [done|]). by destruct c.
  - intros i Hi. lia.
Qed.

Lemma create_runs entry prio nm s rings :
  sched32_inv s rings -> 0 <= entry < 2 ^ 32 -> 0 <= prio < 8 -> (thread_count s < 16)%nat ->
  let i := thread_count s in
  runs (sched_create_thread threads_addr entry prio nm) s (fun r s' => r = Some i /\
    sched32_inv s' (upd_ring rings (Z.to_nat prio) (rings (Z.to_nat prio) ++ [i])) /\
    thread_count s' = S i /\ r_current s' = r_current s).
Proof.
  intros Hi He Hp Hc i.
  pose proof (create32_sim threads_addr _ rings entry prio nm Hi He ltac:(lia)) as H. cbv zeta in H.
  fold i in H. destruct (Nat.ltb_spec i 16), (Z.ltb_spec prio 8); try lia; cbn [andb] in H.
  destruct H as (s' & E & I1 & I2 & I3 & _). by eapply runs_done.
Qed.

(** Rings that agree are the same to the invariant. *)
Lemma sched32_inv_ext s rings rings' :
  (forall p, (p < 8)%nat -> rings' p = rings p) -> sched32_inv s rings -> sched32_inv s rings'.
Proof.
  intros E [I1 I2 I3 I4 I5 I6 I7 I8 I9 I10 I11 I12 I13 I14].
  constructor; auto; intros p; intros; rewrite ?E by done; eauto.
Qed.

Lemma kernel_main_runs magic st :
  length (threads (m_sched st)) = 16%nat ->
  0 <= thread_a < 2 ^ 32 -> 0 <= thread_b < 2 ^ 32 -> 0 <= thread_c_low_priority < 2 ^ 32 ->
  runs (kernel_main magic) st (fun _ st1 =>
    sched32_inv (m_sched st1) boot_rings /\ r_current (m_sched st1) = None /\
    term_wf (m_term st1) /\ counter_a st1 = counter_a st /\ counter_b st1 = counter_b st /\
    counter_c st1 = counter_c st).
Proof.
  intros Hl Ha Hb Hc. unfold kernel_main.
  apply runs_seq, runs_zoom. eapply runs_mono; [apply terminal_init_runs|]. intros ? t0 W0.
  eapply runs_bind; [by apply write_runs|]. intros ? s1 (t1 & -> & W1).
  eapply runs_bind; [by apply write_runs|]. intros ? s2 (t2 & -> & W2).
  eapply runs_bind; [by apply write_runs|]. intros ? s3 (t3 & -> & W3).
  eapply (runs_bind _ _ _ (fun _ s4 => exists t, s4 = set_term t st /\ term_wf t)).
  { destruct (negb _); [|by apply runs_ret; exists t3].
    eapply runs_mono; [by apply write_runs|]. intros ? s4 (t4 & -> & W4). by exists t4. }
  intros ? s4 (t4 & -> & W4). unfold pic_remap32, timer_init. run_steps.
  unfold udiv. cbn [Z.eqb]. run_steps. apply runs_zoom.
  eapply runs_mono; [apply sched_init_runs, Hl|]. intros ? r5 (I5 & N5 & C5).
  apply runs_seq, runs_zoom. eapply runs_mono; [apply (create_runs _ _ _ _ _ I5 Ha); cbn; lia|].
  intros ? r6 (_ & I6 & N6 & C6).
  apply runs_seq, runs_zoom. eapply runs_mono; [apply (create_runs _ _ _ _ _ I6 Hb); cbn; lia|].
  intros ? r7 (_ & I7 & N7 & C7).
  apply runs_seq, runs_zoom. eapply runs_mono; [apply (create_runs _ _ _ _ _ I7 Hc); cbn; lia|].
  intros ? r8 (_ & I8 & N8 & C8). cbn [m_sched m_term set_sched] in *.
  eapply runs_mono; [by apply write_runs|]. intros ? s9 (t9 & -> & W9). cbn.
  split; [|split; [congruence|done]]. eapply sched32_inv_ext; [|exact I8].
  rewrite N7, N6, N5. intros p Hp. do 8 (destruct p as [|p]; [reflexivity|]). lia.
Qed.

(** ** The threads *)

(** The rings after [j] turns of threads. *)
Definition turn_rings (j p : nat) : list nat :=
  if (p =? 5)%nat then (if Nat.even j then [0; 1]%nat else [1; 0]%nat) else boot_rings p.

(** What the [j]-th turn of a thread prints, from 0. *)
Definition tick_line (j : nat) : list Z :=
  bytes (if Nat.even j then "[A] tick " else "  [B] tick ") ++
  hex_buf32 (u32 (Z.of_nat (Nat.div2 j) + 1)) ++ bytes nl.

Lemma even_odd_div2 j :
  (Nat.even j = true /\ Nat.even (S j) = false /\ Nat.div2 (S j) = Nat.div2 j) \/
  (Nat.even j = false /\ Nat.even (S j) = true /\ Nat.div2 (S j) = S (Nat.div2 j)).
Proof.
  rewrite Nat.even_succ, <- Nat.negb_even. destruct (Nat.even j) eqn:E; [left|right]; split_and!; try done.
  - apply Nat.even_spec in E as [k ->]. by rewrite Nat.div2_succ_double, Nat.div2_double.
  - assert (Nat.Odd j) as [k ->] by (apply Nat.odd_spec; by rewrite <- Nat.negb_even, E).
    rewrite Nat.add_1_r, Nat.div2_succ_double. change (S (S (2 * k))) with (2 + 2 * k)%nat.
    cbn [Nat.add]. change (Nat.div2 (S (S (2 * k)))) with (S (Nat.div2 (2 * k))). by rewrite Nat.div2_double.
Qed.

Lemma u32_succ v : u32 (u32 v + 1) = u32 (v + 1).
Proof. unfold u32. apply Zplus_mod_idemp_l. Qed.

(** After [j] turns of threads. *)
Record at_turn (j : nat) (st : main32) : Prop := {
  at_inv : sched32_inv (m_sched st) (turn_rings j);
  at_cur : r_current (m_sched st) = Some (if Nat.even j then 0 else 1)%nat;
  at_term : term_wf (m_term st);
  at_a : counter_a st = u32 (Z.of_nat (Nat.div2 (S j)));
  at_b : counter_b st = u32 (Z.of_nat (Nat.div2 j));
  at_c : counter_c st = 0 }.

Lemma turn_yields j r :
  sched32_inv r (turn_rings j) -> r_current r = Some (if Nat.even j then 0 else 1)%nat ->
  exists r', sched_yield r = Done tt r' [] /\ sched32_inv r' (turn_rings (S j)) /\
    r_current r' = Some (if Nat.even (S j) then 0 else 1)%nat.
Proof.
  intros Hi Hc. destruct (reschedule32_sim r _ Hi) as (r' & E & H).
  assert (top_prio (turn_rings j) = Some 5%nat) as Ht
    by (unfold turn_rings, top_prio; by destruct (Nat.even j)).
  rewrite Ht in H. cbv zeta in H. rewrite Hc in H.
  assert (turned (turn_rings j 5) (Some (if Nat.even j then 0 else 1)%nat) = turn_rings (S j) 5) as Hturn.
  { unfold turn_rings. cbn [Nat.eqb]. rewrite Nat.even_succ, <- Nat.negb_even. by destruct (Nat.even j). }
  rewrite Hturn in H. destruct H as (Hi' & Hc' & _). exists r'. split_and!; [exact E| |].
  - eapply sched32_inv_ext; [|exact Hi']. intros p Hp. unfold upd_ring.
    destruct (decide (p = 5%nat)) as [->|Hne]; [done|]. unfold turn_rings.
    apply Nat.eqb_neq in Hne. by rewrite Hne.
  - rewrite Hc'. unfold turn_rings. cbn [Nat.eqb]. by destruct (Nat.even (S j)).
Qed.

(** The common shape of the loop bodies. *)
Lemma tick_yields (get : main32 -> Z) (set : Z -> main32 -> main32) (pre : string) st r' :
  (forall t s, get (set_term t s) = get s) -> (forall v s, get (set v s) = v) ->
  (forall v s, m_term (set v s) = m_term s) -> (forall v s, m_sched (set v s) = m_sched s) ->
  term_wf (m_term st) -> sched_yield (m_sched st) = Done tt r' [] ->
  yields (modify (fun s => set (u32 (get s + 1)) s) ;;; write pre ;;;
          v <- gets get ;; write_hex v ;;; write nl ;;; on_sched sched_yield) st
    (fun _ st' t =>
       t = serial_bytes (cstr (bytes pre) ++ hex_buf32 (u32 (get st + 1)) ++ bytes nl) /\
       exists t', term_wf t' /\ st' = set_sched r' (set_term t' (set (u32 (get st + 1)) st))).
Proof.
  intros G1 G2 T1 T2 Hwf Ey. yield_step. yield_step. yield_step.
  eapply yields_mono; [apply print_yields; by rewrite T1|]. intros ? s1 tr1 (-> & t1 & -> & W1).
  yield_step. yield_step. rewrite G1, G2. yield_step.
  eapply yields_mono; [by apply print_yields|]. intros ? s2 tr2 (-> & t2 & -> & W2). yield_step.
  eapply yields_mono; [by apply print_yields|]. intros ? s3 tr3 (-> & t3 & -> & W3).
  apply yields_zoom. eapply yields_done; [cbn [m_sched set_term]; rewrite T2; exact Ey|].
  split; [|by exists t3].
  change (cstr (bytes nl)) with (bytes nl). rewrite cstr_hex32.
  unfold serial_bytes. by rewrite !fmap_app, app_nil_r, app_nil_l.
Qed.

Lemma kernel_round_yields j st : at_turn j st ->
  yields kernel_round st (fun _ st' t => t = serial_bytes (tick_line j) /\ at_turn (S j) st').
Proof.
  intros [Hi Hc Hwf Ha Hb Hcc]. destruct (turn_yields j _ Hi Hc) as (r' & Ey & Hi' & Hc').
  unfold kernel_round. apply yields_seq, yields_gets. rewrite Hc.
  unfold tick_line. destruct (even_odd_div2 j) as [(Ev & Ev' & D)|(Ev & Ev' & D)]; rewrite Ev in *.
  - eapply yields_mono; [by apply (tick_yields counter_a set_a "[A] tick " st r')|].
    intros ? st' t (-> & t' & W & ->). rewrite Ha, D, u32_succ. split; [done|].
    constructor; cbn [m_sched m_term counter_a counter_b counter_c set_sched set_term set_a]; try done.
    + change (Nat.div2 (S (S j))) with (S (Nat.div2 j)). by rewrite Nat2Z.inj_succ.
    + by rewrite D.
  - eapply yields_mono; [by apply (tick_yields counter_b set_b "  [B] tick " st r')|].
    intros ? st' t (-> & t' & W & ->). rewrite Hb, u32_succ. split; [done|].
    constructor; cbn [m_sched m_term counter_a counter_b counter_c set_sched set_term set_b]; try done.
    + change (Nat.div2 (S (S j))) with (S (Nat.div2 j)). by rewrite Ha, D.
    + by rewrite D, Nat2Z.inj_succ.
Qed.

Lemma kernel_rounds_yields n : forall j st, at_turn j st ->
  yields (kernel_rounds n) st (fun _ st' t =>
    t = serial_bytes (concat (tick_line <$> seq j n)) /\ at_turn (j + n) st').
Proof.
  unfold kernel_rounds. induction n as [|n IH]; intros j st H; cbn [repeatM].
  { apply yields_ret. by rewrite Nat.add_0_r. }
  apply yields_seq. eapply yields_mono; [by apply kernel_round_yields|]. intros ? st1 t1 [-> H1].
  eapply yields_mono; [by apply (IH (S j))|]. intros ? st2 t2 [-> H2].
  rewrite <- Nat.add_succ_comm. split; [|done]. cbn [seq fmap list_fmap concat].
  unfold serial_bytes. by rewrite fmap_app.
Qed.

(** The first turn, of the idle loop, starts thread A. *)
Lemma first_round_yields st :
  sched32_inv (m_sched st) boot_rings -> r_current (m_sched st) = None -> term_wf (m_term st) ->
  counter_a st = 0 -> counter_b st = 0 -> counter_c st = 0 ->
  yields kernel_round st (fun _ st' t => t = [] /\ at_turn 0 st').
Proof.
  intros Hi Hc Hwf Ha Hb Hcc. destruct (reschedule32_sim (m_sched st) boot_rings Hi) as (r' & E & H).
  change (top_prio boot_rings) with (Some 5%nat) in H. cbv zeta in H.
  unfold turned in H. rewrite Hc, decide_False in H by done. destruct H as (Hi' & Hc' & _).
  unfold kernel_round, idle_round. apply yields_seq, yields_gets. rewrite Hc.
  apply yields_seq, yields_zoom. eapply yields_done; [exact E|].
  apply yields_seq, yields_gets. cbn [m_sched set_sched]. rewrite Hc'. apply yields_ret.
  split; [done|]. constructor; cbn; try done.
  eapply sched32_inv_ext; [|exact Hi']. intros p Hp. do 8 (destruct p as [|p]; [reflexivity|]). lia.
Qed.

(** C39: started with a thread array of its static size and zero counters, the 32-bit
    kernel comes up and hands out the CPU in turn to threads A and B, which share the
    highest priority: the serial port shows their ticks alternately, each numbered by
    its thread's own 32-bit counter.  Thread C of lower priority never runs, since A and
    B never block. *)
Theorem kernel_main_schedule magic st n :
  length (threads (m_sched st)) = 16%nat ->
  counter_a st = 0 -> counter_b st = 0 -> counter_c st = 0 ->
  0 <= thread_a < 2 ^ 32 -> 0 <= thread_b < 2 ^ 32 -> 0 <= thread_c_low_priority < 2 ^ 32 ->
  exists st1 t1 st2, kernel_main magic st = Done tt st1 t1 /\
    sched32_inv (m_sched st1) boot_rings /\ r_current (m_sched st1) = None /\
    kernel_rounds (S n) st1 = Done tt st2 (serial_bytes (concat (tick_line <$> seq 0 n))) /\
    r_current (m_sched st2) = Some (if Nat.even n then 0 else 1)%nat /\
    counter_a st2 = u32 (Z.of_nat (Nat.div2 (S n))) /\
    counter_b st2 = u32 (Z.of_nat (Nat.div2 n)) /\ counter_c st2 = 0.
Proof.
  intros Hl A0 B0 C0 Ha Hb Hc.
  destruct (kernel_main_runs magic st Hl Ha Hb Hc) as ([] & st1 & t1 & E1 & Hi1 & Hr1 & W1 & Ea & Eb & Ec).
  assert (yields (kernel_rounds (S n)) st1 (fun _ st2 t =>
    t = serial_bytes (concat (tick_line <$> seq 0 n)) /\ at_turn n st2)) as ([] & st2 & t2 & E2 & -> & []).
  { apply yields_seq. eapply yields_mono; [apply first_round_yields; congruence|].
    intros ? st2 t2 [-> H2]. by apply (kernel_rounds_yields n 0). }
  exists st1, t1, st2. by split_and!.
Qed.
End Main.

Lemma kernel_main_schedule_witness : exists st1 t1 st2,
  kernel_main (fun _ => 0x20) 1 0x120000 0x101000 0x102000 0x103000 0x2BADB002
    (mkMain32 (term_boot (fun _ => 0))
      (mkScheduler 0 [] None (replicate 16 thr_zero) 0 0 0x90000 (fun _ => 0)) 0 0 0) = Done tt st1 t1 /\
  kernel_rounds (fun _ => 0x20) 1 4 st1 = Done tt st2 (serial_bytes (bytes
    ("[A] tick 0x00000001" +:+ nl +:+ "  [B] tick 0x00000001" +:+ nl +:+ "[A] tick 0x00000002" +:+ nl))) /\
  r_current (m_sched st2) = Some 1%nat /\ counter_a st2 = 2.
Proof.
  destruct (kernel_main_schedule (fun _ => 0x20) 1 0x120000 0x101000 0x102000 0x103000) with
    (magic := 0x2BADB002) (n := 3%nat) (st := mkMain32 (term_boot (fun _ => 0))
      (mkScheduler 0 [] None (replicate 16 thr_zero) 0 0 0x90000 (fun _ => 0)) 0 0 0)
    as (st1 & t1 & st2 & E1 & _ & _ & E2 & H & Ha & _).
  - intros n. exists 0%nat. split; [lia|]. vm_compute. discriminate.
  - reflexivity.
  - reflexivity.
  - reflexivity.
  - reflexivity.
  - lia.
  - lia.
  - lia.
  - exists st1, t1, st2. split_and!; [exact E1|exact E2|exact H|exact Ha].
Defined.
