(* ===== verification/HeapSelfTest.v ===== *)
(** * main64.c: the heap's self-test

    [heap_self_test] (main64.c, lines 28-74) run against the model of heap.c, and the
    proof that on a fresh heap it finds no overlap and reports success: its verdicts
    are correct, and the heap is again the one it started from. *)

From S2P Require Import Prelude Memory Machine Runs KernLock Heap HeapSpec HeapMem HeapProof HeapClient.
From S2P Require Import NKern HeapTheorems.

Definition OVERLAP : string := "[heap] OVERLAP DETECTED after alloc!" +:+ nl.
Definition NO_OVERLAP : string := "[heap] no overlap after alloc, OK" +:+ nl.
Definition PASSED : string := "[heap] self-test PASSED (free bytes fully recovered)" +:+ nl +:+ nl.
Definition FAILED : string :=
  "[heap] self-test FAILED: free bytes mismatch (leak or bad coalesce)" +:+ nl +:+ nl.

(** [for (int i = 0; i < n; i++) ((uint8_t* )p)[i] = v;] *)
Definition fill_pattern (n : nat) (p v : Z) (m : mem) : mem :=
  for_loop n 0 (fun i m => store8 m (p + i) v) m.

(** [for (int i = 0; i < n; i++) if (((uint8_t* )p)[i] != v) corrupted = 1;] *)
Definition check_pattern (n : nat) (p v : Z) (m : mem) (corrupted : Z) : Z :=
  for_loop n 0 (fun i c => if load8 m (p + i) =? v then c else 1) corrupted.

Section SelfTest.
Context {L : Type} {LO : KernLockOps L}.

Definition heap_self_test : M (heap L) unit :=
  kprint ("[heap] self-test starting..." +:+ nl) ;;;
  heap_print_stats ;;;
  initial_free <- heap_free_bytes ;;
  p1 <- kmalloc 100 ;;
  p2 <- kmalloc 4000 ;;
  p3 <- kmalloc 50 ;;
  p4 <- kmalloc 20000 ;;
  p5 <- kmalloc 16 ;;
  upd_mem (fill_pattern 100 p1 0xAA) ;;;
  upd_mem (fill_pattern 50 p3 0xBB) ;;;
  upd_mem (fill_pattern 16 p5 0xCC) ;;;
  m <- gets h_mem ;;
  let corrupted := check_pattern 100 p1 0xAA m 0 in
  let corrupted := check_pattern 50 p3 0xBB m corrupted in
  let corrupted := check_pattern 16 p5 0xCC m corrupted in
  kprint (if corrupted =? 0 then NO_OVERLAP else OVERLAP) ;;;
  heap_print_stats ;;;
  kfree p3 ;;;
  kfree p1 ;;;
  kfree p4 ;;;
  kfree p2 ;;;
  kfree p5 ;;;
  final_free <- heap_free_bytes ;;
  kprint "[heap] after freeing everything: " ;;;
  heap_print_stats ;;;
  if final_free =? initial_free then kprint PASSED else kprint FAILED.

(** ** The patterns *)

Lemma fill_pattern_at n p v m x :
  0 <= v < 256 ->
  fill_pattern n p v m x = if (p <=? x) && (x <? p + Z.of_nat n) then v else m x.
Proof.
  intros Hv. unfold fill_pattern.
  apply (for_loop_inv (fun i m' => m' x = if (p <=? x) && (x <? p + i) then v else m x) n 0).
  - case_cmp; simpl; done || lia.
  - intros j m' Hj IH. unfold store. change (Z.of_nat 1) with 1.
    destruct (Z.leb_spec (p + j) x), (Z.ltb_spec x (p + j + 1)); cbn [andb]; try rewrite IH;
      case_cmp; cbn [andb]; try done; try lia.
    replace (x - (p + j)) with 0 by lia. rewrite Z.pow_0_r, Z.div_1_r. by apply u8_small.
Qed.

Lemma check_pattern_ok n p v m :
  0 <= v < 256 -> (forall x, p <= x < p + Z.of_nat n -> m x = v) -> check_pattern n p v m 0 = 0.
Proof.
  intros Hv Hm. unfold check_pattern.
  apply (for_loop_inv (fun _ c => c = 0) n 0); [done|]. intros j c Hj ->.
  replace (load8 m (p + j)) with v; [by rewrite Z.eqb_refl|].
  rewrite load_S. change (load 0 m (p + j + 1)) with 0. rewrite Hm by lia. rewrite u8_small by lia. lia.
Qed.

Context {LL : KernLock L} (heap_arena : Z).

(** ** Statistics: they only read *)

Lemma count_loop (h : heap L) bs : forall fuel prev a n,
  0 < a -> Forall blk_ok bs -> seg (h_mem h) prev a bs 0 -> (length bs < fuel)%nat ->
  exists v, loop fuel (fun '(b, n) =>
    if b =? 0 then ret (inr n) else
    m <- gets h_mem ;; ret (inl (blk_next m b, i32 (n + 1)))) (head_or bs a 0, n) h = Done v h [].
Proof.
  induction bs as [|b bs IH]; intros fuel prev a n Ha Hok Hseg Hf;
    (destruct fuel as [|fuel]; [simpl in *; lia|]); rewrite loop_S.
  - simpl. rewrite bind_ret. by eexists.
  - cbn [head_or]. destruct (Z.eqb_spec a 0); [lia|].
    apply Forall_cons_iff in Hok as [Hb Hok]. destruct Hseg as [(_ & _ & E3 & _ & _) Hseg].
    mstep. rewrite E3. apply (IH fuel a); try done; [|simpl in *; lia].
    unfold blk_ok, extent, sizeof_block_t in *. lia.
Qed.

Lemma heap_print_stats_run (h : heap L) bs :
  heap_inv heap_arena h bs -> exists t, heap_print_stats h = Done tt h t.
Proof.
  intros Hi. unfold heap_print_stats. rewrite (bind_done _ _ _ _ _ _ (heap_free_bytes_run heap_arena h bs Hi)).
  rewrite bind_gets. pose proof (inv_arena _ _ _ Hi) as [Ha _].
  destruct (count_loop h bs heap_fuel 0 heap_arena 0) as [v E].
  { lia. } { apply (inv_ok _ _ _ Hi). } { apply (inv_seg _ _ _ Hi). }
  { apply fuel_enough; apply Hi. }
  assert (head_or bs heap_arena 0 = heap_arena) as Eh.
  { destruct bs; [|done]. pose proof (inv_span _ _ _ Hi) as Hs. done. }
  rewrite (inv_list _ _ _ Hi). rewrite Eh in E. rewrite (bind_done _ _ _ _ _ _ E). by eexists.
Qed.

(** ** The calls of the test, as steps on the abstract heap *)

(** The heap represents [bs], and outside of the arena the memory is [m0]. *)
Definition heap_at (m0 : mem) (h : heap L) (bs : list blk) : Prop :=
  heap_inv heap_arena h bs /\ forall x, outside_arena heap_arena x -> h_mem h x = m0 x.

Lemma stats_yields (h : heap L) m0 bs :
  heap_at m0 h bs -> yields heap_print_stats h (fun _ h' _ => h' = h).
Proof. intros [[t E]%heap_print_stats_run _]. by eapply yields_done. Qed.

Lemma free_bytes_yields (h : heap L) m0 bs :
  heap_at m0 h bs -> yields heap_free_bytes h (fun v h' _ => h' = h /\ v = free_sum bs).
Proof. intros [E%heap_free_bytes_run _]. by eapply yields_done. Qed.

Lemma kmalloc_yields (h : heap L) m0 bs n off bs' :
  heap_at m0 h bs -> 0 < n <= 2 ^ 64 - 16 -> abs_kmalloc (align16 n + 4) bs = Some (off, bs') ->
  yields (kmalloc n) h (fun p h' _ => p = heap_arena + off + 36 /\ heap_at m0 h' bs').
Proof.
  intros [Hi Hm] Hn E. pose proof (kmalloc_sim heap_arena h bs n Hi Hn) as H. rewrite E in H.
  destruct H as (h' & t & Er & Hi' & _ & Hc). eapply yields_done; [exact Er|]. split; [done|].
  split; [done|]. intros x Hx. rewrite Hc by (by right). by apply Hm.
Qed.

Lemma kfree_yields (h : heap L) m0 l b r bs p :
  heap_at m0 h bs -> bs = l ++ b :: r -> b_free b = false -> p = heap_arena + span l + 36 ->
  yields (kfree p) h (fun _ h' _ => heap_at m0 h' (abs_kfree l b r)).
Proof.
  intros [Hi Hm] -> Hb ->. destruct (kfree_sim heap_arena h l b r Hi Hb) as (h' & t & E & Hi' & _ & _ & Hc).
  eapply yields_done; [exact E|]. split; [done|]. intros x Hx. rewrite Hc by tauto. by apply Hm.
Qed.

(** A client that writes inside an allocation leaves the heap as it is. *)
Lemma fill_inv m0 m hl (k : L) bs n p v :
  heap_at m0 (mkHeap m hl k) bs -> 0 <= v < 256 ->
  (forall x, p <= x < p + Z.of_nat n -> in_payload heap_arena bs x) ->
  heap_arena <= p -> p + Z.of_nat n <= heap_arena + HEAP_SIZE ->
  heap_at m0 (mkHeap (fill_pattern n p v m) hl k) bs.
Proof.
  intros [[Ha Hl Hseg Hok Hsp Hco Hlk] Hm] Hv Hp H1 H2. cbn [h_mem] in *. split; [split; try done|].
  - cbn [h_mem]. apply (seg_payload_frame m); [done..|]. intros x _ Hn. rewrite fill_pattern_at by done.
    destruct (Z.leb_spec p x), (Z.ltb_spec x (p + Z.of_nat n)); try done.
    destruct Hn. apply Hp. lia.
  - intros x Hx. cbn [h_mem]. rewrite fill_pattern_at by done. unfold outside_arena in *.
    destruct (Z.leb_spec p x), (Z.ltb_spec x (p + Z.of_nat n)); cbn [andb]; try lia; by apply Hm.
Qed.

(** The heap after the five allocations. *)
Definition test_blocks : list blk :=
  [Blk 116 false; Blk 4004 false; Blk 68 false; Blk 20004 false; Blk 20 false;
   Blk (HEAP_SIZE - 24404) true].

(** The three patterns are still there after all of them are written. *)
Lemma test_patterns m0 m1 hl (k : L) m p1 p3 p5 :
  heap_at m0 (mkHeap m1 hl k) test_blocks ->
  p1 = heap_arena + 0 + 36 -> p3 = heap_arena + 4184 + 36 -> p5 = heap_arena + 24320 + 36 ->
  m = fill_pattern 16 p5 0xCC (fill_pattern 50 p3 0xBB (fill_pattern 100 p1 0xAA m1)) ->
  heap_at m0 (mkHeap m hl k) test_blocks /\
  check_pattern 16 p5 0xCC m (check_pattern 50 p3 0xBB m (check_pattern 100 p1 0xAA m 0)) = 0.
Proof.
  intros Hi -> -> -> ->. split.
  - repeat (apply fill_inv; [|lia| |lia|unfold HEAP_SIZE; lia]); [done|..];
      intros x Hx; simpl; unfold extent, sizeof_block_t; cbn [b_size];
      repeat first [left; split; [reflexivity|lia]|right].
  - rewrite !check_pattern_ok; try lia; intros x Hx; rewrite !fill_pattern_at by lia;
      case_cmp; try done; lia.
Qed.

(** Free the block after [l] in a sequence. *)
Ltac free_step l b :=
  yield_step; eapply yields_mono;
  [eapply (kfree_yields _ _ l b); [eassumption|reflexivity|reflexivity|f_equal; f_equal; reflexivity]|];
  intros ? ? ? ?; cbv beta in *.

Lemma heap_self_test_run (h : heap L) :
  heap_inv heap_arena h initial_blocks ->
  yields heap_self_test h (fun _ h' t =>
    heap_inv heap_arena h' initial_blocks /\ EPrint NO_OVERLAP ∈ t /\ EPrint PASSED ∈ t /\
    forall x, outside_arena heap_arena x -> h_mem h' x = h_mem h x).
Proof.
  intros Hi0. assert (heap_at (h_mem h) h initial_blocks) as H0 by done.
  remember (h_mem h) as mref eqn:Eref. clear Hi0 Eref. unfold heap_self_test. yield_steps.
  eapply yields_mono; [by eapply stats_yields|]. intros _ ? t1 ->. yield_step.
  eapply yields_mono; [by eapply free_bytes_yields|]. intros _ ? t2 [-> ->].
  do 5 (yield_step; eapply yields_mono; [eapply kmalloc_yields; [eassumption|lia|vm_compute; reflexivity]|];
    clear dependent h; intros ? h ? [-> H]).
  destruct h as [m1 hl k].
  destruct (test_patterns mref m1 hl k _ _ _ _ H eq_refl eq_refl eq_refl eq_refl) as [Hi Hc].
  unfold upd_mem. yield_steps. cbn [h_mem heap_list h_lock]. rewrite Hc.
  eapply yields_mono; [by eapply stats_yields|]. intros _ ? t6 ->.
  free_step [Blk 116 false; Blk 4004 false] (Blk 68 false). free_step (@nil blk) (Blk 116 false).
  free_step [Blk 116 true; Blk 4004 false; Blk 68 true] (Blk 20004 false).
  free_step [Blk 116 true] (Blk 4004 false). free_step [Blk 24288 true] (Blk 20 false).
  yield_step. eapply yields_mono; [by eapply free_bytes_yields|]. intros _ ? ? [-> ->]. yield_steps.
  eapply yields_mono; [by eapply stats_yields|]. intros _ ? ? ->.
  match goal with |- context [?a =? ?b] => change (a =? b) with true end. cbv iota. yield_steps.
  match goal with H : heap_at _ _ _ |- _ => destruct H as [Hend Hmem] end.
  split; [exact Hend|]. rewrite !elem_of_app, !list_elem_of_singleton. tauto.
Qed.

(** Run on the heap as [heap_init] leaves it, the self-test returns (no panic and
    no endless loop), reports that no block overlaps another and that the free bytes
    are fully recovered, leaves a heap that is one free block again, and writes no byte
    outside the arena. *)
Theorem heap_self_test_passes (h : heap L) :
  heap_inv heap_arena h initial_blocks ->
  yields heap_self_test h (fun _ h' t =>
    heap_inv heap_arena h' initial_blocks /\ EPrint NO_OVERLAP ∈ t /\ EPrint PASSED ∈ t /\
    forall x, outside_arena heap_arena x -> h_mem h' x = h_mem h x).
Proof. by apply heap_self_test_run. Qed.
End SelfTest.

Lemma heap_self_test_passes_witness :
  yields (heap_self_test (LO := demo_ops)) demo0 (fun _ h' t =>
    heap_inv (LO := demo_ops) demo_arena h' initial_blocks /\ EPrint NO_OVERLAP ∈ t /\ EPrint PASSED ∈ t /\
    forall x, outside_arena demo_arena x -> h_mem h' x = h_mem demo0 x).
Proof. exact (heap_self_test_passes (LL := demo_law) demo_arena demo0 demo0_inv). Defined.
