(* ===== verification/Threads64.v ===== *)
(** * main64.c: the demo threads

    The threads A and B write a signature at the same virtual address and read it back
    after a delay in which the timer may run other threads (main64.c, lines 80-162).
    A byte access goes through the page tables of the thread's address space.  What
    the other threads do during a delay loop is a parameter, [interlude]. *)

From S2P Require Import Prelude Memory Machine Runs KernLock NKern FrameSource.
From S2P Require Import Heap HeapTheorems Memmap MemmapTheorems Paging PagingSpec PagingProof PagingSpaces PagingUser PagingTheorems.

(** A page fault ends in [interrupt_dispatch] (idt.c), which halts. *)
Definition page_fault {S A} (va : Z) : M S A := instr "#PF" va ;;; hang.

(** A byte access at [va] with the tables of [cr3]. *)
Definition vstore8 (cr3 va v : Z) : M mem unit :=
  m <- get ;;
  match walk m cr3 va with
  | Some x => if x_write x then modify (fun m => store8 m (x_pa x) v) else page_fault va
  | None => page_fault va
  end.

Definition vload8 (cr3 va : Z) : M mem Z :=
  m <- get ;;
  match walk m cr3 va with
  | Some x => ret (load8 m (x_pa x))
  | None => page_fault va
  end.

(** [p[i] = c] for [n] values of [i]. *)
Fixpoint write_from (cr3 c : Z) (n : nat) (i : Z) : M mem unit :=
  match n with
  | O => ret tt
  | S n' => vstore8 cr3 (DEMO_VA + i) c ;;; write_from cr3 c n' (i + 1)
  end.
Definition write_signature (cr3 c : Z) : M mem unit := write_from cr3 c 4 0.

(** [if (p[i] != expected) return 0] for [n] values of [i]; [char] is signed. *)
Fixpoint verify_from (cr3 expected : Z) (n : nat) (i : Z) : M mem Z :=
  match n with
  | O => ret 1
  | S n' =>
      b <- vload8 cr3 (DEMO_VA + i) ;;
      if i8 b =? expected then verify_from cr3 expected n' (i + 1) else ret 0
  end.
Definition verify_signature (cr3 expected : Z) : M mem Z := verify_from cr3 expected 4 0.

(** ** Thread bodies: one round of each [for (;;)] *)

Record world := mkWorld {
  w_mem : mem; counter_a : Z; counter_b : Z; counter_c : Z; w_lock : nkern
}.
Definition set_wmem (m : mem) (w : world) : world :=
  mkWorld m (counter_a w) (counter_b w) (counter_c w) (w_lock w).
Definition set_wlock (k : nkern) (w : world) : world :=
  mkWorld (w_mem w) (counter_a w) (counter_b w) (counter_c w) k.
Definition in_mem {A} (m : M mem A) : M world A := zoom w_mem set_wmem m.
Definition in_wlock {A} (m : M nkern A) : M world A := zoom w_lock set_wlock m.

Definition AS_OK : string := " AS=OK" +:+ nl.
Definition AS_CORRUPTED : string := " AS=CORRUPTED!" +:+ nl.

Section Threads.
(** [interlude k] is what the rest of the system does during the thread's [k]-th delay
    loop; [id] is what [lapic_get_id()] returns on the CPU the thread then runs on. *)
Context (interlude : nat -> M world unit) (id : Z) {LO : KernLockOps nkern}.

Definition report (tag : string) (counter ok : Z) : M world unit :=
  kprint tag ;;; kprint_hex64 id ;;; kprint "] tick " ;;;
  kprint_hex64 counter ;;;
  kprint (if ok =? 0 then AS_CORRUPTED else AS_OK).

Definition thread_a (cr3 : Z) : M world unit :=
  modify (fun w => mkWorld (w_mem w) (u32 (counter_a w + 1)) (counter_b w) (counter_c w) (w_lock w)) ;;;
  in_mem (write_signature cr3 65) ;;;
  interlude 0 ;;;
  ok <- in_mem (verify_signature cr3 65) ;;
  n <- gets counter_a ;;
  report "[A cpu" n ok ;;;
  n <- gets counter_a ;;
  (if n mod 5 =? 0 then
     kprint ("[A] --- entering critical section (NKern_Lock) ---" +:+ nl) ;;;
     in_wlock NKern_Lock ;;;
     kprint ("[A] --- still holding lock, about to unlock ---" +:+ nl) ;;;
     in_wlock NKern_Unlock ;;;
     kprint ("[A] --- critical section released (NKern_Unlock) ---" +:+ nl)
   else ret tt) ;;;
  interlude 1.

Definition thread_b (cr3 : Z) : M world unit :=
  modify (fun w => mkWorld (w_mem w) (counter_a w) (u32 (counter_b w + 1)) (counter_c w) (w_lock w)) ;;;
  in_mem (write_signature cr3 66) ;;;
  interlude 0 ;;;
  ok <- in_mem (verify_signature cr3 66) ;;
  n <- gets counter_b ;;
  report "  [B cpu" n ok ;;;
  interlude 1.

Definition thread_c_low_priority : M world unit :=
  modify (fun w => mkWorld (w_mem w) (counter_a w) (counter_b w) (u32 (counter_c w + 1)) (w_lock w)) ;;;
  n <- gets counter_c ;;
  kprint "    [C low-prio] tick " ;;; kprint_hex64 n ;;; kprint nl ;;;
  interlude 0.
End Threads.

(** [enter_usermode] (usermode.s) leaves for ring 3 with [iretq] and never returns. *)
Definition thread_ring3_launcher : M world unit :=
  kprint ("[launcher] jumping into ring3..." +:+ nl) ;;;
  instr "iretq rip" USER_CODE_VA ;;; instr "iretq rsp" USER_STACK_TOP ;;; hang.

(** ** Signatures stay private *)

Section Signatures.
Context {F : Type} {FO : FrameSourceOps F} {FS : FrameSource F} (frame_pool : Z).
Context (p : paging F) (pds : list (Z * Z)) (K : Z -> Z) (ss : list (space * list Z)).
Context (Hinv : spaces_inv frame_pool pds K p ss).

(** A space of [create_address_space]: the demo page is the private frame [fp]. *)
Definition is_demo (e : space * list Z) (fp : Z) : Prop :=
  snd e = [fp] /\
  forall i, 0 <= i < 4096 -> sp_xlat (fst e) (DEMO_VA + i) = Some (mkXlat (fp + i) true false false).

Lemma demo_is_demo K' f4 f3 fd ft fp : is_demo (demo_space K' f4 f3 fd ft fp, [fp]) fp.
Proof.
  split; [done|]. intros i Hi. cbn [fst sp_xlat demo_space]. unfold private_xlat, demo_page, DEMO_VA.
  destruct (Z.eqb_spec ((0x40000000 + i) / 2 ^ 30) 1); [|dlia].
  change (0x40000000 / 2 ^ 12) with (2 ^ 18).
  destruct (Z.eqb_spec ((0x40000000 + i) / 2 ^ 12) (2 ^ 18)); [|dlia]. simpl. do 2 f_equal. dlia.
Qed.

(** Memory in which every space translates as it was built. *)
Definition all_ok (m : mem) : Prop := forall e, e ∈ ss -> space_ok m (pds.*2) (fst e).

Lemma all_ok_p : all_ok (p_mem p).
Proof. intros [s fs] He. by apply (si_ok _ _ _ _ _ Hinv s fs). Qed.

(** A private page is no table of any space. *)
Lemma private_not_table e f e' t :
  e ∈ ss -> f ∈ snd e -> e' ∈ ss -> t ∈ sp_tables (fst e') ++ pds.*2 -> t mod 4096 = 0 /\ t ∉ [f].
Proof.
  destruct e as [s fs], e' as [s' fs']. cbn [fst snd]. intros He Hf He' Ht.
  assert (f ∈ sp_tables s ++ fs) as Hsf by (rewrite elem_of_app; tauto).
  apply elem_of_app in Ht as [Ht|Ht].
  - split; [apply (si_frames _ _ _ _ _ Hinv s' fs' t He'); rewrite elem_of_app; tauto|].
    intros ->%list_elem_of_singleton. apply list_elem_of_lookup in He as [i Hi], He' as [j Hj].
    pose proof (si_nodup _ _ _ _ _ Hinv) as Hnd.
    assert (i = j) as <-.
    { eapply (concat_NoDup_inj (space_frames <$> ss) i j (sp_tables s ++ fs) (sp_tables s' ++ fs') f);
        rewrite ?list_lookup_fmap, ?Hi, ?Hj, ?elem_of_app; try done; tauto. }
    rewrite Hi in Hj. injection Hj as <- <-.
    assert (NoDup (sp_tables s ++ fs)) as (_ & Hd & _)%NoDup_app; [|by eapply Hd].
    clear - Hnd Hi. revert i Hi. induction ss as [|e l IH]; intros i Hi; [done|].
    rewrite fmap_cons in Hnd. simpl in Hnd. apply NoDup_app in Hnd as (H1 & _ & H2).
    destruct i as [|i]; [by injection Hi as ->|by eapply IH].
  - pose proof (km_frames _ _ _ _ (si_kmap _ _ _ _ _ Hinv)) as Hfr. rewrite Forall_forall in Hfr. split.
    + apply Hfr. by do 2 apply list_elem_of_further.
    + intros ->%list_elem_of_singleton. apply (si_shared _ _ _ _ _ Hinv s fs f He Hsf).
      by do 2 apply list_elem_of_further.
Qed.

Lemma all_ok_write m m' e f :
  all_ok m -> e ∈ ss -> f ∈ snd e -> only_frames [f] m m' -> all_ok m'.
Proof.
  intros Hm He Hf Ho e' He'. apply (space_ok_frame m _ _ [f]); [by apply Hm|done| |].
  - intros f' ->%list_elem_of_singleton. destruct e as [s fs].
    apply (si_frames _ _ _ _ _ Hinv s fs f He). rewrite elem_of_app. tauto.
  - intros t Ht. by apply (private_not_table e f e' t).
Qed.

(** One byte of a signature. *)
Lemma vstore8_run m e fp i c :
  all_ok m -> e ∈ ss -> is_demo e fp -> 0 <= i < 4096 ->
  vstore8 (sp_cr3 (fst e)) (DEMO_VA + i) c m = Done tt (store8 m (fp + i) c) [] /\
  all_ok (store8 m (fp + i) c).
Proof.
  intros Hm He [Hp Hx] Hi. unfold vstore8. mstep.
  destruct (Hm e He (DEMO_VA + i)) as [-> _]; [unfold DEMO_VA; lia|].
  rewrite Hx by done. cbn [x_write x_pa]. split; [done|].
  apply (all_ok_write m _ e fp); [done..|rewrite Hp; apply list_elem_of_here|].
  intros x Hn. apply store_out. specialize (Hn fp (list_elem_of_here _ _)). lia.
Qed.

Lemma write_from_run e fp c n : forall m i,
  all_ok m -> e ∈ ss -> is_demo e fp -> 0 <= i -> i + Z.of_nat n <= 4096 ->
  exists m', write_from (sp_cr3 (fst e)) c n i m = Done tt m' [] /\ all_ok m' /\
    forall x, m' x = if (fp + i <=? x) && (x <? fp + i + Z.of_nat n) then u8 c else m x.
Proof.
  induction n as [|n IH]; intros m i Hm He Hd Hi Hn.
  - exists m. split; [done|]. split; [done|]. intros x. case_cmp; done || lia.
  - destruct (vstore8_run m e fp i c Hm He Hd ltac:(lia)) as [E Hm1].
    destruct (IH _ (i + 1) Hm1 He Hd ltac:(lia) ltac:(lia)) as (m' & E' & Hm' & Hx).
    exists m'. cbn [write_from]. rewrite (bind_done _ _ _ _ _ _ E), E'. split; [done|]. split; [done|].
    intros x. rewrite Hx. unfold store. case_cmp; cbn [andb]; try lia; try done.
    replace (x - (fp + i)) with 0 by lia. by rewrite Z.pow_0_r, Z.div_1_r.
Qed.

Lemma i8_u8 c : -128 <= c < 128 -> i8 (u8 c) = c.
Proof. intros Hc. unfold i8, u8. change (2 ^ 7) with 128. change (2 ^ 8) with 256. dlia. Qed.

Lemma verify_from_run e fp c n : forall m i,
  all_ok m -> e ∈ ss -> is_demo e fp -> -128 <= c < 128 -> 0 <= i -> i + Z.of_nat n <= 4096 ->
  (forall x, fp + i <= x < fp + i + Z.of_nat n -> m x = u8 c) ->
  verify_from (sp_cr3 (fst e)) c n i m = Done 1 m [].
Proof.
  induction n as [|n IH]; intros m i Hm He Hd Hc Hi Hn Hx; [done|].
  cbn [verify_from]. unfold vload8. mstep.
  destruct (Hm e He (DEMO_VA + i)) as [-> _]; [unfold DEMO_VA; lia|].
  destruct Hd as [Hp Hd]. rewrite Hd by lia. mstep. cbn [x_pa].
  rewrite load_S. change (load 0 m (fp + i + 1)) with 0. rewrite Hx by lia.
  rewrite Z.mul_0_r, Z.add_0_r, (u8_small (u8 c)) by apply u8_bound. rewrite i8_u8, Z.eqb_refl by done.
  apply IH; try done; try lia. intros x Hx'. apply Hx. lia.
Qed.

(** Signatures written by other threads, in order: root of the space and character. *)
Fixpoint signatures (l : list (Z * Z)) : M mem unit :=
  match l with
  | [] => ret tt
  | (cr3, c) :: l' => write_signature cr3 c ;;; signatures l'
  end.

(** [cr3] is the root of a demo space other than number [i]. *)
Definition other_demo (i : nat) (cr3 : Z) : Prop :=
  exists j e fp, ss !! j = Some e /\ is_demo e fp /\ j <> i /\ cr3 = sp_cr3 (fst e).

Lemma signatures_run i e fp l : forall m,
  all_ok m -> ss !! i = Some e -> is_demo e fp -> Forall (fun o => other_demo i (fst o)) l ->
  exists m', signatures l m = Done tt m' [] /\ all_ok m' /\ forall x, fp <= x < fp + 4096 -> m' x = m x.
Proof.
  induction l as [|[cr3 c] l IH]; intros m Hm Hi Hd Hl; [by exists m|].
  apply Forall_cons_iff in Hl as [(j & e' & fp' & Hj & Hd' & Hne & Ec) Hl]. simpl in Ec. subst cr3.
  destruct (write_from_run e' fp' c 4 m 0 Hm (list_elem_of_lookup_2 _ _ _ Hj) Hd' ltac:(lia) ltac:(lia))
    as (m1 & E1 & Hm1 & Hx1).
  destruct (IH m1 Hm1 Hi Hd Hl) as (m2 & E2 & Hm2 & Hx2). exists m2.
  cbn [signatures]. unfold write_signature. rewrite (bind_done _ _ _ _ _ _ E1), E2.
  split; [done|]. split; [done|]. intros x Hx. rewrite Hx2, Hx1 by done.
  assert (fp + 4096 <= fp' \/ fp' + 4096 <= fp) as Hap.
  { assert (fp ∈ space_frames e /\ fp' ∈ space_frames e') as [Hf Hf'].
    { unfold space_frames. destruct Hd as [-> _], Hd' as [-> _].
      rewrite !elem_of_app, !list_elem_of_singleton. tauto. }
    destruct e as [s fs], e' as [s' fs'].
    apply frames_apart_z;
      [apply (si_frames _ _ _ _ _ Hinv s fs fp (list_elem_of_lookup_2 _ _ _ Hi) Hf)|
       apply (si_frames _ _ _ _ _ Hinv s' fs' fp' (list_elem_of_lookup_2 _ _ _ Hj) Hf')|].
    intros <-. apply Hne.
    eapply (concat_NoDup_inj (space_frames <$> ss)); [apply (si_nodup _ _ _ _ _ Hinv)| | |exact Hf'|exact Hf];
      by rewrite list_lookup_fmap, ?Hi, ?Hj. }
  case_cmp; cbn [andb]; try done. lia.
Qed.

(** Write, let the others write, read back. *)
Lemma signature_kept i e fp c l m :
  all_ok m -> ss !! i = Some e -> is_demo e fp -> -128 <= c < 128 ->
  Forall (fun o => other_demo i (fst o)) l ->
  exists m1 m2, write_signature (sp_cr3 (fst e)) c m = Done tt m1 [] /\ signatures l m1 = Done tt m2 [] /\
    all_ok m2 /\ verify_signature (sp_cr3 (fst e)) c m2 = Done 1 m2 [].
Proof.
  intros Hm Hi Hd Hc Hl. pose proof (list_elem_of_lookup_2 _ _ _ Hi) as He.
  destruct (write_from_run e fp c 4 m 0 Hm He Hd ltac:(lia) ltac:(lia)) as (m1 & E1 & Hm1 & Hx1).
  destruct (signatures_run i e fp l m1 Hm1 Hi Hd Hl) as (m2 & E2 & Hm2 & Hx2).
  exists m1, m2. split; [done|]. split; [done|]. split; [done|].
  apply (verify_from_run e fp c 4); try done; try lia. intros x Hx. rewrite Hx2 by lia. rewrite Hx1.
  case_cmp; done || lia.
Qed.

(** The memory part of a round, whatever the rest of the world is. *)
Lemma signature_round i e fp c l w (R : unit -> world -> list event -> Prop) f :
  all_ok (w_mem w) -> ss !! i = Some e -> is_demo e fp -> -128 <= c < 128 ->
  Forall (fun o => other_demo i (fst o)) l ->
  (forall m, all_ok m -> yields (f 1) (set_wmem m w) R) ->
  yields (in_mem (write_signature (sp_cr3 (fst e)) c) ;;; in_mem (signatures l) ;;;
          ok <- in_mem (verify_signature (sp_cr3 (fst e)) c) ;; f ok) w R.
Proof.
  intros Hm Hi Hd Hc Hl Hf.
  destruct (signature_kept i e fp c l (w_mem w) Hm Hi Hd Hc Hl) as (m1 & m2 & E1 & E2 & Hm2 & E3).
  specialize (Hf m2 Hm2).
  yield_step. apply yields_zoom. eapply yields_done; [exact E1|]. cbv beta.
  yield_step. apply yields_zoom. eapply yields_done; [exact E2|]. cbv beta.
  yield_step. apply yields_zoom. eapply yields_done; [exact E3|]. cbv beta. exact Hf.
Qed.
End Signatures.

Section Rounds.
Context {F : Type} {FO : FrameSourceOps F} {FS : FrameSource F} (frame_pool : Z).
Context {LO : KernLockOps nkern} {LL : KernLock nkern}.

(** The critical section of thread A, in both cases of the counter. *)
Lemma critical_section (b : bool) w :
  lock_idle (w_lock w) ->
  yields (if b then
     kprint ("[A] --- entering critical section (NKern_Lock) ---" +:+ nl) ;;;
     in_wlock NKern_Lock ;;;
     kprint ("[A] --- still holding lock, about to unlock ---" +:+ nl) ;;;
     in_wlock NKern_Unlock ;;;
     kprint ("[A] --- critical section released (NKern_Unlock) ---" +:+ nl)
   else ret tt) w (fun _ w' _ => w_mem w' = w_mem w /\ lock_idle (w_lock w')).
Proof.
  intros Hl. destruct b; [|by yield_steps].
  destruct (lock_section (w_lock w) Hl) as (l1 & t1 & l2 & t2 & E1 & _ & _ & E2 & Hl2 & _).
  yield_steps. apply yields_zoom. eapply yields_done; [exact E1|]. cbv beta. yield_steps.
  apply yields_zoom. eapply yields_done; [exact E2|]. cbv beta. by yield_steps.
Qed.

(** C18: in every state reached by creating address spaces, a round of thread A and
    one of thread B that each run in a demo space of their own report [AS=OK]
    whatever signatures the threads of other spaces write, in any order and number,
    between the write and the check; the page tables of all spaces are intact
    afterwards, so the same holds of the next round. *)
Theorem thread_signature_private (p0 p : paging F) pds K ss i e fp l id w :
  kmap frame_pool p0 pds K -> pd_of pds 1 = None -> spaces frame_pool p0 K p ss ->
  ss !! i = Some e -> is_demo e fp -> Forall (fun o => other_demo ss i (fst o)) l ->
  all_ok pds ss (w_mem w) -> lock_idle (w_lock w) ->
  let others k := if (k =? 0)%nat then in_mem (signatures l) else ret tt in
  yields (thread_a others id (sp_cr3 (fst e))) w (fun _ w' t =>
    EPrint AS_OK ∈ t /\ all_ok pds ss (w_mem w') /\ lock_idle (w_lock w')) /\
  yields (thread_b others id (sp_cr3 (fst e))) w (fun _ w' t =>
    EPrint AS_OK ∈ t /\ all_ok pds ss (w_mem w') /\ lock_idle (w_lock w')).
Proof.
  intros Hk Hno Hr Hi Hd Hl Hm Hlk others.
  pose proof (spaces_invariant frame_pool p0 pds K Hk Hno p ss Hr) as Hinv. unfold others. split.
  - unfold thread_a. do 2 yield_step. eapply (signature_round frame_pool p pds K ss Hinv i e fp); try done.
    intros m Hm'. unfold report. yield_steps.
    eapply yields_mono; [apply critical_section; exact Hlk|].
    intros _ w' t (Em & Hlk'). cbn [Nat.eqb]. yield_steps. rewrite Em. split; [|by split].
    rewrite !elem_of_app, !list_elem_of_singleton. cbn [Z.eqb]. tauto.
  - unfold thread_b. do 2 yield_step. eapply (signature_round frame_pool p pds K ss Hinv i e fp); try done.
    intros m Hm'. unfold report. yield_steps. cbn [Nat.eqb]. yield_steps. split; [|by split].
    rewrite !elem_of_app, !list_elem_of_singleton. cbn [Z.eqb]. tauto.
Qed.
End Rounds.

(** Two demo spaces on the boot pool; the other thread writes twice. *)
Lemma thread_signature_private_witness : exists w e l,
  (length l = 2)%nat /\
  yields (thread_a (LO := nkern_lock_ops 0 (ret tt)) (fun k => if (k =? 0)%nat then in_mem (signatures l) else ret tt)
    0 (sp_cr3 (fst (e : space * list Z)))) w (fun _ _ t => EPrint AS_OK ∈ t).
Proof.
  destruct demo_after_init as (p0 & Hk & V).
  assert (Forall frame_ok ((fun k => demo_pool + 4096 * k) <$> [3; 4; 5; 6; 7])) as O1
    by (apply demo_frames_ok; by repeat constructor).
  assert (Forall frame_ok ((fun k => demo_pool + 4096 * k) <$> [8; 9; 10; 11; 12])) as O2
    by (apply demo_frames_ok; by repeat constructor).
  destruct (create_address_space_spec demo_pool p0 _ _ _ _ _ _ _ _ Hk V O1) as (p1 & E1 & G1 & Hk1 & _ & _).
  pose proof (grown_rest _ _ _ _ _ _ G1 V) as V1.
  destruct (create_address_space_spec demo_pool p1 _ _ _ _ _ _ _ _ Hk1 V1 O2) as (p2 & E2 & _).
  pose proof (sp_none demo_pool p0 identity_1gb) as S0.
  eapply sp_demo in S0; [|exact V|exact O1|exact E1].
  eapply sp_demo in S0; [|exact V1|exact O2|exact E2].
  set (f := fun k => demo_pool + 4096 * k).
  set (e1 := (demo_space identity_1gb (f 3) (f 4) (f 5) (f 6) (f 7), [f 7])).
  set (e2 := (demo_space identity_1gb (f 8) (f 9) (f 10) (f 11) (f 12), [f 12])).
  set (l := [(f 8, 66); (f 8, 67)]). exists (mkWorld (p_mem p2) 4 0 0 nkern_boot), e1, l. split; [done|].
  assert (Forall (fun o => other_demo [e2; e1] 1 (fst o)) l) as Ho.
  { repeat constructor; exists 0%nat, e2, (f 12); (split_and!; [done|apply demo_is_demo|done|done]). }
  destruct (thread_signature_private (LL := nkern_lock 0 (ret tt)) demo_pool p0 p2 _ _ [e2; e1] 1 e1 (f 7) l 0
    (mkWorld (p_mem p2) 4 0 0 nkern_boot) Hk eq_refl S0 eq_refl (demo_is_demo _ _ _ _ _ _) Ho) as [Ha _].
  - apply (all_ok_p demo_pool p2 _ _ _ (spaces_invariant demo_pool p0 _ _ Hk eq_refl p2 _ S0)).
  - exact demo_idle.
  - eapply yields_mono; [exact Ha|]. intros ? ? ? H. exact (proj1 H).
Defined.
