(* ===== verification/Kernel64.v ===== *)
(** * The state of the whole 64-bit kernel

    What kernel_main64 (main64.c) and smp.c work on: one memory, in which the page
    tables, the GDT, the IDT, the heap and the firmware tables lie, the scheduler, the
    memory map, the kernel lock, the control registers of each CPU, the console and
    the variables of smp.c.  Each component's operations run on the part of this
    state they use. *)

From S2P Require Import Terminal64.
From S2P Require Import Prelude Memory Machine KernLock NKern FrameSource Heap Memmap MemmapTheorems Paging.
From S2P Require Import AddressSpaces Sched64 Keyboard Fpu Acpi Apic Idt.

Record machine := mkMachine {
  m_kernel : kernel memmap;
  m_heap_list : Z;
  m_crs : list cpu_cr;           (* control registers, by CPU index *)
  m_term : term;
  ap_ready : list Z;
  g_ap_index_starting : Z
}.

Definition set_mkernel (k : kernel memmap) (s : machine) : machine :=
  mkMachine k (m_heap_list s) (m_crs s) (m_term s) (ap_ready s) (g_ap_index_starting s).
Definition set_crs (l : list cpu_cr) (s : machine) : machine :=
  mkMachine (m_kernel s) (m_heap_list s) l (m_term s) (ap_ready s) (g_ap_index_starting s).
Definition set_term (t : term) (s : machine) : machine :=
  mkMachine (m_kernel s) (m_heap_list s) (m_crs s) t (ap_ready s) (g_ap_index_starting s).
Definition set_ready (l : list Z) (s : machine) : machine :=
  mkMachine (m_kernel s) (m_heap_list s) (m_crs s) (m_term s) l (g_ap_index_starting s).
Definition set_starting (i : Z) (s : machine) : machine :=
  mkMachine (m_kernel s) (m_heap_list s) (m_crs s) (m_term s) (ap_ready s) i.

Definition in_kernel {A} (m : M (kernel memmap) A) : M machine A := zoom m_kernel set_mkernel m.

(** ** Parts of the state *)

Definition m_sched (s : machine) : sched (paging memmap) := k_sched (m_kernel s).
Definition m_paging (s : machine) : paging memmap := s_space (m_sched s).
Definition m_mem (s : machine) : mem := p_mem (m_paging s).
Definition m_lock (s : machine) : nkern := s_lock (m_sched s).
Definition m_map (s : machine) : memmap := p_source (m_paging s).

Definition put_mem (m : mem) (p : paging memmap) : paging memmap :=
  mkPaging m (next_frame p) (kernel_pml4 p) (kernel_pdpt p) (p_source p).
Definition put_map (f : memmap) (p : paging memmap) : paging memmap :=
  mkPaging (p_mem p) (next_frame p) (kernel_pml4 p) (kernel_pdpt p) f.

Definition on_sched {A} (m : M (sched (paging memmap)) A) : M machine A := in_kernel (in_sched m).
Definition on_paging {A} (m : M (paging memmap) A) : M machine A := on_sched (in_space m).
Definition on_mem {A} (m : M mem A) : M machine A := on_paging (zoom p_mem put_mem m).
Definition on_map {A} (m : M memmap A) : M machine A := on_paging (zoom p_source put_map m).
Definition on_apic {A} (m : M (apic memmap) A) : M machine A := in_kernel (in_apic m).
Definition on_acpi {A} (m : M acpi A) : M machine A := on_apic (in_acpi m).
Definition on_term {A} (m : M term A) : M machine A := zoom m_term set_term m.

(** The control registers of CPU [c]. *)
Definition on_cr {A} (c : nat) (m : M cpu_cr A) : M machine A :=
  zoom (fun s => nth c (m_crs s) (mkCr 0 0)) (fun r s => set_crs (<[c:=r]> (m_crs s)) s) m.

(** The heap shares the memory and the kernel lock. *)
Definition heap_of (s : machine) : heap nkern := mkHeap (m_mem s) (m_heap_list s) (m_lock s).
Definition set_heap (h : heap nkern) (s : machine) : machine :=
  let k := m_kernel s in
  mkMachine
    (set_ksched (set_klock (h_lock h) (set_space (put_mem (h_mem h) (m_paging s)) (k_sched k))) k)
    (heap_list h) (m_crs s) (m_term s) (ap_ready s) (g_ap_index_starting s).
Definition on_heap {A} (m : M (heap nkern) A) : M machine A := zoom heap_of set_heap m.

(** The state when [kernel_main64] is entered: static data as the image has it,
    interrupts off, only the memory [m], the memory map [mm] (filled on the UEFI path),
    the root pointer of the firmware tables and the control registers given. *)
Definition sched_boot (p : paging memmap) : sched (paging memmap) :=
  mkSched 0 (replicate NUM_PRIORITIES64 None) (replicate MAX_SCHED_CPUS None)
    (replicate MAX_THREADS64 thread_zero) 0 (replicate MAX_SCHED_CPUS 0)
    (replicate MAX_SCHED_CPUS 0) (replicate MAX_SCHED_CPUS 0) p nkern_boot.

Definition MAX_AP_CPUS : Z := 8.

Definition machine_boot (m : mem) (mm : memmap) (rsdp : Z) (crs : list cpu_cr) (t : term) : machine :=
  mkMachine
    (mkKernel (sched_boot (mkPaging m 0 0 0 mm)) kbd_boot 0xFEE00000 0xFEC00000 rsdp 0 false)
    0 crs t (replicate (Z.to_nat MAX_AP_CPUS) 0) (-1).
