(* ===== verification/Smp.v ===== *)
(** * smp.c: starting the application processors

    The boot CPU copies the trampoline to 0x8000, fills the mailbox behind it, sends
    INIT-SIPI-SIPI to the CPU and polls [ap_ready].  What the started CPU does while the
    boot CPU polls is part of the model: a CPU that is alive runs the trampoline
    (ap_trampoline.s, which takes the page table root, the GDT, the stack and the entry
    point from the mailbox) and [ap_entry64] up to the store to [ap_ready].  Delay loops
    have no effect; a CPU that is not alive makes the poll time out. *)

From S2P Require Import Terminal64.
From S2P Require Import Prelude Memory Machine KernLock NKern FrameSource Heap Memmap MemmapTheorems Paging.
From S2P Require Import AddressSpaces Sched64 Keyboard Fpu Gdt64 Acpi Apic Idt Kernel64.

Definition TRAMPOLINE_ADDR : Z := 0x8000.
Definition MBOX_OFFSET : Z := 0x100.
Definition AP_STACK_SIZE : Z := 16 * 1024.

(** [LAPIC_REG] of smp.c: the standard address, not the one apic.c uses. *)
Definition SMP_LAPIC_BASE : Z := 0xFEE00000.
Definition LAPIC_ICR_LOW : Z := 0x300.
Definition LAPIC_ICR_HIGH : Z := 0x310.

Definition mbox : Z := TRAMPOLINE_ADDR + MBOX_OFFSET.

Section Smp.
(** Link-time addresses and the bytes of the trampoline. *)
Context (frame_pool gdt gdt_ptr tss kstack0 idt_ptr ap_entry64_addr : Z) (trampoline : list Z).
(** The devices of the CPU with a given APIC identifier; whether it starts; the devices
    of the boot CPU, which runs [smp_start_aps]. *)
Context (cpu_dev : Z -> apic_dev) (alive : Z -> bool) (bsp : apic_dev).
(** What [NKern_Unlock] does on the lock when a reschedule is pending. *)
Context (resched : M nkern unit).

Definition crude_delay (iterations : Z) : M machine unit := ret tt.

Definition icr_write (off v : Z) : M machine unit := emit (EMmio32 (SMP_LAPIC_BASE + off) v).

Definition send_init_sipi_sipi (apic_id : Z) : M machine unit :=
  let vector := u32 (Z.shiftr TRAMPOLINE_ADDR 12) in
  icr_write LAPIC_ICR_HIGH (u32 (Z.shiftl apic_id 24)) ;;;
  icr_write LAPIC_ICR_LOW 0x4500 ;;;
  crude_delay 50000000 ;;;
  icr_write LAPIC_ICR_HIGH (u32 (Z.shiftl apic_id 24)) ;;;
  icr_write LAPIC_ICR_LOW (Z.lor 0x4600 vector) ;;;
  crude_delay 5000000 ;;;
  icr_write LAPIC_ICR_HIGH (u32 (Z.shiftl apic_id 24)) ;;;
  icr_write LAPIC_ICR_LOW (Z.lor 0x4600 vector) ;;;
  crude_delay 5000000.

(** [ap_entry64] up to the announcement, on the CPU with devices [dev]. *)
Definition ap_entry64_init (dev : apic_dev) : M machine unit :=
  let c := Z.to_nat (get_cpu_index dev) in
  on_cr c fpu_init ;;;
  on_mem (idt_load_current_cpu idt_ptr) ;;;
  on_mem (gdt_setup_cpu_tss gdt tss kstack0 (get_cpu_index dev)) ;;;
  kprint ("[smp] AP TSS configured" +:+ nl) ;;;
  kprint ("[smp] ap_entry64 reached" +:+ nl) ;;;
  on_apic (lapic_enable frame_pool dev) ;;;
  kprint ("[smp] lapic_enable done" +:+ nl) ;;;
  let id := lapic_get_id dev in
  kprint ("[smp] got id" +:+ nl) ;;;
  kprint_hex64 id ;;;
  kprint nl ;;;
  on_apic (apic_timer_init dev 32 100) ;;;
  kprint ("[smp] apic_timer_init done" +:+ nl) ;;;
  i <- gets g_ap_index_starting ;;
  if 0 <=? i then modify (fun s => set_ready (<[Z.to_nat i:=1]> (ap_ready s)) s) else ret tt.

(** One turn of the idle loop. *)
Definition idle_turn (c : nat) : M machine unit :=
  on_sched (sched64_reschedule c) ;;; instr "hlt" 0.

Fixpoint idle_turns (n : nat) (c : nat) : M machine unit :=
  match n with O => ret tt | S n' => idle_turn c ;;; idle_turns n' c end.

(** The rest of [ap_entry64], for [n] turns of its idle loop. *)
Definition ap_entry64_idle (dev : apic_dev) (n : nat) : M machine unit :=
  let c := Z.to_nat (get_cpu_index dev) in
  kprint ("[smp] ap_ready set" +:+ nl) ;;;
  on_sched (in_lock (sti c)) ;;;
  idle_turns n c.

(** ap_trampoline.s: the registers come from the mailbox; [mov eax] cuts the page
    table root and the address of the GDT pointer to 32 bits. *)
Definition ap_start (apic_id : Z) : M machine unit :=
  m <- gets m_mem ;;
  let dev := cpu_dev apic_id in
  instr "mov cr3" (load32 m mbox) ;;;
  instr "lgdt" (load32 m (mbox + 8)) ;;;
  on_sched (modify (set_cpu_rsp (Z.to_nat (get_cpu_index dev)) (load64 m (mbox + 16)))) ;;;
  if load64 m (mbox + 24) =? ap_entry64_addr then ap_entry64_init dev else hang.

(** [while (!ap_ready[started] && timeout-- > 0);] *)
Definition wait_ready (apic_id : Z) : M machine unit :=
  if alive apic_id then ap_start apic_id else ret tt.

(** One round of the loop of [smp_start_aps] for a CPU other than the boot CPU. *)
Definition start_ap (kernel_cr3 gdt_ptr_addr apic_id : Z) (started : Z) : M machine Z :=
  let blob_size := Z.of_nat (length trampoline) in
  f <- gets m_map ;;
  (if memmap_region_is_safe TRAMPOLINE_ADDR blob_size f =? 0 then
     kprint ("[smp] WARNING: trampoline address 0x8000 not confirmed safe by memory map!" +:+ nl)
   else ret tt) ;;;
  on_mem (modify (copy_bytes trampoline TRAMPOLINE_ADDR)) ;;;
  ap_stack <- on_heap (kmalloc (LO := nkern_lock_ops (Z.to_nat (get_cpu_index bsp)) resched) AP_STACK_SIZE) ;;
  on_mem (modify (fun m => store64 m mbox kernel_cr3)) ;;;
  on_mem (modify (fun m => store64 m (mbox + 8) gdt_ptr_addr)) ;;;
  let stack_top := Z.land (u64 (ap_stack + AP_STACK_SIZE)) (u64 (Z.lnot 0xF)) in
  on_mem (modify (fun m => store64 m (mbox + 16) stack_top)) ;;;
  on_mem (modify (fun m => store64 m (mbox + 24) ap_entry64_addr)) ;;;
  m <- gets m_mem ;;
  kprint "[smp diag] mbox[0] kernel_cr3   = " ;;; kprint_hex64 (load64 m mbox) ;;; kprint nl ;;;
  kprint "[smp diag] mbox[1] gdt_ptr_addr = " ;;; kprint_hex64 (load64 m (mbox + 8)) ;;; kprint nl ;;;
  kprint "[smp diag] mbox[2] stack_top    = " ;;; kprint_hex64 (load64 m (mbox + 16)) ;;; kprint nl ;;;
  kprint "[smp diag] mbox[3] ap_entry64   = " ;;; kprint_hex64 (load64 m (mbox + 24)) ;;; kprint nl ;;;
  kprint "[smp diag] ap_stack (raw kmalloc) = " ;;; kprint_hex64 ap_stack ;;; kprint nl ;;;
  modify (fun s => set_ready (<[Z.to_nat started:=0]> (ap_ready s)) s) ;;;
  modify (set_starting started) ;;;
  kprint "[smp] starting AP, APIC ID=" ;;;
  kprint_hex64 apic_id ;;;
  kprint ("..." +:+ nl) ;;;
  send_init_sipi_sipi apic_id ;;;
  wait_ready apic_id ;;;
  r <- gets (fun s => nth (Z.to_nat started) (ap_ready s) 0) ;;
  if r =? 0 then
    kprint ("[smp] WARNING: AP did not respond within timeout." +:+ nl) ;;; ret started
  else
    kprint ("[smp] AP confirmed alive." +:+ nl) ;;; ret (started + 1).

(** [for (int i = 0; i < cpu_count && started < MAX_AP_CPUS; i++)] *)
Fixpoint start_aps (kernel_cr3 gdt_ptr_addr bsp_id : Z) (ids : list Z) (started : Z) : M machine Z :=
  match ids with
  | [] => ret started
  | id :: ids' =>
      if negb (started <? MAX_AP_CPUS) then ret started
      else if id =? bsp_id then start_aps kernel_cr3 gdt_ptr_addr bsp_id ids' started
      else started' <- start_ap kernel_cr3 gdt_ptr_addr id started ;;
           start_aps kernel_cr3 gdt_ptr_addr bsp_id ids' started'
  end.

Definition smp_start_aps : M machine Z :=
  apic_ids <- on_acpi (acpi_find_cpus MAX_AP_CPUS) ;;
  if Z.of_nat (length apic_ids) <=? 1 then
    kprint ("[smp] single-CPU system (or ACPI unavailable) — skipping AP bringup" +:+ nl) ;;; ret 0
  else
  let bsp_id := lapic_get_id bsp in
  p <- gets m_paging ;;
  start_aps (paging_get_kernel_cr3 p) (gdt_get_ptr_address gdt_ptr) bsp_id apic_ids 0.
End Smp.
