(* ===== verification/SmpTheorems.v ===== *)
(** * Theorems on the start of the application processors *)

From S2P Require Import Terminal64.
From S2P Require Import Prelude Memory Machine Runs KernLock NKern FrameSource.
From S2P Require Import Heap HeapSpec HeapMem HeapProof HeapClient HeapTheorems.
From S2P Require Import Memmap MemmapTheorems Paging PagingSpec PagingProof PagingSpaces PagingUser PagingTheorems.
From S2P Require Import AddressSpaces Sched64 Keyboard Fpu Gdt64 Gdt64Theorems Acpi AcpiTheorems.
From S2P Require Import Apic ApicTheorems Idt IdtTheorems Kernel64 Smp.

(** ** The inter-processor interrupts *)

(** A write to the interrupt command register of the boot CPU. *)
Definition is_icr (e : event) : bool :=
  match e with
  | EMmio32 a _ => (a =? 0xFEE00300) || (a =? 0xFEE00310)
  | _ => false
  end.

(** What the command register means (Intel SDM, volume 3, 10.6.1): the destination in
    bits 24 to 31 of the high word; INIT is delivery mode 5, STARTUP is mode 6 with the
    page of the entry point as vector. *)
Inductive ipi := INIT (dest : Z) | STARTUP (dest page : Z) | OTHER.

Definition ipi_of (hi lo : Z) : ipi :=
  if (lo / 2 ^ 8) mod 8 =? 5 then INIT (hi / 2 ^ 24)
  else if (lo / 2 ^ 8) mod 8 =? 6 then STARTUP (hi / 2 ^ 24) (lo mod 256)
  else OTHER.

(** Writing the low word sends the interrupt. *)
Fixpoint ipis (hi : Z) (t : list event) : list ipi :=
  match t with
  | [] => []
  | EMmio32 a v :: t' =>
      if a =? 0xFEE00310 then ipis v t'
      else if a =? 0xFEE00300 then ipi_of hi v :: ipis hi t'
      else ipis hi t'
  | _ :: t' => ipis hi t'
  end.

Definition start_sequence (id : Z) : list ipi := [INIT id; STARTUP id 8; STARTUP id 8].

(** Events without a command leave the sequence alone. *)
Lemma ipis_none hi t t' : Forall (fun e => is_icr e = false) t -> ipis hi (t ++ t') = ipis hi t'.
Proof.
  induction 1 as [|e t He _ IH]; [done|]. cbn [app ipis]. destruct e; try done. cbn [is_icr] in He.
  apply orb_false_iff in He as [-> ->]. done.
Qed.

Definition icr_writes (id : Z) : list event :=
  let hi := EMmio32 0xFEE00310 (id * 2 ^ 24) in
  [hi; EMmio32 0xFEE00300 0x4500; hi; EMmio32 0xFEE00300 0x4608; hi; EMmio32 0xFEE00300 0x4608].

Lemma send_run id (s : machine) :
  0 <= id < 256 -> send_init_sipi_sipi id s = Done tt s (icr_writes id).
Proof.
  intros Hid. unfold send_init_sipi_sipi, icr_write, crude_delay.
  rewrite shiftl_arith, u32_small by lia. reflexivity.
Qed.

Lemma icr_writes_ipis id hi t :
  0 <= id < 256 -> exists hi', ipis hi (icr_writes id ++ t) = start_sequence id ++ ipis hi' t.
Proof.
  intros Hid. exists (id * 2 ^ 24). unfold icr_writes, start_sequence. cbn [app ipis Z.eqb Pos.eqb].
  unfold ipi_of. change ((0x4500 / 2 ^ 8) mod 8 =? 5) with true.
  change ((0x4608 / 2 ^ 8) mod 8 =? 5) with false. change ((0x4608 / 2 ^ 8) mod 8 =? 6) with true.
  change (0x4608 mod 256) with 8. cbv iota. by rewrite Z.div_mul by lia.
Qed.

Section Smp.
Context (frame_pool gdt gdt_ptr tss kstack0 idt_ptr ap_entry64_addr : Z) (trampoline : list Z).
Context (cpu_dev : Z -> apic_dev) (alive : Z -> bool) (bsp : apic_dev) (resched : M nkern unit).
Context (heap_arena : Z) (pds : list (Z * Z)).
(** Bytes no part of the bring-up may write, with their values; the threads and queues;
    the pages of the kernel's map. *)
Context (kept : Z -> Prop) (m_ref : mem) (s_ref : sched (paging memmap)) (kref : Z -> Z).

(** The scheduler's data but for the stack pointers of the CPUs. *)
Definition sched_core (s : sched (paging memmap)) :=
  (ready_bitmap s, ready_queue s, current s, threads64 s, thread64_count s, loaded_cr3 s, dummy_rsp s).

(** ** Where things are *)

(** The objects of the kernel image lie apart from each other and above the first 64
    KB, where the trampoline goes; [tables] are the kernel's page tables. *)
Record smp_layout (tables : list Z) : Prop := {
  sl_gdt : gdt_layout gdt gdt_ptr tss kstack0;
  sl_ptr : gdt_ptr < 2 ^ 32;
  sl_entry : 0 <= ap_entry64_addr < 2 ^ 64;
  sl_blob : (length trampoline <= 0x120)%nat;
  sl_arena : 0x10000 <= heap_arena;
  sl_gdt_arena : disjoint_range gdt 104 heap_arena HEAP_SIZE;
  sl_tss_arena : disjoint_range tss 416 heap_arena HEAP_SIZE;
  sl_tables t : t ∈ tables -> 0x10000 <= t /\ disjoint_range t 4096 heap_arena HEAP_SIZE /\
    disjoint_range t 4096 gdt 104 /\ disjoint_range t 4096 tss 416;
  sl_kept x : kept x -> 0x8120 <= x /\ ~ (heap_arena <= x < heap_arena + HEAP_SIZE) /\
    ~ (gdt + 40 <= x < gdt + 104) /\ ~ (tss <= x < tss + 416) /\
    forall t, t ∈ tables -> ~ (t <= x < t + 4096)
}.

Definition kernel_tables (p : paging memmap) : list Z := kernel_pml4 p :: kernel_pdpt p :: pds.*2.

(** What starting a CPU relies on and keeps: the heap represents [bs], the kernel's
    map is well formed and covers the gigabyte of the local APIC, the bytes of [kept] and
    the threads are as before. *)
Record smp_ok (s : machine) (bs : list blk) : Prop := {
  so_layout : smp_layout (kernel_tables (m_paging s));
  so_heap : heap_inv (LO := nkern_lock_ops (Z.to_nat (get_cpu_index bsp)) resched) heap_arena (heap_of s) bs;
  so_kmap : kmap frame_pool (m_paging s) pds kref;
  so_ready : length (ap_ready s) = 8%nat;
  so_crs : length (m_crs s) = 16%nat;
  so_rsps : length (cpu_rsp (m_sched s)) = 16%nat;
  so_lapic : 0 <= k_lapic (m_kernel s) < 2 ^ 39 /\ k_lapic (m_kernel s) mod 2 ^ 21 = 0;
  so_pd : exists pd, pd_of pds (k_lapic (m_kernel s) / 2 ^ 30) = Some pd;
  so_map : kref (k_lapic (m_kernel s) / 2 ^ 21) = 0x93;
  so_kept x : kept x -> m_mem s x = m_ref x;
  so_core : sched_core (m_sched s) = sched_core s_ref
}.

(** The machine with another memory. *)
Definition set_mmem (m : mem) (s : machine) : machine :=
  let k := m_kernel s in
  set_mkernel (set_ksched (set_space (put_mem m (m_paging s)) (k_sched k)) k) s.

Lemma on_mem_modify f (s : machine) :
  on_mem (modify f) s = Done tt (set_mmem (f (m_mem s)) s) [].
Proof. reflexivity. Qed.

(** Writes that spare the heap arena and the page tables. *)
Lemma smp_ok_mem s bs m :
  smp_ok s bs ->
  (forall x, heap_arena <= x < heap_arena + HEAP_SIZE -> m x = m_mem s x) ->
  (forall t x, t ∈ kernel_tables (m_paging s) -> t <= x < t + 4096 -> m x = m_mem s x) ->
  (forall x, kept x -> m x = m_mem s x) ->
  smp_ok (set_mmem m s) bs.
Proof.
  intros [Hl [Ha Hh Hseg Hok Hsp Hco Hlk] Hk Hr Hc Hs Hla Hpd Hmap Hkept Hcore] Hm Ht Hmk. split; try done.
  - split; try done. cbn [h_mem heap_of]. change (m_mem (set_mmem m s)) with m.
    apply (seg_frame (m_mem s)); [done..|]. rewrite Hsp. intros x Hx. symmetry. by apply Hm.
  - apply (kmap_same frame_pool (m_paging s)); [done|].
    intros t Hin x Hx. symmetry. by apply (Ht t).
  - intros x Hx. change (m_mem (set_mmem m s)) with m. by rewrite Hmk, Hkept.
Qed.

(** The trampoline and its mailbox, below 64 KB. *)
Lemma smp_ok_low s bs m :
  smp_ok s bs -> (forall x, 0x8120 <= x -> m x = m_mem s x) -> smp_ok (set_mmem m s) bs.
Proof.
  intros Hs Hm. pose proof (so_layout _ _ Hs) as Hl. apply smp_ok_mem; [done|..].
  - intros x Hx. apply Hm. pose proof (sl_arena _ Hl). lia.
  - intros t x Ht Hx. apply Hm. pose proof (sl_tables _ Hl t Ht). lia.
  - intros x Hx. apply Hm. by apply (sl_kept _ Hl).
Qed.

(** ** Stacks *)

(** The heap after [k] stacks were taken from a fresh one. *)
Definition stack_blocks (k : nat) : list blk :=
  replicate k (Blk 16388 false) ++ [Blk (HEAP_SIZE - 32 - 16420 * Z.of_nat k) true].

Lemma stack_alloc k :
  (k < 8)%nat -> abs_kmalloc (align16 AP_STACK_SIZE + 4) (stack_blocks k) =
    Some (16420 * Z.of_nat k, stack_blocks (S k)).
Proof. intros Hk. do 8 (destruct k as [|k]; [by vm_compute|]). lia. Qed.

Definition stack_base (k : nat) : Z := heap_arena + 16420 * Z.of_nat k + 36.
Definition stack_top_of (k : nat) : Z :=
  Z.land (u64 (stack_base k + AP_STACK_SIZE)) (u64 (Z.lnot 0xF)).

Lemma stack_top_range k :
  arena_ok heap_arena -> (k < 8)%nat ->
  stack_top_of k mod 16 = 0 /\
  stack_base k + AP_STACK_SIZE - 16 < stack_top_of k <= stack_base k + AP_STACK_SIZE.
Proof.
  intros [Ha Hb] Hk. unfold stack_top_of, stack_base, AP_STACK_SIZE, HEAP_SIZE in *.
  rewrite (u64_small (_ + 16 * 1024)) by lia. change 0xF with (2 ^ 4 - 1).
  rewrite land_align by lia. change (2 ^ 4) with 16. dlia.
Qed.

(** [kmalloc] for the stack, on the whole machine. *)
Lemma stack_malloc_run s k :
  smp_ok s (stack_blocks k) -> (k < 8)%nat ->
  exists s' t, on_heap (kmalloc (LO := nkern_lock_ops (Z.to_nat (get_cpu_index bsp)) resched) AP_STACK_SIZE) s = Done (stack_base k) s' t /\
    smp_ok s' (stack_blocks (S k)) /\
    s' = set_heap (heap_of s') s.
Proof.
  intros Hs Hk. pose proof (so_heap _ _ Hs) as Hh.
  pose proof (kmalloc_sim (LL := nkern_lock (Z.to_nat (get_cpu_index bsp)) resched) heap_arena (heap_of s) (stack_blocks k) AP_STACK_SIZE Hh) as H.
  rewrite stack_alloc in H by done. destruct H as (h' & t & E & Hh' & _ & Hfr); [unfold AP_STACK_SIZE; lia|].
  exists (set_heap h' s), t. split.
  { unfold on_heap, zoom. rewrite E. unfold stack_base. f_equal. }
  split; [|by destruct h'].
  destruct Hs as [Hl _ Hk' Hr Hc Hsp Hla Hpd Hmap Hkept Hcore]. destruct h' as [m' hl' lk']. split; try done.
  - apply (kmap_same frame_pool (m_paging s)); [done|]. intros x Ht y Hy. symmetry.
    apply Hfr. right. pose proof (sl_tables _ Hl x Ht) as (_ & Hd & _). unfold disjoint_range, outside_arena in *. lia.
  - intros x Hx. rewrite <- Hkept by done. apply Hfr. right. pose proof (sl_kept _ Hl x Hx) as (_ & Hd & _).
    unfold outside_arena. lia.
Qed.

(** ** The started CPU *)

Abbreviation no_icr := (Forall (fun e => is_icr e = false)).

Lemma set_mmem_id s : set_mmem (m_mem s) s = s.
Proof. destruct s as [[[] ? ? ? ? ? ?] ? ? ? ? ?]. unfold set_mmem. cbn. by destruct s_space. Qed.

Lemma cpu_index_bound dev : (Z.to_nat (get_cpu_index dev) < 16)%nat.
Proof. pose proof (get_cpu_index_bounds dev). lia. Qed.

Lemma fpu_on_cr s bs c :
  smp_ok s bs -> (c < 16)%nat ->
  yields (on_cr c fpu_init) s (fun _ s' t => smp_ok s' bs /\ no_icr t /\ s' = set_crs (m_crs s') s /\
    sse_usable (nth c (m_crs s') (mkCr 0 0)) = true).
Proof.
  intros Hs Hc. apply yields_zoom.
  destruct (fpu_init_enables (nth c (m_crs s) (mkCr 0 0)) 0 ltac:(lia)) as (r & t & E & Hu & _).
  assert (t = trace (fpu_init (nth c (m_crs s) (mkCr 0 0)))) as Ht by (by rewrite E).
  eapply yields_done; [exact E|]. split_and!; [| |done|].
  - destruct Hs as [? ? ? ? Hcr ? ? ? ? ? ?]. split; try done. cbn [set_crs m_crs]. by rewrite length_insert.
  - rewrite Ht. by repeat constructor.
  - cbn [set_crs m_crs]. rewrite nth_insert_eq; [done|]. by rewrite (so_crs _ _ Hs).
Qed.

Lemma tss_on_mem s bs dev :
  smp_ok s bs ->
  yields (on_mem (gdt_setup_cpu_tss gdt tss kstack0 (get_cpu_index dev))) s (fun _ s' t =>
    smp_ok s' bs /\ no_icr t /\ s' = set_mmem (m_mem s') s /\
    (get_cpu_index dev < 4 -> EInstr "ltr" (8 * (5 + 2 * get_cpu_index dev)) ∈ t)).
Proof.
  intros Hs. pose proof (so_layout _ _ Hs) as Hl. pose proof (get_cpu_index_bounds dev) as [Hc _].
  set (c := get_cpu_index dev) in *.
  destruct (gdt_setup_cpu_tss_run gdt gdt_ptr tss kstack0 (sl_gdt _ Hl) c (m_mem s)) as [H4 Hn].
  destruct (Z.lt_ge_cases c 4) as [Hlt|Hge].
  - destruct (H4 ltac:(lia)) as (m' & E & _ & _ & _ & _ & _ & Hout & _).
    apply (yields_done _ _ tt (set_mmem m' s) [EInstr "ltr" (8 * (5 + 2 * c))]).
    { unfold on_mem, on_paging, on_sched, in_kernel, in_sched, in_space, zoom. fold (m_paging s).
      change (p_mem (s_space (k_sched (m_kernel s)))) with (m_mem s). by rewrite E. }
    assert (forall x, ~ (gdt + 40 <= x < gdt + 104) -> ~ (tss <= x < tss + 416) -> m' x = m_mem s x) as Hm.
    { intros x H1 H2. apply Hout; unfold tss_at, gdt_slot, sizeof_tss64 in *; lia. }
    split_and!; [|by repeat constructor|done|intros _; apply list_elem_of_here].
    pose proof (sl_gdt_arena _ Hl). pose proof (sl_tss_arena _ Hl). unfold disjoint_range in *.
    apply smp_ok_mem; [done|intros x Hx; apply Hm; lia|..].
    + intros t x Ht Hx. pose proof (sl_tables _ Hl t Ht) as (_ & _ & ? & ?). unfold disjoint_range in *.
      apply Hm; lia.
    + intros x Hx. pose proof (sl_kept _ Hl x Hx) as (_ & _ & ? & ? & _). apply Hm; lia.
  - destruct (Hn ltac:(lia)) as [E _]. apply (yields_done _ _ tt s []).
    { unfold on_mem, on_paging, on_sched, in_kernel, in_sched, in_space, zoom. fold (m_paging s).
      change (p_mem (s_space (k_sched (m_kernel s)))) with (m_mem s). rewrite E. f_equal. apply set_mmem_id. }
    split_and!; [done|by constructor|by rewrite set_mmem_id|lia].
Qed.

(** A register of the local APIC other than the command register. *)
Lemma lapic_not_icr b off v :
  b mod 2 ^ 21 = 0 -> off ∈ [0xF0; 0x320; 0x380; 0x3E0] -> is_icr (EMmio32 (b + off) v) = false.
Proof.
  intros Hb Ho. cbn [is_icr]. rewrite !elem_of_cons, elem_of_nil in Ho.
  destruct (Z.eqb_spec (b + off) 0xFEE00300), (Z.eqb_spec (b + off) 0xFEE00310); try done;
    (destruct Ho as [-> |[-> |[-> |[-> |[]]]]]; dlia).
Qed.

Lemma lapic_on_apic s bs dev :
  smp_ok s bs ->
  yields (on_apic (lapic_enable frame_pool dev)) s (fun _ s' t =>
    smp_ok s' bs /\ no_icr t /\ s' = set_mmem (m_mem s') s).
Proof.
  intros Hs. pose proof (so_layout _ _ Hs) as Hl. pose proof (so_kmap _ _ Hs) as Hk.
  destruct (so_lapic _ _ Hs) as [Hb Hal]. destruct (so_pd _ _ Hs) as [pd Hpd].
  set (b := k_lapic (m_kernel s)) in *.
  destruct (paging_map_mmio_present frame_pool (m_paging s) pds kref b pd Hk Hb Hal Hpd) as (p' & E & Ep & Hk').
  apply (yields_done _ _ tt (set_mmem (p_mem p') s)
    [EWrmsr 0x1B (Z.lor (msr_apic_base dev) (Z.shiftl 1 11)); EMmio32 (b + 0xF0) 0x1FF]).
  { unfold on_apic, in_kernel, in_apic, zoom, lapic_enable, bind at 1, gets at 1.
    unfold bind at 1, in_paging, zoom. cbn [lapic_base_pa apic_of]. fold b.
    change (x_paging (apic_of (m_kernel s))) with (m_paging s). rewrite E, Ep. reflexivity. }
  split_and!; [| |by destruct p'].
  - subst p'. cbn [with_mem p_mem]. set (m := set_entry _ _ _ _).
    assert (forall x, ~ (pd <= x < pd + 4096) -> m x = m_mem s x) as Hm.
    { intros x Hx. apply store_out. pose proof (vidx_bound b 21). lia. }
    assert (pd ∈ kernel_tables (m_paging s)) as Hin.
    { do 2 apply list_elem_of_further. apply pd_of_elem in Hpd. by eapply pd_in_frames. }
    pose proof (sl_tables _ Hl pd Hin) as (_ & Hd & _). unfold disjoint_range in Hd.
    destruct Hs as [_ [Ha Hh Hseg Hok Hsp Hco Hlk] _ Hr Hc Hrs Hla Hpds Hmap Hkept Hcore]. split; try done.
    + split; try done. cbn [h_mem heap_of]. apply (seg_frame (m_mem s)); [done..|]. rewrite Hsp.
      intros x Hx. symmetry. apply Hm. lia.
    + eapply kmap_ext; [|exact Hk']. intros n. unfold mmio_map. destruct (Z.eqb_spec n (b / 2 ^ 21)) as [->|]; done.
    + intros x Hx. rewrite <- Hkept by done. apply Hm. by apply (sl_kept _ Hl x Hx).
  - constructor; [done|]. constructor; [|constructor]. apply lapic_not_icr; [done|set_solver].
Qed.

Lemma timer_on_apic s bs dev :
  smp_ok s bs -> wait_out2 dev (poll_fuel dev) 1 = true ->
  yields (on_apic (apic_timer_init dev 32 100)) s (fun _ s' t => s' = s /\ no_icr t).
Proof.
  intros Hs Hw. destruct (so_lapic _ _ Hs) as [_ Hal]. set (b := k_lapic (m_kernel s)) in *.
  apply yields_zoom, yields_zoom. unfold apic_timer_init. yield_step.
  change (udiv 1000 100) with (ret (S := apic memmap) 10). yield_steps.
  pose proof (lapic_calibrate_run dev 10 (apic_of (m_kernel s))) as E. rewrite Hw in E.
  eapply yields_done; [exact E|]. cbv beta. unfold LAPIC_REG_write. yield_steps.
  cbn [lapic_base_pa apic_of]. fold b. rewrite set_apic_id. split; [by destruct s|].
  unfold calibration_writes, LAPIC_LVT_TIMER, LAPIC_TIMER_DIV, LAPIC_TIMER_INIT.
  repeat (apply Forall_app; split); repeat (constructor; try done); (apply lapic_not_icr; [done|set_solver]).
Qed.

(** [ap_entry64] up to its announcement. *)
Lemma ap_entry_run s bs dev i :
  smp_ok s bs -> wait_out2 dev (poll_fuel dev) 1 = true -> g_ap_index_starting s = i -> 0 <= i < 8 ->
  let c := Z.to_nat (get_cpu_index dev) in
  yields (ap_entry64_init frame_pool gdt tss kstack0 idt_ptr dev) s (fun _ s' t =>
    smp_ok s' bs /\ no_icr t /\ nth (Z.to_nat i) (ap_ready s') 0 = 1 /\
    cpu_rsp (m_sched s') = cpu_rsp (m_sched s) /\ kernel_pml4 (m_paging s') = kernel_pml4 (m_paging s) /\
    sse_usable (nth c (m_crs s') (mkCr 0 0)) = true /\
    EInstr "lidt" idt_ptr ∈ t /\
    (get_cpu_index dev < 4 -> EInstr "ltr" (8 * (5 + 2 * get_cpu_index dev)) ∈ t)).
Proof.
  intros Hs Hw Hi Hir c. unfold ap_entry64_init. cbv zeta. fold c.
  yield_step. eapply yields_mono; [apply (fpu_on_cr s bs c Hs), cpu_index_bound|].
  intros _ s1 t1 (Hs1 & Ht1 & E1 & Hu). yield_step.
  apply (yields_done _ _ tt s1 [EInstr "lidt" idt_ptr]).
  { unfold idt_load_current_cpu. change (on_mem (instr "lidt" idt_ptr) s1) with
      (Done tt (set_mmem (m_mem s1) s1) [EInstr "lidt" idt_ptr]). by rewrite set_mmem_id. }
  yield_step. eapply yields_mono; [by apply (tss_on_mem s1 bs dev)|].
  intros _ s2 t2 (Hs2 & Ht2 & E2 & Hltr). yield_steps.
  eapply yields_mono; [by apply (lapic_on_apic s2 bs dev)|].
  intros _ s3 t3 (Hs3 & Ht3 & E3). yield_steps.
  eapply yields_mono; [by apply (timer_on_apic s3 bs dev)|].
  intros _ s4 t4 (-> & Ht4). yield_steps.
  assert (g_ap_index_starting s3 = i) as -> by (by rewrite E3, E2, E1).
  destruct (Z.leb_spec 0 i); [|lia]. yield_steps. split_and!.
  - destruct Hs3. split; try done. cbn [set_ready ap_ready]. by rewrite length_insert.
  - repeat (apply Forall_app; split); try done; by repeat constructor.
  - cbn [set_ready ap_ready]. apply nth_insert_eq. rewrite (so_ready _ _ Hs3). lia.
  - cbn [set_ready]. by rewrite E3, E2, E1.
  - by rewrite E3, E2, E1.
  - cbn [set_ready m_crs]. rewrite E3, E2. done.
  - rewrite !elem_of_app, !list_elem_of_singleton. tauto.
  - intros H4. rewrite !elem_of_app. tauto.
Qed.

(** What the started CPU finds in its mailbox, and where it runs. *)
Lemma ap_start_run s bs id i cr3 top :
  smp_ok s bs -> wait_out2 (cpu_dev id) (poll_fuel (cpu_dev id)) 1 = true ->
  g_ap_index_starting s = i -> 0 <= i < 8 -> 0 <= cr3 < 2 ^ 32 ->
  load32 (m_mem s) mbox = cr3 -> load32 (m_mem s) (mbox + 8) = gdt_ptr ->
  load64 (m_mem s) (mbox + 16) = top -> load64 (m_mem s) (mbox + 24) = ap_entry64_addr ->
  let c := Z.to_nat (get_cpu_index (cpu_dev id)) in
  yields (ap_start frame_pool gdt tss kstack0 idt_ptr ap_entry64_addr cpu_dev id) s (fun _ s' t =>
    smp_ok s' bs /\ no_icr t /\ nth (Z.to_nat i) (ap_ready s') 0 = 1 /\
    kernel_pml4 (m_paging s') = kernel_pml4 (m_paging s) /\
    nth c (cpu_rsp (m_sched s')) 0 = top /\ sse_usable (nth c (m_crs s') (mkCr 0 0)) = true /\
    EInstr "mov cr3" cr3 ∈ t /\ EInstr "lgdt" gdt_ptr ∈ t /\ EInstr "lidt" idt_ptr ∈ t /\
    (Z.of_nat c < 4 -> EInstr "ltr" (8 * (5 + 2 * Z.of_nat c)) ∈ t)).
Proof.
  intros Hs Hw Hi Hir Hcr E0 E1 E2 E3 c. unfold ap_start. yield_steps. fold c. rewrite E0, E1, E2, E3, Z.eqb_refl.
  set (s1 := set_mkernel (set_ksched (set_cpu_rsp c top (k_sched (m_kernel s))) (m_kernel s)) s).
  apply (yields_done _ _ tt s1 []); [done|].
  assert (smp_ok s1 bs) as Hs1.
  { destruct Hs. split; try done. cbn. by rewrite length_insert. }
  eapply yields_mono; [by apply (ap_entry_run s1 bs (cpu_dev id) i)|].
  intros _ s' t (Hs' & Ht & Hr & Er & Ep & Hu & Hl & Hltr). split_and!; try done.
  - by repeat constructor.
  - rewrite Er. cbn [s1 m_sched set_mkernel set_ksched m_kernel k_sched set_cpu_rsp cpu_rsp].
    apply nth_insert_eq. change (c < length (cpu_rsp (m_sched s)))%nat.
    rewrite (so_rsps _ _ Hs). apply cpu_index_bound.
  - apply list_elem_of_here.
  - apply list_elem_of_further, list_elem_of_here.
  - do 2 apply list_elem_of_further. exact Hl.
  - replace (Z.of_nat c) with (get_cpu_index (cpu_dev id)).
    + intros H4. do 2 apply list_elem_of_further. by apply Hltr.
    + unfold c. pose proof (get_cpu_index_bounds (cpu_dev id)). lia.
Qed.

(** ** One round of the loop *)

(** The mailbox after the four stores. *)
Definition mbox_mem (cr3 top : Z) (m : mem) : mem :=
  store64 (store64 (store64 (store64 m mbox cr3) (mbox + 8) gdt_ptr) (mbox + 16) top) (mbox + 24)
    ap_entry64_addr.

Lemma mbox_mem_read cr3 top m :
  0 <= cr3 < 2 ^ 32 -> 0 <= gdt_ptr < 2 ^ 32 -> 0 <= top < 2 ^ 64 -> 0 <= ap_entry64_addr < 2 ^ 64 ->
  let m' := mbox_mem cr3 top m in
  load32 m' mbox = cr3 /\ load32 m' (mbox + 8) = gdt_ptr /\ load64 m' (mbox + 16) = top /\
  load64 m' (mbox + 24) = ap_entry64_addr.
Proof.
  intros H0 H1 H2 H3 m'. unfold m', mbox_mem.
  assert (forall m a v, 0 <= v < 2 ^ 32 -> load32 (store64 m a v) a = v) as Hlow.
  { intros m0 a v Hv. rewrite <- (Z.add_0_r a) at 2. rewrite load_store_part by lia.
    rewrite Z.pow_0_r, Z.div_1_r. apply Z.mod_small. exact Hv. }
  split_and!; repeat (rewrite load_store_ne by (unfold disjoint_range; lia));
    try (by apply Hlow); by apply load64_store_eq.
Qed.

Lemma mbox_mem_out cr3 top m x : 0x8120 <= x -> mbox_mem cr3 top m x = m x.
Proof. intros Hx. unfold mbox_mem. rewrite !store_out by (unfold mbox, TRAMPOLINE_ADDR, MBOX_OFFSET; lia). done. Qed.

(** Neither the heap nor the kernel lock sends interrupts. *)
Hypothesis resched_quiet : only (fun e => is_icr e = false) resched.

Lemma kmalloc_quiet n : only (fun e => is_icr e = false) (kmalloc (LO := nkern_lock_ops (Z.to_nat (get_cpu_index bsp)) resched) n).
Proof.
  unfold kmalloc, locked, find_free_block, split_block, upd_mem. cbn [NKern_Lock NKern_Unlock nkern_lock_ops].
  unfold NKern_Lock_cpu, NKern_Unlock_cpu, Lock_enter, spin_acquire, spin_release, test_and_set, inc_count,
    dec_count, cli, sti. cbv zeta.
  only_steps; try done; by repeat constructor.
Qed.

(** The registers of a started CPU. *)
Record cpu_started (s : machine) (t : list event) (id cr3 top : Z) : Prop := {
  cs_rsp : nth (Z.to_nat (get_cpu_index (cpu_dev id))) (cpu_rsp (m_sched s)) 0 = top;
  cs_sse : sse_usable (nth (Z.to_nat (get_cpu_index (cpu_dev id))) (m_crs s) (mkCr 0 0)) = true;
  cs_cr3 : EInstr "mov cr3" cr3 ∈ t;
  cs_gdt : EInstr "lgdt" gdt_ptr ∈ t;
  cs_idt : EInstr "lidt" idt_ptr ∈ t;
  cs_tr : let c := get_cpu_index (cpu_dev id) in c < 4 -> EInstr "ltr" (8 * (5 + 2 * c)) ∈ t
}.

Lemma cpu_started_more s t t' id cr3 top :
  cpu_started s t id cr3 top -> (forall e, e ∈ t -> e ∈ t') -> cpu_started s t' id cr3 top.
Proof. intros [] Hi. split; auto. Qed.

(** A trace with the commands that start [id] and no others. *)
Definition sends (id : Z) (t : list event) : Prop :=
  exists t1 t2, t = t1 ++ icr_writes id ++ t2 /\ no_icr t1 /\ no_icr t2.

Lemma sends_after id t t' : no_icr t -> sends id t' -> sends id (t ++ t').
Proof.
  intros Ht (t1 & t2 & -> & H1 & H2). exists (t ++ t1), t2. rewrite app_assoc.
  split_and!; [done|by apply Forall_app|done].
Qed.

Lemma sends_here id t : no_icr t -> sends id (icr_writes id ++ t).
Proof. intros Ht. by exists [], t. Qed.

Lemma sends_ipis_app id t t' hi :
  0 <= id < 256 -> sends id t -> exists hi', ipis hi (t ++ t') = start_sequence id ++ ipis hi' t'.
Proof.
  intros Hid (t1 & t2 & -> & H1 & H2). rewrite <- !app_assoc, ipis_none by done.
  destruct (icr_writes_ipis id hi (t2 ++ t') Hid) as [hi' ->]. exists hi'. by rewrite ipis_none.
Qed.

Lemma sends_ipis id t hi : 0 <= id < 256 -> sends id t -> ipis hi t = start_sequence id.
Proof.
  intros Hid Hs. destruct (sends_ipis_app id t [] hi Hid Hs) as [hi' E]. by rewrite app_nil_r in E.
Qed.

(** Skip the events before the commands. *)
Ltac quiet := repeat (apply Forall_app; split); first [assumption | by repeat constructor].
Ltac sends_tac :=
  repeat match goal with
  | |- sends ?id (icr_writes ?id ++ _) => apply sends_here
  | |- sends _ (_ ++ _) => apply sends_after
  end; quiet.

(** The boot CPU's poll: a CPU that is alive has run and answered. *)
Lemma wait_ready_run s bs id i top :
  smp_ok s bs -> (alive id = true -> wait_out2 (cpu_dev id) (poll_fuel (cpu_dev id)) 1 = true) ->
  g_ap_index_starting s = i -> 0 <= i < 8 -> nth (Z.to_nat i) (ap_ready s) 0 = 0 ->
  let cr3 := kernel_pml4 (m_paging s) in
  load32 (m_mem s) mbox = cr3 -> load32 (m_mem s) (mbox + 8) = gdt_ptr ->
  load64 (m_mem s) (mbox + 16) = top -> load64 (m_mem s) (mbox + 24) = ap_entry64_addr ->
  yields (wait_ready frame_pool gdt tss kstack0 idt_ptr ap_entry64_addr cpu_dev alive id) s (fun _ s' t =>
    smp_ok s' bs /\ no_icr t /\ kernel_pml4 (m_paging s') = cr3 /\
    nth (Z.to_nat i) (ap_ready s') 0 = (if alive id then 1 else 0) /\
    (alive id = true -> cpu_started s' t id cr3 top)).
Proof.
  intros Hs Hw Hi Hir Hr cr3 E0 E1 E2 E3. unfold wait_ready. destruct (alive id); [|by yield_steps].
  eapply yields_mono.
  - eapply (ap_start_run s bs id i cr3 top); try done; [by apply Hw|].
    destruct (kmap_roots _ _ _ _ (so_kmap _ _ Hs)) as ([_ ?] & _).
    unfold cr3. lia.
  - intros _ s' t (Hs' & Ht & Hr' & Ep & Ersp & Hu & H1 & H2 & H3 & H4). split_and!; try done. intros _.
    pose proof (get_cpu_index_bounds (cpu_dev id)) as [Hb _]. split; try done. cbv zeta.
    rewrite Z2Nat.id in H4 by lia. exact H4.
Qed.

Lemma start_ap_run s k id started :
  smp_ok s (stack_blocks k) -> (k < 8)%nat -> 0 <= started < 8 -> 0 <= id < 256 ->
  (alive id = true -> wait_out2 (cpu_dev id) (poll_fuel (cpu_dev id)) 1 = true) ->
  let cr3 := kernel_pml4 (m_paging s) in
  yields (start_ap frame_pool gdt tss kstack0 idt_ptr ap_entry64_addr trampoline cpu_dev alive bsp resched
            cr3 gdt_ptr id started) s (fun n s' t =>
    n = (if alive id then started + 1 else started) /\ smp_ok s' (stack_blocks (S k)) /\
    kernel_pml4 (m_paging s') = cr3 /\ sends id t /\
    (alive id = true -> cpu_started s' t id cr3 (stack_top_of k))).
Proof.
  intros Hs Hk Hst Hid Hal cr3. pose proof (so_layout _ _ Hs) as Hl. unfold start_ap. cbv zeta. yield_steps.
  match goal with |- yields ?m _ _ => assert (exists t0, m s = Done tt s t0 /\ no_icr t0) as (t0 & E0 & Ht0) end.
  { destruct (_ =? 0); eexists; (split; [reflexivity|]); by repeat constructor. }
  eapply yields_done; [exact E0|]. cbv beta. yield_step.
  eapply yields_done; [apply on_mem_modify|]. cbv beta.
  set (s1 := set_mmem _ s).
  assert (smp_ok s1 (stack_blocks k)) as Hs1.
  { apply smp_ok_low; [done|]. intros x Hx. apply copy_bytes_out. pose proof (sl_blob _ Hl).
    unfold TRAMPOLINE_ADDR. lia. }
  yield_step. destruct (stack_malloc_run s1 k Hs1 Hk) as (s2 & t2 & E2 & Hs2 & Es2).
  eapply yields_done; [exact E2|]. cbv beta.
  assert (no_icr t2) as Ht2.
  { pose proof (only_zoom _ heap_of set_heap _ (kmalloc_quiet AP_STACK_SIZE) s1) as H.
    unfold on_heap in E2. by rewrite E2 in H. }

  do 4 (yield_step; eapply yields_done; [apply on_mem_modify|]; cbv beta).
  set (top := Z.land _ _). pose proof (stack_top_range k (inv_arena _ _ _ (so_heap _ _ Hs)) Hk) as [_ Htop].
  change (stack_top_of k) with top in *.
  set (s3 := set_mmem (mbox_mem cr3 top (m_mem s2)) s2).
  match goal with |- yields _ ?s' _ => change s' with s3 end.
  assert (smp_ok s3 (stack_blocks (S k))) as Hs3 by (apply smp_ok_low; [done|]; intros; by apply mbox_mem_out).
  set (s4 := set_starting started (set_ready (<[Z.to_nat started:=0]> (ap_ready s3)) s3)).
  assert (smp_ok s4 (stack_blocks (S k))) as Hs4.
  { destruct Hs3. split; try done. cbn [s4 set_starting set_ready ap_ready]. by rewrite length_insert. }
  assert (kernel_pml4 (m_paging s4) = cr3) as Ep4.
  { change (kernel_pml4 (m_paging s2) = cr3). by rewrite Es2. }
  yield_steps. eapply yields_done; [by apply send_run|]. cbv beta. fold s4. yield_steps.
  destruct (kmap_roots _ _ _ _ (so_kmap _ _ Hs)) as ([_ Hcr] & _). fold cr3 in Hcr.
  destruct (mbox_mem_read cr3 top (m_mem s2)) as (M0 & M1 & M2 & M3).
  { lia. } { pose proof (sl_ptr _ Hl). destruct (sl_gdt _ Hl). lia. }
  { pose proof (inv_arena _ _ _ (so_heap _ _ Hs)) as [? ?]. unfold stack_base, AP_STACK_SIZE, HEAP_SIZE in *. lia. }
  { apply (sl_entry _ Hl). }
  eapply yields_mono.
  { apply (wait_ready_run s4 _ id started top Hs4 Hal eq_refl Hst); rewrite ?Ep4; try done.
    cbn [s4 set_starting set_ready ap_ready]. apply nth_insert_eq. rewrite (so_ready _ _ Hs3). lia. }
  intros _ s5 t5 (Hs5 & Ht5 & Ep5 & Hr5 & Hst5). rewrite Ep4 in *. yield_step. yield_step.
  rewrite Hr5. destruct (alive id); cbn [Z.eqb]; yield_steps; split_and!; try done.
  - sends_tac.
  - intros _. apply (cpu_started_more s5 t5); [by apply Hst5|]. intros e He. rewrite !elem_of_app. tauto.
  - sends_tac.
Qed.


(** ** The whole bring-up *)

Lemma start_aps_run bsp_id ids : forall s k started cr3,
  smp_ok s (stack_blocks k) -> kernel_pml4 (m_paging s) = cr3 ->
  let others := List.filter (fun id => negb (id =? bsp_id)) ids in
  (k + length others <= 8)%nat -> 0 <= started <= Z.of_nat k ->
  Forall (fun id => 0 <= id < 256 /\
    (alive id = true -> wait_out2 (cpu_dev id) (poll_fuel (cpu_dev id)) 1 = true)) ids ->
  yields (start_aps frame_pool gdt tss kstack0 idt_ptr ap_entry64_addr trampoline cpu_dev alive bsp resched
            cr3 gdt_ptr bsp_id ids started) s (fun n s' t =>
    n = started + Z.of_nat (length (List.filter alive others)) /\
    smp_ok s' (stack_blocks (k + length others)) /\
    forall hi, ipis hi t = concat (start_sequence <$> others)).
Proof.
  induction ids as [|id ids IH]; intros s k started cr3 Hs Ep others Hn Hst Hall.
  { cbn [start_aps]. yield_steps. cbn. rewrite Nat.add_0_r. split_and!; [lia|done|done]. }
  apply Forall_cons_iff in Hall as [[Hid Hal] Hall]. cbn [start_aps]. unfold MAX_AP_CPUS.
  subst others. cbn [List.filter] in *. destruct (Z.ltb_spec started 8) as [Hlt|Hge]; cbn [negb].
  - destruct (Z.eqb_spec id bsp_id) as [->|Hne]; cbn [negb] in *; [by apply IH|]. cbn [length] in Hn.
    yield_step. rewrite <- Ep. eapply yields_mono; [apply (start_ap_run s k id started Hs ltac:(lia) ltac:(lia) Hid Hal)|].
    intros n s1 t1 (-> & Hs1 & Ep1 & Hsend & _).
    eapply yields_mono; [apply (IH s1 (S k)); try done; [lia|destruct (alive id); lia]|].
    intros n s2 t2 (-> & Hs2 & Ht2). cbn [List.filter length]. rewrite fmap_cons. split_and!.
    + destruct (alive id); cbn [length]; lia.
    + rewrite Nat.add_succ_r. exact Hs2.
    + intros hi. destruct (sends_ipis_app id t1 t2 hi Hid Hsend) as [hi' ->]. by rewrite Ht2.
  - yield_steps.
    assert (List.filter (fun id => negb (id =? bsp_id)) ids = []) as E.
    { apply length_zero_iff_nil. destruct (negb (id =? bsp_id)); cbn [length] in Hn; lia. }
    destruct (negb (id =? bsp_id)); [cbn [length] in Hn; lia|]. rewrite E in *. cbn. rewrite Nat.add_0_r.
    split_and!; [lia|done|done].
Qed.

Lemma find_cpus_on_acpi s madt es :
  madt_entries_of (mkAcpi (m_mem s) (k_rsdp (m_kernel s))) madt es ->
  yields (on_acpi (acpi_find_cpus MAX_AP_CPUS)) s (fun ids s' t =>
    ids = take 8 (omap (enabled_cpu (m_mem s)) es) /\ s' = s /\ no_icr t).
Proof.
  intros Hm. destruct (acpi_find_cpus_run _ madt es MAX_AP_CPUS Hm) as [t E]; [done|].
  apply yields_zoom, yields_zoom, yields_zoom. eapply yields_done; [exact E|]. split_and!.
  - done.
  - destruct s as [[[] ? ? ? ? ? ?] ? ? ? ? ?]. unfold set_acpi, set_apic. cbn. by destruct s_space.
  - assert (only (fun e => is_icr e = false) (acpi_find_cpus MAX_AP_CPUS)) as Ho.
    { unfold acpi_find_cpus. only_steps; done. }
    specialize (Ho (mkAcpi (m_mem s) (k_rsdp (m_kernel s)))). by rewrite E in Ho.
Qed.

Lemma smp_start_aps_several s madt es :
  smp_ok s initial_blocks ->
  madt_entries_of (mkAcpi (m_mem s) (k_rsdp (m_kernel s))) madt es ->
  let ids := take 8 (omap (enabled_cpu (m_mem s)) es) in
  (1 < length ids)%nat ->
  Forall (fun id => alive id = true -> wait_out2 (cpu_dev id) (poll_fuel (cpu_dev id)) 1 = true) ids ->
  let others := List.filter (fun id => negb (id =? lapic_get_id bsp)) ids in
  yields (smp_start_aps frame_pool gdt gdt_ptr tss kstack0 idt_ptr ap_entry64_addr trampoline cpu_dev alive
            bsp resched) s (fun n s' t =>
    n = Z.of_nat (length (List.filter alive others)) /\
    smp_ok s' (stack_blocks (length others)) /\
    forall hi, ipis hi t = concat (start_sequence <$> others)).
Proof.
  intros Hs Hm ids Hlen Hal others. unfold smp_start_aps. yield_step.
  eapply yields_mono; [by apply (find_cpus_on_acpi s madt es)|]. intros ? s1 t1 (-> & -> & Ht1). fold ids.
  destruct (Z.leb_spec (Z.of_nat (length ids)) 1); [lia|]. yield_steps.
  assert (length ids <= 8)%nat as Hl8 by (unfold ids; rewrite length_take; lia).
  pose proof (List.filter_length_le (fun id => negb (id =? lapic_get_id bsp)) ids) as Hf.
  eapply yields_mono.
  - apply (start_aps_run (lapic_get_id bsp) ids s 0 0); [exact Hs|done|lia|lia|].
    rewrite Forall_forall in Hal |- *. intros id Hid. split; [|by apply Hal].
    apply elem_of_take in Hid as (i & Hid%list_elem_of_lookup_2 & _). apply list_elem_of_omap in Hid as (p & _ & Hp).
    unfold enabled_cpu in Hp. destruct (_ && _); [|done]. injection Hp as <-. apply load8_bound.
  - intros n s' t (-> & Hs' & Ht). split_and!; [done|done|]. intros hi. rewrite ipis_none by done. apply Ht.
Qed.

(** With at most one processor nothing is started. *)
Lemma smp_start_aps_runs s madt es :
  smp_ok s initial_blocks ->
  madt_entries_of (mkAcpi (m_mem s) (k_rsdp (m_kernel s))) madt es ->
  let ids := take 8 (omap (enabled_cpu (m_mem s)) es) in
  Forall (fun id => alive id = true -> wait_out2 (cpu_dev id) (poll_fuel (cpu_dev id)) 1 = true) ids ->
  runs (smp_start_aps frame_pool gdt gdt_ptr tss kstack0 idt_ptr ap_entry64_addr trampoline cpu_dev alive
          bsp resched) s (fun _ s' => exists k, (k <= 8)%nat /\ smp_ok s' (stack_blocks k)).
Proof.
  intros Hs Hm ids Hal. destruct (Nat.lt_ge_cases 1 (length ids)) as [Hlt|Hge].
  - destruct (smp_start_aps_several s madt es Hs Hm Hlt Hal) as (n & s' & t & E & _ & Hs' & _).
    eapply runs_done; [exact E|]. eexists. split; [|exact Hs'].
    pose proof (List.filter_length_le (fun id => negb (id =? lapic_get_id bsp)) ids).
    unfold ids in *. rewrite length_take in *. lia.
  - unfold smp_start_aps. destruct (find_cpus_on_acpi s madt es Hm) as (a & s' & t & E & -> & -> & _).
    run_step. eapply runs_done; [exact E|]. cbv beta. fold ids.
    destruct (Z.leb_spec (Z.of_nat (length ids)) 1); [|lia]. run_steps. exists 0%nat. split; [lia|exact Hs].
Qed.

End Smp.

(** ** A machine with three processors

    The boot CPU with identifier 0 and two others, of which only number 2 answers. *)

Definition smp_mem : mem := mem_of
  [(0x1010, 4%nat, 0x2000);
   (0x2004, 4%nat, 40); (0x2024, 4%nat, 0x3000);
   (0x3000, 4%nat, 0x43495041); (0x3004, 4%nat, 80);
   (0x3024, 4%nat, 0xFEE00000);
   (0x302C, 8%nat, 0x0000000100000800);
   (0x3034, 8%nat, 0x0000000101010800);
   (0x303C, 8%nat, 0x0000000102020800);
   (0x3044, 2%nat, 0x0C01); (0x3048, 4%nat, 0xFEC00000)].

Definition smp_paging1 : paging memmap :=
  final (paging_init_kernel_map demo_pool (mkPaging smp_mem 0 0 0 memmap_boot)).
Definition smp_paging2 : paging memmap := final (paging_map_mmio_2mb demo_pool 0xFEE00000 smp_paging1).

Definition term_boot : term := mkTerm (fun _ => 0) 0 0 0 0 false.
Definition smp_machine0 : machine :=
  mkMachine (mkKernel (sched_boot smp_paging2) kbd_boot 0xFEE00000 0xFEC00000 0x1000 0 false)
    0 (replicate 16 (mkCr 0x80000011 0x20)) term_boot (replicate 8 0) (-1).
Definition smp_machine : machine := final (on_heap (heap_init demo_arena) smp_machine0).

Definition smp_dev (id : Z) : apic_dev :=
  mkDev 0x200 (id * 2 ^ 24) 0xFEE00900 (fun _ => 0x20) 0xFFF00000 4.
Definition smp_alive (id : Z) : bool := id =? 2.

(** The kernel's tables of the example, in the boot pool. *)
Lemma smp_paging2_kmap : exists pds,
  kmap demo_pool smp_paging2 pds (mmio_map identity_1gb 0xFEE00000) /\ is_Some (pd_of pds 3) /\
  Forall (fun t => demo_pool <= t /\ t + 4096 <= demo_pool + 4096 * POOL_FRAMES) (kernel_tables pds smp_paging2).
Proof.
  assert (at_boot demo_pool (mkPaging smp_mem 0 0 0 memmap_boot)) as Hb.
  { unfold at_boot, pool_ok, demo_pool, POOL_FRAMES. simpl. split_and!; done || lia. }
  destruct (paging_init_at_boot demo_pool _ Hb) as (p1 & E1 & Hk1 & V1).
  assert (smp_paging1 = p1) as Ep1 by (unfold smp_paging1; by rewrite E1).
  destruct (paging_map_mmio_run demo_pool p1 _ _ 0xFEE00000 Hk1 ltac:(lia) eq_refl)
    as (p2 & pds & E2 & Hk2 & _ & Hpd & Ht & _).
  { intros _. rewrite V1. eexists _, _. split; [reflexivity|]. by apply (demo_frame_ok 3). }
  assert (smp_paging2 = p2) as Ep2 by (unfold smp_paging2; by rewrite Ep1, E2). rewrite Ep2.
  exists pds. split; [done|]. split; [done|].
  unfold kernel_tables.
  assert (kernel_pml4 p2 = 0x400000 /\ kernel_pdpt p2 = 0x401000) as [-> ->].
  { rewrite <- Ep2. split; vm_compute; reflexivity. }
  constructor; [unfold demo_pool, POOL_FRAMES; lia|].
  constructor; [unfold demo_pool, POOL_FRAMES; lia|].
  apply Forall_forall. intros t [Hin|Hh]%Ht.
  - apply list_elem_of_singleton in Hin as ->. unfold demo_pool, POOL_FRAMES. cbn [snd]. lia.
  - rewrite V1 in Hh. injection Hh as <-. unfold demo_pool, POOL_FRAMES. lia.
Qed.

#[local] Opaque smp_paging1 smp_paging2.

Definition smp_blob : list Z := replicate 0x120 0x90.
Definition smp_gdt : Z := 0x110000.

Lemma tables_set_heap pds h s : kernel_tables pds (m_paging (set_heap h s)) = kernel_tables pds (m_paging s).
Proof. reflexivity. Qed.

Lemma heap_init_out arena (h h' : heap nkern) x :
  heap_init arena h = Done tt h' [] -> ~ (arena <= x < arena + 32) -> h_mem h' x = h_mem h x.
Proof.
  intros E Hx. assert (h' = final (heap_init arena h)) as -> by (by rewrite E).
  unfold heap_init, upd_mem, final, bind, modify, gets. cbn [h_mem heap_list add_trace].
  unfold set_prev, set_next, set_free, set_size. by rewrite !store_out by lia.
Qed.

Lemma smp_machine_ok : exists pds,
  smp_ok demo_pool smp_gdt 0x110100 0x111000 0x112000 0x100800 smp_blob (smp_dev 0) (ret tt) demo_arena pds
    (fun x => smp_gdt <= x < smp_gdt + 40) (m_mem smp_machine) (m_sched smp_machine) (mmio_map identity_1gb 0xFEE00000)
    smp_machine initial_blocks.
Proof.
  destruct smp_paging2_kmap as (pds & Hk & Hpd & Ht). exists pds.
  destruct (heap_init_sim (LO := nkern_lock_ops 0 (ret tt)) demo_arena (heap_of smp_machine0)
    demo_arena_ok demo_idle) as (h & E & Hi).
  assert (smp_machine = set_heap h smp_machine0) as ->.
  { unfold smp_machine, on_heap, zoom. by rewrite E. }
  rewrite Forall_forall in Ht. split; [| | |done..|exact Hpd|done|done|done].
  - rewrite tables_set_heap. change (m_paging smp_machine0) with smp_paging2.
    split; unfold smp_gdt, demo_arena, HEAP_SIZE, disjoint_range; try lia.
    + apply gdt_layout_ex.
    + by vm_compute.
    + intros t Hin. destruct (Ht t Hin) as [H1 H2]. clear - H1 H2. unfold demo_pool, POOL_FRAMES in *. lia.
    + intros x Hx. split_and!; [lia..|]. intros t Hin. destruct (Ht t Hin) as [H1 H2]. clear - Hx H1 H2.
      unfold demo_pool, POOL_FRAMES in *. lia.
  - destruct h. exact Hi.
  - apply (kmap_same demo_pool smp_paging2); [done|]. intros t Hin x Hx.
    destruct (Ht t Hin) as [H1 H2]. symmetry. apply (heap_init_out demo_arena _ _ x E).
    clear - H1 H2 Hx. unfold demo_pool, POOL_FRAMES, demo_arena in *. lia.
Qed.

Lemma smp_machine_madt :
  madt_entries_of (mkAcpi (m_mem smp_machine) (k_rsdp (m_kernel smp_machine))) 0x3000
    [0x302C; 0x3034; 0x303C; 0x3044].
Proof.
  split; [split; [discriminate|vm_compute; discriminate]|]. split; [vm_compute; reflexivity|].
  split; [lia|]. repeat (apply entries_cons; [vm_compute; reflexivity..|]).
  apply entries_end. vm_compute. discriminate.
Qed.

Lemma ret_quiet : only (S := nkern) (fun e => is_icr e = false) (ret tt).
Proof. apply only_ret. Qed.


