(* ===== verification/Main64.v ===== *)
(** * main64.c and uefi_main.c: the boot sequence of the 64-bit kernel

    [kernel_main64] in the order of the source, on the state of the whole kernel, for
    a number of turns of its final loop; the sequence is cut where the source's
    comments cut it.  The devices of the boot CPU are a record of inputs.  [efi_main]
    gets from the firmware the memory map it parses before it calls
    [kernel_main64(0)]; what the firmware answers is a parameter. *)

From S2P Require Import Terminal64.
From S2P Require Import Prelude Memory Machine KernLock NKern FrameSource Heap HeapSelfTest Memmap MemmapTheorems.
From S2P Require Import Paging AddressSpaces Sched64 Keyboard Fpu Gdt64 Acpi Apic Idt Kernel64 Smp.

Definition PANIC_THREAD_CREATE_FAILED : Z := 1.

(** Link-time addresses. *)
Record image := mkImage {
  i_frame_pool : Z; i_gdt : Z; i_gdt_ptr : Z; i_tss : Z; i_kstack0 : Z;
  i_idt : Z; i_idt_ptr : Z; i_isr : Z -> Z;
  i_heap_arena : Z; i_threads64 : Z; i_thread_start64 : Z; i_kernel_end : Z;
  i_kernel_main64 : Z; i_ap_entry64 : Z;
  i_thread_a : Z; i_thread_b : Z; i_thread_c : Z; i_launcher : Z;
  i_trampoline : list Z
}.

(** ** Threads *)

Section Threads.
Context (img : image).
#[local] Existing Instance paging_spaces.

(** [if (!sched64_create_thread(...)) neka_panic("SCHED", ...)]; the thread. *)
Definition create_or_panic (entry prio : Z) (nm : string) : M (sched (paging memmap)) nat :=
  t <- sched64_create_thread (AS := paging_spaces (i_frame_pool img)) (i_threads64 img)
         (i_thread_start64 img) entry prio nm ;;
  match t with
  | None => neka_panic "SCHED" PANIC_THREAD_CREATE_FAILED
  | Some i => ret i
  end.

Definition set_cr3 (v : Z) (t : thread64) : thread64 :=
  mkThread (rsp t) v (priority t) (state t) (time_slice t) (name t) (next t).

Definition create_threads : M (sched (paging memmap)) unit :=
  sched64_init ;;;
  create_or_panic (i_thread_a img) 5 "ThreadA" ;;;
  create_or_panic (i_thread_b img) 5 "ThreadB" ;;;
  create_or_panic (i_thread_c img) 2 "ThreadC-low" ;;;
  ring3_thread <- create_or_panic (i_launcher img) 5 "Ring3Launcher" ;;
  space <- in_space (create_user_process (i_frame_pool img)) ;;
  modify (upd_thread ring3_thread (set_cr3 space)).
End Threads.

Section Main64.
Context (img : image) (bsp : apic_dev) (cpu_dev : Z -> apic_dev) (alive : Z -> bool).
Context (resched : M nkern unit).

(** Lines 173-199: FPU, page tables, console, segments, interrupt gates. *)
Definition init_cpu : M machine unit :=
  on_cr (Z.to_nat (get_cpu_index bsp)) fpu_init ;;;
  on_paging (paging_init_kernel_map (i_frame_pool img)) ;;;
  on_term terminal64_init ;;;
  kprint "[diag] kernel_main64 runtime address = " ;;;
  kprint_hex64 (i_kernel_main64 img) ;;;
  kprint nl ;;;
  kprint ("========================================" +:+ nl) ;;;
  kprint (" NEKA64 -- preemptive scheduler online" +:+ nl) ;;;
  kprint ("========================================" +:+ nl) ;;;
  kprint ("FPU/SSE initialized (CR0.EM=0, CR4.OSFXSR=1)" +:+ nl) ;;;
  on_mem (gdt_init (i_gdt img) (i_gdt_ptr img) (i_tss img) (i_kstack0 img)) ;;;
  kprint ("GDT rebuilt: kernel+user segments, TSS loaded (ring3 ready)" +:+ nl) ;;;
  m <- gets m_mem ;;
  kprint "[diag] TSS.RSP0 (cpu0) = " ;;; kprint_hex64 (gdt_get_tss_rsp0 (i_tss img) 0 m) ;;; kprint nl ;;;
  on_mem (idt_init (i_idt img) (i_idt_ptr img) (i_isr img)) ;;;
  kprint ("IDT installed (32 exceptions + IRQ0/IRQ1)" +:+ nl).

(** Lines 206-214: interrupt controllers and the tick source. *)
Definition init_interrupts : M machine unit :=
  on_acpi acpi_find_rsdp_bios ;;;
  on_apic (apic_check_supported bsp) ;;;
  on_apic apic_apply_acpi_bases ;;;
  on_apic disable_legacy_pic ;;;
  on_apic (lapic_enable (i_frame_pool img) bsp) ;;;
  on_apic (ioapic_set_redirect (i_frame_pool img) bsp 1 33) ;;;
  on_apic (apic_timer_init bsp 32 100) ;;;
  kprint ("Legacy PIC disabled, LAPIC+IOAPIC online" +:+ nl).

(** Lines 223-227: physical memory and the heap. *)
Definition init_memory (mbi_addr : Z) : M machine unit :=
  m <- gets m_mem ;;
  on_map (memmap_parse_multiboot m mbi_addr) ;;;
  on_map (memmap_activate 0x100000 (i_kernel_end img)) ;;;
  on_heap (heap_init (i_heap_arena img)) ;;;
  on_heap (heap_self_test (LO := nkern_lock_ops (Z.to_nat (get_cpu_index bsp)) resched)).

(** Lines 229-256: threads and the other CPUs. *)
Definition start_system : M machine unit :=
  on_sched (create_threads img) ;;;
  kprint ("4 threads created (A,B,Ring3Launcher prio=5, C prio=2)" +:+ nl) ;;;
  aps_started <- smp_start_aps (i_frame_pool img) (i_gdt img) (i_gdt_ptr img) (i_tss img) (i_kstack0 img)
    (i_idt_ptr img) (i_ap_entry64 img) (i_trampoline img) cpu_dev alive bsp resched ;;
  kprint "[smp] Application Processors started: " ;;;
  kprint_hex64 (u64 aps_started) ;;;
  kprint nl ;;;
  kprint ("Enabling interrupts -- preemption starts now." +:+ nl +:+ nl).

Definition kernel_main64 (mbi_addr : Z) (turns : nat) : M machine unit :=
  init_cpu ;;;
  init_interrupts ;;;
  init_memory mbi_addr ;;;
  start_system ;;;
  on_sched (in_lock (sti (Z.to_nat (get_cpu_index bsp)))) ;;;
  idle_turns turns (Z.to_nat (get_cpu_index bsp)).

(** ** uefi_main.c *)

(** ["\r\n"] *)
Definition crlf : string := String (Ascii.ascii_of_nat 13) nl.

(** The boot services [efi_main] calls: the status is not looked at. *)
Record firmware := mkFirmware {
  (** [GetMemoryMap]: buffer size and buffer; the size, key and descriptor size it
      writes, and the memory *)
  fw_get_memory_map : Z -> Z -> mem -> Z * Z * Z * mem;
  (** [AllocatePool]: size; the buffer *)
  fw_allocate_pool : Z -> mem -> Z * mem;
  (** [ExitBootServices]: key *)
  fw_exit_boot_services : Z -> mem -> mem
}.

Definition efi_main (fw : firmware) (turns : nat) : M machine unit :=
  kprint ("NEKA UEFI bootloader starting..." +:+ crlf) ;;;
  kprint ("Firmware already in long mode -- no manual boot64.s dance needed." +:+ crlf) ;;;
  m <- gets m_mem ;;
  let '(map_size, _, descriptor_size, m) := fw_get_memory_map fw 0 0 m in
  let map_size := u64 (map_size + u64 (descriptor_size * 8)) in
  let (memory_map, m) := fw_allocate_pool fw map_size m in
  let '(map_size, map_key, descriptor_size, m) := fw_get_memory_map fw map_size memory_map m in
  kprint ("Exiting UEFI boot services..." +:+ crlf) ;;;
  let m := fw_exit_boot_services fw map_key m in
  on_mem (modify (fun _ => m)) ;;;
  on_map (memmap_parse_uefi m memory_map map_size descriptor_size) ;;;
  kernel_main64 0 turns.
End Main64.
