(* ===== verification/Main64Theorems.v ===== *)
(** * Theorems on the boot sequence *)

From S2P Require Import Terminal64.
From S2P Require Import Prelude Memory Machine Runs KernLock NKern FrameSource.
From S2P Require Import Heap HeapSpec HeapMem HeapProof HeapClient HeapTheorems HeapSelfTest.
From S2P Require Import Memmap MemmapTheorems Paging PagingSpec PagingProof PagingSpaces PagingUser PagingTheorems.
From S2P Require Import AddressSpaces Sched64 Sched64Spec Sched64Proof Sched64Run Sched64Create Sched64Theorems.
From S2P Require Import Keyboard Fpu Gdt64 Gdt64Theorems Acpi Apic Idt Kernel64 Smp SmpTheorems Main64.

(** ** Order of events *)

(** Every [b] in the trace comes after an [a]. *)
Definition precedes (a b : event) (t : list event) : Prop :=
  forall t1 t2, t = t1 ++ b :: t2 -> a ∈ t1.

(** Every run of [m] that returns has caused [e]. *)
Definition emits {S A} (e : event) (m : M S A) : Prop :=
  forall s a s' t, m s = Done a s' t -> e ∈ t.

Section Order.
Context {S : Type}.

Lemma emits_emit e : emits e (emit (S := S) e).
Proof. intros s a s' t [= _ _ <-]. apply list_elem_of_here. Qed.

Lemma emits_l {A B} e (m : M S A) (f : A -> M S B) : emits e m -> emits e (bind m f).
Proof.
  intros Hm s b s' t. unfold bind. destruct (m s) as [a s1 t1| |] eqn:E; [|done..].
  destruct (f a s1) as [b' s2 t2| |]; simpl; [|done..]. intros [= -> -> <-].
  apply elem_of_app. left. by eapply Hm.
Qed.

Lemma emits_r {A B} e (m : M S A) (f : A -> M S B) : (forall a, emits e (f a)) -> emits e (bind m f).
Proof.
  intros Hf s b s' t. unfold bind. destruct (m s) as [a s1 t1| |]; [|done..].
  destruct (f a s1) as [b' s2 t2| |] eqn:E; simpl; [|done..]. intros [= -> -> <-].
  apply elem_of_app. right. by eapply Hf.
Qed.

Lemma emits_zoom {T A} e (view : S -> T) upd (m : M T A) : emits e m -> emits e (zoom view upd m).
Proof.
  intros Hm s a s' t. unfold zoom. destruct (m (view s)) as [b s1 t1| |] eqn:E; [|done..].
  intros [= -> _ <-]. by eapply Hm.
Qed.

(** What [m] surely does and [b] it never does come in this order when [b] happens
    later. *)
Lemma precedes_bind {A B} a b (m : M S A) (f : A -> M S B) s :
  emits a m -> only (fun e => e <> b) m -> precedes a b (trace (bind m f s)).
Proof.
  intros Ha Hb. specialize (Hb s). unfold bind.
  assert (forall t, Forall (fun e => e <> b) t -> precedes a b t) as Hno.
  { intros t Ht t1 t2 ->. apply Forall_app in Ht as [_ [Hn _]%Forall_cons_iff]. done. }
  destruct (m s) as [x s1 t| |] eqn:E; simpl in *; [|by apply Hno..].
  assert (forall t', precedes a b (t ++ t')) as Happ.
  { intros t' t1 t2 Heq. assert (a ∈ t) as Hin by (by eapply Ha).
    destruct (decide (length t <= length t1)%nat) as [Hle|Hgt].
    - assert (t = take (length t) t1) as Et.
      { rewrite <- (take_app_le t1 (b :: t2)) by done. rewrite <- Heq. by rewrite take_app_length. }
      rewrite Et in Hin. by apply elem_of_take in Hin as (i & ?%list_elem_of_lookup_2 & _).
    - assert (t !! length t1 = Some b) as Hl.
      { rewrite <- (lookup_app_l t t') by lia. rewrite Heq. by rewrite list_lookup_middle. }
      rewrite Forall_forall in Hb. by destruct (Hb b (list_elem_of_lookup_2 _ _ _ Hl)). }
  destruct (f x s1); simpl; apply Happ.
Qed.

(** A prefix without [b] does not matter. *)
Lemma precedes_later {A B} a b (m : M S A) (f : A -> M S B) s :
  only (fun e => e <> b) m -> (forall x s', precedes a b (trace (f x s'))) ->
  precedes a b (trace (bind m f s)).
Proof.
  intros Hb Hf. specialize (Hb s). unfold bind.
  assert (forall t, Forall (fun e => e <> b) t -> forall t' t1 t2, t ++ t' = t1 ++ b :: t2 ->
    exists t0, t1 = t ++ t0 /\ t' = t0 ++ b :: t2) as Hsplit.
  { induction 1 as [|e t He _ IH]; intros t' t1 t2 Heq; [by exists t1|].
    destruct t1 as [|e' t1]; [by injection Heq as <- _|]. injection Heq as -> Heq.
    destruct (IH _ _ _ Heq) as (t0 & -> & ->). by exists t0. }
  assert (forall t, Forall (fun e => e <> b) t -> precedes a b t) as Hno.
  { intros t Ht t1 t2 ->. apply Forall_app in Ht as [_ [Hn _]%Forall_cons_iff]. done. }
  destruct (m s) as [x s1 t| |]; simpl in *; [|by apply Hno..].
  specialize (Hf x s1). destruct (f x s1); simpl in *; intros t1 t2 Heq;
    destruct (Hsplit t Hb _ _ _ Heq) as (t0 & -> & Heq'); apply elem_of_app; right; by eapply Hf.
Qed.
End Order.

(** ** Nothing of the early boot enables interrupts *)

Definition STI : event := EInstr "sti" 0.
Abbreviation quiet := (only (fun e => e <> STI)).

Lemma set_gates_quiet idt isr l : quiet (set_gates idt isr l).
Proof. induction l as [|[v d] l IH]; cbn [set_gates]; unfold idt_set_gate; cbv zeta; only_steps; done. Qed.

Lemma alloc_frame_quiet fp : quiet (alloc_frame (F := memmap) fp).
Proof.
  unfold alloc_frame, in_source. cbn [fs_is_active fs_alloc_frame memmap_source_ops].
  unfold memmap_alloc_frame, frame_body, pool_frame, upd_pmem, set_next_frame. cbv zeta.
  only_steps; try done; by repeat constructor.
Qed.

Lemma map_mmio_quiet fp pa : quiet (paging_map_mmio_2mb (F := memmap) fp pa).
Proof.
  unfold paging_map_mmio_2mb, upd_pmem. cbv zeta. only_steps; apply alloc_frame_quiet.
Qed.

Section Boot.
Context (img : image) (bsp : apic_dev) (cpu_dev : Z -> apic_dev) (alive : Z -> bool).
Context (resched : M nkern unit).

Lemma init_cpu_quiet : quiet (init_cpu img bsp).
Proof.
  unfold init_cpu, on_cr, on_paging, on_term, on_mem, on_paging, on_sched, in_kernel, in_sched, in_space.
  unfold fpu_init, paging_init_kernel_map, terminal64_init, serial_init, gdt_init, gdt_setup_cpu_tss, idt_init,
    set_pml4, set_pdpt, upd_pmem. cbv zeta.
  only_steps; try done; first [apply alloc_frame_quiet | apply set_gates_quiet].
Qed.

Lemma init_interrupts_quiet : quiet (init_interrupts img bsp).
Proof.
  unfold init_interrupts, on_acpi, on_apic, in_kernel, in_apic, in_acpi.
  unfold acpi_find_rsdp_bios, scan_for_rsdp, apic_check_supported, apic_apply_acpi_bases, in_acpi,
    acpi_find_apic_bases, disable_legacy_pic, lapic_enable, ioapic_set_redirect, ioapic_write,
    apic_timer_init, lapic_calibrate_ticks, LAPIC_REG_write, in_paging, udiv. cbv zeta.
  only_steps; try done; try apply map_mmio_quiet; by repeat constructor.
Qed.

Lemma gdt_init_emits e :
  e ∈ [EInstr "lgdt" (i_gdt_ptr img); EInstr "ltr" SEL_TSS_BASE] ->
  emits e (gdt_init (i_gdt img) (i_gdt_ptr img) (i_tss img) (i_kstack0 img)).
Proof.
  intros He m a m' t E. rewrite gdt_init_run in E. injection E as _ _ <-.
  rewrite !elem_of_cons in *. destruct He as [->|[->|He%elem_of_nil]]; tauto.
Qed.

(** Find the call that causes the event. *)
Ltac emits_tac :=
  lazymatch goal with
  | |- emits _ (emit _) => apply emits_emit
  | |- emits _ (zoom _ _ _) => apply emits_zoom; emits_tac
  | |- emits _ (gdt_init _ _ _ _) => apply gdt_init_emits; rewrite !elem_of_cons; tauto
  | |- emits _ (bind _ _) => first [apply emits_l; emits_tac | apply emits_r; intros ?; emits_tac]
  end.

Definition boot_setup : list event :=
  [EInstr "fninit" 0; EInstr "lgdt" (i_gdt_ptr img); EInstr "ltr" SEL_TSS_BASE;
   EInstr "lidt" (i_idt_ptr img); EOutb 0xA1 0xFF; EOutb 0x21 0xFF].

Lemma kernel_main64_order s mbi_addr turns e :
  e ∈ boot_setup -> precedes e STI (trace (kernel_main64 img bsp cpu_dev alive resched mbi_addr turns s)).
Proof.
  intros He. unfold kernel_main64. rewrite <- bind_assoc. apply precedes_bind.
  - unfold boot_setup in He. rewrite !elem_of_cons, elem_of_nil in He.
    destruct He as [->|[->|[->|[->|[->|[->|[]]]]]]];
    unfold init_cpu, init_interrupts, on_cr, on_mem, on_paging, on_sched, on_apic, in_kernel, in_sched, in_space,
      in_apic, fpu_init, idt_init, disable_legacy_pic, instr, outb; cbv zeta; emits_tac.
  - apply only_bind; [apply init_cpu_quiet|intros _; apply init_interrupts_quiet].
Qed.

Lemma efi_main_order fw turns s e :
  e ∈ boot_setup -> precedes e STI (trace (efi_main img bsp cpu_dev alive resched fw turns s)).
Proof.
  intros He. unfold efi_main. do 3 (apply precedes_later; [only_steps; done|intros ? ?]).
  destruct (fw_get_memory_map fw 0 0 _) as [[[sz k] ds] m1].
  destruct (fw_allocate_pool fw _ m1) as [mm m2].
  destruct (fw_get_memory_map fw _ mm m2) as [[[sz' k'] ds'] m3].
  apply precedes_later; [only_steps; done|intros ? ?].
  apply precedes_later; [|intros ? ?].
  { unfold on_mem, on_paging, on_sched, in_kernel, in_sched, in_space. only_steps. }
  apply precedes_later; [|intros ? ?; by apply kernel_main64_order].
  unfold on_map, on_paging, on_sched, in_kernel, in_sched, in_space, memmap_parse_uefi, add_region. only_steps.
Qed.

End Boot.

(** ** The threads of the demonstration *)

Section Threads.
Context (img : image) (pds : list (Z * Z)) (K : Z -> Z).
Local Abbreviation fp := (i_frame_pool img).
#[local] Existing Instance paging_spaces_laws.

(** The thread array lies apart from the kernel's page tables. *)
Definition threads_apart (p : paging memmap) : Prop :=
  forall t, t ∈ kernel_pml4 p :: kernel_pdpt p :: pds.*2 ->
    disjoint_range t 4096 (i_threads64 img) (sizeof_thread64 * Z.of_nat MAX_THREADS64).

Record entries_ok : Prop := {
  eo_start : 0 <= i_thread_start64 img < 2 ^ 64;
  eo_a : 0 <= i_thread_a img < 2 ^ 64;
  eo_b : 0 <= i_thread_b img < 2 ^ 64;
  eo_c : 0 <= i_thread_c img < 2 ^ 64;
  eo_l : 0 <= i_launcher img < 2 ^ 64
}.

(** Memory of which no thread may take possession: apart from the frames [fs] and the
    thread array. *)
Definition spared (fs : list Z) (x : Z) : Prop :=
  (forall f, f ∈ fs -> ~ (f <= x < f + 4096)) /\
  ~ (i_threads64 img <= x < i_threads64 img + sizeof_thread64 * Z.of_nat MAX_THREADS64).

(** [p'] has the kernel's roots of [p] and its memory, but for what the frames [fs] and the
    thread array hold. *)
Definition same_but (fs : list Z) (p p' : paging memmap) : Prop :=
  kernel_pml4 p' = kernel_pml4 p /\ kernel_pdpt p' = kernel_pdpt p /\
  forall x, spared fs x -> p_mem p' x = p_mem p x.

Lemma same_but_trans fs1 fs2 fs p1 p2 p3 :
  same_but fs1 p1 p2 -> same_but fs2 p2 p3 -> fs1 ++ fs2 = fs -> same_but fs p1 p3.
Proof.
  intros (A1 & A2 & A3) (B1 & B2 & B3) <-. split_and!; [congruence..|]. intros x [Hx Ht].
  rewrite B3, A3; [done|..]; (split; [|done]); intros f Hf; apply Hx, elem_of_app; tauto.
Qed.

(** What one creation needs of the scheduler and the page tables, with [fs] the frames
    still to be handed out. *)
Record threads_ok (s : sched (paging memmap)) (rings : nat -> list nat) (fs : list Z) : Prop := {
  to_inv : sched_inv s rings;
  to_kmap : kmap fp (s_space s) pds K;
  to_avail : avail fp (s_space s) = fs;
  to_apart : threads_apart (s_space s)
}.

Lemma create_step s rings f4 f3 fd ft fpg rest entry prio nm :
  threads_ok s rings ([f4; f3; fd; ft; fpg] ++ rest) -> Forall frame_ok [f4; f3; fd; ft; fpg] ->
  entries_ok -> 0 <= entry < 2 ^ 64 -> (thread64_count s < 16)%nat -> 0 <= prio < 8 ->
  let i := thread64_count s in
  runs (create_or_panic img entry prio nm) s (fun j s' => j = i /\
    threads_ok s' (upd_ring rings (Z.to_nat prio) (rings (Z.to_nat prio) ++ [i])) rest /\
    thread64_count s' = S i /\ current s' = current s /\ s_lock s' = s_lock s /\ cr3 (thr i s') = f4 /\
    same_but [f4; f3; fd; ft; fpg] (s_space s) (s_space s') /\
    forall j, j <> i -> cr3 (thr j s') = cr3 (thr j s)).
Proof.
  intros [Hi Hk Hav Hap] Hok Heo He Hc Hp i.
  destruct (create_address_space_spec fp (s_space s) pds K f4 f3 fd ft fpg rest Hk Hav Hok)
    as (p' & E & G & Hk' & Honly & _).
  pose proof (grown_rest _ _ _ _ _ _ G Hav) as Hav'. destruct G as (_ & P4 & P3 & _ & _).
  pose proof (create_thread_run (AS := paging_spaces fp) (i_threads64 img) (i_thread_start64 img)
    entry prio nm s rings f4 p' [] Hi Hc Hp E) as H. cbv zeta in H. fold i in H.
  pose proof (first_frame_spec (i_thread_start64 img) entry (stack_top (i_threads64 img) i) (p_mem p') He
    (eo_start Heo)) as Hff.
  change (as_mem p') with (p_mem p') in H. destruct (first_frame _ _ _ _) as [m sp].
  destruct H as (s' & Er & Ha & Hlk & Hsp & _ & Hcr & _ & _ & Hold). destruct Hff as (_ & _ & _ & _ & _ & Hout).
  unfold create_or_panic. run_step. eapply runs_done; [exact Er|]. cbv beta iota. run_steps.
  change (as_set_mem m p') with (with_mem p' m) in Hsp.
  assert (forall x, ~ (stack_top (i_threads64 img) i - 80 <= x < stack_top (i_threads64 img) i) \/
    spared [f4; f3; fd; ft; fpg] x -> m x = p_mem p' x) as Hm.
  { intros x [Hx|[_ Hx]]; apply Hout; [done|].
    unfold stack_top, MAX_THREADS64, STACK_SIZE64, stack_offset, sizeof_thread64 in *. lia. }
  split_and!; [done| |by destruct Ha|by destruct Ha|done|done| |intros j Hj; by apply Hold].
  2:{ rewrite Hsp. split_and!; [done..|]. intros x Hx. cbn [with_mem p_mem]. rewrite Hm by tauto.
      apply Honly, Hx. }
  split.
  - apply inv_append; try done. lia.
  - rewrite Hsp. apply kmap_same; [done|]. rewrite P4, P3. intros t Ht x Hx. symmetry. apply Hout.
    pose proof (Hap t Ht) as Hd. unfold disjoint_range, stack_top, MAX_THREADS64, STACK_SIZE64, stack_offset, sizeof_thread64 in *.
    lia.
  - by rewrite Hsp.
  - rewrite Hsp. unfold threads_apart. cbn [with_mem kernel_pml4 kernel_pdpt]. by rewrite P4, P3.
Qed.

Lemma inv_rings_ext (s : sched (paging memmap)) r r' :
  (forall p, r' p = r p) -> sched_inv s r -> sched_inv s r'.
Proof. intros E []. split; intros; rewrite ?E in *; by eauto. Qed.

(** The queues after boot: A, B and the launcher with priority 5, C with priority 2. *)
Definition boot_rings (p : nat) : list nat :=
  if decide (p = 5)%nat then [0; 1; 3]%nat else if decide (p = 2)%nat then [2]%nat else [].

(** The launcher's address space is replaced by that of the user process. *)
Lemma launcher_step s rings i f4 f3 fc fs fd ft rest :
  threads_ok s rings ([f4; f3; fc; fs; fd; ft] ++ rest) -> Forall frame_ok [f4; f3; fc; fs; fd; ft] ->
  pd_of pds 1 = None -> (i < 16)%nat ->
  runs (space <- in_space (create_user_process fp) ;; modify (upd_thread i (set_cr3 space))) s (fun _ s' =>
    sched_inv s' rings /\ current s' = current s /\ s_lock s' = s_lock s /\
    kmap fp (s_space s') pds K /\ avail fp (s_space s') = rest /\ cr3 (thr i s') = f4 /\
    same_but [f4; f3; fc; fs; fd; ft] (s_space s) (s_space s') /\
    forall j, j <> i -> cr3 (thr j s') = cr3 (thr j s)).
Proof.
  intros [Hi Hk Hav _] Hok Hno Hlt.
  destruct (create_user_process_spec fp (s_space s) pds K _ _ _ _ _ _ rest Hk Hno Hav Hok)
    as (p' & E & G & Hk' & Honly & _).
  pose proof (grown_rest _ _ _ _ _ _ G Hav) as Hav'. destruct G as (_ & P4 & P3 & _).
  run_step. apply runs_zoom. eapply runs_done; [exact E|]. cbv beta. run_steps.
  assert (sched_inv (set_space p' s) rings) as Hi'.
  { apply (inv_same s); [done|by split|]. intros c j. apply (sv_current _ _ Hi). }
  assert (i < length (threads64 (set_space p' s)))%nat as Hl.
  { pose proof (sv_thr_len _ _ Hi) as Hl. cbn. rewrite Hl. exact Hlt. }
  split_and!; try done.
  - apply (inv_same (set_space p' s)); [done|by apply upd_links|].
    intros c j. apply (sv_current _ _ Hi').
  - by rewrite thr_upd_eq.
  - split_and!; [done..|]. intros x [Hx _]. by apply Honly.
  - intros j Hj. rewrite thr_upd_ne by done. done.
Qed.

(** The roots of the four threads among the frames. *)
Lemma boot_cr3_NoDup (fs : list Z) :
  length fs = 26%nat -> NoDup fs -> NoDup [nth 0 fs 0; nth 5 fs 0; nth 10 fs 0; nth 20 fs 0].
Proof.
  intros Hlen Hnd. do 26 (destruct fs as [|? fs]; [done|]). cbn [nth].
  eapply sublist_NoDup; [exact Hnd|]. repeat first [apply sublist_skip | apply sublist_cons | apply sublist_nil_l].
Qed.

Ltac frames_tac := repeat (apply Forall_cons_2; [assumption|]); apply Forall_nil_2.

Lemma create_threads_run s fs rest :
  length (threads64 s) = MAX_THREADS64 -> length (cpu_rsp s) = MAX_SCHED_CPUS ->
  length (loaded_cr3 s) = MAX_SCHED_CPUS -> length (dummy_rsp s) = MAX_SCHED_CPUS ->
  kmap fp (s_space s) pds K -> pd_of pds 1 = None -> threads_apart (s_space s) -> entries_ok ->
  avail fp (s_space s) = fs ++ rest -> length fs = 26%nat -> Forall frame_ok fs ->
  runs (create_threads img) s (fun _ s' =>
    sched_inv s' boot_rings /\ (forall c, running c s' = None) /\ s_lock s' = s_lock s /\
    kmap fp (s_space s') pds K /\ avail fp (s_space s') = rest /\
    cr3 (thr 0 s') = nth 0 fs 0 /\ cr3 (thr 1 s') = nth 5 fs 0 /\ cr3 (thr 2 s') = nth 10 fs 0 /\
    cr3 (thr 3 s') = nth 20 fs 0 /\ same_but fs (s_space s) (s_space s')).
Proof.
  intros H1 H2 H3 H4 Hk Hno Hap Heo Hav Hlen Hok.
  do 26 (destruct fs as [|? fs]; [done|]). destruct fs as [|? fs]; [clear Hlen|done].
  rewrite !Forall_cons_iff in Hok. destr_and. unfold create_threads. run_step.
  eapply runs_done; [reflexivity|]. cbv beta.
  match goal with |- runs _ ?s0 _ => assert (threads_ok s0 (fun _ => []) (avail fp (s_space s))) as Hs0 end.
  { split; [by apply init_inv|done..]. }
  rewrite Hav in Hs0. cbn [app] in Hs0.
  run_step. run_call create_step; [exact Hs0|frames_tac|done|apply (eo_a Heo)|cbn; lia|lia|].
  intros _ s1 (_ & Hs1 & C1 & U1 & L1 & R1 & B1 & _).
  run_step. run_call create_step; [exact Hs1|frames_tac|done|apply (eo_b Heo)|rewrite C1; cbn; lia|lia|].
  intros _ s2 (_ & Hs2 & C2 & U2 & L2 & R2 & B2 & O2).
  run_step. run_call create_step; [exact Hs2|frames_tac|done|apply (eo_c Heo)|rewrite C2, C1; cbn; lia|lia|].
  intros _ s3 (_ & Hs3 & C3 & U3 & L3 & R3 & B3 & O3).
  run_step. run_call create_step; [exact Hs3|frames_tac|done|apply (eo_l Heo)|rewrite C3, C2, C1; cbn; lia|lia|].
  intros i4 s4 (-> & Hs4 & C4 & U4 & L4 & R4 & B4 & O4).
  rewrite ?C1, ?C2, ?C3, ?C4 in *. cbn [thread64_count] in *.
  run_call launcher_step; [exact Hs4|frames_tac|done|lia|].
  intros _ s5 (Hi5 & U5 & L5 & Hk5 & V5 & R5 & B5 & O5). cbn [nth]. split_and!; try done.
  - eapply inv_rings_ext; [|exact Hi5]. intros p. unfold upd_ring, boot_rings.
    do 6 (destruct p as [|p]; [done|]). done.
  - intros c. unfold running. rewrite U5, U4, U3, U2, U1. cbn.
    do 16 (destruct c as [|c]; [done|]). by destruct c.
  - by rewrite L5, L4, L3, L2, L1.
  - by rewrite O5, O4, O3, O2 by lia.
  - by rewrite O5, O4, O3 by lia.
  - by rewrite O5, O4 by lia.
  - do 4 (eapply same_but_trans; [eassumption| |reflexivity]). exact B5.
Qed.

(** With 26 frames to hand out, the creation of the boot threads does not panic: it
    leaves the priority queues with A, B and the launcher at priority 5 and C at
    priority 2, no thread running yet, every thread with a page table root of its own,
    the launcher with that of the user process; the kernel's map is unchanged.  The
    first reschedule of the boot CPU then runs thread A in its own address space. *)
Theorem create_threads_correct s fs rest :
  length (threads64 s) = MAX_THREADS64 -> length (cpu_rsp s) = MAX_SCHED_CPUS ->
  length (loaded_cr3 s) = MAX_SCHED_CPUS -> length (dummy_rsp s) = MAX_SCHED_CPUS ->
  kmap fp (s_space s) pds K -> pd_of pds 1 = None -> threads_apart (s_space s) -> entries_ok ->
  avail fp (s_space s) = fs ++ rest -> length fs = 26%nat -> Forall frame_ok fs -> lock_ready 0 s ->
  runs (create_threads img) s (fun _ s1 =>
    sched_inv s1 boot_rings /\ (forall c, running c s1 = None) /\ kmap fp (s_space s1) pds K /\
    NoDup [cr3 (thr 0 s1); cr3 (thr 1 s1); cr3 (thr 2 s1); cr3 (thr 3 s1)] /\
    exists s2 t, sched64_reschedule 0 s1 = Done tt s2 t /\ running 0 s2 = Some 0%nat /\
      nth 0 (loaded_cr3 s2) 0 = cr3 (thr 0 s1) /\ sched_inv s2 boot_rings).
Proof.
  intros H1 H2 H3 H4 Hk Hno Hap Heo Hav Hlen Hok Hlr.
  pose proof (avail_NoDup _ _ (km_wf _ _ _ _ Hk)) as Hnd. rewrite Hav in Hnd. apply NoDup_app in Hnd as (Hnd & _ & _).
  run_call create_threads_run; [done..|]. intros _ s1 (Hi & Hr & Hl & Hk1 & _ & R0 & R1 & R2 & R3 & _).
  split_and!; [done..| |].
  - rewrite R0, R1, R2, R3. by apply boot_cr3_NoDup.
  - assert (lock_ready 0 s1) as Hlr1 by (unfold lock_ready; by rewrite Hl).
    destruct (reschedule_sim 0 s1 boot_rings Hi Hlr1) as (s2 & t & E & _ & _ & _ & _ & _ & H).
    change (top_prio boot_rings) with (Some 5%nat) in H. cbv zeta in H. rewrite Hr in H.
    change (turned (boot_rings 5) None) with [0; 1; 3]%nat in H. destruct H as (Hi2 & Hc & Hh).
    destruct (Hh 0%nat eq_refl) as (_ & Hcr & _); [done|].
    exists s2, t. split_and!; [done| |done|].
    + unfold running. rewrite Hc. cbn [head]. apply nth_insert_eq. rewrite (sv_cur_len _ _ Hi). unfold MAX_SCHED_CPUS. lia.
    + eapply inv_rings_ext; [|exact Hi2]. intros p. unfold upd_ring, boot_rings.
      destruct (decide (p = 5)%nat) as [->|]; done.
Qed.
End Threads.

(** ** The boot threads on the boot pool *)

Definition demo_image : image :=
  mkImage demo_pool 0x110000 0x110100 0x111000 0x112000 0x114000 0x115000 (fun v => 0x100000 + 16 * v)
    demo_arena 0x500000 0x100200 0x600000 0x101000 0x100800 0x102000 0x102100 0x102200 0x102300
    (replicate 0x120 0x90).

Lemma create_threads_correct_witness : exists s : sched (paging memmap),
  runs (create_threads demo_image) s (fun _ s1 =>
    sched_inv s1 boot_rings /\ NoDup [cr3 (thr 0 s1); cr3 (thr 1 s1); cr3 (thr 2 s1); cr3 (thr 3 s1)]).
Proof.
  destruct (paging_init_at_boot demo_pool demo_paging demo_at_boot) as (p & E & Hk & V).
  assert (p = final (paging_init_kernel_map demo_pool demo_paging)) as Ep by (by rewrite E).
  exists (sched_boot p). eapply runs_mono.
  - apply (create_threads_correct demo_image [(0, demo_pool + 8192)] identity_1gb (sched_boot p)
      ((fun k => demo_pool + 4096 * k) <$> seqZ 3 26) ((fun k => demo_pool + 4096 * k) <$> seqZ 29 35)).
    + reflexivity.
    + reflexivity.
    + reflexivity.
    + reflexivity.
    + exact Hk.
    + reflexivity.
    + intros t Ht. cbn [sched_boot s_space] in Ht. rewrite Ep in Ht.
      assert (kernel_pml4 (final (paging_init_kernel_map demo_pool demo_paging)) = 0x400000) as E4
        by (vm_compute; reflexivity).
      assert (kernel_pdpt (final (paging_init_kernel_map demo_pool demo_paging)) = 0x401000) as E3
        by (vm_compute; reflexivity).
      rewrite E4, E3 in Ht. cbn in Ht.
      rewrite !elem_of_cons, elem_of_nil in Ht. unfold disjoint_range, demo_pool in *. cbn [i_threads64 demo_image].
      clear - Ht. destruct Ht as [->|[->|[->|[]]]]; left; lia.
    + split; cbn; lia.
    + cbn [sched_boot s_space i_frame_pool demo_image]. rewrite V. by rewrite <- fmap_app, <- seqZ_app by lia.
    + reflexivity.
    + apply demo_frames_ok. by repeat constructor.
    + unfold lock_ready. cbn. unfold nk_wf, MAX_CPUS. split_and!; done || lia.
  - intros _ s1 (Hi & _ & _ & Hn & _). exact (conj Hi Hn).
Defined.

(** ** The early boot, run

    A machine with 15 MB of memory at 1 MB reported by the boot loader, a root pointer
    in the BIOS area and three processors: the sequence up to the threads returns, finds
    the tables, passes the heap's self-test and enables no interrupts. *)

Definition boot_mem : mem := mem_of
  [(0x9000, 4%nat, 0x40); (0x902C, 4%nat, 24); (0x9030, 4%nat, 0x9100);
   (0x9100, 4%nat, 20); (0x9104, 8%nat, 0x100000); (0x910C, 8%nat, 0xF00000); (0x9114, 4%nat, 1);
   (0xE0000, 8%nat, 0x2052545020445352); (0xE0008, 1%nat, 193); (0xE0010, 4%nat, 0x2000);
   (0x2004, 4%nat, 40); (0x2024, 4%nat, 0x3000);
   (0x3000, 4%nat, 0x43495041); (0x3004, 4%nat, 80); (0x3024, 4%nat, 0xFEE00000);
   (0x302C, 8%nat, 0x0000000100000800); (0x3034, 8%nat, 0x0000000101010800);
   (0x303C, 8%nat, 0x0000000102020800); (0x3044, 2%nat, 0x0C01); (0x3048, 4%nat, 0xFEC00000)].

Definition boot_run : outcome machine unit :=
  (init_cpu demo_image (smp_dev 0) ;;; init_interrupts demo_image (smp_dev 0) ;;;
   init_memory demo_image (smp_dev 0) (ret tt) 0x9000)
  (machine_boot boot_mem memmap_boot 0 (replicate 16 (mkCr 0x80000011 0x20)) term_boot).

Example boot_run_ok :
  value boot_run = Some tt /\ k_rsdp (m_kernel (final boot_run)) = 0xE0000 /\
  bool_decide (EPrint PASSED ∈ trace boot_run) = true /\ bool_decide (STI ∈ trace boot_run) = false.
Proof. split_and!; vm_compute; reflexivity. Qed.
