(* ===== verification/Boot64.v ===== *)
(** * The boot of the 64-bit kernel, stage by stage

    The stages of [kernel_main64] composed over one memory: where the linker puts the
    objects of the image, what each stage writes, and that nothing an earlier stage has
    built is damaged by a later one. *)

From S2P Require Import Terminal64.
From S2P Require Import Prelude Memory Machine Runs KernLock NKern FrameSource.
From S2P Require Import Heap HeapSpec HeapMem HeapProof HeapClient HeapTheorems HeapSelfTest.
From S2P Require Import Memmap MemmapParse MemmapProof MemmapTheorems.
From S2P Require Import Paging PagingSpec PagingProof PagingTheorems AddressSpaces.
From S2P Require Import Sched64 Sched64Spec Sched64Proof Sched64Run Sched64Theorems.
From S2P Require Import Keyboard Fpu Gdt64 Gdt64Theorems Acpi AcpiTheorems Apic ApicTheorems Idt IdtTheorems.
From S2P Require Import Kernel64 Smp SmpTheorems Main64 Main64Theorems.

(** ** The image *)

Section Boot.
Context (img : image).
Local Abbreviation fp := (i_frame_pool img).

(** The static objects that C code writes, with their sizes. *)
Definition objects : list (Z * Z) :=
  [(i_frame_pool img, 4096 * POOL_FRAMES); (i_gdt img, 104); (i_gdt_ptr img, 10); (i_tss img, 416);
   (i_kstack0 img, 32768); (i_idt img, 4096); (i_idt_ptr img, 10); (i_heap_arena img, HEAP_SIZE);
   (i_threads64 img, sizeof_thread64 * Z.of_nat MAX_THREADS64)].

Definition apart_objects (a b : Z * Z) : Prop := disjoint_range a.1 a.2 b.1 b.2.

(** The linker puts them side by side between 1 MB and [kernel_end], a page boundary in
    the first gigabyte. *)
Record image_ok : Prop := {
  io_apart : ForallOrdPairs apart_objects objects;
  io_inside : Forall (fun o => 0x100000 <= o.1 /\ o.1 + o.2 <= i_kernel_end img) objects;
  io_end : i_kernel_end img <= 2 ^ 30 /\ i_kernel_end img mod 4096 = 0;
  io_pool : i_frame_pool img mod 4096 = 0;
  io_isr v : 0 <= i_isr img v < 2 ^ 64;
  io_entries : entries_ok img;
  io_ap : 0 <= i_ap_entry64 img < 2 ^ 64;
  io_blob : (length (i_trampoline img) <= 0x120)%nat
}.

Hypothesis img_ok : image_ok.

(** Object [i] ends before object [j] or the other way round. *)
Lemma objects_apart i j o o' :
  (i < j)%nat -> objects !! i = Some o -> objects !! j = Some o' -> disjoint_range o.1 o.2 o'.1 o'.2.
Proof.
  intros Hij Hi Hj. pose proof (io_apart img_ok) as Hp. revert i j Hij Hi Hj.
  induction Hp as [|a l Ha Hl IH]; intros i j Hij Hi Hj; [done|].
  destruct j as [|j]; [lia|]. destruct i as [|i]; simpl in *; [|by apply (IH i j); [lia|..]].
  injection Hi as ->. rewrite Forall_forall in Ha. by eapply Ha, list_elem_of_lookup_2.
Qed.

(** Add what the layout says of two objects, or of one, to the context. *)
Ltac apart i j :=
  let H := fresh "Hap" in
  pose proof (objects_apart i j _ _ ltac:(lia) eq_refl eq_refl) as H; cbn [fst snd] in H;
  unfold disjoint_range in H.
Ltac inside i :=
  let H := fresh "Hin" in
  pose proof (Forall_lookup_1 _ _ i _ (io_inside img_ok) eq_refl) as H; cbn [fst snd] in H.

(** An address of the image. *)
Definition in_image (x : Z) : Prop := 0x100000 <= x < i_kernel_end img.

Lemma image_pool_ok : pool_ok fp.
Proof. inside 0%nat. pose proof (io_end img_ok). pose proof (io_pool img_ok). unfold pool_ok, POOL_FRAMES in *. lia. Qed.

Lemma image_gdt_layout : gdt_layout (i_gdt img) (i_gdt_ptr img) (i_tss img) (i_kstack0 img).
Proof.
  inside 1%nat. inside 2%nat. inside 3%nat. inside 4%nat. pose proof (io_end img_ok).
  apart 1%nat 2%nat. apart 1%nat 3%nat. apart 2%nat 3%nat. split; unfold disjoint_range; lia.
Qed.

Lemma image_arena_ok : arena_ok (i_heap_arena img).
Proof. inside 7%nat. pose proof (io_end img_ok). unfold arena_ok, HEAP_SIZE in *. lia. Qed.

(** ** The descriptor tables *)

(** The bytes of the tables that are complete once [init_cpu] has run. *)
Definition table_byte (x : Z) : Prop :=
  i_gdt img <= x < i_gdt img + 40 \/ i_gdt_ptr img <= x < i_gdt_ptr img + 10 \/
  i_idt img <= x < i_idt img + 4096 \/ i_idt_ptr img <= x < i_idt_ptr img + 10.

(** What the CPUs find in them. *)
Record tables_ok (m : mem) : Prop := {
  tk_gdt_ptr : load16 m (i_gdt_ptr img) = 8 * 13 - 1 /\ load64 m (i_gdt_ptr img + 2) = i_gdt img;
  tk_kcode : decode (load64 m (i_gdt img + SEL_KCODE)) 0 = mkDesc 0 0 8 1 0 1 1;
  tk_kdata : decode (load64 m (i_gdt img + SEL_KDATA)) 0 = mkDesc 0 0 2 1 0 1 0;
  tk_ucode : decode (load64 m (i_gdt img + SEL_UCODE)) 0 = mkDesc 0 0 8 1 3 1 1;
  tk_udata : decode (load64 m (i_gdt img + SEL_UDATA)) 0 = mkDesc 0 0 2 1 3 1 0;
  tk_idt_ptr : load16 m (i_idt_ptr img) = 16 * 256 - 1 /\ load64 m (i_idt_ptr img + 2) = i_idt img;
  tk_gates v : 0 <= v < 256 -> decode_gate m (i_idt img + 16 * v) =
    if (v <? 34) || (v =? 128) then mkGate (i_isr img v) 8 0 0xE (if v =? 128 then 3 else 0) true
    else mkGate 0 0 0 0 0 false
}.

Lemma tables_ok_same m m' : tables_ok m -> (forall x, table_byte x -> m' x = m x) -> tables_ok m'.
Proof.
  intros [T1 T2 T3 T4 T5 T6 T7] Hm.
  assert (forall n a, (forall x, a <= x < a + Z.of_nat n -> table_byte x) -> load n m' a = load n m a) as Hl.
  { intros n a Ha. apply load_ext. intros x Hx. by apply Hm, Ha. }
  unfold SEL_KCODE, SEL_KDATA, SEL_UCODE, SEL_UDATA in *.
  split; unfold SEL_KCODE, SEL_KDATA, SEL_UCODE, SEL_UDATA;
    rewrite ?Hl by (unfold table_byte; cbn; lia); try done.
  intros v Hv. rewrite <- T7 by done. apply decode_gate_ext. intros x Hx. apply Hm. unfold table_byte. lia.
Qed.

(** ** Page tables before the memory map is active *)

Definition in_pool (t : Z) : Prop := exists j, 0 <= j < POOL_FRAMES /\ t = fp + 4096 * j.

(** [m'] is [m] but for the bytes of the image. *)
Definition agree_out (m m' : mem) : Prop := forall x, ~ in_image x -> m' x = m x.

(** The kernel's tables are frames of the pool, of which at most [n] are taken. *)
Record early (p : paging memmap) (pds : list (Z * Z)) (K : Z -> Z) (n : Z) : Prop := {
  ea_kmap : kmap fp p pds K;
  ea_inactive : map_active (p_source p) = false;
  ea_avail : exists k, 3 <= k <= n /\ avail fp p = (fun j => fp + 4096 * j) <$> seqZ k (POOL_FRAMES - k);
  ea_tables : Forall in_pool (kernel_tables pds p);
  ea_user : pd_of pds 1 = None
}.

(** What a step on the page tables leaves alone. *)
Definition pool_only (p p' : paging memmap) : Prop :=
  p_source p' = p_source p /\
  forall x, ~ (fp <= x < fp + 4096 * POOL_FRAMES) -> p_mem p' x = p_mem p x.

Lemma pool_frame_ok j : 0 <= j < POOL_FRAMES -> frame_ok (fp + 4096 * j).
Proof.
  intros Hj. destruct image_pool_ok as (Ha & Hl & Hh). unfold frame_ok, POOL_FRAMES in *. dlia.
Qed.

Lemma pool_frame_range t x : in_pool t -> t <= x < t + 4096 -> fp <= x < fp + 4096 * POOL_FRAMES.
Proof. intros (j & Hj & ->) Hx. lia. Qed.

Lemma paging_init_early (p : paging memmap) :
  map_active (p_source p) = false -> next_frame p = 0 ->
  runs (paging_init_kernel_map fp) p (fun _ p' =>
    early p' [(0, fp + 8192)] identity_1gb 3 /\ pool_only p p').
Proof.
  intros Ha Hn. assert (at_boot fp p) as Hb by (split; [apply image_pool_ok|done]).
  destruct (boot_frames fp p Hb) as (W & V & O).
  destruct (paging_init_run fp p _ _ _ _ W V O) as (p' & E & K4 & K3 & V' & W' & M').
  assert (p_source p' = p_source p) as Hs by (exact (paging_init_source (FO := memmap_source_ops) fp (p_source p) Ha p eq_refl _ _ _ E)).
  eapply runs_done; [exact E|]. split.
  - split; [|by rewrite Hs|by exists 3| |done].
    + by apply (paging_init_kmap fp p p' fp (fp + 4096) (fp + 8192)
        ((fun k => fp + 4096 * k) <$> seqZ 3 61)).
    + unfold kernel_tables, in_pool, POOL_FRAMES. rewrite K4, K3. cbn [fmap list_fmap snd].
      repeat constructor; [exists 0|exists 1|exists 2]; lia.
  - split; [done|]. intros x Hx. rewrite M'. unfold POOL_FRAMES in Hx. unfold set_entry.
    rewrite !store_out by lia. rewrite (proj2 (fill64_spec 512 _ _ _ identity_entry)) by lia.
    rewrite !zero_only by lia. done.
Qed.

(** Mapping device registers takes at most one more frame of the pool. *)
Lemma map_mmio_early p pds K n pa :
  early p pds K n -> n < POOL_FRAMES -> 0 <= pa < 2 ^ 39 -> pa mod 2 ^ 21 = 0 -> pa / 2 ^ 30 <> 1 ->
  runs (paging_map_mmio_2mb fp pa) p (fun _ p' => exists pds',
    early p' pds' (mmio_map K pa) (n + 1) /\ pool_only p p').
Proof.
  intros [Hk Ha (k & Hkn & V) Ht Hu] Hn Hpa Hal Hgb.
  destruct (paging_map_mmio_run fp p pds K pa Hk Hpa Hal) as
    (p' & pds' & E & Hk' & K4 & _ & Htab & K3 & (d & Hd & V') & Hm & Hoth).
  { intros _. rewrite V, seqZ_cons by lia. eexists _, _. split; [reflexivity|]. apply pool_frame_ok. lia. }
  assert (p_source p' = p_source p) as Hs by (exact (paging_map_mmio_source (FO := memmap_source_ops) fp (p_source p) pa Ha p eq_refl _ _ _ E)).
  assert (Forall in_pool (kernel_tables pds' p')) as Ht'.
  { rewrite Forall_forall in Ht |- *. unfold kernel_tables in *. rewrite K4, K3.
    intros t [->|[->|[Hin|Hh]%Htab]%elem_of_cons]%elem_of_cons.
    - apply Ht, list_elem_of_here.
    - apply Ht, list_elem_of_further, list_elem_of_here.
    - apply Ht. by do 2 apply list_elem_of_further.
    - rewrite V, seqZ_cons in Hh by lia. injection Hh as <-. exists k. split; [lia|done]. }
  eapply runs_done; [exact E|]. exists pds'. split; [split; try done|split; [done|]].
  - by rewrite Hs.
  - exists (k + Z.of_nat d). split; [lia|]. rewrite V', V, <- fmap_drop. f_equal.
    destruct d as [|[|d]]; [|rewrite (seqZ_cons k) by lia|lia]; cbn [drop]; rewrite drop_0; f_equal; lia.
  - by rewrite Hoth by congruence.
  - intros x Hx. apply Hm. intros t Hin Hr. apply Hx. rewrite Forall_forall in Ht'.
    apply (pool_frame_range t); [|done]. apply Ht'. unfold kernel_tables. rewrite K3.
    by apply list_elem_of_further.
Qed.

(** ** The machine before any thread exists *)

Definition boot_machine (p : paging memmap) (lapic ioapic rsdp hl : Z) (lk : nkern) (crs : list cpu_cr)
    (t : term) : machine :=
  mkMachine (mkKernel (set_klock lk (sched_boot p)) kbd_boot lapic ioapic rsdp 0 false)
    hl crs t (replicate 8 0) (-1).

Section Parts.
Context (p : paging memmap) (lapic ioapic rsdp hl : Z) (lk : nkern) (crs : list cpu_cr) (t : term).
Context {A : Type} (Q : A -> machine -> Prop).
Local Abbreviation here := (boot_machine p lapic ioapic rsdp hl lk crs t).

Lemma on_paging_boot (m : M (paging memmap) A) :
  runs m p (fun a p' => Q a (boot_machine p' lapic ioapic rsdp hl lk crs t)) -> runs (on_paging m) here Q.
Proof. intros H. do 3 apply runs_zoom. exact H. Qed.

Lemma on_mem_boot (m : M mem A) :
  runs m (p_mem p) (fun a m' => Q a (boot_machine (with_mem p m') lapic ioapic rsdp hl lk crs t)) ->
  runs (on_mem m) here Q.
Proof. intros H. apply on_paging_boot, runs_zoom. exact H. Qed.

Lemma on_map_boot (m : M memmap A) :
  runs m (p_source p) (fun a f => Q a (boot_machine (put_map f p) lapic ioapic rsdp hl lk crs t)) ->
  runs (on_map m) here Q.
Proof. intros H. apply on_paging_boot, runs_zoom. exact H. Qed.

Lemma on_apic_boot (m : M (apic memmap) A) :
  runs m (mkApic lapic ioapic rsdp p) (fun a x =>
    Q a (boot_machine (x_paging x) (lapic_base_pa x) (ioapic_base_pa x) (x_rsdp x) hl lk crs t)) ->
  runs (on_apic m) here Q.
Proof. intros H. do 2 apply runs_zoom. exact H. Qed.

Lemma on_heap_boot (m : M (heap nkern) A) :
  runs m (mkHeap (p_mem p) hl lk) (fun a h =>
    Q a (boot_machine (with_mem p (h_mem h)) lapic ioapic rsdp (heap_list h) (h_lock h) crs t)) ->
  runs (on_heap m) here Q.
Proof. intros H. apply runs_zoom. exact H. Qed.

Lemma on_cr_boot c (m : M cpu_cr A) :
  runs m (nth c crs (mkCr 0 0)) (fun a r => Q a (boot_machine p lapic ioapic rsdp hl lk (<[c:=r]> crs) t)) ->
  runs (on_cr c m) here Q.
Proof. intros H. apply runs_zoom. exact H. Qed.

Lemma on_term_boot (m : M term A) :
  runs m t (fun a t' => Q a (boot_machine p lapic ioapic rsdp hl lk crs t')) -> runs (on_term m) here Q.
Proof. intros H. apply runs_zoom. exact H. Qed.
End Parts.

(** ** init_cpu *)

Lemma early_mem p pds K n m :
  early p pds K n -> (forall x, fp <= x < fp + 4096 * POOL_FRAMES -> m x = p_mem p x) ->
  early (with_mem p m) pds K n.
Proof.
  intros [Hk Ha Hv Ht Hu] Hm. split; try done. apply kmap_same; [done|]. intros t Hin x Hx.
  symmetry. apply Hm. apply (pool_frame_range t); [|done]. rewrite Forall_forall in Ht. by apply Ht.
Qed.

Lemma gdt_init_out m x :
  ~ (i_gdt img <= x < i_gdt img + 104) -> ~ (i_gdt_ptr img <= x < i_gdt_ptr img + 10) ->
  ~ (i_tss img <= x < i_tss img + 416) ->
  setup_mem (i_gdt img) (i_tss img) (i_kstack0 img) 0 (gdt_mem (i_gdt img) (i_gdt_ptr img) m) x = m x.
Proof.
  intros H1 H2 H3. rewrite (setup_mem_out _ _ _ _ image_gdt_layout) by (unfold tss_at, gdt_slot, sizeof_tss64; lia).
  unfold gdt_mem, gdt_slot. rewrite !store_out by lia. done.
Qed.

Lemma init_cpu_runs bsp m mm rsdp crs t :
  map_active mm = false -> (forall x, i_idt img <= x < i_idt img + 4096 -> m x = 0) ->
  length crs = 16%nat ->
  runs (init_cpu img bsp) (machine_boot m mm rsdp crs t) (fun _ s => exists p crs' t',
    s = boot_machine p 0xFEE00000 0xFEC00000 rsdp 0 nkern_boot crs' t' /\
    early p [(0, fp + 8192)] identity_1gb 3 /\ p_source p = mm /\ agree_out m (p_mem p) /\
    tables_ok (p_mem p) /\ length crs' = 16%nat).
Proof.
  intros Hmm Hz Hcr. unfold init_cpu.
  change (machine_boot m mm rsdp crs t) with
    (boot_machine (mkPaging m 0 0 0 mm) 0xFEE00000 0xFEC00000 rsdp 0 nkern_boot crs t).
  run_step. apply on_cr_boot. eapply runs_done; [reflexivity|]. cbv beta.
  match goal with |- context [<[?c:=?r]> crs] => set (crs' := <[c:=r]> crs) end.
  assert (length crs' = 16%nat) as Hcr' by (unfold crs'; by rewrite length_insert).
  run_step. apply on_paging_boot. run_call paging_init_early; [done|done|].
  intros _ p (He & Hs & Hm).
  run_step. apply on_term_boot. eapply runs_done; [reflexivity|]. cbv beta.
  run_steps. apply on_mem_boot. eapply runs_done; [apply gdt_init_run|].
  cbv beta. set (m1 := setup_mem _ _ _ _ _).
  assert (forall x, ~ (i_gdt img <= x < i_gdt img + 104) -> ~ (i_gdt_ptr img <= x < i_gdt_ptr img + 10) ->
    ~ (i_tss img <= x < i_tss img + 416) -> m1 x = p_mem p x) as H1 by (intros; by apply gdt_init_out).
  run_steps. apply on_mem_boot.
  inside 0%nat. inside 1%nat. inside 2%nat. inside 3%nat. inside 5%nat. inside 6%nat. pose proof (io_end img_ok).
  apart 0%nat 1%nat. apart 0%nat 2%nat. apart 0%nat 3%nat. apart 0%nat 5%nat. apart 0%nat 6%nat.
  apart 1%nat 5%nat. apart 1%nat 6%nat. apart 2%nat 5%nat. apart 2%nat 6%nat. apart 3%nat 5%nat. apart 5%nat 6%nat.
  unfold POOL_FRAMES in *.
  destruct (idt_init_run (i_idt img) (i_idt_ptr img) (i_isr img) (io_isr img_ok) m1)
    as (m2 & E2 & T1 & T2 & T3 & H2); [lia|unfold disjoint_range; lia| |].
  { intros x Hx. rewrite H1 by lia. rewrite Hm by (unfold POOL_FRAMES; lia). by apply Hz. }
  eapply runs_done; [exact E2|]. cbv beta. run_steps.
  exists (with_mem p m2), crs', (final (terminal64_init t)). split; [reflexivity|].
  split; [|split; [done|]]; [|split; [|split; [|done]]].
  - apply early_mem; [done|]. unfold POOL_FRAMES. intros x Hx. rewrite H2, H1 by lia. done.
  - intros x Hx. unfold in_image in Hx. cbn [with_mem p_mem]. rewrite H2, H1 by lia.
    apply Hm. unfold POOL_FRAMES. lia.
  - destruct (gdt_init_segments _ _ _ _ image_gdt_layout (p_mem p)) as (m' & E & G1 & G2 & G3 & G4 & G5 & G6 & G7 & _).
    rewrite gdt_init_run in E. injection E as E. fold m1 in E. subst m'.
    assert (forall n a, (i_gdt img <= a /\ a + Z.of_nat n <= i_gdt img + 104) \/
      (i_gdt_ptr img <= a /\ a + Z.of_nat n <= i_gdt_ptr img + 10) -> load n m2 a = load n m1 a) as Hl.
    { intros n a Ha. apply load_ext. intros x Hx. apply H2; lia. }
    unfold SEL_KCODE, SEL_KDATA, SEL_UCODE, SEL_UDATA in *.
    split; unfold SEL_KCODE, SEL_KDATA, SEL_UCODE, SEL_UDATA; cbn [with_mem p_mem];
      rewrite ?Hl by (cbn; lia); done.
Qed.

(** ** init_interrupts *)

(** The firmware's tables in memory [m]: the root pointer, the MADT with its entries,
    the addresses of the local APIC and of the first I/O APIC, and the identifiers of
    the enabled processors. *)
Record fw_tables (rsdp madt : Z) (es : list Z) (lapic ioapic : Z) (ids : list Z) (m : mem) : Prop := {
  fw_rsdp : bios_rsdp m = Some rsdp;
  fw_madt : madt_entries_of (mkAcpi m rsdp) madt es;
  fw_lapic : load32 m (madt + 36) = lapic;
  fw_ioapic : head (omap (ioapic_of m) es) = Some ioapic;
  fw_ids : omap (enabled_cpu m) es = ids
}.

(** Registers that [paging_map_mmio_2mb] can map, outside of the gigabyte that holds the
    private pages of the threads. *)
Definition mmio_addr (pa : Z) : Prop := 0 < pa < 2 ^ 39 /\ pa mod 2 ^ 21 = 0 /\ pa / 2 ^ 30 <> 1.

Lemma with_mem_id (p : paging memmap) : with_mem p (p_mem p) = p.
Proof. by destruct p. Qed.

Lemma pool_only_trans p1 p2 p3 : pool_only p1 p2 -> pool_only p2 p3 -> pool_only p1 p3.
Proof. intros [A1 A2] [B1 B2]. split; [congruence|]. intros x Hx. rewrite B2, A2; done. Qed.

Section Interrupts.
Context (bsp : apic_dev).

(** Device registers are mapped before they are used. *)
Lemma in_paging_map (a : apic memmap) pds K n pa :
  early (x_paging a) pds K n -> n < POOL_FRAMES -> mmio_addr pa ->
  runs (in_paging (paging_map_mmio_2mb fp pa)) a (fun _ a' => exists p' pds',
    a' = set_paging p' a /\ early p' pds' (mmio_map K pa) (n + 1) /\ pool_only (x_paging a) p').
Proof.
  intros He Hn (Hpa & Hal & Hgb). apply runs_zoom. run_call map_mmio_early; [exact He|done|lia|done|done|].
  intros _ p' (pds' & He' & Hp). by exists p', pds'.
Qed.

Lemma lapic_enable_early (a : apic memmap) pds K n :
  early (x_paging a) pds K n -> n < POOL_FRAMES -> mmio_addr (lapic_base_pa a) ->
  runs (lapic_enable fp bsp) a (fun _ a' => exists p' pds',
    a' = set_paging p' a /\ early p' pds' (mmio_map K (lapic_base_pa a)) (n + 1) /\
    pool_only (x_paging a) p').
Proof.
  intros He Hn Hpa. unfold lapic_enable, LAPIC_REG_write. run_step. run_step. run_step.
  run_call in_paging_map; [exact He|done|exact Hpa|]. intros _ a' (p' & pds' & -> & He' & Hp).
  run_steps. by exists p', pds'.
Qed.

Lemma ioapic_write_early (a : apic memmap) pds K n reg v :
  early (x_paging a) pds K n -> n < POOL_FRAMES -> mmio_addr (ioapic_base_pa a) ->
  runs (ioapic_write fp reg v) a (fun _ a' => exists p' pds',
    a' = set_paging p' a /\ early p' pds' (mmio_map K (ioapic_base_pa a)) (n + 1) /\
    pool_only (x_paging a) p').
Proof.
  intros He Hn Hpa. unfold ioapic_write. run_step. run_step. run_step.
  run_call in_paging_map; [exact He|done|exact Hpa|]. intros _ a' (p' & pds' & -> & He' & Hp).
  run_steps. by exists p', pds'.
Qed.

Lemma on_acpi_boot {A} p lapic ioapic rsdp hl lk crs t (m : M acpi A) Q :
  runs m (mkAcpi (p_mem p) rsdp) (fun a x =>
    Q a (boot_machine (with_mem p (a_mem x)) lapic ioapic (g_rsdp x) hl lk crs t)) ->
  runs (on_acpi m) (boot_machine p lapic ioapic rsdp hl lk crs t) Q.
Proof. intros H. apply on_apic_boot, runs_zoom. exact H. Qed.

Lemma init_interrupts_runs p l0 i0 hl lk crs t pds K rsdp madt es lapic ioapic ids :
  early p pds K 3 -> fw_tables rsdp madt es lapic ioapic ids (p_mem p) ->
  mmio_addr lapic -> mmio_addr ioapic ->
  Z.testbit (cpuid1_edx bsp) 9 = true -> wait_out2 bsp (poll_fuel bsp) 1 = true ->
  runs (init_interrupts img bsp) (boot_machine p l0 i0 0 hl lk crs t) (fun _ s => exists p' pds',
    s = boot_machine p' lapic ioapic rsdp hl lk crs t /\
    early p' pds' (mmio_map (mmio_map (mmio_map K lapic) ioapic) ioapic) 6 /\ pool_only p p').
Proof.
  intros He [Hr Hm Hl Hi _] Hla Hia Hc Hw. unfold init_interrupts.
  run_step. apply on_acpi_boot. eapply runs_done.
  { rewrite acpi_find_rsdp_bios_run. cbn [g_rsdp a_mem Z.eqb negb]. rewrite Hr. reflexivity. }
  cbv beta. cbn [a_mem set_rsdp g_rsdp]. rewrite with_mem_id.
  run_step. apply on_apic_boot. unfold apic_check_supported.
  destruct (Z.eqb_spec (Z.land (cpuid1_edx bsp) (Z.shiftl 1 9)) 0) as [E|_].
  { change (Z.shiftl 1 9) with (2 ^ 9) in E. apply land_bit_zero in E; [congruence|lia]. }
  run_steps. apply on_apic_boot. cbn [x_paging lapic_base_pa ioapic_base_pa x_rsdp].
  destruct (apic_apply_acpi_bases_run (mkApic l0 i0 rsdp p) madt es ioapic) as
    ([la ia ra pa] & tr & E & Ep & El & Ei & Er); [done|done|unfold mmio_addr in Hia; lia|].
  eapply runs_done; [exact E|]. cbn [x_paging lapic_base_pa ioapic_base_pa x_rsdp] in *. subst la ia ra pa. rewrite Hl.
  run_step. apply on_apic_boot. eapply runs_done; [reflexivity|]. cbn [x_paging lapic_base_pa ioapic_base_pa x_rsdp].
  run_step. apply on_apic_boot. run_call lapic_enable_early; [exact He|done|exact Hla|].
  intros _ a1 (p1 & pds1 & -> & He1 & Hp1). cbn [set_paging x_paging lapic_base_pa ioapic_base_pa x_rsdp] in *.
  run_step. apply on_apic_boot. unfold ioapic_set_redirect. cbv zeta. run_step.
  run_call ioapic_write_early; [exact He1|done|exact Hia|].
  intros _ a2 (p2 & pds2 & -> & He2 & Hp2). cbn [set_paging x_paging lapic_base_pa ioapic_base_pa x_rsdp] in *.
  run_call ioapic_write_early; [exact He2|done|exact Hia|].
  intros _ a3 (p3 & pds3 & -> & He3 & Hp3). cbn [set_paging x_paging lapic_base_pa ioapic_base_pa x_rsdp] in *.
  run_step. apply on_apic_boot. unfold apic_timer_init. run_step.
  change (udiv 1000 100) with (ret (S := apic memmap) 10). run_step. cbv beta.
  run_step. eapply runs_done; [rewrite lapic_calibrate_run, Hw; reflexivity|]. cbv beta. unfold LAPIC_REG_write.
  run_steps. cbn [x_paging lapic_base_pa ioapic_base_pa x_rsdp].
  exists p3, pds3. split; [done|]. split; [done|]. by do 2 (eapply pool_only_trans; [eassumption|]).
Qed.
End Interrupts.

(** ** init_memory *)

(** What the boot loader reports: nothing on the UEFI path, where the regions are known
    already, or the table at [mbi]. *)
Definition loader_map (mbi : Z) (rs : list region_t) (m : mem) : Prop :=
  (mbi = 0 /\ rs = []) \/
  exists q es, 0 < mbi /\ Z.testbit (load32 m mbi) 6 = true /\ load32 m (mbi + 48) = q /\
    load32 m (mbi + 44) = mmap_bytes es /\ q + mmap_bytes es < 2 ^ 32 /\ mmap_at m q es /\
    rs = concat (mb_region <$> es).

(** The memory map from then on. *)
Definition map_after (mm : memmap) (rs : list region_t) : memmap :=
  mkMemmap (regions (add_regions rs mm)) true 0x100000 (i_kernel_end img) 0 0.

Record regions_ok (mm : memmap) (rs : list region_t) : Prop := {
  ro_fit : regions_fit mm;
  ro_ok : Forall region_ok (regions (add_regions rs mm));
  ro_apart : regions_apart (regions (add_regions rs mm))
}.

Lemma map_after_wf mm rs : regions_ok mm rs -> memmap_wf (map_after mm rs).
Proof.
  intros [_ Hok _]. pose proof (io_end img_ok) as [? ?]. inside 0%nat. unfold POOL_FRAMES in *.
  split; cbn [map_after regions reserve_start reserve_end cur_offset cur_region]; try done; try lia.
Qed.

(** The reserved range keeps the pool, and the whole image, out of the allocator's hands. *)
Lemma frames_outside_image mm rs f : regions_ok mm rs -> f ∈ frames_left (map_after mm rs) ->
  f mod 4096 = 0 /\ i_kernel_end img <= f.
Proof.
  intros Hro Hf. apply frames_left_elem in Hf as (r & _ & _ & Hm & Hu); [|by apply map_after_wf].
  split; [done|]. unfold usable in Hu. cbn [map_after reserve_start reserve_end] in Hu.
  destruct (Z.leb_spec 0x100000 f), (Z.ltb_spec f (i_kernel_end img)), (Z.ltb_spec 0x100000 (f + 4096));
    cbn in Hu; try done; lia.
Qed.

Lemma kmap_activate (p : paging memmap) pds K mm rs :
  kmap fp p pds K -> Forall in_pool (kernel_tables pds p) -> regions_ok mm rs ->
  kmap fp (put_map (map_after mm rs) p) pds K.
Proof.
  intros Hk Ht Hro. pose proof (km_wf _ _ _ _ Hk) as (Hp & Hn & _).
  destruct Hk. split; try done.
  - split; [done|]. split; [done|]. intros _. split; [by apply map_after_wf|]. apply (ro_apart _ _ Hro).
  - intros f Hf Hin. rewrite Forall_forall in Ht. destruct (Ht f Hf) as (j & Hj & ->).
    apply frames_outside_image in Hin as [_ Hin]; [|done]. inside 0%nat. lia.
Qed.

Section Memory.
Context (bsp : apic_dev) (resched : M nkern unit).
Local Abbreviation c := (Z.to_nat (get_cpu_index bsp)).
Local Abbreviation LO := (nkern_lock_ops c resched).

Lemma init_memory_runs p pds K n l i r hl lk crs t mbi rs :
  early p pds K n -> loader_map mbi rs (p_mem p) -> regions_ok (p_source p) rs ->
  lock_idle (KernLockOps := LO) lk ->
  runs (init_memory img bsp resched mbi) (boot_machine p l i r hl lk crs t) (fun _ s => exists p' lk',
    s = boot_machine p' l i r (i_heap_arena img) lk' crs t /\
    kmap fp p' pds K /\ Forall in_pool (kernel_tables pds p') /\
    p_source p' = map_after (p_source p) rs /\
    heap_inv (LO := LO) (i_heap_arena img) (mkHeap (p_mem p') (i_heap_arena img) lk') initial_blocks /\
    forall x, outside_arena (i_heap_arena img) x -> p_mem p' x = p_mem p x).
Proof.
  intros [Hk Ha _ Ht _] Hlm Hro Hl. unfold init_memory. run_steps. apply on_map_boot.
  eapply (runs_done _ _ tt (add_regions rs (p_source p)) []).
  { change (memmap_parse_multiboot (p_mem p) mbi (p_source p) = Done tt (add_regions rs (p_source p)) []).
    destruct Hlm as [[-> ->]|(q & es & H1 & H2 & H3 & H4 & H5 & H6 & ->)].
    - rewrite add_regions_nil by apply (ro_fit _ _ Hro). reflexivity.
    - by eapply memmap_parse_multiboot_run; [..|apply (ro_fit _ _ Hro)]. }
  cbv beta. run_step. apply on_map_boot. eapply runs_done; [reflexivity|]. cbv beta.
  match goal with |- runs _ (boot_machine ?q _ _ _ _ _ _ _) _ =>
    change q with (put_map (map_after (p_source p) rs) p) end.
  set (q := put_map (map_after (p_source p) rs) p).
  assert (kmap fp q pds K) as Hkq by (by apply kmap_activate).
  destruct (heap_init_sim (LO := LO) (i_heap_arena img) (mkHeap (p_mem q) hl lk) image_arena_ok Hl)
    as (h1 & E1 & Hi1).
  run_step. apply on_heap_boot. eapply runs_done; [exact E1|]. cbv beta.
  destruct (heap_self_test_run (LL := nkern_lock c resched) (i_heap_arena img) h1 Hi1)
    as ([] & h2 & t2 & E2 & Hi2 & _ & _ & Hm).
  assert (forall x, outside_arena (i_heap_arena img) x -> h_mem h2 x = p_mem p x) as Hout.
  { intros x Hx. rewrite Hm by done. apply (heap_init_out (i_heap_arena img) _ _ x E1).
    unfold outside_arena, HEAP_SIZE in *. lia. }
  apply on_heap_boot. destruct h1 as [m1 hl1 lk1]. eapply runs_done; [exact E2|]. cbv beta.
  pose proof (inv_list _ _ _ Hi2) as El. destruct h2 as [m2 hl2 lk2]. cbn [heap_list] in El. subst hl2.
  exists (with_mem q m2), lk2. cbn [h_mem heap_list h_lock] in *. split_and!; try done.
  apply kmap_same; [done|]. intros t' Hin x Hx. symmetry. apply Hout.
  rewrite Forall_forall in Ht. pose proof (pool_frame_range _ _ (Ht t' Hin) Hx). apart 0%nat 7%nat.
  unfold outside_arena, POOL_FRAMES, HEAP_SIZE in *. lia.
Qed.
End Memory.
End Boot.
