(* ===== verification/Boot64Theorems.v ===== *)
(** * The boot of the 64-bit kernel as a whole

    [kernel_main64] from its entry to the scheduling of the threads: the stages of
    [Boot64] put together, the threads, the other processors, and the idle loop. *)

From Stdlib Require Import FunctionalExtensionality.
From S2P Require Import Terminal64.
From S2P Require Import Prelude Memory Machine Runs KernLock NKern NKernSmp FrameSource.
From S2P Require Import Heap HeapSpec HeapMem HeapProof HeapClient HeapTheorems HeapSelfTest.
From S2P Require Import Memmap MemmapParse MemmapProof MemmapTheorems.
From S2P Require Import Paging PagingSpec PagingProof PagingTheorems AddressSpaces.
From S2P Require Import Sched64 Sched64Spec Sched64Proof Sched64Run Sched64Theorems.
From S2P Require Import Keyboard Fpu Gdt64 Gdt64Theorems Acpi AcpiTheorems Apic ApicTheorems Idt IdtTheorems.
From S2P Require Import Kernel64 Smp SmpTheorems Main64 Main64Theorems Boot64.

(** ** Invariants under steps elsewhere *)

(** The queues do not depend on the memory, the lock or the stack pointers. *)
Lemma sched_inv_core (s s' : sched (paging memmap)) rings :
  sched_core s' = sched_core s -> length (cpu_rsp s') = MAX_SCHED_CPUS -> sched_inv s rings -> sched_inv s' rings.
Proof.
  intros E Hl Hi. unfold sched_core in E. injection E as E1 E2 E3 E4 E5 E6 E7.
  apply (inv_same s); [done| |].
  - split; rewrite ?E1, ?E2, ?E3, ?E4, ?E5, ?E6, ?E7; try done.
    + destruct (sv_cpu_len _ _ Hi) as [H _]. by rewrite Hl, H.
    + intros i. unfold thr. by rewrite E4.
  - intros c i. unfold running. rewrite E3. apply (sv_current _ _ Hi).
Qed.

(** The heap does not depend on the memory outside its arena. *)
Lemma heap_inv_same {L} {LO : KernLockOps L} arena m m' hl (lk : L) bs :
  heap_inv arena (mkHeap m hl lk) bs -> (forall x, arena <= x < arena + HEAP_SIZE -> m' x = m x) ->
  heap_inv arena (mkHeap m' hl lk) bs.
Proof.
  intros [Ha Hl Hseg Hok Hsp Hco Hlk] Hm. split; try done. cbn [h_mem] in *.
  apply (seg_frame m); [done..|]. rewrite Hsp. intros x Hx. symmetry. by apply Hm.
Qed.

(** A lock that is idle for the heap is ready for the scheduler. *)
Lemma idle_ready c resched (s : sched (paging memmap)) :
  lock_idle (KernLockOps := nkern_lock_ops c resched) (s_lock s) -> lock_ready c s.
Proof. intros (H1 & H2 & H3 & _ & H5). exact (conj H1 (conj H2 (conj H3 H5))). Qed.

(** ** The idle loop *)

Section Idle.
Context (c : nat).

Lemma idle_turns_runs n (Q : sched (paging memmap) -> Prop) : forall s,
  runs (repeatM n (sched64_reschedule c)) (m_sched s) (fun _ r => Q r) ->
  runs (idle_turns n c) s (fun _ s' => Q (m_sched s')).
Proof.
  induction n as [|n IH]; intros s H; cbn [repeatM idle_turns] in *.
  { destruct H as (a & s' & t & E & H). unfold ret in E. simplify_eq. by apply runs_ret. }
  destruct H as (a & s' & t & E & H). unfold bind in E.
  destruct (sched64_reschedule c (m_sched s)) as [[] s1 t1| |] eqn:E1; [|done..].
  destruct (repeatM n (sched64_reschedule c) s1) as [a2 s2 t2| |] eqn:E2; [|done..]. cbn in E. simplify_eq.
  unfold idle_turn. run_step. run_step. do 2 apply runs_zoom. eapply runs_done; [exact E1|]. run_step.
  apply IH. by eapply runs_done.
Qed.

(** The first turn starts the head of the highest ring, the others go round it. *)
Lemma idle_schedule n (s : machine) rings p :
  sched_inv (m_sched s) rings -> lock_ready c (m_sched s) -> top_prio rings = Some p ->
  running c (m_sched s) = None -> (c < MAX_SCHED_CPUS)%nat ->
  runs (idle_turns (S n) c) s (fun _ s' =>
    running c (m_sched s') = rings p !! (n mod length (rings p))%nat).
Proof.
  intros Hi Hl Ht Hr Hc. apply (idle_turns_runs (S n) (fun r => running c r = _)). cbn [repeatM].
  destruct (reschedule_sim c (m_sched s) rings Hi Hl) as (s1 & t1 & E1 & Hl1 & _ & _ & _ & _ & H).
  rewrite Ht in H. cbv zeta in H. rewrite Hr in H.
  pose proof (top_prio_spec _ _ Ht) as (_ & Hne & _).
  assert (turned (rings p) None = rings p) as Et by (unfold turned; by destruct (rings p)).
  rewrite Et in H. destruct H as (Hi1 & Hc1 & _).
  assert (forall q, upd_ring rings p (rings p) q = rings q) as Eu.
  { intros q. unfold upd_ring. by destruct (decide (q = p)) as [->|]. }
  assert (running c s1 = head (rings p)) as Hr1.
  { unfold running. rewrite Hc1. apply nth_insert_eq. by rewrite (sv_cur_len _ _ Hi). }
  destruct (round_robin_run c n s1 rings p) as (s2 & t2 & E2 & _ & Hr2); try done.
  { eapply inv_rings_ext; [|exact Hi1]. intros q. by rewrite Eu. }
  run_step. eapply runs_done; [exact E1|]. cbv beta. by eapply runs_done.
Qed.
End Idle.

Section Boot.
Context (img : image) (img_ok : image_ok img).
Context (bsp : apic_dev) (cpu_dev : Z -> apic_dev) (alive : Z -> bool) (resched : M nkern unit).
Local Abbreviation fp := (i_frame_pool img).
Local Abbreviation c := (Z.to_nat (get_cpu_index bsp)).
Local Abbreviation LO := (nkern_lock_ops c resched).

(** Object [i], or two of them, in the context. *)
Ltac inside i :=
  let H := fresh "Hin" in
  pose proof (Forall_lookup_1 _ _ i _ (io_inside img img_ok) eq_refl) as H; cbn [fst snd] in H.
Ltac apart i j :=
  let H := fresh "Hap" in
  pose proof (objects_apart img img_ok i j _ _ ltac:(lia) eq_refl eq_refl) as H; cbn [fst snd] in H;
  unfold disjoint_range in H.

(** The thread array is an object of the image, and the frames lie beyond the image. *)
Lemma spared_object fs i o x :
  (i < 8)%nat -> objects img !! i = Some o -> Forall (fun f => i_kernel_end img <= f) fs ->
  o.1 <= x < o.1 + o.2 -> spared img fs x.
Proof.
  intros Hi Ho Hf Hx. pose proof (Forall_lookup_1 _ _ i _ (io_inside img img_ok) Ho) as Hin.
  pose proof (objects_apart img img_ok i 8 _ _ Hi Ho eq_refl) as Hap. unfold disjoint_range in Hap.
  cbn [fst snd] in Hap. split; [|lia]. intros f Hfs. rewrite Forall_forall in Hf. specialize (Hf f Hfs).
  cbn beta in *. lia.
Qed.

(** ** The threads *)

Lemma threads_stage (p : paging memmap) lk pds K fs rest :
  kmap fp p pds K -> Forall (in_pool img) (kernel_tables pds p) -> pd_of pds 1 = None ->
  avail fp p = fs ++ rest -> length fs = 26%nat -> Forall frame_ok fs ->
  runs (create_threads img) (set_klock lk (sched_boot p)) (fun _ s =>
    sched_inv s boot_rings /\ (forall d, running d s = None) /\ s_lock s = lk /\
    kmap fp (s_space s) pds K /\ same_but img fs p (s_space s) /\
    NoDup [cr3 (thr 0 s); cr3 (thr 1 s); cr3 (thr 2 s); cr3 (thr 3 s)]).
Proof.
  intros Hk Ht Hu Hav Hlen Hok.
  pose proof (avail_NoDup _ _ (km_wf _ _ _ _ Hk)) as Hnd. rewrite Hav in Hnd.
  apply NoDup_app in Hnd as (Hnd & _ & _).
  run_call (create_threads_run img pds K); [reflexivity..|exact Hk|done| |apply (io_entries _ img_ok)|exact Hav|done|done|].
  { intros t Hin. rewrite Forall_forall in Ht. destruct (Ht t Hin) as (j & Hj & ->).
    apart 0%nat 8%nat. unfold disjoint_range, POOL_FRAMES in *. lia. }
  intros _ s (H1 & H2 & H3 & H4 & _ & R0 & R1 & R2 & R3 & Hs). split_and!; try done.
  rewrite R0, R1, R2, R3. by apply boot_cr3_NoDup.
Qed.

(** ** The other processors *)

(** The machine once the threads exist. *)
Definition threads_machine (s : sched (paging memmap)) (lapic ioapic rsdp : Z) (crs : list cpu_cr)
    (t : term) : machine :=
  mkMachine (mkKernel s kbd_boot lapic ioapic rsdp 0 false) (i_heap_arena img) crs t (replicate 8 0) (-1).

Local Abbreviation smp_inv := (smp_ok fp (i_gdt img) (i_gdt_ptr img) (i_tss img) (i_kstack0 img)
  (i_ap_entry64 img) (i_trampoline img) bsp resched (i_heap_arena img)).

(** The descriptor tables lie apart from everything the start of a processor writes. *)
Lemma table_byte_apart x :
  table_byte img x ->
  0x8120 <= x /\ ~ (i_heap_arena img <= x < i_heap_arena img + HEAP_SIZE) /\
  ~ (i_gdt img + 40 <= x < i_gdt img + 104) /\ ~ (i_tss img <= x < i_tss img + 416) /\
  ~ (fp <= x < fp + 4096 * POOL_FRAMES).
Proof.
  intros Hx. destruct Hx as [Hx|[Hx|[Hx|Hx]]].
  - inside 1%nat. apart 1%nat 7%nat. apart 1%nat 3%nat. apart 0%nat 1%nat. unfold POOL_FRAMES in *.
    split_and!; lia.
  - inside 2%nat. apart 2%nat 7%nat. apart 1%nat 2%nat. apart 2%nat 3%nat. apart 0%nat 2%nat. unfold POOL_FRAMES in *.
    split_and!; lia.
  - inside 5%nat. apart 5%nat 7%nat. apart 1%nat 5%nat. apart 3%nat 5%nat. apart 0%nat 5%nat. unfold POOL_FRAMES in *.
    split_and!; lia.
  - inside 6%nat. apart 6%nat 7%nat. apart 1%nat 6%nat. apart 3%nat 6%nat. apart 0%nat 6%nat. unfold POOL_FRAMES in *.
    split_and!; lia.
Qed.

Lemma image_smp_layout tables :
  Forall (in_pool img) tables ->
  smp_layout (i_gdt img) (i_gdt_ptr img) (i_tss img) (i_kstack0 img) (i_ap_entry64 img)
    (i_trampoline img) (i_heap_arena img) (table_byte img) tables.
Proof.
  intros Hall. pose proof Hall as Ht. rewrite Forall_forall in Ht. pose proof (io_end img img_ok).
  split.
  - by apply image_gdt_layout.
  - inside 2%nat. lia.
  - apply (io_ap img img_ok).
  - apply (io_blob img img_ok).
  - inside 7%nat. lia.
  - apart 1%nat 7%nat. unfold disjoint_range. lia.
  - apart 3%nat 7%nat. unfold disjoint_range. lia.
  - intros t (j & Hj & ->)%Ht. inside 0%nat. apart 0%nat 1%nat. apart 0%nat 3%nat. apart 0%nat 7%nat.
    unfold POOL_FRAMES, disjoint_range in *. split_and!; lia.
  - intros x Hx. destruct (table_byte_apart x Hx) as (H1 & H2 & H3 & H4 & H5). split_and!; try done.
    intros t' Hin Hr. apply H5. eapply pool_frame_range; [by apply Ht|exact Hr].
Qed.

Lemma threads_machine_ok (s : sched (paging memmap)) pds K lapic ioapic rsdp crs t :
  sched_inv s boot_rings -> kmap fp (s_space s) pds K -> Forall (in_pool img) (kernel_tables pds (s_space s)) ->
  heap_inv (LO := LO) (i_heap_arena img) (mkHeap (p_mem (s_space s)) (i_heap_arena img) (s_lock s)) initial_blocks ->
  mmio_addr lapic -> K (lapic / 2 ^ 21) = 0x93 -> length crs = 16%nat ->
  smp_inv pds (table_byte img) (p_mem (s_space s)) s K (threads_machine s lapic ioapic rsdp crs t) initial_blocks.
Proof.
  intros Hi Hk Ht Hh (Hla & Hal & Hgb) HK Hcr. split; try done.
  - by apply image_smp_layout.
  - apply (sv_cpu_len _ _ Hi).
  - split; [cbn; lia|done].
  - cbn [threads_machine m_kernel k_lapic]. destruct (pd_of pds (lapic / 2 ^ 30)) as [pd|] eqn:E; [by exists pd|].
    rewrite (km_none _ _ _ _ Hk) in HK; [done|]. by replace (lapic / 2 ^ 21 / 512) with (lapic / 2 ^ 30) by dlia.
Qed.

(** ** The machine when interrupts are enabled *)

(** The pages of the kernel: the first gigabyte and the registers of both controllers. *)
Definition boot_map (lapic ioapic : Z) : Z -> Z :=
  mmio_map (mmio_map (mmio_map identity_1gb lapic) ioapic) ioapic.

Record booted (lapic ioapic : Z) (s : machine) : Prop := {
  (** queues with A, B, the launcher and C, none of them running, each with a space of
      its own *)
  bt_sched : sched_inv (m_sched s) boot_rings;
  bt_idle d : running d (m_sched s) = None;
  bt_spaces : NoDup [cr3 (thr 0 (m_sched s)); cr3 (thr 1 (m_sched s)); cr3 (thr 2 (m_sched s));
                     cr3 (thr 3 (m_sched s))];
  (** a heap of which only the stacks of other processors are taken, and its lock free *)
  bt_heap : exists k, (k <= 8)%nat /\
    heap_inv (LO := LO) (i_heap_arena img) (heap_of s) (stack_blocks k);
  (** page tables *)
  bt_walk va : 0 <= va < 2 ^ 48 ->
    walk (m_mem s) (kernel_pml4 (m_paging s)) va = kernel_xlat (boot_map lapic ioapic) va;
  (** descriptor tables *)
  bt_tables : tables_ok img (m_mem s)
}.

(** A machine on which the other processors were started is one to enable interrupts on. *)
Lemma smp_booted (s : sched (paging memmap)) pds lapic ioapic k s' :
  smp_inv pds (table_byte img) (p_mem (s_space s)) s (boot_map lapic ioapic) s' (stack_blocks k) ->
  (k <= 8)%nat -> sched_inv s boot_rings -> (forall d, running d s = None) ->
  NoDup [cr3 (thr 0 s); cr3 (thr 1 s); cr3 (thr 2 s); cr3 (thr 3 s)] ->
  tables_ok img (p_mem (s_space s)) -> booted lapic ioapic s'.
Proof.
  intros Hs Hk Hi Hr Hnd Ht. pose proof (so_core _ _ _ _ _ _ _ _ _ _ _ _ _ _ _ _ _ Hs) as Hc.
  pose proof Hc as Hc'. unfold sched_core in Hc'. injection Hc' as _ _ E3 E4 _ _ _.
  split.
  - eapply sched_inv_core; [exact Hc|apply Hs|done].
  - intros d. unfold running. rewrite E3. apply Hr.
  - unfold thr. rewrite E4. exact Hnd.
  - exists k. split; [done|apply Hs].
  - intros va Hva. by apply (kernel_walk fp _ pds); [apply Hs|].
  - eapply tables_ok_same; [exact Ht|apply Hs].
Qed.

(** ** What the kernel is started on *)

(** The memory [m] and the memory map [mm] at the entry of [kernel_main64], the table at
    [mbi] with the regions [rs], the firmware's tables, and the first 26 frames [fs] of
    usable memory.  The boot loader's and the firmware's tables are where the kernel
    writes nothing before it reads them: whatever is put in the image, and into the frames,
    they are found. *)
Record boot_env (m : mem) (mm : memmap) (crs : list cpu_cr) (mbi : Z) (rs : list region_t)
    (fs rest : list Z) (rsdp madt : Z) (es : list Z) (lapic ioapic : Z) (ids : list Z) : Prop := {
  be_inactive : map_active mm = false;
  be_bss x : i_idt img <= x < i_idt img + 4096 -> m x = 0;
  be_crs : length crs = 16%nat;
  be_loader m' : agree_out img m m' -> loader_map mbi rs m';
  be_regions : regions_ok mm rs;
  be_frames : frames_left (map_after img mm rs) = fs ++ rest;
  be_first : length fs = 26%nat /\ Forall frame_ok fs;
  be_firmware m' : (forall x, ~ in_image img x -> (forall f, f ∈ fs -> ~ (f <= x < f + 4096)) -> m' x = m x) ->
    fw_tables rsdp madt es lapic ioapic ids m';
  be_lapic : mmio_addr lapic;
  be_ioapic : mmio_addr ioapic;
  be_cpuid : Z.testbit (cpuid1_edx bsp) 9 = true;
  be_pit : wait_out2 bsp (poll_fuel bsp) 1 = true;
  be_aps : Forall (fun id => alive id = true -> wait_out2 (cpu_dev id) (poll_fuel (cpu_dev id)) 1 = true) ids;
  be_resched : only (fun e => is_icr e = false) resched
}.

Lemma boot_idle : lock_idle (KernLockOps := LO) nkern_boot.
Proof.
  pose proof (get_cpu_index_bounds bsp) as Hb. cbn [lock_idle nkern_lock_ops]. unfold nk_wf, MAX_CPUS.
  assert (c < 16)%nat as Hc by lia. clear Hb.
  do 16 (destruct c as [|c']; [by vm_compute|]; rename c' into c). lia.
Qed.

Section Run.
Context (m : mem) (mm : memmap) (crs : list cpu_cr) (t : term) (mbi : Z) (rs : list region_t).
Context (fs rest : list Z) (rsdp madt : Z) (es : list Z) (lapic ioapic : Z) (ids : list Z).
Context (env : boot_env m mm crs mbi rs fs rest rsdp madt es lapic ioapic ids).

(** The frames lie beyond the image. *)
Lemma frames_beyond : Forall (fun f => i_kernel_end img <= f) fs.
Proof.
  apply Forall_forall. intros f Hf.
  apply (frames_outside_image img img_ok mm rs f (be_regions _ _ _ _ _ _ _ _ _ _ _ _ _ env)).
  rewrite (be_frames _ _ _ _ _ _ _ _ _ _ _ _ _ env). apply elem_of_app. by left.
Qed.

(** What [create_threads] finds. *)
Record mapped (p : paging memmap) (pds : list (Z * Z)) (lk : nkern) : Prop := {
  mp_kmap : kmap fp p pds (boot_map lapic ioapic);
  mp_user : pd_of pds 1 = None;
  mp_tables : Forall (in_pool img) (kernel_tables pds p);
  mp_source : p_source p = map_after img mm rs;
  mp_heap : heap_inv (LO := LO) (i_heap_arena img) (mkHeap (p_mem p) (i_heap_arena img) lk) initial_blocks;
  mp_out : agree_out img m (p_mem p);
  mp_desc : tables_ok img (p_mem p)
}.

(** From the entry to the memory map. *)
Lemma early_stages {A} (k : M machine A) (Q : A -> machine -> Prop) :
  (forall p pds lk crs' t', mapped p pds lk -> length crs' = 16%nat ->
     runs k (boot_machine p lapic ioapic rsdp (i_heap_arena img) lk crs' t') Q) ->
  runs (init_cpu img bsp ;;; init_interrupts img bsp ;;; init_memory img bsp resched mbi ;;; k)
    (machine_boot m mm 0 crs t) Q.
Proof.
  intros Hnext. destruct env as [Hina Hbss Hcrs Hload Hreg Hfr _ Hfw Hla Hia Hcpu Hpit _ _].
  run_step. run_call (init_cpu_runs img img_ok bsp m mm 0 crs t); [done..|].
  intros _ s1 (p1 & crs1 & t1 & -> & He1 & Hs1 & Ha1 & Ht1 & Hl1).
  run_step. run_call (init_interrupts_runs img img_ok bsp);
    [exact He1|apply Hfw; intros x Hx _; by apply Ha1|exact Hla|exact Hia|done|done|].
  intros _ s2 (p2 & pds & -> & He2 & Hs2 & Hm2).
  assert (agree_out img m (p_mem p2)) as Ha2.
  { intros x Hx. rewrite Hm2; [by apply Ha1|]. inside 0%nat. unfold in_image in Hx. lia. }
  run_step. run_call (init_memory_runs img img_ok bsp resched); [exact He2|by apply Hload|by rewrite Hs2, Hs1|apply boot_idle|].
  intros _ s3 (p3 & lk & -> & Hk3 & Ht3 & Hs3 & Hh3 & Hm3).
  apply (Hnext p3 pds lk crs1 t1); [|done]. split; try done.
  - apply (ea_user _ _ _ _ _ He2).
  - by rewrite Hs3, Hs2, Hs1.
  - intros x Hx. rewrite Hm3; [by apply Ha2|]. inside 7%nat. unfold outside_arena, in_image in *. lia.
  - apply (tables_ok_same img (p_mem p1)); [done|]. intros x Hx.
    destruct (table_byte_apart x Hx) as (_ & Hx7 & _ & _ & Hx0).
    rewrite Hm3, Hm2; [done|done|unfold outside_arena, HEAP_SIZE in *; lia].
Qed.

(** The threads and the other processors. *)
Lemma system_stage p pds lk crs' t' :
  mapped p pds lk -> length crs' = 16%nat ->
  runs (start_system img bsp cpu_dev alive resched)
    (boot_machine p lapic ioapic rsdp (i_heap_arena img) lk crs' t') (fun _ s => booted lapic ioapic s).
Proof.
  intros [Hk Hu Ht Hs Hh Ha Hd] Hcr.
  destruct env as [_ _ _ _ Hreg Hfr [Hlen Hok] Hfw Hla Hia _ _ Haps Hq]. pose proof frames_beyond as Hbey.
  unfold start_system. run_step. do 2 apply runs_zoom.
  run_call (threads_stage p lk pds (boot_map lapic ioapic) fs rest); [done..| |done|done|].
  { change (avail fp p = fs ++ rest). unfold avail. rewrite Hs. exact Hfr. }
  intros _ s (Hi & Hr & Hl & Hk' & (P4 & P3 & Hm) & Hnd).
  match goal with |- runs _ ?st _ => change st with (threads_machine s lapic ioapic rsdp crs' t') end.
  assert (forall i o x, (i < 8)%nat -> objects img !! i = Some o -> o.1 <= x < o.1 + o.2 ->
    p_mem (s_space s) x = p_mem p x) as Hobj.
  { intros i o x Hlt Ho Hx. apply Hm. by apply (spared_object fs i o). }
  assert (tables_ok img (p_mem (s_space s))) as Hd'.
  { eapply tables_ok_same; [exact Hd|]. intros x [Hx|[Hx|[Hx|Hx]]];
      [apply (Hobj 1%nat _ _ ltac:(lia) eq_refl)|apply (Hobj 2%nat _ _ ltac:(lia) eq_refl)
      |apply (Hobj 5%nat _ _ ltac:(lia) eq_refl)|apply (Hobj 6%nat _ _ ltac:(lia) eq_refl)]; cbn; lia. }
  destruct (Hfw (p_mem (s_space s))) as [_ Hmadt _ _ Hids].
  { intros x Hx Hf. rewrite Hm; [by apply Ha|]. split; [done|]. inside 8%nat. unfold in_image in Hx. lia. }
  run_steps. run_call (smp_start_aps_runs fp (i_gdt img) (i_gdt_ptr img) (i_tss img) (i_kstack0 img) (i_idt_ptr img)
    (i_ap_entry64 img) (i_trampoline img) cpu_dev alive bsp resched (i_heap_arena img) pds (table_byte img)
    (p_mem (s_space s)) s (boot_map lapic ioapic) Hq (threads_machine s lapic ioapic rsdp crs' t') madt es).
  - apply threads_machine_ok; try done.
    + unfold kernel_tables in *. by rewrite P4, P3.
    + rewrite Hl. eapply heap_inv_same; [exact Hh|]. intros x Hx.
      apply (Hobj 7%nat _ _ ltac:(lia) eq_refl). exact Hx.
    + unfold boot_map, mmio_map. rewrite Z.eqb_refl. by destruct (_ =? _).
  - exact Hmadt.
  - change (m_mem (threads_machine s lapic ioapic rsdp crs' t')) with (p_mem (s_space s)). rewrite Hids.
    by apply Forall_take.
  - intros n s' (k & Hk8 & Hs'). run_steps. by eapply smp_booted.
Qed.

(** Interrupts on, and the idle loop. *)
Lemma idle_stage s n :
  booted lapic ioapic s ->
  runs (on_sched (in_lock (sti c)) ;;; idle_turns (S n) c) s (fun _ s' =>
    running c (m_sched s') = [0; 1; 3]%nat !! (n mod 3)%nat).
Proof.
  intros [Hi Hr _ (k & _ & Hh) _ _]. pose proof (inv_lock _ _ _ Hh) as Hl.
  apply (idle_ready c resched (m_sched s)) in Hl as Hrdy.
  run_step. do 3 apply runs_zoom. eapply runs_done; [reflexivity|]. cbv beta.
  apply (idle_schedule c n _ boot_rings 5); [| |reflexivity|apply Hr|].
  - apply (inv_same (m_sched s)); [exact Hi|apply set_klock_links|apply (sv_current _ _ Hi)].
  - destruct Hrdy as (H1 & H2 & H3 & H4). split_and!; try done.
    destruct H1 as (? & ? & ? & ?). unfold nk_wf. cbn. rewrite length_insert. by split_and!.
  - apply Hrdy.
Qed.

End Run.
End Boot.

(** ** An environment

    15 MB of memory at 1 MB reported by the boot loader, a root pointer in the BIOS area
    and three processors, of which the third answers. *)

Definition boot_image : image :=
  mkImage 0x400000 0x110000 0x110100 0x111000 0x112000 0x11B000 0x11C000
    (fun v => 0x100000 + 16 * (v mod 256)) demo_arena 0x600000 0x103000 0x800000 0x101000 0x100800
    0x104000 0x104100 0x104200 0x104300 (replicate 0x120 0x90).

Lemma boot_image_ok : image_ok boot_image.
Proof.
  split; try done.
  - unfold objects. repeat (apply List.FOP_cons;
      [repeat (apply List.Forall_cons; [(left + right); vm_compute; discriminate|]); apply List.Forall_nil|]).
    apply List.FOP_nil.
  - unfold objects. repeat (apply List.Forall_cons; [split; vm_compute; discriminate|]). apply List.Forall_nil.
  - intros v. cbn. dlia.
Qed.

(** Memory below 1 MB is what the loader and the firmware left; above it may be anything. *)
Definition low_memory (m : mem) : mem :=
  fun x => if (0 <=? x) && (x <? 0x100000) then boot_mem x else m x.

Lemma low_memory_id m : (forall x, 0 <= x < 0x100000 -> m x = boot_mem x) -> m = low_memory m.
Proof.
  intros H. apply functional_extensionality. intros x. unfold low_memory.
  destruct (Z.leb_spec 0 x), (Z.ltb_spec x 0x100000); cbn; try done. by apply H.
Qed.

Lemma boot_tables m :
  fw_tables 0xE0000 0x3000 [0x302C; 0x3034; 0x303C; 0x3044] 0xFEE00000 0xFEC00000 [0; 1; 2] (low_memory m).
Proof.
  split; [by vm_compute| |by vm_compute..].
  split; [split; [discriminate|vm_compute; discriminate]|]. split; [vm_compute; reflexivity|].
  split; [lia|]. repeat (apply entries_cons; [vm_compute; reflexivity..|]).
  apply entries_end. vm_compute. discriminate.
Qed.

Definition boot_regions : list region_t := [mkRegion 0x100000 0xF00000].

Lemma boot_loader_map m : loader_map 0x9000 boot_regions (low_memory m).
Proof.
  right. exists 0x9100, [mkMb 20 0x100000 0xF00000 1]. split_and!; try (by vm_compute); lia.
Qed.

Definition boot_frames : list Z := (fun k => 0x800000 + 4096 * k) <$> seqZ 0 26.

Lemma boot_env_ok : boot_env boot_image (smp_dev 0) smp_dev smp_alive (ret tt) boot_mem memmap_boot
  (replicate 16 (mkCr 0x80000011 0x20)) 0x9000 boot_regions boot_frames
  (drop 26 (frames_left (map_after boot_image memmap_boot boot_regions)))
  0xE0000 0x3000 [0x302C; 0x3034; 0x303C; 0x3044] 0xFEE00000 0xFEC00000 [0; 1; 2].
Proof.
  split.
  - reflexivity.
  - intros x Hx. unfold boot_mem, mem_of. cbn [foldl]. rewrite !store_out; [done|cbn in *; lia..].
  - reflexivity.
  - intros m' Hm. rewrite (low_memory_id m'); [apply boot_loader_map|].
    intros x Hx. apply Hm. unfold in_image. lia.
  - split; [vm_compute; lia| |by repeat constructor].
    apply List.Forall_cons; [|apply List.Forall_nil]. split_and!; vm_compute; discriminate.
  - unfold boot_frames. rewrite <- (take_drop 26 (frames_left _)) at 1.
    apply (f_equal (fun l => l ++ _)). vm_compute. reflexivity.
  - split; [done|]. apply Forall_forall. intros f (k & -> & Hk)%list_elem_of_fmap.
    apply elem_of_seqZ in Hk. unfold frame_ok. dlia.
  - intros m' Hm. rewrite (low_memory_id m'); [apply boot_tables|].
    intros x Hx. apply Hm; [unfold in_image; lia|].
    intros f (k & -> & Hk)%list_elem_of_fmap. apply elem_of_seqZ in Hk. lia.
  - unfold mmio_addr. dlia.
  - unfold mmio_addr. dlia.
  - reflexivity.
  - vm_compute. reflexivity.
  - by repeat constructor.
  - apply only_ret.
Qed.

