(* ===== verification/X86.v ===== *)
(** * The processor, for the assembly sources

    The part of an x86-64 CPU that boot64.s, ap_trampoline.s, isr.s, usermode.s and the
    context switches use (Intel SDM vol. 2 and 3): general registers, flags, segment and
    control registers, the memory of [Memory], and the instructions of those files.
    Segments are flat and linear addresses are physical (the kernel's identity map); an
    instruction that would fault is [None].  Of the arithmetic flags only the condition of
    [jl] is kept, as the last [cmp] left it.  A program is a map from the address of a
    label to the instructions up to the next label or to the return of a call. *)

From S2P Require Import Prelude Memory Gdt64.

(** ** State *)

Inductive reg := RAX | RBX | RCX | RDX | RSI | RDI | RBP | RSP
               | R8 | R9 | R10 | R11 | R12 | R13 | R14 | R15.
Inductive sreg := CS | SS | DS | ES | FS | GS.
Inductive mode := Real16 | Prot32 | Long64.

#[export] Instance reg_eq_dec : EqDecision reg.
Proof. solve_decision. Defined.
#[export] Instance sreg_eq_dec : EqDecision sreg.
Proof. solve_decision. Defined.
#[export] Instance mode_eq_dec : EqDecision mode.
Proof. solve_decision. Defined.

Definition reg_eqb (r r' : reg) : bool := bool_decide (r = r').
Definition sreg_eqb (r r' : sreg) : bool := bool_decide (r = r').

Record cpu := mkCpu {
  gpr : reg -> Z;
  rip : Z;
  flags : Z;                  (* RFLAGS *)
  less : bool;                (* the condition of jl: SF <> OF *)
  seg : sreg -> Z;
  cr0 : Z; c_cr3 : Z; cr4 : Z; efer : Z;
  gdtr : Z * Z;               (* limit and base *)
  cmode : mode;
  xmm : nat -> Z;             (* XMM0-XMM15 *)
  ram : mem
}.

Definition set_gpr (r : reg) (v : Z) (c : cpu) : cpu :=
  mkCpu (fun r' => if reg_eqb r r' then v else gpr c r') (rip c) (flags c) (less c) (seg c)
    (cr0 c) (c_cr3 c) (cr4 c) (efer c) (gdtr c) (cmode c) (xmm c) (ram c).
Definition set_rip (v : Z) (c : cpu) : cpu :=
  mkCpu (gpr c) v (flags c) (less c) (seg c) (cr0 c) (c_cr3 c) (cr4 c) (efer c) (gdtr c) (cmode c) (xmm c) (ram c).
Definition set_flags (v : Z) (c : cpu) : cpu :=
  mkCpu (gpr c) (rip c) v (less c) (seg c) (cr0 c) (c_cr3 c) (cr4 c) (efer c) (gdtr c) (cmode c) (xmm c) (ram c).
Definition set_less (b : bool) (c : cpu) : cpu :=
  mkCpu (gpr c) (rip c) (flags c) b (seg c) (cr0 c) (c_cr3 c) (cr4 c) (efer c) (gdtr c) (cmode c) (xmm c) (ram c).
Definition set_seg (s : sreg) (v : Z) (c : cpu) : cpu :=
  mkCpu (gpr c) (rip c) (flags c) (less c) (fun s' => if sreg_eqb s s' then v else seg c s')
    (cr0 c) (c_cr3 c) (cr4 c) (efer c) (gdtr c) (cmode c) (xmm c) (ram c).
Definition set_cr0 (v : Z) (c : cpu) : cpu :=
  mkCpu (gpr c) (rip c) (flags c) (less c) (seg c) v (c_cr3 c) (cr4 c) (efer c) (gdtr c) (cmode c) (xmm c) (ram c).
Definition put_cr3 (v : Z) (c : cpu) : cpu :=
  mkCpu (gpr c) (rip c) (flags c) (less c) (seg c) (cr0 c) v (cr4 c) (efer c) (gdtr c) (cmode c) (xmm c) (ram c).
Definition set_cr4 (v : Z) (c : cpu) : cpu :=
  mkCpu (gpr c) (rip c) (flags c) (less c) (seg c) (cr0 c) (c_cr3 c) v (efer c) (gdtr c) (cmode c) (xmm c) (ram c).
Definition set_efer (v : Z) (c : cpu) : cpu :=
  mkCpu (gpr c) (rip c) (flags c) (less c) (seg c) (cr0 c) (c_cr3 c) (cr4 c) v (gdtr c) (cmode c) (xmm c) (ram c).
Definition set_gdtr (v : Z * Z) (c : cpu) : cpu :=
  mkCpu (gpr c) (rip c) (flags c) (less c) (seg c) (cr0 c) (c_cr3 c) (cr4 c) (efer c) v (cmode c) (xmm c) (ram c).
Definition set_mode (v : mode) (c : cpu) : cpu :=
  mkCpu (gpr c) (rip c) (flags c) (less c) (seg c) (cr0 c) (c_cr3 c) (cr4 c) (efer c) (gdtr c) v (xmm c) (ram c).
Definition set_ram (m : mem) (c : cpu) : cpu :=
  mkCpu (gpr c) (rip c) (flags c) (less c) (seg c) (cr0 c) (c_cr3 c) (cr4 c) (efer c) (gdtr c) (cmode c) (xmm c) m.

(** Bytes of a stack slot. *)
Definition wbytes (m : mode) : nat := match m with Real16 => 2 | Prot32 => 4 | Long64 => 8 end.
Definition wrap (m : mode) (v : Z) : Z := v mod 256 ^ Z.of_nat (wbytes m).

(** The current privilege level. *)
Definition cpl (c : cpu) : Z := match cmode c with Real16 => 0 | _ => Z.land (seg c CS) 3 end.

(** Bits of RFLAGS, CR0, CR4 and EFER. *)
Definition IF_BIT : Z := 9.
Definition PE_BIT : Z := 0.
Definition PG_BIT : Z := 31.
Definition PAE_BIT : Z := 5.
Definition LME_BIT : Z := 8.
Definition LMA_BIT : Z := 10.
Definition EFER_MSR : Z := 0xC0000080.

(** ** Operands *)

Inductive operand :=
| Reg (r : reg)
| Imm (v : Z)
| Mem (base : option reg) (index : option (reg * Z)) (disp : Z)   (* [base + index * scale + disp] *)
| Seg (s : sreg)
| Cr (n : Z).

Definition ea (base : option reg) (index : option (reg * Z)) (disp : Z) (c : cpu) : Z :=
  wrap (cmode c) (default 0 (gpr c <$> base) + match index with Some (r, k) => gpr c r * k | None => 0 end + disp).

(** The low [n] bytes. *)
Definition cut (n : nat) (v : Z) : Z := v mod 256 ^ Z.of_nat n.

Definition read (n : nat) (o : operand) (c : cpu) : option Z :=
  match o with
  | Reg r => Some (cut n (gpr c r))
  | Imm v => Some (cut n v)
  | Mem b i d => Some (load n (ram c) (ea b i d c))
  | Seg s => Some (seg c s)
  | Cr k => if k =? 0 then Some (cr0 c) else if k =? 3 then Some (c_cr3 c) else if k =? 4 then Some (cr4 c) else None
  end.

(** A write of a 32-bit register clears its upper half, a 16-bit one keeps the rest. *)
Definition merge (n : nat) (old v : Z) : Z :=
  if (n <? 4)%nat then old - cut n old + cut n v else cut n v.

(** The descriptor with selector [sel], if it is inside of the table. *)
Definition gdt_entry (sel : Z) (c : cpu) : option Z :=
  let off := sel - Z.land sel 7 in
  if (off + 7 <=? fst (gdtr c)) then Some (load64 (ram c) (snd (gdtr c) + off)) else None.

(** A flat data segment, or the null selector, which SS does not take. *)
Definition data_ok (s : sreg) (sel : Z) (c : cpu) : bool :=
  match cmode c with
  | Real16 => sel =? 0
  | _ =>
      if Z.land sel (Z.lnot 3) =? 0 then negb (sreg_eqb s SS)
      else match gdt_entry sel c with
           | Some q => let d := decode q 0 in
               (d_present d =? 1) && (d_segment d =? 1) && negb (Z.testbit (d_type d) 3) &&
               Z.testbit (d_type d) 1 && ((d_base d =? 0) || bool_decide (cmode c = Long64)) &&
               (if sreg_eqb s SS then (d_dpl d =? cpl c) && (Z.land sel 3 =? cpl c)
                else (cpl c <=? d_dpl d) && (Z.land sel 3 <=? d_dpl d))
           | None => false
           end
  end.

(** Paging needs protection, and in long mode PAE; turning it on with LME set activates
    long mode. *)
Definition write_cr0 (v : Z) (c : cpu) : option cpu :=
  if Z.testbit v PG_BIT && negb (Z.testbit v PE_BIT) then None
  else if Z.testbit v PG_BIT && negb (Z.testbit (cr0 c) PG_BIT) && Z.testbit (efer c) LME_BIT then
    if Z.testbit (cr4 c) PAE_BIT then Some (set_efer (Z.lor (efer c) (2 ^ LMA_BIT)) (set_cr0 v c)) else None
  else Some (set_cr0 v c).

Definition write (n : nat) (o : operand) (v : Z) (c : cpu) : option cpu :=
  match o with
  | Reg r => Some (set_gpr r (merge n (gpr c r) v) c)
  | Imm _ => None
  | Mem b i d => Some (set_ram (store n (ram c) (ea b i d c) v) c)
  | Seg s => if bool_decide (s = CS) then None
             else if data_ok s (cut 2 v) c then Some (set_seg s (cut 2 v) c) else None
  | Cr k =>
      if negb (cpl c =? 0) then None
      else if k =? 0 then write_cr0 v c
      else if k =? 3 then Some (put_cr3 v c)
      else if k =? 4 then
        if Z.testbit (efer c) LMA_BIT && negb (Z.testbit v PAE_BIT) then None else Some (set_cr4 v c)
      else None
  end.

(** ** Control transfer *)

Definition push (v : Z) (c : cpu) : cpu :=
  let w := wbytes (cmode c) in
  let sp := wrap (cmode c) (gpr c RSP - Z.of_nat w) in
  set_ram (store w (ram c) sp v) (set_gpr RSP sp c).

Definition top (c : cpu) : Z := load (wbytes (cmode c)) (ram c) (gpr c RSP).
Definition drop_top (c : cpu) : cpu :=
  set_gpr RSP (wrap (cmode c) (gpr c RSP + Z.of_nat (wbytes (cmode c)))) c.

(** Load CS with a code segment for privilege level [lvl]. *)
Definition load_cs (sel lvl : Z) (c : cpu) : option cpu :=
  match gdt_entry sel c with
  | None => None
  | Some q => let d := decode q 0 in
      if (d_present d =? 1) && (d_segment d =? 1) && Z.testbit (d_type d) 3 && (d_dpl d =? lvl) &&
         (Z.land sel 3 =? lvl) then
        if d_long d =? 1 then
          if Z.testbit (efer c) LMA_BIT && negb (Z.testbit q 54) then Some (set_mode Long64 (set_seg CS sel c))
          else None
        else if Z.testbit q 54 && (d_base d =? 0) then Some (set_mode Prot32 (set_seg CS sel c)) else None
      else None
  end.

(** The stack segment [iretq] may load for privilege level [lvl]: a writable data segment
    of that level, or the null selector below level 3. *)
Definition stack_seg_ok (sel lvl : Z) (c : cpu) : bool :=
  if Z.land sel (Z.lnot 3) =? 0 then (lvl <? 3) && (Z.land sel 3 =? lvl)
  else match gdt_entry sel c with
       | Some q => let d := decode q 0 in
           (d_present d =? 1) && (d_segment d =? 1) && negb (Z.testbit (d_type d) 3) &&
           Z.testbit (d_type d) 1 && (d_dpl d =? lvl) && (Z.land sel 3 =? lvl)
       | None => false
       end.

(** A return to an outer level clears the data segments that are not accessible there. *)
Definition outer_segs (lvl : Z) (c : cpu) (s : sreg) : Z :=
  match s with
  | CS | SS => seg c s
  | _ => match gdt_entry (seg c s) c with
         | Some q => if d_dpl (decode q 0) <? lvl then 0 else seg c s
         | None => seg c s
         end
  end.
Definition set_segs (f : sreg -> Z) (c : cpu) : cpu :=
  mkCpu (gpr c) (rip c) (flags c) (less c) f (cr0 c) (c_cr3 c) (cr4 c) (efer c) (gdtr c) (cmode c) (xmm c) (ram c).

(** [iretq] in long mode, to the same or an outer privilege level: it takes the address,
    CS, the flags, the stack pointer and SS from the stack. *)
Definition iretq (c : cpu) : option cpu :=
  match cmode c with
  | Long64 =>
      let w i := load64 (ram c) (wrap Long64 (gpr c RSP + 8 * i)) in
      let cs := cut 2 (w 1) in let ss := cut 2 (w 4) in let lvl := Z.land cs 3 in
      if (lvl <? cpl c) || negb (stack_seg_ok ss lvl c) then None
      else match load_cs cs lvl c with
           | Some c1 =>
               let c2 := if cpl c <? lvl then set_segs (outer_segs lvl c1) c1 else c1 in
               Some (set_seg SS ss (set_gpr RSP (w 3) (set_flags (w 2) (set_rip (w 0) c2))))
           | None => None
           end
  | _ => None
  end.

(** ** Instructions *)

Inductive insn :=
| MOV (n : nat) (d s : operand)
| OR (n : nat) (d s : operand)
| XOR (n : nat) (d s : operand)
| ADD (n : nat) (d s : operand)
| SHL (n : nat) (d : operand) (k : Z)
| INC (n : nat) (d : operand)
| CMP (n : nat) (a b : operand)
| JL (target : Z)
| PUSH (s : operand)
| POP (r : reg)
| PUSHF | POPF
| CALL (target : operand) (back : Z)   (* [back]: the address of the next instruction *)
| RET
| JMP (target : operand)
| FARJMP (sel target : Z)
| IRETQ
| LGDT (a : operand)
| RDMSR | WRMSR
| CLI | STI | HLT.

(** As a signed number of [n] bytes. *)
Definition signed (n : nat) (v : Z) : Z :=
  let k := 256 ^ Z.of_nat n in (v + k / 2) mod k - k / 2.

Definition alu (n : nat) (f : Z -> Z -> Z) (d s : operand) (c : cpu) : option cpu :=
  match read n d c, read n s c with
  | Some x, Some y => write n d (cut n (f x y)) c
  | _, _ => None
  end.

(** The address operand of [lgdt]: the limit, then a base of 3 bytes in real mode, 4 in
    protected and 8 in long mode. *)
Definition lgdt (b : option reg) (i : option (reg * Z)) (d : Z) (c : cpu) : cpu :=
  let a := ea b i d c in
  let nb := match cmode c with Real16 => 3 | Prot32 => 4 | Long64 => 8 end%nat in
  set_gdtr (load16 (ram c) a, load nb (ram c) (a + 2)) c.

(** The state after one instruction, and whether it left the sequence. *)
Definition step1 (i : insn) (c : cpu) : option (cpu * bool) :=
  let on o := match o with Some c' => Some (c', false) | None => None end in
  let w := wbytes (cmode c) in
  match i with
  | MOV n d s => match read n s c with Some v => on (write n d v c) | None => None end
  | OR n d s => on (alu n Z.lor d s c)
  | XOR n d s => on (alu n Z.lxor d s c)
  | ADD n d s => on (alu n Z.add d s c)
  | SHL n d k => on (alu n (fun x _ => Z.shiftl x k) d (Imm 0) c)
  | INC n d => on (alu n Z.add d (Imm 1) c)
  | CMP n a b =>
      match read n a c, read n b c with
      | Some x, Some y => Some (set_less (signed n x <? signed n y) c, false)
      | _, _ => None
      end
  | JL t => if less c then Some (set_rip t c, true) else Some (c, false)
  | PUSH s => match read w s c with Some v => Some (push v c, false) | None => None end
  | POP r => Some (set_gpr r (top c) (drop_top c), false)
  | PUSHF => Some (push (flags c) c, false)
  | POPF => Some (set_flags (top c) (drop_top c), false)
  | CALL t back => match read w t c with Some a => Some (set_rip a (push back c), true) | None => None end
  | RET => Some (set_rip (top c) (drop_top c), true)
  | JMP t => match read w t c with Some a => Some (set_rip a c, true) | None => None end
  | FARJMP sel t =>
      match cmode c, Z.testbit (cr0 c) PE_BIT, load_cs sel (cpl c) c with
      | Long64, _, _ | _, false, _ | _, _, None => None
      | _, _, Some c' => Some (set_rip t c', true)
      end
  | IRETQ => match iretq c with Some c' => Some (c', true) | None => None end
  | LGDT (Mem b i d) => if cpl c =? 0 then Some (lgdt b i d c, false) else None
  | LGDT _ => None
  | RDMSR =>
      if (cpl c =? 0) && (cut 4 (gpr c RCX) =? EFER_MSR) then
        Some (set_gpr RDX (efer c / 2 ^ 32) (set_gpr RAX (cut 4 (efer c)) c), false)
      else None
  | WRMSR =>
      let v := cut 4 (gpr c RAX) + 2 ^ 32 * cut 4 (gpr c RDX) in
      if (cpl c =? 0) && (cut 4 (gpr c RCX) =? EFER_MSR) &&
         (Bool.eqb (Z.testbit v LME_BIT) (Z.testbit (efer c) LME_BIT) || negb (Z.testbit (cr0 c) PG_BIT))
      then Some (set_efer v c, false) else None
  | CLI => if cpl c =? 0 then Some (set_flags (Z.clearbit (flags c) IF_BIT) c, false) else None
  | STI => if cpl c =? 0 then Some (set_flags (Z.setbit (flags c) IF_BIT) c, false) else None
  | HLT => None                   (* with interrupts off the CPU stops here *)
  end.

(** A block: its instructions and the label after it, where it goes on if no
    instruction jumps. *)
Record block := mkBlock { b_code : list insn; b_next : Z }.

Fixpoint exec (l : list insn) (nxt : Z) (c : cpu) : option cpu :=
  match l with
  | [] => Some (set_rip nxt c)
  | i :: l' => match step1 i c with
               | None => None
               | Some (c', true) => Some c'
               | Some (c', false) => exec l' nxt c'
               end
  end.

Section Program.
Context (code : Z -> option block).

Definition run_block (c : cpu) : option cpu :=
  match code (rip c) with Some b => exec (b_code b) (b_next b) c | None => None end.

Fixpoint run_blocks (n : nat) (c : cpu) : option cpu :=
  match n with
  | O => Some c
  | S n' => match run_block c with Some c' => run_blocks n' c' | None => None end
  end.

(** The program gets from [c] to [c']. *)
Definition reaches (c c' : cpu) : Prop := exists n, run_blocks n c = Some c'.

Lemma reaches_refl c : reaches c c.
Proof. by exists 0%nat. Qed.

Lemma run_blocks_app n k c c' : run_blocks n c = Some c' -> run_blocks (n + k) c = run_blocks k c'.
Proof.
  revert c. induction n as [|n IH]; intros c H; cbn in *; [by injection H as ->|].
  destruct (run_block c); [by apply IH|done].
Qed.

Lemma reaches_trans c1 c2 c3 : reaches c1 c2 -> reaches c2 c3 -> reaches c1 c3.
Proof. intros [n H1] [k H2]. exists (n + k)%nat. by rewrite (run_blocks_app _ _ _ _ H1). Qed.

Lemma reaches_block b c c' :
  code (rip c) = Some b -> exec (b_code b) (b_next b) c = Some c' -> reaches c c'.
Proof. intros Hc E. exists 1%nat. cbn. unfold run_block. by rewrite Hc, E. Qed.

(** The program contains the blocks of a source file. *)
Definition loaded (l : list (Z * block)) : Prop := Forall (fun p => code (p.1) = Some (p.2)) l.

Lemma loaded_at l a b : loaded l -> (a, b) ∈ l -> code a = Some b.
Proof. unfold loaded. rewrite Forall_forall. intros H Hin. exact (H _ Hin). Qed.
End Program.

(** A program made of the blocks of some files. *)
Definition program (l : list (Z * block)) : Z -> option block := fun a =>
  snd <$> List.find (fun p => fst p =? a) l.
