(* ===== verification/X86Stack.v ===== *)
(** * Runs of pushes and pops

    The stubs and the context switches push a list of registers and pop a list of
    registers; what that does is proved once, by induction on the list. *)

From S2P Require Import Prelude Memory X86.

(** A name for a large state, of which the kernel sees only what is proved of it. *)
Lemma named {A} (x : A) : exists y, y = x.
Proof. by exists x. Qed.

(** ** Words in memory *)

(** The 8-byte words from address [a] on. *)
Fixpoint words (m : mem) (a : Z) (l : list Z) : Prop :=
  match l with [] => True | v :: l' => load64 m a = v /\ words m (a + 8) l' end.

Lemma words_app m l1 : forall a l2,
  words m a (l1 ++ l2) <-> words m a l1 /\ words m (a + 8 * Z.of_nat (length l1)) l2.
Proof.
  induction l1 as [|v l1 IH]; intros a l2; cbn [words app length].
  - rewrite Z.mul_0_r, Z.add_0_r. tauto.
  - rewrite IH. replace (a + 8 + 8 * Z.of_nat (length l1)) with (a + 8 * Z.of_nat (S (length l1))) by lia. tauto.
Qed.

Lemma words_ext m m' l : forall a,
  (forall x, a <= x < a + 8 * Z.of_nat (length l) -> m' x = m x) -> words m a l -> words m' a l.
Proof.
  induction l as [|v l IH]; intros a Hm; cbn [words length] in *; [done|]. intros [Hv Hl]. split.
  - rewrite <- Hv. apply load_ext. intros x Hx. apply Hm. lia.
  - apply IH; [|done]. intros x Hx. apply Hm. lia.
Qed.

Lemma words_lookup m l : forall a (i : nat) v,
  words m a l -> l !! i = Some v -> load64 m (a + 8 * Z.of_nat i) = v.
Proof.
  induction l as [|w l IH]; intros a i v; [done|]. intros [Hw Hl] Hi.
  destruct i as [|i]; simpl in Hi.
  - rewrite Z.mul_0_r, Z.add_0_r. congruence.
  - replace (a + 8 * Z.of_nat (S i)) with (a + 8 + 8 * Z.of_nat i) by lia. by apply IH.
Qed.

Lemma words_intro m l : forall a,
  (forall (i : nat) v, l !! i = Some v -> load64 m (a + 8 * Z.of_nat i) = v) -> words m a l.
Proof.
  induction l as [|v l IH]; intros a H; cbn [words]; [done|]. split.
  - rewrite <- (H 0%nat v) by done. f_equal. lia.
  - apply IH. intros i w Hi. rewrite <- (H (S i) w) by done. f_equal. lia.
Qed.

(** ** Registers *)

(** Everything but the general registers, the instruction pointer and the memory. *)
Definition rest (c : cpu) :=
  (flags c, less c, seg c, (cr0 c, c_cr3 c, cr4 c, efer c), gdtr c, cmode c, xmm c).

Lemma rest_mode c c' : rest c' = rest c -> cmode c' = cmode c.
Proof. unfold rest. congruence. Qed.

Lemma rest_flags c c' : rest c' = rest c -> flags c' = flags c.
Proof. unfold rest. congruence. Qed.
Lemma rest_seg c c' : rest c' = rest c -> seg c' = seg c.
Proof. unfold rest. congruence. Qed.
Lemma rest_cr3 c c' : rest c' = rest c -> c_cr3 c' = c_cr3 c.
Proof. unfold rest. congruence. Qed.
(** The control registers and the descriptor table register. *)
Definition ctl (c : cpu) := (cr0 c, c_cr3 c, cr4 c, efer c, gdtr c).
Lemma rest_ctl c c' : rest c' = rest c -> ctl c' = ctl c.
Proof. unfold rest, ctl. congruence. Qed.
Lemma rest_xmm c c' : rest c' = rest c -> xmm c' = xmm c.
Proof. unfold rest. congruence. Qed.

Lemma gpr_set_eq r v c : gpr (set_gpr r v c) r = v.
Proof. unfold set_gpr, reg_eqb. cbn. by rewrite bool_decide_true. Qed.
Lemma gpr_set_ne r r' v c : r' <> r -> gpr (set_gpr r v c) r' = gpr c r'.
Proof. intros H. unfold set_gpr, reg_eqb. cbn. by rewrite bool_decide_false. Qed.

(** Registers hold 64-bit values. *)
Definition regs64 (c : cpu) : Prop := forall r, 0 <= gpr c r < 2 ^ 64.

Lemma cut8 v : 0 <= v < 2 ^ 64 -> cut 8 v = v.
Proof. apply Z.mod_small. Qed.

Lemma wrap64 v : 0 <= v < 2 ^ 64 -> wrap Long64 v = v.
Proof. apply Z.mod_small. Qed.

(** ** Pushing *)

Definition push_list (vs : list Z) (c : cpu) : cpu := foldl (fun c v => push v c) c vs.

Lemma push_rest v c : rest (push v c) = rest c.
Proof. done. Qed.
Lemma push_gpr v c r : r <> RSP -> gpr (push v c) r = gpr c r.
Proof. intros H. unfold push. by rewrite <- (gpr_set_ne RSP r (wrap (cmode c) (gpr c RSP - Z.of_nat (wbytes (cmode c)))) c). Qed.
Lemma push_rsp v c :
  cmode c = Long64 -> 8 <= gpr c RSP < 2 ^ 64 -> gpr (push v c) RSP = gpr c RSP - 8.
Proof.
  intros Hm Hs. unfold push. cbn [set_ram gpr]. rewrite Hm, gpr_set_eq. apply wrap64. cbn. lia.
Qed.
Lemma push_ram v c :
  cmode c = Long64 -> 8 <= gpr c RSP < 2 ^ 64 -> ram (push v c) = store64 (ram c) (gpr c RSP - 8) v.
Proof. intros Hm Hs. unfold push. cbn [set_ram ram]. rewrite Hm. by rewrite wrap64 by (cbn; lia). Qed.

(** The words pushed lie below the old stack pointer, the last one lowest; nothing else
    changes. *)
Record pushed (vs : list Z) (c c' : cpu) : Prop := {
  pu_rest : rest c' = rest c;
  pu_gpr r : r <> RSP -> gpr c' r = gpr c r;
  pu_rsp : gpr c' RSP = gpr c RSP - 8 * Z.of_nat (length vs);
  pu_words : words (ram c') (gpr c' RSP) (reverse vs);
  pu_ram x : ~ (gpr c' RSP <= x < gpr c RSP) -> ram c' x = ram c x
}.

Lemma push_list_spec vs : forall c,
  cmode c = Long64 -> Forall (fun v => 0 <= v < 2 ^ 64) vs ->
  8 * Z.of_nat (length vs) <= gpr c RSP < 2 ^ 64 -> pushed vs c (push_list vs c).
Proof.
  induction vs as [|v vs IH]; intros c Hm Hv Hs; cbn [push_list foldl length] in *.
  { split; cbn; [done|done|lia|done|done]. }
  apply Forall_cons in Hv as [Hv Hvs].
  pose proof (push_rsp v c Hm ltac:(lia)) as Er. pose proof (push_ram v c Hm ltac:(lia)) as Em.
  destruct (IH (push v c)) as [P1 P2 P3 P4 P5]; [done|done|rewrite Er; lia|].
  fold (push_list vs (push v c)) in *. rewrite Er in *. rewrite Em in P5.
  split.
  - done.
  - intros r Hr. rewrite P2 by done. by apply push_gpr.
  - rewrite P3. cbn [length]. lia.
  - rewrite reverse_cons. apply words_app. split; [done|]. rewrite length_reverse.
    replace (gpr _ RSP + _) with (gpr c RSP - 8) by (rewrite P3; lia). split; [|done].
    rewrite (load_ext 8 _ (store64 (ram c) (gpr c RSP - 8) v)) by (intros x Hx; apply P5; lia).
    by apply load64_store_eq.
  - intros x Hx. rewrite P5 by lia. apply store_out. lia.
Qed.

Lemma push_one v c :
  cmode c = Long64 -> 0 <= v < 2 ^ 64 -> 8 <= gpr c RSP < 2 ^ 64 -> pushed [v] c (push v c).
Proof.
  intros Hm Hv Hs. apply (push_list_spec [v] c); [done|by apply Forall_singleton|].
  change (8 * Z.of_nat (length [v])) with 8. lia.
Qed.

Lemma pushed_app v1 v2 c c1 c2 : pushed v1 c c1 -> pushed v2 c1 c2 -> pushed (v1 ++ v2) c c2.
Proof.
  intros [A1 A2 A3 A4 A5] [B1 B2 B3 B4 B5]. split.
  - congruence.
  - intros r Hr. by rewrite B2, A2.
  - rewrite B3, A3, length_app. lia.
  - rewrite reverse_app. apply words_app. split; [done|]. rewrite length_reverse.
    replace (gpr c2 RSP + _) with (gpr c1 RSP) by lia. apply (words_ext (ram c1)); [|done].
    rewrite length_reverse. intros x Hx. apply B5. lia.
  - intros x Hx. rewrite B5, A5 by lia. done.
Qed.

(** Jumps do not matter to what is on the stack. *)
Lemma pushed_rip vs c c' a : pushed vs c c' -> pushed vs c (set_rip a c').
Proof. intros [A1 A2 A3 A4 A5]. by split. Qed.
Lemma pushed_from vs c c' a : pushed vs (set_rip a c) c' -> pushed vs c c'.
Proof. intros [A1 A2 A3 A4 A5]. by split. Qed.

(** ** Popping *)

Definition pop_list (rs : list reg) (c : cpu) : cpu :=
  foldl (fun c r => set_gpr r (top c) (drop_top c)) c rs.

(** The registers popped hold the words; nothing else changes. *)
Record popped (rs : list reg) (vs : list Z) (c c' : cpu) : Prop := {
  po_rest : rest c' = rest c;
  po_ram : ram c' = ram c;
  po_rsp : gpr c' RSP = gpr c RSP + 8 * Z.of_nat (length rs);
  po_regs : Forall2 (fun r v => gpr c' r = v) rs vs;
  po_gpr r : r ∉ rs -> r <> RSP -> gpr c' r = gpr c r
}.

Lemma pop_list_spec rs : forall vs c,
  cmode c = Long64 -> NoDup rs -> RSP ∉ rs -> length vs = length rs ->
  words (ram c) (gpr c RSP) vs -> 0 <= gpr c RSP -> gpr c RSP + 8 * Z.of_nat (length rs) < 2 ^ 64 ->
  popped rs vs c (pop_list rs c).
Proof.
  induction rs as [|r rs IH]; intros vs c Hm Hnd Hsp Hl Hw H0 Hs; (destruct vs as [|v vs]; [try done|try done]);
    cbn [pop_list foldl length words] in *.
  { split; [done|done|cbn [length]; lia|constructor|done]. }
  apply NoDup_cons in Hnd as [Hr Hnd]. apply not_elem_of_cons in Hsp as [Hrs Hsp]. destruct Hw as [Hv Hw].
  set (c1 := set_gpr r (top c) (drop_top c)).
  assert (gpr c1 RSP = gpr c RSP + 8) as E1.
  { unfold c1, drop_top. rewrite gpr_set_ne, gpr_set_eq by done. rewrite Hm. apply wrap64. cbn. lia. }
  assert (top c = v) as E2 by (unfold top; by rewrite Hm).
  destruct (IH vs c1) as [P1 P2 P3 P4 P5]; try done; [congruence|by rewrite E1|rewrite E1; lia|rewrite E1; lia|].
  fold (pop_list rs c1). split.
  - done.
  - done.
  - rewrite P3, E1. cbn [length]. lia.
  - constructor; [|done]. rewrite P5 by done. unfold c1. by rewrite gpr_set_eq.
  - intros r' [Hr' Hin]%not_elem_of_cons Hsp'. rewrite P5 by done. unfold c1, drop_top.
    by rewrite !gpr_set_ne by done.
Qed.

(** ** In a program *)

Lemma exec_pushes rs : forall l nxt c,
  cmode c = Long64 -> regs64 c -> RSP ∉ rs ->
  exec (((fun r => PUSH (Reg r)) <$> rs) ++ l) nxt c = exec l nxt (push_list (gpr c <$> rs) c).
Proof.
  intros l nxt c Hm Hc Hin. enough (forall c', cmode c' = Long64 -> (forall r, r <> RSP -> gpr c' r = gpr c r) ->
    exec (((fun r => PUSH (Reg r)) <$> rs) ++ l) nxt c' = exec l nxt (push_list (gpr c <$> rs) c')) as H by auto.
  clear Hm. induction rs as [|r rs IH]; intros c' Hm Hr; [done|]. apply not_elem_of_cons in Hin as [Hne Hin].
  cbn [fmap list_fmap app exec step1 read push_list foldl]. rewrite Hm. cbn [wbytes].
  rewrite Hr, cut8 by done. apply IH; [done..|]. intros r' Hr'. by rewrite push_gpr, Hr.
Qed.

Lemma exec_push_imm v l nxt c :
  cmode c = Long64 -> 0 <= v < 2 ^ 64 -> exec (PUSH (Imm v) :: l) nxt c = exec l nxt (push v c).
Proof. intros Hm Hv. cbn [exec step1 read]. rewrite Hm. cbn [wbytes]. by rewrite cut8. Qed.

Lemma exec_pops rs l nxt c :
  exec ((POP <$> rs) ++ l) nxt c = exec l nxt (pop_list rs c).
Proof. revert c. induction rs as [|r rs IH]; intros c; [done|]. apply IH. Qed.

Lemma exec_store b r l nxt c :
  cmode c = Long64 -> 0 <= gpr c b < 2 ^ 64 -> 0 <= gpr c r < 2 ^ 64 ->
  exec (MOV 8 (Mem (Some b) None 0) (Reg r) :: l) nxt c =
  exec l nxt (set_ram (store64 (ram c) (gpr c b) (gpr c r)) c).
Proof.
  intros Hm Hb Hr. cbn [exec step1 read write]. unfold ea. cbn [fmap option_fmap option_map default]. rewrite Hm.
  by rewrite cut8, !Z.add_0_r, wrap64.
Qed.

Lemma exec_move d r l nxt c :
  0 <= gpr c r < 2 ^ 64 -> exec (MOV 8 (Reg d) (Reg r) :: l) nxt c = exec l nxt (set_gpr d (gpr c r) c).
Proof.
  intros Hr. cbn [exec step1 read write]. unfold merge. change (8 <? 4)%nat with false. cbv iota.
  by rewrite !cut8 by (rewrite ?cut8; done).
Qed.

(** Registers pushed and popped in the opposite order get their values back. *)
Lemma Forall2_regs (f g : reg -> Z) rs :
  Forall2 (fun r v => f r = v) rs (g <$> rs) -> forall r, r ∈ rs -> f r = g r.
Proof.
  induction rs as [|r rs IH]; intros H r' Hin; [by apply elem_of_nil in Hin|].
  apply Forall2_cons in H as [H1 H2]. apply elem_of_cons in Hin as [->|Hin]; auto.
Qed.

(** ** Calls of C functions

    What the ABI promises when a C function called on state [c], its return address at
    the top of the stack, returns in state [c'], and of the memory up to [hi] that the
    stack frames of its callers stay as they are. *)

(** Saved by the called function; in the order the context switch pushes them. *)
Definition callee_saved : list reg := [RBP; RBX; R12; R13; R14; R15].

Record abi_return (hi : Z) (c c' : cpu) : Prop := {
  ar_rip : rip c' = load64 (ram c) (gpr c RSP);
  ar_rsp : gpr c' RSP = gpr c RSP + 8;
  ar_regs r : r ∈ callee_saved -> gpr c' r = gpr c r;
  ar_regs64 : regs64 c';
  ar_ram x : gpr c RSP + 8 <= x < hi -> ram c' x = ram c x;
  ar_cs : seg c' CS = seg c CS;
  ar_mode : cmode c' = cmode c
}.

Lemma callee_no_rsp : RSP ∉ callee_saved.
Proof. by apply (bool_decide_unpack _). Qed.

Lemma Forall2_fmap_eq {A B} (f : A -> B) l k : Forall2 (fun a b => f a = b) l k -> f <$> l = k.
Proof. induction 1; cbn; congruence. Qed.
