(* ===== verification/X86Run.v ===== *)
(** * Instructions of the 32-bit set-up code

    What the instructions that boot64.s and ap_trampoline.s use before long mode do to
    the state, one lemma each, and a tactic that reads registers of a state given by
    setters. *)

From S2P Require Import Prelude Memory Gdt64 X86 X86Stack.

(** Reads of a state built by setters. *)
Ltac xread :=
  repeat (progress (cbn [gpr rip flags less seg cr0 c_cr3 cr4 efer gdtr cmode xmm ram
      set_gpr set_rip set_flags set_less set_seg set_cr0 put_cr3 set_cr4 set_efer set_gdtr set_mode set_ram] in *;
    repeat match goal with
    | |- context [reg_eqb ?a ?b] => is_constructor a; is_constructor b; let v := eval vm_compute in (reg_eqb a b) in change (reg_eqb a b) with v
    | |- context [sreg_eqb ?a ?b] => is_constructor a; is_constructor b; let v := eval vm_compute in (sreg_eqb a b) in change (sreg_eqb a b) with v
    end; cbv iota)).

(** Parts of a word in memory. *)
Lemma load_add n k m a : load (n + k) m a = load n m a + 256 ^ Z.of_nat n * load k m (a + Z.of_nat n).
Proof.
  revert a. induction n as [|n IH]; intros a.
  - change (256 ^ Z.of_nat 0) with 1. change (load 0 m a) with 0. rewrite Z.add_0_r. cbn [Nat.add]. lia.
  - change (S n + k)%nat with (S (n + k)). rewrite !load_S, IH.
    replace (a + 1 + Z.of_nat n) with (a + Z.of_nat (S n)) by lia.
    rewrite Nat2Z.inj_succ, Z.pow_succ_r by lia. lia.
Qed.

Lemma load_zero n m a : (forall x, a <= x < a + Z.of_nat n -> m x = 0) -> load n m a = 0.
Proof.
  revert a. induction n as [|n IH]; intros a H; [done|]. rewrite load_S, H, IH by (intros; apply H || idtac; lia). done.
Qed.

Section Run.
Context (l : list insn) (nxt : Z) (c : cpu).

Lemma cut4 v : 0 <= v < 2 ^ 32 -> cut 4 v = v.
Proof. apply Z.mod_small. Qed.
Lemma cut_bound n v : 0 <= cut n v < 256 ^ Z.of_nat n.
Proof. apply Z.mod_pos_bound. lia. Qed.

Lemma merge4 old v : 0 <= v < 2 ^ 32 -> merge 4 old v = v.
Proof. intros H. unfold merge. change (4 <? 4)%nat with false. by apply cut4. Qed.

Lemma run_mov r s v : read 4 s c = Some v -> 0 <= v < 2 ^ 32 ->
  exec (MOV 4 (Reg r) s :: l) nxt c = exec l nxt (set_gpr r v c).
Proof. intros Hr Hv. cbn [exec step1]. rewrite Hr. cbn [write]. by rewrite merge4. Qed.

Lemma run_imm r v : 0 <= v < 2 ^ 32 ->
  exec (MOV 4 (Reg r) (Imm v) :: l) nxt c = exec l nxt (set_gpr r v c).
Proof. intros Hv. apply run_mov; [|done]. cbn [read]. by rewrite cut4. Qed.

Lemma run_mov8 r s v : read 8 s c = Some v -> 0 <= v < 2 ^ 64 ->
  exec (MOV 8 (Reg r) s :: l) nxt c = exec l nxt (set_gpr r v c).
Proof.
  intros Hr Hv. cbn [exec step1]. rewrite Hr. cbn [write]. unfold merge. change (8 <? 4)%nat with false. cbv iota.
  by rewrite cut8.
Qed.

Lemma run_store b i d r a v : ea b i d c = a -> gpr c r = v -> 0 <= v < 2 ^ 32 ->
  exec (MOV 4 (Mem b i d) (Reg r) :: l) nxt c = exec l nxt (set_ram (store32 (ram c) a v) c).
Proof. intros Ha Hv Hb. cbn [exec step1 read write]. by rewrite Ha, Hv, cut4. Qed.

Lemma run_alu f r k x : gpr c r = x -> 0 <= x < 2 ^ 32 -> 0 <= k < 2 ^ 32 -> 0 <= f x k < 2 ^ 32 ->
  alu 4 f (Reg r) (Imm k) c = Some (set_gpr r (f x k) c).
Proof. intros Hx H1 H2 H3. unfold alu. cbn [read write]. by rewrite Hx, !cut4, merge4 by (rewrite ?cut4; done). Qed.

Lemma lor_bound n x k : 0 < n -> 0 <= x < 2 ^ n -> 0 <= k < 2 ^ n -> 0 <= Z.lor x k < 2 ^ n.
Proof.
  intros Hn [Hx Hx'] [Hk Hk']. pose proof (proj2 (Z.lor_nonneg x k) (conj Hx Hk)) as H0. split; [done|].
  destruct (Z.eq_dec (Z.lor x k) 0) as [->|Hz]; [lia|]. apply Z.log2_lt_pow2; [lia|].
  rewrite Z.log2_lor by done. apply Z.max_lub_lt.
  - destruct (Z.eq_dec x 0) as [->|]; [done|]. apply Z.log2_lt_pow2; lia.
  - destruct (Z.eq_dec k 0) as [->|]; [done|]. apply Z.log2_lt_pow2; lia.
Qed.

Lemma lor_bound32 x k : 0 <= x < 2 ^ 32 -> 0 <= k < 2 ^ 32 -> 0 <= Z.lor x k < 2 ^ 32.
Proof. apply lor_bound. lia. Qed.

Lemma run_or r k x : gpr c r = x -> 0 <= x < 2 ^ 32 -> 0 <= k < 2 ^ 32 ->
  exec (OR 4 (Reg r) (Imm k) :: l) nxt c = exec l nxt (set_gpr r (Z.lor x k) c).
Proof. intros Hx H1 H2. cbn [exec step1]. by rewrite (run_alu _ _ _ x) by (try apply lor_bound32; done). Qed.

Lemma run_inc r x : gpr c r = x -> 0 <= x < 2 ^ 32 - 1 ->
  exec (INC 4 (Reg r) :: l) nxt c = exec l nxt (set_gpr r (x + 1) c).
Proof. intros Hx H1. cbn [exec step1]. by rewrite (run_alu _ _ _ x) by lia. Qed.

Lemma run_shl r k x : gpr c r = x -> 0 <= x < 2 ^ 32 -> 0 <= Z.shiftl x k < 2 ^ 32 ->
  exec (SHL 4 (Reg r) k :: l) nxt c = exec l nxt (set_gpr r (Z.shiftl x k) c).
Proof.
  intros Hx H1 H2. cbn [exec step1]. rewrite (run_alu (fun x _ => Z.shiftl x k) _ _ x) by (done || lia). done.
Qed.

(** A control register is written at privilege level 0. *)
Lemma run_cr k r v c' : cpl c = 0 -> gpr c r = v -> 0 <= v < 2 ^ 32 -> write 4 (Cr k) v c = Some c' ->
  exec (MOV 4 (Cr k) (Reg r) :: l) nxt c = exec l nxt c'.
Proof. intros Hc Hv Hb E. cbn [exec step1 read]. by rewrite Hv, cut4, E. Qed.

Lemma run_cr4 r v : cpl c = 0 -> gpr c r = v -> 0 <= v < 2 ^ 32 -> Z.testbit v PAE_BIT = true ->
  exec (MOV 4 (Cr 4) (Reg r) :: l) nxt c = exec l nxt (set_cr4 v c).
Proof.
  intros Hc Hv Hb Hp. apply (run_cr 4 _ v); [done..|]. cbn [write]. rewrite Hc, Hp. by rewrite andb_false_r.
Qed.

Lemma run_cr3 r v : cpl c = 0 -> gpr c r = v -> 0 <= v < 2 ^ 32 ->
  exec (MOV 4 (Cr 3) (Reg r) :: l) nxt c = exec l nxt (put_cr3 v c).
Proof. intros Hc Hv Hb. apply (run_cr 3 _ v); [done..|]. cbn [write]. by rewrite Hc. Qed.

(** Protection on, paging still off. *)
Lemma run_cr0 r v : cpl c = 0 -> gpr c r = v -> 0 <= v < 2 ^ 32 -> Z.testbit v PG_BIT = false ->
  exec (MOV 4 (Cr 0) (Reg r) :: l) nxt c = exec l nxt (set_cr0 v c).
Proof. intros Hc Hv Hb Hp. apply (run_cr 0 _ v); [done..|]. cbn [write]. unfold write_cr0. by rewrite Hc, Hp. Qed.

(** Paging on, with PAE and LME: long mode is active. *)
Lemma run_cr0_pg r v : cpl c = 0 -> gpr c r = v -> 0 <= v < 2 ^ 32 ->
  Z.testbit v PG_BIT = true -> Z.testbit v PE_BIT = true -> Z.testbit (cr0 c) PG_BIT = false ->
  Z.testbit (efer c) LME_BIT = true -> Z.testbit (cr4 c) PAE_BIT = true ->
  exec (MOV 4 (Cr 0) (Reg r) :: l) nxt c = exec l nxt (set_efer (Z.lor (efer c) (2 ^ LMA_BIT)) (set_cr0 v c)).
Proof.
  intros Hc Hv Hb H1 H2 H3 H4 H5. apply (run_cr 0 _ v); [done..|]. cbn [write]. unfold write_cr0.
  by rewrite Hc, H1, H2, H3, H4, H5.
Qed.

Lemma run_rdmsr : cpl c = 0 -> gpr c RCX = EFER_MSR ->
  exec (RDMSR :: l) nxt c = exec l nxt (set_gpr RDX (efer c / 2 ^ 32) (set_gpr RAX (cut 4 (efer c)) c)).
Proof. intros Hc Hx. cbn [exec step1]. rewrite Hc, Hx. reflexivity. Qed.

(** Setting LME before paging is on. *)
Lemma run_wrmsr v : cpl c = 0 -> gpr c RCX = EFER_MSR -> Z.testbit (cr0 c) PG_BIT = false ->
  cut 4 (gpr c RAX) + 2 ^ 32 * cut 4 (gpr c RDX) = v ->
  exec (WRMSR :: l) nxt c = exec l nxt (set_efer v c).
Proof.
  intros Hc Hx Hp Hv. cbn [exec step1]. rewrite Hc, Hx, Hp, Hv. change (0 =? 0) with true.
  change (cut 4 EFER_MSR =? EFER_MSR) with true. cbn [negb]. by rewrite orb_true_r.
Qed.

(** Segment registers take a flat data descriptor. *)
Lemma run_seg n s r sel : s <> CS -> cut n (gpr c r) = sel -> cut 2 sel = sel -> data_ok s sel c = true ->
  exec (MOV n (Seg s) (Reg r) :: l) nxt c = exec l nxt (set_seg s sel c).
Proof.
  intros Hs Hr Hc Hd. cbn [exec step1 read write]. rewrite bool_decide_false by done. by rewrite Hr, Hc, Hd.
Qed.

(** The last two instructions before 64-bit code: the table with its long code segment,
    and the jump to it. *)
Lemma run_jump64 b i d sel t ptr lim base :
  cmode c = Prot32 -> cpl c = 0 -> Z.testbit (cr0 c) PE_BIT = true -> Z.testbit (efer c) LMA_BIT = true ->
  ea b i d c = ptr -> load16 (ram c) ptr = lim -> load 4 (ram c) (ptr + 2) = base ->
  Z.land sel 7 = 0 -> sel + 7 <= lim -> load64 (ram c) (base + sel) = kcode_desc ->
  exec [LGDT (Mem b i d); FARJMP sel t] nxt c =
  Some (set_rip t (set_mode Long64 (set_seg CS sel (set_gdtr (lim, base) c)))).
Proof.
  intros Hm Hc Hp He Ha Hl Hb Hs Hlim Hq. cbn [exec step1]. rewrite Hc. cbn [Z.eqb].
  unfold lgdt. rewrite Ha, Hl, Hm, Hb. change (cmode (set_gdtr (lim, base) c)) with (cmode c).
  change (cr0 (set_gdtr (lim, base) c)) with (cr0 c). change (cpl (set_gdtr (lim, base) c)) with (cpl c).
  rewrite Hm, Hp, Hc.
  assert (load_cs sel 0 (set_gdtr (lim, base) c) = Some (set_mode Long64 (set_seg CS sel (set_gdtr (lim, base) c)))) as ->; [|done].
  unfold load_cs, gdt_entry. cbn [gdtr set_gdtr fst snd ram efer]. rewrite Hs, Z.sub_0_r.
  destruct (Z.leb_spec (sel + 7) lim); [|lia]. rewrite Hq, He.
  assert (Z.land sel 3 = 0) as ->; [|reflexivity].
  change 3 with (Z.land 7 3). by rewrite Z.land_assoc, Hs.
Qed.
End Run.

(** ** Loading the data segments *)

Definition set_all (ss : list sreg) (sel : Z) (c : cpu) : cpu := foldl (fun c s => set_seg s sel c) c ss.

Lemma data_ok_seg s s' sel v c : s <> CS -> data_ok s' sel (set_seg s v c) = data_ok s' sel c.
Proof.
  intros Hs. assert (cpl (set_seg s v c) = cpl c) as Hc.
  { unfold cpl. cbn [set_seg cmode seg]. unfold sreg_eqb. by rewrite bool_decide_false. }
  unfold data_ok. rewrite Hc. reflexivity.
Qed.

Lemma run_segs ss sel : forall l nxt c,
  cut 2 (gpr c RAX) = sel -> CS ∉ ss -> (forall s, s ∈ ss -> data_ok s sel c = true) ->
  exec (((fun s => MOV 2 (Seg s) (Reg RAX)) <$> ss) ++ l) nxt c = exec l nxt (set_all ss sel c).
Proof.
  induction ss as [|s ss IH]; intros l nxt c Ha Hcs Hok; [done|].
  apply not_elem_of_cons in Hcs as [Hs Hcs]. cbn [fmap list_fmap app].
  assert (cut 2 sel = sel) as Hcut by (rewrite <- Ha; unfold cut; by rewrite Z.mod_mod).
  rewrite (run_seg _ _ _ 2 s RAX sel) by (auto using list_elem_of_here). apply IH; [done|done|].
  intros s' Hin. rewrite data_ok_seg by done. apply Hok. by apply list_elem_of_further.
Qed.

Lemma set_all_spec ss sel : forall c, CS ∉ ss ->
  let c' := set_all ss sel c in
  gpr c' = gpr c /\ ram c' = ram c /\ rip c' = rip c /\ flags c' = flags c /\ cmode c' = cmode c /\ gdtr c' = gdtr c /\
  (less c', cr0 c', c_cr3 c', cr4 c', efer c', xmm c') = (less c, cr0 c, c_cr3 c, cr4 c, efer c, xmm c) /\ seg c' CS = seg c CS /\
  (forall s, s ∈ ss -> seg c' s = sel) /\ (forall s, s ∉ ss -> seg c' s = seg c s).
Proof.
  induction ss as [|s ss IH]; intros c Hcs c'.
  { split_and!; try done. by intros s ?%elem_of_nil. }
  apply not_elem_of_cons in Hcs as [Hs Hcs]. unfold c', set_all. cbn [foldl]. fold (set_all ss sel (set_seg s sel c)).
  destruct (IH (set_seg s sel c) Hcs) as (H1 & H2 & H3 & H4 & H5 & H6 & H7 & H8 & H9 & H10).
  split_and!; try done.
  - rewrite H8. cbn [set_seg seg]. unfold sreg_eqb. by rewrite bool_decide_false.
  - intros s' [->|Hin]%elem_of_cons; [|by apply H9]. destruct (decide (s ∈ ss)) as [Hin|Hn]; [by apply H9|].
    rewrite H10 by done. cbn [set_seg seg]. unfold sreg_eqb. by rewrite bool_decide_true.
  - intros s' [Hne Hn]%not_elem_of_cons. rewrite H10 by done. cbn [set_seg seg]. unfold sreg_eqb.
    by rewrite bool_decide_false by congruence.
Qed.

(** [mov ax, sel] and the moves to the segment registers [ss]. *)
Definition load_segs (sel : Z) (ss : list sreg) : list insn :=
  MOV 2 (Reg RAX) (Imm sel) :: ((fun s => MOV 2 (Seg s) (Reg RAX)) <$> ss).

Record segs_loaded (sel : Z) (ss : list sreg) (c c' : cpu) : Prop := {
  sl_gpr r : r <> RAX -> gpr c' r = gpr c r;
  sl_rax : 0 <= gpr c RAX < 2 ^ 64 -> 0 <= gpr c' RAX < 2 ^ 64;
  sl_rest : (rip c', flags c', less c', cmode c', gdtr c', ram c', (cr0 c', c_cr3 c', cr4 c', efer c', xmm c')) =
            (rip c, flags c, less c, cmode c, gdtr c, ram c, (cr0 c, c_cr3 c, cr4 c, efer c, xmm c));
  sl_in s : s ∈ ss -> seg c' s = sel;
  sl_out s : s ∉ ss -> seg c' s = seg c s
}.

Lemma run_load_segs sel ss l nxt c :
  0 <= sel < 2 ^ 16 -> CS ∉ ss -> (forall s, s ∈ ss -> data_ok s sel c = true) ->
  exists c', exec (load_segs sel ss ++ l) nxt c = exec l nxt c' /\ segs_loaded sel ss c c'.
Proof.
  intros Hs Hcs Hok. set (c1 := set_gpr RAX (merge 2 (gpr c RAX) (cut 2 sel)) c).
  assert (cut 2 sel = sel) as Hc by (unfold cut; change (256 ^ Z.of_nat 2) with (2 ^ 16); apply Z.mod_small; lia).
  assert (cut 2 (gpr c1 RAX) = sel /\ (0 <= gpr c RAX < 2 ^ 64 -> 0 <= gpr c1 RAX < 2 ^ 64)) as [Ha Hb].
  { unfold c1. rewrite gpr_set_eq. unfold merge. change (2 <? 4)%nat with true. cbv iota. rewrite !Hc.
    unfold cut. change (256 ^ Z.of_nat 2) with 65536. split; [|intros ?]; dlia. }
  destruct (set_all_spec ss sel c1 Hcs) as (H1 & H2 & H3 & H4 & H5 & H6 & H7 & H8 & H9 & H10).
  exists (set_all ss sel c1). split.
  - unfold load_segs. cbn [app exec step1 read write]. fold c1. by apply run_segs.
  - split; try done.
    + intros r Hr. rewrite H1. by apply gpr_set_ne.
    + by rewrite H1.
    + injection H7 as -> -> -> -> -> ->. by rewrite H2, H3, H4, H5, H6.
Qed.

(** Flat data descriptors, that of the kernel and one with its limit and granularity
    written out, fit every data segment register at level 0. *)
Definition flat_data_desc : Z := 0x00CF92000000FFFF.

Lemma kernel_data_ok q s sel c :
  cmode c <> Real16 -> cpl c = 0 -> Z.land sel 3 = 0 -> Z.land sel (Z.lnot 3) <> 0 ->
  q = kdata_desc \/ q = flat_data_desc -> gdt_entry sel c = Some q -> data_ok s sel c = true.
Proof.
  intros Hm Hc H3 Hn Hd Hq. unfold data_ok. rewrite Hq, Hc, H3. rewrite (proj2 (Z.eqb_neq _ _) Hn).
  destruct Hd as [->| ->]; (destruct (cmode c); [done|..]; by destruct s).
Qed.

(** ** Turning long mode on *)

(** PAE, the page table root, LME and paging, in this order; the root comes from [src]. *)
Definition long_mode_on (src : operand) : list insn :=
  [MOV 4 (Reg RAX) (Cr 4);
   OR 4 (Reg RAX) (Imm (Z.shiftl 1 5));
   MOV 4 (Cr 4) (Reg RAX);
   MOV 4 (Reg RAX) src;
   MOV 4 (Cr 3) (Reg RAX);
   MOV 4 (Reg RCX) (Imm 0xC0000080);
   RDMSR;
   OR 4 (Reg RAX) (Imm (Z.shiftl 1 8));
   WRMSR;
   MOV 4 (Reg RAX) (Cr 0);
   OR 4 (Reg RAX) (Imm (Z.shiftl 1 31));
   MOV 4 (Cr 0) (Reg RAX)].

(** What it leaves: everything else is as it was. *)
Record long_on (root : Z) (c c' : cpu) : Prop := {
  lo_cr0 : cr0 c' = Z.lor (cr0 c) (2 ^ PG_BIT);
  lo_cr3 : c_cr3 c' = root;
  lo_cr4 : cr4 c' = Z.lor (cr4 c) (2 ^ PAE_BIT);
  lo_lme : Z.testbit (efer c') LME_BIT = true;
  lo_lma : Z.testbit (efer c') LMA_BIT = true;
  lo_gpr r : r ∉ [RAX; RCX; RDX] -> gpr c' r = gpr c r;
  lo_rest : (rip c', flags c', less c', seg c', gdtr c', cmode c', xmm c', ram c') =
            (rip c, flags c, less c, seg c, gdtr c, cmode c, xmm c, ram c)
}.

(** Protected mode, level 0, paging off. *)
Record protected (c : cpu) : Prop := {
  pr_mode : cmode c = Prot32;
  pr_level : cpl c = 0;
  pr_cr0 : 0 <= cr0 c < 2 ^ 31;
  pr_pe : Z.testbit (cr0 c) PE_BIT = true;
  pr_cr4 : 0 <= cr4 c < 2 ^ 32;
  pr_efer : 0 <= efer c < 2 ^ 64
}.

Lemma bit_low a k i n : 0 <= i < n -> 0 <= a < 2 ^ n -> Z.testbit (a + 2 ^ n * k) i = Z.testbit a i.
Proof.
  intros Hi Ha. rewrite <- (Z.mod_pow2_bits_low (a + 2 ^ n * k) n i) by lia.
  rewrite Z.mul_comm, Z.mod_add by lia. by rewrite Z.mod_small.
Qed.

Lemma efer_word e : 0 <= e < 2 ^ 64 ->
  let v := cut 4 (Z.lor (cut 4 e) 256) + 2 ^ 32 * cut 4 (e / 2 ^ 32) in
  Z.testbit v LME_BIT = true /\ Z.testbit (Z.lor v (2 ^ LMA_BIT)) LME_BIT = true /\
  Z.testbit (Z.lor v (2 ^ LMA_BIT)) LMA_BIT = true.
Proof.
  intros He v. pose proof (cut_bound 4 e) as Hb. change (256 ^ Z.of_nat 4) with (2 ^ 32) in Hb.
  pose proof (lor_bound32 (cut 4 e) 256 Hb ltac:(lia)) as Hl.
  assert (Z.testbit v LME_BIT = true) as H1.
  { unfold v. rewrite (cut4 (Z.lor _ _)), bit_low by (done || unfold LME_BIT; lia). by rewrite Z.lor_spec, orb_true_r. }
  split_and!; [done|rewrite Z.lor_spec, H1; done|by rewrite Z.lor_spec, orb_true_r].
Qed.

Lemma run_long_mode src root l nxt c :
  protected c -> 0 <= root < 2 ^ 32 ->
  (forall c', cmode c' = cmode c -> ram c' = ram c -> read 4 src c' = Some root) ->
  exists c', exec (long_mode_on src ++ l) nxt c = exec l nxt c' /\ long_on root c c'.
Proof.
  intros [Hm Hcpl Hk0 Hpe Hk4 He] Hroot Hsrc. destruct (efer_word (efer c) He) as (V1 & V2 & V3).
  set (v := _ + _) in V1, V2, V3.
  assert (Z.testbit (cr0 c) PG_BIT = false) as Hpg by (apply Z.bits_above_log2; [lia|];
    destruct (Z.eq_dec (cr0 c) 0) as [->|]; [done|apply Z.log2_lt_pow2; unfold PG_BIT; lia]).
  eexists. split.
  - unfold long_mode_on. cbn [app].
    rewrite (run_mov _ _ _ _ _ (cr4 c)) by done.
    rewrite (run_or _ _ _ _ _ (cr4 c)) by (done || by xread).
    rewrite (run_cr4 _ _ _ _ (Z.lor (cr4 c) (2 ^ PAE_BIT)));
      [|exact Hcpl|by xread|by apply lor_bound32|by rewrite Z.lor_spec, orb_true_r].
    rewrite (run_mov _ _ _ _ _ root) by (try apply Hsrc; done).
    rewrite (run_cr3 _ _ _ _ root); [|exact Hcpl|by xread|lia].
    rewrite run_imm by lia. rewrite run_rdmsr; [|exact Hcpl|by xread].
    rewrite (run_or _ _ _ _ _ (cut 4 (efer c))); [|by xread|exact (cut_bound 4 _)|done].
    rewrite (run_wrmsr _ _ _ v); [|exact Hcpl|by xread|by xread|by xread].
    rewrite (run_mov _ _ _ _ _ (cr0 c)) by (done || lia).
    rewrite (run_or _ _ _ _ _ (cr0 c)) by (done || lia || by xread).
    rewrite (run_cr0_pg _ _ _ _ (Z.lor (cr0 c) (2 ^ PG_BIT)));
      [reflexivity|exact Hcpl|by xread|apply lor_bound32; [lia|done]|by rewrite Z.lor_spec, orb_true_r
       |by rewrite Z.lor_spec, Hpe|by xread|by xread|xread; by rewrite Z.lor_spec, orb_true_r].
  - split; try done; try (by xread).
    intros r Hr. rewrite !not_elem_of_cons in Hr. destruct Hr as (H1 & H2 & H3 & _). xread.
    unfold reg_eqb. by rewrite !bool_decide_false by congruence.
Qed.
