(* ===== verification/Switch64.v ===== *)
(** * context_switch64.s: the context switch and the first entry of a thread

    The routine pushes the flags and the callee-saved registers, exchanges the stack
    pointers through the [rsp] field of the old thread, and pops what the new thread
    once pushed, or what [sched64_create_thread] laid out for it. *)

From S2P Require Import Prelude Memory Machine X86 X86Stack KernLock NKern AddressSpaces.
From S2P Require Import FrameSource Memmap MemmapTheorems Paging PagingSpec PagingProof PagingSpaces PagingTheorems.
From S2P Require Import Sched64 Sched64Spec Sched64Proof Sched64Run Sched64Create Sched64Theorems.

(** ** The code *)

Definition context_switch64_code : list insn :=
  [PUSHF;
   PUSH (Reg RBP);
   PUSH (Reg RBX);
   PUSH (Reg R12);
   PUSH (Reg R13);
   PUSH (Reg R14);
   PUSH (Reg R15);
   MOV 8 (Mem (Some RDI) None 0) (Reg RSP);
   MOV 8 (Reg RSP) (Reg RSI);
   POP R15;
   POP R14;
   POP R13;
   POP R12;
   POP RBX;
   POP RBP;
   POPF;
   RET].

(** [thread_start64]; [back] is the address of its second instruction. *)
Definition thread_start64_code (NKern_UnlockAfterSwitch back : Z) : list insn :=
  [CALL (Imm NKern_UnlockAfterSwitch) back].
Definition thread_start64_back : list insn := [POP RAX; JMP (Reg RAX)].

(** The routine returns or jumps, so no label follows it. *)
Definition switch_blocks (context_switch64 thread_start64 back unlock : Z) : list (Z * block) :=
  [(context_switch64, mkBlock context_switch64_code 0);
   (thread_start64, mkBlock (thread_start64_code unlock back) back);
   (back, mkBlock thread_start64_back 0)].

(** ** Contexts on a stack *)

(** At [sp] the stack of a thread that does not run: its callee-saved registers [ks]
    (R15 first), its flags and the address it goes on at. *)
Definition suspended (m : mem) (sp : Z) (ks : list Z) (rf ip : Z) : Prop :=
  length ks = 6%nat /\ words m sp (ks ++ [rf; ip]).

(** The context of the caller of [context_switch64] on CPU state [c]. *)
Definition own_regs (c : cpu) : list Z := gpr c <$> reverse callee_saved.
Definition own_return (c : cpu) : Z := load64 (ram c) (gpr c RSP).

(** What the hardware state must be for the routine: long mode, room on the stack of the
    caller, whose return address is at the top, and the three objects apart: the words
    the caller pushes, the field its stack pointer goes to, and the context of the new
    thread. *)
Record switch_ready (c : cpu) : Prop := {
  sr_mode : cmode c = Long64;
  sr_regs : regs64 c;
  sr_flags : 0 <= flags c < 2 ^ 64;
  sr_old : 56 <= gpr c RSP /\ gpr c RSP + 8 <= 2 ^ 64;
  sr_new : gpr c RSI + 64 < 2 ^ 64;
  sr_field : disjoint_range (gpr c RDI) 8 (gpr c RSP - 56) 64;
  sr_apart : disjoint_range (gpr c RSP - 56) 56 (gpr c RSI) 64;
  sr_field_new : disjoint_range (gpr c RDI) 8 (gpr c RSI) 64;
  sr_field_end : gpr c RDI + 8 <= 2 ^ 64
}.

(** The CPU runs on as the new thread, and the caller is suspended on its stack. *)
Record switched (c c' : cpu) (ks : list Z) (rf ip : Z) : Prop := {
  sw_rip : rip c' = ip;
  sw_flags : flags c' = rf;
  sw_rsp : gpr c' RSP = gpr c RSI + 64;
  sw_regs : gpr c' <$> reverse callee_saved = ks;
  sw_other r : r ∉ callee_saved -> r <> RSP -> gpr c' r = gpr c r;
  sw_field : load64 (ram c') (gpr c RDI) = gpr c RSP - 56;
  sw_saved : suspended (ram c') (gpr c RSP - 56) (own_regs c) (flags c) (own_return c);
  sw_ram x : ~ (gpr c RSP - 56 <= x < gpr c RSP) -> ~ (gpr c RDI <= x < gpr c RDI + 8) -> ram c' x = ram c x;
  sw_mode : cmode c' = Long64;
  sw_cr3 : c_cr3 c' = c_cr3 c;
  sw_xmm : xmm c' = xmm c
}.

(** The first seven instructions. *)
Definition save_code : list insn := PUSHF :: ((fun r => PUSH (Reg r)) <$> callee_saved).
Definition saved_regs : list reg := [R15; R14; R13; R12; RBX; RBP].

Lemma exec_save nxt c :
  cmode c = Long64 -> regs64 c -> 0 <= flags c < 2 ^ 64 -> 56 <= gpr c RSP ->
  exists c1, (forall l, exec (save_code ++ l) nxt c = exec l nxt c1) /\
    pushed (flags c :: (gpr c <$> callee_saved)) c c1.
Proof.
  intros Hm Hr Hf Hs. pose proof (Hr RSP). exists (push_list (flags c :: (gpr c <$> callee_saved)) c). split.
  - intros l. unfold save_code. rewrite <- app_comm_cons. cbn [exec step1]. set (c0 := push (flags c) c).
    assert (gpr c0 <$> callee_saved = gpr c <$> callee_saved) as Eg.
    { apply list_fmap_ext. intros i r Hin%list_elem_of_lookup_2. apply push_gpr. intros ->. by apply callee_no_rsp. }
    rewrite exec_pushes by (done || apply callee_no_rsp || (intros r; destruct (decide (r = RSP)) as [->|];
      [unfold c0; rewrite push_rsp by (done || lia); lia|unfold c0; by rewrite push_gpr])).
    by rewrite Eg.
  - apply push_list_spec; [done| |cbn [length]; rewrite length_fmap; cbn; lia].
    apply List.Forall_cons; [done|apply Forall_fmap, Forall_true; intros r; apply Hr].
Qed.

(** The last two. *)
Record resumed_top (c c' : cpu) (rf ip : Z) : Prop := {
  rt_rip : rip c' = ip;
  rt_flags : flags c' = rf;
  rt_rsp : gpr c' RSP = gpr c RSP + 16;
  rt_gpr r : r <> RSP -> gpr c' r = gpr c r;
  rt_ram : ram c' = ram c;
  rt_rest : (seg c', c_cr3 c', cmode c', xmm c') = (seg c, c_cr3 c, cmode c, xmm c)
}.

(** The last eight: a suspended context is taken off the stack. *)
Record resumed (c c' : cpu) (ks : list Z) (rf ip : Z) : Prop := {
  rs_rip : rip c' = ip;
  rs_flags : flags c' = rf;
  rs_rsp : gpr c' RSP = gpr c RSP + 64;
  rs_regs : gpr c' <$> reverse callee_saved = ks;
  rs_other r : r ∉ callee_saved -> r <> RSP -> gpr c' r = gpr c r;
  rs_ram : ram c' = ram c;
  rs_rest : (seg c', c_cr3 c', cmode c', xmm c') = (seg c, c_cr3 c, cmode c, xmm c)
}.

Lemma exec_return c nxt ip :
  cmode c = Long64 -> load64 (ram c) (gpr c RSP) = ip -> 0 <= gpr c RSP < 2 ^ 64 - 8 ->
  exec [RET] nxt c = Some (set_rip ip (set_gpr RSP (gpr c RSP + 8) c)).
Proof.
  intros Hm Hip Hs. cbn [exec step1]. unfold top, drop_top. rewrite Hm. cbn [wbytes]. rewrite Hip, wrap64; [done|].
  change (Z.of_nat 8) with 8. lia.
Qed.

Lemma exec_popf c l nxt rf :
  cmode c = Long64 -> load64 (ram c) (gpr c RSP) = rf -> 0 <= gpr c RSP < 2 ^ 64 - 8 ->
  exec (POPF :: l) nxt c = exec l nxt (set_flags rf (set_gpr RSP (gpr c RSP + 8) c)).
Proof.
  intros Hm Hrf Hs. cbn [exec step1]. unfold top, drop_top. rewrite Hm. cbn [wbytes]. rewrite Hrf, wrap64; [done|].
  change (Z.of_nat 8) with 8. lia.
Qed.

Lemma exec_popf_ret c nxt rf ip :
  cmode c = Long64 -> words (ram c) (gpr c RSP) [rf; ip] -> 0 <= gpr c RSP -> gpr c RSP + 16 < 2 ^ 64 ->
  exists c', exec [POPF; RET] nxt c = Some c' /\ resumed_top c c' rf ip.
Proof.
  intros Hm (Hrf & Hip & _) H0 Hs.
  rewrite (exec_popf c _ _ rf) by (done || lia).
  pose proof (gpr_set_eq RSP (gpr c RSP + 8) c) as E.
  assert (forall r, r <> RSP -> gpr (set_gpr RSP (gpr c RSP + 8) c) r = gpr c r) as Eo
    by (intros; by apply gpr_set_ne).
  assert (ram (set_gpr RSP (gpr c RSP + 8) c) = ram c /\ cmode (set_gpr RSP (gpr c RSP + 8) c) = cmode c) as [Er Em] by done.
  assert (rest (set_gpr RSP (gpr c RSP + 8) c) = rest c) as Et by done.
  revert E Eo Er Em Et. generalize (set_gpr RSP (gpr c RSP + 8) c) as c1. intros c1 E Eo Er Em Et.
  rewrite (exec_return _ _ ip); [|cbn; congruence|cbn; by rewrite Er, E|cbn; lia].
  eexists. split; [reflexivity|]. split; try done.
  - cbn [set_rip gpr]. rewrite gpr_set_eq. cbn. lia.
  - intros r Hr. cbn [set_rip gpr]. rewrite gpr_set_ne by done. by apply Eo.
  - cbn. by rewrite (rest_seg _ _ Et), (rest_cr3 _ _ Et), Em, (rest_xmm _ _ Et).
Qed.

Lemma exec_resume nxt c ks rf ip :
  cmode c = Long64 -> suspended (ram c) (gpr c RSP) ks rf ip -> 0 <= gpr c RSP -> gpr c RSP + 64 < 2 ^ 64 ->
  exists c', exec ((POP <$> saved_regs) ++ [POPF; RET]) nxt c = Some c' /\ resumed c c' ks rf ip.
Proof.
  intros Hm [Hks Hw] H0 Hs. apply words_app in Hw as [Hk Hw]. rewrite Hks in Hw.
  change (8 * Z.of_nat 6) with 48 in Hw.
  destruct (pop_list_spec saved_regs ks c) as [Q1 Q2 Q3 Q4 Q5];
    [done|by apply (bool_decide_unpack _)|by apply (bool_decide_unpack _)|done|done|done|
     change (8 * Z.of_nat (length saved_regs)) with 48; lia|].
  rewrite exec_pops. remember (pop_list saved_regs c) as c1 eqn:D. clear D.
  change (8 * Z.of_nat (length saved_regs)) with 48 in Q3.
  destruct (exec_popf_ret c1 nxt rf ip) as (c' & E & [T1 T2 T3 T4 T5 T6]);
    [by rewrite (rest_mode c c1 Q1)|by rewrite Q2, Q3|lia|lia|].
  exists c'. split; [done|]. split; try done.
  - lia.
  - rewrite <- (Forall2_fmap_eq _ _ _ Q4). apply list_fmap_ext. intros i r Hin%list_elem_of_lookup_2.
    apply T4. intros ->. by apply callee_no_rsp, elem_of_reverse.
  - intros r Hr1 Hr2. rewrite T4 by done. apply Q5; [|done]. by rewrite <- (elem_of_reverse _ callee_saved) in Hr1.
  - congruence.
  - by rewrite T6, (rest_seg _ _ Q1), (rest_cr3 _ _ Q1), (rest_mode _ _ Q1), (rest_xmm _ _ Q1).
Qed.

Lemma context_switch64_run nxt c ks rf ip :
  switch_ready c -> suspended (ram c) (gpr c RSI) ks rf ip ->
  exists c', exec context_switch64_code nxt c = Some c' /\ switched c c' ks rf ip.
Proof.
  intros [Hm Hr Hf [Ho1 Ho2] Hn Hfl Hap Hfn Hfe] [Hks Hw]. unfold disjoint_range in *.
  pose proof (Hr RSI) as HrS. pose proof (Hr RDI) as HrD.
  destruct (exec_save nxt c Hm Hr Hf Ho1) as (c1 & E1 & [P1 P2 P3 P4 P5]).
  change (8 * Z.of_nat (length (flags c :: (gpr c <$> callee_saved)))) with 56 in P3. rewrite P3 in *.
  change context_switch64_code with
    (save_code ++ [MOV 8 (Mem (Some RDI) None 0) (Reg RSP); MOV 8 (Reg RSP) (Reg RSI)] ++ (POP <$> saved_regs) ++ [POPF; RET]).
  rewrite E1. cbn [app]. rewrite exec_store by (rewrite ?(rest_mode _ _ P1), ?P2, ?P3 by done; done || lia).
  rewrite (P2 RDI), P3 by done. rewrite exec_move by (cbn [set_ram gpr]; by rewrite P2).
  cbn [set_ram gpr]. rewrite (P2 RSI) by done. fold (set_ram (store64 (ram c1) (gpr c RDI) (gpr c RSP - 56)) c1).
  set (c3 := set_gpr RSP (gpr c RSI) _).
  assert (gpr c3 RSP = gpr c RSI) as S3 by apply gpr_set_eq.
  assert (forall r, r <> RSP -> gpr c3 r = gpr c r) as G3
    by (intros r Hne; unfold c3; rewrite gpr_set_ne by done; by apply P2).
  assert (rest c3 = rest c) as T3 by exact P1.
  assert (load64 (ram c3) (gpr c RDI) = gpr c RSP - 56) as L3 by (apply load64_store_eq; lia).
  assert (forall x, ~ (gpr c RDI <= x < gpr c RDI + 8) -> ram c3 x = ram c1 x) as R3
    by (intros x Hx; by apply store_out).
  clearbody c3.
  destruct (exec_resume nxt c3 ks rf ip) as (c' & E' & [F1 F2 F3 F4 F5 F6 F7]);
    [by rewrite <- Hm; apply (rest_mode c c3)| |rewrite S3; lia..|].
  { split; [done|]. rewrite S3. apply (words_ext (ram c)); [|done]. rewrite length_app, Hks. cbn [length].
    intros x Hx. rewrite R3 by lia. apply P5. lia. }
  exists c'. split; [exact E'|]. injection F7 as _ G2 G4 G5.
  split; [done|done|by rewrite F3, S3|done| |by rewrite F6| | | | |].
  - intros r H1 H2. rewrite F5 by done. by apply G3.
  - split; [done|]. rewrite F6. apply (words_ext (ram c1)).
    { intros x Hx. cbn in Hx. apply R3. lia. }
    replace (own_regs c ++ [flags c; own_return c]) with (reverse (flags c :: (gpr c <$> callee_saved)) ++ [own_return c])
      by (unfold own_regs; rewrite fmap_reverse, reverse_cons, <- app_assoc; done).
    apply words_app. split; [done|]. split; [|done]. unfold own_return.
    change (8 * Z.of_nat (length (reverse (flags c :: (gpr c <$> callee_saved))))) with 56.
    replace (gpr c RSP - 56 + 56) with (gpr c RSP) by lia. apply load_ext. intros x Hx. apply P5. lia.
  - intros x H1 H2. rewrite F6, R3 by lia. by apply P5.
  - rewrite G4, <- Hm. by apply rest_mode.
  - rewrite G2. by apply rest_cr3.
  - rewrite G5. by apply rest_xmm.
Qed.

(** ** Theorems *)

(** C13: [context_switch64] hands the CPU over.  The caller is left suspended on its own
    stack: its callee-saved registers, its flags and its return address are the eight
    words its stack pointer, now in the field the first argument points to, leads to.
    The CPU goes on with the registers, the flags and the address of the thread whose
    stack pointer the second argument was.  Nothing else is written.  Stack pointers
    and the field are what the model of the scheduler computes.  The SSE registers are
    those of the caller still: they are not part of what is switched. *)
Theorem context_switch64_correct nxt c ks rf ip :
  switch_ready c -> suspended (ram c) (gpr c RSI) ks rf ip ->
  exists c', exec context_switch64_code nxt c = Some c' /\ switched c c' ks rf ip /\
    forall (P : Type) (s : sched P) i p,
      (i < length (cpu_rsp s))%nat -> (p < length (threads64 s))%nat -> nth i (cpu_rsp s) 0 = gpr c RSP + 8 ->
      exists s', context_switch64 i (Some p) (gpr c RSI) s = Done tt s' [] /\
        rsp (thr p s') = load64 (ram c') (gpr c RDI) /\ nth i (cpu_rsp s') 0 = gpr c' RSP.
Proof.
  intros Hr Hs. destruct (context_switch64_run nxt c ks rf ip Hr Hs) as (c' & E & Hw).
  exists c'. split; [done|]. split; [done|]. intros P s i p Hi Hp Hn.
  eexists. split; [reflexivity|]. destruct Hr as [_ Hr _ [? ?] ? _ _ _ _], Hw as [_ _ W1 _ _ W2 _ _ _ _ _].
  pose proof (Hr RSI). rewrite Hn, W1, W2. split.
  - unfold thr, upd_thread, set_cpu_rsp. cbn [threads64]. rewrite nth_insert_eq by done. cbn.
    rewrite u64_small by lia. lia.
  - cbn [set_cpu_rsp cpu_rsp]. rewrite nth_insert_eq by (by destruct s).
    rewrite u64_small by lia. done.
Qed.

(** C14: a thread comes back as it left.  When its caller has been switched away from and,
    on whatever CPU and after whatever other threads did, [context_switch64] is called
    with the stack pointer that was saved, its eight words still in place, the thread
    goes on after its call with its callee-saved registers, its flags and its stack. *)
Theorem switch_round_trip nxt c ks rf ip :
  switch_ready c -> suspended (ram c) (gpr c RSI) ks rf ip ->
  exists c1, exec context_switch64_code nxt c = Some c1 /\ rip c1 = ip /\
    forall c2, switch_ready c2 -> gpr c2 RSI = load64 (ram c1) (gpr c RDI) ->
      (forall x, gpr c RSP - 56 <= x < gpr c RSP + 8 -> ram c2 x = ram c1 x) ->
      exists c3, exec context_switch64_code nxt c2 = Some c3 /\
        rip c3 = load64 (ram c) (gpr c RSP) /\ flags c3 = flags c /\ gpr c3 RSP = gpr c RSP + 8 /\
        (forall r, r ∈ callee_saved -> gpr c3 r = gpr c r).
Proof.
  intros Hr Hs. destruct (context_switch64_run nxt c ks rf ip Hr Hs) as (c1 & E1 & W).
  exists c1. split; [done|]. split; [apply W|]. intros c2 Hr2 H2 Hm. rewrite (sw_field _ _ _ _ _ W) in H2.
  destruct (sw_saved _ _ _ _ _ W) as [Hl Hw].
  destruct (context_switch64_run nxt c2 (own_regs c) (flags c) (own_return c) Hr2) as (c3 & E3 & W3).
  { split; [done|]. rewrite H2. apply (words_ext (ram c1)); [|done].
    rewrite length_app, Hl. cbn [length]. intros x Hx. apply Hm. lia. }
  exists c3. split; [done|]. destruct W3 as [W1 W2 W3 W4 _ _ _ _ _ _ _]. split; [done|]. split; [done|].
  split; [lia|]. intros r Hin. unfold own_regs in W4.
  apply (Forall2_regs (gpr c3) (gpr c) (reverse callee_saved)); [|by apply elem_of_reverse].
  rewrite <- W4. clear. induction (reverse callee_saved); by constructor.
Qed.

(** ** The first entry of a thread *)

Section First.
Context (code : Z -> option block) (switch_at back unlock : Z).
Context {P : Type} {AS : AddressSpaces P} {AL : AddressSpacesLaws P}.
Context (threads64_addr thread_start64 : Z).
Context (code_ok : loaded code (switch_blocks switch_at thread_start64 back unlock)).

Lemma start_call c :
  cmode c = Long64 -> rip c = thread_start64 -> 8 <= gpr c RSP < 2 ^ 64 -> 0 <= unlock < 2 ^ 64 ->
  exists c', reaches code c c' /\ rip c' = unlock /\ gpr c' RSP = gpr c RSP - 8 /\
    load64 (ram c') (gpr c RSP - 8) = back mod 2 ^ 64 /\ cmode c' = Long64 /\
    (forall x, gpr c RSP <= x -> ram c' x = ram c x) /\ (forall r, r <> RSP -> gpr c' r = gpr c r).
Proof.
  intros Hm Hpc Hs Hu. exists (set_rip unlock (push back c)). split_and!.
  - eapply reaches_block; [rewrite Hpc; by apply (loaded_at _ _ _ _ code_ok), list_elem_of_further, list_elem_of_here|].
    cbn [b_code b_next thread_start64_code exec step1 read]. rewrite Hm. cbn [wbytes]. by rewrite cut8.
  - done.
  - by apply push_rsp.
  - change (ram (set_rip unlock (push back c))) with (ram (push back c)). rewrite push_ram by done.
    apply load_store_eq.
  - done.
  - intros x Hx. change (ram (set_rip unlock (push back c))) with (ram (push back c)). rewrite push_ram by done.
    apply store_out. lia.
  - intros r Hr. by apply push_gpr.
Qed.

Lemma start_enter c entry :
  cmode c = Long64 -> rip c = back -> 0 <= gpr c RSP < 2 ^ 64 - 8 -> load64 (ram c) (gpr c RSP) = entry ->
  exists c', reaches code c c' /\ rip c' = entry /\ gpr c' RSP = gpr c RSP + 8 /\
    (forall r, r <> RSP -> r <> RAX -> gpr c' r = gpr c r).
Proof.
  intros Hm Hpc Hs He. set (c1 := set_gpr RAX (top c) (drop_top c)).
  assert (top c = entry) as Et by (unfold top; by rewrite Hm).
  assert (gpr c1 RAX = entry) as Ea by (unfold c1; by rewrite gpr_set_eq).
  assert (gpr c1 RSP = gpr c RSP + 8) as Es.
  { unfold c1, drop_top. rewrite gpr_set_ne, gpr_set_eq, Hm by done. apply wrap64. cbn. lia. }
  pose proof (load64_bound (ram c) (gpr c RSP)).
  exists (set_rip entry c1). split_and!; [|done|done|].
  - eapply reaches_block; [rewrite Hpc; by apply (loaded_at _ _ _ _ code_ok), list_elem_of_further, list_elem_of_further, list_elem_of_here|].
    cbn [b_code b_next thread_start64_back exec step1]. fold c1.
    change (cmode c1) with (cmode c). rewrite Hm. cbn [wbytes read]. rewrite Ea, cut8 by lia. done.
  - intros r H1 H2. change (gpr c1 r = gpr c r). unfold c1, drop_top. by rewrite !gpr_set_ne.
Qed.
(** C15: the first switch to a thread that [sched64_create_thread] made goes to
    [thread_start64], with RFLAGS 0x202, so interrupts come on with [popfq] already;
    there [NKern_UnlockAfterSwitch] is called with an aligned stack, and when it has
    returned the CPU enters the thread's function, on the thread's own stack, aligned
    as after a call, with its callee-saved registers zero. *)
Theorem new_thread_enters (s : sched P) rings entry prio nm space p' t0 :
  sched_inv s rings -> (thread64_count s < MAX_THREADS64)%nat -> 0 <= prio < 8 -> 0 <= entry < 2 ^ 64 ->
  0 <= thread_start64 < 2 ^ 64 -> 0 <= back < 2 ^ 64 -> 0 <= unlock < 2 ^ 64 -> threads64_addr mod 16 = 0 ->
  threads64_addr + sizeof_thread64 * Z.of_nat MAX_THREADS64 <= 2 ^ 64 ->
  as_create (s_space s) = Done space p' t0 ->
  let i := thread64_count s in
  let bottom := threads64_addr + sizeof_thread64 * Z.of_nat i + stack_offset in
  exists s', sched64_create_thread threads64_addr thread_start64 entry prio nm s = Done (Some i) s' t0 /\
    forall c, switch_ready c -> gpr c RSI = rsp (thr i s') -> rip c = switch_at ->
      disjoint_range (gpr c RSP - 56) 64 bottom STACK_SIZE64 -> disjoint_range (gpr c RDI) 8 bottom STACK_SIZE64 ->
      (forall x, bottom <= x < bottom + STACK_SIZE64 -> ram c x = as_mem (s_space s') x) ->
      exists c1 c2, reaches code c c1 /\ rip c1 = thread_start64 /\ flags c1 = 0x202 /\
        reaches code c1 c2 /\ rip c2 = unlock /\ gpr c2 RSP mod 16 = 8 /\
        forall c3, abi_return (bottom + STACK_SIZE64) c2 c3 ->
          exists c4, reaches code c3 c4 /\ rip c4 = entry /\ gpr c4 RSP mod 16 = 8 /\
            bottom <= gpr c4 RSP < bottom + STACK_SIZE64 /\ (forall r, r ∈ callee_saved -> gpr c4 r = 0).
Proof.
  intros Hi Hlt Hp He Hts Hb Hu Hal Htop Has i bottom.
  pose proof (create_thread_spec threads64_addr thread_start64 s rings entry prio nm space p' t0
    Hi ltac:(lia) He Hts Hal Has) as H. cbv zeta in H. fold i in H.
  destruct (Nat.ltb_spec i MAX_THREADS64); [|lia]. destruct (Z.ltb_spec prio 8); [|lia]. cbn [andb] in H.
  destruct H as (s' & E & _ & _ & _ & _ & F0 & F1 & F2 & F3 & F4 & F5 & F6 & _).
  exists s'. split; [done|]. intros c Hr HS Hpc Hd1 Hd2 Hm. fold bottom in F5, F6. rewrite <- HS in *.
  assert (bottom + STACK_SIZE64 <= 2 ^ 64 - 16) as Hend
    by (unfold bottom, sizeof_thread64, stack_offset, STACK_SIZE64, MAX_THREADS64 in *; lia).
  unfold disjoint_range in Hd1, Hd2. pose proof (sr_regs _ Hr RSI) as HrS. pose proof (sr_new _ Hr) as Hn.
  assert (forall a, bottom <= a -> a + 8 <= bottom + STACK_SIZE64 -> load64 (ram c) a = load64 (as_mem (s_space s')) a) as Hl
    by (intros a Ha Ha'; apply load_ext; intros x Hx; apply Hm; lia).
  destruct (context_switch64_run 0 c (replicate 6 0) 0x202 thread_start64 Hr) as (c1 & E1 & [W1 W2 W3 W4 _ _ _ W7 W8 _ _]).
  { split; [done|]. apply words_app. change (8 * Z.of_nat (length (replicate 6 0))) with 48. split.
    - apply words_intro. intros k v [-> Hk]%lookup_replicate. rewrite Hl by lia. apply F0. lia.
    - cbn [words]. rewrite !Hl by lia. replace (gpr c RSI + 48 + 8) with (gpr c RSI + 56) by lia. done. }
  assert (forall x, bottom <= x < bottom + STACK_SIZE64 -> ram c1 x = as_mem (s_space s') x) as M1
    by (intros x Hx; rewrite W7 by lia; by apply Hm).
  destruct (start_call c1) as (c2 & R2 & P2 & S2 & L2 & D2 & M2 & G2); [done|done|lia|done|].
  exists c1, c2. split_and!; try done.
  { eapply reaches_block; [rewrite Hpc; apply (loaded_at _ _ _ _ code_ok), list_elem_of_here|exact E1]. }
  { rewrite S2, W3. dlia. }
  intros c3 [A1 A2 A3 A4 A5 _ A7].
  rewrite S2, W3 in *. rewrite Z.mod_small in L2 by done.
  destruct (start_enter c3 entry) as (c4 & R4 & P4 & S4 & G4).
  - by rewrite A7.
  - rewrite A1. by replace (gpr c RSI + 64 - 8) with (gpr c RSI + 64 - 8) in L2 by lia.
  - rewrite A2. lia.
  - rewrite A2. replace (gpr c RSI + 64 - 8 + 8) with (gpr c RSI + 64) by lia. rewrite <- F3.
    apply load_ext. intros x Hx. rewrite A5, M2, M1 by lia. done.
  - exists c4. split_and!; [done|done|rewrite S4, A2; dlia|lia|lia|].
    intros r Hin. assert (r <> RSP /\ r <> RAX) as [N1 N2].
    { split; intros ->; [by apply callee_no_rsp|]. revert Hin. by apply (bool_decide_unpack _). }
    rewrite G4, A3, G2 by done. apply (Forall2_regs (gpr c1) (fun _ => 0) (reverse callee_saved)); [|by apply elem_of_reverse].
    change ((fun _ => 0) <$> reverse callee_saved) with (replicate 6 0). rewrite <- W4.
    clear. induction (reverse callee_saved); by constructor.
Qed.
End First.

(** ** Two threads

    One calls with its stack at 0x9000 and its [rsp] field at 0x20000, the other is
    suspended at 0xA000, to go on at 0x1234. *)

Definition demo_cpu (rsp0 rsi : Z) (m : mem) : cpu :=
  mkCpu (fun r => match r with RSP => rsp0 | RDI => 0x20000 | RSI => rsi | RBX => 7 | R15 => 8 | _ => 0 end)
    0x100100 0x46 false (fun _ => 0) 0x80000011 0x1000 0x20 0x500 (103, 0x3000) Long64 (fun _ => 0) m.

Definition demo_ram : mem := mem_of
  [(0x9000, 8%nat, 0x100123); (0xA000, 8%nat, 15); (0xA008, 8%nat, 14); (0xA010, 8%nat, 13); (0xA018, 8%nat, 12);
   (0xA020, 8%nat, 3); (0xA028, 8%nat, 5); (0xA030, 8%nat, 0x202); (0xA038, 8%nat, 0x1234)].

Definition demo_switch : cpu := demo_cpu 0x9000 0xA000 demo_ram.
Definition demo_switched : cpu := default demo_switch (exec context_switch64_code 0 demo_switch).
(** Back again, from a stack at 0xB000 and with the field at 0x20000 read into RSI. *)
Definition demo_back : cpu := demo_cpu 0xB000 0x8FC8 (store64 (ram demo_switched) 0xB000 0x100456).

Lemma demo_switch_ready rsp0 rsi m :
  rsp0 = 0x9000 /\ rsi = 0xA000 \/ rsp0 = 0xB000 /\ rsi = 0x8FC8 -> switch_ready (demo_cpu rsp0 rsi m).
Proof.
  intros H. split; cbn; unfold disjoint_range; try done; try lia.
  intros r. destruct r; cbn; lia.
Qed.

Lemma demo_suspended : suspended (ram demo_switch) (gpr demo_switch RSI) [15; 14; 13; 12; 3; 5] 0x202 0x1234.
Proof. split; [done|]. by vm_compute. Qed.

Lemma context_switch64_correct_witness : exists c',
  exec context_switch64_code 0 demo_switch = Some c' /\ rip c' = 0x1234 /\ flags c' = 0x202 /\
  gpr c' RSP = 0xA040 /\ load64 (ram c') 0x20000 = 0x8FC8.
Proof.
  destruct (context_switch64_correct 0 demo_switch _ _ _ (demo_switch_ready 0x9000 0xA000 demo_ram ltac:(by left)) demo_suspended)
    as (c' & E & [W1 W2 W3 _ _ W6 _ _ _ _ _] & _). exists c'. split_and!; done.
Defined.

Lemma switch_round_trip_witness : exists c3,
  exec context_switch64_code 0 demo_back = Some c3 /\ rip c3 = 0x100123 /\ gpr c3 RBX = 7 /\ gpr c3 R15 = 8.
Proof.
  destruct (switch_round_trip 0 demo_switch _ _ _ (demo_switch_ready 0x9000 0xA000 demo_ram ltac:(by left)) demo_suspended)
    as (c1 & E1 & _ & H).
  assert (c1 = demo_switched) as -> by (unfold demo_switched; by rewrite E1).
  destruct (H demo_back) as (c3 & E3 & H1 & _ & _ & H2).
  - exact (demo_switch_ready 0xB000 0x8FC8 _ (or_intror (conj eq_refl eq_refl))).
  - vm_compute. reflexivity.
  - intros x Hx. apply store_out. cbn in Hx. lia.
  - exists c3. split; [exact E3|]. split; [rewrite H1; vm_compute; reflexivity|].
    split; (rewrite H2; [reflexivity|apply (bool_decide_unpack _); vm_compute; exact I]).
Defined.

(** A thread created on the boot pool, entered from the switch above. *)
Definition demo_blocks : list (Z * block) := switch_blocks 0x100100 0x100200 0x100205 0x100300.

Lemma new_thread_enters_witness : exists s' : sched (paging memmap),
  sched64_create_thread (AS := paging_spaces demo_pool) 0x500000 0x100200 0x100400 4 "demo" (demo_sched None) =
    Done (Some 2%nat) s' [] /\
  forall c, switch_ready c -> gpr c RSI = rsp (thr 2 s') -> rip c = 0x100100 ->
    disjoint_range (gpr c RSP - 56) 64 0x504080 STACK_SIZE64 -> disjoint_range (gpr c RDI) 8 0x504080 STACK_SIZE64 ->
    (forall x, 0x504080 <= x < 0x504080 + STACK_SIZE64 -> ram c x = p_mem (s_space s') x) ->
    exists c1, reaches (program demo_blocks) c c1 /\ rip c1 = 0x100200 /\ flags c1 = 0x202.
Proof.
  destruct (boot_frames demo_pool demo_paging demo_at_boot) as (W & V & _).
  destruct (create_address_space_run demo_pool demo_paging _ _ _ _ _ _ W V) as (p' & E & _).
  { apply (demo_frames_ok [0; 1; 2; 3; 4]). by repeat constructor. }
  assert (loaded (program demo_blocks) (switch_blocks 0x100100 0x100200 0x100205 0x100300)) as Hl by (by repeat constructor).
  destruct (new_thread_enters (AS := paging_spaces demo_pool) (AL := paging_spaces_laws demo_pool)
    (program demo_blocks) 0x100100 0x100205 0x100300 0x500000 0x100200 Hl (demo_sched None) demo_rings 0x100400 4 "demo"
    _ p' [] (demo_sched_inv None ltac:(by left)) ltac:(unfold MAX_THREADS64; cbn; lia) ltac:(lia) ltac:(lia) ltac:(lia) ltac:(lia) ltac:(lia)
    eq_refl ltac:(unfold sizeof_thread64, MAX_THREADS64; lia) E) as (s' & E' & H).
  exists s'. split; [exact E'|]. intros c Hr Hs Hpc H1 H2 Hm.
  destruct (H c Hr Hs Hpc H1 H2 Hm) as (c1 & _ & R & P1 & F & _). by exists c1.
Defined.
