(* ===== verification/Isr.v ===== *)
(** * isr.s: the interrupt stubs

    What the CPU does when it takes an interrupt (Intel SDM vol. 3, 6.14), the stubs
    of isr.s, which push the vector and the registers and call [interrupt_dispatch], and
    the way back.  The frame is the one [Idt] reads. *)

From S2P Require Import Prelude Memory Machine X86 X86Stack.
From S2P Require Import KernLock NKern NKernSmp FrameSource Paging AddressSpaces.
From S2P Require Import Sched64 Keyboard Acpi Apic Memmap MemmapTheorems PagingTheorems Gdt64 Gdt64Theorems Idt IdtTheorems.

(** ** Delivery by the CPU *)

(** Exceptions with an error code. *)
Definition cpu_error (vector : Z) : bool :=
  bool_decide (vector ∈ [8; 10; 11; 12; 13; 14; 17; 21; 29; 30]).

(** An interrupt gate at [idt + 16 * vector]; [tss] is the task state segment of the
    CPU, whose RSP0 is the stack for interrupts from an outer level. *)
Definition deliver (idt tss vector error : Z) (c : cpu) : option cpu :=
  let g := decode_gate (ram c) (idt + 16 * vector) in
  if negb (g_present g) || negb (g_type g =? 0xE) || negb (g_ist g =? 0) then None else
  let outer := 0 <? cpl c in
  let sp0 := if outer then load64 (ram c) (tss + tss_rsp0) else gpr c RSP in
  let sp := sp0 - sp0 mod 16 in
  match load_cs (g_selector g) 0 c with
  | None => None
  | Some c1 =>
      let c2 := if outer then set_seg SS 0 c1 else c1 in
      let frame := [seg c SS; gpr c RSP; flags c; seg c CS; rip c] ++
                   (if cpu_error vector then [error] else []) in
      Some (set_rip (g_offset g) (push_list frame (set_flags (Z.clearbit (flags c) IF_BIT) (set_gpr RSP sp c2))))
  end.

(** ** The stubs *)

Section Code.
(** Addresses: the stubs, the common part, the instruction after its call, and
    [interrupt_dispatch]. *)
Context (isr : Z -> Z) (isr_common_stub back interrupt_dispatch : Z).

Definition ISR_NOERR (vector : Z) : list insn := [PUSH (Imm 0); PUSH (Imm vector); JMP (Imm isr_common_stub)].
Definition ISR_ERR (vector : Z) : list insn := [PUSH (Imm vector); JMP (Imm isr_common_stub)].

(** The macro calls: the vectors of the [ISR_ERR]s; all others are [ISR_NOERR]s. *)
Definition err_vectors : list Z := [8; 10; 11; 12; 13; 14; 17].
Definition stub_vectors : list Z := seqZ 0 34 ++ [128].
Definition isr_code (vector : Z) : list insn :=
  if bool_decide (vector ∈ err_vectors) then ISR_ERR vector else ISR_NOERR vector.

(** In the order they are pushed. *)
Definition isr_regs : list reg := [RAX; RBX; RCX; RDX; RSI; RDI; RBP; R8; R9; R10; R11; R12; R13; R14; R15].

Definition isr_common_code : list insn :=
  ((fun r => PUSH (Reg r)) <$> isr_regs) ++
  [MOV 8 (Reg RDI) (Reg RSP); CALL (Imm interrupt_dispatch) back].

Definition isr_return_code : list insn :=
  (POP <$> reverse isr_regs) ++ [ADD 8 (Reg RSP) (Imm 16); IRETQ].

Definition isr_blocks : list (Z * block) :=
  ((fun v => (isr v, mkBlock (isr_code v) 0)) <$> stub_vectors) ++
  [(isr_common_stub, mkBlock isr_common_code back); (back, mkBlock isr_return_code 0)].
End Code.

(** The frame of [interrupt_frame_t] and above it, from the lowest address. *)
Definition frame_words (vector error : Z) (c : cpu) : list Z :=
  reverse (gpr c <$> isr_regs) ++ [vector; error; rip c; seg c CS; flags c; gpr c RSP; seg c SS].

Lemma isr_no_rsp : RSP ∉ isr_regs.
Proof. apply (bool_decide_unpack _). vm_compute. exact I. Qed.
Lemma isr_all r : r <> RSP -> r ∈ isr_regs.
Proof. intros H. destruct r; try done; apply (bool_decide_unpack _); vm_compute; exact I. Qed.

(** ** The kernel's segments *)

Record kernel_gdt (gdt : Z) (c : cpu) : Prop := {
  kg_gdtr : gdtr c = (8 * (5 + 2 * MAX_TSS_CPUS) - 1, gdt);
  kg_long : Z.testbit (efer c) LMA_BIT = true;
  kg_kcode : load64 (ram c) (gdt + SEL_KCODE) = kcode_desc;
  kg_kdata : load64 (ram c) (gdt + SEL_KDATA) = kdata_desc;
  kg_ucode : load64 (ram c) (gdt + SEL_UCODE) = Z.lor kcode_desc (Z.shiftl 3 45);
  kg_udata : load64 (ram c) (gdt + SEL_UDATA) = Z.lor kdata_desc (Z.shiftl 3 45)
}.

(** It stays as long as its memory does. *)
Lemma kernel_gdt_ext gdt c c' :
  gdtr c' = gdtr c -> efer c' = efer c -> (forall x, gdt <= x < gdt + 104 -> ram c' x = ram c x) ->
  kernel_gdt gdt c -> kernel_gdt gdt c'.
Proof.
  intros Hg He Hm [A1 A2 A3 A4 A5 A6]. unfold SEL_KCODE, SEL_KDATA, SEL_UCODE, SEL_UDATA in *.
  assert (forall a, gdt <= a <= gdt + 96 -> load64 (ram c') a = load64 (ram c) a) as Hl
    by (intros a Ha; apply load_ext; intros x Hx; apply Hm; lia).
  split; [congruence|congruence|..]; unfold SEL_KCODE, SEL_KDATA, SEL_UCODE, SEL_UDATA; rewrite Hl by lia; done.
Qed.

(** Kernel code, or user code of the ring-3 process. *)
Definition in_kernel (c : cpu) : Prop := seg c CS = SEL_KCODE /\ (seg c SS = 0 \/ seg c SS = SEL_KDATA).
Definition in_user (c : cpu) : Prop := seg c CS = Z.lor SEL_UCODE 3 /\ seg c SS = Z.lor SEL_UDATA 3.

Section Segments.
Context (gdt : Z) (c : cpu) (Hg : kernel_gdt gdt c).

Lemma kernel_entry sel : sel - Z.land sel 7 <= 96 -> gdt_entry sel c = Some (load64 (ram c) (gdt + (sel - Z.land sel 7))).
Proof.
  intros H. unfold gdt_entry. rewrite (kg_gdtr _ _ Hg). cbn [fst snd].
  destruct (Z.leb_spec (sel - Z.land sel 7 + 7) (8 * (5 + 2 * MAX_TSS_CPUS) - 1)); [done|]. unfold MAX_TSS_CPUS in *. lia.
Qed.

Lemma load_kernel_cs : load_cs SEL_KCODE 0 c = Some (set_mode Long64 (set_seg CS SEL_KCODE c)).
Proof.
  unfold load_cs. rewrite kernel_entry by done. change (gdt + (SEL_KCODE - Z.land SEL_KCODE 7)) with (gdt + SEL_KCODE).
  rewrite (kg_kcode _ _ Hg), (kg_long _ _ Hg). reflexivity.
Qed.

Lemma load_user_cs : load_cs (Z.lor SEL_UCODE 3) 3 c = Some (set_mode Long64 (set_seg CS (Z.lor SEL_UCODE 3) c)).
Proof.
  unfold load_cs. rewrite kernel_entry by done.
  change (gdt + (Z.lor SEL_UCODE 3 - Z.land (Z.lor SEL_UCODE 3) 7)) with (gdt + SEL_UCODE).
  rewrite (kg_ucode _ _ Hg), (kg_long _ _ Hg). reflexivity.
Qed.

Lemma kernel_ss_ok ss : ss = 0 \/ ss = SEL_KDATA -> stack_seg_ok ss 0 c = true.
Proof.
  intros [->| ->]; [done|]. unfold stack_seg_ok. rewrite kernel_entry by done.
  change (gdt + (SEL_KDATA - Z.land SEL_KDATA 7)) with (gdt + SEL_KDATA). by rewrite (kg_kdata _ _ Hg).
Qed.

Lemma user_ss_ok : stack_seg_ok (Z.lor SEL_UDATA 3) 3 c = true.
Proof.
  unfold stack_seg_ok. rewrite kernel_entry by done.
  change (gdt + (Z.lor SEL_UDATA 3 - Z.land (Z.lor SEL_UDATA 3) 7)) with (gdt + SEL_UDATA). by rewrite (kg_udata _ _ Hg).
Qed.
End Segments.

(** [gdt_init] makes this table. *)
Lemma gdt_init_kernel gdt gdt_ptr tss kstack0 m c :
  gdt_layout gdt gdt_ptr tss kstack0 -> ram c = setup_mem gdt tss kstack0 0 (gdt_mem gdt gdt_ptr m) ->
  gdtr c = (load16 (ram c) gdt_ptr, load64 (ram c) (gdt_ptr + 2)) -> Z.testbit (efer c) LMA_BIT = true ->
  kernel_gdt gdt c.
Proof.
  intros Hl Hm Hg He. split; [|done|..]; [rewrite Hg| | | |]; rewrite Hm;
    unfold SEL_KCODE, SEL_KDATA, SEL_UCODE, SEL_UDATA;
    rewrite ?(setup_mem_low _ _ _ _ Hl 2), ?(setup_mem_low _ _ _ _ Hl 8) by
      (destruct Hl; unfold gdt_slot, disjoint_range in *; lia);
    unfold gdt_mem; cbv zeta; destruct Hl; unfold gdt_slot, disjoint_range in *.
  - rewrite (load_store_ne 8 2) by (unfold disjoint_range; lia). rewrite load_store_eq.
    rewrite load64_store_eq by lia. done.
  - rewrite !load_store_ne by (unfold disjoint_range; lia). by rewrite load64_store_eq.
  - rewrite !load_store_ne by (unfold disjoint_range; lia). by rewrite load64_store_eq.
  - rewrite !load_store_ne by (unfold disjoint_range; lia). by rewrite load64_store_eq.
  - rewrite !load_store_ne by (unfold disjoint_range; lia). by rewrite load64_store_eq.
Qed.

(** [iretq] from kernel code, back to kernel or to user code [t]. *)
Lemma iretq_run gdt c t s :
  kernel_gdt gdt c -> cmode c = Long64 -> seg c CS = SEL_KCODE -> in_kernel t \/ in_user t ->
  gpr c RSP = s -> 0 <= s < 2 ^ 64 - 40 -> words (ram c) s [rip t; seg t CS; flags t; gpr t RSP; seg t SS] ->
  exists c', iretq c = Some c' /\ rip c' = rip t /\ flags c' = flags t /\ seg c' CS = seg t CS /\
    seg c' SS = seg t SS /\ gpr c' RSP = gpr t RSP /\ (forall r, r <> RSP -> gpr c' r = gpr c r) /\
    ram c' = ram c /\ cmode c' = Long64 /\ ctl c' = ctl c.
Proof.
  intros Hg Hm Hcs Ht Hs Hb (W0 & W1 & W2 & W3 & W4 & _).
  assert (cpl c = 0) as Hcpl by (unfold cpl; by rewrite Hm, Hcs).
  replace (s + 8 + 8) with (s + 16) in * by lia. replace (s + 16 + 8) with (s + 24) in * by lia.
  replace (s + 24 + 8) with (s + 32) in * by lia.
  unfold iretq. rewrite Hm, Hs. cbv zeta.
  rewrite !wrap64 by lia. change (8 * 0) with 0. change (8 * 1) with 8. change (8 * 2) with 16.
  change (8 * 3) with 24. change (8 * 4) with 32. rewrite Z.add_0_r, W0, W1, W2, W3, W4, Hcpl.
  destruct Ht as [[-> Hss]|[-> ->]].
  - assert (cut 2 (seg t SS) = seg t SS) as -> by (by destruct Hss as [->| ->]).
    change (cut 2 SEL_KCODE) with SEL_KCODE. change (Z.land SEL_KCODE 3) with 0. cbn [Z.ltb Z.compare orb].
    rewrite (kernel_ss_ok _ _ Hg) by done. cbn [negb]. rewrite (load_kernel_cs _ _ Hg).
    eexists. split; [reflexivity|]. split_and!; try done.
    intros r Hne. change (gpr (set_gpr RSP (gpr t RSP) c) r = gpr c r). by apply gpr_set_ne.
  - change (cut 2 (Z.lor SEL_UCODE 3)) with (Z.lor SEL_UCODE 3). change (cut 2 (Z.lor SEL_UDATA 3)) with (Z.lor SEL_UDATA 3).
    change (Z.land (Z.lor SEL_UCODE 3) 3) with 3. cbn [Z.ltb Z.compare orb].
    rewrite (user_ss_ok _ _ Hg). cbn [negb]. rewrite (load_user_cs _ _ Hg).
    eexists. split; [reflexivity|]. split_and!; try done.
    intros r Hne. change (gpr (set_gpr RSP (gpr t RSP) c) r = gpr c r). by apply gpr_set_ne.
Qed.

(** ** Into the dispatcher *)

Section Isr.
Context (code : Z -> option block).
Context (isr : Z -> Z) (isr_common_stub back interrupt_dispatch idt gdt tss : Z).
Context (code_ok : loaded code (isr_blocks isr isr_common_stub back interrupt_dispatch)).
Context (common_ok : 0 <= isr_common_stub < 2 ^ 64) (dispatch_ok : 0 <= interrupt_dispatch < 2 ^ 64)
        (back_ok : 0 <= back < 2 ^ 64).

(** The top of the stack the interrupt uses. *)
Definition stack_for (c : cpu) : Z :=
  let sp := if 0 <? cpl c then load64 (ram c) (tss + tss_rsp0) else gpr c RSP in sp - sp mod 16.

(** The state in which vector [vector] is taken: in kernel or in user code of long mode,
    a gate of [idt_init], room for the frame on the stack, which is apart from the
    descriptor table. *)
Record interruptible (vector : Z) (c : cpu) : Prop := {
  ir_mode : cmode c = Long64;
  ir_regs : regs64 c;
  ir_rip : 0 <= rip c < 2 ^ 64;
  ir_flags : 0 <= flags c < 2 ^ 64;
  ir_where : in_kernel c \/ in_user c;
  ir_gdt : kernel_gdt gdt c;
  ir_vector : vector ∈ stub_vectors /\ vector ∉ [21; 29; 30];
  ir_gate : exists dpl, decode_gate (ram c) (idt + 16 * vector) = mkGate (isr vector) 8 0 0xE dpl true;
  ir_stack : 184 <= stack_for c <= 2 ^ 64 - 16;
  ir_apart : disjoint_range (stack_for c - 184) 184 gdt 104
}.

Lemma where_cpl c : cmode c = Long64 -> in_kernel c \/ in_user c ->
  (cpl c = 0 /\ in_kernel c) \/ (cpl c = 3 /\ in_user c).
Proof. intros Hm [H|H]; [left|right]; (split; [|done]); unfold cpl; rewrite Hm, (proj1 H); done. Qed.

Lemma where_seg c s : cmode c = Long64 -> in_kernel c \/ in_user c -> s = CS \/ s = SS -> 0 <= seg c s < 2 ^ 64.
Proof.
  intros Hm [[H1 H2]|[H1 H2]] [->| ->]; rewrite ?H1, ?H2; try done. destruct H2 as [->| ->]; done.
Qed.

(** The words the CPU pushes, the first one highest. *)
Definition cpu_frame (vector error : Z) (c : cpu) : list Z :=
  [seg c SS; gpr c RSP; flags c; seg c CS; rip c] ++ (if cpu_error vector then [error] else []).

Lemma deliver_run vector error c :
  interruptible vector c -> 0 <= error < 2 ^ 64 ->
  exists c0 c1, deliver idt tss vector error c = Some c1 /\ rip c1 = isr vector /\
    gpr c0 RSP = stack_for c /\ (forall r, r <> RSP -> gpr c0 r = gpr c r) /\ ram c0 = ram c /\
    pushed (cpu_frame vector error c) c0 c1 /\ flags c0 = Z.clearbit (flags c) IF_BIT /\
    seg c0 CS = SEL_KCODE /\ cmode c0 = Long64 /\ ctl c0 = ctl c.
Proof.
  intros [Hm Hr Hrip Hf Hw Hg _ [dpl Hgate] Hst _] He. unfold deliver. rewrite Hgate. cbn [g_present g_type g_ist].
  cbn [negb orb Z.eqb Pos.eqb]. cbn [g_selector g_offset]. rewrite (load_kernel_cs _ _ Hg : load_cs 8 0 c = _).
  fold (stack_for c) (cpu_frame vector error c).
  set (c2 := if 0 <? cpl c then _ else _).
  assert (flags c2 = flags c /\ ram c2 = ram c /\ gpr c2 = gpr c /\ cmode c2 = Long64 /\ seg c2 CS = SEL_KCODE /\ ctl c2 = ctl c)
    as (E1 & E2 & E3 & E4 & E5 & E6) by (unfold c2; by destruct (0 <? cpl c)).
  clearbody c2. set (c0 := set_flags _ _).
  assert (gpr c0 RSP = stack_for c) as S0 by apply gpr_set_eq.
  assert (forall r, r <> RSP -> gpr c0 r = gpr c r) as G0
    by (intros r Hne; change (gpr (set_gpr RSP (stack_for c) c2) r = gpr c r); by rewrite gpr_set_ne, E3).
  assert (ram c0 = ram c) as R0 by exact E2.
  assert (flags c0 = Z.clearbit (flags c) IF_BIT /\ seg c0 CS = SEL_KCODE /\ cmode c0 = Long64 /\ ctl c0 = ctl c)
    as (F0 & C0 & M0 & K0) by done.
  clearbody c0. exists c0, (set_rip (isr vector) (push_list (cpu_frame vector error c) c0)).
  split_and!; try done. apply pushed_rip, push_list_spec; [done| |].
  - unfold cpu_frame. pose proof (Hr RSP). pose proof (where_seg c SS Hm Hw (or_intror eq_refl)).
    pose proof (where_seg c CS Hm Hw (or_introl eq_refl)).
    repeat (apply List.Forall_cons; [done|]). destruct (cpu_error vector); [by apply Forall_singleton|apply List.Forall_nil].
  - rewrite S0. unfold cpu_frame. destruct (cpu_error vector); cbn; lia.
Qed.

(** What the stub pushes on top: a zero where the CPU pushed no error code, the vector. *)
Definition stub_words (vector : Z) : list Z :=
  (if bool_decide (vector ∈ err_vectors) then [] else [0]) ++ [vector].

Lemma stub_run vector c1 :
  vector ∈ stub_vectors -> cmode c1 = Long64 -> rip c1 = isr vector -> 16 <= gpr c1 RSP < 2 ^ 64 ->
  exists c2, reaches code c1 c2 /\ rip c2 = isr_common_stub /\ pushed (stub_words vector) c1 c2.
Proof.
  intros Hv Hm Hrip Hs.
  assert (0 <= vector < 2 ^ 64) as Hb.
  { apply elem_of_app in Hv as [Hv%elem_of_seqZ|Hv%list_elem_of_singleton]; lia. }
  exists (set_rip isr_common_stub (push_list (stub_words vector) c1)). split_and!; [|done|].
  - eapply reaches_block.
    { rewrite Hrip. apply (loaded_at _ _ _ _ code_ok). apply elem_of_app. left.
      apply list_elem_of_fmap. by exists vector. }
    cbn [b_code b_next]. unfold isr_code, stub_words, ISR_ERR, ISR_NOERR.
    destruct (bool_decide (vector ∈ err_vectors)); cbn [app].
    + rewrite exec_push_imm by done. cbn [exec step1 read push_list foldl].
      change (cmode (push vector c1)) with (cmode c1). rewrite Hm. cbn [wbytes]. by rewrite cut8.
    + rewrite !exec_push_imm by done. cbn [exec step1 read push_list foldl].
      change (cmode (push vector (push 0 c1))) with (cmode c1). rewrite Hm. cbn [wbytes]. by rewrite cut8.
  - apply pushed_rip, push_list_spec; [done| |]; unfold stub_words; destruct (bool_decide _); cbn; try lia.
    + by apply Forall_singleton.
    + apply List.Forall_cons; [lia|by apply Forall_singleton].
Qed.

Lemma common_run c2 :
  cmode c2 = Long64 -> regs64 c2 -> rip c2 = isr_common_stub -> 128 <= gpr c2 RSP ->
  exists c3, reaches code c2 c3 /\ rip c3 = interrupt_dispatch /\ rest c3 = rest c2 /\
    gpr c3 RDI = gpr c2 RSP - 120 /\ gpr c3 RSP = gpr c2 RSP - 128 /\
    (forall r, r <> RSP -> r <> RDI -> gpr c3 r = gpr c2 r) /\
    words (ram c3) (gpr c2 RSP - 128) (back :: reverse (gpr c2 <$> isr_regs)) /\
    (forall x, ~ (gpr c2 RSP - 128 <= x < gpr c2 RSP) -> ram c3 x = ram c2 x).
Proof.
  intros Hm Hr Hrip Hs. pose proof (Hr RSP) as Hsp.
  destruct (push_list_spec (gpr c2 <$> isr_regs) c2) as [P1 P2 P3 P4 P5]; [done| |rewrite length_fmap; cbn; lia|].
  { apply Forall_fmap, Forall_true. intros r. apply Hr. }
  destruct (named (push_list (gpr c2 <$> isr_regs) c2)) as [c3 D]. rewrite <- D, length_fmap in *.
  change (8 * Z.of_nat (length isr_regs)) with 120 in P3.
  assert (0 <= gpr c3 RSP < 2 ^ 64) as B3 by lia.
  destruct (named (set_gpr RDI (gpr c3 RSP) c3)) as [c4 D4'].
  assert (gpr c4 RSP = gpr c3 RSP) as S4 by (rewrite D4'; by apply gpr_set_ne).
  assert (gpr c4 RDI = gpr c3 RSP) as D4 by (rewrite D4'; apply gpr_set_eq).
  assert (forall r, r <> RDI -> gpr c4 r = gpr c3 r) as G4 by (rewrite D4'; intros; by apply gpr_set_ne).
  assert (rest c4 = rest c2 /\ ram c4 = ram c3) as [R4 M4] by (rewrite D4'; split; [exact P1|done]).
  assert (exec (isr_common_code back interrupt_dispatch) back c2 =
          exec [CALL (Imm interrupt_dispatch) back] back c4) as E.
  { unfold isr_common_code. rewrite exec_pushes by (done || apply isr_no_rsp). rewrite <- D.
    rewrite D4'. by apply exec_move. }
  clear D4' D. pose proof (rest_mode _ _ R4) as Hm4. rewrite Hm in Hm4.
  pose proof (push_rsp back c4 Hm4 ltac:(lia)) as S5. pose proof (push_ram back c4 Hm4 ltac:(lia)) as M5.
  exists (set_rip interrupt_dispatch (push back c4)). split_and!.
  - eapply reaches_block.
    { rewrite Hrip. apply (loaded_at _ _ _ _ code_ok). apply elem_of_app. right. apply list_elem_of_here. }
    cbn [b_code b_next]. rewrite E. cbn [exec step1 read]. rewrite Hm4. cbn [wbytes]. by rewrite cut8.
  - done.
  - exact R4.
  - change (gpr (push back c4) RDI = gpr c2 RSP - 120). rewrite push_gpr by done. lia.
  - change (gpr (push back c4) RSP = gpr c2 RSP - 128). lia.
  - intros r H1 H2. change (gpr (push back c4) r = gpr c2 r). by rewrite push_gpr, G4, P2.
  - change (words (ram (push back c4)) (gpr c2 RSP - 128) (back :: reverse (gpr c2 <$> isr_regs))).
    rewrite M5. replace (gpr c4 RSP - 8) with (gpr c2 RSP - 128) by lia. split; [by apply load64_store_eq|].
    replace (gpr c2 RSP - 128 + 8) with (gpr c3 RSP) by lia. apply (words_ext (ram c3)); [|done].
    intros x Hx. rewrite store_out by lia. by rewrite M4.
  - intros x Hx. change (ram (push back c4) x = ram c2 x). rewrite M5, store_out, M4 by lia. apply P5. lia.
Qed.
(** The CPU and the stubs agree on who pushes an error code, but for vectors 21, 29, 30. *)
Lemma error_agree vector :
  vector ∈ stub_vectors -> vector ∉ [21; 29; 30] -> cpu_error vector = bool_decide (vector ∈ err_vectors).
Proof.
  intros Hv Hn. unfold cpu_error, err_vectors. apply bool_decide_ext.
  rewrite !elem_of_cons in Hn. rewrite !elem_of_cons, !elem_of_nil. tauto.
Qed.

Definition error_word (vector error : Z) : Z := if cpu_error vector then error else 0.

Lemma frame_words_eq vector error c :
  vector ∈ stub_vectors -> vector ∉ [21; 29; 30] ->
  reverse (cpu_frame vector error c ++ stub_words vector) =
  [vector; error_word vector error; rip c; seg c CS; flags c; gpr c RSP; seg c SS].
Proof.
  intros Hv Hn. unfold cpu_frame, stub_words, error_word. rewrite (error_agree _ Hv Hn).
  by destruct (bool_decide (vector ∈ err_vectors)).
Qed.

(** On entry to [interrupt_dispatch]: state [c2], frame at [f]. *)
Record dispatching (vector error : Z) (c c2 : cpu) (f : Z) : Prop := {
  di_rip : rip c2 = interrupt_dispatch;
  di_arg : gpr c2 RDI = f;
  di_stack : gpr c2 RSP = f - 8;
  di_return : load64 (ram c2) (f - 8) = back;
  di_frame : words (ram c2) f (frame_words vector (error_word vector error) c);
  di_ram x : ~ (f - 8 <= x < stack_for c) -> ram c2 x = ram c x;
  di_callee r : r ∈ callee_saved -> gpr c2 r = gpr c r;
  di_flags : flags c2 = Z.clearbit (flags c) IF_BIT;
  di_cs : seg c2 CS = SEL_KCODE;
  di_mode : cmode c2 = Long64;
  di_ctl : ctl c2 = ctl c
}.

Lemma isr_entry_run vector error c :
  interruptible vector c -> 0 <= error < 2 ^ 64 ->
  exists c1 c2, deliver idt tss vector error c = Some c1 /\ reaches code c1 c2 /\
    dispatching vector error c c2 (stack_for c - 176).
Proof.
  intros Hi He. destruct (deliver_run vector error c Hi He) as
    (c0 & c1 & E1 & Hr1 & S0 & G0 & R0 & P1 & F0 & C0 & M0 & K0).
  destruct Hi as [Hm Hr _ _ _ _ [Hv Hn] _ [Hst1 Hst2] _].
  assert (length (cpu_frame vector error c ++ stub_words vector) = 7%nat) as Hlen.
  { rewrite <- length_reverse, frame_words_eq by done. done. }
  assert (5 <= Z.of_nat (length (cpu_frame vector error c)) <= 6) as Hl1
    by (unfold cpu_frame; destruct (cpu_error vector); cbn; lia).
  pose proof (pu_rsp _ _ _ P1) as S1. pose proof (rest_mode _ _ (pu_rest _ _ _ P1)) as M1.
  destruct (stub_run vector c1 Hv) as (c1' & R1 & Hr1' & P2); [congruence|done|lia|].
  pose proof (pushed_app _ _ _ _ _ P1 P2) as [T1 T2 T3 T4 T5]. rewrite Hlen in T3.
  rewrite frame_words_eq in T4 by done. change (8 * Z.of_nat 7) with 56 in T3. rewrite T3, S0 in *.
  assert (regs64 c1') as Hr64.
  { intros r. destruct (decide (r = RSP)) as [->|Hne]; [lia|]. rewrite T2, G0 by done. apply Hr. }
  destruct (common_run c1') as (c2 & R2 & Q1 & Q2 & Q3 & Q4 & Q5 & [Q6 Q7] & Q8); [|done|done|lia|].
  { rewrite (rest_mode _ _ T1). done. }
  assert (forall x, ~ (gpr c1' RSP - 128 <= x < stack_for c) -> ram c2 x = ram c x) as Hram.
  { intros x Hx. rewrite Q8, T5, R0 by lia. done. }
  exists c1, c2. split; [done|]. split; [by eapply reaches_trans|].
  replace (gpr c1' RSP) with (stack_for c - 56) in * by lia.
  replace (stack_for c - 56 - 128 + 8) with (stack_for c - 176) in Q7 by lia. split.
  - done.
  - lia.
  - lia.
  - rewrite <- Q6. f_equal. lia.
  - unfold frame_words. apply words_app. split.
    + replace (gpr c <$> isr_regs) with (gpr c1' <$> isr_regs); [done|].
      apply list_fmap_ext. intros k r Hk%list_elem_of_lookup_2.
      assert (r <> RSP) by (intros ->; by apply isr_no_rsp). by rewrite T2, G0.
    + rewrite length_reverse, length_fmap. change (8 * Z.of_nat (length isr_regs)) with 120.
      replace (stack_for c - 176 + 120) with (stack_for c - 56) by lia.
      apply (words_ext (ram c1')); [|done]. intros x Hx. apply Q8. lia.
  - intros x Hx. apply Hram. lia.
  - intros r Hin. assert (r <> RSP /\ r <> RDI) as [N1 N2].
    { split; intros ->; revert Hin; apply (bool_decide_unpack _); vm_compute; exact I. }
    by rewrite Q5, T2, G0.
  - rewrite <- F0, <- (rest_flags _ _ T1). by apply rest_flags.
  - rewrite <- C0, <- (rest_seg _ _ T1). by rewrite (rest_seg _ _ Q2).
  - rewrite (rest_mode _ _ Q2), (rest_mode _ _ T1). done.
  - by rewrite (rest_ctl _ _ Q2), (rest_ctl _ _ T1).
Qed.

(** From the return of [interrupt_dispatch] to the code that was interrupted. *)
Lemma isr_return_run w0 w1 c c3 f :
  in_kernel c \/ in_user c -> cmode c3 = Long64 -> seg c3 CS = SEL_KCODE -> kernel_gdt gdt c3 -> rip c3 = back ->
  gpr c3 RSP = f -> 0 <= f -> f + 176 < 2 ^ 64 -> words (ram c3) f (frame_words w0 w1 c) ->
  exists c4, reaches code c3 c4 /\ rip c4 = rip c /\ flags c4 = flags c /\ seg c4 CS = seg c CS /\
    seg c4 SS = seg c SS /\ (forall r, gpr c4 r = gpr c r) /\ ram c4 = ram c3 /\ cmode c4 = Long64 /\ ctl c4 = ctl c3.
Proof.
  intros Hw Hm Hcs Hg Hrip Hsp H0 Hf Hwords. unfold frame_words in Hwords. apply words_app in Hwords as [Wr Ww].
  rewrite length_reverse, length_fmap in Ww. change (8 * Z.of_nat (length isr_regs)) with 120 in Ww.
  destruct Ww as (_ & _ & Ww). replace (f + 120 + 8 + 8) with (f + 136) in Ww by lia.
  destruct (pop_list_spec (reverse isr_regs) (reverse (gpr c <$> isr_regs)) c3) as [Q1 Q2 Q3 Q4 Q5];
    [done|apply (bool_decide_unpack _); vm_compute; exact I|rewrite elem_of_reverse; apply isr_no_rsp|done|by rewrite Hsp|lia|
     change (8 * Z.of_nat (length (reverse isr_regs))) with 120; lia|].
  destruct (named (pop_list (reverse isr_regs) c3)) as [c5 D]. rewrite <- D in *.
  change (8 * Z.of_nat (length (reverse isr_regs))) with 120 in Q3.
  destruct (named (set_gpr RSP (f + 136) c5)) as [c6 D6].
  assert (gpr c6 RSP = f + 136 /\ (forall r, r <> RSP -> gpr c6 r = gpr c5 r)) as [S6 G6].
  { rewrite D6. split; [apply gpr_set_eq|intros r Hr; by apply gpr_set_ne]. }
  assert (rest c6 = rest c3 /\ ram c6 = ram c3) as [R6 M6] by (rewrite D6; by split).
  destruct (iretq_run gdt c6 c (f + 136)) as (c4 & E4 & H1 & H2 & H3 & H4 & H5 & H6 & H7 & H8 & H9);
    [|by rewrite (rest_mode _ _ R6)|by rewrite (rest_seg _ _ R6)|done|done|lia|by rewrite M6|].
  { destruct Hg. unfold rest in R6. split; rewrite ?M6; congruence. }
  exists c4. split_and!; try done; [|intros r|congruence|by rewrite H9, (rest_ctl _ _ R6)].
  - eapply reaches_block.
    { rewrite Hrip. apply (loaded_at _ _ _ _ code_ok). apply elem_of_app. right.
      apply list_elem_of_further, list_elem_of_here. }
    cbn [b_code b_next]. unfold isr_return_code. rewrite exec_pops, <- D. cbn [exec step1].
    assert (alu 8 Z.add (Reg RSP) (Imm 16) c5 = Some c6) as ->; [|by rewrite E4].
    unfold alu. cbn [read write]. unfold merge. change (8 <? 4)%nat with false. cbv iota.
    rewrite Q3, Hsp, D6. change (cut 8 16) with 16. rewrite (cut8 (f + 120)) by lia.
    replace (f + 120 + 16) with (f + 136) by lia. by rewrite !cut8 by (rewrite ?cut8; lia).
  - destruct (decide (r = RSP)) as [->|Hne]; [done|]. rewrite H6, G6 by done.
    apply (Forall2_regs (gpr c5) (gpr c) (reverse isr_regs)); [by rewrite fmap_reverse|].
    apply elem_of_reverse. by apply isr_all.
Qed.
End Isr.

(** ** Theorems *)

Section Theorems.
Context (code : Z -> option block).
Context (isr : Z -> Z) (isr_common_stub back interrupt_dispatch idt gdt tss : Z).
Context (code_ok : loaded code (isr_blocks isr isr_common_stub back interrupt_dispatch)).
Context (common_ok : 0 <= isr_common_stub < 2 ^ 64) (dispatch_ok : 0 <= interrupt_dispatch < 2 ^ 64)
        (back_ok : 0 <= back < 2 ^ 64).

(** An interrupt or exception taken in kernel or in user code reaches
    [interrupt_dispatch] with interrupts off, in the kernel's code segment, with a frame
    of [interrupt_frame_t] in its argument whose fields are the vector, the error code
    (0 where the CPU gives none), and the interrupted RIP, CS, RFLAGS, RDI and RAX, on a
    stack that is aligned as the ABI asks for, the ring-0 stack of the TSS when user code
    was interrupted; no memory above that stack's top or below the frame changes. *)
Theorem isr_frame_correct vector error c :
  interruptible isr idt gdt tss vector c -> 0 <= error < 2 ^ 64 ->
  let f := stack_for tss c - 176 in
  exists c1 c2, deliver idt tss vector error c = Some c1 /\ reaches code c1 c2 /\
    rip c2 = interrupt_dispatch /\ gpr c2 RDI = f /\ gpr c2 RSP mod 16 = 8 /\
    Z.testbit (flags c2) IF_BIT = false /\ cpl c2 = 0 /\
    f_vector (ram c2) f = vector /\ f_error_code (ram c2) f = (if cpu_error vector then error else 0) /\
    f_rip (ram c2) f = rip c /\ f_cs (ram c2) f = seg c CS /\ f_rflags (ram c2) f = flags c /\
    f_rdi (ram c2) f = gpr c RDI /\ f_rax (ram c2) f = gpr c RAX /\
    (forall x, ~ (f - 8 <= x < stack_for tss c) -> ram c2 x = ram c x).
Proof.
  intros Hi He f.
  destruct (isr_entry_run code isr isr_common_stub back interrupt_dispatch idt gdt tss code_ok
    common_ok dispatch_ok back_ok vector error c Hi He) as (c1 & c2 & E & R & D).
  fold f in D. destruct D as [D1 D2 D3 D4 D5 D6 D7 D8 D9 D10 D11].
  assert (forall (i : nat) v, frame_words vector (error_word vector error) c !! i = Some v ->
    load64 (ram c2) (f + 8 * Z.of_nat i) = v) as Hw by (intros i v; by apply words_lookup).
  exists c1, c2. split_and!; try done.
  - rewrite D3. unfold f, stack_for. clear. cbv zeta. dlia.
  - rewrite D8. by apply Z.clearbit_eq.
  - unfold cpl. by rewrite D10, D9.
  - by apply (Hw 15%nat).
  - by apply (Hw 16%nat).
  - by apply (Hw 17%nat).
  - by apply (Hw 18%nat).
  - by apply (Hw 19%nat).
  - by apply (Hw 9%nat).
  - by apply (Hw 14%nat).
Qed.

(** C10: when [interrupt_dispatch] returns as the ABI asks it to, the stub goes back to
    the interrupted code with all sixteen registers, the flags, the segments and the
    instruction pointer as they were when the interrupt came, in kernel and in user
    code; what the handler did to the memory stays. *)
Theorem isr_round_trip vector error c :
  interruptible isr idt gdt tss vector c -> 0 <= error < 2 ^ 64 ->
  exists c1 c2, deliver idt tss vector error c = Some c1 /\ reaches code c1 c2 /\
    dispatching back interrupt_dispatch tss vector error c c2 (stack_for tss c - 176) /\
    forall c3, abi_return (stack_for tss c) c2 c3 -> kernel_gdt gdt c3 ->
      exists c4, reaches code c3 c4 /\ rip c4 = rip c /\ flags c4 = flags c /\
        seg c4 CS = seg c CS /\ seg c4 SS = seg c SS /\ (forall r, gpr c4 r = gpr c r) /\
        ram c4 = ram c3 /\ cmode c4 = Long64 /\ ctl c4 = ctl c3.
Proof.
  intros Hi He.
  destruct (isr_entry_run code isr isr_common_stub back interrupt_dispatch idt gdt tss code_ok
    common_ok dispatch_ok back_ok vector error c Hi He) as (c1 & c2 & E & R & D).
  exists c1, c2. split_and!; [done..|]. destruct D as [D1 D2 D3 D4 D5 D6 D7 D8 D9 D10 D11]. intros c3 [A1 A2 A3 A4 A5 A6 A7] Hg.
  pose proof (ir_where _ _ _ _ _ _ Hi) as Hw. pose proof (ir_stack _ _ _ _ _ _ Hi) as Hst.
  apply (isr_return_run code isr isr_common_stub back interrupt_dispatch gdt code_ok
    vector (error_word vector error) c c3 (stack_for tss c - 176)); try done; try congruence; try lia.
  apply (words_ext (ram c2)); [|done]. intros x Hx.
  unfold frame_words in Hx. rewrite length_app, length_reverse, length_fmap in Hx.
  apply A5. cbn in Hx. lia.
Qed.
End Theorems.

(** ** A page fault of the ring-3 process

    The code is at 0x101000, the descriptor tables at 0x120000 (IDT) and 0x3000 (GDT),
    the task state segment of CPU 0 at 0x4000, its ring-0 stack ends at 0x9000. *)

Definition demo_isr (v : Z) : Z := (0x101000 + 16 * v) mod 2 ^ 64.
Definition demo_isr_blocks : list (Z * block) := isr_blocks demo_isr 0x102000 0x102040 0x103000.

Definition demo_tables : mem := mem_of
  [(0x3008, 8%nat, kcode_desc); (0x3010, 8%nat, kdata_desc); (0x3018, 8%nat, Z.lor kcode_desc (Z.shiftl 3 45));
   (0x3020, 8%nat, Z.lor kdata_desc (Z.shiftl 3 45)); (0x4004, 8%nat, 0x9000)].

Definition demo_fault : cpu :=
  mkCpu (fun r => match r with RSP => 0x50001ff0 | RAX => 1 | RDI => 65 | _ => 0 end) 0x50000010 0x202 false
    (fun s => match s with CS => 0x1B | _ => 0x23 end) 0x80000011 0x1000 0x20 0x500
    (8 * (5 + 2 * MAX_TSS_CPUS) - 1, 0x3000) Long64 (fun _ => 0)
    (gate_mem 0x120000 demo_tables 14 (demo_isr 14) 0).

Lemma demo_gdt gdt0 m : (forall x, 0x3000 <= x < 0x3068 -> m x = demo_tables x) ->
  kernel_gdt 0x3000 (set_ram m gdt0) <->
  gdtr gdt0 = (8 * (5 + 2 * MAX_TSS_CPUS) - 1, 0x3000) /\ Z.testbit (efer gdt0) LMA_BIT = true.
Proof.
  intros H. split; [by intros [A B _ _ _ _]|]. intros [A B].
  split; try done; cbn [set_ram ram]; unfold SEL_KCODE, SEL_KDATA, SEL_UCODE, SEL_UDATA;
    rewrite (load_ext 8 m demo_tables) by (intros x Hx; apply H; lia); vm_compute; reflexivity.
Qed.

Lemma demo_interruptible : interruptible demo_isr 0x120000 0x3000 0x4000 14 demo_fault.
Proof.
  assert (stack_for 0x4000 demo_fault = 0x9000) as Hs by (vm_compute; reflexivity).
  split; rewrite ?Hs; try done.
  - intros r. by destruct r.
  - by right.
  - split; [apply elem_of_app; left; apply elem_of_seqZ; lia|by apply (bool_decide_unpack _)].
  - exists 0. apply gate_mem_decode; [apply Z.mod_pos_bound; lia|lia].
  - unfold disjoint_range. lia.
Qed.

Lemma demo_isr_loaded : loaded (program demo_isr_blocks) demo_isr_blocks.
Proof.
  apply Forall_app. split; [|by repeat constructor].
  apply Forall_fmap, Forall_app. split; [|by repeat constructor]. by repeat constructor.
Qed.

Lemma isr_frame_correct_witness : exists c1 c2,
  deliver 0x120000 0x4000 14 5 demo_fault = Some c1 /\ reaches (program demo_isr_blocks) c1 c2 /\
  rip c2 = 0x103000 /\ gpr c2 RDI = 0x8F50 /\ f_vector (ram c2) 0x8F50 = 14 /\ f_error_code (ram c2) 0x8F50 = 5 /\
  f_rip (ram c2) 0x8F50 = 0x50000010 /\ f_cs (ram c2) 0x8F50 = 0x1B.
Proof.
  destruct (isr_frame_correct (program demo_isr_blocks) demo_isr 0x102000 0x102040 0x103000 0x120000 0x3000 0x4000
    demo_isr_loaded ltac:(lia) ltac:(lia) ltac:(lia) 14 5 demo_fault demo_interruptible ltac:(lia))
    as (c1 & c2 & E & R & H1 & H2 & _ & _ & _ & H3 & H4 & H5 & H6 & _).
  exists c1, c2. split_and!; assumption.
Defined.

(** The handler's own registers and memory are arbitrary; here it clears the registers
    it need not keep and writes a word of its own. *)
Definition demo_returned (c2 : cpu) : cpu :=
  mkCpu (fun r => if bool_decide (r = RSP) then gpr c2 RSP + 8 else if bool_decide (r ∈ callee_saved) then gpr c2 r else 0)
    (load64 (ram c2) (gpr c2 RSP)) (flags c2) false (seg c2) 0x80000011 0x1000 0x20 0x500 (gdtr demo_fault) (cmode c2)
    (fun _ => 0) (store64 (ram c2) 0x20000 7).

Lemma isr_round_trip_witness : exists c1 c2 c4,
  deliver 0x120000 0x4000 14 5 demo_fault = Some c1 /\ reaches (program demo_isr_blocks) c1 c2 /\
  rip c2 = 0x103000 /\ reaches (program demo_isr_blocks) (demo_returned c2) c4 /\ rip c4 = 0x50000010 /\
  flags c4 = 0x202 /\ seg c4 CS = 0x1B /\ gpr c4 RSP = 0x50001ff0 /\ gpr c4 RDI = 65 /\ ram c4 0x20000 = 7.
Proof.
  destruct (isr_round_trip (program demo_isr_blocks) demo_isr 0x102000 0x102040 0x103000 0x120000 0x3000 0x4000
    demo_isr_loaded ltac:(lia) ltac:(lia) ltac:(lia) 14 5 demo_fault demo_interruptible ltac:(lia))
    as (c1 & c2 & E & R & D & H).
  assert (stack_for 0x4000 demo_fault = 0x9000) as Hs by (vm_compute; reflexivity). rewrite Hs in D, H.
  destruct D as [D1 D2 D3 D4 D5 D6 D7 D8 D9 D10 D11].
  destruct (H (demo_returned c2)) as (c4 & R4 & H1 & H2 & H3 & H4 & H5 & H6 & H7).
  - split; [reflexivity|reflexivity| | | |reflexivity|reflexivity].
    + intros r Hr. cbn. rewrite bool_decide_false by (intros ->; by apply callee_no_rsp). by rewrite bool_decide_true.
    + clear - D3 D7. intros r. cbn [demo_returned gpr]. destruct (bool_decide (r = RSP)); [lia|].
      destruct (bool_decide_reflect (r ∈ callee_saved)) as [Hr|_]; [|lia]. rewrite (D7 r Hr). by destruct r.
    + intros x Hx. cbn [demo_returned ram]. apply store_out. lia.
  - assert (forall x, 0x3000 <= x < 0x3068 -> store64 (ram c2) 0x20000 7 x = demo_tables x) as Hx.
    { clear - D6. intros x Hx. rewrite store_out by lia. rewrite (D6 x) by lia.
      apply gate_mem_out. unfold gate_at. lia. }
    refine (proj2 (demo_gdt (demo_returned c2) _ Hx) _). split; reflexivity.
  - exists c1, c2, c4. split; [exact E|]. split; [exact R|]. split; [exact D1|]. split; [exact R4|].
    rewrite H1, H2, H3, !H5, H6. split_and!; reflexivity.
Defined.
