(* ===== verification/Usermode.v ===== *)
(** * usermode.s: the way into ring 3

    [enter_usermode] builds the five words that [iretq] takes and drops the privilege
    level with it.  The GDT is the one [gdt_init] makes ([Isr.kernel_gdt]). *)

From S2P Require Import Prelude Memory X86 X86Stack X86Run.
From S2P Require Import Machine KernLock NKern NKernSmp FrameSource Paging AddressSpaces Sched64 Memmap PagingTheorems.
From S2P Require Import Keyboard Acpi Apic Gdt64 Gdt64Theorems Idt IdtTheorems Isr.

Definition USER_CS : Z := Z.lor SEL_UCODE 3.
Definition USER_SS : Z := Z.lor SEL_UDATA 3.

Definition enter_usermode_code : list insn :=
  load_segs USER_SS [DS; ES; FS; GS] ++
  [PUSH (Imm USER_SS); PUSH (Reg RSI); PUSH (Imm 0x202); PUSH (Imm USER_CS); PUSH (Reg RDI); IRETQ].

(** ** What [iretq] leaves alone *)

Lemma load_cs_inv sel lvl c c1 : load_cs sel lvl c = Some c1 -> exists m, c1 = set_mode m (set_seg CS sel c).
Proof.
  unfold load_cs. destruct (gdt_entry sel c); [|done]. cbv zeta.
  destruct (_ && _ && _ && _ && _); [|done]. destruct (_ =? 1).
  - destruct (_ && _); [|done]. injection 1 as <-. by eexists.
  - destruct (_ && _); [|done]. injection 1 as <-. by eexists.
Qed.

Lemma iretq_inv c c' : iretq c = Some c' ->
  exists m cs ss v1 v2 v3 f, 
    c' = set_seg SS ss (set_gpr RSP v3 (set_flags v2 (set_rip v1 (set_segs f (set_mode m (set_seg CS cs c)))))) /\
    0 <= Z.land cs 3 <= 3 /\
    let c1 := set_mode m (set_seg CS cs c) in f = outer_segs (Z.land cs 3) c1 \/ f = seg c1.
Proof.
  unfold iretq. destruct (cmode c); [done..|]. cbv zeta. destruct (_ || _); [done|].
  destruct (load_cs _ _ _) as [c1|] eqn:E; [|done]. apply load_cs_inv in E as [m ->]. injection 1 as <-.
  set (w := cut 2 (load64 (ram c) (wrap Long64 (gpr c RSP + 8 * 1)))).
  assert (0 <= Z.land w 3 <= 3) by (change (Z.land w 3) with (Z.land w (Z.ones 2)); rewrite Z.land_ones by lia; dlia).
  set (c1 := set_mode m (set_seg CS w c)). exists m, w.
  destruct (cpl c <? _); [eexists _, _, _, _, (outer_segs (Z.land w 3) c1)|eexists _, _, _, _, (seg c1)];
    (split; [reflexivity|]); (split; [done|]); [by left|by right].
Qed.

Lemma iretq_keeps c c' : iretq c = Some c' ->
  gdtr c' = gdtr c /\ efer c' = efer c /\ c_cr3 c' = c_cr3 c /\
  (forall s q, s <> CS -> s <> SS -> gdt_entry (seg c s) c = Some q -> d_dpl (decode q 0) = 3 -> seg c' s = seg c s).
Proof.
  intros (m & cs & ss & v1 & v2 & v3 & f & -> & Hl & Hf)%iretq_inv. split_and!; [done..|].
  intros s q H1 H2 Hq Hd. cbn [set_seg seg set_gpr set_flags set_rip set_segs set_mode].
  unfold sreg_eqb. rewrite bool_decide_false by done. destruct Hf as [->| ->].
  - unfold outer_segs. cbn [set_mode set_seg seg]. unfold sreg_eqb. rewrite bool_decide_false by done.
    change (gdt_entry (seg c s) (set_mode m (set_seg CS cs c))) with (gdt_entry (seg c s) c). rewrite Hq, Hd.
    destruct (Z.ltb_spec 3 (Z.land cs 3)); [lia|]. by destruct s.
  - cbn [set_mode set_seg seg]. unfold sreg_eqb. by rewrite bool_decide_false.
Qed.

(** ** The data segments *)

Lemma user_entry gdt c : kernel_gdt gdt c -> gdt_entry USER_SS c = Some (Z.lor kdata_desc (Z.shiftl 3 45)).
Proof.
  intros Hg. rewrite (kernel_entry _ _ Hg) by done.
  change (gdt + (USER_SS - Z.land USER_SS 7)) with (gdt + SEL_UDATA). by rewrite (kg_udata _ _ Hg).
Qed.

Lemma user_data_ok gdt s c :
  kernel_gdt gdt c -> cmode c = Long64 -> cpl c = 0 -> s <> SS -> data_ok s USER_SS c = true.
Proof.
  intros Hg Hm Hc Hs. unfold data_ok. rewrite Hm, (user_entry _ _ Hg), Hc. unfold sreg_eqb.
  rewrite bool_decide_false by done. reflexivity.
Qed.

(** The state [iretq] returns to. *)
Definition user_target (c : cpu) : cpu :=
  set_rip (gpr c RDI) (set_flags 0x202 (set_gpr RSP (gpr c RSI) (set_seg CS USER_CS (set_seg SS USER_SS c)))).

(** The pushes and [iretq], from a state whose data segments are loaded. *)
Lemma user_iretq gdt nxt c :
  kernel_gdt gdt c -> cmode c = Long64 -> seg c CS = SEL_KCODE -> regs64 c ->
  48 <= gpr c RSP -> disjoint_range (gpr c RSP - 40) 40 gdt 104 ->
  exists c3 c', exec [PUSH (Imm USER_SS); PUSH (Reg RSI); PUSH (Imm 0x202); PUSH (Imm USER_CS); PUSH (Reg RDI); IRETQ]
      nxt c = Some c' /\ pushed [USER_SS; gpr c RSI; 0x202; USER_CS; gpr c RDI] c c3 /\ iretq c3 = Some c' /\
    kernel_gdt gdt c3 /\
    rip c' = gpr c RDI /\ flags c' = 0x202 /\ seg c' CS = USER_CS /\ seg c' SS = USER_SS /\ gpr c' RSP = gpr c RSI /\
    (forall r, r <> RSP -> gpr c' r = gpr c r) /\ ram c' = ram c3 /\ cmode c' = Long64.
Proof.
  intros Hg Hm Hcs Hr Hs Hd. pose proof (Hr RSP) as HS. pose proof (Hr RSI) as HI. pose proof (Hr RDI) as HD.
  destruct (push_list_spec [USER_SS; gpr c RSI; 0x202; USER_CS; gpr c RDI] c) as [P1 P2 P3 P4 P5]; [done| | |].
  { repeat (apply List.Forall_cons; [done|]). apply List.Forall_nil. }
  { change (8 * Z.of_nat (length [USER_SS; gpr c RSI; 0x202; USER_CS; gpr c RDI])) with 40. lia. }
  assert (exec [PUSH (Imm USER_SS); PUSH (Reg RSI); PUSH (Imm 0x202); PUSH (Imm USER_CS); PUSH (Reg RDI); IRETQ] nxt c =
          exec [IRETQ] nxt (push_list [USER_SS; gpr c RSI; 0x202; USER_CS; gpr c RDI] c)) as E.
  { cbn [exec step1 read push_list foldl]. rewrite Hm. cbn [wbytes].
    change (cmode (push (cut 8 USER_SS) c)) with (cmode c). rewrite Hm.
    assert (forall v c0, cmode c0 = Long64 -> cmode (push v c0) = Long64) as Hp by done.
    rewrite !Hp by (rewrite ?Hp; done). rewrite !push_gpr by done. cbn [wbytes].
    by rewrite (cut8 (gpr c RSI)), (cut8 (gpr c RDI)) by done. }
  rewrite E. clear E.
  destruct (named (push_list [USER_SS; gpr c RSI; 0x202; USER_CS; gpr c RDI] c)) as [c3 D]. rewrite <- D in *. clear D.
  change (8 * Z.of_nat (length [USER_SS; gpr c RSI; 0x202; USER_CS; gpr c RDI])) with 40 in P3.
  assert (kernel_gdt gdt c3) as Hg3.
  { apply (kernel_gdt_ext _ c); try done; [unfold rest in P1; congruence..|].
    intros x Hx. apply P5. unfold disjoint_range in Hd. lia. }
  destruct (iretq_run gdt c3 (user_target c) (gpr c RSP - 40)) as (c' & E & H1 & H2 & H3 & H4 & H5 & H6 & H7 & H8 & _).
  - done.
  - by rewrite (rest_mode _ _ P1).
  - by rewrite (rest_seg _ _ P1).
  - by right.
  - done.
  - lia.
  - rewrite P3 in P4. exact P4.
  - exists c3, c'. cbn [exec step1]. rewrite E. split_and!; try done. intros r Hne. by rewrite H6, P2.
Qed.

(** From kernel code [enter_usermode entry user_stack_top] arrives at [entry] in ring
    3, on the user stack, with interrupts on and the five segment registers those of
    user code; every other register but RAX is the kernel's, the page tables and the
    descriptor table stay, and of the memory only the 40 bytes below the kernel's stack
    pointer change. *)
Theorem enter_usermode_correct gdt nxt c :
  kernel_gdt gdt c -> cmode c = Long64 -> seg c CS = SEL_KCODE -> regs64 c ->
  48 <= gpr c RSP -> disjoint_range (gpr c RSP - 40) 40 gdt 104 ->
  exists c', exec enter_usermode_code nxt c = Some c' /\
    rip c' = gpr c RDI /\ gpr c' RSP = gpr c RSI /\ flags c' = 0x202 /\ cpl c' = 3 /\
    in_user c' /\ (forall s, s <> CS -> seg c' s = USER_SS) /\
    (forall r, r <> RSP -> r <> RAX -> gpr c' r = gpr c r) /\ regs64 c' /\
    kernel_gdt gdt c' /\ c_cr3 c' = c_cr3 c /\ cmode c' = Long64 /\
    (forall x, ~ (gpr c RSP - 40 <= x < gpr c RSP) -> ram c' x = ram c x).
Proof.
  intros Hg Hm Hcs Hr Hs Hd. pose proof (Hr RSP) as HS.
  assert (cpl c = 0) as Hc by (unfold cpl; by rewrite Hm, Hcs).
  destruct (run_load_segs USER_SS [DS; ES; FS; GS]
    [PUSH (Imm USER_SS); PUSH (Reg RSI); PUSH (Imm 0x202); PUSH (Imm USER_CS); PUSH (Reg RDI); IRETQ] nxt c)
    as (c2 & E1 & [G1 B1 O2 U2 V2]); [done|by apply (bool_decide_unpack _)| |].
  { intros s Hin. apply (user_data_ok gdt); [done..|]. intros ->. revert Hin. by apply (bool_decide_unpack _). }
  injection O2 as _ F2 _ N2 K2 M2 _ C2 _ L2 _.
  assert (forall r, 0 <= gpr c2 r < 2 ^ 64) as Hr2.
  { intros r. destruct (decide (r = RAX)) as [->|Hne]; [by apply B1|]. rewrite G1 by done. apply Hr. }
  destruct (user_iretq gdt nxt c2) as (c3 & c' & E3 & [P1 P2 P3 P4 P5] & E4 & Hg3 & H1 & H2 & H3 & H4 & H5 & H6 & H7 & H8).
  - by apply (kernel_gdt_ext _ c); rewrite ?M2.
  - by rewrite N2.
  - rewrite V2; [done|by apply (bool_decide_unpack _)].
  - exact Hr2.
  - by rewrite G1.
  - by rewrite G1.
  - rewrite !G1 in * by done. destruct (iretq_keeps _ _ E4) as (K1 & K3 & K4 & K5).
    exists c'. split_and!; try done.
    + by rewrite <- E3, <- E1.
    + unfold cpl. by rewrite H8, H3.
    + intros s Hne. destruct (decide (s = SS)) as [->|Hss]; [done|].
      assert (s ∈ [DS; ES; FS; GS]) as Hin by (destruct s; try done; apply (bool_decide_unpack _); vm_compute; exact I).
      rewrite <- (U2 s) by done. rewrite <- (rest_seg _ _ P1).
      apply (K5 s (Z.lor kdata_desc (Z.shiftl 3 45))); [done|done| |done].
      rewrite (rest_seg _ _ P1), (U2 s) by done. by apply (user_entry gdt).
    + intros r N1 N3. rewrite H6 by done. by apply G1.
    + intros r. destruct (decide (r = RSP)) as [->|Hne]; [rewrite H5; apply Hr|]. rewrite H6 by done. apply Hr2.
    + apply (kernel_gdt_ext _ c3); [done|done|by rewrite H7|done].
    + rewrite K4, (rest_cr3 _ _ P1). done.
    + intros x Hx. change (8 * Z.of_nat (length [USER_SS; gpr c RSI; 514; USER_CS; gpr c RDI])) with 40 in P3.
      rewrite H7, P5 by lia. by rewrite M2.
Qed.

(** ** System calls *)

(** [int vector] before address [next]: below the gate's privilege level it is refused
    (a fault), else the gate is taken. *)
Definition int_n (idt tss vector next : Z) (c : cpu) : option cpu :=
  if g_dpl (decode_gate (ram c) (idt + 16 * vector)) <? cpl c then None
  else deliver idt tss vector 0 (set_rip next c).

(** The gates [idt_init] makes. *)
Definition idt_gates_ok (isr : Z -> Z) (idt : Z) (m : mem) : Prop := forall v, 0 <= v < 256 ->
  decode_gate m (idt + 16 * v) =
  if (v <? 34) || (v =? 128) then mkGate (isr v) 8 0 0xE (if v =? 128 then 3 else 0) true
  else mkGate 0 0 0 0 0 false.

Section Syscall.
Context {F : Type} {FO : FrameSourceOps F}.
Context (code : Z -> option block).
Context (isr : Z -> Z) (isr_common_stub back dispatch idt gdt tss : Z).
Context (code_ok : loaded code (isr_blocks isr isr_common_stub back dispatch)).
Context (common_ok : 0 <= isr_common_stub < 2 ^ 64) (dispatch_ok : 0 <= dispatch < 2 ^ 64)
        (back_ok : 0 <= back < 2 ^ 64).

(** From ring 3 every [int] but [int 0x80] is refused.  [int 0x80] with RAX = 1
    reaches [interrupt_dispatch], which takes the call for one of ring 3, counts it and
    says so once; when it has returned, user code goes on behind the [int], in
    ring 3, with its registers and flags. *)
Theorem ring3_syscall_correct next scancode cpu_id c :
  idt_gates_ok isr idt (ram c) -> in_user c -> interruptible isr idt gdt tss 128 (set_rip next c) ->
  (forall v, 0 <= v < 256 -> v <> 128 -> int_n idt tss v next c = None) /\
  (gpr c RAX = 1 -> exists c1 c2,
    int_n idt tss 128 next c = Some c1 /\ reaches code c1 c2 /\ rip c2 = dispatch /\
    (forall k : kernel F, k_mem k = ram c2 -> 0 <= call_count k < 2 ^ 32 - 1 ->
       exists k' t, interrupt_dispatch cpu_id scancode (gpr c2 RDI) k = Done tt k' t /\
         k_sched k' = k_sched k /\ call_count k' = call_count k + 1 /\ shown k' = true /\
         count_event RING3_MSG t = (if shown k then 0 else 1)) /\
    forall c3, abi_return (stack_for tss c) c2 c3 -> kernel_gdt gdt c3 ->
      exists c4, reaches code c3 c4 /\ rip c4 = next /\ cpl c4 = 3 /\ flags c4 = flags c /\
        (forall r, gpr c4 r = gpr c r) /\ ram c4 = ram c3).
Proof.
  intros Hgates Hu Hi. pose proof (ir_mode _ _ _ _ _ _ Hi : cmode c = Long64) as Hm.
  assert (cpl c = 3) as Hc by (unfold cpl; by rewrite Hm, (proj1 Hu)). split.
  { intros v Hv Hne. unfold int_n. rewrite Hgates, Hc by done. rewrite (proj2 (Z.eqb_neq v 128)) by done.
    rewrite orb_false_r. by destruct (v <? 34). }
  intros Ha.
  destruct (isr_entry_run code isr isr_common_stub back dispatch idt gdt tss code_ok
    common_ok dispatch_ok back_ok 128 0 _ Hi ltac:(lia)) as (c1 & c2 & E & R & [D1 D2 D3 D4 D5 D6 D7 D8 D9 D10 D11]).
  change (stack_for tss (set_rip next c)) with (stack_for tss c) in *.
  assert (forall (i : nat) v, frame_words 128 0 (set_rip next c) !! i = Some v ->
    load64 (ram c2) (gpr c2 RDI + 8 * Z.of_nat i) = v) as Hw by (intros i v; rewrite D2; by apply words_lookup).
  exists c1, c2. split_and!; try done.
  - unfold int_n. rewrite Hgates by lia. change ((128 <? 34) || (128 =? 128)) with true. cbv iota. cbn [g_dpl].
    by rewrite Hc.
  - intros k Hk Hcount. 
    destruct (syscall_run (k_mem k) (gpr c2 RDI) k) as (k' & t & E1 & S1 & B1 & C1 & Sh & P1 & R1);
      [rewrite Hk; etransitivity; [by apply (Hw 14%nat (gpr c RAX))|done]|done|].
    assert (Z.land (f_cs (k_mem k) (gpr c2 RDI)) 3 =? 3 = true) as Hr3.
    { rewrite Hk. replace (f_cs (ram c2) (gpr c2 RDI)) with (seg c CS) by (symmetry; by apply (Hw 18%nat)).
      by rewrite (proj1 Hu). }
    rewrite Hr3 in Sh, R1. rewrite orb_true_r in Sh. cbn [andb] in R1.
    exists k', t. rewrite dispatch_128 by (rewrite Hk; by apply (Hw 15%nat)).
    split_and!; try done. rewrite R1. by destruct (shown k).
  - intros c3 [A1 A2 A3 A4 A5 A6 A7] Hg. pose proof (ir_stack _ _ _ _ _ _ Hi) as Hst.
    change (stack_for tss (set_rip next c)) with (stack_for tss c) in *.
    destruct (isr_return_run code isr isr_common_stub back dispatch gdt code_ok 128 0 (set_rip next c) c3
      (stack_for tss c - 176)) as (c4 & R4 & H1 & H2 & H3 & H4 & H5 & H6 & H7 & _);
      [by right|congruence|congruence|done|congruence|lia|lia|lia| |].
    + apply (words_ext (ram c2)); [|done]. intros x Hx.
      unfold frame_words in Hx. rewrite length_app, length_reverse, length_fmap in Hx. apply A5. cbn in Hx. lia.
    + exists c4. split_and!; try done. unfold cpl. by rewrite H7, H3, (proj1 Hu : seg (set_rip next c) CS = _).
Qed.
End Syscall.

(** ** In the demo tables of [Isr] *)

Definition demo_kernel : cpu :=
  mkCpu (fun r => match r with RSP => 0x8F08 | RDI => 0x50000000 | RSI => 0x50002000 | RBX => 7 | _ => 0 end) 0x104000 0x46
    false (fun s => match s with CS => 8 | _ => 0x10 end) 0x80000011 0x1000 0x20 0x500
    (8 * (5 + 2 * MAX_TSS_CPUS) - 1, 0x3000) Long64 (fun _ => 0) demo_tables.

Lemma enter_usermode_correct_witness : exists c',
  exec enter_usermode_code 0 demo_kernel = Some c' /\ rip c' = 0x50000000 /\ gpr c' RSP = 0x50002000 /\
  cpl c' = 3 /\ seg c' DS = 0x23 /\ gpr c' RBX = 7.
Proof.
  destruct (enter_usermode_correct 0x3000 0 demo_kernel) as (c' & E & H1 & H2 & H3 & H4 & H5 & H6 & H7 & _).
  - apply (demo_gdt demo_kernel demo_tables); [done|]. split; reflexivity.
  - reflexivity.
  - reflexivity.
  - intros r. destruct r; cbn; lia.
  - cbn. lia.
  - unfold disjoint_range. cbn. lia.
  - exists c'. split; [exact E|]. split; [exact H1|]. split; [exact H2|]. split; [exact H4|].
    split; [apply H6; discriminate|apply H7; discriminate].
Defined.

(** The tables with the gates of [idt_init] at 0x120000; user code calls at 0x50000010. *)
Definition demo_gates : mem :=
  match idt_init 0x120000 0x121000 demo_isr demo_tables with Done _ m _ => m | _ => demo_tables end.

Lemma demo_gates_ok : idt_gates_ok demo_isr 0x120000 demo_gates /\
  forall x, x < 0x120000 -> demo_gates x = demo_tables x.
Proof.
  destruct (idt_init_run 0x120000 0x121000 demo_isr) with (m := demo_tables) as (m' & E & _ & _ & H1 & H2).
  - intros v. apply Z.mod_pos_bound. lia.
  - lia.
  - unfold disjoint_range. lia.
  - intros x Hx. unfold demo_tables, mem_of. cbn [foldl]. by rewrite !store_out by lia.
  - unfold demo_gates. rewrite E. split; [exact H1|]. intros x Hx. apply H2; lia.
Qed.

Definition demo_user : cpu := set_ram demo_gates demo_fault.

Lemma demo_user_interruptible : interruptible demo_isr 0x120000 0x3000 0x4000 128 (set_rip 0x50000012 demo_user).
Proof.
  destruct demo_gates_ok as [Hg Hm].
  assert (stack_for 0x4000 (set_rip 0x50000012 demo_user) = 0x9000) as Hs.
  { unfold stack_for. change (0 <? cpl (set_rip 0x50000012 demo_user)) with true. cbv iota.
    cbn [demo_user set_rip set_ram ram]. rewrite (load_ext 8 _ demo_tables) by (intros x Hx; apply Hm; unfold tss_rsp0 in Hx; lia).
    vm_compute. reflexivity. }
  split; rewrite ?Hs.
  - reflexivity.
  - intros r. destruct r; cbn; lia.
  - cbn. lia.
  - cbn. lia.
  - right. split; reflexivity.
  - refine (proj2 (demo_gdt (set_rip 0x50000012 demo_fault) demo_gates _) _); [intros x Hx; apply Hm; lia|split; reflexivity].
  - split; apply (bool_decide_unpack _); vm_compute; exact I.
  - exists 3. cbn [demo_user set_rip set_ram ram]. rewrite Hg by lia. reflexivity.
  - lia.
  - unfold disjoint_range. lia.
Qed.

Lemma ring3_syscall_correct_witness :
  int_n 0x120000 0x4000 13 0x50000012 demo_user = None /\
  exists c1 c2, int_n 0x120000 0x4000 128 0x50000012 demo_user = Some c1 /\
    reaches (program demo_isr_blocks) c1 c2 /\ rip c2 = 0x103000 /\
    exists k' t, interrupt_dispatch 0 0 (gpr c2 RDI) (kernel_ex demo_paging (ram c2)) = Done tt k' t /\
      call_count k' = 1 /\ count_event RING3_MSG t = 1.
Proof.
  destruct (ring3_syscall_correct (F := memmap) (program demo_isr_blocks) demo_isr 0x102000 0x102040 0x103000
    0x120000 0x3000 0x4000 demo_isr_loaded ltac:(lia) ltac:(lia) ltac:(lia) 0x50000012 0 0%nat demo_user
    (proj1 demo_gates_ok) (conj eq_refl eq_refl) demo_user_interruptible) as [H1 H2].
  split; [apply H1; lia|].
  destruct (H2 eq_refl) as (c1 & c2 & E & R & D & H & _).
  exists c1, c2. split; [exact E|]. split; [exact R|]. split; [exact D|].
  destruct (H (kernel_ex demo_paging (ram c2)) eq_refl) as (k' & t & E' & _ & C & _ & Hc); [cbn; lia|].
  exists k', t. split; [exact E'|]. split; [exact C|exact Hc].
Defined.
