(* ===== verification/Start64.v ===== *)
(** * boot64.s: from the boot loader to [kernel_main64]

    GRUB enters [_start] in 32-bit protected mode.  The code builds page tables, turns
    on PAE, long mode and paging, in the order the processor demands (a wrong order is
    a fault, and [exec] would be [None]), jumps to 64-bit code and calls the kernel. *)

From S2P Require Import Prelude Memory Machine X86 X86Stack X86Run.
From S2P Require Import FrameSource Memmap MemmapTheorems Paging PagingSpec PagingProof Gdt64.

Section Start.
(** Labels of the file, and the C function. *)
Context (start fill_pd filled long_mode_start hang kernel_main64 : Z).
(** Its data. *)
Context (pml4 pdpt pd stack_top mbi_ptr gdt64 : Z).

Definition gdt64_pointer : Z := gdt64 + 24.
Definition gdt64_code : Z := 8.
Definition gdt64_data : Z := 16.
(** The two descriptors. *)
Definition gdt64_code_desc : Z :=
  Z.lor (Z.lor (Z.lor (Z.shiftl 1 43) (Z.shiftl 1 44)) (Z.shiftl 1 47)) (Z.shiftl 1 53).
Definition gdt64_data_desc : Z := Z.lor (Z.lor (Z.shiftl 1 44) (Z.shiftl 1 47)) (Z.shiftl 1 41).

Definition start_code : list insn :=
  [MOV 4 (Reg RSP) (Imm stack_top);
   MOV 4 (Mem None None mbi_ptr) (Reg RBX);
   MOV 4 (Reg RAX) (Imm pdpt);
   OR 4 (Reg RAX) (Imm 3);
   MOV 4 (Mem None None pml4) (Reg RAX);
   MOV 4 (Reg RAX) (Imm pd);
   OR 4 (Reg RAX) (Imm 3);
   MOV 4 (Mem None None pdpt) (Reg RAX);
   MOV 4 (Reg RCX) (Imm 0)].

Definition fill_pd_code : list insn :=
  [MOV 4 (Reg RAX) (Reg RCX);
   SHL 4 (Reg RAX) 21;
   OR 4 (Reg RAX) (Imm 0x83);
   MOV 4 (Mem None (Some (RCX, 8)) pd) (Reg RAX);
   INC 4 (Reg RCX);
   CMP 4 (Reg RCX) (Imm 512);
   JL fill_pd].

Definition long_mode_code : list insn :=
  long_mode_on (Imm pml4) ++
  [LGDT (Mem None None gdt64_pointer);
   FARJMP gdt64_code long_mode_start].

Definition long_mode_start_code : list insn :=
  load_segs gdt64_data [DS; ES; SS; FS; GS] ++
  [MOV 8 (Reg RSP) (Imm stack_top);
   MOV 4 (Reg RDI) (Mem None None mbi_ptr);
   CALL (Imm kernel_main64) hang].

Definition hang_code : list insn := [CLI; HLT; JMP (Imm hang)].

Definition boot64_blocks : list (Z * block) :=
  [(start, mkBlock start_code fill_pd); (fill_pd, mkBlock fill_pd_code filled);
   (filled, mkBlock long_mode_code 0); (long_mode_start, mkBlock long_mode_start_code hang);
   (hang, mkBlock hang_code 0)].

(** ** What the boot loader and the linker give *)

(** The multiboot machine state: protected mode without paging, privilege level 0, the
    address of the boot information in EBX; the image is in memory, with its zeroed
    .bss. *)
Record multiboot (mbi : Z) (c : cpu) : Prop := {
  mb_mode : cmode c = Prot32;
  mb_level : cpl c = 0;
  mb_ebx : gpr c RBX = mbi /\ 0 <= mbi < 2 ^ 32;
  mb_cr0 : 0 <= cr0 c < 2 ^ 31 /\ Z.testbit (cr0 c) PE_BIT = true;
  mb_cr4 : 0 <= cr4 c < 2 ^ 32;
  mb_efer : 0 <= efer c < 2 ^ 64 /\ Z.testbit (efer c) LMA_BIT = false;
  mb_bss x : pml4 <= x < pml4 + 4096 \/ pdpt <= x < pdpt + 4096 \/ pd <= x < pd + 4096 -> ram c x = 0;
  mb_code : load64 (ram c) (gdt64 + gdt64_code) = gdt64_code_desc;
  mb_data : load64 (ram c) (gdt64 + gdt64_data) = gdt64_data_desc;
  mb_limit : load16 (ram c) gdt64_pointer = 23;
  mb_base : load64 (ram c) (gdt64_pointer + 2) = gdt64
}.

(** Sections of the image, below 1 GB and apart from each other. *)
Record boot_layout : Prop := {
  bl_tables : Forall frame_ok [pml4; pdpt; pd];
  bl_apart : NoDup [pml4; pdpt; pd];
  bl_stack : 16384 <= stack_top < 2 ^ 30 /\ stack_top mod 16 = 0;
  bl_mbi : 0 <= mbi_ptr < 2 ^ 30 - 4;
  bl_gdt : 0 <= gdt64 < 2 ^ 30 - 34;
  bl_gdt_tables : Forall (fun f => disjoint_range gdt64 34 f 4096) [pml4; pdpt; pd];
  bl_mbi_tables : Forall (fun f => disjoint_range mbi_ptr 4 f 4096) [pml4; pdpt; pd];
  bl_stack_tables : Forall (fun f => disjoint_range (stack_top - 8) 8 f 4096) [pml4; pdpt; pd];
  bl_gdt_mbi : disjoint_range gdt64 34 mbi_ptr 4;
  bl_gdt_stack : disjoint_range gdt64 34 (stack_top - 8) 8
}.

(** ** The page tables *)

Section Run.
Context (code : Z -> option block).
Context (code_ok : loaded code boot64_blocks).
Context (lay : boot_layout).

Lemma table_bounds f : f ∈ [pml4; pdpt; pd] -> 4096 <= f < 2 ^ 30 - 4095 /\ f mod 4096 = 0.
Proof.
  intros Hin. pose proof (bl_tables lay) as H. rewrite Forall_forall in H. destruct (H f Hin) as [H1 H2].
  split; [|done]. change (2 ^ 30) with (262144 * 4096) in *. dlia.
Qed.

Definition start_mem (mbi : Z) (m : mem) : mem :=
  store32 (store32 (store32 m mbi_ptr mbi) pml4 (pdpt + 3)) pdpt (pd + 3).

Lemma start_run mbi c : multiboot mbi c -> rip c = start ->
  exists c1, reaches code c c1 /\ rip c1 = fill_pd /\ gpr c1 RCX = 0 /\ rest c1 = rest c /\
    ram c1 = start_mem mbi (ram c).
Proof.
  intros [Hm _ [Hb Hmbi] _ _ _ _ _ _ _ _] Hrip.
  destruct (table_bounds pml4) as [B1 A1]; [by do 2 constructor|].
  destruct (table_bounds pdpt) as [B2 A2]; [by do 2 constructor|].
  destruct (table_bounds pd) as [B3 A3]; [by do 3 constructor|].
  pose proof (bl_stack lay) as [S1 S2]. pose proof (bl_mbi lay) as B4.
  assert (forall a c', cmode c' = Prot32 -> 0 <= a < 2 ^ 32 -> ea None None a c' = a) as Hea.
  { intros a c' Hc Ha. unfold ea, wrap. rewrite Hc. cbn. by rewrite Z.mod_small by (cbn; lia). }
  eexists. split_and!.
  - eapply reaches_block; [rewrite Hrip; apply (loaded_at _ _ _ _ code_ok), list_elem_of_here|].
    cbn [b_code b_next]. unfold start_code.
    rewrite run_imm by lia.
    rewrite (run_store _ _ _ _ _ _ _ mbi_ptr mbi); [|by apply Hea; [done|lia]|by xread|done].
    rewrite run_imm by lia. rewrite (run_or _ _ _ _ _ pdpt) by (done || lia || by xread).
    replace (Z.lor pdpt 3) with (pdpt + 3) by (symmetry; apply (lor_low pdpt 3 12); [lia|done|lia]).
    rewrite (run_store _ _ _ _ _ _ _ pml4 (pdpt + 3)); [|by apply Hea; [done|lia]|by xread|lia].
    rewrite run_imm by lia. rewrite (run_or _ _ _ _ _ pd) by (done || lia || by xread).
    replace (Z.lor pd 3) with (pd + 3) by (symmetry; apply (lor_low pd 3 12); [lia|done|lia]).
    rewrite (run_store _ _ _ _ _ _ _ pdpt (pd + 3)); [|by apply Hea; [done|lia]|by xread|lia].
    rewrite run_imm by lia. reflexivity.
  - done.
  - by xread.
  - done.
  - by xread.
Qed.

Lemma run_cmp_jl r i k t nxt c : gpr c r = i -> 0 <= i < 2 ^ 31 -> 0 <= k < 2 ^ 31 ->
  exec [CMP 4 (Reg r) (Imm k); JL t] nxt c =
  Some (set_rip (if i <? k then t else nxt) (set_less (i <? k) c)).
Proof.
  intros Hr Hi Hk. cbn [exec step1 read]. rewrite Hr, !cut4 by lia.
  assert (forall v, 0 <= v < 2 ^ 31 -> signed 4 v = v) as Hs
    by (intros v Hv; unfold signed; cbv zeta; change (256 ^ Z.of_nat 4) with 4294967296;
          change (4294967296 / 2) with 2147483648; rewrite Z.mod_small; lia).
  rewrite !Hs by done. cbn [set_less less]. by destruct (i <? k).
Qed.

Definition fill_mem (m : mem) (i : Z) : mem := store32 m (pd + 8 * i) (i * 2 ^ 21 + 0x83).

(** One turn of the loop. *)
Lemma fill_turn i c : cmode c = Prot32 -> rip c = fill_pd -> gpr c RCX = i -> 0 <= i < 512 ->
  exists c', reaches code c c' /\ rip c' = (if i + 1 <? 512 then fill_pd else filled) /\ gpr c' RCX = i + 1 /\
    rest c' = rest (set_less (less c') c) /\ ram c' = fill_mem (ram c) i.
Proof.
  intros Hm Hrip Hx Hi.
  destruct (table_bounds pd) as [B3 A3]; [by do 3 constructor|].
  assert (Z.shiftl i 21 = i * 2 ^ 21) as Hsh by (rewrite Z.shiftl_mul_pow2 by lia; done).
  eexists. split_and!.
  - eapply reaches_block.
    { rewrite Hrip. apply (loaded_at _ _ _ _ code_ok), list_elem_of_further, list_elem_of_here. }
    cbn [b_code b_next]. unfold fill_pd_code.
    rewrite (run_mov _ _ _ _ _ i) by (cbn [read]; rewrite ?Hx, ?cut4 by lia; done || lia).
    rewrite (run_shl _ _ _ _ _ i) by (xread; rewrite ?Hsh; done || lia). rewrite Hsh.
    rewrite (run_or _ _ _ _ _ (i * 2 ^ 21)) by (xread; done || lia).
    replace (Z.lor (i * 2 ^ 21) 0x83) with (i * 2 ^ 21 + 0x83) by (symmetry; apply (lor_low _ 0x83 21); [lia|dlia|lia]).
    rewrite (run_store _ _ _ _ _ _ _ (pd + 8 * i) (i * 2 ^ 21 + 0x83)); [| |by xread|lia].
    2:{ unfold ea, wrap. xread. rewrite Hm. cbn [wbytes fmap option_fmap option_map default]. rewrite Hx.
        rewrite Z.mod_small by (cbn; lia). lia. }
    rewrite (run_inc _ _ _ _ i) by (xread; done || lia).
    rewrite (run_cmp_jl _ (i + 1)) by (xread; done || lia). reflexivity.
  - done.
  - by xread.
  - done.
  - by xread.
Qed.

(** The whole loop, from any turn on. *)
Lemma fill_run n : forall i c, cmode c = Prot32 -> rip c = fill_pd -> gpr c RCX = i -> 0 <= i ->
  i + Z.of_nat (S n) = 512 ->
  exists c', reaches code c c' /\ rip c' = filled /\ rest c' = rest (set_less (less c') c) /\
    ram c' = for_loop (S n) i (fun i m => fill_mem m i) (ram c).
Proof.
  induction n as [|n IH]; intros i c Hm Hrip Hx Hi Hn;
    destruct (fill_turn i c Hm Hrip Hx) as (c1 & R1 & P1 & X1 & K1 & M1); try lia.
  - exists c1. rewrite P1. destruct (Z.ltb_spec (i + 1) 512); [lia|]. split_and!; try done.
  - destruct (Z.ltb_spec (i + 1) 512); [|lia].
    destruct (IH (i + 1) c1) as (c2 & R2 & P2 & K2 & M2); [|done|done|lia|lia|].
    { rewrite (rest_mode _ _ K1). done. }
    exists c2. split; [by eapply reaches_trans|]. split; [done|]. split; [unfold rest in *; cbn in *; congruence|].
    rewrite M2, M1. done.
Qed.

(** A word whose upper half is zero. *)
Lemma load64_low m a v : 0 <= v < 2 ^ 32 -> (forall x, a + 4 <= x < a + 8 -> m x = 0) ->
  load64 (store32 m a v) a = v.
Proof.
  intros Hv Hz. rewrite (load_add 4 4), load32_store_eq by done.
  rewrite load_zero; [lia|]. intros x Hx. rewrite store_out by lia. apply Hz. lia.
Qed.

(** The page directory after the loop. *)
Lemma fill_mem_spec m : (forall x, pd <= x < pd + 4096 -> m x = 0) ->
  let m' := for_loop 512 0 (fun i m => fill_mem m i) m in
  (forall i, 0 <= i < 512 -> load64 m' (pd + 8 * i) = i * 2 ^ 21 + 0x83) /\
  (forall x, ~ (pd <= x < pd + 4096) -> m' x = m x).
Proof.
  intros Hz m'.
  pose (I := fun (j : Z) (m' : mem) =>
    (forall i, 0 <= i < j -> load64 m' (pd + 8 * i) = i * 2 ^ 21 + 0x83) /\
    (forall x, pd + 8 * j <= x < pd + 4096 -> m' x = 0) /\
    (forall x, ~ (pd <= x < pd + 4096) -> m' x = m x)).
  assert (I (0 + Z.of_nat 512) m') as (H1 & _ & H2); [|by split].
  apply for_loop_inv.
  - split_and!; [intros; lia|intros x Hx; apply Hz; lia|done].
  - intros j t Hj (H1 & H2 & H3). unfold fill_mem. split_and!.
    + intros i Hi. destruct (Z.eq_dec i j) as [->|].
      * apply load64_low; [lia|]. intros x Hx. apply H2. lia.
      * rewrite load_store_ne by (unfold disjoint_range; lia). apply H1. lia.
    + intros x Hx. rewrite store_out by lia. apply H2. lia.
    + intros x Hx. rewrite store_out by lia. by apply H3.
Qed.

(** The tables of the file are those of the kernel map of [paging_init_kernel_map]. *)
Definition boot_paging (m : mem) : paging memmap := mkPaging m POOL_FRAMES pml4 pdpt memmap_boot.

Definition in_tables (x : Z) : Prop := pml4 <= x < pml4 + 4096 \/ pdpt <= x < pdpt + 4096 \/ pd <= x < pd + 4096.

Lemma tables_apart : (pml4 + 4096 <= pdpt \/ pdpt + 4096 <= pml4) /\ (pml4 + 4096 <= pd \/ pd + 4096 <= pml4) /\
  (pdpt + 4096 <= pd \/ pd + 4096 <= pdpt).
Proof.
  pose proof (bl_apart lay) as Hnd.
  destruct (table_bounds pml4) as [_ A1]; [by do 2 constructor|].
  destruct (table_bounds pdpt) as [_ A2]; [by do 2 constructor|].
  destruct (table_bounds pd) as [_ A3]; [by do 3 constructor|].
  assert (pml4 <> pdpt /\ pml4 <> pd /\ pdpt <> pd) as (N1 & N2 & N3).
  { rewrite !NoDup_cons, !elem_of_cons in Hnd. naive_solver. }
  split_and!; by apply frames_apart_z.
Qed.

Lemma mbi_apart : (mbi_ptr + 4 <= pml4 \/ pml4 + 4096 <= mbi_ptr) /\ (mbi_ptr + 4 <= pdpt \/ pdpt + 4096 <= mbi_ptr) /\
  (mbi_ptr + 4 <= pd \/ pd + 4096 <= mbi_ptr).
Proof.
  pose proof (bl_mbi_tables lay) as H. rewrite !Forall_cons in H. unfold disjoint_range in H. tauto.
Qed.

Lemma start_mem_pd mbi m : (forall x, in_tables x -> m x = 0) ->
  forall x, pd <= x < pd + 4096 -> start_mem mbi m x = 0.
Proof.
  intros Hz x Hx. destruct tables_apart as (T1 & T2 & T3), mbi_apart as (M1 & M2 & M3).
  unfold start_mem. rewrite !store_out by lia. apply Hz. unfold in_tables. lia.
Qed.

Lemma boot_kmap mbi m :
  (forall x, in_tables x -> m x = 0) ->
  kmap 0x400000 (boot_paging (for_loop 512 0 (fun i m => fill_mem m i) (start_mem mbi m))) [(0, pd)] identity_1gb.
Proof.
  intros Hz. pose proof (bl_apart lay) as Hnd. destruct tables_apart as (T1 & T2 & T3), mbi_apart as (M1 & M2 & M3).
  destruct (table_bounds pml4) as [B1 _]; [by do 2 constructor|].
  destruct (table_bounds pdpt) as [B2 _]; [by do 2 constructor|].
  destruct (table_bounds pd) as [B3 _]; [by do 3 constructor|].
  pose proof (start_mem_pd mbi m Hz) as Hpd.
  destruct (fill_mem_spec _ Hpd) as [F1 F2].
  split.
  - unfold pg_wf, pool_ok, boot_paging, POOL_FRAMES. cbn. split_and!; try done; lia.
  - exact (bl_tables lay).
  - exact Hnd.
  - intros f _. unfold avail, boot_paging. cbn [p_source next_frame]. rewrite Z.sub_diag. by apply not_elem_of_nil.
  - apply NoDup_singleton.
  - intros j Hj. cbn [boot_paging p_mem kernel_pml4 kernel_pdpt]. unfold entry.
    rewrite (load_ext 8 _ (start_mem mbi m)) by (intros x Hx; apply F2; lia). unfold start_mem.
    rewrite load_store_ne by (unfold disjoint_range; lia). destruct (Z.eqb_spec j 0) as [->|Hne].
    + rewrite Z.mul_0_r, Z.add_0_r. apply load64_low; [lia|]. intros x Hx. rewrite store_out by lia. apply Hz; unfold in_tables; lia.
    + apply load_zero. intros x Hx. rewrite !store_out by lia. apply Hz; unfold in_tables; lia.
  - intros j Hj. cbn [boot_paging p_mem kernel_pml4 kernel_pdpt]. unfold entry.
    rewrite (load_ext 8 _ (start_mem mbi m)) by (intros x Hx; apply F2; lia). unfold start_mem, pd_of.
    cbn [List.find fst]. destruct (Z.eqb_spec 0 j) as [<-|Hne].
    + cbn [fmap option_fmap option_map snd]. rewrite Z.mul_0_r, Z.add_0_r.
      apply load64_low; [lia|]. intros x Hx. rewrite !store_out by lia. apply Hz; unfold in_tables; lia.
    + apply load_zero. intros x Hx. rewrite !store_out by lia. apply Hz; unfold in_tables; lia.
  - intros j f k [= -> ->]%list_elem_of_singleton Hk. cbn [boot_paging p_mem]. unfold entry. rewrite F1 by done.
    unfold leaf, identity_1gb. destruct (Z.leb_spec 0 (0 * 512 + k)); [|lia]. destruct (Z.ltb_spec (0 * 512 + k) 512); [|lia].
    cbn [andb Z.eqb]. lia.
  - intros n. unfold identity_1gb. destruct (_ && _); [right; by left|by left].
  - intros j f [= -> ->]%list_elem_of_singleton. lia.
  - intros n. unfold pd_of, identity_1gb. cbn [List.find fst]. destruct (Z.eqb_spec 0 (n / 512)); [done|].
    intros _. destruct (Z.leb_spec 0 n), (Z.ltb_spec n 512); try done. cbn [andb]. dlia.
Qed.

(** ** Into long mode *)

(** What the jump leaves: long mode with the new tables. *)
Record in_long_mode (c c' : cpu) : Prop := {
  lm_rip : rip c' = long_mode_start;
  lm_mode : cmode c' = Long64;
  lm_cs : seg c' CS = gdt64_code;
  lm_cr0 : cr0 c' = Z.lor (cr0 c) (2 ^ PG_BIT);
  lm_cr3 : c_cr3 c' = pml4;
  lm_cr4 : cr4 c' = Z.lor (cr4 c) (2 ^ PAE_BIT);
  lm_efer : Z.testbit (efer c') LME_BIT = true /\ Z.testbit (efer c') LMA_BIT = true;
  lm_gdtr : gdtr c' = (23, gdt64);
  lm_gpr r : r ∉ [RAX; RCX; RDX] -> gpr c' r = gpr c r;
  lm_flags : flags c' = flags c;
  lm_ram : ram c' = ram c
}.

Lemma gdt64_entry c sel q : gdtr c = (23, gdt64) -> sel = gdt64_code \/ sel = gdt64_data ->
  load64 (ram c) (gdt64 + sel) = q -> gdt_entry sel c = Some q.
Proof. intros Hg Hs Hq. unfold gdt_entry. rewrite Hg. destruct Hs as [->| ->]; cbn -[load]; by rewrite <- Hq. Qed.

Lemma long_mode_run mbi c c0 : multiboot mbi c0 ->
  rip c = filled -> rest c = rest (set_less (less c) c0) ->
  (forall x, gdt64 <= x < gdt64 + 34 -> ram c x = ram c0 x) ->
  exists c', reaches code c c' /\ in_long_mode c c'.
Proof.
  intros [Hm Hc _ [Hk0 Hpe] Hk4 [He _] _ Hcode Hdata Hlim Hbase] Hrip Hrest Hram.
  destruct (table_bounds pml4) as [B1 A1]; [by do 2 constructor|]. pose proof (bl_gdt lay) as Bg.
  unfold rest in Hrest. cbn [set_less] in Hrest. cbn in Hrest.
  injection Hrest as Ef Es E0 _ E4 Ee _ Em _. rewrite Hm in Em. rewrite <- E0 in Hk0, Hpe. rewrite <- E4 in Hk4.
  rewrite <- Ee in He. assert (cpl c = 0) as Hcpl by (unfold cpl in *; by rewrite Em, Es, <- Hc, Hm).
  unfold gdt64_code, gdt64_data, gdt64_pointer in Hcode, Hdata, Hlim, Hbase.
  assert (load16 (ram c) gdt64_pointer = 23) as Hlim'
    by (unfold gdt64_pointer; rewrite <- Hlim; apply load_ext; intros x Hx; apply Hram; lia).
  assert (load 4 (ram c) (gdt64_pointer + 2) = gdt64) as Hbase'.
  { rewrite (load_ext 4 _ (ram c0)) by (unfold gdt64_pointer; intros x Hx; apply Hram; lia).
    rewrite (load_add 4 4) in Hbase. change (256 ^ Z.of_nat 4) with (2 ^ 32) in Hbase. unfold gdt64_pointer.
    pose proof (load_bound 4 (ram c0) (gdt64 + 24 + 2 + Z.of_nat 4)). pose proof (load_bound 4 (ram c0) (gdt64 + 24 + 2)).
    change (256 ^ Z.of_nat 4) with (2 ^ 32) in *. lia. }
  assert (load64 (ram c) (gdt64 + 8) = gdt64_code_desc) as Hcode'
    by (rewrite <- Hcode; apply load_ext; intros x Hx; apply Hram; lia).
  destruct (run_long_mode (Imm pml4) pml4 [LGDT (Mem None None gdt64_pointer); FARJMP gdt64_code long_mode_start] 0 c)
    as (c1 & E & [O1 O2 O3 O4 O5 O6 O7]); [by split|lia|intros; cbn [read]; by rewrite cut4 by lia|].
  injection O7 as Q1 Q2 _ Q3 _ Q4 _ Q5.
  exists (set_rip long_mode_start (set_mode Long64 (set_seg CS gdt64_code (set_gdtr (23, gdt64) c1)))). split.
  - eapply reaches_block.
    { rewrite Hrip. apply (loaded_at _ _ _ _ code_ok). do 2 apply list_elem_of_further. apply list_elem_of_here. }
    cbn [b_code b_next]. unfold long_mode_code. rewrite E.
    apply (run_jump64 _ c1 _ _ _ _ _ gdt64_pointer); rewrite ?Q5; try done; [congruence| | |].
    + unfold cpl in *. by rewrite Q4, Q3.
    + by rewrite O1, Z.lor_spec, Hpe.
    + unfold ea, wrap. rewrite Q4, Em. cbn. rewrite Z.mod_small by (unfold gdt64_pointer; cbn; lia). done.
  - split; done.
Qed.

(** ** The call of the kernel *)

Lemma call_run mbi c :
  0 <= long_mode_start -> 0 <= hang < 2 ^ 64 -> 0 <= kernel_main64 < 2 ^ 64 ->
  rip c = long_mode_start -> cmode c = Long64 -> seg c CS = gdt64_code -> gdtr c = (23, gdt64) ->
  load64 (ram c) (gdt64 + gdt64_data) = gdt64_data_desc -> load32 (ram c) mbi_ptr = mbi ->
  exists c', reaches code c c' /\ rip c' = kernel_main64 /\ cmode c' = Long64 /\
    gpr c' RDI = mbi /\ gpr c' RSP = stack_top - 8 /\ load64 (ram c') (stack_top - 8) = hang /\
    seg c' CS = gdt64_code /\ (forall s, s <> CS -> seg c' s = gdt64_data) /\ flags c' = flags c /\
    (cr0 c', c_cr3 c', cr4 c', efer c', xmm c') = (cr0 c, c_cr3 c, cr4 c, efer c, xmm c) /\ gdtr c' = gdtr c /\
    (forall x, ~ (stack_top - 8 <= x < stack_top) -> ram c' x = ram c x).
Proof.
  intros _ Hh Hk Hrip Hm Hcs Hg Hd Hb. pose proof (bl_stack lay) as [Hs _]. pose proof (bl_mbi lay) as Hmp.
  destruct (run_load_segs gdt64_data [DS; ES; SS; FS; GS]
    [MOV 8 (Reg RSP) (Imm stack_top); MOV 4 (Reg RDI) (Mem None None mbi_ptr); CALL (Imm kernel_main64) hang] hang c)
    as (c2 & E & [G2 _ O2 U2 V2]); [done|by apply (bool_decide_unpack _)| |].
  { intros s _. apply (kernel_data_ok gdt64_data_desc); try done.
    - by rewrite Hm.
    - unfold cpl. by rewrite Hm, Hcs.
    - by left.
    - apply gdt64_entry; [done|by right|done]. }
  injection O2 as _ F2 _ N2 K2 M2 Z0 Z3 Z4 Ze Zx. rewrite Hm in N2.
  destruct (named (set_gpr RDI mbi (set_gpr RSP stack_top c2))) as [c3 D3].
  assert (cmode c3 = Long64 /\ gpr c3 RSP = stack_top /\ gpr c3 RDI = mbi /\ ram c3 = ram c) as (M3 & S3 & D3' & Q3).
  { rewrite D3. xread. split_and!; congruence. }
  assert (0 <= mbi < 2 ^ 32) as Hmb by (rewrite <- Hb; apply load32_bound).
  exists (set_rip kernel_main64 (push hang c3)). 
  pose proof (push_rsp hang c3 M3 ltac:(lia)) as P1. pose proof (push_ram hang c3 M3 ltac:(lia)) as P2. rewrite S3 in *.
  split_and!.
  - eapply reaches_block.
    { rewrite Hrip. apply (loaded_at _ _ _ _ code_ok). do 3 apply list_elem_of_further. apply list_elem_of_here. }
    cbn [b_code b_next]. unfold long_mode_start_code. rewrite E.
    rewrite (run_mov8 _ _ _ _ _ stack_top) by (cbn [read]; rewrite ?cut8 by lia; done || lia).
    rewrite (run_mov _ _ _ _ _ mbi); [|cbn [read]|done].
    2:{ unfold ea, wrap. xread. rewrite N2. cbn [wbytes fmap option_fmap option_map default].
        change (0 + 0 + mbi_ptr) with mbi_ptr. rewrite Z.mod_small by (cbn; lia). by rewrite M2, Hb. }
    rewrite <- D3. cbn [exec step1 read]. rewrite M3. cbn [wbytes]. by rewrite cut8.
  - done.
  - done.
  - change (gpr (push hang c3) RDI = mbi). by rewrite push_gpr.
  - exact P1.
  - change (load64 (ram (push hang c3)) (stack_top - 8) = hang). rewrite P2. by apply load64_store_eq.
  - change (seg c3 CS = gdt64_code). rewrite D3. xread. rewrite V2; [done|by apply (bool_decide_unpack _)].
  - intros s Hne. change (seg c3 s = gdt64_data). rewrite D3. xread. apply U2.
    destruct s; try done; apply (bool_decide_unpack _); vm_compute; exact I.
  - change (flags c3 = flags c). rewrite D3. by xread.
  - change ((cr0 c3, c_cr3 c3, cr4 c3, efer c3, xmm c3) = (cr0 c, c_cr3 c, cr4 c, efer c, xmm c)).
    rewrite D3. xread. congruence.
  - change (gdtr c3 = gdtr c). rewrite D3. by xread.
  - intros x Hx. change (ram (push hang c3) x = ram c x). rewrite P2, store_out by lia. by rewrite Q3.
Qed.

Lemma start_mem_out mbi m m' : (forall x, in_tables x -> m x = 0) ->
  m' = for_loop 512 0 (fun i m => fill_mem m i) (start_mem mbi m) ->
  (forall x, ~ in_tables x -> ~ (mbi_ptr <= x < mbi_ptr + 4) -> m' x = m x) /\
  (0 <= mbi < 2 ^ 32 -> load32 m' mbi_ptr = mbi).
Proof.
  intros Hz E. destruct (fill_mem_spec _ (start_mem_pd mbi m Hz)) as [_ F2]. rewrite <- E in F2.
  destruct mbi_apart as (M1 & M2 & M3), tables_apart as (T1 & T2 & T3). split.
  - unfold in_tables. intros x H1 H2. rewrite F2 by lia. unfold start_mem. by rewrite !store_out by lia.
  - intros Hb. rewrite (load_ext 4 _ (start_mem mbi m)) by (intros x Hx; apply F2; lia). unfold start_mem.
    rewrite !load_store_ne by (unfold disjoint_range; lia). by apply load32_store_eq.
Qed.

(** Translation by the tables, in a memory that agrees on them. *)
Lemma boot_walk mbi m m' va :
  (forall x, in_tables x -> m x = 0) ->
  (forall x, in_tables x -> m' x = for_loop 512 0 (fun i m => fill_mem m i) (start_mem mbi m) x) ->
  0 <= va < 2 ^ 48 ->
  walk m' pml4 va = if va <? 2 ^ 30 then Some (mkXlat va true false false) else None.
Proof.
  intros Hz Hm Hva. pose proof (boot_kmap mbi m Hz) as Hk.
  destruct (kernel_walk _ _ _ _ va Hk Hva) as [Hw Hv].
  cbn [boot_paging p_mem kernel_pml4 kernel_pdpt] in Hw, Hv.
  destruct (walk_frame (for_loop 512 0 (fun i m => fill_mem m i) (start_mem mbi m)) m' pml4 va) as [-> _].
  { intros t Ht x Hx. apply Hv in Ht. change ([(0, pd)].*2) with [pd] in Ht. rewrite !elem_of_cons, elem_of_nil in Ht.
    symmetry. apply Hm. unfold in_tables. destruct Ht as [->|[->|[->|[]]]]; lia. }
  rewrite Hw. unfold kernel_xlat, identity_1gb.
  destruct (Z.leb_spec 0 (va / 2 ^ 21)); [|dlia].
  destruct (Z.ltb_spec va (2 ^ 30)), (Z.ltb_spec (va / 2 ^ 21) 512), (Z.ltb_spec va (2 ^ 39)); try dlia; done.
Qed.

(** C9: entered as the multiboot specification says, boot64.s reaches [kernel_main64]
    in 64-bit mode, in ring 0, with the address of the boot information as its argument
    and an aligned stack; the order of PAE, CR3, LME and PG is one the processor takes
    without a fault; and the tables the loop filled translate every address of
    the first gigabyte to itself and no other, as those of [paging_init_kernel_map] do,
    so the code runs on where it is.  Outside of the tables, the saved pointer and the
    top of the stack no memory changes, and a return would stop the CPU at [.hang]. *)
Theorem boot64_reaches_kernel mbi c :
  multiboot mbi c -> rip c = start ->
  0 <= long_mode_start -> 0 <= hang < 2 ^ 64 -> 0 <= kernel_main64 < 2 ^ 64 ->
  exists c', reaches code c c' /\ rip c' = kernel_main64 /\ cmode c' = Long64 /\ cpl c' = 0 /\
    gpr c' RDI = mbi /\ gpr c' RSP mod 16 = 8 /\ load64 (ram c') (gpr c' RSP) = hang /\
    Z.testbit (cr0 c') PG_BIT = true /\ Z.testbit (cr4 c') PAE_BIT = true /\ Z.testbit (efer c') LMA_BIT = true /\
    flags c' = flags c /\ gdtr c' = (23, gdt64) /\
    (forall va, 0 <= va < 2 ^ 48 ->
       walk (ram c') (c_cr3 c') va = if va <? 2 ^ 30 then Some (mkXlat va true false false) else None) /\
    (forall x, ~ (mbi_ptr <= x < mbi_ptr + 4) -> ~ (stack_top - 8 <= x < stack_top) ->
       Forall (fun f => ~ (f <= x < f + 4096)) [pml4; pdpt; pd] -> ram c' x = ram c x).
Proof.
  intros Hmb Hrip Hl Hh Hk. pose proof Hmb as [Hm _ [_ Hmbi] _ _ _ Hz _ Hdata _ _].
  destruct (start_run mbi c Hmb Hrip) as (c1 & R1 & P1 & X1 & K1 & M1).
  destruct (fill_run 511 0 c1) as (c2 & R2 & P2 & K2 & M2); [by rewrite (rest_mode _ _ K1)|done|done|lia|lia|].
  rewrite M1 in M2. change (S 511) with 512%nat in M2.
  destruct (start_mem_out mbi (ram c) (ram c2) Hz M2) as [Hout Hword].
  pose proof (bl_gdt_tables lay) as Hgt. rewrite !Forall_cons in Hgt. pose proof (bl_gdt_mbi lay) as Hgm.
  pose proof (bl_gdt_stack lay) as Hgs. pose proof (bl_stack_tables lay) as Hst. rewrite !Forall_cons in Hst.
  unfold disjoint_range in Hgt, Hgm, Hgs, Hst. pose proof (bl_stack lay) as [Hsb Hsa].
  assert (forall x, gdt64 <= x < gdt64 + 34 -> ram c2 x = ram c x) as Hg2
    by (intros x Hx; apply Hout; unfold in_tables; lia).
  destruct (long_mode_run mbi c2 c Hmb P2) as (c3 & R3 & [L1 L2 L3 L4 L5 L6 [L7 L8] L9 L10 L11 L12]);
    [unfold rest in *; cbn in *; congruence|done|].
  destruct (call_run mbi c3) as (c4 & R4 & C1 & C2 & C3 & C4 & C5 & C6 & C7 & C8 & C9 & C10 & C11); try done.
  { rewrite L12. rewrite (load_ext 8 _ (ram c)) by (intros x Hx; apply Hg2; unfold gdt64_data in Hx; lia). exact Hdata. }
  { rewrite L12. by apply Hword. }
  exists c4. injection C9 as Z0 Z3 Z4 Ze _. split_and!.
  - eapply reaches_trans; [exact R1|]. eapply reaches_trans; [exact R2|]. by eapply reaches_trans.
  - exact C1.
  - exact C2.
  - unfold cpl. by rewrite C2, C6.
  - exact C3.
  - rewrite C4. dlia.
  - by rewrite C4.
  - rewrite Z0, L4, Z.lor_spec. by rewrite orb_true_r.
  - rewrite Z4, L6, Z.lor_spec. by rewrite orb_true_r.
  - by rewrite Ze.
  - rewrite C8, L11. transitivity (flags c1); [|by apply rest_flags]. rewrite (rest_flags _ _ K2). done.
  - by rewrite C10.
  - rewrite Z3, L5. intros va Hva. apply (boot_walk mbi (ram c)); [exact Hz| |exact Hva].
    intros x Hx. rewrite <- M2, <- L12. apply C11. unfold in_tables in Hx. lia.
  - intros x N1 N2 N3. rewrite !Forall_cons in N3. destruct N3 as (T1 & T2 & T3 & _).
    rewrite C11, L12 by lia. apply Hout; [|lia]. unfold in_tables. lia.
Qed.
End Run.
End Start.

(** ** An image at 1 MB

    The tables at 0x104000 to 0x106000, the stack up to 0x10b000, the pointer after it,
    the descriptors at 0x102000; the boot information is at 0x9500. *)

Definition demo_boot_blocks : list (Z * block) :=
  boot64_blocks 0x100000 0x100030 0x100050 0x1000a0 0x1000d0 0x110000 0x104000 0x105000 0x106000 0x10b000 0x10b000 0x102000.

Definition demo_image : mem := mem_of
  [(0x102008, 8%nat, gdt64_code_desc); (0x102010, 8%nat, gdt64_data_desc); (0x102018, 2%nat, 23); (0x10201a, 8%nat, 0x102000)].

Definition demo_grub : cpu :=
  mkCpu (fun r => match r with RBX => 0x9500 | RAX => 0x2BADB002 | _ => 0 end) 0x100000 2 false
    (fun s => match s with CS => 0x10 | _ => 0x18 end) 0x11 0 0 0 (0, 0) Prot32 (fun _ => 0) demo_image.

Lemma demo_boot_layout : boot_layout 0x104000 0x105000 0x106000 0x10b000 0x10b000 0x102000.
Proof.
  split.
  - repeat (apply List.Forall_cons; [split; [reflexivity|lia]|]). apply List.Forall_nil.
  - apply (bool_decide_unpack _). vm_compute. exact I.
  - split; [lia|reflexivity].
  - lia.
  - lia.
  - repeat (apply List.Forall_cons; [unfold disjoint_range; lia|]). apply List.Forall_nil.
  - repeat (apply List.Forall_cons; [unfold disjoint_range; lia|]). apply List.Forall_nil.
  - repeat (apply List.Forall_cons; [unfold disjoint_range; lia|]). apply List.Forall_nil.
  - unfold disjoint_range. lia.
  - unfold disjoint_range. lia.
Qed.

Lemma demo_multiboot : multiboot 0x104000 0x105000 0x106000 0x102000 0x9500 demo_grub.
Proof.
  split.
  - reflexivity.
  - reflexivity.
  - cbn [demo_grub gpr]. lia.
  - cbn [demo_grub cr0]. split; [lia|reflexivity].
  - cbn [demo_grub cr4]. lia.
  - cbn [demo_grub efer]. split; [lia|reflexivity].
  - intros x Hx. cbn [demo_grub ram]. unfold demo_image, mem_of. cbn [foldl]. by rewrite !store_out by lia.
  - vm_compute. reflexivity.
  - vm_compute. reflexivity.
  - vm_compute. reflexivity.
  - vm_compute. reflexivity.
Qed.

Lemma boot64_reaches_kernel_witness : exists c',
  reaches (program demo_boot_blocks) demo_grub c' /\ rip c' = 0x110000 /\ cmode c' = Long64 /\ gpr c' RDI = 0x9500 /\
  walk (ram c') (c_cr3 c') 0xB8000 = Some (mkXlat 0xB8000 true false false) /\
  walk (ram c') (c_cr3 c') 0xFEE00000 = None.
Proof.
  assert (loaded (program demo_boot_blocks) demo_boot_blocks) as Hl by (repeat constructor).
  destruct (boot64_reaches_kernel 0x100000 0x100030 0x100050 0x1000a0 0x1000d0 0x110000 0x104000 0x105000 0x106000
    0x10b000 0x10b000 0x102000 (program demo_boot_blocks) Hl demo_boot_layout 0x9500 demo_grub demo_multiboot eq_refl
    ltac:(lia) ltac:(lia) ltac:(lia)) as (c' & R & H1 & H2 & _ & H3 & _ & _ & _ & _ & _ & _ & _ & H4 & _).
  exists c'. split; [exact R|]. split; [exact H1|]. split; [exact H2|]. split; [exact H3|].
  split; (rewrite H4 by lia; reflexivity).
Defined.
