(* ===== verification/Trampoline.v ===== *)
(** * ap_trampoline.s: an application processor from SIPI to [ap_entry64]

    The start-up IPI sets the CPU off in real mode at [TRAMPOLINE_ADDR].  The blob goes
    to protected mode with a table of its own, turns long mode on with the page tables
    from its mailbox ([Smp.mbox], which smp.c fills), takes the kernel's GDT and calls
    the entry point from the mailbox on the stack from the mailbox. *)

From S2P Require Import Prelude Memory Machine X86 X86Stack X86Run.
From S2P Require Import Gdt64 Isr Smp SmpTheorems.

Section Trampoline.
(** Labels of the blob. *)
Context (protected_mode_entry long_mode_entry hang gdt32_start gdt32_ptr : Z).

Definition mbox_kernel_pml4 : Z := mbox.
Definition mbox_real_gdt_ptr : Z := mbox + 8.
Definition mbox_ap_stack : Z := mbox + 16.
Definition mbox_ap_entry : Z := mbox + 24.

Definition ap_trampoline_start_code : list insn :=
  [CLI; XOR 2 (Reg RAX) (Reg RAX)] ++ ((fun s => MOV 2 (Seg s) (Reg RAX)) <$> [DS; ES; SS]) ++
  [LGDT (Mem None None gdt32_ptr);
   MOV 4 (Reg RAX) (Cr 0);
   OR 4 (Reg RAX) (Imm 1);
   MOV 4 (Cr 0) (Reg RAX);
   FARJMP 8 protected_mode_entry].

Definition protected_mode_entry_code : list insn :=
  load_segs 0x10 [DS; ES; SS; FS; GS] ++ long_mode_on (Mem None None mbox_kernel_pml4) ++
  [MOV 4 (Reg RAX) (Mem None None mbox_real_gdt_ptr);
   LGDT (Mem (Some RAX) None 0);
   FARJMP 8 long_mode_entry].

Definition long_mode_entry_code : list insn :=
  load_segs 0x10 [DS; ES; SS; FS; GS] ++
  [MOV 8 (Reg RSP) (Mem None None mbox_ap_stack);
   MOV 8 (Reg RAX) (Mem None None mbox_ap_entry);
   CALL (Reg RAX) hang].

Definition ap_hang_code : list insn := [CLI; HLT; JMP (Imm hang)].

Definition ap_trampoline_blocks : list (Z * block) :=
  [(TRAMPOLINE_ADDR, mkBlock ap_trampoline_start_code 0); (protected_mode_entry, mkBlock protected_mode_entry_code 0);
   (long_mode_entry, mkBlock long_mode_entry_code hang); (hang, mkBlock ap_hang_code 0)].

(** The descriptors of the temporary table. *)
Definition code32_desc : Z := 0x00CF9A000000FFFF.
Definition data32_desc : Z := flat_data_desc.

(** ** What the CPU finds *)

(** After a start-up IPI. *)
Record sipi (c : cpu) : Prop := {
  si_mode : cmode c = Real16;
  si_rip : rip c = TRAMPOLINE_ADDR;
  si_cr0 : 0 <= cr0 c < 2 ^ 31;
  si_cr4 : 0 <= cr4 c < 2 ^ 32;
  si_efer : 0 <= efer c < 2 ^ 64;
  si_rax : 0 <= gpr c RAX < 2 ^ 64
}.

(** The blob at its address, with the pointer to its table. *)
Record blob (m : mem) : Prop := {
  bb_ptr : 0 <= gdt32_ptr < 2 ^ 16;
  bb_limit : load16 m gdt32_ptr = 23;
  bb_base : load32 m (gdt32_ptr + 2) = gdt32_start;
  bb_start : 0 <= gdt32_start < 2 ^ 16;
  bb_code : load64 m (gdt32_start + 8) = code32_desc;
  bb_data : load64 m (gdt32_start + 16) = data32_desc
}.

(** The kernel's table, which [gdt_ptr] describes. *)
Record kernel_tables (gdt gdt_ptr : Z) (m : mem) : Prop := {
  kt_limit : load16 m gdt_ptr = 8 * (5 + 2 * MAX_TSS_CPUS) - 1;
  kt_base : load64 m (gdt_ptr + 2) = gdt /\ 0 <= gdt < 2 ^ 32;
  kt_kcode : load64 m (gdt + SEL_KCODE) = kcode_desc;
  kt_kdata : load64 m (gdt + SEL_KDATA) = kdata_desc;
  kt_ucode : load64 m (gdt + SEL_UCODE) = Z.lor kcode_desc (Z.shiftl 3 45);
  kt_udata : load64 m (gdt + SEL_UDATA) = Z.lor kdata_desc (Z.shiftl 3 45)
}.

Section Run.
Context (code : Z -> option block).
Context (code_ok : loaded code ap_trampoline_blocks).

(** ** Real mode *)

Lemma real_run c : sipi c -> blob (ram c) ->
  exists c1, reaches code c c1 /\ rip c1 = protected_mode_entry /\ protected c1 /\ gdtr c1 = (23, gdt32_start) /\
    ram c1 = ram c /\ flags c1 = Z.clearbit (flags c) IF_BIT.
Proof.
  intros [Hm Hrip Hk0 Hk4 He Ha] [Bp Bl Bb Bs Bc Bd].
  assert (cpl c = 0) as Hcpl by (unfold cpl; by rewrite Hm).
  set (c0 := set_flags (Z.clearbit (flags c) IF_BIT) c).
  set (c1 := set_gpr RAX (merge 2 (gpr c RAX) (cut 2 (Z.lxor (cut 2 (gpr c RAX)) (cut 2 (gpr c RAX))))) c0).
  assert (cut 2 (gpr c1 RAX) = 0) as H0.
  { unfold c1. rewrite gpr_set_eq, Z.lxor_nilpotent. unfold merge. change (2 <? 4)%nat with true. cbv iota.
    change (cut 2 (cut 2 0)) with 0. unfold cut. change (256 ^ Z.of_nat 2) with 65536. dlia. }
  destruct (set_all_spec [DS; ES; SS] 0 c1) as (G2 & M2 & _ & F2 & N2 & K2 & Q2 & S2 & _ & _);
    [by apply (bool_decide_unpack _)|].
  destruct (named (set_all [DS; ES; SS] 0 c1)) as [c2 D2]. rewrite <- D2 in *.
  injection Q2 as _ Z0 _ Z4 Ze _.
  assert (exec ap_trampoline_start_code 0 c = exec
    [LGDT (Mem None None gdt32_ptr); MOV 4 (Reg RAX) (Cr 0); OR 4 (Reg RAX) (Imm 1); MOV 4 (Cr 0) (Reg RAX);
     FARJMP 8 protected_mode_entry] 0 c2) as E.
  { rewrite D2, <- (run_segs _ 0); [|done|by apply (bool_decide_unpack _)|].
    { unfold ap_trampoline_start_code. cbn [app exec step1]. rewrite Hcpl. reflexivity. }
    intros s _. unfold data_ok. by rewrite (Hm : cmode c1 = _). }
  assert (cmode c2 = Real16) as Hm2 by (by rewrite N2).
  set (c3 := set_gdtr (23, gdt32_start) c2).
  assert (exec [LGDT (Mem None None gdt32_ptr); MOV 4 (Reg RAX) (Cr 0); OR 4 (Reg RAX) (Imm 1); MOV 4 (Cr 0) (Reg RAX);
     FARJMP 8 protected_mode_entry] 0 c2 = 
     exec [MOV 4 (Reg RAX) (Cr 0); OR 4 (Reg RAX) (Imm 1); MOV 4 (Cr 0) (Reg RAX); FARJMP 8 protected_mode_entry] 0 c3) as E'.
  { cbn [exec step1]. assert (cpl c2 = 0) as -> by (unfold cpl; by rewrite Hm2). cbn [Z.eqb].
    unfold lgdt, ea, wrap. rewrite Hm2. cbn [wbytes fmap option_fmap option_map default].
    change (0 + 0 + gdt32_ptr) with gdt32_ptr. rewrite Z.mod_small by (cbn; lia).
    rewrite M2. change (ram c1) with (ram c). rewrite Bl.
    assert (load 3 (ram c) (gdt32_ptr + 2) = gdt32_start) as ->; [|done].
    rewrite (load_add 3 1) in Bb. change (256 ^ Z.of_nat 3) with (2 ^ 24) in Bb.
    pose proof (load_bound 1 (ram c) (gdt32_ptr + 2 + Z.of_nat 3)). pose proof (load_bound 3 (ram c) (gdt32_ptr + 2)).
    change (256 ^ Z.of_nat 1) with 256 in *. lia. }
  assert (cpl c3 = 0) as Hc3 by (unfold cpl; by rewrite (Hm2 : cmode c3 = _)).
  set (v := Z.lor (cr0 c) 1).
  assert (0 <= v < 2 ^ 31) as Hv by (unfold v; apply (lor_bound 31); [lia|exact Hk0|lia]).
  assert (Z.testbit v PE_BIT = true) as Hpe by (unfold v; by rewrite Z.lor_spec, orb_true_r).
  set (c4 := set_cr0 v (set_gpr RAX v (set_gpr RAX (cr0 c) c3))).
  exists (set_rip protected_mode_entry (set_mode Prot32 (set_seg CS 8 c4))). split_and!; try done.
  - eapply reaches_block; [rewrite Hrip; by apply (loaded_at _ _ _ _ code_ok), list_elem_of_here|].
    cbn [b_code b_next]. rewrite E, E'.
    rewrite (run_mov _ _ _ _ _ (cr0 c)); [|change (Some (cr0 c2) = Some (cr0 c)); by rewrite Z0|lia].
    rewrite (run_or _ _ _ _ _ (cr0 c)) by (done || lia || by xread). fold v.
    rewrite (run_cr0 _ _ _ _ v); [|exact Hc3|by xread|lia|
      apply Z.bits_above_log2; [lia|]; destruct (Z.eq_dec v 0) as [->|]; [done|apply Z.log2_lt_pow2; unfold PG_BIT; lia]].
    fold c4. cbn [exec step1]. rewrite (Hm2 : cmode c4 = _), (Hc3 : cpl c4 = _), (Hpe : Z.testbit (cr0 c4) PE_BIT = _).
    assert (load_cs 8 0 c4 = Some (set_mode Prot32 (set_seg CS 8 c4))) as ->; [|done].
    unfold load_cs. assert (gdt_entry 8 c4 = Some code32_desc) as ->; [|reflexivity].
    unfold gdt_entry. change (gdtr c4) with (23, gdt32_start). cbn [fst snd].
    change (8 - Z.land 8 7) with 8. change (8 + 7 <=? 23) with true. cbv iota.
    change (ram c4) with (ram c2). by rewrite M2, <- Bc.
  - split; try done; cbn [set_rip set_mode set_seg c4 set_cr0 set_gpr c3 set_gdtr cr0 cr4 efer]; rewrite ?Z4, ?Ze; done.
Qed.

(** ** Protected mode *)

Lemma protected_run gdt c : protected c -> rip c = protected_mode_entry -> gdtr c = (23, gdt32_start) ->
  blob (ram c) -> load32 (ram c) mbox_kernel_pml4 = load64 (ram c) mbox_kernel_pml4 ->
  kernel_tables gdt (load32 (ram c) mbox_real_gdt_ptr) (ram c) ->
  exists c', reaches code c c' /\ rip c' = long_mode_entry /\ cmode c' = Long64 /\ seg c' CS = 8 /\
    c_cr3 c' = load64 (ram c) mbox_kernel_pml4 /\ kernel_gdt gdt c' /\ Z.testbit (cr0 c') PG_BIT = true /\
    Z.testbit (cr4 c') PAE_BIT = true /\ flags c' = flags c /\ ram c' = ram c.
Proof.
  intros Hp Hrip Hg [Bp Bl Bb Bs Bc Bd] Hroot [K1 [K2 K2'] K3 K4 K5 K6]. destruct Hp as [Hm Hcpl Hk0 Hpe Hk4 He].
  destruct (run_load_segs 0x10 [DS; ES; SS; FS; GS] (long_mode_on (Mem None None mbox_kernel_pml4) ++
      [MOV 4 (Reg RAX) (Mem None None mbox_real_gdt_ptr); LGDT (Mem (Some RAX) None 0); FARJMP 8 long_mode_entry]) 0 c)
    as (c1 & E1 & [_ _ O1 U1 V1]); [done|by apply (bool_decide_unpack _)| |].
  { intros s _. apply (kernel_data_ok data32_desc); try done; [by rewrite Hm|by right|].
    unfold gdt_entry. rewrite Hg. cbn [fst snd]. change (16 - Z.land 16 7) with 16. change (16 + 7 <=? 23) with true.
    cbv iota. by rewrite Bd. }
  injection O1 as _ F1 _ N1 G1 M1 Z0 Z3 Z4 Ze _.
  assert (seg c1 CS = seg c CS) as Hcs1 by (apply V1; by apply (bool_decide_unpack _)).
  assert (cpl c1 = 0) as Hc1 by (unfold cpl in *; by rewrite N1, Hcs1).
  assert (forall a c', cmode c' = Prot32 -> 0 <= a < 2 ^ 32 -> ea None None a c' = a) as Hea.
  { intros a c' Hc Ha. unfold ea, wrap. rewrite Hc. cbn [wbytes fmap option_fmap option_map default].
    change (0 + 0 + a) with a. apply Z.mod_small. cbn. lia. }
  destruct (run_long_mode (Mem None None mbox_kernel_pml4) (load32 (ram c) mbox_kernel_pml4)
      [MOV 4 (Reg RAX) (Mem None None mbox_real_gdt_ptr); LGDT (Mem (Some RAX) None 0); FARJMP 8 long_mode_entry] 0 c1)
    as (c2 & E2 & [O2 O3 O4 O5 O6 _ O8]).
  { split; rewrite ?N1, ?Z0, ?Z4, ?Ze; done. }
  { apply load32_bound. }
  { intros c' H1 H2. cbn [read]. rewrite Hea by (rewrite ?H1, ?N1; done). by rewrite H2, M1. }
  injection O8 as _ F2 _ S2 G2 N2 _ M2.
  set (p := load32 (ram c) mbox_real_gdt_ptr) in *. pose proof (load32_bound (ram c) mbox_real_gdt_ptr : 0 <= p < 2 ^ 32) as Bp'.
  set (c3 := set_gpr RAX p c2).
  assert (cmode c3 = Prot32 /\ ram c3 = ram c) as [N3 M3] by (split; [change (cmode c3) with (cmode c2)|change (ram c3) with (ram c2)]; congruence).
  assert (load 4 (ram c) (p + 2) = gdt) as Hbase.
  { rewrite (load_add 4 4) in K2. change (256 ^ Z.of_nat 4) with (2 ^ 32) in K2.
    pose proof (load_bound 4 (ram c) (p + 2 + Z.of_nat 4)). pose proof (load_bound 4 (ram c) (p + 2)).
    change (256 ^ Z.of_nat 4) with (2 ^ 32) in *. lia. }
  exists (set_rip long_mode_entry (set_mode Long64 (set_seg CS 8 (set_gdtr (8 * (5 + 2 * MAX_TSS_CPUS) - 1, gdt) c3)))).
  split_and!; try done.
  - eapply reaches_block.
    { rewrite Hrip. by apply (loaded_at _ _ _ _ code_ok), list_elem_of_further, list_elem_of_here. }
    cbn [b_code b_next]. unfold protected_mode_entry_code. rewrite E1, E2.
    rewrite (run_mov _ _ _ _ _ p); [|cbn [read]; rewrite Hea by (done || congruence); by rewrite M2, M1|done]. fold c3.
    apply (run_jump64 _ c3 _ _ _ _ _ p); try done; rewrite ?M3; try done.
    + unfold cpl in *. change (cmode c3) with (cmode c2). change (seg c3 CS) with (seg c2 CS). by rewrite N2, S2.
    + change (cr0 c3) with (cr0 c2). by rewrite O2, Z.lor_spec, Z0, Hpe.
    + unfold ea, wrap. rewrite N3. cbn [wbytes fmap option_fmap option_map default].
      change (gpr c3 RAX) with p. rewrite !Z.add_0_r. by apply Z.mod_small.
  - change (c_cr3 c2 = load64 (ram c) mbox_kernel_pml4). by rewrite O3.
  - split; try done; cbn [set_rip set_mode set_seg set_gdtr ram]; by rewrite M3.
  - change (Z.testbit (cr0 c2) PG_BIT = true). by rewrite O2, Z.lor_spec, orb_true_r.
  - change (Z.testbit (cr4 c2) PAE_BIT = true). by rewrite O4, Z.lor_spec, orb_true_r.
  - change (flags c2 = flags c). by rewrite F2, F1.
Qed.

(** ** 64-bit code *)

Lemma long_run gdt c : cmode c = Long64 -> seg c CS = 8 -> rip c = long_mode_entry -> kernel_gdt gdt c ->
  0 <= hang < 2 ^ 64 -> let sp := load64 (ram c) mbox_ap_stack in 8 <= sp ->
  exists c', reaches code c c' /\ rip c' = load64 (ram c) mbox_ap_entry /\ cmode c' = Long64 /\ seg c' CS = 8 /\
    (forall s, s <> CS -> seg c' s = 0x10) /\ gpr c' RSP = sp - 8 /\ load64 (ram c') (sp - 8) = hang /\
    (flags c', cr0 c', c_cr3 c', cr4 c', efer c', gdtr c') = (flags c, cr0 c, c_cr3 c, cr4 c, efer c, gdtr c) /\
    (forall x, ~ (sp - 8 <= x < sp) -> ram c' x = ram c x).
Proof.
  intros Hm Hcs Hrip Hg Hh sp Hsp.
  destruct (run_load_segs 0x10 [DS; ES; SS; FS; GS]
    [MOV 8 (Reg RSP) (Mem None None mbox_ap_stack); MOV 8 (Reg RAX) (Mem None None mbox_ap_entry); CALL (Reg RAX) hang] hang c)
    as (c1 & E & [_ _ O1 U1 V1]); [done|by apply (bool_decide_unpack _)| |].
  { intros s _. apply (kernel_data_ok kdata_desc); try done; [by rewrite Hm|unfold cpl; by rewrite Hm, Hcs|by left|].
    rewrite (kernel_entry _ _ Hg) by done. change (gdt + (16 - Z.land 16 7)) with (gdt + SEL_KDATA).
    by rewrite (kg_kdata _ _ Hg). }
  injection O1 as _ F1 _ N1 G1 M1 Z0 Z3 Z4 Ze _. rewrite Hm in N1.
  assert (forall a c', cmode c' = Long64 -> 0 <= a < 2 ^ 64 -> ea None None a c' = a) as Hea.
  { intros a c' Hc Ha. unfold ea. rewrite Hc. cbn [fmap option_fmap option_map default].
    change (0 + 0 + a) with a. by apply wrap64. }
  pose proof (load64_bound (ram c) mbox_ap_stack : 0 <= sp < 2 ^ 64) as Bs.
  pose proof (load64_bound (ram c) mbox_ap_entry) as Be. set (e := load64 (ram c) mbox_ap_entry) in *.
  destruct (named (set_gpr RAX e (set_gpr RSP sp c1))) as [c2 D2].
  assert (cmode c2 = Long64 /\ gpr c2 RSP = sp /\ gpr c2 RAX = e /\ ram c2 = ram c) as (N2 & S2 & A2 & M2).
  { rewrite D2. xread. split_and!; congruence. }
  assert ((flags c2, cr0 c2, c_cr3 c2, cr4 c2, efer c2, gdtr c2, seg c2) =
          (flags c, cr0 c, c_cr3 c, cr4 c, efer c, gdtr c, seg c1)) as Hr2 by (rewrite D2; xread; congruence).
  injection Hr2 as J1 J2 J3 J4 J5 J6 J7.
  pose proof (push_rsp hang c2 N2 ltac:(lia)) as P1. pose proof (push_ram hang c2 N2 ltac:(lia)) as P2. rewrite S2 in P1, P2.
  exists (set_rip e (push hang c2)). split_and!.
  - eapply reaches_block.
    { rewrite Hrip. by apply (loaded_at _ _ _ _ code_ok), list_elem_of_further, list_elem_of_further, list_elem_of_here. }
    cbn [b_code b_next]. unfold long_mode_entry_code. rewrite E.
    rewrite (run_mov8 _ _ _ _ _ sp); [|cbn [read]; rewrite Hea by done; by rewrite M1|done].
    rewrite (run_mov8 _ _ _ _ _ e); [|cbn [read]; rewrite Hea by done; by rewrite (M1 : ram (set_gpr RSP sp c1) = _)|done].
    rewrite <- D2. cbn [exec step1 read]. rewrite N2. cbn [wbytes]. by rewrite A2, cut8.
  - done.
  - exact N2.
  - change (seg c2 CS = 8). rewrite J7, V1; [done|by apply (bool_decide_unpack _)].
  - intros s Hs. change (seg c2 s = 0x10). rewrite J7. apply U1.
    destruct s; try done; apply (bool_decide_unpack _); vm_compute; exact I.
  - exact P1.
  - change (load64 (ram (push hang c2)) (sp - 8) = hang). rewrite P2. by apply load64_store_eq.
  - change ((flags c2, cr0 c2, c_cr3 c2, cr4 c2, efer c2, gdtr c2) = (flags c, cr0 c, c_cr3 c, cr4 c, efer c, gdtr c)).
    congruence.
  - intros x Hx. change (ram (push hang c2) x = ram c x). rewrite P2, store_out by lia. by rewrite M2.
Qed.

(** C16: an application processor that a start-up IPI sends to the blob, with the mailbox
    filled as [smp_start_one] fills it (a page table root below 4 GB, the address of
    the descriptor of the kernel's GDT), arrives at the entry point of the mailbox in
    64-bit mode, ring 0 and interrupts off, with the mailbox's page tables, its stack
    and the kernel's GDT: the values [Smp.ap_start] takes from the same words.  No
    instruction on the way faults, and no memory but the top of the new stack changes. *)
Theorem ap_trampoline_correct gdt c :
  sipi c -> blob (ram c) -> 0 <= hang < 2 ^ 64 ->
  load64 (ram c) mbox_kernel_pml4 < 2 ^ 32 ->
  kernel_tables gdt (load32 (ram c) mbox_real_gdt_ptr) (ram c) ->
  let sp := load64 (ram c) mbox_ap_stack in
  8 <= sp -> sp mod 16 = 0 -> disjoint_range (sp - 8) 8 gdt 104 ->
  exists c', reaches code c c' /\ rip c' = load64 (ram c) mbox_ap_entry /\ cmode c' = Long64 /\ cpl c' = 0 /\
    (forall s, s <> CS -> seg c' s = 0x10) /\ c_cr3 c' = load64 (ram c) mbox_kernel_pml4 /\
    gpr c' RSP = sp - 8 /\ gpr c' RSP mod 16 = 8 /\ load64 (ram c') (gpr c' RSP) = hang /\
    kernel_gdt gdt c' /\ Z.testbit (cr0 c') PG_BIT = true /\ Z.testbit (cr4 c') PAE_BIT = true /\
    Z.testbit (flags c') IF_BIT = false /\
    (forall x, ~ (sp - 8 <= x < sp) -> ram c' x = ram c x).
Proof.
  intros Hs Hb Hh Hroot Hk sp H8 Hal Hd.
  assert (load32 (ram c) mbox_kernel_pml4 = load64 (ram c) mbox_kernel_pml4) as Hr.
  { rewrite (load_add 4 4) in *. change (256 ^ Z.of_nat 4) with (2 ^ 32) in *.
    pose proof (load_bound 4 (ram c) (mbox_kernel_pml4 + Z.of_nat 4)). pose proof (load_bound 4 (ram c) mbox_kernel_pml4). lia. }
  destruct (real_run c Hs Hb) as (c1 & R1 & P1 & Q1 & G1 & M1 & F1).
  destruct (protected_run gdt c1) as (c2 & R2 & P2 & N2 & C2 & Z3 & Hg & Zp & Za & F2 & M2); rewrite ?M1; try done.
  assert (ram c2 = ram c) as M2' by congruence.
  destruct (long_run gdt c2 N2 C2 P2 Hg Hh) as (c3 & R3 & P3 & N3 & C3 & S3 & G3 & L3 & J3 & M3); rewrite ?M2' in *; [done|].
  fold sp in G3, L3, M3. injection J3 as J1 J2 J3' J4 J5 J6. exists c3. split_and!; try done.
  - eapply reaches_trans; [exact R1|]. by eapply reaches_trans.
  - unfold cpl. by rewrite N3, C3.
  - rewrite J3', Z3. by rewrite M1.
  - rewrite G3. dlia.
  - by rewrite G3.
  - apply (kernel_gdt_ext _ c2); try done. intros x Hx. rewrite M2'. apply M3. unfold disjoint_range in Hd. lia.
  - by rewrite J2.
  - by rewrite J4.
  - rewrite J1, F2, F1. by apply Z.clearbit_eq.
Qed.
End Run.
End Trampoline.


(** ** The mailbox of smp.c

    The blob at 0x8000 with its table at 0x80d0, the kernel's table at 0x3000 described
    at 0x2f00; page tables at 0x200000, a stack up to 0x300000, [ap_entry64] at 0x106000. *)

Definition demo_ap_blocks : list (Z * block) := ap_trampoline_blocks 0x8030 0x8090 0x80c0 0x80e8.

Definition demo_ap_ram : mem := mbox_mem 0x2f00 0x106000 0x200000 0x300000 (mem_of
  [(0x80d8, 8%nat, code32_desc); (0x80e0, 8%nat, data32_desc); (0x80e8, 2%nat, 23); (0x80ea, 4%nat, 0x80d0);
   (0x2f00, 2%nat, 103); (0x2f02, 8%nat, 0x3000);
   (0x3008, 8%nat, kcode_desc); (0x3010, 8%nat, kdata_desc); (0x3018, 8%nat, Z.lor kcode_desc (Z.shiftl 3 45));
   (0x3020, 8%nat, Z.lor kdata_desc (Z.shiftl 3 45))]).

Definition demo_ap : cpu :=
  mkCpu (fun _ => 0) 0x8000 2 false (fun s => match s with CS => 0x800 | _ => 0 end) 0x60000010 0 0 0 (0xFFFF, 0) Real16
    (fun _ => 0) demo_ap_ram.

Lemma demo_sipi : sipi demo_ap.
Proof. split; try reflexivity; cbn; lia. Qed.
Lemma demo_blob : blob 0x80d0 0x80e8 (ram demo_ap).
Proof. split; try lia; vm_compute; reflexivity. Qed.
Lemma demo_kernel_tables : kernel_tables 0x3000 (load32 (ram demo_ap) mbox_real_gdt_ptr) (ram demo_ap).
Proof.
  assert (load32 (ram demo_ap) mbox_real_gdt_ptr = 0x2f00) as -> by (vm_compute; reflexivity).
  split; [vm_compute; reflexivity|split; [vm_compute; reflexivity|lia]|..]; vm_compute; reflexivity.
Qed.

Lemma ap_trampoline_correct_witness : exists c',
  reaches (program demo_ap_blocks) demo_ap c' /\ rip c' = 0x106000 /\ cmode c' = Long64 /\ c_cr3 c' = 0x200000 /\
  gpr c' RSP = 0x300000 - 8.
Proof.
  assert (loaded (program demo_ap_blocks) demo_ap_blocks) as Hl by (repeat constructor).
  assert (load64 (ram demo_ap) mbox_ap_stack = 0x300000) as Hsp by (vm_compute; reflexivity).
  assert (load64 (ram demo_ap) mbox_ap_entry = 0x106000) as He by (vm_compute; reflexivity).
  assert (load64 (ram demo_ap) mbox_kernel_pml4 = 0x200000) as Hr by (vm_compute; reflexivity).
  destruct (ap_trampoline_correct 0x8030 0x8090 0x80c0 0x80d0 0x80e8 (program demo_ap_blocks) Hl 0x3000 demo_ap
    demo_sipi demo_blob ltac:(lia)) as (c' & R & H1 & H2 & _ & _ & H3 & H4 & _).
  - rewrite Hr. lia.
  - exact demo_kernel_tables.
  - rewrite Hsp. lia.
  - rewrite Hsp. reflexivity.
  - rewrite Hsp. unfold disjoint_range. lia.
  - exists c'. rewrite He in H1. rewrite Hr in H3. rewrite Hsp in H4. split_and!; assumption.
Defined.
