(* ===== verification/Switch32.v ===== *)
(** * context_switch.s and boot.s: the assembly of the 32-bit kernel

    The cooperative switch of sched.c in protected mode, the first entry of a thread
    that [sched_create_thread] made, and the call of [kernel_main]. *)

From S2P Require Import Prelude Memory Machine X86 X86Stack X86Run.
From S2P Require Import KernLock NKern NKernSmp AddressSpaces Sched64 Sched64Spec Sched64Proof Sched SchedTheorems.

(** ** Pushes and pops of 32-bit words *)

Section Run32.
Context (l : list insn) (nxt : Z) (c : cpu).

Lemma wrap32 v : 0 <= v < 2 ^ 32 -> wrap Prot32 v = v.
Proof. apply Z.mod_small. Qed.

Lemma run_push32 r v sp : cmode c = Prot32 -> gpr c r = v -> 0 <= v < 2 ^ 32 -> gpr c RSP = sp -> 4 <= sp < 2 ^ 32 ->
  exec (PUSH (Reg r) :: l) nxt c = exec l nxt (set_ram (store32 (ram c) (sp - 4) v) (set_gpr RSP (sp - 4) c)).
Proof.
  intros mode32 Hv Hb Hs Hsp. cbn [exec step1 read]. rewrite mode32. cbn [wbytes]. rewrite Hv, cut4 by done.
  unfold push. rewrite mode32, Hs. cbn [wbytes]. change (Z.of_nat 4) with 4. by rewrite wrap32 by lia.
Qed.

Lemma run_pop32 r sp : cmode c = Prot32 -> gpr c RSP = sp -> 0 <= sp < 2 ^ 32 - 4 ->
  exec (POP r :: l) nxt c = exec l nxt (set_gpr r (load32 (ram c) sp) (set_gpr RSP (sp + 4) c)).
Proof.
  intros mode32 Hs Hsp. cbn [exec step1]. unfold top, drop_top. rewrite mode32, Hs. cbn [wbytes]. change (Z.of_nat 4) with 4.
  by rewrite wrap32 by lia.
Qed.

Lemma run_ret32 sp : cmode c = Prot32 -> gpr c RSP = sp -> 0 <= sp < 2 ^ 32 - 4 ->
  exec (RET :: l) nxt c = Some (set_rip (load32 (ram c) sp) (set_gpr RSP (sp + 4) c)).
Proof.
  intros mode32 Hs Hsp. cbn [exec step1]. unfold top, drop_top. rewrite mode32, Hs. cbn [wbytes]. change (Z.of_nat 4) with 4.
  by rewrite wrap32 by lia.
Qed.

Lemma ea32 b d a : cmode c = Prot32 -> gpr c b + d = a -> 0 <= a < 2 ^ 32 -> ea (Some b) None d c = a.
Proof.
  intros mode32 Ha Hb. unfold ea. rewrite mode32. cbn [fmap option_fmap option_map default]. unfold id. rewrite Z.add_0_r, Ha. by apply wrap32.
Qed.
End Run32.

(** ** context_switch *)

Definition context_switch_code : list insn :=
  [PUSH (Reg RBP);
   MOV 4 (Reg RBP) (Reg RSP);
   PUSH (Reg RBX); PUSH (Reg RSI); PUSH (Reg RDI); PUSH (Reg RBP);
   MOV 4 (Reg RAX) (Mem (Some RBP) None 8);
   MOV 4 (Mem (Some RAX) None 0) (Reg RSP);
   MOV 4 (Reg RSP) (Mem (Some RBP) None 12);
   POP RBP; POP RDI; POP RSI; POP RBX;
   POP RBP;
   RET].

(** A thread that is switched away from, to go on at [ret]: what the switch pops from
    [sp] (the first word is the frame pointer of the switch itself). *)
Record suspended32 (m : mem) (sp fp edi esi ebx ebp ret : Z) : Prop := {
  su_range : 0 <= sp < 2 ^ 32 - 24;
  su_fp : load32 m sp = fp;
  su_edi : load32 m (sp + 4) = edi;
  su_esi : load32 m (sp + 8) = esi;
  su_ebx : load32 m (sp + 12) = ebx;
  su_ebp : load32 m (sp + 16) = ebp;
  su_ret : load32 m (sp + 20) = ret
}.

(** Called with the two arguments on the stack, above the return address: where to save
    the stack pointer, and the stack pointer to take.  The old stack, the word for the
    old stack pointer and the frame on the new stack are apart. *)
Record switch32_ready (old new : Z) (c : cpu) : Prop := {
  s3_mode : cmode c = Prot32;
  s3_regs r : r ∈ [RBP; RBX; RSI; RDI] -> 0 <= gpr c r < 2 ^ 32;
  s3_esp : 20 <= gpr c RSP < 2 ^ 32 - 12;
  s3_old : load32 (ram c) (gpr c RSP + 4) = old /\ old < 2 ^ 32 - 4;
  s3_new : load32 (ram c) (gpr c RSP + 8) = new;
  s3_apart : disjoint_range (gpr c RSP - 20) 32 old 4;
  s3_frame : disjoint_range (gpr c RSP - 20) 32 new 24 /\ disjoint_range old 4 new 24
}.

Lemma ready_regs old new c : switch32_ready old new c ->
  0 <= gpr c RBP < 2 ^ 32 /\ 0 <= gpr c RBX < 2 ^ 32 /\ 0 <= gpr c RSI < 2 ^ 32 /\ 0 <= gpr c RDI < 2 ^ 32.
Proof. intros H. split_and!; apply (s3_regs _ _ _ H); by apply (bool_decide_unpack _). Qed.

(** The memory after the five pushes. *)
Definition saved32 (c : cpu) : mem :=
  let e := gpr c RSP in
  store32 (store32 (store32 (store32 (store32 (ram c) (e - 4) (gpr c RBP)) (e - 8) (gpr c RBX)) (e - 12) (gpr c RSI))
    (e - 16) (gpr c RDI)) (e - 20) (e - 4).

Lemma saved32_out c x : ~ (gpr c RSP - 20 <= x < gpr c RSP) -> saved32 c x = ram c x.
Proof. intros Hx. unfold saved32. cbv zeta. by rewrite !store_out by lia. Qed.

Lemma save_run nxt old new c : switch32_ready old new c ->
  exists c5, exec context_switch_code nxt c =
      exec [MOV 4 (Reg RAX) (Mem (Some RBP) None 8); MOV 4 (Mem (Some RAX) None 0) (Reg RSP);
            MOV 4 (Reg RSP) (Mem (Some RBP) None 12);
            POP RBP; POP RDI; POP RSI; POP RBX; POP RBP; RET] nxt c5 /\
    gpr c5 RSP = gpr c RSP - 20 /\ gpr c5 RBP = gpr c RSP - 4 /\ ram c5 = saved32 c /\ rest c5 = rest c.
Proof.
  intros Hrd. destruct (ready_regs _ _ _ Hrd) as (B1 & B2 & B3 & B4). destruct Hrd as [Hm _ Hsp _ _ _ _].
  set (e := gpr c RSP) in *. eexists. split.
  - unfold context_switch_code.
    rewrite (run_push32 _ _ _ _ (gpr c RBP) e) by (exact Hm || done || lia).
    rewrite (run_mov _ _ _ _ _ (e - 4)); [|cbn [read]; xread; by rewrite cut4 by lia|lia].
    rewrite (run_push32 _ _ _ _ (gpr c RBX) (e - 4)) by (exact Hm || (xread; done || lia)).
    replace (e - 4 - 4) with (e - 8) by lia.
    rewrite (run_push32 _ _ _ _ (gpr c RSI) (e - 8)) by (exact Hm || (xread; done || lia)).
    replace (e - 8 - 4) with (e - 12) by lia.
    rewrite (run_push32 _ _ _ _ (gpr c RDI) (e - 12)) by (exact Hm || (xread; done || lia)).
    replace (e - 12 - 4) with (e - 16) by lia.
    rewrite (run_push32 _ _ _ _ (e - 4) (e - 16)) by (exact Hm || (xread; done || lia)).
    replace (e - 16 - 4) with (e - 20) by lia. reflexivity.
  - xread. split_and!; done.
Qed.

(** The frame the pushes leave. *)
Lemma saved32_frame old new c : switch32_ready old new c ->
  forall m, (forall x, gpr c RSP - 20 <= x < gpr c RSP + 4 -> m x = saved32 c x) ->
  suspended32 m (gpr c RSP - 20) (gpr c RSP - 4) (gpr c RDI) (gpr c RSI) (gpr c RBX) (gpr c RBP)
    (load32 (ram c) (gpr c RSP)).
Proof.
  intros Hrd m Hm. destruct (ready_regs _ _ _ Hrd) as (B1 & B2 & B3 & B4). destruct Hrd as [_ _ Hsp _ _ _ _].
  set (e := gpr c RSP) in *.
  assert (forall a, e - 20 <= a -> a + 4 <= e + 4 -> load32 m a = load32 (saved32 c) a) as Hl
    by (intros a Ha Ha'; apply load_ext; intros x Hx; apply Hm; lia).
  split; [lia|..]; rewrite Hl by lia; unfold saved32; cbv zeta; fold e.
  - by rewrite load32_store_eq by lia.
  - replace (e - 20 + 4) with (e - 16) by lia. rewrite load_store_ne by (unfold disjoint_range; lia). by rewrite load32_store_eq.
  - replace (e - 20 + 8) with (e - 12) by lia. rewrite !load_store_ne by (unfold disjoint_range; lia). by rewrite load32_store_eq.
  - replace (e - 20 + 12) with (e - 8) by lia. rewrite !load_store_ne by (unfold disjoint_range; lia). by rewrite load32_store_eq.
  - replace (e - 20 + 16) with (e - 4) by lia. rewrite !load_store_ne by (unfold disjoint_range; lia). by rewrite load32_store_eq.
  - replace (e - 20 + 20) with e by lia. by rewrite !load_store_ne by (unfold disjoint_range; lia).
Qed.

Lemma context_switch_run nxt old new fp edi esi ebx ebp ret c :
  switch32_ready old new c -> suspended32 (ram c) new fp edi esi ebx ebp ret ->
  exists c', exec context_switch_code nxt c = Some c' /\
    rip c' = ret /\ gpr c' RSP = new + 24 /\ gpr c' RBP = ebp /\ gpr c' RBX = ebx /\ gpr c' RSI = esi /\ gpr c' RDI = edi /\
    load32 (ram c') old = gpr c RSP - 20 /\
    suspended32 (ram c') (gpr c RSP - 20) (gpr c RSP - 4) (gpr c RDI) (gpr c RSI) (gpr c RBX) (gpr c RBP)
      (load32 (ram c) (gpr c RSP)) /\
    (forall x, ~ (gpr c RSP - 20 <= x < gpr c RSP) -> ~ (old <= x < old + 4) -> ram c' x = ram c x) /\
    rest c' = rest c.
Proof.
  intros Hrd [S0 S1 S2 S3 S4 S5 S6]. destruct (save_run nxt old new c Hrd) as (s5 & -> & P1 & P2 & P3 & P5).
  pose proof (saved32_frame old new c Hrd) as Hfr. pose proof (saved32_out c) as H5.
  destruct Hrd as [Hm _ Hsp [Ho Hob] Hn Hd [Hf1 Hf2]]. unfold disjoint_range in *. set (e := gpr c RSP) in *.
  pose proof (rest_mode _ _ P5) as P4. rewrite Hm in P4.
  assert (0 <= old) as Ho0 by (rewrite <- Ho; apply load32_bound).
  set (m6 := store32 (saved32 c) old (e - 20)).
  assert (forall x, ~ (e - 20 <= x < e) -> ~ (old <= x < old + 4) -> m6 x = ram c x) as H6
    by (intros x Hx Hx'; unfold m6; rewrite store_out by lia; by apply H5).
  assert (forall a, new <= a -> a + 4 <= new + 24 -> load32 m6 a = load32 (ram c) a) as Hl
    by (intros a Ha Ha'; apply load_ext; intros x Hx; apply H6; lia).
  assert (load32 (saved32 c) (e + 4) = old) as Ho' by (rewrite <- Ho; apply load_ext; intros x Hx; apply H5; lia).
  assert (load32 m6 (e + 8) = new) as Hn' by (rewrite <- Hn; apply load_ext; intros x Hx; apply H6; lia).
  set (s6 := set_ram (store32 (ram s5) old (e - 20)) (set_gpr RAX old s5)).
  assert (ram s6 = m6) as Q3 by (unfold s6; xread; by rewrite P3).
  assert (gpr s6 RBP = e - 4) as Q2 by (unfold s6; by xread).
  eexists. split.
  - rewrite (run_mov _ _ s5 _ _ old); [|cbn [read]|lia].
    2:{ rewrite (ea32 s5 RBP 8 (e + 4)) by (exact P4 || (rewrite ?P2; lia)). by rewrite P3, Ho'. }
    rewrite (run_store _ _ _ _ _ _ _ old (e - 20)); [|apply ea32; [exact P4|xread; lia|lia]|by xread|lia].
    change (ram (set_gpr RAX old s5)) with (ram s5). fold s6.
    rewrite (run_mov _ _ s6 _ _ new); [|cbn [read]|lia].
    2:{ rewrite (ea32 s6 RBP 12 (e + 8)) by (exact P4 || (rewrite ?Q2; lia)). by rewrite Q3, Hn'. }
    rewrite (run_pop32 _ _ _ _ new) by (exact P4 || (xread; done || lia)).
    rewrite (run_pop32 _ _ _ _ (new + 4)) by (exact P4 || (xread; done || lia)).
    replace (new + 4 + 4) with (new + 8) by lia.
    rewrite (run_pop32 _ _ _ _ (new + 8)) by (exact P4 || (xread; done || lia)).
    replace (new + 8 + 4) with (new + 12) by lia.
    rewrite (run_pop32 _ _ _ _ (new + 12)) by (exact P4 || (xread; done || lia)).
    replace (new + 12 + 4) with (new + 16) by lia.
    rewrite (run_pop32 _ _ _ _ (new + 16)) by (exact P4 || (xread; done || lia)).
    replace (new + 16 + 4) with (new + 20) by lia.
    rewrite (run_ret32 _ _ _ (new + 20)) by (exact P4 || (xread; done || lia)). reflexivity.
  - xread. rewrite Q3, !Hl by lia. split_and!; try done; try lia.
    + unfold m6. apply load32_store_eq. lia.
    + apply Hfr. intros x Hx. unfold m6. by rewrite store_out by lia.
Qed.

(** The 32-bit switch saves the stack pointer of the thread that gives way in the
    word it is told to and goes on where the other thread was suspended, with that
    thread's EBX, ESI, EDI and EBP; the thread that gives way is left suspended, to go
    on at the return address with its own registers, and no other memory changes. *)
Theorem context_switch_correct nxt old new fp edi esi ebx ebp ret c :
  switch32_ready old new c -> suspended32 (ram c) new fp edi esi ebx ebp ret ->
  exists c', exec context_switch_code nxt c = Some c' /\
    rip c' = ret /\ gpr c' RSP = new + 24 /\ gpr c' RBP = ebp /\ gpr c' RBX = ebx /\ gpr c' RSI = esi /\ gpr c' RDI = edi /\
    load32 (ram c') old = gpr c RSP - 20 /\
    suspended32 (ram c') (gpr c RSP - 20) (gpr c RSP - 4) (gpr c RDI) (gpr c RSI) (gpr c RBX) (gpr c RBP)
      (load32 (ram c) (gpr c RSP)) /\
    (forall x, ~ (gpr c RSP - 20 <= x < gpr c RSP) -> ~ (old <= x < old + 4) -> ram c' x = ram c x).
Proof.
  intros H1 H2. destruct (context_switch_run nxt _ _ _ _ _ _ _ _ c H1 H2) as (c' & E & R).
  exists c'. split; [done|]. tauto.
Qed.

(** A thread that gives way and is switched back to, by a thread that has not
    touched its stack, finds the registers it had, behind its call. *)
Theorem context_switch_round_trip nxt old new fp edi esi ebx ebp ret c :
  switch32_ready old new c -> suspended32 (ram c) new fp edi esi ebx ebp ret ->
  exists c1, exec context_switch_code nxt c = Some c1 /\
    forall c2 old', switch32_ready old' (load32 (ram c1) old) c2 ->
      (forall x, gpr c RSP - 20 <= x < gpr c RSP + 4 -> ram c2 x = ram c1 x) ->
      exists c3, exec context_switch_code nxt c2 = Some c3 /\ rip c3 = load32 (ram c) (gpr c RSP) /\
        gpr c3 RSP = gpr c RSP + 4 /\
        (forall r, r ∈ [RBP; RBX; RSI; RDI] -> gpr c3 r = gpr c r).
Proof.
  intros H1 H2. destruct (context_switch_run nxt _ _ _ _ _ _ _ _ c H1 H2) as (c1 & E & _ & _ & _ & _ & _ & _ & L & S & _).
  exists c1. split; [done|]. intros c2 old' Hr Hm. rewrite L in Hr.
  assert (suspended32 (ram c2) (gpr c RSP - 20) (gpr c RSP - 4) (gpr c RDI) (gpr c RSI) (gpr c RBX) (gpr c RBP)
    (load32 (ram c) (gpr c RSP))) as S'.
  { destruct S as [S0 S1 S2 S3 S4 S5 S6].
    split; [done|..]; rewrite (load_ext 4 _ (ram c1)) by (intros x Hx; apply Hm; lia); done. }
  destruct (context_switch_run nxt _ _ _ _ _ _ _ _ c2 Hr S') as (c3 & E3 & R1 & R2 & R3 & R4 & R5 & R6 & _).
  exists c3. split_and!; [done|done|lia|]. intros r Hr'. rewrite !elem_of_cons, elem_of_nil in Hr'.
  destruct Hr' as [->|[->|[->|[->|[]]]]]; done.
Qed.

(** ** The first switch to a thread *)

(** The first switch to a thread that [sched_create_thread] made enters its
    function, with the callee-saved registers zero and the stack pointer at the top of
    the thread's own stack. *)
Theorem new_thread_enters32 threads_addr (s : scheduler) rings entry prio nm :
  sched32_inv s rings -> 0 <= entry < 2 ^ 32 -> 0 <= prio < 8 -> (thread_count s < MAX_THREADS)%nat ->
  0 <= threads_addr -> threads_addr + sizeof_thread * Z.of_nat MAX_THREADS < 2 ^ 32 ->
  let i := thread_count s in
  let bottom := threads_addr + sizeof_thread * Z.of_nat i + stack_offset32 in
  exists s', sched_create_thread threads_addr entry prio nm s = Done (Some i) s' [] /\
    forall c nxt old, switch32_ready old (esp (th i s')) c ->
      (forall x, bottom <= x < bottom + STACK_SIZE -> ram c x = r_mem s' x) ->
      exists c', exec context_switch_code nxt c = Some c' /\ rip c' = entry /\
        gpr c' RSP = bottom + STACK_SIZE /\ (forall r, r ∈ [RBP; RBX; RSI; RDI] -> gpr c' r = 0).
Proof.
  intros Hi He Hp Hlt Ha Hb i bottom.
  pose proof (create32_sim threads_addr s rings entry prio nm Hi He ltac:(lia)) as H. cbv zeta in H. fold i in H.
  unfold MAX_THREADS in *. destruct (Nat.ltb_spec i 16); [|unfold i in *; lia].
  destruct (Z.ltb_spec prio 8); [|lia]. cbn [andb] in H.
  destruct H as (s' & E & _ & _ & _ & _ & _ & F1 & F2 & F3 & _). exists s'. split; [done|].
  intros c nxt old Hr Hm. unfold bottom, sizeof_thread, stack_offset32, STACK_SIZE in *.
  set (lo := threads_addr + 4120 * Z.of_nat i + 16) in *. rewrite F1 in *.
  assert (forall a, lo <= a -> a + 4 <= lo + 4096 -> load32 (ram c) a = load32 (r_mem s') a) as Hl
    by (intros a Ha1 Ha2; apply load_ext; intros x Hx; apply Hm; lia).
  assert (suspended32 (ram c) (lo + 4096 - 24) 0 0 0 0 0 entry) as Hs.
  { split; [unfold lo; lia|..]; rewrite Hl by (unfold lo; lia).
    - pose proof (F2 0 ltac:(lia)) as F0. by rewrite Z.mul_0_r, Z.add_0_r in F0.
    - by apply (F2 1).
    - by apply (F2 2).
    - by apply (F2 3).
    - by apply (F2 4).
    - done. }
  destruct (context_switch_run nxt _ _ _ _ _ _ _ _ c Hr Hs) as (c' & E' & R1 & R2 & R3 & R4 & R5 & R6 & _).
  exists c'. split_and!; [done|done|lia|]. intros r Hr'. rewrite !elem_of_cons, elem_of_nil in Hr'.
  destruct Hr' as [->|[->|[->|[->|[]]]]]; done.
Qed.

(** ** boot.s *)

Section Boot.
Context (kernel_main hang stack_top : Z).

Definition start32_code : list insn :=
  [MOV 4 (Reg RSP) (Imm stack_top); PUSH (Reg RBX); PUSH (Reg RAX); CALL (Imm kernel_main) hang].

(** [kernel_main] is entered with the multiboot words on top of the kernel's stack. *)
Lemma start32_run nxt c :
  cmode c = Prot32 -> 0 <= gpr c RAX < 2 ^ 32 -> 0 <= gpr c RBX < 2 ^ 32 -> 12 <= stack_top < 2 ^ 32 ->
  0 <= kernel_main < 2 ^ 32 -> 0 <= hang < 2 ^ 32 ->
  exists c', exec start32_code nxt c = Some c' /\ rip c' = kernel_main /\ gpr c' RSP = stack_top - 12 /\
    load32 (ram c') (stack_top - 12) = hang /\ load32 (ram c') (stack_top - 8) = gpr c RAX /\
    load32 (ram c') (stack_top - 4) = gpr c RBX /\ rest c' = rest c /\
    (forall x, ~ (stack_top - 12 <= x < stack_top) -> ram c' x = ram c x).
Proof.
  intros Hm Ha Hb Hs Hk Hh. eexists. split.
  - unfold start32_code. rewrite run_imm by lia.
    rewrite (run_push32 _ _ _ _ (gpr c RBX) stack_top) by (exact Hm || (xread; done || lia)).
    rewrite (run_push32 _ _ _ _ (gpr c RAX) (stack_top - 4)) by (exact Hm || (xread; done || lia)).
    replace (stack_top - 4 - 4) with (stack_top - 8) by lia.
    cbn [exec step1 read]. match goal with |- context [wbytes (cmode ?s)] => change (cmode s) with (cmode c) end.
    rewrite Hm. cbn [wbytes]. rewrite cut4 by done. unfold push.
    match goal with |- context [wbytes (cmode ?s)] => change (cmode s) with (cmode c) end. rewrite Hm. cbn [wbytes].
    change (Z.of_nat 4) with 4. rewrite wrap32 by (xread; lia). reflexivity.
  - xread. replace (stack_top - 8 - 4) with (stack_top - 12) by lia. split_and!; try done.
    + by apply load32_store_eq.
    + rewrite load_store_ne by (unfold disjoint_range; lia). by apply load32_store_eq.
    + rewrite !load_store_ne by (unfold disjoint_range; lia). by apply load32_store_eq.
    + intros x Hx. by rewrite !store_out by lia.
Qed.
End Boot.

(** ** Two threads of the 32-bit kernel

    The running one has its stack at 0x9000 and its [esp] field at 0x20000, the other is
    suspended at 0xA000, to go on at 0x1234. *)

Definition demo32_ram : mem := mem_of
  [(0x9000, 4%nat, 0x100123); (0x9004, 4%nat, 0x20000); (0x9008, 4%nat, 0xA000);
   (0xA000, 4%nat, 0xA010); (0xA004, 4%nat, 1); (0xA008, 4%nat, 2); (0xA00C, 4%nat, 3); (0xA010, 4%nat, 4); (0xA014, 4%nat, 0x1234)].

Definition demo32 (sp : Z) (m : mem) : cpu :=
  mkCpu (fun r => match r with RSP => sp | RBX => 7 | RDI => 8 | RBP => 0x9100 | _ => 0 end)
    0x100100 0x202 false (fun _ => 0x10) 0x11 0 0 0 (23, 0x3000) Prot32 (fun _ => 0) m.

Definition demo32_switched : cpu := default (demo32 0 demo32_ram) (exec context_switch_code 0 (demo32 0x9000 demo32_ram)).
(** The other thread gives way, on a stack at 0xB000. *)
Definition demo32_back : cpu := demo32 0xB000
  (store32 (store32 (store32 (ram demo32_switched) 0xB000 0x100456) 0xB004 0x30000) 0xB008 0x8FEC).

Lemma demo32_ready : switch32_ready 0x20000 0xA000 (demo32 0x9000 demo32_ram).
Proof.
  split.
  - reflexivity.
  - intros r _. destruct r; cbn [demo32 gpr]; lia.
  - cbn [demo32 gpr]. lia.
  - split; [vm_compute; reflexivity|lia].
  - vm_compute. reflexivity.
  - cbn [demo32 gpr]. unfold disjoint_range. lia.
  - cbn [demo32 gpr]. unfold disjoint_range. lia.
Qed.

Lemma demo32_suspended : suspended32 (ram (demo32 0x9000 demo32_ram)) 0xA000 0xA010 1 2 3 4 0x1234.
Proof. split; [lia|..]; vm_compute; reflexivity. Qed.

Lemma context_switch_correct_witness : exists c',
  exec context_switch_code 0 (demo32 0x9000 demo32_ram) = Some c' /\ rip c' = 0x1234 /\ gpr c' RBX = 3 /\
  load32 (ram c') 0x20000 = 0x8FEC.
Proof.
  destruct (context_switch_correct 0 _ _ _ _ _ _ _ _ _ demo32_ready demo32_suspended)
    as (c' & E & H1 & _ & _ & H2 & _ & _ & H3 & _).
  exists c'. split; [exact E|]. split; [exact H1|]. split; [exact H2|exact H3].
Defined.

Lemma demo32_back_ready : switch32_ready 0x30000 0x8FEC demo32_back.
Proof.
  split.
  - reflexivity.
  - intros r _. destruct r; cbn [demo32 demo32_back gpr]; lia.
  - cbn [demo32 demo32_back gpr]. lia.
  - split; [vm_compute; reflexivity|lia].
  - vm_compute. reflexivity.
  - cbn [demo32 demo32_back gpr]. unfold disjoint_range. lia.
  - cbn [demo32 demo32_back gpr]. unfold disjoint_range. lia.
Qed.

Lemma context_switch_round_trip_witness : exists c3,
  exec context_switch_code 0 demo32_back = Some c3 /\ rip c3 = 0x100123 /\ gpr c3 RBX = 7 /\ gpr c3 RBP = 0x9100.
Proof.
  destruct (context_switch_round_trip 0 _ _ _ _ _ _ _ _ _ demo32_ready demo32_suspended) as (c1 & E1 & H).
  assert (c1 = demo32_switched) as -> by (unfold demo32_switched; by rewrite E1).
  assert (load32 (ram demo32_switched) 0x20000 = 0x8FEC) as L by (vm_compute; reflexivity). rewrite L in H.
  destruct (H demo32_back 0x30000 demo32_back_ready) as (c3 & E3 & H1 & _ & H2).
  - intros x Hx. cbn [demo32 gpr] in Hx. unfold demo32_back. cbn [demo32 ram]. by rewrite !store_out by lia.
  - exists c3. split; [exact E3|]. split; [rewrite H1; vm_compute; reflexivity|].
    split; (rewrite H2; [reflexivity|apply (bool_decide_unpack _); vm_compute; exact I]).
Defined.

Lemma new_thread_enters32_witness : exists s',
  sched_create_thread 0x120000 0x101000 4 "new" (demo_scheduler (Some 0%nat)) = Done (Some 2%nat) s' [] /\
  forall c nxt old, switch32_ready old (esp (th 2 s')) c ->
    (forall x, 0x122040 <= x < 0x123040 -> ram c x = r_mem s' x) ->
    exists c', exec context_switch_code nxt c = Some c' /\ rip c' = 0x101000 /\ gpr c' RSP = 0x123040.
Proof.
  destruct (new_thread_enters32 0x120000 _ _ 0x101000 4 "new" demo_scheduler_inv ltac:(lia) ltac:(lia)
    ltac:(unfold MAX_THREADS; cbn; lia) ltac:(lia) ltac:(unfold sizeof_thread, MAX_THREADS; lia)) as (s' & E & H).
  exists s'. split; [exact E|]. intros c nxt old Hr Hm.
  destruct (H c nxt old Hr Hm) as (c' & E' & H1 & H2 & _). exists c'. split; [exact E'|]. split; [exact H1|exact H2].
Defined.
