(* ===== verification/Ring3.v ===== *)
(** * Ring 3: what code of a process can do to the kernel

    The process of [create_user_process] under the gates of [idt_init], running any code
    at all.  One instruction of ring 3 is over-approximated by [user_insn]: it may change
    its registers and every byte the page walk lets it write.  Between instructions the
    process is interrupted, or calls with [int 0x80], and goes on when the kernel has
    returned ([ustep]).  (Accessed and dirty bits of page-table entries are not modelled:
    no translation depends on them.) *)

From stdpp Require Import relations.
From S2P Require Import Prelude Memory Machine X86 X86Stack X86Run.
From S2P Require Import FrameSource Paging PagingSpec PagingProof PagingSpaces PagingUser Memmap MemmapProof MemmapTheorems PagingTheorems.
From S2P Require Import Gdt64 Gdt64Theorems Idt IdtTheorems Isr Usermode.

(** ** Ring-3 instructions *)

(** With IOPL 0, bits 12 and 13 of RFLAGS, ring 3 cannot change IOPL or the interrupt
    flag: cli, sti and port accesses fault, popf leaves the bits alone. *)
Definition IOPL_BIT : Z := 12.
Definition iopl0 (f : Z) : Prop := Z.testbit f IOPL_BIT = false /\ Z.testbit f (IOPL_BIT + 1) = false.

(** The bytes ring 3 may write: every entry on the walk is writable and for users. *)
Definition user_writable (c : cpu) (x : Z) : Prop := exists va t,
  0 <= va < 2 ^ 48 /\ walk (ram c) (c_cr3 c) va = Some t /\ x_pa t = x /\ x_write t = true /\ x_user t = true.

(** One instruction of ring 3 that does not fault.  The only code and stack segments of
    ring 3 in the descriptor table are those it runs on, so CS and SS stay. *)
Record user_insn (c c' : cpu) : Prop := {
  ui_ram x : ram c' x <> ram c x -> user_writable c x;
  ui_regs : regs64 c';
  ui_rip : 0 <= rip c' < 2 ^ 64;
  ui_flags : 0 <= flags c' < 2 ^ 64;
  ui_if : iopl0 (flags c) -> iopl0 (flags c') /\ Z.testbit (flags c') IF_BIT = Z.testbit (flags c) IF_BIT;
  ui_cs : seg c' CS = seg c CS;
  ui_ss : seg c' SS = seg c SS;
  ui_mode : cmode c' = cmode c;
  ui_ctl : ctl c' = ctl c
}.

(** Ranges of memory, and that they are kept. *)
Definition kept (prot : list (Z * Z)) (m m' : mem) : Prop :=
  Forall (fun p => same_on p.1 (p.1 + p.2) m m') prot.
Definition apart (prot : list (Z * Z)) (a n : Z) : Prop :=
  Forall (fun p => disjoint_range a n p.1 p.2) prot.

Lemma kept_refl prot m : kept prot m m.
Proof. by apply Forall_true. Qed.

Lemma kept_trans prot m1 m2 m3 : kept prot m1 m2 -> kept prot m2 m3 -> kept prot m1 m3.
Proof.
  unfold kept. rewrite !Forall_forall. intros H1 H2 p Hp. eapply same_on_trans; [by apply H1|by apply H2].
Qed.

Lemma kept_in prot a n m m' : kept prot m m' -> (a, n) ∈ prot -> same_on a (a + n) m m'.
Proof. unfold kept. rewrite Forall_forall. intros H Hin. exact (H _ Hin). Qed.

(** A change inside of a range apart from the protected ones. *)
Lemma kept_apart prot a n m m' :
  apart prot a n -> (forall x, m' x <> m x -> a <= x < a + n) -> kept prot m m'.
Proof.
  intros Ha Hm. eapply Forall_impl; [exact Ha|]. intros [b k] Hd x Hx. cbn in *.
  destruct (Z.eq_dec (m' x) (m x)) as [->|Hne]; [done|]. apply Hm in Hne. unfold disjoint_range in *. lia.
Qed.

Lemma kept_frames prot fs m m' :
  Forall (fun f => apart prot f 4096) fs -> only_frames fs m m' -> kept prot m m'.
Proof.
  rewrite Forall_forall. intros Ha Ho. apply Forall_forall. intros [b k] Hin x Hx. cbn in *.
  symmetry. apply Ho. intros f Hf Hfx. specialize (Ha f Hf). unfold apart in Ha.
  rewrite Forall_forall in Ha. specialize (Ha _ Hin). cbn in Ha. unfold disjoint_range in *. lia.
Qed.

(** ** A confined process *)

Section Ring3.
Context (code : Z -> option block).
Context (isr : Z -> Z) (back dispatch idt gdt tss sp0 : Z).

(** Its address space, and the frames it is given. *)
Context (s : space) (shared own : list Z).
Context (own_only : forall va t, 0 <= va < 2 ^ 48 -> sp_xlat s va = Some t -> x_user t = true ->
  exists f, f ∈ own /\ f <= x_pa t < f + 4096).

(** What no code of ring 3 may touch: page tables, descriptor tables, RSP0. *)
Definition protected : list (Z * Z) :=
  ((fun t => (t, 4096)) <$> sp_tables s ++ shared) ++ [(gdt, 104); (idt, 4096); (tss + tss_rsp0, 8)].

Lemma protected_gdt : (gdt, 104) ∈ protected.
Proof. apply elem_of_app. right. apply list_elem_of_here. Qed.
Lemma protected_idt : (idt, 4096) ∈ protected.
Proof. apply elem_of_app. right. apply list_elem_of_further, list_elem_of_here. Qed.
Lemma protected_rsp0 : (tss + tss_rsp0, 8) ∈ protected.
Proof. apply elem_of_app. right. do 2 apply list_elem_of_further. apply list_elem_of_here. Qed.
Lemma protected_table t : t ∈ sp_tables s ++ shared -> (t, 4096) ∈ protected.
Proof. intros H. apply elem_of_app. left. apply list_elem_of_fmap. by exists t. Qed.

(** The top of the ring-0 stack, aligned as the CPU aligns it. *)
Definition kstack : Z := sp0 - sp0 mod 16.

Context (aligned : Forall (fun t => t mod 4096 = 0) (sp_tables s ++ shared)).
Context (own_apart : Forall (fun f => apart protected f 4096) own).
Context (stack_apart : apart protected (kstack - 184) 184).
Context (stack_ok : 184 <= kstack <= 2 ^ 64 - 16).

Record confined (c : cpu) : Prop := {
  cf_mode : cmode c = Long64;
  cf_user : in_user c;
  cf_regs : regs64 c;
  cf_rip : 0 <= rip c < 2 ^ 64;
  cf_flags : 0 <= flags c < 2 ^ 64;
  cf_if : Z.testbit (flags c) IF_BIT = true;
  cf_iopl : iopl0 (flags c);
  cf_cr3 : c_cr3 c = sp_cr3 s;
  cf_gdt : kernel_gdt gdt c;
  cf_gates : idt_gates_ok isr idt (ram c);
  cf_sp0 : load64 (ram c) (tss + tss_rsp0) = sp0;
  cf_space : space_ok (ram c) shared s
}.

(** It depends on the protected memory only. *)
Lemma confined_kept c c' :
  confined c -> kept protected (ram c) (ram c') -> ctl c' = ctl c -> cmode c' = Long64 -> in_user c' ->
  regs64 c' -> 0 <= rip c' < 2 ^ 64 -> 0 <= flags c' < 2 ^ 64 -> Z.testbit (flags c') IF_BIT = true ->
  iopl0 (flags c') -> confined c'.
Proof.
  intros [C1 C2 C3 C4 C5 C6 C6' C7 C8 C9 C10 C11] Hk Hc Hm Hu Hr Hrip Hf Hif Hio. injection Hc as _ H3 _ He Hg.
  split; try done.
  - by rewrite H3.
  - apply (kernel_gdt_ext _ c); try done. intros x Hx. symmetry. by apply (kept_in _ _ _ _ _ Hk protected_gdt).
  - intros v Hv. rewrite <- (C9 v Hv). symmetry. apply decode_gate_ext. intros x Hx.
    apply (kept_in _ _ _ _ _ Hk protected_idt). lia.
  - rewrite <- C10. symmetry. apply (load_same_on _ _ 8 _ _ _ (kept_in _ _ _ _ _ Hk protected_rsp0)); lia.
  - intros va Hva. destruct (C11 va Hva) as [Hw Hv].
    destruct (walk_frame (ram c) (ram c') (sp_cr3 s) va) as [-> ->]; [|done].
    intros t Ht%Hv. by apply (kept_in _ _ _ _ _ Hk), protected_table.
Qed.

(** An instruction writes to the frames of the process only. *)
Lemma user_insn_own c c' : confined c -> user_insn c c' -> only_frames own (ram c) (ram c').
Proof.
  intros C U x Hx. destruct (Z.eq_dec (ram c' x) (ram c x)) as [->|Hne]; [done|].
  apply (ui_ram _ _ U) in Hne as (va & t & Hva & Hw & <- & _ & Hu).
  rewrite (cf_cr3 _ C) in Hw. rewrite (proj1 (cf_space _ C va Hva)) in Hw.
  destruct (own_only va t Hva Hw Hu) as (f & Hf & Hr). by destruct (Hx f Hf).
Qed.

Lemma user_insn_confined c c' : confined c -> user_insn c c' -> confined c'.
Proof.
  intros C U. pose proof (user_insn_own _ _ C U) as Ho. destruct U as [_ U1 U2 U3 U4 U5 U6 U7 U8].
  apply (confined_kept c); try done.
  - by apply (kept_frames _ own).
  - by rewrite U7, (cf_mode _ C).
  - destruct (cf_user _ C) as [H1 H2]. split; congruence.
  - by rewrite (proj2 (U4 (cf_iopl _ C))), (cf_if _ C).
  - by apply U4, (cf_iopl _ C).
Qed.

(** ** Interrupts and system calls *)

(** While it works for the process the kernel keeps the protected memory, and comes back
    with the control registers of the process. *)
Record kernel_keeps (c2 c3 : cpu) : Prop := {
  kk_ram : kept protected (ram c2) (ram c3);
  kk_ctl : ctl c3 = ctl c2
}.

(** [c4] is [c] resumed after a handler that left state [c3]. *)
Record resumed (c c3 c4 : cpu) : Prop := {
  rs_rip : rip c4 = rip c;
  rs_flags : flags c4 = flags c;
  rs_cs : seg c4 CS = seg c CS;
  rs_ss : seg c4 SS = seg c SS;
  rs_gpr r : gpr c4 r = gpr c r;
  rs_ram : ram c4 = ram c3;
  rs_mode : cmode c4 = Long64;
  rs_ctl : ctl c4 = ctl c3
}.

Definition served (vector error : Z) (c c2 c3 c4 : cpu) : Prop :=
  dispatching back dispatch tss vector error c c2 (stack_for tss c - 176) /\
  abi_return (stack_for tss c) c2 c3 /\ kernel_keeps c2 c3 /\ reaches code c3 c4 /\ resumed c c3 c4.

(** Vectors that the stubs serve. *)
Definition served_vector (v : Z) : Prop := v ∈ stub_vectors /\ v ∉ [21; 29; 30].

Inductive ustep (c : cpu) : cpu -> Prop :=
| us_insn c' : user_insn c c' -> ustep c c'
| us_interrupt v error c1 c2 c3 c4 :
    served_vector v -> 0 <= error < 2 ^ 64 -> deliver idt tss v error c = Some c1 -> reaches code c1 c2 ->
    served v error c c2 c3 c4 -> ustep c c4
| us_syscall next c1 c2 c3 c4 :
    0 <= next < 2 ^ 64 -> int_n idt tss 128 next c = Some c1 -> reaches code c1 c2 ->
    served 128 0 (set_rip next c) c2 c3 c4 -> ustep c c4.

Lemma confined_stack c : confined c -> stack_for tss c = kstack.
Proof.
  intros C. unfold stack_for, cpl. rewrite (cf_mode _ C), (proj1 (cf_user _ C)).
  change (0 <? Z.land (Z.lor SEL_UCODE 3) 3) with true. cbv iota. by rewrite (cf_sp0 _ C).
Qed.

Lemma confined_set_rip next c : confined c -> 0 <= next < 2 ^ 64 -> confined (set_rip next c).
Proof. intros [C1 C2 C3 C4 C5 C6 C6' C7 [] C9 C10 C11] Hn. by split. Qed.

Lemma served_gate v c : confined c -> served_vector v ->
  decode_gate (ram c) (idt + 16 * v) = mkGate (isr v) 8 0 0xE (if v =? 128 then 3 else 0) true.
Proof.
  intros C [Hv _]. apply elem_of_app in Hv. rewrite elem_of_seqZ, list_elem_of_singleton in Hv.
  rewrite (cf_gates _ C) by lia.
  assert ((v <? 34) || (v =? 128) = true) as ->; [|done].
  destruct (Z.ltb_spec v 34), (Z.eqb_spec v 128); try done; lia.
Qed.

Lemma confined_interruptible v c : confined c -> served_vector v -> interruptible isr idt gdt tss v c.
Proof.
  intros C Hv. pose proof (served_gate _ _ C Hv) as Hg. pose proof (confined_stack _ C) as Hs.
  destruct C as [C1 C2 C3 C4 C5 C6 C6' C7 C8 C9 C10 C11]. split; rewrite ?Hs; try done.
  - by right.
  - by eexists.
  - unfold apart in stack_apart. rewrite Forall_forall in stack_apart. apply (stack_apart (gdt, 104)), protected_gdt.
Qed.

(** [int 0x80] takes its gate, every other [int] is refused. *)
Lemma confined_int c next : confined c -> int_n idt tss 128 next c = deliver idt tss 128 0 (set_rip next c).
Proof.
  intros C. unfold int_n, cpl. rewrite (cf_gates _ C), (cf_mode _ C), (proj1 (cf_user _ C)) by lia. done.
Qed.
Lemma confined_int_refused c v next : confined c -> 0 <= v < 256 -> v <> 128 -> int_n idt tss v next c = None.
Proof.
  intros C Hv Hn. unfold int_n, cpl. rewrite (cf_gates _ C), (cf_mode _ C), (proj1 (cf_user _ C)) by done.
  rewrite (proj2 (Z.eqb_neq v 128)) by done. rewrite orb_false_r. by destruct (v <? 34).
Qed.

Lemma served_confined v error c c2 c3 c4 :
  confined c -> served v error c c2 c3 c4 -> confined c4.
Proof.
  intros C (D & A & [K1 K2] & R & S). rewrite (confined_stack _ C) in D. destruct S as [S1 S2 S3 S4 S5 S6 S7 S8].
  apply (confined_kept c); try done.
  - rewrite S6. eapply kept_trans; [|exact K1]. apply (kept_apart _ (kstack - 184) 184); [done|].
    intros x Hx. destruct (decide (kstack - 184 <= x < kstack)) as [|Hn]; [lia|]. exfalso. apply Hx.
    apply (di_ram _ _ _ _ _ _ _ _ D). rewrite (confined_stack _ C). lia.
  - rewrite S8, K2. apply (di_ctl _ _ _ _ _ _ _ _ D).
  - destruct (cf_user _ C) as [H1 H2]. split; congruence.
  - intros r. rewrite S5. apply (cf_regs _ C).
  - rewrite S1. apply (cf_rip _ C).
  - rewrite S2. apply (cf_flags _ C).
  - rewrite S2. apply (cf_if _ C).
  - rewrite S2. apply (cf_iopl _ C).
Qed.

Lemma ustep_confined c c' : ustep c c' -> confined c -> confined c'.
Proof.
  intros [c1 U|v error c1 c2 c3 c4 Hv He E R S|next c1 c2 c3 c4 Hn E R S] C.
  - by apply (user_insn_confined c).
  - by eapply served_confined.
  - eapply served_confined; [|exact S]. by apply confined_set_rip.
Qed.

Lemma usteps_confined c c' : rtc ustep c c' -> confined c -> confined c'.
Proof. induction 1 as [|c1 c2 c3 H _ IH]; [done|]. intros C. by apply IH, (ustep_confined c1). Qed.

Context (isr_common_stub : Z).
Context (code_ok : loaded code (isr_blocks isr isr_common_stub back dispatch)).
Context (common_ok : 0 <= isr_common_stub < 2 ^ 64) (dispatch_ok : 0 <= dispatch < 2 ^ 64)
        (back_ok : 0 <= back < 2 ^ 64).

(** From a confined process every served vector reaches the dispatcher, and the process
    goes on where it was. *)
Lemma confined_served v error c :
  confined c -> served_vector v -> 0 <= error < 2 ^ 64 ->
  exists c1 c2, deliver idt tss v error c = Some c1 /\ reaches code c1 c2 /\
    dispatching back dispatch tss v error c c2 (kstack - 176) /\
    forall c3, abi_return kstack c2 c3 -> kernel_keeps c2 c3 ->
      exists c4, served v error c c2 c3 c4.
Proof.
  intros C Hv He. pose proof (confined_interruptible v c C Hv) as Hi. pose proof (confined_stack _ C) as Hs.
  destruct (isr_entry_run code isr isr_common_stub back dispatch idt gdt tss code_ok
    common_ok dispatch_ok back_ok v error _ Hi He) as (c1 & c2 & E & R & D).
  rewrite Hs in D. exists c1, c2. split_and!; try done. intros c3 A K.
  pose proof D as [D1 D2 D3 D4 D5 D6 D7 D8 D9 D10 D11]. rewrite Hs in D6.
  pose proof A as [A1 A2 A3 A4 A5 A6 A7]. pose proof K as [K1 K2]. pose proof K2 as K3. rewrite D11 in K3. injection K3 as _ K3 _ K4 K5.
  assert (kernel_gdt gdt c3) as Hg.
  { apply (kernel_gdt_ext _ c); [done|done| |apply (cf_gdt _ C)]. intros x Hx.
    assert (same_on gdt (gdt + 104) (ram c2) (ram c3)) as Hg by apply (kept_in _ _ _ _ _ K1), protected_gdt.
    rewrite <- Hg by lia. apply D6. pose proof (ir_apart _ _ _ _ _ _ Hi) as Ha. rewrite Hs in Ha.
    unfold disjoint_range in Ha. lia. }
  destruct (isr_return_run code isr isr_common_stub back dispatch gdt code_ok v (error_word v error) c c3
    (kstack - 176)) as (c4 & R4 & H1 & H2 & H3 & H4 & H5 & H6 & H7 & H8);
    [right; apply (cf_user _ C)|congruence|congruence|done|congruence|lia|lia|lia| |].
  - apply (words_ext (ram c2)); [|done]. intros x Hx.
    unfold frame_words in Hx. rewrite length_app, length_reverse, length_fmap in Hx. cbn in Hx. apply A5. lia.
  - exists c4. unfold served. rewrite Hs. split; [done|]. split; [done|]. split; [done|]. split; [done|]. by split.
Qed.
End Ring3.

(** ** The process of create_user_process *)

Section Process.
Context {F : Type} {FO : FrameSourceOps F} {FS : FrameSource F}.
Context (frame_pool : Z) (idt gdt tss : Z).

Lemma user_own K f4 f3 fc fs fd ft va t :
  0 <= va < 2 ^ 48 -> sp_xlat (user_space K f4 f3 fc fs fd ft) va = Some t -> x_user t = true ->
  exists f, f ∈ [fc; fs] /\ f <= x_pa t < f + 4096.
Proof.
  intros Hva Hx Hu. destruct (Z.eqb_spec (va / 2 ^ 30) 1) as [H1|H1].
  - by eapply user_private.
  - cbn [sp_xlat user_space] in Hx. unfold private_xlat in Hx. rewrite (proj2 (Z.eqb_neq _ _) H1) in Hx.
    unfold kernel_xlat in Hx. repeat case_match; simplify_eq.
Qed.

Lemma process_tables (p : paging F) pds K f4 f3 fc fs fd ft rest :
  kmap frame_pool p pds K ->
  avail frame_pool p = [f4; f3; fc; fs; fd; ft] ++ rest -> Forall frame_ok [f4; f3; fc; fs; fd; ft] ->
  Forall (fun t => t mod 4096 = 0) (sp_tables (user_space K f4 f3 fc fs fd ft) ++ pds.*2).
Proof.
  intros Hk V Hok. destruct (kmap_fresh_frames _ _ _ _ _ _ Hk V) as (_ & _ & _ & Hpd).
  apply Forall_app. split; apply Forall_forall.
  - intros b Hb. rewrite Forall_forall in Hok. apply Hok. change (b ∈ [f4; f3; fd; ft]) in Hb.
    rewrite !elem_of_cons, elem_of_nil in Hb. rewrite !elem_of_cons. tauto.
  - intros b ([i b'] & -> & Hin)%list_elem_of_fmap. by destruct (Hpd i b' Hin).
Qed.

(** The frames of the process hold none of the tables. *)
Lemma process_apart (p : paging F) pds K f4 f3 fc fs fd ft rest :
  let s := user_space K f4 f3 fc fs fd ft in
  kmap frame_pool p pds K ->
  avail frame_pool p = [f4; f3; fc; fs; fd; ft] ++ rest -> Forall frame_ok [f4; f3; fc; fs; fd; ft] ->
  Forall (fun f => apart [(gdt, 104); (idt, 4096); (tss + tss_rsp0, 8)] f 4096) [fc; fs] ->
  Forall (fun t => t mod 4096 = 0) (sp_tables s ++ pds.*2) /\
  Forall (fun f => apart (protected idt gdt tss s (pds.*2)) f 4096) [fc; fs].
Proof.
  intros s Hk V Hok Hown. destruct (kmap_fresh_frames _ _ _ _ _ _ Hk V) as (Hnd & _ & _ & Hpd).
  assert (forall f, f ∈ [f4; f3; fc; fs; fd; ft] -> f mod 4096 = 0) as Hal.
  { intros f Hf. rewrite Forall_forall in Hok. by apply Hok. }
  pose proof (process_tables p pds K f4 f3 fc fs fd ft rest Hk V Hok) as Hat. fold s in Hat.
  split; [done|]. rewrite Forall_forall in Hown, Hat. apply Forall_forall. intros f Hf.
  assert (f ∈ [f4; f3; fc; fs; fd; ft]) as Hf6 by (rewrite !elem_of_cons, elem_of_nil in Hf; rewrite !elem_of_cons; tauto).
  unfold apart, protected. apply Forall_app. split; [|by apply Hown]. apply Forall_fmap, Forall_forall. intros b Hb.
  assert (f <> b) as Hne.
  { apply elem_of_app in Hb as [Hb|Hb].
    - change (b ∈ [f4; f3; fd; ft]) in Hb. clear - Hnd Hf Hb. rewrite !elem_of_cons, elem_of_nil in Hf. rewrite !elem_of_cons, elem_of_nil in Hb. nodup_facts Hnd.
      destruct Hf as [->|[->|[]]], Hb as [->|[->|[->|[->|[]]]]]; congruence.
    - apply list_elem_of_fmap in Hb as ([i b'] & -> & Hin). intros ->. by apply (Hpd i b' Hin). }
  destruct (frames_apart_z f b (Hal f Hf6) (Hat b Hb) Hne); unfold disjoint_range; cbn; lia.
Qed.

Context (isr : Z -> Z) (sp0 : Z).

(** The kernel, in the address space of the process, about to call [enter_usermode]:
    the tables are those in memory [m], the descriptor tables those of [gdt_init] and
    [idt_init]. *)
Record before_ring3 (prot : list (Z * Z)) (tables : list Z) (m : mem) (cr3 : Z) (c : cpu) : Prop := {
  br_mode : cmode c = Long64;
  br_cs : seg c CS = SEL_KCODE;
  br_regs : regs64 c;
  br_stack : 48 <= gpr c RSP;
  br_apart : apart prot (gpr c RSP - 40) 40;
  br_cr3 : c_cr3 c = cr3;
  br_gdt : kernel_gdt gdt c;
  br_gates : idt_gates_ok isr idt (ram c);
  br_sp0 : load64 (ram c) (tss + tss_rsp0) = sp0;
  br_tables : kept ((fun t => (t, 4096)) <$> tables) m (ram c)
}.

(** [enter_usermode] makes a confined process. *)
Lemma enter_confined nxt m s shared c :
  let prot := protected idt gdt tss s shared in
  before_ring3 prot (sp_tables s ++ shared) m (sp_cr3 s) c -> space_ok m shared s ->
  Forall (fun t => t mod 4096 = 0) (sp_tables s ++ shared) ->
  exists c0, exec enter_usermode_code nxt c = Some c0 /\ rip c0 = gpr c RDI /\ gpr c0 RSP = gpr c RSI /\
    flags c0 = 0x202 /\ confined isr idt gdt tss sp0 s shared c0 /\
    (forall x, ~ (gpr c RSP - 40 <= x < gpr c RSP) -> ram c0 x = ram c x).
Proof.
  intros prot [B1 B2 B3 B4 B5 B6 B7 B8 B9 B10] Hs Hal.
  destruct (enter_usermode_correct gdt nxt c) as (c0 & E & H1 & H2 & H3 & H4 & H5 & H6 & H7 & H8 & H9 & H10 & H11 & H12);
    [done..| |].
  { unfold apart in B5. rewrite Forall_forall in B5. apply (B5 (gdt, 104)), protected_gdt. }
  exists c0. split_and!; try done.
  assert (kept prot (ram c) (ram c0)) as Hk.
  { apply (kept_apart _ (gpr c RSP - 40) 40); [done|]. intros x Hx.
    destruct (decide (gpr c RSP - 40 <= x < gpr c RSP)) as [|Hn]; [lia|]. exfalso. apply Hx. by apply H12. }
  split; try done.
  - by rewrite H1.
  - by rewrite H3.
  - by rewrite H3.
  - by rewrite H3.
  - congruence.
  - intros v Hv. rewrite <- (B8 v Hv). symmetry. apply decode_gate_ext. intros x Hx.
    apply (kept_in _ _ _ _ _ Hk (protected_idt idt gdt tss s shared)). lia.
  - rewrite <- B9. symmetry. apply (load_same_on _ _ 8 _ _ _ (kept_in _ _ _ _ _ Hk (protected_rsp0 idt gdt tss s shared))); lia.
  - intros va Hva. destruct (Hs va Hva) as [Hw Hv].
    destruct (walk_frame m (ram c0) (sp_cr3 s) va) as [-> ->]; [|done].
    intros t Ht%Hv. eapply same_on_trans.
    + apply (kept_in _ _ _ _ _ B10). apply list_elem_of_fmap. by exists t.
    + by apply (kept_in _ _ _ _ _ Hk), protected_table.
Qed.

Context (code : Z -> option block) (isr_common_stub back dispatch : Z).
Context (code_ok : loaded code (isr_blocks isr isr_common_stub back dispatch)).
Context (common_ok : 0 <= isr_common_stub < 2 ^ 64) (dispatch_ok : 0 <= dispatch < 2 ^ 64)
        (back_ok : 0 <= back < 2 ^ 64).

(** C11: the process that [create_user_process] built is entered by [enter_usermode] at
    the address and on the stack it is called with.  Whatever its code does from then on,
    through any sequence of its instructions, interrupts and system calls: it stays in
    ring 3 with interrupts on and its page tables, which translate as they were built; its
    instructions change no byte outside of the two frames it was given; every [int] but
    [int 0x80] is refused; every interrupt and exception, and [int 0x80], reaches
    [interrupt_dispatch] on the ring-0 stack with the whole state of the process in the
    frame, and when the kernel has returned the process goes on as it was. *)
Theorem ring3_confined nxt (p p' : paging F) pds K f4 f3 fc fs fd ft rest t c :
  let s := user_space K f4 f3 fc fs fd ft in
  let prot := protected idt gdt tss s (pds.*2) in
  let step := ustep code back dispatch idt gdt tss s (pds.*2) in
  kmap frame_pool p pds K -> pd_of pds 1 = None ->
  avail frame_pool p = [f4; f3; fc; fs; fd; ft] ++ rest -> Forall frame_ok [f4; f3; fc; fs; fd; ft] ->
  create_user_process frame_pool p = Done f4 p' t ->
  Forall (fun f => apart [(gdt, 104); (idt, 4096); (tss + tss_rsp0, 8)] f 4096) [fc; fs] ->
  apart prot (kstack sp0 - 184) 184 -> 184 <= kstack sp0 <= 2 ^ 64 - 16 ->
  before_ring3 prot (sp_tables s ++ pds.*2) (p_mem p') f4 c ->
  exists c0, exec enter_usermode_code nxt c = Some c0 /\ rip c0 = gpr c RDI /\ gpr c0 RSP = gpr c RSI /\
    forall u, rtc step c0 u ->
      cpl u = 3 /\ Z.testbit (flags u) IF_BIT = true /\ c_cr3 u = f4 /\
      (forall va, 0 <= va < 2 ^ 48 -> walk (ram u) f4 va = walk (p_mem p') f4 va) /\
      (forall u', user_insn u u' -> only_frames [fc; fs] (ram u) (ram u')) /\
      (forall v next, 0 <= v < 256 -> v <> 128 -> int_n idt tss v next u = None) /\
      (forall next, int_n idt tss 128 next u = deliver idt tss 128 0 (set_rip next u)) /\
      forall v error next, served_vector v -> 0 <= error < 2 ^ 64 -> 0 <= next < 2 ^ 64 ->
        exists c1 c2, deliver idt tss v error (set_rip next u) = Some c1 /\ reaches code c1 c2 /\
          dispatching back dispatch tss v error (set_rip next u) c2 (kstack sp0 - 176) /\
          forall c3, abi_return (kstack sp0) c2 c3 -> kernel_keeps idt gdt tss s (pds.*2) c2 c3 ->
            exists c4, reaches code c3 c4 /\ resumed (set_rip next u) c3 c4 /\
              ((v = 128 /\ error = 0) \/ next = rip u -> step u c4).
Proof.
  intros s prot step Hk Hno V Hok E Hown Hst Hst' B.
  destruct (create_user_process_spec _ _ _ _ _ _ _ _ _ _ _ Hk Hno V Hok) as (q & E' & _ & _ & _ & Hs & _).
  rewrite E in E'. injection E' as <- _. fold s in Hs.
  destruct (process_apart p pds K f4 f3 fc fs fd ft rest Hk V Hok Hown) as [Haligned Hap]. fold s prot in Haligned, Hap.
  destruct (enter_confined nxt (p_mem p') s (pds.*2) c B Hs Haligned) as (c0 & E0 & R1 & R2 & R3 & C0 & _).
  exists c0. split_and!; [done..|]. intros u Hr.
  pose proof (user_own K f4 f3 fc fs fd ft) as Hu. fold s in Hu.
  assert (confined isr idt gdt tss sp0 s (pds.*2) u) as C by by eapply usteps_confined.
  clear Hr C0. pose proof (cf_mode _ _ _ _ _ _ _ _ C) as Hm.
  assert (cpl u = 3) as Hc by (unfold cpl; by rewrite Hm, (proj1 (cf_user _ _ _ _ _ _ _ _ C))).
  split_and!.
  - done.
  - apply C.
  - apply C.
  - intros va Hva. etransitivity; [apply (proj1 (cf_space _ _ _ _ _ _ _ _ C va Hva))|symmetry; apply (proj1 (Hs va Hva))].
  - intros u' U. by eapply user_insn_own.
  - intros v next Hv Hn. by apply (confined_int_refused _ _ _ _ _ _ _ _ v next C).
  - intros next. by apply (confined_int _ _ _ _ _ _ _ _ next C).
  - intros v error next Hv He Hn.
    destruct (confined_served code isr back dispatch idt gdt tss sp0
      s (pds.*2) Hst Hst' isr_common_stub code_ok common_ok dispatch_ok back_ok v error (set_rip next u)) as (c1 & c2 & D1 & D2 & D3 & D4); [by apply confined_set_rip|done..|].
    exists c1, c2. split_and!; try done. intros c3 A Kk. destruct (D4 c3 A Kk) as (c4 & S).
    pose proof S as (_ & _ & _ & S1 & S2). exists c4. split_and!; try done. intros [[-> ->]| ->].
    + eapply us_syscall; [exact Hn| |exact D2|exact S]. rewrite <- D1. by apply (confined_int _ _ _ _ _ _ _ _ next C).
    + assert (set_rip (rip u) u = u) as Eu by (by destruct u). rewrite Eu in D1, S. exact (us_interrupt _ _ _ _ _ _ _ _ _ _ _ _ _ _ _ Hv He D1 D2 S).
Qed.
End Process.

(** ** A process in the demo tables

    The tables of [Usermode.demo_gates] are below 2 MB, the pool of frames is at 4 MB. *)

Definition demo_mem (p : paging memmap) : mem := fun x => if x <? 0x200000 then demo_gates x else p_mem p x.
Definition demo_caller (p : paging memmap) : cpu := put_cr3 0x403000 (set_ram (demo_mem p) demo_kernel).

Lemma demo_mem_low p x : x < 0x200000 -> demo_mem p x = demo_gates x.
Proof. intros H. unfold demo_mem. by rewrite (proj2 (Z.ltb_lt _ _)). Qed.
Lemma demo_mem_high p x : 0x200000 <= x -> demo_mem p x = p_mem p x.
Proof. intros H. unfold demo_mem. by rewrite (proj2 (Z.ltb_ge _ _)). Qed.

Definition demo_process : space := user_space identity_1gb 0x403000 0x404000 0x405000 0x406000 0x407000 0x408000.
Definition demo_prot : list (Z * Z) := protected 0x120000 0x3000 0x4000 demo_process [0x402000].

Lemma demo_apart a n : a + n <= 0x120000 -> 0x8E00 <= a -> apart demo_prot a n.
Proof.
  intros H1 H2. unfold apart, demo_prot, protected. cbn [sp_tables demo_process user_space app fmap list_fmap].
  change tss_rsp0 with 4. rewrite !Forall_cons. unfold disjoint_range. cbn [fst snd]. split_and!; try lia. constructor.
Qed.

Lemma demo_before p : before_ring3 0x120000 0x3000 0x4000 demo_isr 0x9000 demo_prot
  (sp_tables demo_process ++ [0x402000]) (p_mem p) 0x403000 (demo_caller p).
Proof.
  destruct demo_gates_ok as [Hg Hm]. split.
  - reflexivity.
  - reflexivity.
  - intros r. destruct r; cbn; lia.
  - cbn. lia.
  - apply demo_apart; cbn; lia.
  - reflexivity.
  - refine (proj2 (demo_gdt (demo_caller p) (demo_mem p) _) _); [|split; reflexivity].
    intros x Hx. rewrite demo_mem_low by lia. apply Hm. lia.
  - intros v Hv. rewrite <- (Hg v Hv). apply decode_gate_ext. intros x Hx. apply demo_mem_low. lia.
  - cbn [demo_caller put_cr3 set_ram ram]. change (0x4000 + tss_rsp0) with 0x4004.
    rewrite (load_ext 8 _ demo_tables); [vm_compute; reflexivity|]. intros x Hx. rewrite demo_mem_low by lia. apply Hm. lia.
  - apply Forall_fmap, Forall_forall. intros t Ht x Hx. cbn [fst snd] in Hx. symmetry. apply demo_mem_high.
    change (t ∈ [0x403000; 0x404000; 0x407000; 0x408000; 0x402000]) in Ht.
    rewrite !elem_of_cons, elem_of_nil in Ht. lia.
Qed.

Lemma demo_process_created : exists (p p' : paging memmap) rest,
  kmap demo_pool p [(0, 0x402000)] identity_1gb /\
  avail demo_pool p = [0x403000; 0x404000; 0x405000; 0x406000; 0x407000; 0x408000] ++ rest /\
  Forall frame_ok [0x403000; 0x404000; 0x405000; 0x406000; 0x407000; 0x408000] /\
  create_user_process demo_pool p = Done 0x403000 p' [] /\ space_ok (p_mem p') [0x402000] demo_process.
Proof.
  destruct demo_after_init as (p & Hk & V).
  assert (Forall frame_ok [0x403000; 0x404000; 0x405000; 0x406000; 0x407000; 0x408000]) as Hok
    by (apply (demo_frames_ok [3; 4; 5; 6; 7; 8]); by repeat constructor).
  assert (avail demo_pool p = [0x403000; 0x404000; 0x405000; 0x406000; 0x407000; 0x408000] ++
    ((fun k => demo_pool + 4096 * k) <$> seqZ 9 55)) as V' by (rewrite V; reflexivity).
  destruct (create_user_process_spec demo_pool p _ _ _ _ _ _ _ _ _ Hk eq_refl V' Hok)
    as (p' & E & _ & _ & _ & Hs & _).
  by exists p, p', ((fun k => demo_pool + 4096 * k) <$> seqZ 9 55).
Qed.

Lemma ring3_confined_witness : exists (p' : paging memmap) c0 c1 c2,
  exec enter_usermode_code 0 (demo_caller p') = Some c0 /\ rip c0 = 0x50000000 /\ cpl c0 = 3 /\
  walk (ram c0) 0x403000 0x100000 = Some (mkXlat 0x100000 true false false) /\
  (forall u, user_insn c0 u -> ram u 0x3008 = ram c0 0x3008) /\
  int_n 0x120000 0x4000 13 0x50000002 c0 = None /\
  int_n 0x120000 0x4000 128 0x50000002 c0 = Some c1 /\ reaches (program demo_isr_blocks) c1 c2 /\ rip c2 = 0x103000.
Proof.
  destruct demo_process_created as (p & p' & rest & Hk & V & Hok & E & Hs).
  destruct (ring3_confined demo_pool 0x120000 0x3000 0x4000 demo_isr 0x9000
    (program demo_isr_blocks) 0x102000 0x102040 0x103000 demo_isr_loaded ltac:(lia) ltac:(lia) ltac:(lia) 0 p p' _ _ _ _ _ _ _ _ _ _ (demo_caller p')
    Hk eq_refl V Hok E) as (c0 & E0 & R0 & _ & H).
  - rewrite !Forall_cons. unfold apart. rewrite !Forall_cons. unfold disjoint_range. cbn [fst snd]. change tss_rsp0 with 4.
    split_and!; try lia; constructor.
  - change (kstack 0x9000) with 0x9000. apply demo_apart; lia.
  - change (kstack 0x9000) with 0x9000. lia.
  - apply demo_before.
  - destruct (H c0 (rtc_refl _ _)) as (H1 & _ & _ & H2 & H3 & H4 & H5 & H6).
    destruct (H6 128 0 0x50000002) as (c1 & c2 & D & R & [D1 _ _ _ _ _ _ _ _ _ _] & _); [|lia|lia|].
    { split; apply (bool_decide_unpack _); vm_compute; exact I. }
    exists p', c0, c1, c2. split; [exact E0|]. split; [exact R0|]. split; [exact H1|]. split_and!.
    + rewrite H2 by lia. apply (proj1 (Hs 0x100000 ltac:(lia))).
    + intros u Hu. apply (H3 u Hu). intros f Hf. rewrite !elem_of_cons, elem_of_nil in Hf. lia.
    + apply H4; lia.
    + rewrite H5. exact D.
    + exact R.
    + exact D1.
Defined.
