(* ===== verification/UserProgram.v ===== *)
(** * The ring-3 program

    [Paging.user_program], the bytes that [create_user_process] copies into the code page,
    fetched through the page walk and executed: a loop of system calls, run together with
    the gates, the stubs of [Isr] and [interrupt_dispatch], and interrupted at any point. *)

From stdpp Require Import relations.
From S2P Require Import Prelude Memory Machine X86 X86Stack X86Run.
From S2P Require Import FrameSource Paging PagingSpec PagingProof PagingSpaces PagingUser Memmap MemmapProof MemmapTheorems PagingTheorems.
From S2P Require Import Gdt64 Gdt64Theorems Idt IdtTheorems Isr Usermode Ring3.
From S2P Require Import KernLock NKern NKernSmp AddressSpaces Sched64 Keyboard Acpi Apic.

(** ** Machine code

    The instructions of the program (Intel SDM vol. 2): [mov r32, imm32], [int imm8],
    [jmp rel8]. *)

Inductive uinsn := UMov (r : reg) (v : Z) | UInt (v : Z) | UJmp (d : Z).

Definition mov_reg (n : Z) : option reg := [RAX; RCX; RDX; RBX; RSP; RBP; RSI; RDI] !! Z.to_nat n.

(** The instruction whose bytes [byte] gives, and its length. *)
Definition decode_insn (byte : Z -> option Z) : option (uinsn * Z) :=
  op ← byte 0;
  if (0xB8 <=? op) && (op <=? 0xBF) then
    r ← mov_reg (op - 0xB8);
    b1 ← byte 1; b2 ← byte 2; b3 ← byte 3; b4 ← byte 4;
    Some (UMov r (b1 + 2 ^ 8 * b2 + 2 ^ 16 * b3 + 2 ^ 24 * b4), 5)
  else if op =? 0xCD then b1 ← byte 1; Some (UInt b1, 2)
  else if op =? 0xEB then b1 ← byte 1; Some (UJmp (signed 1 b1), 2)
  else None.

(** Instructions are fetched from pages for users. *)
Definition fetch (c : cpu) (va : Z) : option Z :=
  t ← walk (ram c) (c_cr3 c) va;
  if x_user t then Some (load8 (ram c) (x_pa t)) else None.

Definition user_code (c : cpu) : option (uinsn * Z) := decode_insn (fun i => fetch c (rip c + i)).

(** An instruction that stays in ring 3. *)
Definition user_step (c : cpu) : option cpu :=
  match user_code c with
  | Some (UMov r v, n) => Some (set_rip (rip c + n) (set_gpr r v c))
  | Some (UJmp d, n) => Some (set_rip (wrap Long64 (rip c + n + d)) c)
  | _ => None
  end.

(** ** Answering calls *)

Section Calls.
Context {F : Type} {FO : FrameSourceOps F} {FS : FrameSource F}.
Context (back dispatch tss : Z) (cpu_id : nat).

(** The kernel's data over the memory of the processor. *)
Definition kmem (m : mem) (k : kernel F) : kernel F :=
  set_ksched (set_space (with_mem (s_space (k_sched k)) m) (k_sched k)) k.

(** [n] calls answered. *)
Record counted (n : nat) (t : list event) (k : kernel F) : Prop := {
  ct_count : call_count k = Z.of_nat n;
  ct_shown : shown k = (0 <? n)%nat;
  ct_calls : count_event CALL_MSG t = (Z.of_nat n + 299999) / 300000;
  ct_ring3 : count_event RING3_MSG t = if (0 <? n)%nat then 1 else 0
}.

(** The dispatcher answers the call. *)
Lemma call_answered scancode n t k c c2 :
  dispatching back dispatch tss 128 0 c c2 (stack_for tss c - 176) -> in_user c -> gpr c RAX = 1 ->
  counted n t k -> Z.of_nat (S n) < 2 ^ 32 ->
  exists k' t', interrupt_dispatch cpu_id scancode (gpr c2 RDI) (kmem (ram c2) k) = Done tt k' t' /\
    counted (S n) (t ++ t') k'.
Proof.
  intros [D1 D2 D3 D4 D5 D6 D7 D8 D9 D10 D11] Hu Ha [N1 N2 N3 N4] Hn.
  assert (forall (i : nat) v, frame_words 128 0 c !! i = Some v -> load64 (ram c2) (gpr c2 RDI + 8 * Z.of_nat i) = v)
    as Hw by (intros i v; rewrite D2; by apply words_lookup).
  destruct (syscall_run (ram c2) (gpr c2 RDI) (kmem (ram c2) k)) as (k' & t' & E & _ & _ & C & Sh & P & R);
    [etransitivity; [by apply (Hw 14%nat (gpr c RAX))|done]|cbn [call_count kmem set_ksched]; lia|].
  assert (Z.land (f_cs (ram c2) (gpr c2 RDI)) 3 =? 3 = true) as Hr3.
  { replace (f_cs (ram c2) (gpr c2 RDI)) with (seg c CS) by (symmetry; by apply (Hw 18%nat)). by rewrite (proj1 Hu). }
  rewrite Hr3 in Sh, R. rewrite orb_true_r in Sh. cbn [andb] in R.
  change (call_count (kmem (ram c2) k)) with (call_count k) in C, P.
  change (shown (kmem (ram c2) k)) with (shown k) in R.
  exists k', t'. rewrite dispatch_128 by (by apply (Hw 15%nat)). split; [exact E|]. split.
  - rewrite C, N1. lia.
  - by rewrite Sh.
  - rewrite count_event_app, P, N3, N1. destruct (Z.eqb_spec (Z.of_nat n mod 300000) 0); dlia.
  - rewrite count_event_app, R, N4, N2. by destruct n.
Qed.

End Calls.

(** ** The process *)

Section Program.
Context {F : Type} {FO : FrameSourceOps F} {FS : FrameSource F}.
Context (code : Z -> option block).
Context (isr : Z -> Z) (back dispatch idt gdt tss sp0 : Z).
Context (K : Z -> Z) (f4 f3 fc fs fd ft : Z) (shared : list Z) (cpu_id : nat).

Definition proc : space := user_space K f4 f3 fc fs fd ft.
Context (stack_apart : apart ((fc, 4096) :: protected idt gdt tss proc shared) (kstack sp0 - 184) 184).

Definition program_in (m : mem) : Prop :=
  forall i b, user_program !! i = Some b -> load8 m (fc + Z.of_nat i) = b.

(** Where the program can be: before one of its four instructions, the registers loaded
    that the instructions before it load. *)
Definition points : list Z := [0; 5; 10; 12].

Record program_at (i : Z) (c : cpu) : Prop := {
  pa_point : i ∈ points;
  pa_conf : confined isr idt gdt tss sp0 proc shared c;
  pa_code : program_in (ram c);
  pa_rip : rip c = USER_CODE_VA + i;
  pa_rsp : gpr c RSP = USER_STACK_TOP;
  pa_rax : 5 <= i -> gpr c RAX = 1;
  pa_rdi : 10 <= i -> gpr c RDI = 0x58
}.

Lemma fetch_code c x :
  confined isr idt gdt tss sp0 proc shared c -> 0 <= x < 4096 ->
  fetch c (USER_CODE_VA + x) = Some (load8 (ram c) (fc + x)).
Proof.
  intros C Hx. unfold fetch. rewrite (cf_cr3 _ _ _ _ _ _ _ _ C).
  rewrite (proj1 (cf_space _ _ _ _ _ _ _ _ C (USER_CODE_VA + x) ltac:(unfold USER_CODE_VA; lia))).
  cbn [sp_xlat proc user_space]. unfold private_xlat, user_page.
  assert ((USER_CODE_VA + x) / 2 ^ 30 = 1 /\ (USER_CODE_VA + x) / 2 ^ 12 = USER_CODE_VA / 2 ^ 12 /\
          (USER_CODE_VA + x) mod 2 ^ 12 = x) as (-> & -> & ->) by (unfold USER_CODE_VA; split_and!; dlia).
  rewrite !Z.eqb_refl. reflexivity.
Qed.

Lemma fetch_program i c j b :
  program_at i c -> user_program !! Z.to_nat (i + j) = Some b -> 0 <= i + j -> fetch c (rip c + j) = Some b.
Proof.
  intros P Hb Hj. pose proof (lookup_lt_Some _ _ _ Hb) as Hl. cbn in Hl.
  rewrite (pa_rip _ _ P). replace (USER_CODE_VA + i + j) with (USER_CODE_VA + (i + j)) by lia.
  rewrite fetch_code by (try apply (pa_conf _ _ P); lia). f_equal.
  rewrite <- (pa_code _ _ P _ _ Hb). do 2 f_equal. lia.
Qed.

(** What the bytes at the four points decode to. *)
Definition insn_at (i : Z) : uinsn * Z :=
  if i =? 0 then (UMov RAX 1, 5) else if i =? 5 then (UMov RDI 0x58, 5)
  else if i =? 10 then (UInt 0x80, 2) else (UJmp (-4), 2).

Lemma program_code i c : program_at i c -> user_code c = Some (insn_at i).
Proof.
  intros P. pose proof (pa_point _ _ P) as Hi. unfold user_code, decode_insn.
  pose proof (fun j b => fetch_program i c j b P) as Hf. clear P.
  unfold points in Hi. rewrite !elem_of_cons, elem_of_nil in Hi. destruct Hi as [->|[->|[->|[->|[]]]]];
    rewrite ?(Hf 0 _ eq_refl ltac:(lia)); cbn [option_bind mbind Z.leb Z.compare Pos.compare Pos.compare_cont andb];
    cbn; rewrite ?(Hf 1 _ eq_refl ltac:(lia)); cbn;
    rewrite ?(Hf 2 _ eq_refl ltac:(lia)), ?(Hf 3 _ eq_refl ltac:(lia)), ?(Hf 4 _ eq_refl ltac:(lia)); reflexivity.
Qed.

(** The next point. *)
Definition after (i : Z) : Z := if i =? 0 then 5 else if i =? 5 then 10 else if i =? 10 then 12 else 10.

Lemma after_point i : i ∈ points -> after i ∈ points.
Proof.
  unfold points. intros H. rewrite !elem_of_cons, elem_of_nil in H.
  destruct H as [->|[->|[->|[->|[]]]]]; apply (bool_decide_unpack _); vm_compute; exact I.
Qed.

(** The other instructions only touch registers. *)
Lemma quiet_insn c c' :
  regs64 c' -> 0 <= rip c' < 2 ^ 64 -> flags c' = flags c -> seg c' = seg c -> cmode c' = cmode c -> ctl c' = ctl c ->
  ram c' = ram c -> 0 <= flags c < 2 ^ 64 -> user_insn c c'.
Proof. intros H1 H2 H3 H4 H5 H6 H7 H8. split; rewrite ?H3, ?H4, ?H7; done. Qed.

Lemma program_user_step i c : program_at i c -> i <> 10 ->
  exists c', user_step c = Some c' /\ user_insn c c' /\ program_at (after i) c'.
Proof.
  intros P Hne. pose proof (program_code i c P) as E. unfold user_step. rewrite E. clear E.
  destruct P as [P1 P2 P3 P4 P5 P6 P7]. pose proof (after_point i P1) as Ha. pose proof P2 as C.
  destruct P2 as [C1 C2 C3 C4 C5 C6 C7 C8 C9 C10 C11 C12].
  assert (forall r v a, 0 <= v < 2 ^ 64 -> 0 <= a < 2 ^ 64 ->
    user_insn c (set_rip a (set_gpr r v c)) /\ confined isr idt gdt tss sp0 proc shared (set_rip a (set_gpr r v c))) as Hq.
  { intros r v a Hv Hr. assert (regs64 (set_rip a (set_gpr r v c))) as R.
    { intros r'. cbn [set_rip set_gpr gpr]. destruct (reg_eqb r r'); [done|apply C3]. }
    split; [by apply quiet_insn|]. apply (confined_kept _ _ _ _ _ _ _ c); try done. apply kept_refl. }
  unfold points in P1. rewrite !elem_of_cons, elem_of_nil in P1.
  destruct P1 as [->|[->|[->|[->|[]]]]]; [| |done|]; cbn [insn_at Z.eqb Pos.eqb]; rewrite P4; unfold USER_CODE_VA in *.
  - destruct (Hq RAX 1 (0x50000000 + 0 + 5) ltac:(lia) ltac:(lia)) as [U C']. eexists. split; [reflexivity|]. split; [done|].
    split; try done; cbn [after Z.eqb Pos.eqb]; intros; lia.
  - destruct (Hq RDI 0x58 (0x50000000 + 5 + 5) ltac:(lia) ltac:(lia)) as [U C']. eexists. split; [reflexivity|]. split; [done|].
    split; try done. intros _. change (gpr c RAX = 1). apply P6. lia.
  - rewrite wrap64 by lia. eexists. split; [reflexivity|]. split.
    + apply quiet_insn; try done.
    + split; try done; [apply confined_set_rip; [done|lia]|intros _; by apply P7].
Qed.

(** While the kernel works for the process it keeps the code page, too. *)
Definition keeps_program (c2 c3 : cpu) : Prop :=
  kernel_keeps idt gdt tss proc shared c2 c3 /\ same_on fc (fc + 4096) (ram c2) (ram c3).

(** Back from the kernel the program is where it was, or behind its [int]. *)
Lemma program_served v error i j c c2 c3 c4 :
  program_at i c -> j ∈ points -> (j = i \/ i = 10 /\ j = 12) ->
  served code back dispatch idt gdt tss proc shared v error (set_rip (USER_CODE_VA + j) c) c2 c3 c4 ->
  same_on fc (fc + 4096) (ram c2) (ram c3) -> program_at j c4.
Proof.
  intros [P1 P2 P3 P4 P5 P6 P7] Hj Hij S Hc. pose proof S as (D & _ & _ & _ & [S1 S2 S3 S4 S5 S6 S7 S8]).
  assert (0 <= USER_CODE_VA + j < 2 ^ 64) as Hb.
  { unfold points in Hj. rewrite !elem_of_cons, elem_of_nil in Hj. unfold USER_CODE_VA. lia. }
  pose proof (confined_set_rip _ _ _ _ _ _ _ _ _ P2 Hb) as C.
  pose proof (confined_stack _ _ _ _ _ _ _ _ C) as Hs. apply Forall_cons in stack_apart as [Hfc Hap].
  split; try done.
  - by eapply (served_confined code isr back dispatch idt gdt tss sp0).
  - intros k b Hk. rewrite <- (P3 k b Hk). rewrite S6. apply load_ext. intros x Hx.
    pose proof (lookup_lt_Some _ _ _ Hk) as Hl. cbn in Hl. rewrite <- (Hc x) by lia.
    apply (di_ram _ _ _ _ _ _ _ _ D). rewrite Hs. unfold disjoint_range in Hfc. cbn [fst snd] in Hfc. lia.
  - by rewrite S5.
  - intros Hj5. rewrite S5. apply P6. lia.
  - intros Hj10. rewrite S5. apply P7. lia.
Qed.

(** ** The process and the kernel together *)

(** From state [c0], [k0]: the executions in which the program has made [n] system calls,
    which the kernel answered with output [t].  Interrupts come anywhere; of the kernel's
    data they leave the two counters of the handler alone. *)
Inductive run (c0 : cpu) (k0 : kernel F) : nat -> list event -> cpu -> kernel F -> Prop :=
| run_start : run c0 k0 0 [] c0 k0
| run_user n t c k c' : run c0 k0 n t c k -> user_step c = Some c' -> run c0 k0 n t c' k
| run_call n t c k v a c1 c2 scancode k' t' c3 c4 :
    run c0 k0 n t c k -> user_code c = Some (UInt v, a) ->
    int_n idt tss v (rip c + a) c = Some c1 -> reaches code c1 c2 ->
    interrupt_dispatch cpu_id scancode (gpr c2 RDI) (kmem (ram c2) k) = Done tt k' t' ->
    served code back dispatch idt gdt tss proc shared v 0 (set_rip (rip c + a) c) c2 c3 c4 ->
    keeps_program c2 c3 -> run c0 k0 (S n) (t ++ t') c4 k'
| run_interrupt n t c k v error c1 c2 k' c3 c4 :
    run c0 k0 n t c k -> served_vector v -> deliver idt tss v error c = Some c1 -> reaches code c1 c2 ->
    served code back dispatch idt gdt tss proc shared v error c c2 c3 c4 -> keeps_program c2 c3 ->
    call_count k' = call_count k -> shown k' = shown k -> run c0 k0 n t c4 k'.

Lemma points_int i c v a : program_at i c -> user_code c = Some (UInt v, a) -> i = 10 /\ v = 128 /\ a = 2.
Proof.
  intros P E. rewrite (program_code i c P) in E. pose proof (pa_point _ _ P) as Hi. unfold points in Hi.
  rewrite !elem_of_cons, elem_of_nil in Hi.
  destruct Hi as [->|[->|[->|[->|[]]]]]; cbn in E; simplify_eq; done.
Qed.

(** Along every execution the program is at one of its points and its calls are counted. *)
Lemma run_inv c0 k0 n t c k :
  program_at 0 c0 -> call_count k0 = 0 -> shown k0 = false ->
  run c0 k0 n t c k -> Z.of_nat n < 2 ^ 32 -> (exists i, program_at i c) /\ counted n t k.
Proof.
  intros P0 Hc Hs. induction 1 as [|n t c k c' _ IH E|n t c k v a c1 c2 scancode k' t' c3 c4 _ IH Ec E R Ed S Kp
    |n t c k v error c1 c2 k' c3 c4 _ IH Hv E R S Kp Hk1 Hk2]; intros Hn.
  - split; [by exists 0|]. by split.
  - destruct (IH Hn) as [[i P] N]. split; [|done].
    destruct (decide (i = 10)) as [->|Hne].
    { unfold user_step in E. by rewrite (program_code 10 c P) in E. }
    destruct (program_user_step i c P Hne) as (c'' & E' & _ & P'). simplify_eq. by eexists.
  - destruct (IH ltac:(lia)) as [[i P] N]. destruct (points_int i c v a P Ec) as (-> & -> & ->). split.
    + exists 12. eapply (program_served 128 0 10 12 c); [done|by apply (bool_decide_unpack _)|by right| |apply Kp].
      rewrite (pa_rip _ _ P) in S. exact S.
    + destruct (call_answered back dispatch tss cpu_id scancode n t k _ c2 (proj1 S)) as (k'' & t'' & E' & N'); [|by apply (pa_rax _ _ P)|done|done|].
      * apply (cf_user _ _ _ _ _ _ _ _ (pa_conf _ _ P)).
      * rewrite Ed in E'. injection E' as <- <-. exact N'.
  - destruct (IH Hn) as [[i P] [N1 N2 N3 N4]]. split; [|by split; rewrite ?Hk1, ?Hk2].
    exists i. eapply (program_served v error i i c); [done|apply P|by left| |apply Kp].
    assert (set_rip (USER_CODE_VA + i) c = c) as -> by (rewrite <- (pa_rip _ _ P); by destruct c). exact S.
Qed.

End Program.

(** ** From create_user_process on *)

Section Runs.
Context {F : Type} {FO : FrameSourceOps F} {FS : FrameSource F}.
Context (frame_pool : Z).
Context (code : Z -> option block).
Context (isr : Z -> Z) (isr_common_stub back dispatch idt gdt tss sp0 : Z).
Context (code_ok : loaded code (isr_blocks isr isr_common_stub back dispatch)).
Context (common_ok : 0 <= isr_common_stub < 2 ^ 64) (dispatch_ok : 0 <= dispatch < 2 ^ 64)
        (back_ok : 0 <= back < 2 ^ 64).

(** C12: the process of [create_user_process], entered by [enter_usermode] at the address
    and with the stack of [user_thread_entry], runs [user_program].  However it is
    interrupted, it never faults: in every state it reaches its next instruction can be
    executed in ring 3, or is the [int 0x80], which is taken through gate and stub into
    [interrupt_dispatch] with RAX = 1; the dispatcher returns, and when it has returned
    the program goes on.  After [n] calls (fewer than 2^32) the handler has counted [n],
    has reported every 300000th, beginning with the first, and has noted once that the
    caller runs in ring 3. *)
Theorem user_program_runs nxt cpu_id (p p' : paging F) pds K f4 f3 fc fs fd ft rest t0 c (k0 : kernel F) :
  let s := user_space K f4 f3 fc fs fd ft in
  let prot := protected idt gdt tss s (pds.*2) in
  kmap frame_pool p pds K -> pd_of pds 1 = None ->
  avail frame_pool p = [f4; f3; fc; fs; fd; ft] ++ rest -> Forall frame_ok [f4; f3; fc; fs; fd; ft] ->
  create_user_process frame_pool p = Done f4 p' t0 ->
  apart ((fc, 4096) :: prot) (kstack sp0 - 184) 184 -> 184 <= kstack sp0 <= 2 ^ 64 - 16 ->
  before_ring3 idt gdt tss isr sp0 prot (sp_tables s ++ pds.*2) (p_mem p') f4 c ->
  same_on fc (fc + 4096) (p_mem p') (ram c) -> disjoint_range (gpr c RSP - 40) 40 fc 4096 ->
  gpr c RDI = USER_CODE_VA -> gpr c RSI = USER_STACK_TOP -> call_count k0 = 0 -> shown k0 = false ->
  exists c0, exec enter_usermode_code nxt c = Some c0 /\ rip c0 = USER_CODE_VA /\
    forall n t u k, run code back dispatch idt gdt tss K f4 f3 fc fs fd ft (pds.*2) cpu_id c0 k0 n t u k ->
      Z.of_nat n < 2 ^ 32 - 1 ->
      counted n t k /\ cpl u = 3 /\ exists i, i ∈ points /\ rip u = USER_CODE_VA + i /\
        (i <> 10 -> exists u', user_step u = Some u' /\ user_insn u u' /\ rip u' = USER_CODE_VA + after i) /\
        (i = 10 -> exists c1 c2, gpr u RAX = 1 /\ gpr u RDI = 0x58 /\ user_code u = Some (UInt 0x80, 2) /\
          int_n idt tss 0x80 (rip u + 2) u = Some c1 /\ reaches code c1 c2 /\ rip c2 = dispatch /\
          forall scancode, exists k' t', interrupt_dispatch cpu_id scancode (gpr c2 RDI) (kmem (ram c2) k) = Done tt k' t' /\
            forall c3, abi_return (kstack sp0) c2 c3 ->
              keeps_program idt gdt tss K f4 f3 fc fs fd ft (pds.*2) c2 c3 ->
              exists c4, reaches code c3 c4 /\ rip c4 = USER_CODE_VA + after i /\
                run code back dispatch idt gdt tss K f4 f3 fc fs fd ft (pds.*2) cpu_id c0 k0 (S n) (t ++ t') c4 k').
Proof.
  intros s prot Hk Hno V Hok E Hst Hst' B Hcode Hd Hrdi Hrsi Hc0 Hs0.
  destruct (create_user_process_spec _ _ _ _ _ _ _ _ _ _ _ Hk Hno V Hok) as (q & E' & _ & _ & _ & Hs & Hprog).
  rewrite E in E'. injection E' as <- _. fold s in Hs.
  pose proof (process_tables frame_pool p pds K f4 f3 fc fs fd ft rest Hk V Hok) as Haligned.
  destruct (enter_confined idt gdt tss isr sp0 nxt (p_mem p') s (pds.*2) c B Hs Haligned) as (c0 & E0 & R1 & R2 & R3 & C0 & M0).
  exists c0. split; [done|]. split; [by rewrite R1|]. intros n t u k Hr Hn.
  assert (program_at isr idt gdt tss sp0 K f4 f3 fc fs fd ft (pds.*2) 0 c0) as P0.
  { split; [by apply (bool_decide_unpack _)|done| |by rewrite R1, Hrdi|by rewrite R2|lia|lia].
    intros i b Hi. rewrite <- (Hprog i b Hi). apply load_ext. intros x Hx.
    pose proof (lookup_lt_Some _ _ _ Hi) as Hl. cbn in Hl. unfold disjoint_range in Hd.
    rewrite M0, (Hcode x) by lia. done. }
  destruct (run_inv code isr back dispatch idt gdt tss sp0
    K f4 f3 fc fs fd ft (pds.*2) cpu_id Hst c0 k0 n t u k P0 Hc0 Hs0 Hr ltac:(lia)) as [[i P] N].
  pose proof (pa_conf _ _ _ _ _ _ _ _ _ _ _ _ _ _ _ P) as C.
  split; [done|]. split; [unfold cpl; by rewrite (cf_mode _ _ _ _ _ _ _ _ C), (proj1 (cf_user _ _ _ _ _ _ _ _ C))|].
  exists i. split; [by eapply pa_point|]. split; [by eapply pa_rip|]. split.
  { intros Hne. edestruct program_user_step as (u' & H1 & H2 & P'); [done..|]. exists u'.
    split_and!; [done..|]. by eapply pa_rip. }
  intros ->.
  assert (user_code u = Some (insn_at 10)) as Ec by by eapply program_code.
  assert (0 <= rip u + 2 < 2 ^ 64) as Hb by (rewrite (pa_rip _ _ _ _ _ _ _ _ _ _ _ _ _ _ _ P); unfold USER_CODE_VA; lia).
  pose proof (confined_set_rip _ _ _ _ _ _ _ _ _ C Hb) as C'.
  pose proof Hst as Hap. apply Forall_cons in Hap as [_ Hap].
  destruct (confined_served code isr back dispatch idt gdt tss sp0
    s (pds.*2) Hap Hst' isr_common_stub code_ok common_ok dispatch_ok back_ok 128 0 _ C') as (c1 & c2 & D1 & D2 & D3 & D4); [|lia|].
  { split; apply (bool_decide_unpack _); vm_compute; exact I. }
  assert (int_n idt tss 0x80 (rip u + 2) u = Some c1) as Ei.
  { rewrite <- D1. by eapply confined_int. }
  exists c1, c2. split_and!; try done; [by apply (pa_rax _ _ _ _ _ _ _ _ _ _ _ _ _ _ _ P)|
    by apply (pa_rdi _ _ _ _ _ _ _ _ _ _ _ _ _ _ _ P)|apply D3|]. intros scancode.
  pose proof (confined_stack _ _ _ _ _ _ _ _ C') as Hks. rewrite <- Hks in D3.
  destruct (call_answered back dispatch tss cpu_id scancode n t k _ c2 D3 (cf_user _ _ _ _ _ _ _ _ C))
    as (k' & t' & Ed & _); [by apply (pa_rax _ _ _ _ _ _ _ _ _ _ _ _ _ _ _ P)|done|lia|].
  exists k', t'. split; [done|]. intros c3 A Kp. destruct (D4 c3 A (proj1 Kp)) as (c4 & S).
  pose proof S as (_ & _ & _ & S1 & S2). exists c4. split; [done|]. split.
  { rewrite (rs_rip _ _ _ S2). cbn [set_rip rip]. by rewrite (pa_rip _ _ _ _ _ _ _ _ _ _ _ _ _ _ _ P). }
  eapply run_call; [exact Hr|exact Ec|exact Ei|exact D2|exact Ed|exact S|exact Kp].
Qed.
End Runs.

(** ** In the demo tables of [Ring3] *)

(** The first three instructions: the registers are loaded, the call is answered. *)
Lemma user_program_runs_witness : exists (p' : paging memmap) c0 u1 u c1 c2 k t,
  exec enter_usermode_code 0 (demo_caller p') = Some c0 /\ user_step c0 = Some u1 /\ user_step u1 = Some u /\
  rip u = 0x5000000A /\ gpr u RAX = 1 /\ gpr u RDI = 88 /\
  int_n 0x120000 0x4000 0x80 0x5000000C u = Some c1 /\ reaches (program demo_isr_blocks) c1 c2 /\ rip c2 = 0x103000 /\
  interrupt_dispatch 0 0 (gpr c2 RDI) (kmem (ram c2) (kernel_ex p' (fun _ => 0))) = Done tt k t.
Proof.
  destruct demo_process_created as (p & p' & rest & Hk & V & Hok & E & Hs).
  destruct (user_program_runs demo_pool (program demo_isr_blocks) demo_isr 0x102000 0x102040 0x103000
    0x120000 0x3000 0x4000 0x9000 demo_isr_loaded ltac:(lia) ltac:(lia) ltac:(lia) 0 0%nat p p' _ _ _ _ _ _ _ _ _ _
    (demo_caller p') (kernel_ex p' (fun _ => 0)) Hk eq_refl V Hok E) as (c0 & E0 & R0 & H).
  - change (kstack 0x9000) with 0x9000. apply Forall_cons. split; [unfold disjoint_range; cbn; lia|].
    apply demo_apart; lia.
  - change (kstack 0x9000) with 0x9000. lia.
  - apply demo_before.
  - intros x Hx. symmetry. apply demo_mem_high. lia.
  - unfold disjoint_range. cbn. lia.
  - reflexivity.
  - reflexivity.
  - reflexivity.
  - reflexivity.
  - pose proof (run_start (program demo_isr_blocks) 0x102040 0x103000 0x120000 0x3000 0x4000 identity_1gb
      0x403000 0x404000 0x405000 0x406000 0x407000 0x408000 [0x402000] 0%nat c0 (kernel_ex p' (fun _ => 0))) as S0.
    destruct (H _ _ _ _ S0 ltac:(lia)) as (_ & _ & i & _ & I0 & H0 & _). rewrite R0 in I0.
    assert (i = 0) as -> by lia. destruct (H0 ltac:(lia)) as (u1 & U1 & _ & I1).
    pose proof (run_user _ _ _ _ _ _ _ _ _ _ _ _ _ _ _ _ _ _ _ _ _ _ S0 U1) as S1.
    destruct (H _ _ _ _ S1 ltac:(lia)) as (_ & _ & i & _ & I2 & H1 & _). change (after 0) with 5 in I1.
    assert (i = 5) as -> by lia. destruct (H1 ltac:(lia)) as (u & U2 & _ & I3).
    pose proof (run_user _ _ _ _ _ _ _ _ _ _ _ _ _ _ _ _ _ _ _ _ _ _ S1 U2) as S2.
    destruct (H _ _ _ _ S2 ltac:(lia)) as (_ & _ & i & _ & I4 & _ & H2). change (after 5) with 10 in I3.
    assert (i = 10) as -> by lia. destruct (H2 eq_refl) as (c1 & c2 & A1 & A2 & _ & A3 & A4 & A5 & A6).
    destruct (A6 0) as (k & t & A7 & _). rewrite I3 in A3.
    exists p', c0, u1, u, c1, c2, k, t. split; [exact E0|]. split; [exact U1|]. split; [exact U2|]. split; [exact I3|].
    split; [exact A1|]. split; [exact A2|]. split; [exact A3|]. split; [exact A4|]. split; [exact A5|exact A7].
Defined.
